(* ===== verification/_CoqProject ===== *)
-Q . S2P
Prelude.v
Kernel.v
State.v
Sim.v
Pdma.v
PdmaSpec.v
UserRing.v
UserRingSpec.v
Gpio.v
GpioSpec.v
Exciter.v
Receiver.v
MockSpec.v
RfBlocks.v
TxRx.v
Ioctl.v
Block.v
IoctlSpec.v
Driver.v
Probe.v
Invariant.v
TxRxSpec.v
FaultSpec.v
Safety.v
Lifecycle.v
StateMachine.v
Termination.v
WorldSpec.v
SignalSpec.v
TxStream.v
Results.v
ProbeSpec.v
PdmaProbeSpec.v
Modules.v
Ieee.v
Dsp.v
DspSpec.v
Regs.v
Adf4351.v
Cmx991.v
RegsSpec.v
SynthSpec.v
MixerSpec.v
IeeeSpec.v
PllSpec.v
Library.v
LibrarySpec.v
RadioChips.v
Print.v
LibraryDriver.v
RadioSpec.v
SynthDriver.v
TuneSpec.v
ParamSpec.v
