(* ===== verification/Prelude.v ===== *)
(** * Whitebox: a verification library for a software-defined radio

    Whitebox is a handheld radio on a SmartFusion part: an FPGA holds an exciter and a
    receiver, a Linux kernel driver moves samples between them and user space by
    peripheral DMA, and a C library tunes the radio through that driver.  This library
    models the two kernel drivers ([src/driver]), the C core of the user library
    ([src/lib/whitebox.c], [src/lib/dsp.c]) and the C the build generates for the two
    synthesizers ([src/util/genregs.py], [src/lib/*.regs], [src/lib/*.tmpl]), and proves
    what makes them correct.

    ** The program

    A program writes samples with [write] or through a mapping into the ring of the
    user source; [tx_exec] starts DMA transfers from the ring to the exciter, two at
    most at a time, and the interrupt of the controller gives the room back and wakes
    the writer.  Receiving is the mirror image: [rx_exec] fills the ring of the user
    sink from the receiver, and [read] empties it.  Control requests ([ioctl]) set the
    registers of both radios, program the two synthesizers over bit-banged serial buses
    and load the filter.  A mock exciter and a mock receiver, joined by a ring, stand
    for the hardware behind the same tables of operations.  The library turns
    frequencies, gains and corrections into control requests.

    ** How the code is modelled

    C integers are [Z], with every narrowing written out ([u8] to [s64] below).  A
    function that touches globals or hardware is a computation of the monad [M] over an
    explicit state; it returns, crashes (an access outside an object, an unset
    variable, an undefined conversion, [BUG()]) or is still spinning when the fuel of a
    waiting loop is spent.  Floats are the exact formats of the Standard Library's
    [SpecFloat].  What is not code of the repository is an interface: the kernel and
    the memory-mapped hardware ([Kernel], [Platform]), the circular-buffer and request
    code macros ([CircMacros], [IoctlMacros], with their laws), and for the library the
    files of the system and libm.
    An interface gives each service its result and the next world and assumes nothing
    else, so theorems hold for every behaviour of the hardware, of signals and of
    interrupts, which are taken where the code may be preempted; the few theorems that
    need a law of the world say so with a class ([Traced]: outputs are recorded;
    [ByteMemory]: copies copy; [PinScript]: input pins follow a script; [Ledger]:
    resources are counted; [Registers], [UserMemory], [UserSteady]: registers and user
    memory keep what is written).  [Sim.v] is one executable kernel with all the laws; witnesses
    evaluate on it.

    ** The files, and the code they model

    - [Prelude.v]: C integers, record update, the monad and its Hoare logics (partial,
      total, and symbolic execution), generic lemmas.  [Kernel.v]: the interfaces.
      [State.v]: the structures of [whitebox.h], [whitebox_block.h], [pdma.c] as records,
      the module's parameters, and access to them.  [Sim.v]: the concrete kernel.
    - [Pdma.v] ([pdma.c], [pdma.h]): channels, interrupt handler, snapshots.
    - [UserRing.v] ([whitebox_user_source.c], [whitebox_user_sink.c]): the two rings.
    - [Gpio.v] ([whitebox_gpio.c]): pins and serial buses.
    - [Exciter.v], [Receiver.v] ([whitebox_exciter.c], [whitebox_receiver.c]): register
      files, mocks, operation tables.
    - [RfBlocks.v] ([whitebox_rf_sink.c], [whitebox_rf_source.c]): the radio's end of the
      data paths, with its two DMA slots.
    - [TxRx.v] ([whitebox_tx.c], [whitebox_rx.c]): starting, moving data, stopping, errors.
    - [Ioctl.v] ([whitebox_driver.c], [whitebox_ioctl.h]): the 21 control requests.
    - [Driver.v] ([whitebox_driver.c]): open, release, read, write, fsync, poll, mmap and
      the statistics files.  [Probe.v]: probe and remove of both drivers.
    - [Ieee.v], [Dsp.v] ([lib/dsp.c]), [Library.v] ([lib/whitebox.c], [lib/whitebox.h]).
    - [Regs.v] ([util/genregs.py] and the loops of the templates): what is generated from a
      list of register fields, as folds over the list.  [Adf4351.v], [Cmx991.v]
      ([lib/adf4351.regs], [lib/adf4351_impl.c.tmpl], [lib/cmx991.regs],
      [lib/cmx991_impl.c.tmpl]): both lists and the functions of both chips, the choice of
      their dividers included.  The library uses them through the class [Chips] of
      [Library.v], whose instance is in [RadioChips.v].
    - [Modules.v] ([pdma.c], [whitebox_driver.c]): loading and unloading both modules, over
      an interface of the kernel's register of drivers and devices ([Registry]).
    - [Print.v] ([lib/whitebox.c], [util/genregs.py]): the text of what is printed to a
      file, and the heap calls of the library.
    - The other files hold lemmas and theorems, as below.

    ** What the theorems show

    - Safety ([Invariant.v], [Safety.v], [Lifecycle.v]): an invariant of the open device
      kept by every operation, request and interrupt, so that no sequence of operations
      after a probe leaves an array, calls an empty table or uses an unset variable; open
      and release are exclusive.  [StateMachine.v]: the states each operation can reach.
    - Termination and answers ([Termination.v], [Results.v]): the steps that do not wait
      return, with the stated fuel; which values each operation can answer.
      [SignalSpec.v]: when a signal comes sooner or later (the class [Signals], a budget of
      sleeps), every wait that sleeps or takes the semaphore ends; the first wait of a
      blocking read is not one of them.  [WorldSpec.v]: a relation between worlds kept by the
      few calls the paths make is kept by the paths.
    - The DMA driver ([PdmaSpec.v]): its invariant, starting a transfer, and the
      refinement of a channel by a queue of two transfers; requests and releases; the
      snapshots.
    - The rings ([UserRingSpec.v]), the mocks ([MockSpec.v]) and the data paths
      ([TxRxSpec.v], [FaultSpec.v]): each ring refines a queue of bytes; what one step of
      a path does on each branch; which faults are reported; when transmission stops.
      [TxStream.v]: the transmit path on the FPGA as a stream: any order of writes, steps and
      interrupts sends what was written, in order and once; bytes in flight stay as they are
      while the writer spares them.
    - The serial buses ([GpioSpec.v]) and the requests ([IoctlSpec.v]): models of the
      chips' shift registers latch the words sent; the dispatch is by code; setting the
      synthesizers sends what changed, in order.
    - Probe and remove ([ProbeSpec.v], [PdmaProbeSpec.v]): accounts of every resource on
      every failure path; a probed device satisfies the invariant of a closed one.
      [Modules.v]: what loading leaves registered on each path, and that unloading gives it
      back.
    - The library ([LibrarySpec.v], [LibraryDriver.v]): round trips of settings and filter
      against a contract of the device, which the driver's model honours; waiting for
      lock.  [TuneSpec.v]: tuning makes its requests in order and stops at the first that
      is refused.  [ParamSpec.v]: a parameter of the module set as text is got back, which
      rests on printing and reading decimals.  Tones ([DspSpec.v]): the synthesizer is its
      closed form.
    - The synthesizers ([RegsSpec.v], [SynthSpec.v]): for any list of fields that do not
      overlap, loading undoes packing; both chips' words and bytes round trip and every
      operation keeps the members in range.  [IeeeSpec.v]: floats that hold integers, on
      which operations of the format are exact.  [PllSpec.v]: the ADF4351 is tuned to
      within a step.  [MixerSpec.v]: the CMX991's dividers, and the search that forgets
      what it found.
    - Tuning end to end ([RadioSpec.v], [SynthDriver.v]): against a contract of the device
      ([SynthContract]), [whitebox_tx] and [whitebox_rx] leave both chips as asked for; the
      driver honours the contract from every state of an open device, so the library's
      tuning through the driver's requests reaches the driver's copies of the chips.

    ** Bounds and fuel

    Rings have a power of two of bytes, from 4 to a gigabyte; both are what the module's
    orders of pages give.  [tx_exec] and [rx_exec] call themselves again only when a
    transfer ended at once, which no block of the repository does: [exec_fuel] is 1 and
    [steps_return] shows it is enough.  Loops that wait for the hardware or for another
    process ([stop_loop], [wait_event_interruptible] and the loops around them) take
    their fuel as an argument; theorems hold for every fuel.  The library polls for lock
    a thousand times, as written.  [digits] writes at most ten digits, those of 32 bits.
    [raise_vco] doubles thirty times at most, after which the divider is no [int] any more;
    the two loops of the CMX991's search run as often as written.

    ** Not modelled

    [gnuradio_peripheral.c] is an unfinished daemon, whose main returns before its loop.
    Messages to the kernel's log are modelled only where their arguments have effects.
    Binding a driver to its device, which the kernel does when both are registered, is not
    a step of the model: probe and remove are started by it at any time.  The radio server
    and the modems are C++; cJSON, libwebsockets and zlib are copies of third-party code;
    the FPGA design is Python and generated Verilog; tests, tools and pages are left aside.

    ** Plan

    What could follow: progress of a blocking [write] under interrupts that complete the
    transfers, without a signal; the receive path as a stream, for the one transfer at a time
    that it serves correctly. *)

From stdpp Require Export base tactics numbers list list_numbers strings.
From Stdlib Require Export ZArith Lia.

#[global] Open Scope Z_scope.
#[global] Set Default Goal Selector "!".
#[global] Arguments Z.eqb : simpl nomatch.
#[global] Arguments Z.ltb : simpl nomatch.
#[global] Arguments Z.leb : simpl nomatch.
#[global] Arguments Z.land : simpl never.
#[global] Arguments Z.lor : simpl never.
#[global] Arguments Z.lnot : simpl never.
#[global] Arguments Z.shiftl : simpl never.
#[global] Arguments Z.shiftr : simpl never.
#[global] Arguments Z.add : simpl never.
#[global] Arguments Z.sub : simpl never.
#[global] Arguments Z.mul : simpl never.
#[global] Arguments Z.opp : simpl never.
#[global] Arguments Z.pow : simpl never.
#[global] Arguments Z.modulo : simpl never.
#[global] Arguments Z.div : simpl never.

(** ** C integer operations

    A C integer is a [Z]; a conversion to a width-[w] type is the wrap-around
    written out.  Bit operations are those of [Z] in two's complement, with
    C-like notations in [c_scope]. *)

Declare Scope c_scope.
Delimit Scope c_scope with c.
#[global] Open Scope c_scope.

Notation "x &&& y" := (Z.land x y) (at level 40, left associativity) : c_scope.
Notation "x ||| y" := (Z.lor x y) (at level 50, left associativity) : c_scope.
Notation "x <<< n" := (Z.shiftl x n) (at level 38, left associativity) : c_scope.
Notation "x >>> n" := (Z.shiftr x n) (at level 38, left associativity) : c_scope.
Notation "~: x" := (Z.lnot x) (at level 30, right associativity) : c_scope.

Definition u8 (x : Z) : Z := x mod 2 ^ 8.
Definition u16 (x : Z) : Z := x mod 2 ^ 16.
Definition u32 (x : Z) : Z := x mod 2 ^ 32.
Definition s16 (x : Z) : Z := (x + 2 ^ 15) mod 2 ^ 16 - 2 ^ 15.
Definition s32 (x : Z) : Z := (x + 2 ^ 31) mod 2 ^ 32 - 2 ^ 31.
Definition s64 (x : Z) : Z := (x + 2 ^ 63) mod 2 ^ 64 - 2 ^ 63.

(** C truth of an integer. *)
Definition nz (x : Z) : bool := negb (x =? 0).

(** ** Record update

    [r <| f := v |>] replaces one field.  A record opts in with an [Eta]
    instance, its own eta expansion; the updater of each field is then computed
    from it by abstracting that field. *)

Class Eta (R : Type) := eta : R → R.
Class Upd {R T : Type} (f : R → T) := upd : (T → T) → R → R.
#[global] Hint Mode Upd - - ! : typeclass_instances.

Ltac solve_upd :=
  match goal with
  | |- @Upd ?R ?T ?f =>
      let e := constr:(_ : Eta R) in
      let F := constr:(fun r : R => ltac:(
        let b := eval hnf in (e r) in
        let p := eval pattern (f r) in b in
        lazymatch p with ?G _ => exact G end)) in
      let F' := eval cbv beta in (fun (g : T → T) (r : R) => F r (g (f r))) in
      exact F'
  end.
#[global] Hint Extern 0 (Upd _) => solve_upd : typeclass_instances.

Notation "r <| f ::= g |>" := (upd (f := f) g r)
  (at level 1, left associativity, f at next level, g at level 200) : c_scope.
Notation "r <| f := v |>" := (upd (f := f) (fun _ => v) r)
  (at level 1, left associativity, f at next level, v at level 200) : c_scope.

(** ** Computations over a shared state

    A C function that touches the driver's globals or the hardware is a
    computation [M S A]: it returns with a value, crashes (an access the C code
    makes outside an object, the use of an uninitialised local, a conversion of a float
    that is undefined, or [BUG()]), or is still spinning when the fuel of a waiting loop
    runs out. *)

Inductive crash := OutOfBounds | NullDeref | KernelBug | Uninitialised | BadConversion.

Inductive outcome (S A : Type) : Type :=
| Done (a : A) (s : S)
| Crash (c : crash)
| Spinning.
Arguments Done {S A} a s.
Arguments Crash {S A} c.
Arguments Spinning {S A}.

Definition M (S A : Type) : Type := S → outcome S A.

Section monad.
Context {S : Type}.

#[global] Instance M_ret : MRet (M S) := λ A a s, Done a s.
#[global] Instance M_bind : MBind (M S) := λ A B f m s,
  match m s with
  | Done a s' => f a s'
  | Crash c => Crash c
  | Spinning => Spinning
  end.

Definition gets {A} (f : S → A) : M S A := λ s, Done (f s) s.
Definition modify (f : S → S) : M S () := λ s, Done () (f s).
Definition fail_with {A} (c : crash) : M S A := λ _, Crash c.
Definition spin {A} : M S A := λ _, Spinning.
Definition when (b : bool) (m : M S ()) : M S () :=
  if b then m else mret ().

(** The value of a C array element: reading outside the array is a crash. *)
Definition get_index {A} (l : list A) (i : Z) : M S A :=
  if decide (0 ≤ i) then
    match l !! Z.to_nat i with Some x => mret x | None => fail_with OutOfBounds end
  else fail_with OutOfBounds.

(** The C loop [for (i = a; i < a + n; ++i) body(i)]. *)
Fixpoint for_loop (n : nat) (a : Z) (body : Z → M S ()) : M S () :=
  match n with
  | O => mret ()
  | Datatypes.S n' => _ ← body a; for_loop n' (a + 1) body
  end.
End monad.

(** ** A Hoare logic for [M]

    [hoare P m Q]: from a state satisfying [P], [m] does not crash and, if it
    returns, the result and the new state satisfy [Q].  [total P m Q] also
    demands that it returns.  [keeps I m]: [m] preserves [I] and never crashes. *)

Definition post {S A} (Q : A → S → Prop) (o : outcome S A) : Prop :=
  match o with Done a s => Q a s | Crash _ => False | Spinning => True end.
Definition post_total {S A} (Q : A → S → Prop) (o : outcome S A) : Prop :=
  match o with Done a s => Q a s | _ => False end.

Definition hoare {S A} (P : S → Prop) (m : M S A) (Q : A → S → Prop) : Prop :=
  ∀ s, P s → post Q (m s).
Definition total {S A} (P : S → Prop) (m : M S A) (Q : A → S → Prop) : Prop :=
  ∀ s, P s → post_total Q (m s).
Definition keeps {S A} (I : S → Prop) (m : M S A) : Prop :=
  hoare I m (λ _, I).

Create HintDb keeps discriminated.

Section hoare.
Context {S : Type}.
Implicit Types (I P : S → Prop).

Lemma post_mono {A} (Q Q' : A → S → Prop) (o : outcome S A) :
  (∀ a s, Q a s → Q' a s) → post Q o → post Q' o.
Proof. destruct o; cbn; auto. Qed.

Lemma post_total_post {A} (Q : A → S → Prop) (o : outcome S A) :
  post_total Q o → post Q o.
Proof. destruct o; cbn; tauto. Qed.

Lemma post_bind {A B} (m : M S A) (f : A → M S B) Q s :
  post (λ a s', post Q (f a s')) (m s) → post Q ((m ≫= f) s).
Proof. unfold mbind, M_bind. destruct (m s); cbn; tauto. Qed.

Lemma post_total_bind {A B} (m : M S A) (f : A → M S B) Q s :
  post_total (λ a s', post_total Q (f a s')) (m s) → post_total Q ((m ≫= f) s).
Proof. unfold mbind, M_bind. destruct (m s); cbn; tauto. Qed.

Lemma hoare_bind {A B} P (m : M S A) (R : A → S → Prop) (f : A → M S B) Q :
  hoare P m R → (∀ a, hoare (R a) (f a) Q) → hoare P (m ≫= f) Q.
Proof.
  intros Hm Hf s Hs. apply post_bind. specialize (Hm s Hs).
  destruct (m s); cbn in *; auto. by apply Hf.
Qed.

(** The result's property is extracted from the state's. *)
Lemma hoare_bind_pure {A B} P (m : M S A) (R : S → Prop) (C : A → Prop) (f : A → M S B) Q :
  hoare P m (λ a s, R s ∧ C a) → (∀ a, C a → hoare R (f a) Q) → hoare P (m ≫= f) Q.
Proof.
  intros Hm Hf. eapply hoare_bind; [exact Hm |]. intros a s [Hs Ha]. by apply Hf.
Qed.
Lemma hoare_bind_assoc {A B C} P (m : M S A) (f : A → M S B) (g : B → M S C) Q :
  hoare P ((m ≫= f) ≫= g) Q → hoare P (m ≫= λ a, f a ≫= g) Q.
Proof.
  intros H' s Hs. specialize (H' s Hs). unfold mbind, M_bind in *. by destruct (m s).
Qed.

Lemma hoare_conseq {A} P P' (m : M S A) (Q Q' : A → S → Prop) :
  hoare P m Q → (∀ s, P' s → P s) → (∀ a s, Q a s → Q' a s) → hoare P' m Q'.
Proof. intros H HP HQ s Hs. eapply post_mono; eauto. Qed.

Lemma hoare_exists {A X} (P : X → S → Prop) (m : M S A) Q :
  (∀ x, hoare (P x) m Q) → hoare (λ s, ∃ x, P x s) m Q.
Proof. intros Hm s [x Hs]. by apply (Hm x). Qed.
Lemma hoare_pure {A} (C : Prop) (P : S → Prop) (m : M S A) Q :
  (C → hoare P m Q) → hoare (λ s, C ∧ P s) m Q.
Proof. intros Hm s [HC Hs]. by apply Hm. Qed.

Lemma hoare_ret {A} (a : A) (Q : A → S → Prop) : hoare (Q a) (mret a) Q.
Proof. intros s Hs. exact Hs. Qed.

Lemma total_bind {A B} P (m : M S A) (R : A → S → Prop) (f : A → M S B) Q :
  total P m R → (∀ a, total (R a) (f a) Q) → total P (m ≫= f) Q.
Proof.
  intros Hm Hf s Hs. apply post_total_bind. specialize (Hm s Hs).
  destruct (m s); cbn in *; [by apply Hf | done..].
Qed.
Lemma total_ret {A} P (a : A) (Q : A → S → Prop) : (∀ s, P s → Q a s) → total P (mret a) Q.
Proof. intros HQ s Hs. by apply HQ. Qed.
Lemma total_gets {A B} P (f : S → A) (k : A → M S B) Q :
  (∀ v, total (λ s, P s ∧ f s = v) (k v) Q) → total P (a ← gets f; k a) Q.
Proof. intros Hk s Hs. by apply (Hk (f s)). Qed.
Lemma total_conseq {A} P P' (m : M S A) (Q Q' : A → S → Prop) :
  total P m Q → (∀ s, P' s → P s) → (∀ a s, Q a s → Q' a s) → total P' m Q'.
Proof.
  intros Hm HP HQ s Hs. specialize (Hm s (HP s Hs)). destruct (m s); cbn in *; [by apply HQ | done..].
Qed.
(** The result's property is extracted from the state's. *)
Lemma total_bind_pure {A B} P (m : M S A) (R : S → Prop) (C : A → Prop) (f : A → M S B) Q :
  total P m (λ a s, R s ∧ C a) → (∀ a, C a → total R (f a) Q) → total P (m ≫= f) Q.
Proof. intros Hm Hf. eapply total_bind; [exact Hm |]. intros a s [Hs Ha]. by apply Hf. Qed.

Lemma keeps_post {A} I (m : M S A) s : keeps I m → I s → post (λ _, I) (m s).
Proof. intros H. apply H. Qed.

Lemma keeps_ret {A} I (a : A) : keeps I (mret a).
Proof. intros s Hs. exact Hs. Qed.

Lemma keeps_bind {A B} I (m : M S A) (f : A → M S B) :
  keeps I m → (∀ a, keeps I (f a)) → keeps I (m ≫= f).
Proof. intros. by eapply hoare_bind. Qed.

Lemma keeps_gets {A} I (f : S → A) : keeps I (gets f).
Proof. intros s Hs. exact Hs. Qed.

Lemma keeps_modify I (f : S → S) : (∀ s, I s → I (f s)) → keeps I (modify f).
Proof. intros H s Hs. by apply H. Qed.

Lemma keeps_spin {A} I : keeps I (spin (A := A)).
Proof. intros s Hs. exact Logic.I. Qed.

Lemma keeps_if {A} I (b : bool) (m m' : M S A) :
  keeps I m → keeps I m' → keeps I (if b then m else m').
Proof. by destruct b. Qed.

Lemma keeps_when I (b : bool) (m : M S ()) : keeps I m → keeps I (when b m).
Proof. intros. apply keeps_if; [done | apply keeps_ret]. Qed.

Lemma keeps_for_loop I n a body :
  (∀ i, a ≤ i < a + Z.of_nat n → keeps I (body i)) → keeps I (for_loop n a body).
Proof.
  revert a. induction n as [|n IH]; intros a H; cbn; [apply keeps_ret |].
  apply keeps_bind; [apply H; lia |]. intros _. apply IH. intros i ?. apply H. lia.
Qed.
End hoare.

#[export] Hint Resolve keeps_ret keeps_gets keeps_spin : keeps.

(** Walk down a computation; the [keeps] database closes the leaves. *)
Ltac keeps_tac := cbv beta zeta;
  lazymatch goal with
  | |- keeps _ (mbind _ _) => apply keeps_bind; [keeps_tac | intros; keeps_tac]
  | |- keeps _ (when _ _) => apply keeps_when; keeps_tac
  | |- keeps _ (for_loop _ _ _) => apply keeps_for_loop; intros; keeps_tac
  | |- keeps _ (match ?x with _ => _ end) => destruct x; keeps_tac
  | |- _ => try solve [eauto 4 with keeps]
  end.

(** ** What a run does to the state, whatever it returns

    [within R m]: when [m] returns, the states before and after are related by the
    preorder [R].  Crashing and spinning are no matter here.  Recursive definitions have
    their lemma in the [within] database; [within_tac] unfolds the others. *)

Definition within {S A} (R : S → S → Prop) (m : M S A) : Prop := ∀ s a s', m s = Done a s' → R s s'.

Section within.
Context {S : Type} (R : S → S → Prop) `{!PreOrder R}.

Lemma within_bind {A B} (m : M S A) (k : A → M S B) :
  within R m → (∀ a, within R (k a)) → within R (m ≫= k).
Proof.
  intros Hm Hk s b s' Hr. unfold mbind, M_bind in Hr. destruct (m s) as [a s1 | |] eqn:E; [| done..].
  transitivity s1; [by apply (Hm _ a) | by apply (Hk a _ b)].
Qed.
Lemma within_ret {A} (a : A) : within R (mret a).
Proof. intros s b s' [= <- <-]. reflexivity. Qed.
Lemma within_gets {A} (g : S → A) : within R (gets g).
Proof. intros s b s' [= <- <-]. reflexivity. Qed.
Lemma within_modify (g : S → S) : (∀ s, R s (g s)) → within R (modify g).
Proof. intros Hg s a s' [= <- <-]. apply Hg. Qed.
Lemma within_fail {A} c : within R (fail_with (A := A) c).
Proof. done. Qed.
Lemma within_spin {A} : within R (spin (A := A)).
Proof. done. Qed.
Lemma within_get_index {A} (l : list A) i : within R (get_index l i).
Proof.
  intros s a s' Hr. unfold get_index in Hr. repeat case_match; try done. injection Hr as <- <-. reflexivity.
Qed.
Lemma within_for_loop n a (body : Z → M S ()) : (∀ i, within R (body i)) → within R (for_loop n a body).
Proof.
  intros Hb. revert a. induction n as [| n IH]; intros a; cbn [for_loop]; [apply within_ret |].
  apply within_bind; [apply Hb | intros; apply IH].
Qed.
End within.
Create HintDb within discriminated.
#[export] Hint Resolve within_ret within_gets within_fail within_spin within_get_index : within.
#[export] Hint Extern 1 (PreOrder _) => solve [typeclasses eauto] : within.
Ltac code_head t := lazymatch t with ?f _ => code_head f | ?f => f end.
Ltac within_tac := cbv beta zeta iota;
  first
  [ solve [eauto 3 with within nocore]
  | lazymatch goal with
    | |- within _ (mbind _ _) => apply within_bind; [typeclasses eauto | within_tac | intros; within_tac]
    | |- within _ (for_loop _ _ _) => apply within_for_loop; [typeclasses eauto | intros; within_tac]
    | |- within _ (modify _) => apply within_modify; intros; hnf; reflexivity
    | |- within _ (match ?x with _ => _ end) => destruct x; within_tac
    | |- within _ ?m => let h := code_head m in unfold h; within_tac
    end ].

(** The same value of a part of the state. *)
Definition same {S B} (f : S → B) (s s' : S) : Prop := f s = f s'.
#[global] Instance same_preorder {S B} (f : S → B) : PreOrder (same f).
Proof. split; [done | intros s1 s2 s3 H1 H2; unfold same in *; by rewrite H1]. Qed.

(** ** Symbolic execution

    [runs m s a s']: from [s] the computation returns [a] in [s'].  The [runs]
    database holds one lemma per primitive; [runs_tac] chains them. *)

Definition runs {S A} (m : M S A) (s : S) (a : A) (s' : S) : Prop := m s = Done a s'.

Create HintDb runs discriminated.

Section runs.
Context {S : Type}.

Lemma runs_ret {A} (a : A) (s : S) : runs (mret a) s a s.
Proof. done. Qed.
Lemma runs_bind {A B} (m : M S A) (f : A → M S B) s a s1 b s2 :
  runs m s a s1 → runs (f a) s1 b s2 → runs (m ≫= f) s b s2.
Proof. unfold runs, mbind, M_bind. by intros ->. Qed.
Lemma runs_gets {A} (f : S → A) (s : S) : runs (gets f) s (f s) s.
Proof. done. Qed.
Lemma runs_modify (f : S → S) (s : S) : runs (modify f) s () (f s).
Proof. done. Qed.
Lemma runs_when_true (m : M S ()) s s' : runs m s () s' → runs (when true m) s () s'.
Proof. done. Qed.
Lemma runs_when_false (m : M S ()) s : runs (when false m) s () s.
Proof. done. Qed.
Lemma runs_get_index {A} (l : list A) i x (s : S) :
  0 ≤ i → l !! Z.to_nat i = Some x → runs (get_index l i) s x s.
Proof. intros ? Hx. unfold runs, get_index. by rewrite decide_True, Hx. Qed.
Lemma runs_eq {A} (m : M S A) s a a' s1 s2 :
  runs m s a s1 → a = a' → s1 = s2 → runs m s a' s2.
Proof. by intros ? <- <-. Qed.
Lemma runs_post {A} (m : M S A) s a s' (Q : A → S → Prop) :
  runs m s a s' → Q a s' → post_total Q (m s).
Proof. unfold runs. by intros ->. Qed.
End runs.

#[export] Hint Resolve runs_ret runs_gets runs_modify runs_get_index : runs.

Ltac runs_norm := cbv beta zeta;
  repeat match goal with
  | |- runs (if ?b then _ else _) _ _ _ =>
      lazymatch eval cbn [negb andb orb] in b with
      | true => change (b) with true; cbv iota
      | false => change (b) with false; cbv iota
      end
  end.
Ltac runs_solve := runs_norm;
  lazymatch goal with
  | |- runs (mbind _ _) _ _ _ => eapply runs_bind; [runs_solve | runs_solve]
  | |- runs (when ?b _) _ _ _ =>
      lazymatch eval cbn [negb andb orb] in b with
      | true => apply runs_when_true; runs_solve
      | false => apply runs_when_false
      end
  | |- runs (mret _) _ _ _ => apply runs_ret
  | |- _ => solve [eauto with runs]
  end.
Ltac runs_step := runs_norm;
  lazymatch goal with
  | |- runs (mbind _ _) _ _ _ => eapply runs_bind; [runs_solve | runs_norm]
  end.
Ltac runs_tac := repeat runs_step; try runs_solve.

(** ** Lemmas on machine integers *)

Lemma u8_range x : 0 ≤ u8 x < 2 ^ 8.
Proof. apply Z.mod_pos_bound. lia. Qed.
Lemma u16_range x : 0 ≤ u16 x < 2 ^ 16.
Proof. apply Z.mod_pos_bound. lia. Qed.
Lemma u32_range x : 0 ≤ u32 x < 2 ^ 32.
Proof. apply Z.mod_pos_bound. lia. Qed.
Lemma u16_small x : 0 ≤ x < 2 ^ 16 → u16 x = x.
Proof. apply Z.mod_small. Qed.
Lemma u32_small x : 0 ≤ x < 2 ^ 32 → u32 x = x.
Proof. apply Z.mod_small. Qed.

Lemma s32_small x : - 2 ^ 31 ≤ x < 2 ^ 31 → s32 x = x.
Proof. intros. unfold s32. rewrite Z.mod_small; lia. Qed.
Lemma s64_small x : - 2 ^ 63 ≤ x < 2 ^ 63 → s64 x = x.
Proof. intros. unfold s64. rewrite Z.mod_small; lia. Qed.

Lemma land_ones_low x k : 0 ≤ k → x &&& (2 ^ k - 1) = x mod 2 ^ k.
Proof.
  intros. replace (2 ^ k - 1) with (Z.ones k) by (rewrite Z.ones_equiv; lia).
  by apply Z.land_ones.
Qed.

(** Clearing the two low bits rounds down to a multiple of four. *)
Lemma land_not3 x : x &&& ~: 3 = 4 * (x / 4).
Proof.
  change 3 with (Z.ones 2). rewrite <- Z.ldiff_land.
  rewrite Z.ldiff_ones_r by lia.
  rewrite Z.shiftr_div_pow2, Z.shiftl_mul_pow2 by lia. change (2 ^ 2) with 4. lia.
Qed.

(** The driver's ring mask [buf_size - 4] wraps and rounds down to a word. *)
Lemma land_word_mask x k :
  2 ≤ k → x &&& (2 ^ k - 4) = 4 * ((x mod 2 ^ k) / 4).
Proof.
  intros Hk.
  assert (2 ^ k - 4 = Z.ldiff (Z.ones k) (Z.ones 2)) as ->.
  { rewrite <- Z.sub_nocarry_ldiff.
    - rewrite Z.ones_equiv. change (Z.ones 2) with 3. lia.
    - apply Z.bits_inj'. intros n Hn. rewrite Z.ldiff_spec, Z.bits_0.
      destruct (decide (n < 2)).
      + rewrite (Z.ones_spec_low k) by lia. apply andb_false_r.
      + by rewrite Z.ones_spec_high by lia. }
  rewrite Z.ldiff_land, Z.land_assoc, <- Z.ldiff_land, Z.land_ones by lia.
  rewrite Z.ldiff_land. apply land_not3.
Qed.

Lemma word_mask_aligned x k :
  2 ≤ k → x mod 4 = 0 → x &&& (2 ^ k - 4) = x mod 2 ^ k.
Proof.
  intros Hk Hx. rewrite land_word_mask by done.
  assert (2 ^ k = 4 * 2 ^ (k - 2)) as HK.
  { replace k with (2 + (k - 2)) at 1 by lia. rewrite Z.pow_add_r by lia. lia. }
  rewrite HK at 2.
  assert ((x mod 2 ^ k) mod 4 = 0).
  { rewrite HK. rewrite Z.rem_mul_r by lia. rewrite Hx.
    rewrite Z.add_0_l, Z.mul_comm. apply Z.mod_mul. lia. }
  rewrite <- HK. pose proof (Z.div_mod (x mod 2 ^ k) 4). lia.
Qed.

(** A claim about the first [n] numbers, by running through them. *)
Lemma below_forall n (P : Z → bool) :
  forallb P (seqZ 0 n) = true → ∀ e, 0 ≤ e < n → P e = true.
Proof.
  intros HP e He. rewrite forallb_forall in HP. apply HP, list_elem_of_In, elem_of_seqZ. lia.
Qed.

(** Writing a run of elements from the index [i] on. *)
Definition overwrite {A} (i : nat) (l dst : list A) : list A :=
  take i dst ++ l ++ drop (i + length l) dst.
Lemma overwrite_nil {A} i (dst : list A) : overwrite i [] dst = dst.
Proof. unfold overwrite. cbn. rewrite Nat.add_0_r. apply take_drop. Qed.
Lemma overwrite_cons {A} i x (l dst : list A) :
  (i < length dst)%nat → overwrite (S i) l (<[i := x]> dst) = overwrite i (x :: l) dst.
Proof.
  intros Hi. unfold overwrite. rewrite (take_S_r _ _ x) by (by rewrite list_lookup_insert_eq).
  rewrite take_insert_ge, drop_insert_lt, <- app_assoc by lia. cbn [app length].
  by rewrite Nat.add_succ_r.
Qed.
Lemma overwrite_0 {A} (l dst : list A) : overwrite 0 l dst = l ++ drop (length l) dst.
Proof. done. Qed.
Lemma take_overwrite {A} (l dst : list A) n : length l = n → take n (overwrite 0 l dst) = l.
Proof. intros <-. rewrite overwrite_0. apply take_app_length. Qed.
Lemma length_overwrite {A} i (l dst : list A) :
  (i + length l ≤ length dst)%nat → length (overwrite i l dst) = length dst.
Proof. intros. unfold overwrite. rewrite !length_app, length_take, length_drop. lia. Qed.

(** Fields of a word. *)
Lemma land_shifted a b k : 0 ≤ a < 2 ^ k → 0 ≤ k → a &&& (b <<< k) = 0.
Proof.
  intros Ha Hk. apply Z.bits_inj'. intros n Hn. rewrite Z.land_spec, Z.bits_0.
  destruct (decide (n < k)); [by rewrite Z.shiftl_spec_low, andb_false_r by lia |].
  destruct (decide (a = 0)) as [-> |]; [by rewrite Z.bits_0 |].
  rewrite (Z.bits_above_log2 a n); [done | lia |].
  apply Z.log2_lt_pow2; [lia |]. pose proof (Z.pow_le_mono_r 2 k n). lia.
Qed.
Lemma lor_shifted a b k : 0 ≤ a < 2 ^ k → 0 ≤ k → a ||| (b <<< k) = a + b * 2 ^ k.
Proof.
  intros Ha Hk. rewrite <- Z.shiftl_mul_pow2 by done. pose proof (land_shifted a b k Ha Hk).
  rewrite <- Z.lxor_lor by done. symmetry. by apply Z.add_nocarry_lxor.
Qed.
Lemma low_field a b k : 0 ≤ a < 2 ^ k → 0 ≤ k → (a + b * 2 ^ k) &&& (2 ^ k - 1) = a.
Proof.
  intros Ha Hk. rewrite land_ones_low, Z_mod_plus_full by done. by apply Z.mod_small.
Qed.
Lemma high_field a b k : 0 ≤ a < 2 ^ k → 0 ≤ k → (a + b * 2 ^ k) >>> k = b.
Proof.
  intros Ha Hk. rewrite Z.shiftr_div_pow2, Z_div_plus_full, Z.div_small by lia. lia.
Qed.
(** A mask that fits in a word sees only the word. *)
Lemma land_mod_mask x m k : 0 ≤ m < 2 ^ k → 0 ≤ k → (x mod 2 ^ k) &&& m = x &&& m.
Proof.
  intros Hm Hk. rewrite <- land_ones_low by done. rewrite <- Z.land_assoc. f_equal.
  rewrite Z.land_comm, land_ones_low by done. by apply Z.mod_small.
Qed.

(** The function at the head of an application, to be unfolded. *)
