(* ===== verification/Kernel.v ===== *)
(** * The kernel and the hardware under the driver

    Nothing here is code of the repository.  [Kernel W] is the interface of the
    Linux services and of the memory-mapped hardware the driver calls, over an
    abstract world [W]: every service gives its result and the next world, so a
    register may change between two reads, a lock may be contended and a signal
    may arrive.  [CircMacros] is the interface of the [CIRC_*] macros of
    [linux/circ_buf.h], with the documented meaning of each as a law, and an
    instance that discharges the laws. *)

From S2P Require Import Prelude.

(** Error numbers of the Linux ABI that the driver returns negated. *)
Definition ENOENT : Z := 2.
Definition EIO : Z := 5.
Definition ENXIO : Z := 6.
Definition EAGAIN : Z := 11.
Definition ENOMEM : Z := 12.
Definition EACCES : Z := 13.
Definition EFAULT : Z := 14.
Definition EBUSY : Z := 16.
Definition EINVAL : Z := 22.
Definition EBADFD : Z := 77.
Definition ERESTARTSYS : Z := 512.

(** Event bits of the [poll] interface. *)
Definition POLLIN : Z := 1.
Definition POLLOUT : Z := 4.
Definition POLLERR : Z := 8.
Definition POLLRDNORM : Z := 64.
Definition POLLWRNORM : Z := 256.

Inductive lock := pdma_lock | rf_sink_lock | rf_source_lock.
Inductive wait_queue := write_wait_queue | read_wait_queue.
Inductive dma_dir := DMA_TO_DEVICE | DMA_FROM_DEVICE.
#[global] Instance lock_eq_dec : EqDecision lock.
Proof. solve_decision. Defined.

Class Kernel (W : Type) := {
  (** size of a page; address of a system register of the part *)
  k_PAGE_SIZE : Z;
  k_PAGE_SHIFT : Z;
  k_M2S_SYSREG_soft_reset_cr : Z;
  (** volatile 32-bit load and store at a bus address *)
  k_readl : Z → W → Z * W;
  k_writel : Z → Z → W → W;
  (** spin locks: the saved interrupt flags are a value *)
  k_spin_lock_init : lock → W → W;
  k_spin_lock_irqsave : lock → W → Z * W;
  k_spin_trylock_irqsave : lock → W → option Z * W;
  k_spin_unlock_irqrestore : lock → Z → W → W;
  (** the device semaphore; [true]: the sleep was interrupted by a signal *)
  k_down_interruptible : W → bool * W;
  k_down : W → W;
  k_up : W → W;
  (** one sleep of [wait_event_interruptible]; [true]: a signal *)
  k_wait_event_sleep : wait_queue → W → bool * W;
  k_wake_up_interruptible : wait_queue → W → W;
  k_poll_wait : wait_queue → W → W;
  (** is the PDMA interrupt taken at this point? *)
  k_irq_taken : W → bool * W;
  k_udelay : Z → W → W;
  (** bulk copies between user and kernel addresses: bytes not copied *)
  k_copy_from_user : Z → Z → Z → W → Z * W;
  k_copy_to_user : Z → Z → Z → W → Z * W;
  (** copies of one object, as its 32-bit words: [true] when the copy failed *)
  k_get_user_words : Z → nat → W → (bool * list Z) * W;
  k_put_user_words : Z → list Z → W → bool * W;
  (** the words an uninitialised local object happens to hold *)
  k_stack_words : nat → W → list Z * W;
  (** streaming DMA mappings *)
  k_dma_map_single : Z → Z → dma_dir → W → Z * W;
  k_dma_mapping_error : Z → W → bool * W;
  k_dma_unmap_single : Z → Z → dma_dir → W → W;
  (** mapping of physical pages into a process: non-zero on failure *)
  k_remap_pfn_range : Z → Z → Z → W → Z * W;
  (** mapping of a register file, and kernel memory standing for one: 0 on failure *)
  k_ioremap : Z → Z → W → Z * W;
  k_iounmap : Z → W → W;
  k_vmalloc : Z → W → Z * W;
  k_vfree : Z → W → W;
  (** general-purpose pins *)
  k_gpio_request : Z → W → Z * W;
  k_gpio_direction_output : Z → Z → W → Z * W;
  k_gpio_direction_input : Z → W → Z * W;
  k_gpio_free : Z → W → W;
  k_gpio_set_value : Z → Z → W → W;
  k_gpio_get_value : Z → W → Z * W;
}.

(** ** What leaves the driver

    A trace of the driver's outputs.  [Traced trace]: [trace] is the history of
    the world in which the output services, and nothing else, append their event.
    It assumes nothing of the devices: any world can carry such a history. *)
Inductive io_event :=
| EvWrite (a v : Z)
| EvGpio (pin v : Z)
| EvUdelay (us : Z)
| EvLock (l : lock)
| EvUnlock (l : lock) (flags : Z)
| EvMap (a n : Z)
| EvUnmap (a n : Z)
| EvWake (q : wait_queue).

Class Traced {W} `{!Kernel W} (trace : W → list io_event) : Prop := {
  trace_writel a v w : trace (k_writel a v w) = trace w ++ [EvWrite a v];
  trace_readl a w : trace (k_readl a w).2 = trace w;
  trace_spin_lock_irqsave l w :
    trace (k_spin_lock_irqsave l w).2 = trace w ++ [EvLock l];
  trace_spin_trylock_irqsave l w :
    trace (k_spin_trylock_irqsave l w).2 =
      trace w ++ (if (k_spin_trylock_irqsave l w).1 is Some _ then [EvLock l] else []);
  trace_spin_unlock_irqrestore l f w :
    trace (k_spin_unlock_irqrestore l f w) = trace w ++ [EvUnlock l f];
  trace_wake_up q w : trace (k_wake_up_interruptible q w) = trace w ++ [EvWake q];
  trace_udelay n w : trace (k_udelay n w) = trace w ++ [EvUdelay n];
  trace_gpio_set_value p v w : trace (k_gpio_set_value p v w) = trace w ++ [EvGpio p v];
  trace_gpio_get_value p w : trace (k_gpio_get_value p w).2 = trace w;
  trace_dma_map_single a n d w :
    trace (k_dma_map_single a n d w).2 = trace w ++ [EvMap a n];
  trace_dma_mapping_error a w : trace (k_dma_mapping_error a w).2 = trace w;
  trace_dma_unmap_single a n d w :
    trace (k_dma_unmap_single a n d w) = trace w ++ [EvUnmap a n];
}.
Create Rewrite HintDb trace.
#[export] Hint Rewrite @trace_writel @trace_readl @trace_spin_lock_irqsave
  @trace_spin_unlock_irqrestore @trace_wake_up @trace_udelay @trace_gpio_set_value
  @trace_gpio_get_value @trace_dma_map_single @trace_dma_mapping_error
  @trace_dma_unmap_single using typeclasses eauto : trace.

(** ** The driver model of the kernel

    What a driver is given when it is bound to its device: [Platform W].  The memory
    of a driver and its directory of statistics are named by the driver. *)
Inductive owner := by_pdma | by_whitebox.
#[global] Instance owner_eq_dec : EqDecision owner.
Proof. solve_decision. Defined.

Class Platform (W : Type) := {
  (** the memory resource of that number: its start and its size *)
  k_platform_get_resource : Z → W → option (Z * Z) * W;
  k_platform_get_irq : Z → W → Z * W;
  (** zeroed memory; [false]: none left *)
  k_kzalloc : owner → W → bool * W;
  k_kfree : owner → W → W;
  k_sema_init : Z → W → W;
  k_init_waitqueue_head : wait_queue → W → W;
  (** non-zero on failure *)
  k_request_irq : Z → W → Z * W;
  k_free_irq : Z → W → W;
  (** [false]: failed *)
  k_debugfs_create_dir : owner → W → bool * W;
  k_debugfs_create_file : owner → string → W → W;
  k_debugfs_remove_recursive : owner → W → W;
  (** [2 ^ order] pages in a row; 0 on failure *)
  k_get_free_pages : Z → W → Z * W;
  k_free_pages : Z → Z → W → W;
  k_class_create : W → bool * W;
  k_class_destroy : W → W;
  (** negative on failure *)
  k_alloc_chrdev_region : W → Z * W;
  k_unregister_chrdev_region : W → W;
  k_cdev_add : W → Z * W;
  k_cdev_del : W → W;
  k_device_create : W → bool * W;
  k_device_destroy : W → W;
}.

(** What must be given back. *)
Inductive resource :=
| RMem (o : owner) | RDebugfs (o : owner) | RPages (a order : Z) | RMap (a : Z) | RVmalloc (a : Z)
| RClass | RRegion | RCdev | RDevice | RPin (pin : Z) | RIrq (irq : Z).
#[global] Instance resource_eq_dec : EqDecision resource.
Proof. solve_decision. Defined.

(** One unit of [r0]. *)
Definition unit_of (r0 r : resource) : Z := if decide (r = r0) then 1 else 0.

(** [Ledger held]: [held w r] counts what has been taken and not given back in the
    world [w].  A service that succeeds takes one unit, the one that undoes it gives
    it back, the others change nothing. *)
Class Ledger {W} `{!Kernel W} `{!Platform W} (held : W → resource → Z) : Prop := {
  held_kzalloc o w r : held (k_kzalloc o w).2 r =
    held w r + if (k_kzalloc o w).1 then unit_of (RMem o) r else 0;
  held_kfree o w r : held (k_kfree o w) r = held w r - unit_of (RMem o) r;
  held_debugfs o w r : held (k_debugfs_create_dir o w).2 r =
    held w r + if (k_debugfs_create_dir o w).1 then unit_of (RDebugfs o) r else 0;
  held_debugfs_remove o w r :
    held (k_debugfs_remove_recursive o w) r = held w r - unit_of (RDebugfs o) r;
  held_pages order w r : let a := (k_get_free_pages order w).1 in
    held (k_get_free_pages order w).2 r =
      held w r + if decide (a = 0) then 0 else unit_of (RPages a order) r;
  held_free_pages a order w r :
    held (k_free_pages a order w) r = held w r - unit_of (RPages a order) r;
  held_ioremap start n w r : let a := (k_ioremap start n w).1 in
    held (k_ioremap start n w).2 r = held w r + if decide (a = 0) then 0 else unit_of (RMap a) r;
  held_iounmap a w r : held (k_iounmap a w) r = held w r - unit_of (RMap a) r;
  held_vmalloc n w r : let a := (k_vmalloc n w).1 in
    held (k_vmalloc n w).2 r = held w r + if decide (a = 0) then 0 else unit_of (RVmalloc a) r;
  held_vfree a w r : held (k_vfree a w) r = held w r - unit_of (RVmalloc a) r;
  held_class w r : held (k_class_create w).2 r =
    held w r + if (k_class_create w).1 then unit_of RClass r else 0;
  held_class_destroy w r : held (k_class_destroy w) r = held w r - unit_of RClass r;
  held_region w r : held (k_alloc_chrdev_region w).2 r =
    held w r + if (k_alloc_chrdev_region w).1 <? 0 then 0 else unit_of RRegion r;
  held_unregister w r : held (k_unregister_chrdev_region w) r = held w r - unit_of RRegion r;
  held_cdev w r : held (k_cdev_add w).2 r =
    held w r + if (k_cdev_add w).1 <? 0 then 0 else unit_of RCdev r;
  held_cdev_del w r : held (k_cdev_del w) r = held w r - unit_of RCdev r;
  held_device w r : held (k_device_create w).2 r =
    held w r + if (k_device_create w).1 then unit_of RDevice r else 0;
  held_device_destroy w r : held (k_device_destroy w) r = held w r - unit_of RDevice r;
  held_irq n w r : held (k_request_irq n w).2 r =
    held w r + if decide ((k_request_irq n w).1 = 0) then unit_of (RIrq n) r else 0;
  held_free_irq n w r : held (k_free_irq n w) r = held w r - unit_of (RIrq n) r;
  held_gpio_request pin w r : held (k_gpio_request pin w).2 r =
    held w r + if (k_gpio_request pin w).1 <? 0 then 0 else unit_of (RPin pin) r;
  held_gpio_free pin w r : held (k_gpio_free pin w) r = held w r - unit_of (RPin pin) r;
  held_direction_output pin v w r : held (k_gpio_direction_output pin v w).2 r = held w r;
  held_direction_input pin w r : held (k_gpio_direction_input pin w).2 r = held w r;
  held_gpio_set pin v w r : held (k_gpio_set_value pin v w) r = held w r;
  held_udelay us w r : held (k_udelay us w) r = held w r;
  held_resource n w r : held (k_platform_get_resource n w).2 r = held w r;
  held_get_irq n w r : held (k_platform_get_irq n w).2 r = held w r;
  held_sema n w r : held (k_sema_init n w) r = held w r;
  held_waitqueue q w r : held (k_init_waitqueue_head q w) r = held w r;
  held_file o name w r : held (k_debugfs_create_file o name w) r = held w r;
  held_lock_init l w r : held (k_spin_lock_init l w) r = held w r;
  held_readl a w r : held (k_readl a w).2 r = held w r;
  held_writel a v w r : held (k_writel a v w) r = held w r;
}.

(** ** Memory

    [ByteMemory mem]: [mem w] is the memory of the world [w], as bytes by address;
    a bulk copy that reports no byte left over has copied its range. *)
Definition disjoint_ranges (a b n : Z) : Prop := a + n ≤ b ∨ b + n ≤ a.
Class ByteMemory {W} `{!Kernel W} (mem : W → Z → Z) : Prop := {
  mem_copy_from_user to from n w a :
    0 ≤ n → disjoint_ranges to from n → (k_copy_from_user to from n w).1 = 0 →
    mem (k_copy_from_user to from n w).2 a =
      if decide (to ≤ a < to + n) then mem w (from + (a - to)) else mem w a;
  mem_copy_to_user to from n w a :
    0 ≤ n → disjoint_ranges to from n → (k_copy_to_user to from n w).1 = 0 →
    mem (k_copy_to_user to from n w).2 a =
      if decide (to ≤ a < to + n) then mem w (from + (a - to)) else mem w a;
}.

(** ** The circular-buffer macros

    [CIRC_CNT] is the number of bytes in the buffer; [CIRC_SPACE] the room, one
    byte always being left free; the [_TO_END] forms stop at the end of the
    array. *)
Class CircMacros := {
  CIRC_CNT : Z → Z → Z → Z;
  CIRC_SPACE : Z → Z → Z → Z;
  CIRC_CNT_TO_END : Z → Z → Z → Z;
  CIRC_SPACE_TO_END : Z → Z → Z → Z;
  circ_cnt_spec k head tail :
    0 ≤ k → 0 ≤ head < 2 ^ k → 0 ≤ tail < 2 ^ k →
    CIRC_CNT head tail (2 ^ k) = (head - tail) mod 2 ^ k;
  circ_space_spec k head tail :
    0 ≤ k → 0 ≤ head < 2 ^ k → 0 ≤ tail < 2 ^ k →
    CIRC_SPACE head tail (2 ^ k) = 2 ^ k - 1 - CIRC_CNT head tail (2 ^ k);
  circ_cnt_to_end_spec k head tail :
    0 ≤ k → 0 ≤ head < 2 ^ k → 0 ≤ tail < 2 ^ k →
    CIRC_CNT_TO_END head tail (2 ^ k) =
      Z.min (CIRC_CNT head tail (2 ^ k)) (2 ^ k - tail);
  circ_space_to_end_spec k head tail :
    0 ≤ k → 0 ≤ head < 2 ^ k → 0 ≤ tail < 2 ^ k →
    CIRC_SPACE_TO_END head tail (2 ^ k) =
      Z.min (CIRC_SPACE head tail (2 ^ k)) (2 ^ k - head);
}.

(** The masks the macros are made of satisfy the laws. *)
Section circ_instance.
Let cnt (head tail size : Z) : Z := (head - tail) &&& (size - 1).
Let space (head tail size : Z) : Z := cnt tail (head + 1) size.
Let cnt_to_end (head tail size : Z) : Z :=
  let fin := size - tail in
  let n := (head + fin) &&& (size - 1) in
  if n <? fin then n else fin.
Let space_to_end (head tail size : Z) : Z :=
  let fin := size - 1 - head in
  let n := (fin + tail) &&& (size - 1) in
  if n <=? fin then n else fin + 1.

Lemma mod_complement a k :
  0 ≤ k → (- a - 1) mod 2 ^ k = 2 ^ k - 1 - a mod 2 ^ k.
Proof.
  intros Hk. pose proof (Z.pow_pos_nonneg 2 k).
  pose proof (Z.mod_pos_bound a (2 ^ k)).
  symmetry. apply (Z.mod_unique _ _ (- (a / 2 ^ k) - 1)); [lia |].
  pose proof (Z.div_mod a (2 ^ k)). lia.
Qed.

Program Definition circ_macros : CircMacros := {|
  CIRC_CNT := cnt; CIRC_SPACE := space;
  CIRC_CNT_TO_END := cnt_to_end; CIRC_SPACE_TO_END := space_to_end
|}.
Next Obligation. intros. by apply land_ones_low. Qed.
Next Obligation.
  intros k head tail Hk ??. unfold space, cnt. rewrite !land_ones_low by done.
  rewrite <- mod_complement by done. f_equal. lia.
Qed.
Next Obligation.
  intros k head tail Hk ??. unfold cnt_to_end, cnt. rewrite !land_ones_low by done.
  replace (head + (2 ^ k - tail)) with (head - tail + 1 * 2 ^ k) by lia.
  rewrite Z.mod_add by lia. destruct (_ <? _) eqn:E; lia.
Qed.
Next Obligation.
  intros k head tail Hk ??. unfold space_to_end, space, cnt.
  rewrite !land_ones_low by done.
  replace (2 ^ k - 1 - head + tail) with (tail - (head + 1) + 1 * 2 ^ k) by lia.
  rewrite Z.mod_add by lia. destruct (_ <=? _) eqn:E; lia.
Qed.
End circ_instance.

(** ** Request codes

    The macros of [linux/ioctl.h]; the low byte of a code is the request
    number. *)
Class IoctlMacros := {
  _IO : Z → Z → Z;
  _IOR : Z → Z → Z;
  _IOW : Z → Z → Z;
  io_nr t n : 0 ≤ n < 2 ^ 8 → _IO t n mod 2 ^ 8 = n;
  ior_nr t n : 0 ≤ n < 2 ^ 8 → _IOR t n mod 2 ^ 8 = n;
  iow_nr t n : 0 ≤ n < 2 ^ 8 → _IOW t n mod 2 ^ 8 = n;
}.

(** The encoding for pointer arguments: direction, size, type, number. *)
Section ioctl_instance.
Let ioc (dir size t n : Z) : Z := dir * 2 ^ 30 + size * 2 ^ 16 + t * 2 ^ 8 + n.

Lemma ioc_nr dir size t n : 0 ≤ n < 2 ^ 8 → ioc dir size t n mod 2 ^ 8 = n.
Proof.
  intros. unfold ioc.
  replace (dir * 2 ^ 30 + size * 2 ^ 16 + t * 2 ^ 8 + n)
    with (n + (dir * 2 ^ 22 + size * 2 ^ 8 + t) * 2 ^ 8) by lia.
  rewrite Z.mod_add by lia. by apply Z.mod_small.
Qed.

Definition ioctl_macros : IoctlMacros := {|
  _IO := ioc 0 0; _IOR := ioc 2 4; _IOW := ioc 1 4;
  io_nr := ioc_nr 0 0; ior_nr := ioc_nr 2 4; iow_nr := ioc_nr 1 4
|}.
End ioctl_instance.
