(* ===== verification/State.v ===== *)
(** * The driver's state

    The structures of [pdma.c] and of [whitebox.h], [whitebox_block.h],
    [whitebox_exciter.h] and [whitebox_receiver.h] as records, the module
    parameters, and [sys]: the two drivers' global variables with the world
    underneath.  Kernel objects that the driver only hands back to the kernel
    (character device, class, wait queues, debugfs entries) have no field. *)

From S2P Require Import Prelude Kernel.

(** The module parameters of both drivers ([whitebox_driver.c], [pdma.c]). *)
Record params := {
  whitebox_debug : Z;
  whitebox_check_plls : Z;
  whitebox_check_runs : Z;
  whitebox_user_order : Z;
  whitebox_mock_en : Z;
  whitebox_mock_order : Z;
  whitebox_exciter_quantum : Z;
  whitebox_receiver_quantum : Z;
  whitebox_auto_tx : Z;
  whitebox_tx_i_correction : Z;
  whitebox_tx_q_correction : Z;
  whitebox_tx_i_gain : Z;
  whitebox_tx_q_gain : Z;
  whitebox_rx_i_correction : Z;
  whitebox_rx_q_correction : Z;
  whitebox_loopen : Z;
  whitebox_user_source_buffer_threshold : Z;
  whitebox_user_sink_buffer_threshold : Z;
  whitebox_flow_control : Z;
  whitebox_frame_size : Z;
  pdma_debug : Z;
  pdma_ping_pong : Z;
}.
#[global] Instance eta_params : Eta params :=
  λ r, Build_params (whitebox_debug r) (whitebox_check_plls r)
    (whitebox_check_runs r) (whitebox_user_order r) (whitebox_mock_en r)
    (whitebox_mock_order r) (whitebox_exciter_quantum r)
    (whitebox_receiver_quantum r) (whitebox_auto_tx r)
    (whitebox_tx_i_correction r) (whitebox_tx_q_correction r)
    (whitebox_tx_i_gain r) (whitebox_tx_q_gain r) (whitebox_rx_i_correction r)
    (whitebox_rx_q_correction r) (whitebox_loopen r)
    (whitebox_user_source_buffer_threshold r)
    (whitebox_user_sink_buffer_threshold r) (whitebox_flow_control r)
    (whitebox_frame_size r) (pdma_debug r) (pdma_ping_pong r).

(** [struct circ_buf]: the array's address and the two indices. *)
Record circ_buf := {
  cb_buf : Z;
  cb_head : Z;
  cb_tail : Z;
}.
#[global] Instance eta_circ_buf : Eta circ_buf :=
  λ r, Build_circ_buf (cb_buf r) (cb_head r) (cb_tail r).

(** ** PDMA *)

(** The interrupt handlers a channel can be given ([pdma_irq_handler_t]). *)
Inductive pdma_irq_handler := tx_dma_cb_h | rx_dma_cb_h.
#[global] Instance pdma_irq_handler_eq_dec : EqDecision pdma_irq_handler.
Proof. solve_decision. Defined.

(** [struct pdma_channel_snapshot]. *)
Record pdma_channel_snapshot := {
  sn_time : Z;
  sn_channel_buf_a_status : Z;
  sn_channel_buf_a_src : Z;
  sn_channel_buf_a_dst : Z;
  sn_channel_buf_a_cnt : Z;
  sn_channel_buf_b_status : Z;
  sn_channel_buf_b_src : Z;
  sn_channel_buf_b_dst : Z;
  sn_channel_buf_b_cnt : Z;
  sn_device_control : Z;
  sn_device_status : Z;
  sn_device_buf_a_src : Z;
  sn_device_buf_a_dst : Z;
  sn_device_buf_a_cnt : Z;
  sn_device_buf_b_src : Z;
  sn_device_buf_b_dst : Z;
  sn_device_buf_b_cnt : Z;
}.
#[global] Instance eta_pdma_channel_snapshot : Eta pdma_channel_snapshot :=
  λ r, Build_pdma_channel_snapshot (sn_time r) (sn_channel_buf_a_status r)
    (sn_channel_buf_a_src r) (sn_channel_buf_a_dst r) (sn_channel_buf_a_cnt r)
    (sn_channel_buf_b_status r) (sn_channel_buf_b_src r)
    (sn_channel_buf_b_dst r) (sn_channel_buf_b_cnt r) (sn_device_control r)
    (sn_device_status r) (sn_device_buf_a_src r) (sn_device_buf_a_dst r)
    (sn_device_buf_a_cnt r) (sn_device_buf_b_src r) (sn_device_buf_b_dst r)
    (sn_device_buf_b_cnt r).

(** [struct pdma_channel_stats]. *)
Record pdma_channel_stats := {
  ps_bytes : Z;
  ps_xfers_started : Z;
  ps_xfers_completed : Z;
  ps_snaps : list pdma_channel_snapshot;
  ps_snaps_index : Z;
}.
#[global] Instance eta_pdma_channel_stats : Eta pdma_channel_stats :=
  λ r, Build_pdma_channel_stats (ps_bytes r) (ps_xfers_started r)
    (ps_xfers_completed r) (ps_snaps r) (ps_snaps_index r).

(** [struct pdma_channel_buffer_status_t]: one of a channel's two transfers. *)
Record pdma_channel_buffer_status_t := {
  pb_src : Z;
  pb_dst : Z;
  pb_cnt : Z;
  pb_status : Z;
}.
#[global] Instance eta_pdma_channel_buffer_status_t : Eta pdma_channel_buffer_status_t :=
  λ r, Build_pdma_channel_buffer_status_t (pb_src r) (pb_dst r) (pb_cnt r)
    (pb_status r).

(** [struct pdma_channel_t]; [buf[0]] is buffer A, [buf[1]] buffer B. *)
Record pdma_channel_t := {
  pc_channel : Z;
  pc_in_use : Z;
  pc_flags : Z;
  pc_write_adj : Z;
  pc_next : Z;
  pc_handler : option pdma_irq_handler;
  pc_user_data : Z;
  pc_buf_a : pdma_channel_buffer_status_t;
  pc_buf_b : pdma_channel_buffer_status_t;
  pc_stats : pdma_channel_stats;
  pc_ping_pong : Z;
}.
#[global] Instance eta_pdma_channel_t : Eta pdma_channel_t :=
  λ r, Build_pdma_channel_t (pc_channel r) (pc_in_use r) (pc_flags r)
    (pc_write_adj r) (pc_next r) (pc_handler r) (pc_user_data r) (pc_buf_a r)
    (pc_buf_b r) (pc_stats r) (pc_ping_pong r).

(** [struct pdma_device_t]. *)
Record pdma_device_t := {
  pd_regs : Z;
  pd_irq : Z;
  pd_channel : list pdma_channel_t;
}.
#[global] Instance eta_pdma_device_t : Eta pdma_device_t :=
  λ r, Build_pdma_device_t (pd_regs r) (pd_irq r) (pd_channel r).
(** ** The Whitebox driver *)

(** [struct whitebox_user_source]; its [mapped] pointer is always the device's
    [mapped] counter, which the operations read directly. *)
Record whitebox_user_source := {
  us_off : Z;
  us_order : Z;
  us_buf_size : Z;
  us_buf : circ_buf;
}.
#[global] Instance eta_whitebox_user_source : Eta whitebox_user_source :=
  λ r, Build_whitebox_user_source (us_off r) (us_order r) (us_buf_size r)
    (us_buf r).

(** [struct whitebox_user_sink]. *)
Record whitebox_user_sink := {
  uk_off : Z;
  uk_order : Z;
  uk_buf_size : Z;
  uk_buf : circ_buf;
}.
#[global] Instance eta_whitebox_user_sink : Eta whitebox_user_sink :=
  λ r, Build_whitebox_user_sink (uk_off r) (uk_order r) (uk_buf_size r)
    (uk_buf r).

(** Which of the device's two exciters (or receivers) a pointer designates. *)
Inductive which := Real | Mock.
#[global] Instance which_eq_dec : EqDecision which.
Proof. solve_decision. Defined.

(** One entry of the [dma[2]] array of a radio-side block. *)
Record dma_slot := {
  dm_mapping : Z;
  dm_count : Z;
}.
#[global] Instance eta_dma_slot : Eta dma_slot :=
  λ r, Build_dma_slot (dm_mapping r) (dm_count r).

(** [struct whitebox_rf_sink]. *)
Record whitebox_rf_sink := {
  rk_off : Z;
  rk_dma_ch : Z;
  rk_dma : list dma_slot;
  rk_dma_cb : option pdma_irq_handler;
  rk_exciter : which;
}.
#[global] Instance eta_whitebox_rf_sink : Eta whitebox_rf_sink :=
  λ r, Build_whitebox_rf_sink (rk_off r) (rk_dma_ch r) (rk_dma r)
    (rk_dma_cb r) (rk_exciter r).

(** [struct whitebox_rf_source]. *)
Record whitebox_rf_source := {
  rs_off : Z;
  rs_dma_ch : Z;
  rs_dma : list dma_slot;
  rs_dma_cb : option pdma_irq_handler;
  rs_receiver : which;
}.
#[global] Instance eta_whitebox_rf_source : Eta whitebox_rf_source :=
  λ r, Build_whitebox_rf_source (rs_off r) (rs_dma_ch r) (rs_dma r)
    (rs_dma_cb r) (rs_receiver r).

(** The operation table a device structure points to. *)
Inductive ops_table := real_ops | mock_ops.

(** [struct whitebox_exciter]. *)
Record whitebox_exciter := {
  ex_regs : Z;
  ex_quantum : Z;
  ex_incr_dest : Z;
  ex_auto_tx : Z;
  ex_dma_enable : Z;
  ex_copy_enable : Z;
  ex_pdma_config : Z;
  ex_ops : option ops_table;
}.
#[global] Instance eta_whitebox_exciter : Eta whitebox_exciter :=
  λ r, Build_whitebox_exciter (ex_regs r) (ex_quantum r) (ex_incr_dest r)
    (ex_auto_tx r) (ex_dma_enable r) (ex_copy_enable r) (ex_pdma_config r)
    (ex_ops r).

(** [struct whitebox_mock_exciter]; its [buf] pointer is the device's [mock_buf]. *)
Record whitebox_mock_exciter := {
  mx_exciter : whitebox_exciter;
  mx_buf_size : Z;
  mx_order : Z;
  mx_fir_coeff : list Z;
}.
#[global] Instance eta_whitebox_mock_exciter : Eta whitebox_mock_exciter :=
  λ r, Build_whitebox_mock_exciter (mx_exciter r) (mx_buf_size r)
    (mx_order r) (mx_fir_coeff r).

(** [struct whitebox_receiver]. *)
Record whitebox_receiver := {
  rv_regs : Z;
  rv_quantum : Z;
  rv_incr_src : Z;
  rv_dma_enable : Z;
  rv_copy_enable : Z;
  rv_pdma_config : Z;
  rv_ops : option ops_table;
}.
#[global] Instance eta_whitebox_receiver : Eta whitebox_receiver :=
  λ r, Build_whitebox_receiver (rv_regs r) (rv_quantum r) (rv_incr_src r)
    (rv_dma_enable r) (rv_copy_enable r) (rv_pdma_config r) (rv_ops r).

(** [struct whitebox_mock_receiver]; it shares the device's [mock_buf]. *)
Record whitebox_mock_receiver := {
  mr_receiver : whitebox_receiver;
  mr_buf_size : Z;
  mr_order : Z;
}.
#[global] Instance eta_whitebox_mock_receiver : Eta whitebox_mock_receiver :=
  λ r, Build_whitebox_mock_receiver (mr_receiver r) (mr_buf_size r)
    (mr_order r).

(** [struct whitebox_stats_exec_detail]. *)
Record whitebox_stats_exec_detail := {
  sd_time : Z;
  sd_src : Z;
  sd_dest : Z;
  sd_bytes : Z;
  sd_result : Z;
}.
#[global] Instance eta_whitebox_stats_exec_detail : Eta whitebox_stats_exec_detail :=
  λ r, Build_whitebox_stats_exec_detail (sd_time r) (sd_src r) (sd_dest r)
    (sd_bytes r) (sd_result r).

(** [struct whitebox_stats]. *)
Record whitebox_stats := {
  st_bytes : Z;
  st_exec_calls : Z;
  st_exec_busy : Z;
  st_exec_nop_src : Z;
  st_exec_nop_dest : Z;
  st_exec_failed : Z;
  st_exec_success_slow : Z;
  st_exec_dma_start : Z;
  st_exec_dma_finished : Z;
  st_exec_detail : list whitebox_stats_exec_detail;
  st_exec_detail_index : Z;
  st_stop : Z;
  st_error : Z;
  st_last_error : Z;
}.
#[global] Instance eta_whitebox_stats : Eta whitebox_stats :=
  λ r, Build_whitebox_stats (st_bytes r) (st_exec_calls r) (st_exec_busy r)
    (st_exec_nop_src r) (st_exec_nop_dest r) (st_exec_failed r)
    (st_exec_success_slow r) (st_exec_dma_start r) (st_exec_dma_finished r)
    (st_exec_detail r) (st_exec_detail_index r) (st_stop r) (st_error r)
    (st_last_error r).

(** The structure filled with zeros. *)
Definition zero_stats : whitebox_stats :=
  Build_whitebox_stats 0 0 0 0 0 0 0 0 0
    (replicate 64 (Build_whitebox_stats_exec_detail 0 0 0 0 0)) 0 0 0 0.

(** [struct whitebox_platform_data_t]. *)
Record whitebox_platform_data_t := {
  adc_s1_pin : Z;
  adc_s2_pin : Z;
  adc_dfs_pin : Z;
  dac_en_pin : Z;
  dac_pd_pin : Z;
  dac_cs_pin : Z;
  radio_resetn_pin : Z;
  radio_cdata_pin : Z;
  radio_sclk_pin : Z;
  radio_rdata_pin : Z;
  radio_csn_pin : Z;
  vco_clk_pin : Z;
  vco_data_pin : Z;
  vco_le_pin : Z;
  vco_ce_pin : Z;
  vco_pdb_pin : Z;
  vco_ld_pin : Z;
  tx_dma_ch : Z;
  rx_dma_ch : Z;
}.
#[global] Instance eta_whitebox_platform_data_t : Eta whitebox_platform_data_t :=
  λ r, Build_whitebox_platform_data_t (adc_s1_pin r) (adc_s2_pin r)
    (adc_dfs_pin r) (dac_en_pin r) (dac_pd_pin r) (dac_cs_pin r)
    (radio_resetn_pin r) (radio_cdata_pin r) (radio_sclk_pin r)
    (radio_rdata_pin r) (radio_csn_pin r) (vco_clk_pin r) (vco_data_pin r)
    (vco_le_pin r) (vco_ce_pin r) (vco_pdb_pin r) (vco_ld_pin r) (tx_dma_ch r)
    (rx_dma_ch r).

(** [enum whitebox_device_state]. *)
Inductive whitebox_device_state :=
| WDS_IDLE | WDS_TX | WDS_TX_STREAMING | WDS_TX_STOPPING
| WDS_RX | WDS_RX_STREAMING | WDS_RX_STOPPING.
#[global] Instance whitebox_device_state_eq_dec : EqDecision whitebox_device_state.
Proof. solve_decision. Defined.

(** [struct whitebox_device]. *)
Record whitebox_device := {
  wb_state : whitebox_device_state;
  wb_platform_data : whitebox_platform_data_t;
  wb_mapped : Z;
  wb_adf4351_regs : list Z;
  wb_cmx991_regs : list Z;
  wb_cur_overruns : Z;
  wb_cur_underruns : Z;
  wb_mock_buf : circ_buf;
  wb_mock_exciter : whitebox_mock_exciter;
  wb_mock_receiver : whitebox_mock_receiver;
  wb_exciter : whitebox_exciter;
  wb_receiver : whitebox_receiver;
  wb_user_buffer : Z;
  wb_user_source : whitebox_user_source;
  wb_user_sink : whitebox_user_sink;
  wb_rf_source : whitebox_rf_source;
  wb_rf_sink : whitebox_rf_sink;
  wb_tx_stats : whitebox_stats;
  wb_rx_stats : whitebox_stats;
}.
#[global] Instance eta_whitebox_device : Eta whitebox_device :=
  λ r, Build_whitebox_device (wb_state r) (wb_platform_data r) (wb_mapped r)
    (wb_adf4351_regs r) (wb_cmx991_regs r) (wb_cur_overruns r)
    (wb_cur_underruns r) (wb_mock_buf r) (wb_mock_exciter r)
    (wb_mock_receiver r) (wb_exciter r) (wb_receiver r) (wb_user_buffer r)
    (wb_user_source r) (wb_user_sink r) (wb_rf_source r) (wb_rf_sink r)
    (wb_tx_stats r) (wb_rx_stats r).
(** Structures filled with zeros; a channel with its number. *)
Definition zero_slot : pdma_channel_buffer_status_t :=
  Build_pdma_channel_buffer_status_t 0 0 0 0.
Definition zero_chan (ch : Z) : pdma_channel_t :=
  Build_pdma_channel_t ch 0 0 0 0 None 0 zero_slot zero_slot
    (Build_pdma_channel_stats 0 0 0
      (replicate 64 (Build_pdma_channel_snapshot 0 0 0 0 0 0 0 0 0 0 0 0 0 0 0 0 0)) 0) 0.
Definition zero_buf : circ_buf := Build_circ_buf 0 0 0.
Definition zero_exciter : whitebox_exciter := Build_whitebox_exciter 0 0 0 0 0 0 0 None.
Definition zero_receiver : whitebox_receiver := Build_whitebox_receiver 0 0 0 0 0 0 None.
Definition zero_dma : list dma_slot := replicate 2 (Build_dma_slot 0 0).

(** ** The whole system *)

(** Every global variable of the two drivers, and the world. *)
Record sys (W : Type) := Sys {
  s_params : params;
  s_pdma : pdma_device_t;
  s_use_count : Z;
  s_wb : whitebox_device;
  s_world : W;
}.
Arguments Sys {W}.
Arguments s_params {W}.
Arguments s_pdma {W}.
Arguments s_use_count {W}.
Arguments s_wb {W}.
Arguments s_world {W}.
#[global] Instance eta_sys W : Eta (sys W) :=
  λ s, Sys (s_params s) (s_pdma s) (s_use_count s) (s_wb s) (s_world s).


Section access.
Context {W : Type} `{!Kernel W}.

Definition upd_wb (f : whitebox_device → whitebox_device) : M (sys W) () :=
  modify (λ s, s <| s_wb ::= f |>).
Definition get_wb {A} (f : whitebox_device → A) : M (sys W) A :=
  gets (λ s, f (s_wb s)).
Definition param {A} (f : params → A) : M (sys W) A := gets (λ s, f (s_params s)).

(** A kernel service that returns a value, and one that does not. *)
Definition call {A} (f : W → A * W) : M (sys W) A :=
  λ s, Done (f (s_world s)).1 (s <| s_world := (f (s_world s)).2 |>).
Definition call_ (f : W → W) : M (sys W) () :=
  modify (λ s, s <| s_world ::= f |>).

Definition readl (a : Z) : M (sys W) Z := call (k_readl a).
Definition writel (a v : Z) : M (sys W) () := call_ (k_writel a v).
(** [*a |= m] and [*a &= m] on a volatile register. *)
Definition reg_or (a m : Z) : M (sys W) () := v ← readl a; writel a (v ||| m).
Definition reg_and (a m : Z) : M (sys W) () := v ← readl a; writel a (v &&& m).

Definition spin_lock_irqsave (l : lock) : M (sys W) Z := call (k_spin_lock_irqsave l).
Definition spin_unlock_irqrestore (l : lock) (flags : Z) : M (sys W) () :=
  call_ (k_spin_unlock_irqrestore l flags).
Definition spin_trylock_irqsave (l : lock) : M (sys W) (option Z) :=
  call (k_spin_trylock_irqsave l).

(** [d_printk(level, ...)]: the message's arguments are evaluated only when the
    verbosity reaches [level]; they matter where they call something. *)
Definition d_printk (level : Z) (args : M (sys W) ()) : M (sys W) () :=
  d ← param whitebox_debug; when (level <=? d) args.
Definition pdma_d_printk (level : Z) (args : M (sys W) ()) : M (sys W) () :=
  d ← param pdma_debug; when (level <=? d) args.
End access.

(** The primitives on a state in constructor form. *)
Section runs_access.
Context {W : Type} `{!Kernel W}.
Implicit Types (pr : params) (p : pdma_device_t) (wb : whitebox_device) (w : W).

Lemma runs_call {A} (f : W → A * W) pr p uc wb w :
  runs (call f) (Sys pr p uc wb w) (f w).1 (Sys pr p uc wb (f w).2).
Proof. done. Qed.
Lemma runs_call_ (f : W → W) pr p uc wb w :
  runs (call_ f) (Sys pr p uc wb w) () (Sys pr p uc wb (f w)).
Proof. done. Qed.
Lemma runs_readl a pr p uc wb w :
  runs (readl a) (Sys pr p uc wb w) (k_readl a w).1 (Sys pr p uc wb (k_readl a w).2).
Proof. done. Qed.
Lemma runs_writel a v pr p uc wb w :
  runs (writel a v) (Sys pr p uc wb w) () (Sys pr p uc wb (k_writel a v w)).
Proof. done. Qed.
Lemma runs_spin_lock_irqsave l pr p uc wb w :
  runs (spin_lock_irqsave l) (Sys pr p uc wb w)
    (k_spin_lock_irqsave l w).1 (Sys pr p uc wb (k_spin_lock_irqsave l w).2).
Proof. done. Qed.
Lemma runs_spin_unlock_irqrestore l f pr p uc wb w :
  runs (spin_unlock_irqrestore l f) (Sys pr p uc wb w) ()
    (Sys pr p uc wb (k_spin_unlock_irqrestore l f w)).
Proof. done. Qed.
Lemma runs_reg_or a m pr p uc wb w :
  runs (reg_or a m) (Sys pr p uc wb w) ()
    (Sys pr p uc wb (k_writel a ((k_readl a w).1 ||| m) (k_readl a w).2)).
Proof. done. Qed.
Lemma runs_reg_and a m pr p uc wb w :
  runs (reg_and a m) (Sys pr p uc wb w) ()
    (Sys pr p uc wb (k_writel a ((k_readl a w).1 &&& m) (k_readl a w).2)).
Proof. done. Qed.
Lemma runs_upd_wb f pr p uc wb w :
  runs (upd_wb f) (Sys pr p uc wb w) () (Sys pr p uc (f wb) w).
Proof. done. Qed.
Lemma runs_get_wb {A} (f : whitebox_device → A) pr p uc wb w :
  runs (get_wb f) (Sys pr p uc wb w) (f wb) (Sys pr p uc wb w).
Proof. done. Qed.
Lemma runs_param {A} (f : params → A) pr p uc wb w :
  runs (param f) (Sys pr p uc wb w) (f pr) (Sys pr p uc wb w).
Proof. done. Qed.
End runs_access.

#[export] Hint Resolve runs_call runs_call_ runs_readl runs_writel
  runs_spin_lock_irqsave runs_spin_unlock_irqrestore runs_reg_or runs_reg_and
  runs_upd_wb runs_get_wb runs_param : runs.

(** An invariant that does not look at the world is kept by every service. *)
Class WorldFree {W} (I : sys W → Prop) : Prop :=
  world_free s w : I s → I (s <| s_world := w |>).

Section keeps_access.
Context {W : Type} `{!Kernel W} (I : sys W → Prop) `{!WorldFree I}.

Lemma keeps_call {A} (f : W → A * W) : keeps I (call f).
Proof. intros s Hs. by apply world_free. Qed.
Lemma keeps_call_ (f : W → W) : keeps I (call_ f).
Proof. intros s Hs. by apply (world_free s). Qed.
Lemma keeps_readl a : keeps I (readl a).
Proof. apply keeps_call. Qed.
Lemma keeps_writel a v : keeps I (writel a v).
Proof. apply keeps_call_. Qed.
Lemma keeps_reg_or a m : keeps I (reg_or a m).
Proof. apply keeps_bind; [apply keeps_readl | intros; apply keeps_writel]. Qed.
Lemma keeps_reg_and a m : keeps I (reg_and a m).
Proof. apply keeps_bind; [apply keeps_readl | intros; apply keeps_writel]. Qed.
Lemma keeps_d_printk l m : keeps I m → keeps I (d_printk l m).
Proof. intros. apply keeps_bind; [apply keeps_gets | intros; by apply keeps_when]. Qed.
Lemma keeps_pdma_d_printk l m : keeps I m → keeps I (pdma_d_printk l m).
Proof. intros. apply keeps_bind; [apply keeps_gets | intros; by apply keeps_when]. Qed.
Lemma keeps_get_wb {A} (f : whitebox_device → A) : keeps I (get_wb f).
Proof. apply keeps_gets. Qed.
Lemma keeps_param {A} (f : params → A) : keeps I (param f).
Proof. apply keeps_gets. Qed.
Lemma keeps_spin_lock_irqsave l : keeps I (spin_lock_irqsave l).
Proof. apply keeps_call. Qed.
Lemma keeps_spin_trylock_irqsave l : keeps I (spin_trylock_irqsave l).
Proof. apply keeps_call. Qed.
Lemma keeps_spin_unlock_irqrestore l f : keeps I (spin_unlock_irqrestore l f).
Proof. apply keeps_call_. Qed.
End keeps_access.

#[export] Hint Resolve keeps_call keeps_call_ keeps_readl keeps_writel keeps_reg_or
  keeps_reg_and keeps_get_wb keeps_param
  keeps_spin_lock_irqsave keeps_spin_trylock_irqsave keeps_spin_unlock_irqrestore
  : keeps.
#[export] Hint Extern 1 (WorldFree _) => solve [typeclasses eauto] : keeps.
#[export] Hint Extern 2 (keeps _ (d_printk _ _)) =>
  apply keeps_d_printk; keeps_tac : keeps.
#[export] Hint Extern 2 (keeps _ (pdma_d_printk _ _)) =>
  apply keeps_pdma_d_printk; keeps_tac : keeps.

(** ** Computations that only reach the world

    [emits m evs]: whatever the state, [m] returns, changes nothing but the world,
    and appends exactly [evs] to every trace. *)
Section emits.
Context {W : Type} `{!Kernel W}.

Definition emits (m : M (sys W) ()) (evs : list io_event) : Prop :=
  ∀ pr p uc wb w, ∃ w', runs m (Sys pr p uc wb w) () (Sys pr p uc wb w') ∧
    ∀ trace, Traced trace → trace w' = trace w ++ evs.

Lemma emits_ret : emits (mret ()) [].
Proof. intros pr p uc wb w. exists w. split; [done |]. intros. by rewrite app_nil_r. Qed.
Lemma emits_seq m1 m2 e1 e2 : emits m1 e1 → emits m2 e2 → emits (m1;; m2) (e1 ++ e2).
Proof.
  intros H1 H2 pr p uc wb w. destruct (H1 pr p uc wb w) as (w1 & R1 & T1).
  destruct (H2 pr p uc wb w1) as (w2 & R2 & T2). exists w2.
  split; [by eapply runs_bind |]. intros trace HT. by rewrite T2, T1, app_assoc.
Qed.
Lemma emits_readl a k e : (∀ v, emits (k v) e) → emits (v ← readl a; k v) e.
Proof.
  intros Hk pr p uc wb w.
  destruct (Hk (k_readl a w).1 pr p uc wb (k_readl a w).2) as (w' & Hr & Ht).
  exists w'. split; [by eapply runs_bind; [apply runs_readl |] |].
  intros trace HT. by rewrite Ht, trace_readl.
Qed.
Lemma emits_writel a v : emits (writel a v) [EvWrite a v].
Proof. intros pr p uc wb w. eexists. split; [apply runs_writel |]. intros. apply trace_writel. Qed.
Lemma emits_for_loop n i body e :
  (∀ j, emits (body j) (e j)) → emits (for_loop n i body) (mjoin (e <$> seqZ i (Z.of_nat n))).
Proof.
  intros Hb. revert i. induction n as [|n IH]; intros i; [apply emits_ret |].
  rewrite seqZ_cons by lia.
  change (mjoin (e <$> i :: seqZ (Z.succ i) (Z.pred (Z.of_nat (S n)))))
    with (e i ++ mjoin (e <$> seqZ (Z.succ i) (Z.pred (Z.of_nat (S n))))).
  replace (Z.succ i) with (i + 1) by lia. replace (Z.pred (Z.of_nat (S n))) with (Z.of_nat n) by lia.
  apply emits_seq; [apply Hb | apply IH].
Qed.
End emits.
