(* ===== verification/Sim.v ===== *)
(** * A concrete kernel

    An executable instance of [Kernel]: registers and memory are finite maps,
    and the choices of the environment (interrupts, signals, pin levels, what an
    uninitialised local holds) are scripts that the services consume.  Theorems
    are proved for every [Kernel]; this one evaluates them on concrete inputs. *)

From stdpp Require Import gmap.
From S2P Require Import Prelude Kernel State.

Record sim := {
  m_regs : gmap Z Z;
  m_mem : gmap Z Z;
  m_words : gmap Z (list Z);
  m_trace : list io_event;
  m_irqs : list bool;
  m_signals : list bool;
  m_gpio_in : list Z;
  m_gpio_fail : list Z;
  m_locked : list lock;
  m_stack : Z;
  m_refuse : list bool;
  m_pages : Z;
  m_log : list (resource * Z);
}.
#[global] Instance eta_sim : Eta sim := λ r, Build_sim (m_regs r) (m_mem r) (m_words r)
  (m_trace r) (m_irqs r) (m_signals r) (m_gpio_in r) (m_gpio_fail r) (m_locked r) (m_stack r)
  (m_refuse r) (m_pages r) (m_log r).

Definition sim0 : sim := Build_sim ∅ ∅ ∅ [] [] [] [] [] [] 0 [] 0 [].

Definition emit (e : io_event) (w : sim) : sim := w <| m_trace ::= λ t, t ++ [e] |>.

(** Giving and taking back resources, in a log; [m_refuse] is the script of the
    requests to refuse. *)
Definition sim_held (w : sim) (r : resource) : Z :=
  foldr (λ e n, n + e.2 * unit_of e.1 r) 0 (m_log w).
Definition give (r : resource) (w : sim) : sim := w <| m_log ::= cons (r, 1) |>.
Definition take_back (r : resource) (w : sim) : sim := w <| m_log ::= cons (r, -1) |>.
Definition refused (w : sim) : bool := default false (head (m_refuse w)).
Definition asked (w : sim) : sim := w <| m_refuse ::= tail |>.
Definition grant (r : resource) (w : sim) : bool * sim :=
  if refused w then (false, asked w) else (true, give r (asked w)).
Definition grant_value (a no : Z) (r : resource) (w : sim) : Z * sim :=
  if refused w then (no, asked w) else (a, give r (asked w)).

(** Each request for pages gets the next of sixty-four places; [m_pages] counts them. *)
Definition sim_pages (w : sim) : Z := 0x10000000 + 0x400000 * (m_pages w mod 64).
Lemma sim_pages_range w : 0x10000000 ≤ sim_pages w ≤ 0x1FC00000.
Proof. unfold sim_pages. pose proof (Z.mod_pos_bound (m_pages w) 64). lia. Qed.

Fixpoint copy_bytes (n : nat) (to from : Z) (m : gmap Z Z) : gmap Z Z :=
  match n with
  | O => m
  | S n' => copy_bytes n' (to + 1) (from + 1) (<[to := default 0 (m !! from)]> m)
  end.

#[global] Instance sim_kernel : Kernel sim := {|
  k_PAGE_SIZE := 4096;
  k_PAGE_SHIFT := 12;
  k_M2S_SYSREG_soft_reset_cr := 0x40038048;
  k_readl a w := (default 0 (m_regs w !! a), w);
  k_writel a v w := emit (EvWrite a v) (w <| m_regs ::= <[a := v]> |>);
  k_spin_lock_init _ w := w;
  k_spin_lock_irqsave l w := (0, emit (EvLock l) w);
  k_spin_trylock_irqsave l w :=
    if decide (l ∈ m_locked w) then (None, w) else (Some 0, emit (EvLock l) w);
  k_spin_unlock_irqrestore l f w := emit (EvUnlock l f) w;
  k_down_interruptible w := (default false (head (m_signals w)), w <| m_signals ::= tail |>);
  k_down w := w;
  k_up w := w;
  k_wait_event_sleep _ w :=
    (default false (head (m_signals w)), w <| m_signals ::= tail |>);
  k_wake_up_interruptible q w := emit (EvWake q) w;
  k_poll_wait _ w := w;
  k_irq_taken w := (default false (head (m_irqs w)), w <| m_irqs ::= tail |>);
  k_udelay n w := emit (EvUdelay n) w;
  k_copy_from_user to from n w := (0, w <| m_mem ::= copy_bytes (Z.to_nat n) to from |>);
  k_copy_to_user to from n w := (0, w <| m_mem ::= copy_bytes (Z.to_nat n) to from |>);
  k_get_user_words a n w :=
    ((false, take n (default [] (m_words w !! a) ++ replicate n 0)), w);
  k_put_user_words a l w := (false, w <| m_words ::= <[a := l]> |>);
  k_stack_words n w := (replicate n (m_stack w), w);
  k_dma_map_single a n _ w := (a, emit (EvMap a n) w);
  k_dma_mapping_error _ w := (false, w);
  k_dma_unmap_single a n _ w := emit (EvUnmap a n) w;
  k_remap_pfn_range _ _ _ w := (0, w);
  k_ioremap start _ w := grant_value 0x60000000 0 (RMap 0x60000000) w;
  k_iounmap a w := take_back (RMap a) w;
  k_vmalloc _ w := grant_value 0x20000000 0 (RVmalloc 0x20000000) w;
  k_vfree a w := take_back (RVmalloc a) w;
  k_gpio_request pin w :=
    if decide (pin ∈ m_gpio_fail w) then (-16, w) else (0, give (RPin pin) w);
  k_gpio_direction_output _ _ w := (0, w);
  k_gpio_direction_input _ w := (0, w);
  k_gpio_free pin w := take_back (RPin pin) w;
  k_gpio_set_value pin v w := emit (EvGpio pin v) w;
  k_gpio_get_value _ w := (default 0 (head (m_gpio_in w)), w <| m_gpio_in ::= tail |>);
|}.

#[global] Instance sim_platform : Platform sim := {|
  k_platform_get_resource n w := (Some (0x31000000 + 0x30 * n, 0x11), w);
  k_platform_get_irq _ w := (9, w);
  k_kzalloc o w := grant (RMem o) w;
  k_kfree o w := take_back (RMem o) w;
  k_sema_init _ w := w;
  k_init_waitqueue_head _ w := w;
  k_request_irq n w := grant_value 0 (-16) (RIrq n) w;
  k_free_irq n w := take_back (RIrq n) w;
  k_debugfs_create_dir o w := grant (RDebugfs o) w;
  k_debugfs_create_file _ _ w := w;
  k_debugfs_remove_recursive o w := take_back (RDebugfs o) w;
  k_get_free_pages order w :=
    if refused w || negb ((0 <=? order) && (order <=? 10)) then (0, asked w) else
      (sim_pages w, give (RPages (sim_pages w) order) (asked w <| m_pages ::= Z.add 1 |>));
  k_free_pages a order w := take_back (RPages a order) w;
  k_class_create w := grant RClass w;
  k_class_destroy w := take_back RClass w;
  k_alloc_chrdev_region w := grant_value 0 (-16) RRegion w;
  k_unregister_chrdev_region w := take_back RRegion w;
  k_cdev_add w := grant_value 0 (-16) RCdev w;
  k_cdev_del w := take_back RCdev w;
  k_device_create w := grant RDevice w;
  k_device_destroy w := take_back RDevice w;
|}.

(** The same kernel where no other thread ever holds a lock. *)
#[global] Instance eta_kernel : Eta (Kernel sim) :=
    λ r, Build_Kernel sim (@k_PAGE_SIZE sim r) (@k_PAGE_SHIFT sim r)
    (@k_M2S_SYSREG_soft_reset_cr sim r) (@k_readl sim r) (@k_writel sim r)
    (@k_spin_lock_init sim r) (@k_spin_lock_irqsave sim r) (@k_spin_trylock_irqsave sim r)
    (@k_spin_unlock_irqrestore sim r) (@k_down_interruptible sim r) (@k_down sim r) (@k_up
    sim r) (@k_wait_event_sleep sim r) (@k_wake_up_interruptible sim r) (@k_poll_wait sim r)
    (@k_irq_taken sim r) (@k_udelay sim r) (@k_copy_from_user sim r) (@k_copy_to_user sim r)
    (@k_get_user_words sim r) (@k_put_user_words sim r) (@k_stack_words sim r)
    (@k_dma_map_single sim r) (@k_dma_mapping_error sim r) (@k_dma_unmap_single sim r)
    (@k_remap_pfn_range sim r) (@k_ioremap sim r) (@k_iounmap sim r) (@k_vmalloc sim r)
    (@k_vfree sim r) (@k_gpio_request sim r) (@k_gpio_direction_output sim r)
    (@k_gpio_direction_input sim r) (@k_gpio_free sim r) (@k_gpio_set_value sim r)
    (@k_gpio_get_value sim r).
Definition unlocked_kernel : Kernel sim := sim_kernel
  <| @k_spin_trylock_irqsave sim := λ l w, (Some 0, emit (EvLock l) w) |>.

#[global] Instance sim_traced : Traced m_trace.
Proof.
  split; intros; cbn; try done.
  destruct (decide _); cbn; [by rewrite app_nil_r | done].
Qed.

#[global] Instance sim_ledger : Ledger sim_held.
Proof.
  split; intros; try (subst a); pose proof (sim_pages_range w); cbn; unfold grant, grant_value, give, take_back, asked,
    sim_held, upd, emit;
    repeat match goal with
    | |- context [if ?b then _ else _] => destruct b eqn:?; cbn in *
    end; try done; lia.
Qed.

Definition sim_mem (w : sim) (a : Z) : Z := default 0 (m_mem w !! a).

Lemma copy_bytes_spec n to from m a :
  disjoint_ranges to from (Z.of_nat n) →
  default 0 (copy_bytes n to from m !! a) =
    if decide (to ≤ a < to + Z.of_nat n) then default 0 (m !! (from + (a - to)))
    else default 0 (m !! a).
Proof.
  revert to from m. induction n as [|n IH]; intros to from m Hd; cbn [copy_bytes].
  { rewrite decide_False by lia. done. }
  unfold disjoint_ranges in *. rewrite IH by lia.
  destruct (decide (to = a)) as [<- |].
  - rewrite decide_False by lia. rewrite decide_True by lia.
    rewrite lookup_insert_eq. cbn. by rewrite Z.sub_diag, Z.add_0_r.
  - destruct (decide (to + 1 ≤ a < to + 1 + Z.of_nat n)).
    + rewrite decide_True by lia. rewrite lookup_insert_ne by lia.
      by replace (from + 1 + (a - (to + 1))) with (from + (a - to)) by lia.
    + rewrite decide_False by lia. by rewrite lookup_insert_ne.
Qed.

#[global] Instance sim_byte_memory : ByteMemory sim_mem.
Proof.
  split; intros to from n w a Hn Hd _; unfold sim_mem; cbn;
    rewrite copy_bytes_spec; by rewrite Z2Nat.id.
Qed.

(** ** A freshly loaded driver *)

Definition zero_params : params :=
  Build_params 0 0 0 0 0 0 0 0 0 0 0 0 0 0 0 0 0 0 0 0 0 0.
Definition zero_pdma : pdma_device_t :=
  Build_pdma_device_t 0x40003000 9 (zero_chan <$> [0; 1; 2; 3; 4; 5; 6; 7]).
Definition zero_wb : whitebox_device := Build_whitebox_device WDS_IDLE
  (Build_whitebox_platform_data_t 1 2 3 4 5 6 7 8 9 10 11 12 13 14 15 16 17 0 1)
  0 (replicate 6 0) (replicate 10 0) 0 0 zero_buf
  (Build_whitebox_mock_exciter zero_exciter 0 0 (replicate 128 0))
  (Build_whitebox_mock_receiver zero_receiver 0 0)
  zero_exciter zero_receiver 0
  (Build_whitebox_user_source 0 0 0 zero_buf)
  (Build_whitebox_user_sink 0 0 0 zero_buf)
  (Build_whitebox_rf_source 0 0 zero_dma None Real)
  (Build_whitebox_rf_sink 0 0 zero_dma None Real)
  zero_stats zero_stats.
Definition sim_sys : sys sim := Sys zero_params zero_pdma 0 zero_wb sim0.

(** A probed device: 16 KiB rings, the buffer at a page of its own. *)
Definition sim_params : params :=
  zero_params <| whitebox_user_order := 3 |> <| whitebox_mock_order := 2 |>
    <| whitebox_exciter_quantum := 256 |> <| whitebox_receiver_quantum := 256 |>
    <| whitebox_frame_size := 128 |> <| whitebox_user_source_buffer_threshold := 8 |>.
Definition ready_exciter (regs : Z) (ops : ops_table) : whitebox_exciter :=
  zero_exciter <| ex_regs := regs |> <| ex_ops := Some ops |>.
Definition ready_receiver (regs : Z) (ops : ops_table) : whitebox_receiver :=
  zero_receiver <| rv_regs := regs |> <| rv_ops := Some ops |>.
Definition sim_device : whitebox_device := zero_wb
  <| wb_user_buffer := 0x10000000 |>
  <| wb_mock_buf := Build_circ_buf 0x18000000 0 0 |>
  <| wb_mock_exciter := Build_whitebox_mock_exciter (ready_exciter 0x30000000 mock_ops) (2 ^ 14) 2
       (replicate 128 0) |>
  <| wb_mock_receiver := Build_whitebox_mock_receiver (ready_receiver 0x30001000 mock_ops) (2 ^ 14) 2 |>
  <| wb_exciter := ready_exciter 0x40050400 real_ops |>
  <| wb_receiver := ready_receiver 0x40050500 real_ops |>.
