(* ===== verification/Pdma.v ===== *)
(** * The peripheral DMA driver ([driver/pdma.c], [driver/pdma.h])

    Eight channels, each with two transfer slots A and B that are used in turn.
    The file holds the channel operations, the interrupt handler with its
    call-back into the client, and the statistics ring shown in debugfs. *)

From S2P Require Import Prelude Kernel State.

(** ** Register layout ([struct pdma_regs_t], [pdma.h]) *)

Definition PDMA_CONTROL_PER_SEL_FPGA1 : Z := 8 <<< 23.
Definition PDMA_CONTROL_PER_SEL_FPGA0 : Z := 9 <<< 23.
Definition PDMA_CONTROL_DST_ADDR_INC_0 : Z := 0 <<< 12.
Definition PDMA_CONTROL_DST_ADDR_INC_4 : Z := 3 <<< 12.
Definition PDMA_CONTROL_SRC_ADDR_INC_0 : Z := 0 <<< 10.
Definition PDMA_CONTROL_SRC_ADDR_INC_4 : Z := 3 <<< 10.
Definition PDMA_CONTROL_CLR_B : Z := 1 <<< 8.
Definition PDMA_CONTROL_CLR_A : Z := 1 <<< 7.
Definition PDMA_CONTROL_INTEN : Z := 1 <<< 6.
Definition PDMA_CONTROL_RESET : Z := 1 <<< 5.
Definition PDMA_CONTROL_PAUSE : Z := 1 <<< 4.
Definition PDMA_CONTROL_XFER_SIZE_4B : Z := 2 <<< 2.
Definition PDMA_CONTROL_DIR_PERIPH_TO_MEM : Z := 0 <<< 1.
Definition PDMA_CONTROL_DIR_MEM_TO_PERIPH : Z := 1 <<< 1.
Definition PDMA_CONTROL_PERIPH : Z := 1 <<< 0.
Definition PDMA_STATUS_CH_COMP_B : Z := 1 <<< 1.
Definition PDMA_STATUS_CH_COMP_A : Z := 1 <<< 0.

Definition PDMA_CHANNEL_BUFFER_STOPPED : Z := 0.
Definition PDMA_CHANNEL_BUFFER_STARTED : Z := 1.
Definition PDMA_CHANNEL_NEXT_A : Z := 0.
Definition PDMA_CHANNEL_NEXT_B : Z := 1.
Definition PDMA_SNAPS_COUNT : Z := 64.
Definition PERIPHERAL_DMA_SOFT_RESET : Z := 1 <<< 5.

(** The SysTick counter register ([STCVR]). *)
Definition STCVR_addr : Z := 0xE000E018.

(** Offsets in [struct pdma_regs_t]: eight words, then the channels, each of
    eight words [control, status, (src, dst, cnt) x 2]. *)
Definition pdma_ratio (base : Z) : Z := base.
Definition pdma_status (base : Z) : Z := base + 0x04.
Definition pdma_chan (base ch : Z) : Z := base + 0x20 + 0x20 * ch.
Definition pdma_chan_control (base ch : Z) : Z := pdma_chan base ch.
Definition pdma_chan_status (base ch : Z) : Z := pdma_chan base ch + 0x04.
Definition pdma_buf_src (base ch i : Z) : Z := pdma_chan base ch + 0x08 + 0x0c * i.
Definition pdma_buf_dst (base ch i : Z) : Z := pdma_chan base ch + 0x0c + 0x0c * i.
Definition pdma_buf_cnt (base ch i : Z) : Z := pdma_chan base ch + 0x10 + 0x0c * i.

Definition stopped (b : pdma_channel_buffer_status_t) : bool :=
  pb_status b =? PDMA_CHANNEL_BUFFER_STOPPED.

Definition zero_snapshot : pdma_channel_snapshot :=
  Build_pdma_channel_snapshot 0 0 0 0 0 0 0 0 0 0 0 0 0 0 0 0 0.
Definition zero_pdma_stats : pdma_channel_stats := {|
  ps_bytes := 0; ps_xfers_started := 0; ps_xfers_completed := 0;
  ps_snaps := replicate (Z.to_nat PDMA_SNAPS_COUNT) zero_snapshot; ps_snaps_index := 0
|}.

Section pdma.
Context {W : Type} `{!Kernel W}.
Abbreviation P := (M (sys W)).

Definition pdma_regs : P Z := gets (λ s, pd_regs (s_pdma s)).

(** [pdma_device->channel[ch]], read and written in place. *)
Definition get_channel (ch : Z) : P pdma_channel_t :=
  l ← gets (λ s, pd_channel (s_pdma s)); get_index l ch.
Definition upd_channel (ch : Z) (f : pdma_channel_t → pdma_channel_t) : P () :=
  c ← get_channel ch;
  modify (λ s, s <| s_pdma ::=
    λ p, p <| pd_channel ::= λ l, <[Z.to_nat ch := f c]> l |> |>).

Definition d_printk_pdma_ch (level channel : Z) : P () :=
  base ← pdma_regs;
  pdma_d_printk level (
    _ ← readl (pdma_ratio base);
    _ ← readl (pdma_status base);
    _ ← readl (pdma_chan_control base channel);
    _ ← readl (pdma_chan_status base channel);
    _ ← readl (pdma_buf_src base channel 0);
    _ ← readl (pdma_buf_dst base channel 0);
    _ ← readl (pdma_buf_cnt base channel 0);
    _ ← readl (pdma_buf_src base channel 1);
    _ ← readl (pdma_buf_dst base channel 1);
    _ ← readl (pdma_buf_cnt base channel 1);
    mret ()).

Definition pdma_set_priority_ratio (ratio : Z) : P Z :=
  base ← pdma_regs;
  writel (pdma_ratio base) ratio;; mret 0.

(** Takes a picture of the bookkeeping and of the device registers. *)
Definition pdma_snap_channel (ci : Z) : P () :=
  base ← pdma_regs;
  channel ← get_channel ci;
  let ch := pc_channel channel in
  time ← readl STCVR_addr;
  control ← readl (pdma_chan_control base ch);
  status ← readl (pdma_chan_status base ch);
  a_src ← readl (pdma_buf_src base ch 0);
  a_dst ← readl (pdma_buf_dst base ch 0);
  a_cnt ← readl (pdma_buf_cnt base ch 0);
  b_src ← readl (pdma_buf_src base ch 1);
  b_dst ← readl (pdma_buf_dst base ch 1);
  b_cnt ← readl (pdma_buf_cnt base ch 1);
  let a := pc_buf_a channel in
  let b := pc_buf_b channel in
  let snap := {|
    sn_time := s32 time;
    sn_channel_buf_a_status := pb_status a; sn_channel_buf_a_src := pb_src a;
    sn_channel_buf_a_dst := pb_dst a; sn_channel_buf_a_cnt := pb_cnt a;
    sn_channel_buf_b_status := pb_status b; sn_channel_buf_b_src := pb_src b;
    sn_channel_buf_b_dst := pb_dst b; sn_channel_buf_b_cnt := pb_cnt b;
    sn_device_control := control; sn_device_status := status;
    sn_device_buf_a_src := a_src; sn_device_buf_a_dst := a_dst;
    sn_device_buf_a_cnt := u16 a_cnt;
    sn_device_buf_b_src := b_src; sn_device_buf_b_dst := b_dst;
    sn_device_buf_b_cnt := u16 b_cnt |} in
  let i := ps_snaps_index (pc_stats channel) in
  _ ← get_index (ps_snaps (pc_stats channel)) i;
  upd_channel ci (λ c, c <| pc_stats ::= λ st,
    st <| ps_snaps ::= λ l, <[Z.to_nat i := snap]> l |>
       <| ps_snaps_index := (i + 1) &&& (PDMA_SNAPS_COUNT - 1) |> |>);;
  pdma_d_printk 1 (
    _ ← readl (pdma_chan_control base ch);
    _ ← readl (pdma_buf_src base ch 1);
    _ ← readl (pdma_buf_dst base ch 1);
    _ ← readl (pdma_buf_cnt base ch 1);
    mret ()).

(** The slot selection and loading of [pdma_start], with the channel paused:
    slot B or slot A, or the fall-through busy case. *)
Definition pdma_start_load (base ch src dst cnt : Z) (channel : pdma_channel_t)
    : P Z :=
  if (pc_next channel =? PDMA_CHANNEL_NEXT_B) && stopped (pc_buf_b channel) then
    upd_channel ch (λ c, c <| pc_next := PDMA_CHANNEL_NEXT_A |>);;
    upd_channel ch (λ c, c <| pc_buf_b := {|
      pb_status := PDMA_CHANNEL_BUFFER_STARTED;
      pb_src := src; pb_dst := dst; pb_cnt := cnt |} |>);;
    writel (pdma_buf_src base ch 1) src;;
    writel (pdma_buf_dst base ch 1) dst;;
    when (pc_ping_pong channel =? 1) (
      writel (pdma_buf_cnt base ch 0) (pb_cnt (pc_buf_a channel));;
      upd_channel ch (λ c, c <| pc_ping_pong := 2 |>));;
    writel (pdma_buf_cnt base ch 1) cnt;;
    mret 1
  else if (pc_next channel =? PDMA_CHANNEL_NEXT_A) && stopped (pc_buf_a channel) then
    upd_channel ch (λ c, c <| pc_next := PDMA_CHANNEL_NEXT_B |>);;
    upd_channel ch (λ c, c <| pc_buf_a := {|
      pb_status := PDMA_CHANNEL_BUFFER_STARTED;
      pb_src := src; pb_dst := dst; pb_cnt := cnt |} |>);;
    writel (pdma_buf_src base ch 0) src;;
    writel (pdma_buf_dst base ch 0) dst;;
    when (negb (pc_ping_pong channel =? 1))
      (writel (pdma_buf_cnt base ch 0) cnt);;
    mret 0
  else mret (- EBUSY).

(** [ch] is a [u8], [src] and [dst] are [u32], [cnt] is a [u16]. *)
Definition pdma_start (ch src dst cnt : Z) : P Z :=
  if 8 <=? ch then
    spin_unlock_irqrestore pdma_lock 0;; mret (- EINVAL)
  else
    flags ← spin_lock_irqsave pdma_lock;
    channel ← get_channel ch;
    if negb (nz (pc_in_use channel)) then
      spin_unlock_irqrestore pdma_lock flags;; mret (- EINVAL)
    else
      base ← pdma_regs;
      reg_or (pdma_chan_control base ch) PDMA_CONTROL_PAUSE;;
      ret ← (if negb (stopped (pc_buf_a channel)) && negb (stopped (pc_buf_b channel))
             then mret (- EBUSY)
             else pdma_start_load base ch src dst cnt channel);
      reg_and (pdma_chan_control base ch) (~: PDMA_CONTROL_PAUSE);;
      spin_unlock_irqrestore pdma_lock flags;;
      mret ret.

Definition pdma_buffers_available (ch : Z) : P Z :=
  if 8 <=? ch then mret (- EINVAL) else
  flags ← spin_lock_irqsave pdma_lock;
  channel ← get_channel ch;
  if negb (nz (pc_in_use channel)) then
    spin_unlock_irqrestore pdma_lock flags;; mret (- EINVAL)
  else
    base ← pdma_regs;
    reg_or (pdma_chan_control base ch) PDMA_CONTROL_PAUSE;;
    when ((pc_ping_pong channel =? 1) &&
          (pb_status (pc_buf_a channel) =? PDMA_CHANNEL_BUFFER_STARTED)) (
      writel (pdma_buf_cnt base ch 0) (pb_cnt (pc_buf_a channel));;
      upd_channel ch (λ c, c <| pc_ping_pong := 2 |>));;
    let result := 0 in
    let result := if stopped (pc_buf_a channel) then result + 1 else result in
    let result := if stopped (pc_buf_b channel) then result + 1 else result in
    reg_and (pdma_chan_control base ch) (~: PDMA_CONTROL_PAUSE);;
    spin_unlock_irqrestore pdma_lock flags;;
    mret result.

Definition pdma_clear (ch : Z) : P () :=
  if 8 <=? ch then mret () else
  flags ← spin_lock_irqsave pdma_lock;
  ping_pong ← param pdma_ping_pong;
  base ← pdma_regs;
  upd_channel ch (λ c, c <| pc_ping_pong := ping_pong |>
    <| pc_buf_a ::= λ b, b <| pb_status := PDMA_CHANNEL_BUFFER_STOPPED |> |>
    <| pc_buf_b ::= λ b, b <| pb_status := PDMA_CHANNEL_BUFFER_STOPPED |> |>
    <| pc_next := PDMA_CHANNEL_NEXT_A |>
    <| pc_stats := zero_pdma_stats |>);;
  upd_channel ch (λ c, c
    <| pc_buf_a ::= λ b, b <| pb_src := 0 |> <| pb_dst := 0 |> <| pb_cnt := 0 |> |>
    <| pc_buf_b ::= λ b, b <| pb_src := 0 |> <| pb_dst := 0 |> <| pb_cnt := 0 |> |>);;
  writel (pdma_chan_control base ch)
    (PDMA_CONTROL_RESET ||| PDMA_CONTROL_CLR_A ||| PDMA_CONTROL_CLR_B);;
  channel ← get_channel ch;
  writel (pdma_chan_control base ch)
    (u32 (pc_write_adj channel <<< 14) ||| pc_flags channel);;
  spin_unlock_irqrestore pdma_lock flags.

Definition pdma_request (ch : Z) (handler : option pdma_irq_handler)
    (user_data write_adj flags : Z) : P Z :=
  if 8 <=? ch then
    spin_unlock_irqrestore pdma_lock 0;; mret (- EINVAL)
  else
    irqflags ← spin_lock_irqsave pdma_lock;
    channel ← get_channel ch;
    if nz (pc_in_use channel) then
      spin_unlock_irqrestore pdma_lock irqflags;; mret (- EBUSY)
    else
      upd_channel ch (λ c, c <| pc_in_use := 1 |> <| pc_flags := flags |>
        <| pc_write_adj := write_adj |> <| pc_handler := handler |>
        <| pc_user_data := user_data |>);;
      pdma_clear ch;;
      spin_unlock_irqrestore pdma_lock irqflags;;
      mret 0.

Definition pdma_release (ch : Z) : P () :=
  flags ← spin_lock_irqsave pdma_lock;
  pdma_clear ch;;
  upd_channel ch (λ c, c <| pc_in_use := 0 |> <| pc_handler := None |>
    <| pc_user_data := 0 |>);;
  spin_unlock_irqrestore pdma_lock flags.

(** The compiled branch of [pdma_init] (the [#else] of its [#if 0]). *)
Definition pdma_init : P Z :=
  call_ (k_spin_lock_init pdma_lock);;
  reg_and k_M2S_SYSREG_soft_reset_cr (~: PERIPHERAL_DMA_SOFT_RESET);;
  for_loop 8 0 (λ ch, upd_channel ch (λ c, c <| pc_channel := ch |>
    <| pc_in_use := 0 |> <| pc_handler := None |> <| pc_user_data := 0 |>
    <| pc_buf_a ::= λ b, b <| pb_src := 0 |> <| pb_dst := 0 |> <| pb_cnt := 0 |> |>
    <| pc_buf_b ::= λ b, b <| pb_src := 0 |> <| pb_dst := 0 |> <| pb_cnt := 0 |> |>));;
  mret 0.

(** ** The interrupt handler

    [run_handler h data buf] is the indirect call through the channel's
    [handler] pointer. *)
Section irq.
Context (run_handler : pdma_irq_handler → Z → Z → P ()).

(** One iteration of the handler's loop; [buf] is the C local that survives
    from one channel to the next. *)
Definition pdma_irq_channel (status ch buf : Z) : P Z :=
  base ← pdma_regs;
  reg_or (pdma_chan_control base ch) PDMA_CONTROL_PAUSE;;
  buf ← (if nz (status &&& (1 <<< (ch * 2))) then
           d_printk_pdma_ch 4 ch;;
           reg_or (pdma_chan_control base ch) PDMA_CONTROL_CLR_A;;
           upd_channel ch (λ c, c <| pc_buf_a ::= λ b,
             b <| pb_status := PDMA_CHANNEL_BUFFER_STOPPED |> |>);;
           mret 0
         else mret buf);
  buf ← (if nz (status &&& (2 <<< (ch * 2))) then
           d_printk_pdma_ch 4 ch;;
           reg_or (pdma_chan_control base ch) PDMA_CONTROL_CLR_B;;
           upd_channel ch (λ c, c <| pc_buf_b ::= λ b,
             b <| pb_status := PDMA_CHANNEL_BUFFER_STOPPED |> |>);;
           mret 1
         else mret buf);
  channel ← get_channel ch;
  (if nz (status &&& (3 <<< (ch * 2))) then
     match pc_handler channel with
     | Some h => run_handler h (pc_user_data channel) buf
     | None => mret ()
     end
   else mret ());;
  reg_and (pdma_chan_control base ch) (~: PDMA_CONTROL_PAUSE);;
  mret buf.

Fixpoint pdma_irq_loop (n : nat) (status ch buf : Z) : P () :=
  match n with
  | O => mret ()
  | S n' =>
      buf' ← pdma_irq_channel status ch buf;
      pdma_irq_loop n' status (ch + 1) buf'
  end.

Definition pdma_irq_cb : P () :=
  flags ← spin_lock_irqsave pdma_lock;
  base ← pdma_regs;
  status ← readl (pdma_status base);
  pdma_irq_loop 8 status 0 (-1);;
  spin_unlock_irqrestore pdma_lock flags.
End irq.

(** ** debugfs: the snapshots of channel 0, oldest first *)

Inductive show_line := ShowA (sn : pdma_channel_snapshot)
                     | ShowB (sn : pdma_channel_snapshot).

Fixpoint pdma_show_loop (n : nat) (i : Z) (st : pdma_channel_stats)
    : P (list show_line) :=
  match n with
  | O => mret []
  | S n' =>
      let offset := (ps_snaps_index st + i) &&& (PDMA_SNAPS_COUNT - 1) in
      snap ← get_index (ps_snaps st) offset;
      rest ← pdma_show_loop n' (i + 1) st;
      mret (if sn_time snap =? 0 then rest else ShowA snap :: ShowB snap :: rest)
  end.

Definition pdma_channel_show : P (list show_line) :=
  let ch := 0 in
  flags ← spin_lock_irqsave pdma_lock;
  base ← pdma_regs;
  reg_or (pdma_chan_control base ch) PDMA_CONTROL_PAUSE;;
  channel ← get_channel ch;
  lines ← pdma_show_loop (Z.to_nat PDMA_SNAPS_COUNT) 0 (pc_stats channel);
  reg_and (pdma_chan_control base ch) (~: PDMA_CONTROL_PAUSE);;
  spin_unlock_irqrestore pdma_lock flags;;
  mret lines.
End pdma.
