(* ===== verification/PdmaSpec.v ===== *)
(** * Correctness of the PDMA driver

    The bookkeeping of every channel operation as a pure function of the channel,
    the refinement of a channel to a two-place queue of transfers, the interrupt
    handler, request and release, and the snapshot ring of debugfs. *)

From S2P Require Import Prelude Kernel State Pdma Sim.


(** ** Channels in a state

    [chan_at ch c p]: channel [ch] of the device [p] is [c].  [set_chan ch c p]
    replaces it.  The bookkeeping effect of every operation is such a
    replacement. *)

Definition chan_at (ch : Z) (c : pdma_channel_t) (p : pdma_device_t) : Prop :=
  0 ≤ ch ∧ pd_channel p !! Z.to_nat ch = Some c.
Definition set_chan (ch : Z) (c : pdma_channel_t) (p : pdma_device_t) : pdma_device_t :=
  {| pd_regs := pd_regs p; pd_irq := pd_irq p;
     pd_channel := <[Z.to_nat ch := c]> (pd_channel p) |}.

Lemma chan_at_set ch c c' p : chan_at ch c p → chan_at ch c' (set_chan ch c' p).
Proof.
  intros [? H]. split; [done |]. unfold set_chan, pd_channel. apply list_lookup_insert_eq.
  by eapply lookup_lt_Some.
Qed.
Lemma chan_at_set_ne ch ch' c c' p :
  0 ≤ ch' → ch ≠ ch' → chan_at ch c p → chan_at ch c (set_chan ch' c' p).
Proof. intros ?? [? H]. split; [done |]. unfold set_chan, pd_channel. rewrite list_lookup_insert_ne; [done | lia]. Qed.
Lemma set_chan_set ch c c' p : set_chan ch c (set_chan ch c' p) = set_chan ch c p.
Proof. unfold set_chan, pd_channel. by rewrite list_insert_insert_eq. Qed.
Lemma set_chan_id ch c p : chan_at ch c p → set_chan ch c p = p.
Proof. intros [? H]. unfold set_chan. rewrite list_insert_id by done. by destruct p. Qed.
Lemma chan_at_fun ch c c' p : chan_at ch c p → chan_at ch c' p → c = c'.
Proof. intros [? H] [? H']. congruence. Qed.
#[export] Hint Resolve chan_at_set : runs.

Section runs_pdma.
Context {W : Type} `{!Kernel W}.

Lemma runs_pdma_regs pr p uc wb (w : W) :
  runs pdma_regs (Sys pr p uc wb w) (pd_regs p) (Sys pr p uc wb w).
Proof. done. Qed.
Lemma runs_get_channel ch c pr p uc wb (w : W) :
  chan_at ch c p → runs (get_channel ch) (Sys pr p uc wb w) c (Sys pr p uc wb w).
Proof. intros [??]. unfold get_channel. eapply runs_bind; [done |]. by apply runs_get_index. Qed.
Lemma runs_upd_channel ch f c pr p uc wb (w : W) :
  chan_at ch c p →
  runs (upd_channel ch f) (Sys pr p uc wb w) () (Sys pr (set_chan ch (f c) p) uc wb w).
Proof.
  intros Hc. unfold upd_channel. eapply runs_bind; [by apply runs_get_channel | done].
Qed.
End runs_pdma.
#[export] Hint Resolve runs_pdma_regs runs_get_channel runs_upd_channel : runs.

(** Computations that only read registers. *)
Section silent.
Context {W : Type} `{!Kernel W}.

Definition silent (m : M (sys W) ()) : Prop := emits m [].
Definition world_after (m : M (sys W) ()) (s : sys W) : W :=
  match m s with Done _ s' => s_world s' | _ => s_world s end.
Lemma silent_runs m pr p uc wb w :
  silent m → runs m (Sys pr p uc wb w) () (Sys pr p uc wb (world_after m (Sys pr p uc wb w))).
Proof.
  intros Hm. destruct (Hm pr p uc wb w) as (w' & Hr & _).
  unfold world_after. by rewrite Hr.
Qed.

Lemma silent_pdma_d_printk l m : silent m → silent (pdma_d_printk l m).
Proof.
  intros Hm pr p uc wb w. unfold pdma_d_printk.
  destruct (l <=? pdma_debug pr) eqn:E.
  - destruct (Hm pr p uc wb w) as (w' & Hr & Ht). exists w'. split; [| done].
    eapply runs_bind; [apply runs_param |]. cbv beta. by rewrite E.
  - exists w. split; [| intros; by rewrite app_nil_r].
    eapply runs_bind; [apply runs_param |]. cbv beta. by rewrite E.
Qed.
Lemma silent_d_printk_pdma_ch l ch : silent (d_printk_pdma_ch l ch).
Proof.
  intros pr p uc wb w. unfold d_printk_pdma_ch.
  edestruct silent_pdma_d_printk as (w' & Hr & Ht); last first.
  - exists w'. split; [eapply runs_bind; [apply runs_pdma_regs | apply Hr] | done].
  - repeat (apply emits_readl; intros _). apply emits_ret.
Qed.
End silent.

(** ** Bookkeeping of the operations

    What each operation does to its channel, what it returns, and the transfer
    registers it writes. *)

Definition transfer (src dst cnt : Z) : pdma_channel_buffer_status_t := {|
  pb_src := src; pb_dst := dst; pb_cnt := cnt; pb_status := PDMA_CHANNEL_BUFFER_STARTED |}.

Definition takes_b (c : pdma_channel_t) : bool :=
  (pc_next c =? PDMA_CHANNEL_NEXT_B) && stopped (pc_buf_b c).
Definition takes_a (c : pdma_channel_t) : bool :=
  (pc_next c =? PDMA_CHANNEL_NEXT_A) && stopped (pc_buf_a c).

Definition chan_start (src dst cnt : Z) (c : pdma_channel_t) : Z * pdma_channel_t :=
  if takes_b c then
    (1, c <| pc_next := PDMA_CHANNEL_NEXT_A |> <| pc_buf_b := transfer src dst cnt |>
          <| pc_ping_pong ::= λ x, if x =? 1 then 2 else x |>)
  else if takes_a c then
    (0, c <| pc_next := PDMA_CHANNEL_NEXT_B |> <| pc_buf_a := transfer src dst cnt |>)
  else (- EBUSY, c).

(** The registers loaded: source and destination first, the count, which arms the
    transfer, last.  In ping-pong mode A is armed only once B is loaded. *)
Definition start_writes (base ch src dst cnt : Z) (c : pdma_channel_t) : list io_event :=
  if takes_b c then
    [EvWrite (pdma_buf_src base ch 1) src; EvWrite (pdma_buf_dst base ch 1) dst] ++
    (if pc_ping_pong c =? 1 then [EvWrite (pdma_buf_cnt base ch 0) (pb_cnt (pc_buf_a c))]
     else []) ++ [EvWrite (pdma_buf_cnt base ch 1) cnt]
  else if takes_a c then
    [EvWrite (pdma_buf_src base ch 0) src; EvWrite (pdma_buf_dst base ch 0) dst] ++
    (if pc_ping_pong c =? 1 then [] else [EvWrite (pdma_buf_cnt base ch 0) cnt])
  else [].

Definition chan_available (c : pdma_channel_t) : Z :=
  (if stopped (pc_buf_a c) then 1 else 0) + (if stopped (pc_buf_b c) then 1 else 0).

(** The operations reject a channel that is not in use. *)
Definition in_use (c : pdma_channel_t) : bool := nz (pc_in_use c).
Definition op_start (src dst cnt : Z) (c : pdma_channel_t) : Z * pdma_channel_t :=
  if in_use c then chan_start src dst cnt c else (- EINVAL, c).

(** [pdma_buffers_available] arms a waiting ping-pong transfer. *)
Definition chan_arms (c : pdma_channel_t) : bool :=
  (pc_ping_pong c =? 1) && (pb_status (pc_buf_a c) =? PDMA_CHANNEL_BUFFER_STARTED).
Definition chan_armed (c : pdma_channel_t) : pdma_channel_t :=
  if chan_arms c then c <| pc_ping_pong := 2 |> else c.

Definition op_available (c : pdma_channel_t) : Z * pdma_channel_t :=
  if in_use c then (chan_available c, chan_armed c) else (- EINVAL, c).

Definition chan_cleared (ping_pong : Z) (c : pdma_channel_t) : pdma_channel_t :=
  c <| pc_ping_pong := ping_pong |> <| pc_buf_a := zero_slot |> <| pc_buf_b := zero_slot |>
    <| pc_next := PDMA_CHANNEL_NEXT_A |> <| pc_stats := zero_pdma_stats |>.

Ltac finish := eexists; split;
  [ eapply runs_eq;
    [ runs_tac | done
    | rewrite ?set_chan_set; unfold upd; cbn;
      rewrite ?(set_chan_id _ _ _ ltac:(eassumption));
      repeat match goal with H : @eq bool _ _ |- _ => rewrite H end; done ]
  | intros ??; rewrite ?app_nil_r; autorewrite with trace; rewrite <- ?app_assoc; try done ].

Section runs_ops.
Context {W : Type} `{!Kernel W}.
Implicit Types (w : W).

Lemma pdma_start_load_runs base ch src dst cnt c pr p uc wb w :
  chan_at ch c p →
  ∃ w', runs (pdma_start_load base ch src dst cnt c) (Sys pr p uc wb w)
    (chan_start src dst cnt c).1
    (Sys pr (set_chan ch (chan_start src dst cnt c).2 p) uc wb w') ∧
    ∀ trace, Traced trace → trace w' = trace w ++ start_writes base ch src dst cnt c.
Proof.
  intros Hc. unfold pdma_start_load, chan_start, start_writes.
  change ((pc_next c =? _) && stopped (pc_buf_b c)) with (takes_b c).
  change ((pc_next c =? _) && stopped (pc_buf_a c)) with (takes_a c).
  destruct (takes_b c), (pc_ping_pong c =? 1) eqn:E, (takes_a c); finish.
Qed.

(** Everything [pdma_start] does, on every branch: the result, the channel and
    the exact sequence of hardware accesses. *)
Lemma pdma_start_runs ch src dst cnt c pr p uc wb w :
  ch < 8 → chan_at ch c p →
  ∃ w' v v' fl, runs (pdma_start ch src dst cnt) (Sys pr p uc wb w)
    (op_start src dst cnt c).1
    (Sys pr (set_chan ch (op_start src dst cnt c).2 p) uc wb w') ∧
    ∀ trace, Traced trace → trace w' = trace w ++ [EvLock pdma_lock] ++
      (if in_use c then
         [EvWrite (pdma_chan_control (pd_regs p) ch) (v ||| PDMA_CONTROL_PAUSE)] ++
         start_writes (pd_regs p) ch src dst cnt c ++
         [EvWrite (pdma_chan_control (pd_regs p) ch) (v' &&& ~: PDMA_CONTROL_PAUSE)]
       else []) ++ [EvUnlock pdma_lock fl].
Proof.
  intros Hch Hc. unfold pdma_start, op_start.
  destruct (8 <=? ch) eqn:E8; [lia |].
  destruct (in_use c) eqn:Hu; unfold in_use in Hu.
  2: { eexists _, 0, 0, _. split.
    - eapply runs_eq; [| done |].
      + runs_step. runs_step. rewrite Hu. runs_tac.
      + by rewrite set_chan_id.
    - intros ??. autorewrite with trace. by rewrite <- app_assoc. }
  set (base := pd_regs p).
  set (fl := (k_spin_lock_irqsave pdma_lock w).1).
  set (w1 := (k_spin_lock_irqsave pdma_lock w).2).
  set (v := (k_readl (pdma_chan_control base ch) w1).1).
  set (w2 := k_writel (pdma_chan_control base ch) (v ||| PDMA_CONTROL_PAUSE)
    (k_readl (pdma_chan_control base ch) w1).2).
  assert (∃ w3, runs (if negb (stopped (pc_buf_a c)) && negb (stopped (pc_buf_b c))
      then mret (- EBUSY) else pdma_start_load base ch src dst cnt c)
      (Sys pr p uc wb w2) (chan_start src dst cnt c).1
      (Sys pr (set_chan ch (chan_start src dst cnt c).2 p) uc wb w3) ∧
      ∀ trace, Traced trace → trace w3 = trace w2 ++ start_writes base ch src dst cnt c)
    as (w3 & Hr & Ht).
  { destruct (negb _ && negb _) eqn:Eb; [| by apply pdma_start_load_runs].
    exists w2. unfold chan_start, start_writes, takes_a, takes_b.
    apply andb_prop in Eb as [->%negb_true_iff ->%negb_true_iff].
    rewrite !andb_false_r. cbn. rewrite set_chan_id by done.
    split; [done | intros; by rewrite app_nil_r]. }
  eexists _, v, _, fl. split.
  - eapply runs_eq; [| done | done].
    runs_step. runs_step. rewrite Hu. runs_step. runs_step.
    eapply runs_bind; [apply Hr |]. runs_tac.
  - intros ??. autorewrite with trace. rewrite Ht by done. subst w2 w1.
    autorewrite with trace. by rewrite <- !app_assoc.
Qed.

Lemma pdma_buffers_available_runs ch c pr p uc wb w :
  ch < 8 → chan_at ch c p →
  ∃ w', runs (pdma_buffers_available ch) (Sys pr p uc wb w) (op_available c).1
    (Sys pr (set_chan ch (op_available c).2 p) uc wb w').
Proof.
  intros Hch Hc. unfold pdma_buffers_available, op_available.
  destruct (8 <=? ch) eqn:E8; [lia |].
  destruct (in_use c) eqn:Hu; unfold in_use in Hu.
  2: { eexists. eapply runs_eq; [| done | by rewrite set_chan_id].
    runs_step. runs_step. rewrite Hu. runs_tac. }
  unfold chan_armed, chan_available. destruct (chan_arms c) eqn:Ha; unfold chan_arms in Ha.
  all: eexists; eapply runs_eq;
    [ runs_step; runs_step; rewrite Hu; runs_step; runs_step; rewrite Ha; runs_tac
    | by destruct (stopped (pc_buf_a c)), (stopped (pc_buf_b c))
    | first [done | by rewrite set_chan_id] ].
Qed.

Lemma pdma_clear_runs ch c pr p uc wb w :
  ch < 8 → chan_at ch c p →
  ∃ w', runs (pdma_clear ch) (Sys pr p uc wb w) ()
    (Sys pr (set_chan ch (chan_cleared (pdma_ping_pong pr) c) p) uc wb w').
Proof.
  intros Hch Hc. unfold pdma_clear. destruct (8 <=? ch) eqn:E8; [lia |].
  eexists. eapply runs_eq; [runs_tac | done | by rewrite !set_chan_set].
Qed.

Lemma pdma_clear_out_of_range ch pr p uc wb w :
  8 ≤ ch → runs (pdma_clear ch) (Sys pr p uc wb w) () (Sys pr p uc wb w).
Proof. intros. unfold pdma_clear. by destruct (8 <=? ch) eqn:E8; [| lia]. Qed.
End runs_ops.

Definition chan_requested (handler : option pdma_irq_handler) (user_data write_adj flags : Z)
    (c : pdma_channel_t) : pdma_channel_t :=
  c <| pc_in_use := 1 |> <| pc_flags := flags |> <| pc_write_adj := write_adj |>
    <| pc_handler := handler |> <| pc_user_data := user_data |>.
Definition op_request handler user_data write_adj flags ping_pong c : Z * pdma_channel_t :=
  if in_use c then (- EBUSY, c)
  else (0, chan_cleared ping_pong (chan_requested handler user_data write_adj flags c)).
Definition chan_released (ping_pong : Z) (c : pdma_channel_t) : pdma_channel_t :=
  chan_cleared ping_pong c <| pc_in_use := 0 |> <| pc_handler := None |> <| pc_user_data := 0 |>.

Section runs_request.
Context {W : Type} `{!Kernel W}.
Implicit Types (w : W).

Lemma pdma_request_runs ch h d adj fl c pr p uc wb w :
  ch < 8 → chan_at ch c p →
  let r := op_request h d adj fl (pdma_ping_pong pr) c in
  ∃ w', runs (pdma_request ch h d adj fl) (Sys pr p uc wb w) r.1
    (Sys pr (set_chan ch r.2 p) uc wb w').
Proof.
  intros Hch Hc. cbv zeta. unfold pdma_request, op_request, in_use.
  destruct (8 <=? ch) eqn:E8; [lia |].
  destruct (nz (pc_in_use c)) eqn:Hu.
  - eexists. eapply runs_eq; [| done | by rewrite set_chan_id].
    do 2 runs_step. rewrite Hu. runs_tac.
  - edestruct (pdma_clear_runs ch) as [w1 H1]; [done | by eapply chan_at_set |].
    eexists. eapply runs_eq; [| done |].
    + do 2 runs_step. rewrite Hu. runs_step.
      eapply runs_bind; [apply H1 |]. runs_tac.
    + by rewrite set_chan_set.
Qed.

Lemma pdma_release_runs ch c pr p uc wb w :
  ch < 8 → chan_at ch c p →
  ∃ w', runs (pdma_release ch) (Sys pr p uc wb w) ()
    (Sys pr (set_chan ch (chan_released (pdma_ping_pong pr) c) p) uc wb w').
Proof.
  intros Hch Hc. unfold pdma_release.
  edestruct (pdma_clear_runs ch) as [w1 H1]; [done.. |].
  eexists. eapply runs_eq; [| done |].
  - runs_step. eapply runs_bind; [apply H1 |]. runs_tac.
  - by rewrite set_chan_set.
Qed.
End runs_request.

(** ** A channel is a two-place queue

    [holds_queue c q]: the transfers in flight on [c] are [q], oldest first; the
    [next] flag designates the slot after the newest. *)

Definition xfer : Type := Z * Z * Z.
Definition slot_of (t : xfer) : pdma_channel_buffer_status_t := transfer t.1.1 t.1.2 t.2.
Definition freed (b : pdma_channel_buffer_status_t) : pdma_channel_buffer_status_t :=
  b <| pb_status := PDMA_CHANNEL_BUFFER_STOPPED |>.

Definition holds_queue (c : pdma_channel_t) (q : list xfer) : Prop :=
  match q with
  | [] => stopped (pc_buf_a c) = true ∧ stopped (pc_buf_b c) = true ∧
      (pc_next c = PDMA_CHANNEL_NEXT_A ∨ pc_next c = PDMA_CHANNEL_NEXT_B)
  | [t] =>
      (pc_next c = PDMA_CHANNEL_NEXT_B ∧ pc_buf_a c = slot_of t ∧ stopped (pc_buf_b c) = true) ∨
      (pc_next c = PDMA_CHANNEL_NEXT_A ∧ pc_buf_b c = slot_of t ∧ stopped (pc_buf_a c) = true)
  | [t; u] =>
      (pc_next c = PDMA_CHANNEL_NEXT_A ∧ pc_buf_a c = slot_of t ∧ pc_buf_b c = slot_of u) ∨
      (pc_next c = PDMA_CHANNEL_NEXT_B ∧ pc_buf_b c = slot_of t ∧ pc_buf_a c = slot_of u)
  | _ => False
  end.

(** What a completion interrupt does to the channel: the slots whose completion
    bit is set are freed. *)
Definition chan_complete (a b : bool) (c : pdma_channel_t) : pdma_channel_t :=
  let c := if a then c <| pc_buf_a ::= freed |> else c in
  if b then c <| pc_buf_b ::= freed |> else c.

(** Slot of the oldest transfer in flight, [true] for A. *)
Definition oldest_is_a (c : pdma_channel_t) : bool :=
  if stopped (pc_buf_a c) then false
  else if stopped (pc_buf_b c) then true
  else pc_next c =? PDMA_CHANNEL_NEXT_A.

Ltac queue_crush :=
  unfold upd in *; cbn in *; destruct_and?; destruct_or?; destruct_and?;
  repeat match goal with
  | H : pc_next _ = _ |- _ => rewrite ?H in *; revert H
  | H : pc_buf_a _ = _ |- _ => rewrite ?H in *; revert H
  | H : pc_buf_b _ = _ |- _ => rewrite ?H in *; revert H
  end; intros; cbn in *; try done; eauto 8.

Lemma queue_start s d n c q :
  holds_queue c q → (length q < 2)%nat →
  holds_queue (chan_start s d n c).2 (q ++ [(s, d, n)]) ∧
  0 ≤ (chan_start s d n c).1 ≤ 1.
Proof.
  unfold chan_start, takes_a, takes_b. intros Hq Hl.
  destruct q as [|t [|u q]]; [| | cbn in Hl; lia].
  - destruct Hq as (Ha & Hb & [Hn | Hn]); rewrite Hn, ?Ha, ?Hb; cbn.
    + split; [| lia]. left. queue_crush.
    + split; [| lia]. right. queue_crush.
  - destruct Hq as [(Hn & Ha & Hb) | (Hn & Hb & Ha)]; rewrite Hn, ?Ha, ?Hb; cbn.
    + split; [| lia]. left. queue_crush.
    + split; [| lia]. right. queue_crush.
Qed.

Lemma queue_start_full s d n c q :
  holds_queue c q → length q = 2%nat → chan_start s d n c = (- EBUSY, c).
Proof.
  unfold chan_start, takes_a, takes_b. intros Hq Hl. destruct q as [|t [|u [|]]]; try done.
  destruct Hq as [(Hn & Ha & Hb) | (Hn & Hb & Ha)]; by rewrite Hn, Ha, Hb.
Qed.

Lemma queue_available c q :
  holds_queue c q → chan_available c = 2 - Z.of_nat (length q).
Proof.
  unfold chan_available. destruct q as [|t [|u [|]]]; try done; cbn.
  - by intros (-> & -> & _).
  - by intros [(_ & -> & ->) | (_ & -> & ->)].
  - by intros [(_ & -> & ->) | (_ & -> & ->)].
Qed.

Lemma holds_queue_length c q : holds_queue c q → (length q ≤ 2)%nat.
Proof. destruct q as [|t [|u [|]]]; cbn; try lia; done. Qed.

Lemma queue_armed c q : holds_queue c q → holds_queue (chan_armed c) q.
Proof. unfold chan_armed. by destruct (chan_arms c). Qed.

(** Completing the slot of the oldest transfer removes it; completing both
    empties the queue. *)
Lemma queue_complete_oldest c t q :
  holds_queue c (t :: q) →
  holds_queue (chan_complete (oldest_is_a c) (negb (oldest_is_a c)) c) q.
Proof.
  unfold chan_complete, oldest_is_a. destruct q as [|u [|]]; [| | done].
  - intros [(Hn & Ha & Hb) | (Hn & Hb & Ha)]; rewrite ?Ha, ?Hb, ?Hn; queue_crush.
  - intros [(Hn & Ha & Hb) | (Hn & Hb & Ha)]; rewrite ?Ha, ?Hb, ?Hn; cbn; queue_crush.
Qed.

Lemma queue_complete_both c q :
  holds_queue c q → holds_queue (chan_complete true true c) [].
Proof.
  unfold chan_complete. intros Hq. destruct q as [|t [|u [|]]]; try done; queue_crush.
Qed.

Lemma queue_cleared pp c : holds_queue (chan_cleared pp c) [].
Proof. by repeat split; left. Qed.

(** ** The interrupt handler *)

(** Running a prefix of a computation. *)
Lemma runs_bind_eq {S A B} (m : M S A) (f : A → M S B) s a s' :
  runs m s a s' → (m ≫= f) s = f a s'.
Proof. unfold runs, mbind, M_bind. by intros ->. Qed.

Definition comp_a (status ch : Z) : bool := nz (status &&& (1 <<< (ch * 2))).
Definition comp_b (status ch : Z) : bool := nz (status &&& (2 <<< (ch * 2))).

Lemma comp_either status ch :
  0 ≤ ch → nz (status &&& (3 <<< (ch * 2))) = comp_a status ch || comp_b status ch.
Proof.
  intros. unfold comp_a, comp_b, nz. change 3 with (1 ||| 2).
  rewrite Z.shiftl_lor, Z.land_lor_distr_r.
  apply Bool.eq_true_iff_eq. rewrite orb_true_iff, !negb_true_iff, !Z.eqb_neq.
  rewrite Z.lor_eq_0_iff. destruct (decide (status &&& 1 <<< (ch * 2) = 0)); tauto.
Qed.

(** The [buf] a channel's handler is given. *)
Definition irq_buf (a b : bool) (buf : Z) : Z := if b then 1 else if a then 0 else buf.

Section irq.
Context {W : Type} `{!Kernel W}.
Implicit Types (w : W).

Lemma pdma_irq_slot (bit : bool) ch clr (k k' : Z) f c pr p uc wb w :
  chan_at ch c p →
  ∃ w', runs (if bit then
      d_printk_pdma_ch 4 ch;;
      reg_or (pdma_chan_control (pd_regs p) ch) clr;;
      upd_channel ch f;; mret (M := M (sys W)) k
    else mret (M := M (sys W)) k') (Sys pr p uc wb w) (if bit then k else k')
    (Sys pr (set_chan ch (if bit then f c else c) p) uc wb w').
Proof.
  intros Hc. destruct bit.
  - destruct (silent_d_printk_pdma_ch 4 ch pr p uc wb w) as (w1 & H1 & _).
    eexists. eapply runs_eq; [eapply runs_bind; [apply H1 |]; runs_tac | done..].
  - exists w. by rewrite set_chan_id.
Qed.

(** One iteration of the handler: the completed slots are freed first, then the
    client's handler runs, once, with the number of the last completed slot.  The world
    it runs in does not depend on the handler. *)
Lemma pdma_irq_channel_uniform status ch buf c pr p uc wb w :
  chan_at ch c p →
  let a := comp_a status ch in
  let b := comp_b status ch in
  ∃ w', ∀ run_handler, pdma_irq_channel run_handler status ch buf (Sys pr p uc wb w) =
    ((match pc_handler c with
      | Some h => if a || b then run_handler h (pc_user_data c) (irq_buf a b buf)
                  else mret ()
      | None => mret ()
      end);;
     reg_and (pdma_chan_control (pd_regs p) ch) (~: PDMA_CONTROL_PAUSE);;
     mret (irq_buf a b buf))
    (Sys pr (set_chan ch (chan_complete a b c) p) uc wb w').
Proof.
  intros Hc a b. pose proof (proj1 Hc). unfold pdma_irq_channel.
  fold (comp_a status ch) (comp_b status ch). rewrite comp_either by done.
  fold a b.
  edestruct (pdma_irq_slot a ch PDMA_CONTROL_CLR_A 0 buf) as [w1 H1]; [done |].
  edestruct (pdma_irq_slot b ch PDMA_CONTROL_CLR_B 1 (if a then 0 else buf))
    as [w2 H2]; [by eapply chan_at_set |].
  eexists. intros run_handler. erewrite runs_bind_eq by apply runs_pdma_regs.
  erewrite runs_bind_eq by apply runs_reg_or.
  erewrite runs_bind_eq by apply H1. erewrite runs_bind_eq by apply H2.
  erewrite runs_bind_eq by (eapply runs_get_channel, chan_at_set, chan_at_set, Hc).
  rewrite set_chan_set. unfold chan_complete, irq_buf, freed.
  destruct a, b, (pc_handler c) eqn:E; cbn; by rewrite ?E.
Qed.
Lemma pdma_irq_channel_eq run_handler status ch buf c pr p uc wb w :
  chan_at ch c p →
  let a := comp_a status ch in
  let b := comp_b status ch in
  ∃ w', pdma_irq_channel run_handler status ch buf (Sys pr p uc wb w) =
    ((match pc_handler c with
      | Some h => if a || b then run_handler h (pc_user_data c) (irq_buf a b buf)
                  else mret ()
      | None => mret ()
      end);;
     reg_and (pdma_chan_control (pd_regs p) ch) (~: PDMA_CONTROL_PAUSE);;
     mret (irq_buf a b buf))
    (Sys pr (set_chan ch (chan_complete a b c) p) uc wb w').
Proof. intros Hc. destruct (pdma_irq_channel_uniform status ch buf c pr p uc wb w Hc) as [w' Hw]. eauto. Qed.
End irq.

(** ** The bookkeeping invariant *)

Definition flag01 (x : Z) : Prop := x = 0 ∨ x = 1.

Record chan_wf (ch : Z) (c : pdma_channel_t) : Prop := {
  wf_index : pc_channel c = ch;
  wf_in_use : flag01 (pc_in_use c);
  wf_handler : pc_in_use c = 0 → pc_handler c = None;
  wf_status_a : flag01 (pb_status (pc_buf_a c));
  wf_status_b : flag01 (pb_status (pc_buf_b c));
  wf_next : flag01 (pc_next c);
  wf_snaps : length (ps_snaps (pc_stats c)) = 64%nat;
  wf_snaps_index : 0 ≤ ps_snaps_index (pc_stats c) < 64;
}.

Record pdma_wf (p : pdma_device_t) : Prop := {
  wf_length : length (pd_channel p) = 8%nat;
  wf_chan ch c : chan_at ch c p → chan_wf ch c;
}.

Lemma chan_at_dec p ch : pdma_wf p → 0 ≤ ch < 8 → ∃ c, chan_at ch c p.
Proof.
  intros Hp ?. destruct (lookup_lt_is_Some_2 (pd_channel p) (Z.to_nat ch)) as [c Hc].
  - rewrite wf_length by done. lia.
  - exists c. split; [lia | done].
Qed.

Lemma chan_at_bound p ch c : pdma_wf p → chan_at ch c p → 0 ≤ ch < 8.
Proof.
  intros Hp [? Hc]. apply lookup_lt_Some in Hc. rewrite wf_length in Hc by done. lia.
Qed.

Lemma pdma_wf_set p ch c : pdma_wf p → 0 ≤ ch → chan_wf ch c → pdma_wf (set_chan ch c p).
Proof.
  intros Hp Hch Hc. split.
  - cbn. rewrite length_insert. by apply wf_length.
  - intros ch' c' Hc'. destruct (decide (ch' = ch)) as [-> | Hne].
    + assert (c' = c) as ->; [| done].
      destruct Hc' as [_ Hc']. cbn in Hc'.
      by apply list_lookup_insert_Some in Hc' as [(_ & <- & _) | (? & _)].
    + apply (wf_chan p); [done |]. destruct Hc' as [? Hc']. split; [done |].
      cbn in Hc'. rewrite list_lookup_insert_ne in Hc'; [done | lia].
Qed.

Ltac chan_wf_tac :=
  destruct_and?; unfold upd in *; split; cbn in *; unfold flag01 in *;
  auto; try (intros; congruence); try lia.

Section chan_wf.
Context (ch : Z) (c : pdma_channel_t) (Hc : chan_wf ch c).

Lemma chan_wf_op_start s d n : chan_wf ch (op_start s d n c).2.
Proof.
  unfold op_start, chan_start. destruct Hc.
  destruct (in_use c) eqn:?, (takes_b c), (takes_a c); chan_wf_tac.
Qed.
Lemma chan_wf_op_available : chan_wf ch (op_available c).2.
Proof.
  unfold op_available, chan_armed. destruct Hc.
  destruct (in_use c), (chan_arms c); chan_wf_tac.
Qed.
Lemma chan_wf_cleared pp : chan_wf ch (chan_cleared pp c).
Proof. destruct Hc. chan_wf_tac. Qed.
Lemma chan_wf_op_request h d a f pp : chan_wf ch (op_request h d a f pp c).2.
Proof. unfold op_request. destruct Hc. destruct (in_use c); chan_wf_tac. Qed.
Lemma chan_wf_released pp : chan_wf ch (chan_released pp c).
Proof. destruct Hc. chan_wf_tac. Qed.
Lemma chan_wf_complete a b : chan_wf ch (chan_complete a b c).
Proof. unfold chan_complete. destruct Hc. destruct a, b; chan_wf_tac. Qed.
End chan_wf.
#[export] Hint Resolve pdma_wf_set chan_wf_op_start chan_wf_op_available chan_wf_cleared
  chan_wf_op_request chan_wf_released chan_wf_complete : core.

(** An invariant that allows the PDMA bookkeeping to change while well formed. *)
Class PdmaStable {W} (I : sys W → Prop) : Prop := {
  pdma_stable_world :: WorldFree I;
  pdma_stable_wf s : I s → pdma_wf (s_pdma s);
  pdma_stable_set s p : I s → pdma_wf p → I (s <| s_pdma := p |>);
}.

Section keeps_pdma.
Context {W : Type} `{!Kernel W} (I : sys W → Prop) `{!PdmaStable I}.

(** An operation that only rewrites one channel keeps the invariant. *)
Lemma keeps_chan_op {A} ch (m : M (sys W) A) r :
  (∀ c pr p uc wb w, chan_at ch c p →
    ∃ w', runs m (Sys pr p uc wb w) (r pr c).1 (Sys pr (set_chan ch (r pr c).2 p) uc wb w')) →
  (∀ pr c, chan_wf ch c → chan_wf ch (r pr c).2) →
  0 ≤ ch < 8 → keeps I m.
Proof.
  intros Hm Hr Hch [pr p uc wb w] HI. pose proof (pdma_stable_wf _ HI) as Hp. cbn in Hp.
  destruct (chan_at_dec p ch Hp Hch) as [c Hc].
  destruct (Hm c pr p uc wb w Hc) as [w' ->]. cbn.
  apply (world_free (Sys pr _ uc wb w)).
  apply (pdma_stable_set (Sys pr p uc wb w)); [done |].
  apply pdma_wf_set; [done | lia |]. eapply Hr, wf_chan; eauto.
Qed.

Lemma keeps_pdma_start ch s d n : 0 ≤ ch → keeps I (pdma_start ch s d n).
Proof.
  intros. destruct (decide (ch < 8)).
  - apply (keeps_chan_op ch _ (λ _, op_start s d n)); [| intros; cbn; auto | lia].
    intros c pr p uc wb w Hc.
    destruct (pdma_start_runs ch s d n c pr p uc wb w) as (w' & ? & ? & ? & Hr & _); eauto.
  - unfold pdma_start. destruct (8 <=? ch) eqn:E; [| lia]. keeps_tac.
Qed.
(** The slot a transfer was put in. *)
Lemma pdma_start_slot ch s d n :
  0 ≤ ch → hoare I (pdma_start ch s d n) (λ r s, I s ∧ (r < 0 ∨ r = 0 ∨ r = 1)).
Proof.
  intros Hch st Hst. pose proof (keeps_pdma_start ch s d n Hch st Hst) as Hk.
  destruct (decide (ch < 8)).
  - destruct st as [pr p uc wb w]. pose proof (pdma_stable_wf _ Hst) as Hp. cbn in Hp.
    destruct (chan_at_dec p ch Hp) as [c Hc]; [lia |].
    destruct (pdma_start_runs ch s d n c pr p uc wb w) as (w' & ? & ? & ? & Hr & _); [done.. |].
    rewrite Hr in Hk |- *. cbn in Hk |- *. split; [done |].
    unfold op_start, chan_start, EINVAL, EBUSY.
    destruct (in_use c), (takes_b c), (takes_a c); cbn; lia.
  - unfold pdma_start in *. destruct (8 <=? ch) eqn:E; [| lia]. cbn in *.
    split; [done | left; done].
Qed.
Lemma keeps_pdma_buffers_available ch : 0 ≤ ch → keeps I (pdma_buffers_available ch).
Proof.
  intros. destruct (decide (ch < 8)).
  - apply (keeps_chan_op ch _ (λ _, op_available)); [| intros; cbn; auto | lia].
    intros. by apply pdma_buffers_available_runs.
  - unfold pdma_buffers_available. destruct (8 <=? ch) eqn:E; [| lia]. keeps_tac.
Qed.
Lemma keeps_pdma_clear ch : 0 ≤ ch → keeps I (pdma_clear ch).
Proof.
  intros. destruct (decide (ch < 8)).
  - apply (keeps_chan_op ch _ (λ pr c, ((), chan_cleared (pdma_ping_pong pr) c)));
      [| intros; cbn; auto | lia].
    intros. by apply pdma_clear_runs.
  - unfold pdma_clear. destruct (8 <=? ch) eqn:E; [| lia]. keeps_tac.
Qed.
Lemma keeps_pdma_request ch h d a f : 0 ≤ ch → keeps I (pdma_request ch h d a f).
Proof.
  intros. destruct (decide (ch < 8)).
  - apply (keeps_chan_op ch _ (λ pr, op_request h d a f (pdma_ping_pong pr)));
      [| intros; cbn; auto | lia].
    intros. by apply pdma_request_runs.
  - unfold pdma_request. destruct (8 <=? ch) eqn:E; [| lia]. keeps_tac.
Qed.
Lemma keeps_pdma_release ch : 0 ≤ ch < 8 → keeps I (pdma_release ch).
Proof.
  intros. apply (keeps_chan_op ch _ (λ pr c, ((), chan_released (pdma_ping_pong pr) c)));
    [| intros; cbn; auto | lia].
  intros. apply pdma_release_runs; [lia | done].
Qed.

(** A handler is only ever called for buffer 0 or buffer 1. *)
Context (run_handler : pdma_irq_handler → Z → Z → M (sys W) ()).
Context (keeps_handler : ∀ h d b, b = 0 ∨ b = 1 → keeps I (run_handler h d b)).

Lemma keeps_pdma_irq_channel status ch buf :
  0 ≤ ch < 8 → keeps I (pdma_irq_channel run_handler status ch buf).
Proof.
  intros Hch [pr p uc wb w] HI. pose proof (pdma_stable_wf _ HI) as Hp. cbn in Hp.
  destruct (chan_at_dec p ch Hp Hch) as [c Hc].
  destruct (pdma_irq_channel_eq run_handler status ch buf c pr p uc wb w Hc) as [w' ->].
  apply keeps_post.
  { apply keeps_bind; [| intros; keeps_tac].
    destruct (pc_handler c), (comp_a status ch), (comp_b status ch); cbn;
      first [apply keeps_handler; auto | keeps_tac]. }
  apply (world_free (Sys pr _ uc wb w)).
  apply (pdma_stable_set (Sys pr p uc wb w)); [done |].
  apply pdma_wf_set; [done | lia |]. apply chan_wf_complete. by apply (wf_chan p).
Qed.

Lemma keeps_pdma_irq_loop n status ch buf :
  0 ≤ ch → ch + Z.of_nat n ≤ 8 → keeps I (pdma_irq_loop run_handler n status ch buf).
Proof.
  revert ch buf. induction n as [|n IH]; intros ch buf ??; cbn; [keeps_tac |].
  apply keeps_bind; [apply keeps_pdma_irq_channel; lia |]. intros. apply IH; lia.
Qed.

Lemma keeps_pdma_irq_cb : keeps I (pdma_irq_cb run_handler).
Proof.
  unfold pdma_irq_cb, pdma_regs. keeps_tac. apply keeps_pdma_irq_loop; lia.
Qed.
End keeps_pdma.
#[export] Hint Extern 1 (PdmaStable _) => solve [typeclasses eauto] : keeps.
#[export] Hint Resolve keeps_pdma_start keeps_pdma_buffers_available keeps_pdma_clear
  keeps_pdma_request keeps_pdma_irq_cb : keeps.

(** ** The snapshot ring

    [chronological st]: the ring's entries from the oldest to the newest. *)

Definition chronological (st : pdma_channel_stats) : list pdma_channel_snapshot :=
  drop (Z.to_nat (ps_snaps_index st)) (ps_snaps st) ++
  take (Z.to_nat (ps_snaps_index st)) (ps_snaps st).

(** Recording an entry in a ring kept as an array and an index. *)
Lemma ring_push {A} (l : list A) (x : A) (i : nat) :
  (i < length l)%nat →
  let j := if decide (S i = length l) then 0%nat else S i in
  drop j (<[i := x]> l) ++ take j (<[i := x]> l) = tail (drop i l ++ take i l) ++ [x].
Proof.
  intros Hi j. destruct (lookup_lt_is_Some_2 l i Hi) as [y Hy].
  rewrite (drop_S l y i) by done. cbn [app tail].
  subst j. destruct (decide _) as [He | He].
  - rewrite drop_0, take_0, app_nil_r, (drop_ge l (S i)), app_nil_l by lia.
    rewrite insert_take_drop by done. by rewrite (drop_ge l (S i)) by lia.
  - rewrite drop_insert_lt by lia. rewrite <- app_assoc. f_equal.
    rewrite (take_S_r _ i x) by (apply list_lookup_insert_eq; lia).
    by rewrite take_insert_ge by done.
Qed.

Lemma ring_nth {A} (l : list A) (i k : nat) :
  (i < length l)%nat → (k < length l)%nat →
  (drop i l ++ take i l) !! k = l !! ((i + k) mod length l)%nat.
Proof.
  intros Hi Hk. destruct (decide (k < length l - i)%nat).
  - rewrite lookup_app_l by (rewrite length_drop; lia).
    rewrite lookup_drop, Nat.mod_small by lia. done.
  - rewrite lookup_app_r by (rewrite length_drop; lia). rewrite length_drop.
    rewrite lookup_take_lt by lia. f_equal.
    apply (Nat.mod_unique _ _ 1); lia.
Qed.

Lemma ring_index i : 0 ≤ i → i &&& (PDMA_SNAPS_COUNT - 1) = i mod 64.
Proof. intros. change (PDMA_SNAPS_COUNT - 1) with (2 ^ 6 - 1). by apply land_ones_low. Qed.

Definition lines_of (sn : pdma_channel_snapshot) : list show_line :=
  if sn_time sn =? 0 then [] else [ShowA sn; ShowB sn].

Section snaps.
Context {W : Type} `{!Kernel W}.

Lemma pdma_show_loop_runs n i st (s : sys W) :
  length (ps_snaps st) = 64%nat → 0 ≤ ps_snaps_index st < 64 →
  (i + n = 64)%nat →
  runs (pdma_show_loop n (Z.of_nat i) st) s
    (mjoin (lines_of <$> drop i (chronological st))) s.
Proof.
  intros Hlen Hidx. revert i. induction n as [|n IH]; intros i Hi.
  { rewrite drop_ge; [done |]. unfold chronological.
    rewrite length_app, length_drop, length_take. lia. }
  cbn [pdma_show_loop].
  destruct (lookup_lt_is_Some_2 (chronological st) i) as [sn Hsn].
  { unfold chronological. rewrite length_app, length_drop, length_take. lia. }
  rewrite (drop_S _ sn) by done.
  eapply runs_bind.
  { apply runs_get_index; [rewrite ring_index by lia; by apply Z.mod_pos_bound |].
    rewrite ring_index by lia. unfold chronological in Hsn.
    rewrite ring_nth, Hlen in Hsn by lia. rewrite <- Hsn. f_equal.
    rewrite Z2Nat.inj_mod by lia. f_equal; lia. }
  replace (Z.of_nat i + 1) with (Z.of_nat (S i)) by lia.
  eapply runs_bind; [apply IH; lia |].
  change (mjoin (lines_of <$> sn :: ?l)) with (lines_of sn ++ mjoin (lines_of <$> l)).
  change (lines_of sn) with (if sn_time sn =? 0 then [] else [ShowA sn; ShowB sn]).
  destruct (sn_time sn =? 0); apply runs_ret.
Qed.

Lemma pdma_channel_show_runs c pr p uc wb (w : W) :
  chan_at 0 c p → chan_wf 0 c →
  ∃ w', runs pdma_channel_show (Sys pr p uc wb w)
    (mjoin (lines_of <$> chronological (pc_stats c))) (Sys pr p uc wb w').
Proof.
  intros Hc Hwf. unfold pdma_channel_show. eexists.
  do 4 runs_step. eapply runs_bind.
  { apply (pdma_show_loop_runs _ 0); [apply Hwf | apply Hwf | done]. }
  runs_tac.
Qed.
End snaps.

Section snap.
Context {W : Type} `{!Kernel W}.

Lemma pdma_snap_channel_runs ci c pr p uc wb (w : W) :
  chan_at ci c p → chan_wf ci c →
  ∃ w' sn c', runs (pdma_snap_channel ci) (Sys pr p uc wb w) ()
      (Sys pr (set_chan ci c' p) uc wb w') ∧
    c' = c <| pc_stats := pc_stats c' |> ∧
    chronological (pc_stats c') = tail (chronological (pc_stats c)) ++ [sn] ∧
    sn_channel_buf_a_src sn = pb_src (pc_buf_a c) ∧
    sn_channel_buf_b_src sn = pb_src (pc_buf_b c) ∧
    chan_wf ci c'.
Proof.
  intros Hc Hwf. destruct (wf_snaps_index _ _ Hwf) as [Hi1 Hi2].
  pose proof (wf_snaps _ _ Hwf) as Hlen.
  set (i := ps_snaps_index (pc_stats c)) in *.
  destruct (lookup_lt_is_Some_2 (ps_snaps (pc_stats c)) (Z.to_nat i)) as [old Hold];
    [lia |].
  unfold pdma_snap_channel. do 3 eexists. split_and!.
  - do 13 runs_step.
    apply silent_runs, silent_pdma_d_printk.
    repeat (apply emits_readl; intros _). apply emits_ret.
  - done.
  - unfold upd, chronological; cbn. fold i.
    rewrite <- (ring_push (ps_snaps (pc_stats c)) _ (Z.to_nat i)) by lia.
    rewrite ring_index by lia. rewrite Hlen.
    replace (Z.to_nat ((i + 1) mod 64))
      with (if decide (S (Z.to_nat i) = 64%nat) then 0%nat else S (Z.to_nat i)); [done |].
    destruct (decide _).
    + by replace i with 63 by lia.
    + rewrite Z.mod_small by lia. lia.
  - done.
  - done.
  - destruct Hwf. unfold upd. split; cbn; auto.
    + by rewrite length_insert.
    + rewrite ring_index by lia. by apply Z.mod_pos_bound.
Qed.
End snap.

(** ** Properties *)

Section properties.
Context {W : Type} `{!Kernel W}.

(** C12: [pdma_start] on every branch.  A channel number above seven or a channel
    that was not requested gives [-EINVAL] and changes no register and no
    channel; otherwise, with the channel paused, the free slot that is next in
    turn is loaded (source, destination, then count, which arms it) and its
    number returned, or [-EBUSY] is.  The whole sequence of hardware accesses
    is given. *)
Theorem pdma_start_spec trace `{!Traced trace} ch src dst cnt c pr p uc wb (w : W) :
  (8 ≤ ch → ∃ w', runs (pdma_start ch src dst cnt) (Sys pr p uc wb w) (- EINVAL)
    (Sys pr p uc wb w') ∧ trace w' = trace w ++ [EvUnlock pdma_lock 0]) ∧
  (ch < 8 → chan_at ch c p → ∃ w' v v' fl,
    runs (pdma_start ch src dst cnt) (Sys pr p uc wb w) (op_start src dst cnt c).1
      (Sys pr (set_chan ch (op_start src dst cnt c).2 p) uc wb w') ∧
    trace w' = trace w ++ [EvLock pdma_lock] ++
      (if in_use c then
         [EvWrite (pdma_chan_control (pd_regs p) ch) (v ||| PDMA_CONTROL_PAUSE)] ++
         start_writes (pd_regs p) ch src dst cnt c ++
         [EvWrite (pdma_chan_control (pd_regs p) ch) (v' &&& ~: PDMA_CONTROL_PAUSE)]
       else []) ++ [EvUnlock pdma_lock fl]).
Proof.
  split.
  - intros Hch. unfold pdma_start. destruct (8 <=? ch) eqn:E; [| lia].
    eexists. split; [runs_tac |]. by autorewrite with trace.
  - intros Hch Hc. edestruct (pdma_start_runs ch src dst cnt c pr p uc wb w)
      as (w' & v & v' & fl & Hr & Ht); [done.. |].
    exists w', v, v', fl. auto.
Qed.

(** C13: a requested channel refines a queue of at most two transfers:
    [pdma_start] appends, or refuses with [-EBUSY] exactly when the queue is
    full; [pdma_buffers_available] returns the free places; the interrupt for
    the oldest transfer removes it before the client's handler runs, with the
    handler told which slot it was. *)
Theorem pdma_refines_queue ch c q pr p uc wb (w : W) :
  ch < 8 → chan_at ch c p → in_use c = true → holds_queue c q →
  (∀ src dst cnt, ∃ w' r c', runs (pdma_start ch src dst cnt) (Sys pr p uc wb w) r
      (Sys pr (set_chan ch c' p) uc wb w') ∧
    if decide (length q < 2)%nat
    then 0 ≤ r ≤ 1 ∧ holds_queue c' (q ++ [(src, dst, cnt)])
    else r = - EBUSY ∧ c' = c) ∧
  (∃ w' c', runs (pdma_buffers_available ch) (Sys pr p uc wb w)
      (2 - Z.of_nat (length q)) (Sys pr (set_chan ch c' p) uc wb w') ∧
    holds_queue c' q) ∧
  (∀ run_handler status buf t q', q = t :: q' →
    comp_a status ch = oldest_is_a c → comp_b status ch = negb (oldest_is_a c) →
    ∃ w' c', holds_queue c' q' ∧
      pdma_irq_channel run_handler status ch buf (Sys pr p uc wb w) =
      (let i := if oldest_is_a c then 0 else 1 in
       match pc_handler c with
       | Some h => run_handler h (pc_user_data c) i
       | None => mret ()
       end;;
       reg_and (pdma_chan_control (pd_regs p) ch) (~: PDMA_CONTROL_PAUSE);;
       mret i) (Sys pr (set_chan ch c' p) uc wb w')).
Proof.
  intros Hch Hc Hu Hq. split_and!.
  - intros src dst cnt.
    destruct (pdma_start_runs ch src dst cnt c pr p uc wb w) as (w' & ? & ? & ? & Hr & _);
      [done.. |].
    exists w', (op_start src dst cnt c).1, (op_start src dst cnt c).2.
    split; [done |]. unfold op_start. rewrite Hu.
    destruct (decide _).
    + destruct (queue_start src dst cnt c q); auto.
    + rewrite (queue_start_full src dst cnt c q); [done.. |].
      apply holds_queue_length in Hq. lia.
  - destruct (pdma_buffers_available_runs ch c pr p uc wb w) as [w' Hr]; [done.. |].
    unfold op_available in Hr. rewrite Hu in Hr. cbn in Hr.
    erewrite queue_available in Hr by done.
    exists w', (chan_armed c). auto using queue_armed.
  - intros run_handler status buf t q' -> Ha Hb.
    destruct (pdma_irq_channel_eq run_handler status ch buf c pr p uc wb w Hc) as [w' He].
    exists w', (chan_complete (oldest_is_a c) (negb (oldest_is_a c)) c).
    split; [by eapply queue_complete_oldest |].
    rewrite He, Ha, Hb. by destruct (oldest_is_a c), (pc_handler c).
Qed.

(** When both slots of a channel complete before the interrupt is served, the
    client's handler is called once only, for slot B: both slots are free, and
    the completion of A is never reported. *)
Lemma pdma_irq_both_reports_b ch c h q status buf run_handler pr p uc wb (w : W) :
  chan_at ch c p → pc_handler c = Some h → holds_queue c q →
  comp_a status ch = true → comp_b status ch = true →
  ∃ w' c', holds_queue c' [] ∧
    pdma_irq_channel run_handler status ch buf (Sys pr p uc wb w) =
    (run_handler h (pc_user_data c) 1;;
     reg_and (pdma_chan_control (pd_regs p) ch) (~: PDMA_CONTROL_PAUSE);;
     mret 1) (Sys pr (set_chan ch c' p) uc wb w').
Proof.
  intros Hc Hh Hq Ha Hb.
  destruct (pdma_irq_channel_eq run_handler status ch buf c pr p uc wb w Hc) as [w' He].
  exists w', (chan_complete true true c). split; [by eapply queue_complete_both |].
  by rewrite He, Ha, Hb, Hh.
Qed.
End properties.

Section invariants.
Context {W : Type} `{!Kernel W}.
Definition bookkeeping (s : sys W) : Prop := pdma_wf (s_pdma s).

#[local] Instance bookkeeping_stable : PdmaStable bookkeeping.
Proof. split; [intros s w Hs; exact Hs | done | done]. Qed.


(** A channel has one owner.  Requesting a free channel succeeds, installs
    the owner's handler and leaves an empty queue; until the release every other
    request is refused with [-EBUSY] and leaves the owner's channel as it is;
    after the release the channel can be requested again, and a transfer on
    it is refused. *)
Lemma pdma_request_release ch h d adj fl h' d' adj' fl' c pr p uc wb (w : W) :
  ch < 8 → chan_at ch c p → pc_in_use c = 0 →
  let owned := chan_cleared (pdma_ping_pong pr) (chan_requested h d adj fl c) in
  (∃ w', runs (pdma_request ch h d adj fl) (Sys pr p uc wb w) 0
      (Sys pr (set_chan ch owned p) uc wb w')) ∧
  pc_handler owned = h ∧ pc_user_data owned = d ∧ holds_queue owned [] ∧
  (∃ w', runs (pdma_request ch h' d' adj' fl') (Sys pr (set_chan ch owned p) uc wb w)
      (- EBUSY) (Sys pr (set_chan ch owned p) uc wb w')) ∧
  (∃ w' freed, runs (pdma_release ch) (Sys pr (set_chan ch owned p) uc wb w) ()
      (Sys pr (set_chan ch freed p) uc wb w') ∧
    pc_in_use freed = 0 ∧ pc_handler freed = None ∧
    (∀ src dst cnt w, ∃ w',
      runs (pdma_start ch src dst cnt) (Sys pr (set_chan ch freed p) uc wb w)
        (- EINVAL) (Sys pr (set_chan ch freed p) uc wb w'))).
Proof.
  intros Hch Hc Hu owned.
  assert (chan_at ch owned (set_chan ch owned p)) as Ho by by eapply chan_at_set.
  split_and!; try done.
  - destruct (pdma_request_runs ch h d adj fl c pr p uc wb w) as [w' Hr]; [done.. |].
    unfold op_request, in_use in Hr. rewrite Hu in Hr. eexists. exact Hr.
  - apply queue_cleared.
  - destruct (pdma_request_runs ch h' d' adj' fl' owned pr (set_chan ch owned p) uc wb w) as [w' Hr]; [done.. |].
    unfold op_request in Hr. assert (in_use owned = true) as Hou by done.
    rewrite Hou in Hr. rewrite set_chan_set in Hr. eexists. exact Hr.
  - destruct (pdma_release_runs ch owned pr (set_chan ch owned p) uc wb w) as [w' Hr]; [done.. |].
    rewrite set_chan_set in Hr.
    set (free := chan_released _ _) in Hr. exists w', free. split; [exact Hr |].
    split_and!; [done.. |]. intros src dst cnt w0.
    destruct (pdma_start_runs ch src dst cnt free pr (set_chan ch free p) uc wb w0)
      as (w1 & ? & ? & ? & Hs & _); [done | by eapply chan_at_set |].
    unfold op_start in Hs. assert (in_use free = false) as Hfu by done.
    rewrite Hfu, set_chan_set in Hs. exists w1. exact Hs.
Qed.

(** [pdma_release] does not check its channel number: on eight or more it
    clears nothing and then writes past the channel array. *)
Lemma pdma_release_out_of_range ch pr p uc wb (w : W) :
  pdma_wf p → 8 ≤ ch → pdma_release ch (Sys pr p uc wb w) = Crash OutOfBounds.
Proof.
  intros Hp Hch. unfold pdma_release.
  erewrite runs_bind_eq by apply runs_spin_lock_irqsave.
  erewrite runs_bind_eq by by apply pdma_clear_out_of_range.
  unfold upd_channel, get_channel, get_index, mbind, M_bind, gets. cbn.
  rewrite decide_True by lia. rewrite lookup_ge_None_2; [done |].
  rewrite wf_length by done. lia.
Qed.

(** The snapshot ring keeps the last 64 pictures of a channel in order:
    taking one drops the oldest and appends the newest, and the debugfs file of
    channel 0 lists them from the oldest to the newest, A then B, skipping the
    entries never filled. *)
Lemma pdma_snapshots_in_order ci c c0 pr p uc wb (w : W) :
  chan_at ci c p → chan_wf ci c → chan_at 0 c0 p → chan_wf 0 c0 →
  (∃ w' sn c', runs (pdma_snap_channel ci) (Sys pr p uc wb w) ()
      (Sys pr (set_chan ci c' p) uc wb w') ∧
    c' = c <| pc_stats := pc_stats c' |> ∧
    chronological (pc_stats c') = tail (chronological (pc_stats c)) ++ [sn] ∧
    sn_channel_buf_a_src sn = pb_src (pc_buf_a c) ∧
    sn_channel_buf_b_src sn = pb_src (pc_buf_b c)) ∧
  (∃ w', runs pdma_channel_show (Sys pr p uc wb w)
    (mjoin (lines_of <$> chronological (pc_stats c0))) (Sys pr p uc wb w')).
Proof.
  intros. split.
  - destruct (pdma_snap_channel_runs ci c pr p uc wb w) as (w' & sn & c' & ? & ? & ? & ? & ? & ?);
      [done.. |].
    by exists w', sn, c'.
  - by apply pdma_channel_show_runs.
Qed.
End invariants.

(** ** The properties on concrete inputs *)

(** Channel 0 requested, then with one transfer in flight in slot A. *)
Definition owned0 : pdma_channel_t :=
  (op_request (Some tx_dma_cb_h) 7 1 3 0 (zero_chan 0)).2.
Definition busy0 : pdma_channel_t := (op_start 0x1000 0x2000 16 owned0).2.
Definition dev_with (c : pdma_channel_t) : pdma_device_t := set_chan 0 c zero_pdma.

Lemma zero_pdma_wf : pdma_wf zero_pdma.
Proof.
  split; [done |]. intros ch c [Hch Hc].
  apply list_lookup_fmap_Some in Hc as (x & -> & Hx).
  assert (x = ch) as ->.
  { destruct (decide (ch < 8)).
    - assert (ch = 0 ∨ ch = 1 ∨ ch = 2 ∨ ch = 3 ∨ ch = 4 ∨ ch = 5 ∨ ch = 6 ∨ ch = 7)
        as Hcs by lia.
      destruct_or!; subst ch; by injection Hx as <-.
    - apply lookup_lt_Some in Hx. cbn in Hx. lia. }
  split; cbn; unfold flag01; auto. lia.
Qed.

Lemma dev_with_at c : chan_at 0 c (dev_with c).
Proof. by apply (chan_at_set 0 (zero_chan 0)). Qed.

Lemma pdma_start_spec_witness : ∃ w',
  runs (pdma_start 0 1 2 3) (Sys zero_params (dev_with busy0) 0 zero_wb sim0)
    1 (Sys zero_params (set_chan 0 (op_start 1 2 3 busy0).2 (dev_with busy0)) 0 zero_wb w').
Proof.
  destruct (proj2 (pdma_start_spec m_trace 0 1 2 3 busy0 zero_params (dev_with busy0) 0 zero_wb
    sim0) ltac:(lia) (dev_with_at busy0)) as (w' & ? & ? & ? & Hr & _).
  exists w'. exact Hr.
Defined.

Lemma pdma_refines_queue_witness :
  holds_queue busy0 [(0x1000, 0x2000, 16)] ∧
  ∃ w' c', runs (pdma_buffers_available 0) (Sys zero_params (dev_with busy0) 0 zero_wb sim0)
    1 (Sys zero_params (set_chan 0 c' (dev_with busy0)) 0 zero_wb w').
Proof.
  assert (holds_queue busy0 [(0x1000, 0x2000, 16)]) as Hq by by left.
  split; [done |].
  destruct (pdma_refines_queue 0 busy0 _ zero_params (dev_with busy0) 0 zero_wb sim0
    ltac:(lia) (dev_with_at busy0) eq_refl Hq) as (_ & (w' & c' & Hr & _) & _).
  exists w', c'. exact Hr.
Defined.

Lemma pdma_irq_both_reports_b_witness : ∃ w' c', holds_queue c' [] ∧
  pdma_irq_channel (W := sim) (λ _ _ _, mret ()) 3 0 (-1)
    (Sys zero_params (dev_with busy0) 0 zero_wb sim0) =
  ((λ (_ : pdma_irq_handler) (_ _ : Z), mret (M := M (sys sim)) ()) tx_dma_cb_h 7 1;;
   reg_and (pdma_chan_control 0x40003000 0) (~: PDMA_CONTROL_PAUSE);;
   mret 1) (Sys zero_params (set_chan 0 c' (dev_with busy0)) 0 zero_wb w').
Proof.
  exact (pdma_irq_both_reports_b 0 busy0 tx_dma_cb_h [(0x1000, 0x2000, 16)] 3 (-1)
    (λ _ _ _, mret ()) zero_params (dev_with busy0) 0 zero_wb sim0
    (dev_with_at busy0) eq_refl ltac:(by left) eq_refl eq_refl).
Defined.


Lemma pdma_request_release_witness : ∃ w',
  runs (pdma_request 0 (Some tx_dma_cb_h) 7 1 3) sim_sys 0
    (Sys zero_params (dev_with owned0) 0 zero_wb w').
Proof.
  exact (proj1 (pdma_request_release 0 (Some tx_dma_cb_h) 7 1 3 None 0 0 0 (zero_chan 0)
    zero_params zero_pdma 0 zero_wb sim0 ltac:(lia) ltac:(done) eq_refl)).
Defined.

Lemma pdma_release_out_of_range_witness : pdma_release 8 sim_sys = Crash OutOfBounds.
Proof.
  exact (pdma_release_out_of_range 8 zero_params zero_pdma 0 zero_wb sim0
    zero_pdma_wf ltac:(lia)).
Defined.

Lemma pdma_snapshots_in_order_witness : ∃ w',
  runs pdma_channel_show sim_sys [] (Sys zero_params zero_pdma 0 zero_wb w').
Proof.
  exact (proj2 (pdma_snapshots_in_order 0 (zero_chan 0) (zero_chan 0) zero_params zero_pdma
    0 zero_wb sim0 ltac:(done) (wf_chan _ zero_pdma_wf _ _ ltac:(done)) ltac:(done)
    (wf_chan _ zero_pdma_wf _ _ ltac:(done)))).
Defined.
