(* ===== verification/UserRing.v ===== *)
(** * The user-side rings ([driver/whitebox_user_source.c], [whitebox_user_sink.c])

    The two circular buffers between the file operations and the DMA: the user
    source is filled by [write] and drained by the transmit DMA, the user sink is
    filled by the receive DMA and drained by [read].  The index arithmetic is that
    of the C types: [int] indices, [size_t] counts, [long] sizes, [loff_t]
    offsets. *)

From S2P Require Import Prelude Kernel State.

(** [min] of two [size_t]. *)
Definition min_size (a b : Z) : Z := if a <? b then a else b.

Section user_source.
Context `{!CircMacros}.
Implicit Types (us : whitebox_user_source).

Definition whitebox_user_source_init (order : Z) us : whitebox_user_source :=
  us <| us_order := order |>.

(** Returns the room up to the end of the array, in whole words, and where it
    starts. *)
Definition whitebox_user_source_space_available us : Z * Z :=
  let head := cb_head (us_buf us) in
  let tail := cb_tail (us_buf us) in
  let space := CIRC_SPACE_TO_END head tail (us_buf_size us) &&& ~: 3 in
  let dest := u32 (cb_buf (us_buf us) + head) in
  (u32 space, dest).

Definition whitebox_user_source_produce us (count : Z) : whitebox_user_source :=
  let head := s32 (u32 (cb_head (us_buf us) + count) &&& u32 (us_buf_size us - 4)) in
  us <| us_buf ::= λ b, b <| cb_head := head |> |>
     <| us_off ::= λ o, s64 (o + count) |>.

Definition whitebox_user_source_data_available us : Z * Z :=
  let head := cb_head (us_buf us) in
  let tail := cb_tail (us_buf us) in
  let data := CIRC_CNT_TO_END head tail (us_buf_size us) in
  (u32 data, u32 (cb_buf (us_buf us) + tail)).

Definition whitebox_user_source_data_total us : Z :=
  u32 (CIRC_CNT (cb_head (us_buf us)) (cb_tail (us_buf us)) (us_buf_size us)).

Definition whitebox_user_source_consume us (count : Z) : whitebox_user_source :=
  let tail := s32 (u32 (cb_tail (us_buf us) + count) &&& u32 (us_buf_size us - 4)) in
  us <| us_buf ::= λ b, b <| cb_tail := tail |> |>.
End user_source.

Section user_sink.
Context `{!CircMacros}.
Implicit Types (uk : whitebox_user_sink).

Definition whitebox_user_sink_init (order : Z) uk : whitebox_user_sink :=
  uk <| uk_order := order |>.

Definition whitebox_user_sink_data_available uk : Z * Z :=
  let head := cb_head (uk_buf uk) in
  let tail := cb_tail (uk_buf uk) in
  let data := CIRC_CNT_TO_END head tail (uk_buf_size uk) in
  (u32 data, u32 (cb_buf (uk_buf uk) + tail)).

Definition whitebox_user_sink_data_total uk : Z :=
  u32 (CIRC_CNT (cb_head (uk_buf uk)) (cb_tail (uk_buf uk)) (uk_buf_size uk)).

(** With flow control, a sink above the threshold reports no room and leaves the
    caller's address unset ([None]). *)
Definition whitebox_user_sink_space_available (flow_control threshold : Z) uk
    : Z * option Z :=
  if nz flow_control && (u32 threshold <=? whitebox_user_sink_data_total uk) then (0, None)
  else
    let head := cb_head (uk_buf uk) in
    let tail := cb_tail (uk_buf uk) in
    let space := CIRC_SPACE_TO_END head tail (uk_buf_size uk) in
    (u32 space, Some (u32 (cb_buf (uk_buf uk) + head))).

Definition whitebox_user_sink_produce uk (count : Z) : whitebox_user_sink :=
  let head := s32 (u32 (cb_head (uk_buf uk) + count) &&& u32 (uk_buf_size uk - 4)) in
  uk <| uk_buf ::= λ b, b <| cb_head := head |> |>
     <| uk_off ::= λ o, s64 (o + count) |>.

Definition whitebox_user_sink_consume uk (count : Z) : whitebox_user_sink :=
  let tail := s32 (u32 (cb_tail (uk_buf uk) + count) &&& u32 (uk_buf_size uk - 1)) in
  uk <| uk_buf ::= λ b, b <| cb_tail := tail |> |>.
End user_sink.

(** The operations that reach the kernel, on the device's own rings. *)
Section effects.
Context {W : Type} `{!Kernel W}.

Definition whitebox_user_source_alloc (buf_addr : Z) : M (sys W) Z :=
  order ← get_wb (λ wb, us_order (wb_user_source wb));
  upd_wb (λ wb, wb <| wb_user_source ::= λ us,
    us <| us_buf_size := s32 (k_PAGE_SIZE <<< order) |>
       <| us_buf ::= λ b, b <| cb_buf := buf_addr |> |> |>);;
  if buf_addr =? 0 then mret (- ENOMEM)
  else
    upd_wb (λ wb, wb <| wb_user_source ::= λ us,
      us <| us_buf ::= λ b, b <| cb_head := 0 |> <| cb_tail := 0 |> |> |>);;
    mret 0.

Definition whitebox_user_source_free : M (sys W) () := mret tt.

(** The copy is skipped when the process has mapped the ring. *)
Definition unless_mapped (copy : W → Z * W) : M (sys W) bool :=
  mapped ← get_wb wb_mapped;
  if nz mapped then mret false else left_over ← call copy; mret (nz left_over).

(** Copies from the user unless the ring itself is mapped into the process. *)
Definition whitebox_user_source_work (src src_count dest dest_count : Z) : M (sys W) Z :=
  let count := min_size src_count dest_count in
  failed ← unless_mapped (k_copy_from_user dest src count);
  mret (if negb failed then s32 count else - EFAULT).

Definition whitebox_user_sink_alloc (buf_addr : Z) : M (sys W) Z :=
  order ← get_wb (λ wb, uk_order (wb_user_sink wb));
  upd_wb (λ wb, wb <| wb_user_sink ::= λ uk,
    uk <| uk_buf_size := s32 (k_PAGE_SIZE <<< order) |>
       <| uk_buf ::= λ b, b <| cb_buf := buf_addr |> |> |>);;
  if buf_addr =? 0 then mret (- ENOMEM)
  else
    upd_wb (λ wb, wb <| wb_user_sink ::= λ uk,
      uk <| uk_buf ::= λ b, b <| cb_head := 0 |> <| cb_tail := 0 |> |> |>);;
    mret 0.

Definition whitebox_user_sink_free : M (sys W) () := mret ().

Definition whitebox_user_sink_work (src src_count dest dest_count : Z) : M (sys W) Z :=
  let count := min_size src_count dest_count in
  failed ← unless_mapped (k_copy_to_user dest src count);
  mret (if negb failed then s32 count else - EFAULT).
End effects.
