(* ===== verification/UserRingSpec.v ===== *)
(** * The user-side rings are byte queues

    A ring with its memory denotes the sequence of its unread bytes.  The file
    shows that filling appends, draining removes from the front, the regions handed
    to callers are exactly the free and the unread parts up to the array's end, and
    what happens at the corners: counts that are not whole words, and requests
    larger than the distance to the end. *)

From stdpp Require Import gmap.
From S2P Require Import Prelude Kernel State Sim UserRing.

(** ** Rings and their contents *)

Record ring_wf (k : Z) (b : circ_buf) : Prop := {
  ring_order : 2 ≤ k ≤ 30;
  ring_head : 0 ≤ cb_head b < 2 ^ k;
  ring_tail : 0 ≤ cb_tail b < 2 ^ k;
  ring_base : 0 ≤ cb_buf b ∧ cb_buf b + 2 ^ k ≤ 2 ^ 32;
}.

Lemma ring_wf_head k b h : ring_wf k b → 0 ≤ h < 2 ^ k → ring_wf k (b <| cb_head := h |>).
Proof. intros [? ? ? ?] ?. by split. Qed.
Lemma ring_wf_tail k b t : ring_wf k b → 0 ≤ t < 2 ^ k → ring_wf k (b <| cb_tail := t |>).
Proof. intros [? ? ? ?] ?. by split. Qed.

Definition ring_len (k : Z) (b : circ_buf) : Z := (cb_head b - cb_tail b) mod 2 ^ k.

(** [n] bytes of the ring from index [i], under the memory [m]. *)
Definition ring_at (k : Z) (b : circ_buf) (m : Z → Z) (i n : Z) : list Z :=
  (λ j, m (cb_buf b + (i + j) mod 2 ^ k)) <$> seqZ 0 n.
Definition ring_bytes (k : Z) (b : circ_buf) (m : Z → Z) : list Z :=
  ring_at k b m (cb_tail b) (ring_len k b).
(** [n] bytes of memory at an address. *)
Definition bytes_at (m : Z → Z) (a n : Z) : list Z := (λ j, m (a + j)) <$> seqZ 0 n.

Lemma ring_at_app k b m i n1 n2 :
  0 ≤ n1 → 0 ≤ n2 → ring_at k b m i (n1 + n2) = ring_at k b m i n1 ++ ring_at k b m (i + n1) n2.
Proof.
  intros. unfold ring_at. rewrite seqZ_app, fmap_app by lia. f_equal.
  replace (0 + n1) with (n1 + 0) by lia.
  rewrite <- (fmap_add_seqZ n1 0 n2). rewrite <- list_fmap_compose.
  apply list_fmap_ext. intros ? x _. cbn. by rewrite Z.add_assoc.
Qed.

Lemma ring_at_mod k b m i n : 0 ≤ k → ring_at k b m (i mod 2 ^ k) n = ring_at k b m i n.
Proof.
  intros. apply list_fmap_ext. intros ? x _. by rewrite Z.add_mod_idemp_l by lia.
Qed.

Lemma ring_at_length k b m i n : length (ring_at k b m i n) = Z.to_nat n.
Proof. unfold ring_at. by rewrite length_fmap, length_seqZ. Qed.

Lemma ring_len_range k b : 0 ≤ k → 0 ≤ ring_len k b < 2 ^ k.
Proof. intros. apply Z.mod_pos_bound. lia. Qed.

(** A run of the ring that does not pass the end of the array is a run of
    memory. *)
Lemma ring_at_linear k b m i n :
  0 ≤ i → i + n ≤ 2 ^ k → ring_at k b m i n = bytes_at m (cb_buf b + i) n.
Proof.
  intros. apply list_fmap_ext. intros j x Hx.
  apply lookup_seqZ in Hx as [-> ?]. rewrite Z.mod_small by lia. f_equal. lia.
Qed.

Lemma ring_at_ext k b m m' i n :
  (∀ j, 0 ≤ j < n → m (cb_buf b + (i + j) mod 2 ^ k) = m' (cb_buf b + (i + j) mod 2 ^ k)) →
  ring_at k b m i n = ring_at k b m' i n.
Proof.
  intros H. apply list_fmap_ext. intros j x Hx. apply lookup_seqZ in Hx as [-> ?].
  apply H. lia.
Qed.

Lemma ring_consume k b m n :
  0 ≤ k → 0 ≤ n ≤ ring_len k b →
  let b' := b <| cb_tail := (cb_tail b + n) mod 2 ^ k |> in
  ring_len k b' = ring_len k b - n ∧
  ring_bytes k b m = ring_at k b m (cb_tail b) n ++ ring_bytes k b' m.
Proof.
  intros Hk Hn b'. pose proof (ring_len_range k b Hk).
  assert (ring_len k b' = ring_len k b - n) as Hlen.
  { unfold ring_len at 1. cbn. rewrite Zminus_mod_idemp_r.
    replace (cb_head b - (cb_tail b + n)) with (cb_head b - cb_tail b - n) by lia.
    rewrite <- Zminus_mod_idemp_l. fold (ring_len k b). rewrite Z.mod_small; lia. }
  split; [done |]. unfold ring_bytes. rewrite Hlen.
  replace (ring_len k b) with (n + (ring_len k b - n)) at 1 by lia.
  rewrite ring_at_app by lia. f_equal. cbn.
  symmetry. by apply (ring_at_mod k b').
Qed.

(** Memory may change anywhere in the [r] free bytes after the head, of which
    [n] are produced. *)
Lemma ring_produce k b m m' n r :
  0 ≤ k → 0 ≤ n ≤ r → ring_len k b + r < 2 ^ k → 0 ≤ cb_head b → cb_head b + r ≤ 2 ^ k →
  (∀ a, cb_buf b ≤ a < cb_buf b + 2 ^ k →
    ¬ (cb_buf b + cb_head b ≤ a < cb_buf b + cb_head b + r) → m' a = m a) →
  let b' := b <| cb_head := (cb_head b + n) mod 2 ^ k |> in
  ring_len k b' = ring_len k b + n ∧
  ring_bytes k b' m' = ring_bytes k b m ++ bytes_at m' (cb_buf b + cb_head b) n.
Proof.
  intros Hk Hn Hroom Hh Hend Hm b'. pose proof (ring_len_range k b Hk).
  assert (ring_len k b' = ring_len k b + n) as Hlen.
  { unfold ring_len at 1. cbn. rewrite Zminus_mod_idemp_l.
    replace (cb_head b + n - cb_tail b) with (cb_head b - cb_tail b + n) by lia.
    rewrite <- Z.add_mod_idemp_l by lia. fold (ring_len k b). rewrite Z.mod_small; lia. }
  assert (Hhead : (cb_tail b + ring_len k b) mod 2 ^ k = cb_head b mod 2 ^ k).
  { unfold ring_len. rewrite Z.add_mod_idemp_r by lia. f_equal. lia. }
  split; [done |]. unfold ring_bytes. rewrite Hlen, ring_at_app by lia.
  change (ring_at k b' m') with (ring_at k b m'). change (cb_tail b') with (cb_tail b).
  f_equal.
  - apply ring_at_ext. intros j Hj. apply Hm.
    { pose proof (Z.mod_pos_bound (cb_tail b + j) (2 ^ k)). lia. }
    intros Hin. set (i := (cb_tail b + j) mod 2 ^ k) in *.
    assert (0 ≤ i - cb_head b < r) as Hi by lia.
    assert ((j - ring_len k b) mod 2 ^ k = i - cb_head b) as He.
    { replace (j - ring_len k b) with (cb_tail b + j - (cb_tail b + ring_len k b)) by lia.
      rewrite Zminus_mod, Hhead. fold i. rewrite Zminus_mod_idemp_r.
      apply Z.mod_small. lia. }
    rewrite <- (Z.mod_add _ 1) in He by lia. rewrite Z.mod_small in He; lia.
  - rewrite <- (ring_at_mod k b), Hhead, ring_at_mod by lia.
    apply ring_at_linear; lia.
Qed.

(** ** The index arithmetic of the operations *)

Lemma pow2_words k : 2 ≤ k → 2 ^ k = 4 * 2 ^ (k - 2) ∧ 0 < 2 ^ (k - 2).
Proof.
  intros. split; [| by apply Z.pow_pos_nonneg; lia].
  replace k with (2 + (k - 2)) at 1 by lia. rewrite Z.pow_add_r; lia.
Qed.

Lemma pow2_30 k : 2 ≤ k ≤ 30 → 4 ≤ 2 ^ k ≤ 2 ^ 30.
Proof.
  intros. split; [| by apply Z.pow_le_mono_r; lia].
  change 4 with (2 ^ 2). apply Z.pow_le_mono_r; lia.
Qed.

Lemma words_bound x : 4 * (x / 4) ≤ x < 4 * (x / 4) + 4.
Proof. pose proof (Z.div_mod x 4). pose proof (Z.mod_pos_bound x 4). lia. Qed.
Lemma words_nonneg x : 0 ≤ x → 0 ≤ 4 * (x / 4).
Proof. intros. pose proof (Z.div_pos x 4). lia. Qed.

Lemma advance_masked k i n :
  2 ≤ k ≤ 30 → 0 ≤ i + n < 2 ^ 32 →
  s32 (u32 (i + n) &&& u32 (2 ^ k - 4)) = 4 * ((i + n) mod 2 ^ k / 4).
Proof.
  intros Hk Hi. pose proof (pow2_30 k Hk).
  rewrite !u32_small, land_word_mask by lia.
  pose proof (Z.mod_pos_bound (i + n) (2 ^ k)).
  pose proof (words_bound ((i + n) mod 2 ^ k)). pose proof (words_nonneg ((i + n) mod 2 ^ k)).
  apply s32_small. lia.
Qed.

Lemma advance_words k i n :
  2 ≤ k ≤ 30 → 0 ≤ i + n < 2 ^ 32 → i mod 4 = 0 → n mod 4 = 0 →
  s32 (u32 (i + n) &&& u32 (2 ^ k - 4)) = (i + n) mod 2 ^ k.
Proof.
  intros Hk Hi Hi4 Hn4. pose proof (pow2_30 k Hk).
  assert ((i + n) mod 4 = 0) by by rewrite Zplus_mod, Hi4, Hn4.
  rewrite !u32_small, word_mask_aligned by lia.
  pose proof (Z.mod_pos_bound (i + n) (2 ^ k)). apply s32_small. lia.
Qed.

Lemma advance_bytes k i n :
  2 ≤ k ≤ 30 → 0 ≤ i + n < 2 ^ 32 →
  s32 (u32 (i + n) &&& u32 (2 ^ k - 1)) = (i + n) mod 2 ^ k.
Proof.
  intros Hk Hi. pose proof (pow2_30 k Hk).
  rewrite !u32_small, land_ones_low by lia.
  pose proof (Z.mod_pos_bound (i + n) (2 ^ k)). apply s32_small. lia.
Qed.

Lemma mod_aligned k x : 2 ≤ k → x mod 4 = 0 → (x mod 2 ^ k) mod 4 = 0.
Proof.
  intros Hk Hx. destruct (pow2_words k Hk) as [-> ?].
  rewrite Z.rem_mul_r by lia. rewrite Hx, Z.add_0_l, Z.mul_comm. apply Z.mod_mul. lia.
Qed.

Section ring_ops.
Context `{!CircMacros}.

Record us_wf (k : Z) (us : whitebox_user_source) : Prop := {
  us_ring : ring_wf k (us_buf us);
  us_size : us_buf_size us = 2 ^ k;
  us_head4 : cb_head (us_buf us) mod 4 = 0;
  us_tail4 : cb_tail (us_buf us) mod 4 = 0;
}.
Record uk_wf (k : Z) (uk : whitebox_user_sink) : Prop := {
  uk_ring : ring_wf k (uk_buf uk);
  uk_size : uk_buf_size uk = 2 ^ k;
  uk_head4 : cb_head (uk_buf uk) mod 4 = 0;
}.

Lemma circ_cnt_len k b : ring_wf k b → CIRC_CNT (cb_head b) (cb_tail b) (2 ^ k) = ring_len k b.
Proof. intros [? ? ? ?]. by apply circ_cnt_spec; [lia | |]. Qed.

Lemma circ_space_end k b :
  ring_wf k b → CIRC_SPACE_TO_END (cb_head b) (cb_tail b) (2 ^ k) =
    Z.min (2 ^ k - 1 - ring_len k b) (2 ^ k - cb_head b).
Proof.
  intros Hb. pose proof Hb as [? ? ? ?].
  rewrite circ_space_to_end_spec, circ_space_spec, circ_cnt_len by (done || lia). done.
Qed.

Lemma circ_cnt_end k b :
  ring_wf k b → CIRC_CNT_TO_END (cb_head b) (cb_tail b) (2 ^ k) =
    Z.min (ring_len k b) (2 ^ k - cb_tail b).
Proof.
  intros Hb. pose proof Hb as [? ? ? ?].
  rewrite circ_cnt_to_end_spec, circ_cnt_len by (done || lia). done.
Qed.

Lemma us_space_spec k us :
  us_wf k us →
  whitebox_user_source_space_available us =
    (4 * (Z.min (2 ^ k - 1 - ring_len k (us_buf us)) (2 ^ k - cb_head (us_buf us)) / 4),
     cb_buf (us_buf us) + cb_head (us_buf us)).
Proof.
  intros [Hr Hs ? ?]. pose proof Hr as [Hk ? ? ?]. pose proof (pow2_30 k Hk).
  pose proof (ring_len_range k (us_buf us)).
  unfold whitebox_user_source_space_available. rewrite Hs, circ_space_end, land_not3 by done.
  set (s := Z.min _ _). pose proof (words_bound s). pose proof (words_nonneg s).
  rewrite !u32_small by lia. done.
Qed.

Lemma us_data_spec k us :
  us_wf k us →
  whitebox_user_source_data_available us =
    (Z.min (ring_len k (us_buf us)) (2 ^ k - cb_tail (us_buf us)),
     cb_buf (us_buf us) + cb_tail (us_buf us)).
Proof.
  intros [Hr Hs ? ?]. pose proof Hr as [Hk ? ? ?]. pose proof (pow2_30 k Hk).
  pose proof (ring_len_range k (us_buf us)).
  unfold whitebox_user_source_data_available. rewrite Hs, circ_cnt_end by done.
  rewrite !u32_small by lia. done.
Qed.

Lemma us_total_spec k us :
  us_wf k us → whitebox_user_source_data_total us = ring_len k (us_buf us).
Proof.
  intros [Hr Hs ? ?]. pose proof Hr as [Hk ? ? ?]. pose proof (pow2_30 k Hk).
  pose proof (ring_len_range k (us_buf us)).
  unfold whitebox_user_source_data_total. rewrite Hs, circ_cnt_len by done.
  rewrite u32_small by lia. done.
Qed.

Lemma uk_data_spec k uk :
  uk_wf k uk →
  whitebox_user_sink_data_available uk =
    (Z.min (ring_len k (uk_buf uk)) (2 ^ k - cb_tail (uk_buf uk)),
     cb_buf (uk_buf uk) + cb_tail (uk_buf uk)).
Proof.
  intros [Hr Hs ?]. pose proof Hr as [Hk ? ? ?]. pose proof (pow2_30 k Hk).
  pose proof (ring_len_range k (uk_buf uk)).
  unfold whitebox_user_sink_data_available. rewrite Hs, circ_cnt_end by done.
  rewrite !u32_small by lia. done.
Qed.

Lemma uk_total_spec k uk :
  uk_wf k uk → whitebox_user_sink_data_total uk = ring_len k (uk_buf uk).
Proof.
  intros [Hr Hs ?]. pose proof Hr as [Hk ? ? ?]. pose proof (pow2_30 k Hk).
  pose proof (ring_len_range k (uk_buf uk)).
  unfold whitebox_user_sink_data_total. rewrite Hs, circ_cnt_len by done.
  rewrite u32_small by lia. done.
Qed.

Lemma uk_space_spec k fc th uk :
  uk_wf k uk →
  whitebox_user_sink_space_available fc th uk =
    if nz fc && (u32 th <=? ring_len k (uk_buf uk)) then (0, None) else
    (Z.min (2 ^ k - 1 - ring_len k (uk_buf uk)) (2 ^ k - cb_head (uk_buf uk)),
     Some (cb_buf (uk_buf uk) + cb_head (uk_buf uk))).
Proof.
  intros Hw. pose proof Hw as [Hr Hs ?]. pose proof Hr as [Hk ? ? ?]. pose proof (pow2_30 k Hk).
  pose proof (ring_len_range k (uk_buf uk)).
  unfold whitebox_user_sink_space_available. erewrite uk_total_spec by done.
  destruct (nz fc && _); [done |].
  rewrite Hs, circ_space_end by done. rewrite !u32_small by lia. done.
Qed.
End ring_ops.

(** Masking rounds the advance down to whole words. *)
Lemma advance_rounds k i n :
  2 ≤ k → i mod 4 = 0 →
  4 * ((i + n) mod 2 ^ k / 4) = (i + 4 * (n / 4)) mod 2 ^ k.
Proof.
  intros Hk Hi. destruct (pow2_words k Hk) as [-> ?].
  assert (i = 4 * (i / 4)) as ->. { pose proof (Z.div_mod i 4). lia. }
  set (a := i / 4). pose proof (Z.div_mod n 4 ltac:(lia)) as Hn.
  set (b := n / 4) in *. pose proof (Z.mod_pos_bound n 4 ltac:(lia)).
  rewrite Hn at 1. rewrite <- (Z.mul_add_distr_l 4 a b).
  rewrite Z.mul_mod_distr_l by lia.
  replace (4 * a + (4 * b + n mod 4)) with (n mod 4 + (a + b) * 4) by lia.
  rewrite (Z.rem_mul_r _ 4) by lia. rewrite Z.mod_add, Z.div_add by lia.
  rewrite (Z.mod_small (n mod 4)), (Z.div_small (n mod 4)), Z.add_0_l by lia.
  rewrite <- (Z.div_unique _ 4 ((a + b) mod 2 ^ (k - 2)) (n mod 4)); lia.
Qed.

Section ring_moves.
Context `{!CircMacros}.

Lemma us_produce_buf k us n :
  us_wf k us → 0 ≤ n ≤ 2 ^ k →
  us_buf (whitebox_user_source_produce us n) =
    (us_buf us) <| cb_head := (cb_head (us_buf us) + 4 * (n / 4)) mod 2 ^ k |>.
Proof.
  intros [Hr Hs Hh ?] Hn. pose proof Hr as [Hk ? ? ?]. pose proof (pow2_30 k Hk).
  unfold whitebox_user_source_produce, upd; cbn. rewrite Hs.
  rewrite advance_masked by lia. by rewrite advance_rounds by lia.
Qed.
Lemma us_consume_buf k us n :
  us_wf k us → 0 ≤ n ≤ 2 ^ k →
  us_buf (whitebox_user_source_consume us n) =
    (us_buf us) <| cb_tail := (cb_tail (us_buf us) + 4 * (n / 4)) mod 2 ^ k |>.
Proof.
  intros [Hr Hs Hh ?] Hn. pose proof Hr as [Hk ? ? ?]. pose proof (pow2_30 k Hk).
  unfold whitebox_user_source_consume, upd; cbn. rewrite Hs.
  rewrite advance_masked by lia. by rewrite advance_rounds by lia.
Qed.
Lemma uk_produce_buf k uk n :
  uk_wf k uk → 0 ≤ n ≤ 2 ^ k →
  uk_buf (whitebox_user_sink_produce uk n) =
    (uk_buf uk) <| cb_head := (cb_head (uk_buf uk) + 4 * (n / 4)) mod 2 ^ k |>.
Proof.
  intros [Hr Hs Hh] Hn. pose proof Hr as [Hk ? ? ?]. pose proof (pow2_30 k Hk).
  unfold whitebox_user_sink_produce, upd; cbn. rewrite Hs.
  rewrite advance_masked by lia. by rewrite advance_rounds by lia.
Qed.
Lemma uk_consume_buf k uk n :
  uk_wf k uk → 0 ≤ n ≤ 2 ^ k →
  uk_buf (whitebox_user_sink_consume uk n) =
    (uk_buf uk) <| cb_tail := (cb_tail (uk_buf uk) + n) mod 2 ^ k |>.
Proof.
  intros [Hr Hs Hh] Hn. pose proof Hr as [Hk ? ? ?]. pose proof (pow2_30 k Hk).
  unfold whitebox_user_sink_consume, upd; cbn. rewrite Hs.
  by rewrite advance_bytes by lia.
Qed.

Lemma aligned_sum i n : i mod 4 = 0 → (i + 4 * n) mod 4 = 0.
Proof. intros. by rewrite Z.mul_comm, Z.mod_add. Qed.

Lemma us_wf_produce k us n :
  us_wf k us → 0 ≤ n ≤ 2 ^ k → us_wf k (whitebox_user_source_produce us n).
Proof.
  intros Hw Hn. pose proof (us_produce_buf k us n Hw Hn) as Hb.
  destruct Hw as [[? ? ? ?] ? ? ?].
  split; [split | | |]; rewrite ?Hb; try done.
  - apply Z.mod_pos_bound. lia.
  - apply mod_aligned; [lia | by apply aligned_sum].
Qed.
Lemma us_wf_consume k us n :
  us_wf k us → 0 ≤ n ≤ 2 ^ k → us_wf k (whitebox_user_source_consume us n).
Proof.
  intros Hw Hn. pose proof (us_consume_buf k us n Hw Hn) as Hb.
  destruct Hw as [[? ? ? ?] ? ? ?].
  split; [split | | |]; rewrite ?Hb; try done.
  - apply Z.mod_pos_bound. lia.
  - apply mod_aligned; [lia | by apply aligned_sum].
Qed.
Lemma uk_wf_produce k uk n :
  uk_wf k uk → 0 ≤ n ≤ 2 ^ k → uk_wf k (whitebox_user_sink_produce uk n).
Proof.
  intros Hw Hn. pose proof (uk_produce_buf k uk n Hw Hn) as Hb.
  destruct Hw as [[? ? ? ?] ? ?].
  split; [split | |]; rewrite ?Hb; try done.
  - apply Z.mod_pos_bound. lia.
  - apply mod_aligned; [lia | by apply aligned_sum].
Qed.
Lemma uk_wf_consume k uk n :
  uk_wf k uk → 0 ≤ n ≤ 2 ^ k → uk_wf k (whitebox_user_sink_consume uk n).
Proof.
  intros Hw Hn. pose proof (uk_consume_buf k uk n Hw Hn) as Hb.
  destruct Hw as [[? ? ? ?] ? ?].
  split; [split | |]; rewrite ?Hb; try done.
  apply Z.mod_pos_bound. lia.
Qed.
End ring_moves.

(** ** Properties *)

Lemma words_mono n m : 0 ≤ n ≤ m → 0 ≤ 4 * (n / 4) ≤ 4 * (m / 4).
Proof. intros. pose proof (Z.div_le_mono n m 4). pose proof (Z.div_pos n 4). lia. Qed.

Lemma words_le n m : 0 ≤ n ≤ m → 0 ≤ 4 * (n / 4) ≤ m.
Proof. intros. pose proof (words_mono n m). pose proof (words_bound m). lia. Qed.

Section properties.
Context {W : Type} `{!Kernel W} `{!CircMacros} (mem : W → Z → Z) `{!ByteMemory mem}.

(** A [write] appends the user's bytes to the ring.  When the ring reports
    room for [count] bytes, the copy succeeds and the ring is then advanced, the
    unread contents become the old contents followed by the user's bytes, cut to
    whole words: nothing unread is overwritten.  The operation answers [count]
    also when the count is not a multiple of four, and the last one to three
    bytes are then lost.  The rest of memory stays as it was. *)
Lemma user_source_write_appends k count src pr p uc wb w :
  let us := wb_user_source wb in
  let '(room, dest) := whitebox_user_source_space_available us in
  us_wf k us → wb_mapped wb = 0 → 0 ≤ count ≤ room →
  disjoint_ranges dest src count →
  (k_copy_from_user dest src count w).1 = 0 →
  ∃ w', runs (whitebox_user_source_work src count dest room) (Sys pr p uc wb w)
      count (Sys pr p uc wb w') ∧
    let us' := whitebox_user_source_produce us count in
    us_wf k us' ∧
    ring_bytes k (us_buf us') (mem w') =
      ring_bytes k (us_buf us) (mem w) ++ bytes_at (mem w) src (4 * (count / 4)) ∧
    us_off us' = s64 (us_off us + count) ∧
    ∀ a, ¬ (dest ≤ a < dest + count) → mem w' a = mem w a.
Proof.
  intros us. destruct (whitebox_user_source_space_available us) as [room dest] eqn:Es.
  intros Hw Hmap Hcount Hd Hcopy.
  rewrite (us_space_spec k) in Es by done. injection Es as <- <-.
  pose proof Hw as [[Hk Hh Ht Hb] Hs Hh4 Ht4]. pose proof (pow2_30 k Hk).
  pose proof (ring_len_range k (us_buf us)).
  set (room := Z.min _ _) in *.
  assert (0 ≤ count ≤ room) as Hc. { pose proof (words_bound room). lia. }
  pose proof (words_le count room Hc) as Hc4.
  assert (min_size count (4 * (room / 4)) = count) as Hmin.
  { unfold min_size. destruct (count <? _) eqn:E; lia. }
  set (dest := cb_buf _ + _) in *.
  exists (k_copy_from_user dest src count w).2. split.
  { unfold whitebox_user_source_work, unless_mapped. rewrite Hmin.
    eapply runs_bind.
    - eapply runs_bind; [apply runs_get_wb |]. rewrite Hmap.
      eapply runs_bind; [apply runs_call | apply runs_ret].
    - rewrite Hcopy. cbn. rewrite s32_small by lia. apply runs_ret. }
  intros us'. split_and!; [by apply us_wf_produce; [| lia] | | done |].
  2: { intros a Ha. rewrite mem_copy_from_user by (done || lia). by rewrite decide_False by lia. }
  subst us'. rewrite (us_produce_buf k) by (done || lia).
  destruct (ring_produce k (us_buf us) (mem w) (mem (k_copy_from_user dest src count w).2)
    (4 * (count / 4)) room) as [_ Hp]; try lia.
  - intros a Ha Hna. rewrite mem_copy_from_user by (done || lia).
    by rewrite decide_False by lia.
  - etrans; [exact Hp |]. f_equal.
    apply list_fmap_ext. intros i x Hx. apply lookup_seqZ in Hx as [-> Hx].
    rewrite mem_copy_from_user by (done || lia).
    pose proof (words_bound count). rewrite decide_True by lia. f_equal. lia.
Qed.

(** C14: a [read] takes the oldest bytes.  The sink hands out an address and a
    length that are the beginning of the unread contents; copying [count] of
    them to the user and consuming them returns [count], puts exactly these
    bytes in the user's buffer and leaves the rest unread, for any count, whole
    words or not. *)
Theorem user_sink_read_takes k count dest pr p uc wb w :
  let uk := wb_user_sink wb in
  let '(n, src) := whitebox_user_sink_data_available uk in
  uk_wf k uk → wb_mapped wb = 0 → 0 ≤ count ≤ n →
  disjoint_ranges dest src count →
  (dest + count ≤ cb_buf (uk_buf uk) ∨ cb_buf (uk_buf uk) + 2 ^ k ≤ dest) →
  (k_copy_to_user dest src count w).1 = 0 →
  ∃ w', runs (whitebox_user_sink_work src n dest count) (Sys pr p uc wb w)
      count (Sys pr p uc wb w') ∧
    let uk' := whitebox_user_sink_consume uk count in
    uk_wf k uk' ∧
    ring_bytes k (uk_buf uk) (mem w) =
      bytes_at (mem w') dest count ++ ring_bytes k (uk_buf uk') (mem w').
Proof.
  intros uk. destruct (whitebox_user_sink_data_available uk) as [n src] eqn:Es.
  intros Hw Hmap Hcount Hd Hdr Hcopy.
  rewrite (uk_data_spec k) in Es by done. injection Es as <- <-.
  pose proof Hw as [[Hk Hh Ht Hb] Hs Hh4]. pose proof (pow2_30 k Hk).
  pose proof (ring_len_range k (uk_buf uk)).
  set (n := Z.min _ _) in *. set (src := cb_buf _ + cb_tail _) in *.
  assert (min_size n count = count) as Hmin.
  { unfold min_size. destruct (n <? _) eqn:E; lia. }
  exists (k_copy_to_user dest src count w).2. split.
  { unfold whitebox_user_sink_work, unless_mapped. rewrite Hmin.
    eapply runs_bind.
    - eapply runs_bind; [apply runs_get_wb |]. rewrite Hmap.
      eapply runs_bind; [apply runs_call | apply runs_ret].
    - rewrite Hcopy. cbn. rewrite s32_small by lia. apply runs_ret. }
  intros uk'. split; [apply uk_wf_consume; [done | lia] |].
  destruct (ring_consume k (uk_buf uk) (mem w) count) as [_ Hp]; [lia.. |].
  rewrite Hp. f_equal.
  - rewrite ring_at_linear by lia. apply list_fmap_ext.
    intros i x Hx. apply lookup_seqZ in Hx as [-> Hx].
    rewrite mem_copy_to_user by (done || lia). rewrite decide_True by lia. f_equal. lia.
  - subst uk'. rewrite (uk_consume_buf k) by (done || lia). apply ring_at_ext. intros j _.
    cbn. rewrite mem_copy_to_user by (done || lia). rewrite decide_False; [done |].
    pose proof (Z.mod_pos_bound ((cb_tail (uk_buf uk) + count) mod 2 ^ k + j) (2 ^ k)).
    lia.
Qed.
End properties.

Section queue_properties.
Context `{!CircMacros}.

(** The transmit side drains the ring from the front: the address and length
    it is given are the beginning of the unread contents, and consuming [count]
    of those bytes removes them, cut to whole words. *)
Lemma user_source_drains_front k us m count :
  let '(n, src) := whitebox_user_source_data_available us in
  us_wf k us → 0 ≤ count ≤ n →
  let us' := whitebox_user_source_consume us count in
  us_wf k us' ∧
  ring_bytes k (us_buf us) m =
    bytes_at m src (4 * (count / 4)) ++ ring_bytes k (us_buf us') m.
Proof.
  destruct (whitebox_user_source_data_available us) as [n src] eqn:Es.
  intros Hw Hcount us'.
  rewrite (us_data_spec k) in Es by done. injection Es as <- <-.
  pose proof Hw as [[Hk Hh Ht Hb] Hs Hh4 Ht4]. pose proof (pow2_30 k Hk).
  pose proof (ring_len_range k (us_buf us)).
  pose proof (words_le count _ Hcount).
  split; [apply us_wf_consume; [done | lia] |].
  destruct (ring_consume k (us_buf us) m (4 * (count / 4))) as [_ Hp]; [lia.. |].
  rewrite Hp, ring_at_linear by lia. f_equal.
  subst us'. by rewrite (us_consume_buf k) by (done || lia).
Qed.

(** C15: the receive DMA fills the ring without touching unread bytes: when the
    sink reports room, a transfer of at most that many bytes to the address it
    gave, followed by its completion, appends the transferred bytes (whole
    words) to the unread contents. *)
Theorem user_sink_fill_appends k fc th uk m m' count room dest :
  uk_wf k uk →
  whitebox_user_sink_space_available fc th uk = (room, Some dest) →
  0 ≤ count ≤ room →
  (∀ a, ¬ (dest ≤ a < dest + count) → m' a = m a) →
  let uk' := whitebox_user_sink_produce uk count in
  uk_wf k uk' ∧
  ring_bytes k (uk_buf uk') m' =
    ring_bytes k (uk_buf uk) m ++ bytes_at m' dest (4 * (count / 4)).
Proof.
  intros Hw Es Hcount Hm uk'.
  rewrite (uk_space_spec k) in Es by done. destruct (nz fc && _); [done |].
  injection Es as <- <-.
  pose proof Hw as [[Hk Hh Ht Hb] Hs Hh4]. pose proof (pow2_30 k Hk).
  pose proof (ring_len_range k (uk_buf uk)).
  set (room := Z.min _ _) in *. pose proof (words_le count count).
  split; [apply uk_wf_produce; [done | lia] |]. subst uk'.
  rewrite (uk_produce_buf k) by (done || lia).
  destruct (ring_produce k (uk_buf uk) m m' (4 * (count / 4)) room) as [_ Hp]; try lia.
  - intros a _ Ha. apply Hm. lia.
  - exact Hp.
Qed.

(** A request larger than the distance from the write index to the end of
    the array is never satisfied, however much the other side drains: for every
    value of the read index the room reported, and symmetrically the data
    reported to a reader, stays below it.  An empty ring may so report four
    bytes of room only. *)
Lemma ring_request_past_end k us uk t h :
  (us_wf k us → 0 ≤ t < 2 ^ k → t mod 4 = 0 →
    (whitebox_user_source_space_available
      (us <| us_buf ::= λ b, b <| cb_tail := t |> |>)).1 ≤ 2 ^ k - cb_head (us_buf us)) ∧
  (uk_wf k uk → 0 ≤ h < 2 ^ k → h mod 4 = 0 →
    (whitebox_user_sink_data_available
      (uk <| uk_buf ::= λ b, b <| cb_head := h |> |>)).1 ≤ 2 ^ k - cb_tail (uk_buf uk)).
Proof.
  split.
  - intros [[Hk Hh Ht Hb] Hs Hh4 Ht4] Htr Htm.
    rewrite (us_space_spec k) by (split; [split |..]; done).
    unfold upd; cbn. set (x := Z.min _ _). pose proof (words_bound x). lia.
  - intros [[Hk Hh Ht Hb] Hs Hh4] Hhr Hhm.
    rewrite (uk_data_spec k) by (split; [split |..]; done).
    unfold upd; cbn. lia.
Qed.
End queue_properties.

(** ** The properties on concrete inputs *)

Definition ring12 (head tail : Z) : circ_buf :=
  {| cb_buf := 0x10000; cb_head := head; cb_tail := tail |}.
Definition us12 (head tail : Z) : whitebox_user_source :=
  {| us_off := 0; us_order := 0; us_buf_size := 2 ^ 12; us_buf := ring12 head tail |}.
Definition uk12 (head tail : Z) : whitebox_user_sink :=
  {| uk_off := 0; uk_order := 0; uk_buf_size := 2 ^ 12; uk_buf := ring12 head tail |}.

Lemma us12_wf head tail :
  0 ≤ head < 2 ^ 12 → 0 ≤ tail < 2 ^ 12 → head mod 4 = 0 → tail mod 4 = 0 →
  us_wf 12 (us12 head tail).
Proof. intros. split; [split |..]; cbn; try done; lia. Qed.
Lemma uk12_wf head tail :
  0 ≤ head < 2 ^ 12 → 0 ≤ tail < 2 ^ 12 → head mod 4 = 0 → uk_wf 12 (uk12 head tail).
Proof. intros. split; [split |..]; cbn; try done; lia. Qed.

(** A user buffer holding 1..6, written to a ring that holds two words: the last
    two bytes of the six are lost. *)
Definition user_mem : sim :=
  sim0 <| m_mem := list_to_map (zip (seqZ 0x90000 6) [1; 2; 3; 4; 5; 6]) |>.

Lemma user_source_write_appends_witness : ∃ w',
  runs (whitebox_user_source_work 0x90000 6 0x10008 4084)
    (Sys zero_params zero_pdma 0 (zero_wb <| wb_user_source := us12 8 0 |>) user_mem) 6
    (Sys zero_params zero_pdma 0 (zero_wb <| wb_user_source := us12 8 0 |>) w') ∧
  ring_bytes 12 (us_buf (whitebox_user_source_produce (us12 8 0) 6)) (sim_mem w') =
    [0; 0; 0; 0; 0; 0; 0; 0; 1; 2; 3; 4].
Proof.
  pose proof (user_source_write_appends (H := circ_macros) sim_mem 12 6 0x90000 zero_params
    zero_pdma 0 (zero_wb <| wb_user_source := us12 8 0 |>) user_mem) as Hp.
  change (whitebox_user_source_space_available _) with (4084, 0x10008) in Hp.
  destruct Hp as (w' & Hr & _ & Hb & _); [by apply us12_wf | done | lia | left; lia | done |].
  exists w'. split; [exact Hr |]. exact Hb.
Defined.

Lemma user_source_drains_front_witness :
  ring_bytes 12 (ring12 8 4092) (λ a, a) =
    [0x10ffc; 0x10ffd; 0x10ffe; 0x10fff] ++ ring_bytes 12 (us_buf (whitebox_user_source_consume (us12 8 4092) 4)) (λ a, a).
Proof.
  pose proof (user_source_drains_front (H := circ_macros) 12 (us12 8 4092) (λ a, a) 4) as Hp.
  change (whitebox_user_source_data_available _) with (4, 0x10ffc) in Hp.
  destruct Hp as [_ Hb]; [by apply us12_wf | lia |]. exact Hb.
Defined.

Lemma user_sink_read_takes_witness : ∃ w',
  runs (whitebox_user_sink_work 0x10000 8 0x90000 3)
    (Sys zero_params zero_pdma 0 (zero_wb <| wb_user_sink := uk12 8 0 |>) sim0) 3
    (Sys zero_params zero_pdma 0 (zero_wb <| wb_user_sink := uk12 8 0 |>) w').
Proof.
  pose proof (user_sink_read_takes (H := circ_macros) sim_mem 12 3 0x90000 zero_params
    zero_pdma 0 (zero_wb <| wb_user_sink := uk12 8 0 |>) sim0) as Hp.
  change (whitebox_user_sink_data_available _) with (8, 0x10000) in Hp.
  destruct Hp as (w' & Hr & _);
    [by apply uk12_wf | done | lia | right; lia | right; cbn; lia | done |].
  exists w'. exact Hr.
Defined.

Lemma user_sink_fill_appends_witness :
  ring_bytes 12 (uk_buf (whitebox_user_sink_produce (uk12 8 4) 4)) (λ _, 1) =
    ring_bytes 12 (ring12 8 4) (λ _, 1) ++ [1; 1; 1; 1].
Proof.
  exact (proj2 (user_sink_fill_appends (H := circ_macros) 12 1 3840 (uk12 8 4) (λ _, 1) (λ _, 1)
    4 4088 0x10008 ltac:(by apply uk12_wf) eq_refl ltac:(lia) ltac:(done))).
Defined.

Lemma ring_request_past_end_witness :
  (whitebox_user_source_space_available (H := circ_macros) (us12 4092 4092)).1 ≤ 4.
Proof.
  exact (proj1 (ring_request_past_end (H := circ_macros) 12 (us12 4092 0) (uk12 0 0) 4092 0)
    ltac:(by apply us12_wf) ltac:(lia) eq_refl).
Defined.
