(* ===== verification/Gpio.v ===== *)
(** * Pins and serial buses ([driver/whitebox_gpio.c])

    Requesting and driving the pins of the board, and the two bit-banged serial
    buses: the three-wire bus of the ADF4351 synthesizer and the four-wire bus of
    the CMX991 transceiver. *)

From S2P Require Import Prelude Kernel State.

Section gpio.
Context {W : Type} `{!Kernel W}.

Definition gpio_set_value (pin v : Z) : M (sys W) () := call_ (k_gpio_set_value pin v).
Definition gpio_get_value (pin : Z) : M (sys W) Z := call (k_gpio_get_value pin).
Definition udelay (us : Z) : M (sys W) () := call_ (k_udelay us).

Definition whitebox_gpio_free (pd : whitebox_platform_data_t) : M (sys W) () :=
  call_ (k_gpio_free (adc_s1_pin pd));;
  call_ (k_gpio_free (adc_s2_pin pd));;
  call_ (k_gpio_free (adc_dfs_pin pd));;
  call_ (k_gpio_free (dac_en_pin pd));;
  call_ (k_gpio_free (dac_pd_pin pd));;
  call_ (k_gpio_free (dac_cs_pin pd));;
  call_ (k_gpio_free (radio_resetn_pin pd));;
  call_ (k_gpio_free (radio_cdata_pin pd));;
  call_ (k_gpio_free (radio_sclk_pin pd));;
  call_ (k_gpio_free (radio_rdata_pin pd));;
  call_ (k_gpio_free (radio_csn_pin pd));;
  call_ (k_gpio_free (vco_clk_pin pd));;
  call_ (k_gpio_free (vco_data_pin pd));;
  call_ (k_gpio_free (vco_le_pin pd));;
  call_ (k_gpio_free (vco_ce_pin pd));;
  call_ (k_gpio_free (vco_pdb_pin pd));;
  call_ (k_gpio_free (vco_ld_pin pd)).

(** The calls of [whitebox_gpio_request] in order, up to the first that fails. *)
Fixpoint until_failure (ret : Z) (steps : list (M (sys W) Z)) : M (sys W) Z :=
  match steps with
  | [] => mret ret
  | m :: rest => r ← m; if r <? 0 then mret r else until_failure r rest
  end.

Definition WHITEBOX_GPIO_REQUEST_OUTPUT (pin v : Z) : list (M (sys W) Z) :=
  [call (k_gpio_request pin); call (k_gpio_direction_output pin v)].
Definition WHITEBOX_GPIO_REQUEST_INPUT (pin : Z) : list (M (sys W) Z) :=
  [call (k_gpio_request pin); call (k_gpio_direction_input pin)].

Definition whitebox_gpio_request (pd : whitebox_platform_data_t) : M (sys W) Z :=
  until_failure 0 (
    WHITEBOX_GPIO_REQUEST_OUTPUT (adc_s1_pin pd) 0 ++
    WHITEBOX_GPIO_REQUEST_OUTPUT (adc_s2_pin pd) 0 ++
    WHITEBOX_GPIO_REQUEST_OUTPUT (adc_dfs_pin pd) 1 ++
    WHITEBOX_GPIO_REQUEST_OUTPUT (dac_en_pin pd) 0 ++
    WHITEBOX_GPIO_REQUEST_OUTPUT (dac_pd_pin pd) 1 ++
    WHITEBOX_GPIO_REQUEST_OUTPUT (dac_cs_pin pd) 1 ++
    WHITEBOX_GPIO_REQUEST_OUTPUT (radio_resetn_pin pd) 1 ++
    WHITEBOX_GPIO_REQUEST_OUTPUT (radio_cdata_pin pd) 0 ++
    WHITEBOX_GPIO_REQUEST_OUTPUT (radio_sclk_pin pd) 0 ++
    WHITEBOX_GPIO_REQUEST_INPUT (radio_rdata_pin pd) ++
    WHITEBOX_GPIO_REQUEST_OUTPUT (radio_csn_pin pd) 1 ++
    WHITEBOX_GPIO_REQUEST_OUTPUT (vco_clk_pin pd) 0 ++
    WHITEBOX_GPIO_REQUEST_OUTPUT (vco_data_pin pd) 0 ++
    WHITEBOX_GPIO_REQUEST_OUTPUT (vco_le_pin pd) 0 ++
    WHITEBOX_GPIO_REQUEST_OUTPUT (vco_ce_pin pd) 1 ++
    WHITEBOX_GPIO_REQUEST_OUTPUT (vco_pdb_pin pd) 1 ++
    WHITEBOX_GPIO_REQUEST_INPUT (vco_ld_pin pd)).

Definition whitebox_gpio_dac_enable (pd : whitebox_platform_data_t) : M (sys W) () :=
  gpio_set_value (dac_pd_pin pd) 0;;
  gpio_set_value (dac_cs_pin pd) 0.

Definition whitebox_gpio_dac_disable (pd : whitebox_platform_data_t) : M (sys W) () :=
  gpio_set_value (dac_cs_pin pd) 1;;
  gpio_set_value (dac_pd_pin pd) 1.

Definition whitebox_gpio_adc_enable (pd : whitebox_platform_data_t) : M (sys W) () :=
  gpio_set_value (adc_s1_pin pd) 1;;
  gpio_set_value (adc_s2_pin pd) 1.

Definition whitebox_gpio_adc_disable (pd : whitebox_platform_data_t) : M (sys W) () :=
  gpio_set_value (adc_s1_pin pd) 0;;
  gpio_set_value (adc_s2_pin pd) 0.

Definition whitebox_gpio_cmx991_reset (pd : whitebox_platform_data_t) : M (sys W) () :=
  gpio_set_value (radio_resetn_pin pd) 0;;
  udelay 10;;
  gpio_set_value (radio_resetn_pin pd) 1.

(** [byte] is a [u8] promoted to [int] by the shift. *)
Definition _cmx991_wr_byte (pd : whitebox_platform_data_t) (byte : Z) : M (sys W) () :=
  for_loop 8 0 (λ i,
    gpio_set_value (radio_cdata_pin pd) (if nz ((byte <<< i) &&& 0x80) then 1 else 0);;
    gpio_set_value (radio_sclk_pin pd) 0;;
    gpio_set_value (radio_sclk_pin pd) 1).

Definition whitebox_gpio_cmx991_write (pd : whitebox_platform_data_t) (address data : Z)
    : M (sys W) () :=
  gpio_set_value (radio_csn_pin pd) 0;;
  _cmx991_wr_byte pd address;;
  udelay 10;;
  _cmx991_wr_byte pd data;;
  gpio_set_value (radio_csn_pin pd) 1;;
  gpio_set_value (radio_sclk_pin pd) 0.

(** The loop of [_cmx991_rd_byte]; [byte] is the [u8] accumulator. *)
Fixpoint cmx991_rd_bits (pd : whitebox_platform_data_t) (n : nat) (byte : Z)
    : M (sys W) Z :=
  match n with
  | O => mret byte
  | S n' =>
      gpio_set_value (radio_sclk_pin pd) 0;;
      let byte := u8 (byte <<< 1) in
      gpio_set_value (radio_sclk_pin pd) 1;;
      v ← gpio_get_value (radio_rdata_pin pd);
      cmx991_rd_bits pd n' (if nz v then byte ||| 0x01 else byte)
  end.

Definition _cmx991_rd_byte (pd : whitebox_platform_data_t) : M (sys W) Z :=
  cmx991_rd_bits pd 8 0.

Definition whitebox_gpio_cmx991_read (pd : whitebox_platform_data_t) (address : Z)
    : M (sys W) Z :=
  gpio_set_value (radio_csn_pin pd) 0;;
  _cmx991_wr_byte pd address;;
  udelay 10;;
  value ← _cmx991_rd_byte pd;
  gpio_set_value (radio_csn_pin pd) 1;;
  gpio_set_value (radio_sclk_pin pd) 0;;
  mret value.

(** [data] is a [u32]; the shift wraps. *)
Definition whitebox_gpio_adf4351_write (pd : whitebox_platform_data_t) (data : Z)
    : M (sys W) () :=
  gpio_set_value (vco_le_pin pd) 1;;
  gpio_set_value (vco_clk_pin pd) 0;;
  gpio_set_value (vco_le_pin pd) 0;;
  for_loop 32 0 (λ i,
    gpio_set_value (vco_data_pin pd)
      (if nz (u32 (data <<< i) &&& 0x80000000) then 1 else 0);;
    gpio_set_value (vco_clk_pin pd) 1;;
    gpio_set_value (vco_clk_pin pd) 0);;
  gpio_set_value (vco_le_pin pd) 1;;
  udelay 10.

Definition whitebox_gpio_adf4351_locked (pd : whitebox_platform_data_t) : M (sys W) Z :=
  gpio_get_value (vco_ld_pin pd).
End gpio.
