(* ===== verification/GpioSpec.v ===== *)
(** * The serial buses deliver their words

    Models of the shift registers at the other end of the two buses, fed with the
    pin changes of a driver call: after a write the synthesizer has latched exactly
    the word, and the transceiver exactly the address and data bytes. *)

From stdpp Require Import gmap.
From S2P Require Import Prelude Kernel State Sim Gpio.

(** ** Bits *)

Lemma nz_land_pow2 x k : 0 ≤ k → nz (x &&& 2 ^ k) = Z.testbit x k.
Proof.
  intros Hk. unfold nz. destruct (Z.testbit x k) eqn:E.
  - apply negb_true_iff, Z.eqb_neq. intros H0.
    assert (Z.testbit (x &&& 2 ^ k) k = false) as Hf by by rewrite H0, Z.bits_0.
    by rewrite Z.land_spec, E, Z.pow2_bits_true in Hf.
  - apply negb_false_iff, Z.eqb_eq. apply Z.bits_inj'. intros n Hn.
    rewrite Z.land_spec, Z.bits_0, Z.pow2_bits_eqb by done.
    destruct (k =? n) eqn:En; [| apply andb_false_r].
    apply Z.eqb_eq in En as <-. by rewrite E.
Qed.

Lemma byte_bit byte i :
  0 ≤ i < 8 → nz ((byte <<< i) &&& 0x80) = Z.testbit byte (7 - i).
Proof.
  intros. change 0x80 with (2 ^ 7). rewrite nz_land_pow2 by lia. by rewrite Z.shiftl_spec by lia.
Qed.
Lemma word_bit data i :
  0 ≤ i < 32 → nz (u32 (data <<< i) &&& 0x80000000) = Z.testbit data (31 - i).
Proof.
  intros. change 0x80000000 with (2 ^ 31). rewrite nz_land_pow2 by lia. unfold u32.
  rewrite Z.mod_pow2_bits_low by lia. by rewrite Z.shiftl_spec by lia.
Qed.

(** ** The shift registers *)

(** A register of [width] bits: data is shifted in on the rising edge of the clock
    while the select line is low, and latched when the select line rises. *)
Record shift_reg := {
  sr_clk : bool;
  sr_data : bool;
  sr_sel : bool;
  sr_shift : Z;
  sr_latch : Z;
}.

Section device.
Context (width clk data sel : Z) (pins_differ : NoDup [clk; data; sel]).

Definition sr_step (d : shift_reg) (e : io_event) : shift_reg :=
  match e with
  | EvGpio pin v =>
      if pin =? clk then
        {| sr_clk := nz v; sr_data := sr_data d; sr_sel := sr_sel d;
           sr_shift := if negb (sr_clk d) && nz v && negb (sr_sel d)
             then (2 * sr_shift d + Z.b2z (sr_data d)) mod 2 ^ width else sr_shift d;
           sr_latch := sr_latch d |}
      else if pin =? data then
        {| sr_clk := sr_clk d; sr_data := nz v; sr_sel := sr_sel d;
           sr_shift := sr_shift d; sr_latch := sr_latch d |}
      else if pin =? sel then
        {| sr_clk := sr_clk d; sr_data := sr_data d; sr_sel := nz v;
           sr_shift := sr_shift d;
           sr_latch := if negb (sr_sel d) && nz v then sr_shift d else sr_latch d |}
      else d
  | _ => d
  end.
Definition sr_run (evs : list io_event) (d : shift_reg) : shift_reg := fold_left sr_step evs d.

Lemma sr_run_app e1 e2 d : sr_run (e1 ++ e2) d = sr_run e2 (sr_run e1 d).
Proof. apply fold_left_app. Qed.

Lemma sr_run_one e d : sr_run [e] d = sr_step d e.
Proof. done. Qed.

(** The two bit cells of the driver: one raises the clock then lowers it, the
    other the reverse. *)
Definition cell_up (b : bool) : list io_event :=
  [EvGpio data (if b then 1 else 0); EvGpio clk 1; EvGpio clk 0].
Definition cell_down (b : bool) : list io_event :=
  [EvGpio data (if b then 1 else 0); EvGpio clk 0; EvGpio clk 1].

Lemma pins : clk ≠ data ∧ clk ≠ sel ∧ data ≠ sel.
Proof.
  apply NoDup_cons in pins_differ as [H1 H2]. apply NoDup_cons in H2 as [H2 _].
  set_solver.
Qed.

Ltac pin_step :=
  destruct pins as (? & ? & ?); unfold sr_run; cbn [fold_left sr_step];
  repeat (rewrite ?Z.eqb_refl; cbn [sr_clk sr_data sr_sel sr_shift sr_latch];
    match goal with |- context[?a =? ?b] => rewrite (proj2 (Z.eqb_neq a b)) by congruence end);
  rewrite ?Z.eqb_refl; cbn [sr_clk sr_data sr_sel sr_shift sr_latch].

Lemma cell_up_spec b d :
  sr_sel d = false → sr_clk d = false →
  sr_run (cell_up b) d = {| sr_clk := false; sr_data := b; sr_sel := false;
    sr_shift := (2 * sr_shift d + Z.b2z b) mod 2 ^ width; sr_latch := sr_latch d |}.
Proof. intros Hs Hc. unfold cell_up. pin_step. rewrite Hs, Hc. destruct b; reflexivity. Qed.
Lemma cell_down_spec b d :
  sr_sel d = false →
  sr_run (cell_down b) d = {| sr_clk := true; sr_data := b; sr_sel := false;
    sr_shift := (2 * sr_shift d + Z.b2z b) mod 2 ^ width; sr_latch := sr_latch d |}.
Proof. intros Hs. unfold cell_down. pin_step. rewrite Hs. by destruct b, (sr_clk d). Qed.

(** Shifting in the [n] low bits of [x], most significant first. *)
Lemma shift_in (cell : bool → list io_event) (ready : shift_reg → Prop) x total :
  0 ≤ width →
  (∀ b d, ready d → let d' := sr_run (cell b) d in
    ready d' ∧ sr_latch d' = sr_latch d ∧
    sr_shift d' = (2 * sr_shift d + Z.b2z b) mod 2 ^ width) →
  ∀ n i d, ready d → i + Z.of_nat n = total →
  let d' := sr_run (mjoin ((λ j, cell (Z.testbit x (total - 1 - j))) <$> seqZ i (Z.of_nat n))) d in
  ready d' ∧ sr_latch d' = sr_latch d ∧
  sr_shift d' mod 2 ^ width =
    (sr_shift d * 2 ^ Z.of_nat n + x mod 2 ^ Z.of_nat n) mod 2 ^ width.
Proof.
  intros Hw Hcell n. induction n as [|n IH]; intros i d Hd Hi.
  { change (2 ^ Z.of_nat 0) with 1. rewrite Z.mod_1_r, Z.mul_1_r, Z.add_0_r. by split_and!. }
  rewrite seqZ_cons by lia.
  replace (Z.pred (Z.of_nat (S n))) with (Z.of_nat n) by lia.
  set (f := λ j, cell (Z.testbit x (total - 1 - j))).
  change (mjoin (f <$> i :: seqZ (Z.succ i) (Z.of_nat n)))
    with (f i ++ mjoin (f <$> seqZ (Z.succ i) (Z.of_nat n))).
  rewrite sr_run_app. set (b := Z.testbit x (total - 1 - i)).
  destruct (Hcell b d Hd) as (H1 & H2 & H3).
  destruct (IH (Z.succ i) (sr_run (f i) d)) as (H4 & H5 & H6); [done | lia |].
  split_and!; [done | by etrans; [exact H5 | exact H2] |].
  etrans; [exact H6 |]. change (sr_run (f i) d) with (sr_run (cell b) d). rewrite H3.
  rewrite <- Z.add_mod_idemp_l, Z.mul_mod_idemp_l, Z.add_mod_idemp_l by lia. f_equal.
  replace (Z.of_nat (S n)) with (Z.of_nat n + 1) by lia.
  rewrite Z.pow_add_r, Z.rem_mul_r by lia.
  subst b. replace (total - 1 - i) with (Z.of_nat n) by lia.
  rewrite Z.testbit_spec' by lia.
  change (2 ^ 1) with 2. lia.
Qed.
End device.

(** ** What the driver's calls emit *)

Section emits.
Context {W : Type} `{!Kernel W}.

Lemma emits_gpio_set_value pin v : emits (gpio_set_value pin v) [EvGpio pin v].
Proof. intros pr p uc wb w. eexists. split; [apply runs_call_ |]. intros. apply trace_gpio_set_value. Qed.
Lemma emits_udelay us : emits (udelay us) [EvUdelay us].
Proof. intros pr p uc wb w. eexists. split; [apply runs_call_ |]. intros. apply trace_udelay. Qed.

Definition bits_of (width : Z) (cell : bool → list io_event) (x : Z) : list io_event :=
  mjoin ((λ j, cell (Z.testbit x (width - 1 - j))) <$> seqZ 0 width).

Lemma emits_wr_byte pd byte :
  emits (_cmx991_wr_byte pd byte)
    (bits_of 8 (cell_down (radio_sclk_pin pd) (radio_cdata_pin pd)) byte).
Proof.
  unfold _cmx991_wr_byte, bits_of.
  erewrite (list_fmap_ext (λ j, cell_down _ _ (Z.testbit byte (8 - 1 - j)))).
  - apply (emits_for_loop 8). intros j. unfold cell_down.
    repeat (eapply (emits_seq _ _ [_]); [apply emits_gpio_set_value |]).
    apply emits_gpio_set_value.
  - intros i j Hj. apply lookup_seqZ in Hj as [-> Hj]. cbn beta.
    replace (8 - 1 - (0 + Z.of_nat i)) with (7 - (0 + Z.of_nat i)) by lia.
    by rewrite <- byte_bit by lia.
Qed.

Definition cmx991_write_events (pd : whitebox_platform_data_t) (address data : Z)
    : list io_event :=
  let cell := cell_down (radio_sclk_pin pd) (radio_cdata_pin pd) in
  [EvGpio (radio_csn_pin pd) 0] ++ bits_of 8 cell address ++ [EvUdelay 10] ++
  bits_of 8 cell data ++ [EvGpio (radio_csn_pin pd) 1] ++ [EvGpio (radio_sclk_pin pd) 0].

Lemma emits_cmx991_write pd address data :
  emits (whitebox_gpio_cmx991_write pd address data) (cmx991_write_events pd address data).
Proof.
  apply emits_seq; [apply emits_gpio_set_value |].
  apply emits_seq; [apply emits_wr_byte |].
  apply emits_seq; [apply emits_udelay |].
  apply emits_seq; [apply emits_wr_byte |].
  apply emits_seq; apply emits_gpio_set_value.
Qed.

Definition adf4351_write_events (pd : whitebox_platform_data_t) (data : Z) : list io_event :=
  [EvGpio (vco_le_pin pd) 1] ++ [EvGpio (vco_clk_pin pd) 0] ++ [EvGpio (vco_le_pin pd) 0] ++
  bits_of 32 (cell_up (vco_clk_pin pd) (vco_data_pin pd)) data ++
  [EvGpio (vco_le_pin pd) 1] ++ [EvUdelay 10].

Lemma emits_adf4351_write pd data :
  emits (whitebox_gpio_adf4351_write pd data) (adf4351_write_events pd data).
Proof.
  do 3 (apply emits_seq; [apply emits_gpio_set_value |]).
  apply emits_seq; [| apply emits_seq; [apply emits_gpio_set_value | apply emits_udelay]].
  unfold bits_of.
  erewrite (list_fmap_ext (λ j, cell_up _ _ (Z.testbit data (32 - 1 - j)))).
  - apply (emits_for_loop 32). intros j. unfold cell_up.
    repeat (eapply (emits_seq _ _ [_]); [apply emits_gpio_set_value |]).
    apply emits_gpio_set_value.
  - intros i j Hj. apply lookup_seqZ in Hj as [-> Hj]. cbn beta.
    replace (32 - 1 - (0 + Z.of_nat i)) with (31 - (0 + Z.of_nat i)) by lia.
    by rewrite <- word_bit by lia.
Qed.
End emits.

(** Shifting in a whole word. *)
Lemma sr_word_up clk data sel width n x d :
  NoDup [clk; data; sel] → 0 ≤ n ≤ width → 0 ≤ x < 2 ^ n →
  sr_sel d = false → sr_clk d = false →
  let d' := sr_run width clk data sel (bits_of n (cell_up clk data) x) d in
  sr_sel d' = false ∧ sr_clk d' = false ∧
  sr_shift d' mod 2 ^ width = (sr_shift d * 2 ^ n + x) mod 2 ^ width.
Proof.
  intros Hnd Hn Hx Hs Hc d'.
  destruct (shift_in width clk data sel (cell_up clk data)
    (λ d, sr_sel d = false ∧ sr_clk d = false) x n ltac:(lia)) with (n := Z.to_nat n) (i := 0) (d := d)
    as ([? ?] & _ & H3); [| done | lia |].
  - intros b d1 [? ?]. rewrite cell_up_spec by done. done.
  - rewrite Z2Nat.id, (Z.mod_small x) in * by lia. done.
Qed.
Lemma sr_word_down clk data sel width n x d :
  NoDup [clk; data; sel] → 0 ≤ n ≤ width → 0 ≤ x < 2 ^ n →
  sr_sel d = false →
  let d' := sr_run width clk data sel (bits_of n (cell_down clk data) x) d in
  sr_sel d' = false ∧
  sr_shift d' mod 2 ^ width = (sr_shift d * 2 ^ n + x) mod 2 ^ width.
Proof.
  intros Hnd Hn Hx Hs d'.
  destruct (shift_in width clk data sel (cell_down clk data)
    (λ d, sr_sel d = false) x n ltac:(lia)) with (n := Z.to_nat n) (i := 0) (d := d)
    as (? & _ & H3); [| done | lia |].
  - intros b d1 ?. rewrite cell_down_spec by done. done.
  - rewrite Z2Nat.id, (Z.mod_small x) in * by lia. done.
Qed.

(** The register never holds more than its width. *)
Lemma sr_shift_range width clk data sel evs d :
  0 ≤ width → 0 ≤ sr_shift d < 2 ^ width →
  0 ≤ sr_shift (sr_run width clk data sel evs d) < 2 ^ width.
Proof.
  intros Hw. revert d. induction evs as [|e evs IH]; intros d Hd; [done |].
  apply IH. destruct e; try done. cbn.
  destruct (pin =? clk); [| by destruct (pin =? data), (pin =? sel)].
  cbn. destruct (_ && _); [apply Z.mod_pos_bound; lia | done].
Qed.

#[local] Opaque bits_of sr_run.

(** ** Properties *)

Section properties.
Context {W : Type} `{!Kernel W} (trace : W → list io_event) `{!Traced trace}.

(** C16: a write to the synthesizer shifts the 32 bits of the word out, most
    significant first, under the protocol of its three-wire bus: whatever the
    state of the chip's input register before the call, the chip has latched
    exactly the word after it. *)
Theorem adf4351_write_latches pd data d pr p uc wb (w : W) :
  NoDup [vco_clk_pin pd; vco_data_pin pd; vco_le_pin pd] → 0 ≤ data < 2 ^ 32 →
  0 ≤ sr_shift d < 2 ^ 32 →
  ∃ w' evs, runs (whitebox_gpio_adf4351_write pd data) (Sys pr p uc wb w) ()
      (Sys pr p uc wb w') ∧
    trace w' = trace w ++ evs ∧
    sr_latch (sr_run 32 (vco_clk_pin pd) (vco_data_pin pd) (vco_le_pin pd) evs d) = data.
Proof.
  intros Hnd Hdata Hd.
  destruct (emits_adf4351_write pd data pr p uc wb w) as (w' & Hr & Ht).
  exists w', (adf4351_write_events pd data). split_and!; [done | by apply Ht |].
  unfold adf4351_write_events. do 5 rewrite sr_run_app.
  set (d1 := sr_run _ _ _ _ [EvGpio (vco_le_pin pd) 0] _).
  destruct (pins _ _ _ Hnd) as (H1 & H2 & H3).
  assert (sr_sel d1 = false ∧ sr_clk d1 = false) as [Hs Hc].
  { subst d1. rewrite ?sr_run_one; cbn [sr_step].
    rewrite !(proj2 (Z.eqb_neq (vco_le_pin pd) _)) by congruence.
    rewrite !Z.eqb_refl. done. }
  assert (0 ≤ sr_shift d1 < 2 ^ 32) as Hd1.
  { unfold d1. do 3 (apply sr_shift_range; [lia |]). done. }
  destruct (sr_word_up (vco_clk_pin pd) (vco_data_pin pd) (vco_le_pin pd) 32 32 data d1)
    as (Hs2 & Hc2 & Hsh); [done | lia | done | done | done |].
  pose proof (sr_shift_range 32 (vco_clk_pin pd) (vco_data_pin pd) (vco_le_pin pd)
    (bits_of 32 (cell_up (vco_clk_pin pd) (vco_data_pin pd)) data) d1 ltac:(lia) Hd1).
  set (d2 := sr_run _ _ _ _ (bits_of _ _ _) d1) in *.
  rewrite Z.add_comm, Z.mod_add, !Z.mod_small in Hsh by lia.
  rewrite ?sr_run_one; cbn [sr_step].
  rewrite !(proj2 (Z.eqb_neq (vco_le_pin pd) _)) by congruence. rewrite Z.eqb_refl. cbn.
  by rewrite Hs2.
Qed.

(** C17: a register write to the transceiver delivers the address byte then the
    data byte: the 16 bits its serial port has latched when the chip select rises
    are exactly these two. *)
Theorem cmx991_write_latches pd address data d pr p uc wb (w : W) :
  NoDup [radio_sclk_pin pd; radio_cdata_pin pd; radio_csn_pin pd] →
  0 ≤ address < 2 ^ 8 → 0 ≤ data < 2 ^ 8 → 0 ≤ sr_shift d < 2 ^ 16 → sr_sel d = true →
  ∃ w' evs, runs (whitebox_gpio_cmx991_write pd address data) (Sys pr p uc wb w) ()
      (Sys pr p uc wb w') ∧
    trace w' = trace w ++ evs ∧
    sr_latch (sr_run 16 (radio_sclk_pin pd) (radio_cdata_pin pd) (radio_csn_pin pd) evs d) =
      address * 2 ^ 8 + data.
Proof.
  intros Hnd Ha Hdata Hd Hsel.
  destruct (emits_cmx991_write pd address data pr p uc wb w) as (w' & Hr & Ht).
  exists w', (cmx991_write_events pd address data). split_and!; [done | by apply Ht |].
  unfold cmx991_write_events. cbv zeta. do 5 rewrite sr_run_app.
  set (d1 := sr_run _ _ _ _ [EvGpio (radio_csn_pin pd) 0] _).
  destruct (pins _ _ _ Hnd) as (H1 & H2 & H3).
  assert (sr_sel d1 = false) as Hs.
  { subst d1. rewrite ?sr_run_one; cbn [sr_step].
    rewrite !(proj2 (Z.eqb_neq (radio_csn_pin pd) _)) by congruence. by rewrite Z.eqb_refl. }
  assert (0 ≤ sr_shift d1 < 2 ^ 16) as Hd1 by (apply sr_shift_range; [lia | done]).
  destruct (sr_word_down (radio_sclk_pin pd) (radio_cdata_pin pd) (radio_csn_pin pd) 16 8
    address d1) as (Hs2 & Hsh2); [done | lia | done | done |].
  set (d2 := sr_run _ _ _ _ (bits_of 8 _ address) d1) in *.
  rewrite (sr_run_one _ _ _ _ (EvUdelay 10)). cbn [sr_step].
  destruct (sr_word_down (radio_sclk_pin pd) (radio_cdata_pin pd) (radio_csn_pin pd) 16 8
    data d2) as (Hs3 & Hsh3); [done | lia | done | done |].
  assert (0 ≤ sr_shift d2 < 2 ^ 16) as Hd2 by (apply sr_shift_range; [lia | done]).
  pose proof (sr_shift_range 16 (radio_sclk_pin pd) (radio_cdata_pin pd) (radio_csn_pin pd)
    (bits_of 8 (cell_down (radio_sclk_pin pd) (radio_cdata_pin pd)) data) d2 ltac:(lia) Hd2).
  set (d3 := sr_run _ _ _ _ (bits_of 8 _ data) d2) in *.
  assert (sr_shift d3 = address * 2 ^ 8 + data) as Hd3.
  { rewrite (Z.mod_small (sr_shift d2)) in Hsh2 by lia.
    rewrite (Z.mod_small (sr_shift d3)) in Hsh3 by lia. rewrite Hsh3, Hsh2.
    rewrite <- Z.add_mod_idemp_l, Z.mul_mod_idemp_l, Z.add_mod_idemp_l by lia.
    replace ((sr_shift d1 * 2 ^ 8 + address) * 2 ^ 8 + data)
      with (address * 2 ^ 8 + data + sr_shift d1 * 2 ^ 16) by lia.
    rewrite Z.mod_add by lia. apply Z.mod_small. lia. }
  rewrite ?sr_run_one; cbn [sr_step].
  rewrite !(proj2 (Z.eqb_neq (radio_csn_pin pd) _)) by congruence. rewrite !Z.eqb_refl. cbn.
  by rewrite Hs3.
Qed.
End properties.

(** ** Reading a register *)

(** [pending w]: the levels the data line of the chip will show at the next
    samples; sampling the line takes the first, and nothing else does. *)
Class PinScript {W} `{!Kernel W} (rdata : Z) (pending : W → list bool) : Prop := {
  pending_get w : nz (k_gpio_get_value rdata w).1 = default false (head (pending w)) ∧
    pending (k_gpio_get_value rdata w).2 = tail (pending w);
  pending_set pin v w : pending (k_gpio_set_value pin v w) = pending w;
  pending_udelay us w : pending (k_udelay us w) = pending w;
}.

(** A byte from its bits, most significant first. *)
Definition bits_value (bits : list bool) : Z :=
  fold_left (λ acc b, 2 * acc + Z.b2z b) bits 0.

Section read.
Context {W : Type} `{!Kernel W} (rdata : Z) (pending : W → list bool).
Context `{!PinScript rdata pending}.

Definition quiet (m : M (sys W) ()) : Prop := ∀ pr p uc wb w, ∃ w',
  runs m (Sys pr p uc wb w) () (Sys pr p uc wb w') ∧ pending w' = pending w.

Lemma quiet_set pin v : quiet (gpio_set_value pin v).
Proof. intros pr p uc wb w. eexists. split; [apply runs_call_ | apply pending_set]. Qed.
Lemma quiet_udelay us : quiet (udelay us).
Proof. intros pr p uc wb w. eexists. split; [apply runs_call_ | apply pending_udelay]. Qed.
Lemma quiet_seq m1 m2 : quiet m1 → quiet m2 → quiet (m1;; m2).
Proof.
  intros H1 H2 pr p uc wb w. destruct (H1 pr p uc wb w) as (w1 & R1 & P1).
  destruct (H2 pr p uc wb w1) as (w2 & R2 & P2). exists w2.
  split; [by eapply runs_bind | congruence].
Qed.
Lemma quiet_for_loop n i body : (∀ j, quiet (body j)) → quiet (for_loop n i body).
Proof.
  intros Hb. revert i. induction n as [|n IH]; intros i.
  - intros pr p uc wb w. by exists w.
  - apply quiet_seq; [apply Hb | apply IH].
Qed.

Lemma shift_or_bit acc (b : bool) :
  0 ≤ acc < 2 ^ 7 →
  (if b then u8 (acc <<< 1) ||| 0x01 else u8 (acc <<< 1)) = 2 * acc + Z.b2z b.
Proof.
  intros. rewrite Z.shiftl_mul_pow2 by lia. unfold u8. rewrite Z.mod_small by lia.
  change (2 ^ 1) with 2. rewrite (Z.mul_comm acc). destruct b; cbn [Z.b2z]; [| lia].
  destruct acc as [| q | q]; [done | done | lia].
Qed.

Lemma rd_bits_runs pd n acc pr p uc wb (w : W) :
  radio_rdata_pin pd = rdata → (n ≤ length (pending w))%nat → (n ≤ 8)%nat →
  0 ≤ acc < 2 ^ (8 - Z.of_nat n) →
  ∃ w', runs (cmx991_rd_bits pd n acc) (Sys pr p uc wb w)
      (fold_left (λ a b, 2 * a + Z.b2z b) (take n (pending w)) acc) (Sys pr p uc wb w') ∧
    pending w' = drop n (pending w).
Proof.
  intros Hpin. revert acc w. induction n as [|n IH]; intros acc w Hlen Hn Hacc.
  { exists w. by rewrite drop_0. }
  destruct (pending w) as [|b bits] eqn:Eb; [cbn in Hlen; lia |].
  destruct (quiet_set (radio_sclk_pin pd) 0 pr p uc wb w) as (w1 & R1 & P1).
  destruct (quiet_set (radio_sclk_pin pd) 1 pr p uc wb w1) as (w2 & R2 & P2).
  destruct (pending_get (rdata := rdata) w2) as [Pv P3].
  rewrite P2, P1, Eb in Pv, P3. cbn in Pv, P3.
  assert (2 ^ (8 - Z.of_nat n) = 2 * 2 ^ (8 - Z.of_nat (S n))) as Hpow.
  { replace (8 - Z.of_nat n) with (1 + (8 - Z.of_nat (S n))) by lia.
    rewrite Z.pow_add_r by lia. lia. }
  assert (2 ^ (8 - Z.of_nat (S n)) ≤ 2 ^ 7) by (apply Z.pow_le_mono_r; lia).
  destruct (IH (2 * acc + Z.b2z b) (k_gpio_get_value rdata w2).2) as (w' & R4 & P4).
  { rewrite P3. cbn in Hlen. lia. }
  { lia. }
  { destruct b; cbn [Z.b2z]; lia. }
  exists w'. split; [| by rewrite P4, P3].
  cbn [cmx991_rd_bits take fold_left].
  eapply runs_bind; [exact R1 |]. cbv zeta. eapply runs_bind; [exact R2 |].
  eapply runs_bind; [apply runs_call |]. rewrite Hpin, Pv, shift_or_bit by lia.
  by rewrite P3 in R4.
Qed.

Lemma quiet_wr_byte pd byte : quiet (_cmx991_wr_byte pd byte).
Proof.
  apply quiet_for_loop. intros j.
  repeat (apply quiet_seq; [apply quiet_set |]). apply quiet_set.
Qed.

End read.

(** ** The properties on concrete inputs *)

Definition pd0 : whitebox_platform_data_t := wb_platform_data zero_wb.
Definition sr0 : shift_reg :=
  {| sr_clk := true; sr_data := false; sr_sel := true; sr_shift := 77; sr_latch := 0 |}.

Lemma adf4351_write_latches_witness : ∃ w' evs,
  runs (whitebox_gpio_adf4351_write pd0 0x00580005) sim_sys ()
    (Sys zero_params zero_pdma 0 zero_wb w') ∧
  m_trace w' = evs ∧ sr_latch (sr_run 32 12 13 14 evs sr0) = 0x00580005.
Proof.
  apply (adf4351_write_latches m_trace pd0 0x00580005 sr0 zero_params zero_pdma 0 zero_wb sim0).
  - by apply (bool_decide_unpack _).
  - lia.
  - cbn. lia.
Defined.

Lemma cmx991_write_latches_witness : ∃ w' evs,
  runs (whitebox_gpio_cmx991_write pd0 0x11 0xa5) sim_sys ()
    (Sys zero_params zero_pdma 0 zero_wb w') ∧
  m_trace w' = evs ∧ sr_latch (sr_run 16 9 8 11 evs sr0) = 0x11a5.
Proof.
  apply (cmx991_write_latches m_trace pd0 0x11 0xa5 sr0 zero_params zero_pdma 0 zero_wb sim0).
  - by apply (bool_decide_unpack _).
  - lia.
  - lia.
  - cbn. lia.
  - done.
Defined.

Definition sim_pending (w : sim) : list bool := nz <$> m_gpio_in w.
#[global] Instance sim_pin_script rdata : PinScript rdata sim_pending.
Proof. by split; [intros [? ? ? ? ? ? [|? ?] ? ? ?] |..]. Qed.

