(* ===== verification/Exciter.v ===== *)
(** * The exciter ([driver/whitebox_exciter.c], [whitebox_exciter.h])

    The transmit side of the radio: the register file of the FPGA block, the mock
    that stands for it in tests, and the operation table through which the driver
    reaches either of them. *)

From S2P Require Import Prelude Kernel State Pdma.

(** Status bits and register fields ([whitebox_ioctl.h]). *)
Definition WS_CLEAR : Z := 1 <<< 0.
Definition WS_LOOPEN : Z := 1 <<< 1.
Definition WES_TXEN : Z := 1 <<< 8.
Definition WES_TXSTOP : Z := 1 <<< 11.
Definition WES_AEMPTY : Z := 1 <<< 12.
Definition WES_AFULL : Z := 1 <<< 13.
Definition WES_SPACE : Z := 1 <<< 14.
Definition WES_DATA : Z := 1 <<< 15.
Definition WER_OVERRUNS_MASK : Z := 0xffff0000.
Definition WER_OVERRUNS_OFFSET : Z := 16.
Definition WER_UNDERRUNS_MASK : Z := 0x0000ffff.
Definition WET_AFVAL_OFFSET : Z := 16.
Definition WEC_I_MASK : Z := 0x000003ff.
Definition WEC_Q_OFFSET : Z := 16.
Definition WEC_Q_MASK : Z := 0x03ff0000.
Definition WEG_I_MASK : Z := 0x000003ff.
Definition WEG_Q_OFFSET : Z := 16.
Definition WEG_Q_MASK : Z := 0x03ff0000.
Definition WF_ACCESS_COEFFS : Z := 1 <<< 16.
Definition WF_COEFF_COUNT : Z := 128.

(** Offsets in [struct whitebox_exciter_regs]. *)
Definition wer_sample : Z := 0x00.
Definition wer_state : Z := 0x04.
Definition wer_interp : Z := 0x08.
Definition wer_fcw : Z := 0x0c.
Definition wer_runs : Z := 0x10.
Definition wer_threshold : Z := 0x14.
Definition wer_correction : Z := 0x18.
Definition wer_available : Z := 0x1c.
Definition wer_debug : Z := 0x20.
Definition wer_gain : Z := 0x24.
Definition wer_fir : Z := 0x28.

(** C's conditional flag: [if (b) state |= m]. *)
Definition or_if (b : bool) (m state : Z) : Z := if b then state ||| m else state.

Section exciter.
Context {W : Type} `{!Kernel W} `{!CircMacros}.
Implicit Types (e : which).

(** The structure a [struct whitebox_exciter *] points to. *)
Definition exciter_of (wb : whitebox_device) e : whitebox_exciter :=
  match e with Real => wb_exciter wb | Mock => mx_exciter (wb_mock_exciter wb) end.
Definition exciter_regs e : M (sys W) Z := get_wb (λ wb, ex_regs (exciter_of wb e)).

(** A call through [exciter->ops]. *)
Definition exciter_call {A} e (real mock : M (sys W) A) : M (sys W) A :=
  ops ← get_wb (λ wb, ex_ops (exciter_of wb e));
  match ops with
  | Some real_ops => real
  | Some mock_ops => mock
  | None => fail_with NullDeref
  end.

(** ** The register file *)

Definition exciter_read (offset : Z) e : M (sys W) Z :=
  regs ← exciter_regs e; readl (regs + offset).
Definition exciter_write (offset : Z) e (v : Z) : M (sys W) () :=
  regs ← exciter_regs e; writel (regs + offset) v.

Definition _exciter_free e : M (sys W) () :=
  regs ← exciter_regs e; call_ (k_iounmap regs).
Definition _exciter_get_state e : M (sys W) Z := exciter_read wer_state e.
Definition _exciter_set_state e (state_mask : Z) : M (sys W) () :=
  regs ← exciter_regs e; reg_or (regs + wer_state) state_mask.
Definition _exciter_clear_state e (state_mask : Z) : M (sys W) () :=
  regs ← exciter_regs e; reg_and (regs + wer_state) (u32 (~: state_mask)).
Definition _exciter_get_interp e : M (sys W) Z := exciter_read wer_interp e.
Definition _exciter_set_interp e (interp : Z) : M (sys W) () :=
  exciter_write wer_interp e interp.
Definition _exciter_get_fcw e : M (sys W) Z := exciter_read wer_fcw e.
Definition _exciter_set_fcw e (fcw : Z) : M (sys W) () := exciter_write wer_fcw e fcw.
Definition _exciter_get_threshold e : M (sys W) Z := exciter_read wer_threshold e.
Definition _exciter_set_threshold e (threshold : Z) : M (sys W) () :=
  exciter_write wer_threshold e threshold.
Definition _exciter_get_correction e : M (sys W) Z := exciter_read wer_correction e.
Definition _exciter_set_correction e (correction : Z) : M (sys W) () :=
  exciter_write wer_correction e correction.
Definition _exciter_get_gain e : M (sys W) Z := exciter_read wer_gain e.
Definition _exciter_set_gain e (gain : Z) : M (sys W) () := exciter_write wer_gain e gain.

(** Returns [(overruns, underruns)]. *)
Definition _exciter_get_runs e : M (sys W) (Z * Z) :=
  runs ← exciter_read wer_runs e;
  let underruns := u16 ((runs &&& WER_OVERRUNS_MASK) >>> WER_OVERRUNS_OFFSET) in
  let overruns := u16 (runs &&& WER_UNDERRUNS_MASK) in
  mret (overruns, underruns).

(** Returns the room and where it starts. *)
Definition _exciter_space_available e : M (sys W) (Z * Z) :=
  regs ← exciter_regs e;
  frame_size ← param whitebox_frame_size;
  mret (s32 (frame_size <<< 2), regs + wer_sample).

Definition _exciter_get_debug e : M (sys W) Z := exciter_read wer_debug e.
Definition _exciter_get_fir e : M (sys W) Z := exciter_read wer_fir e.
Definition _exciter_set_fir e (fir : Z) : M (sys W) () := exciter_write wer_fir e fir.
Definition _exciter_get_fir_coeff e (i : Z) : M (sys W) Z :=
  regs ← exciter_regs e; c ← readl regs; mret (s32 c).
Definition _exciter_set_fir_coeff e (i c : Z) : M (sys W) () :=
  regs ← exciter_regs e; writel regs (u32 c).

(** ** The mock *)

Definition _mock_exciter_free e : M (sys W) () :=
  regs ← exciter_regs e; call_ (k_vfree regs).

Definition _mock_exciter_get_state e : M (sys W) Z :=
  state ← exciter_read wer_state e;
  size ← get_wb (λ wb, mx_buf_size (wb_mock_exciter wb));
  quantum ← get_wb (λ wb, ex_quantum (exciter_of wb e));
  buf ← get_wb wb_mock_buf;
  let space := CIRC_SPACE (cb_head buf) (cb_tail buf) size in
  let state := or_if (nz (space >>> 2)) WES_SPACE state in
  let state := or_if (u32 space <? quantum) WES_AFULL state in
  let data := CIRC_CNT (cb_head buf) (cb_tail buf) size in
  let state := or_if (nz (data >>> 2)) WES_DATA state in
  let state := or_if (u32 data <? quantum) WES_AEMPTY state in
  mret state.

Definition _mock_exciter_clear_state e (state_mask : Z) : M (sys W) () :=
  state ← exciter_read wer_state e;
  exciter_write wer_state e (state &&& u32 (~: state_mask)).

Definition exciter_clear_state e (state_mask : Z) : M (sys W) () :=
  exciter_call e (_exciter_clear_state e state_mask) (_mock_exciter_clear_state e state_mask).

Definition _mock_exciter_set_state e (state_mask : Z) : M (sys W) () :=
  if nz (state_mask &&& WS_CLEAR) then
    exciter_write wer_state e 0;;
    upd_wb (λ wb, wb <| wb_mock_buf ::= λ b, b <| cb_head := 0 |> <| cb_tail := 0 |> |>)
  else if nz (state_mask &&& WES_TXSTOP) then exciter_clear_state e WES_TXEN
  else
    state ← exciter_read wer_state e;
    exciter_write wer_state e (state ||| state_mask).

(** When the room up to the end of the array is under a word the buffer is
    emptied. *)
Definition _mock_exciter_space_available e : M (sys W) (Z * Z) :=
  size ← get_wb (λ wb, mx_buf_size (wb_mock_exciter wb));
  buf ← get_wb wb_mock_buf;
  let space := CIRC_SPACE_TO_END (cb_head buf) (cb_tail buf) size &&& ~: 3 in
  if space <? 4 then
    upd_wb (λ wb, wb <| wb_mock_buf ::= λ b, b <| cb_head := 0 |> <| cb_tail := 0 |> |>);;
    let space := CIRC_SPACE_TO_END 0 0 size in
    mret (Z.min space 1024, u32 (cb_buf buf))
  else mret (Z.min space 1024, u32 (cb_buf buf + cb_head buf)).

Definition _mock_exciter_get_debug e : M (sys W) Z := mret 0.
Definition _mock_exciter_set_fir e (r : Z) : M (sys W) () :=
  exciter_write wer_fir e (r &&& u32 (~: WF_ACCESS_COEFFS)).
Definition _mock_exciter_get_fir_coeff e (i : Z) : M (sys W) Z :=
  l ← get_wb (λ wb, mx_fir_coeff (wb_mock_exciter wb)); get_index l i.
Definition _mock_exciter_set_fir_coeff e (i c : Z) : M (sys W) () :=
  l ← get_wb (λ wb, mx_fir_coeff (wb_mock_exciter wb));
  _ ← get_index l i;
  upd_wb (λ wb, wb <| wb_mock_exciter ::= λ m, m <| mx_fir_coeff ::= <[Z.to_nat i := c]> |> |>).

(** ** Calls through the operation table *)

Definition exciter_free e : M (sys W) () :=
  exciter_call e (_exciter_free e) (_mock_exciter_free e).
Definition exciter_get_state e : M (sys W) Z :=
  exciter_call e (_exciter_get_state e) (_mock_exciter_get_state e).
Definition exciter_set_state e (state_mask : Z) : M (sys W) () :=
  exciter_call e (_exciter_set_state e state_mask) (_mock_exciter_set_state e state_mask).
Definition exciter_get_interp e : M (sys W) Z :=
  exciter_call e (_exciter_get_interp e) (_exciter_get_interp e).
Definition exciter_set_interp e (v : Z) : M (sys W) () :=
  exciter_call e (_exciter_set_interp e v) (_exciter_set_interp e v).
Definition exciter_get_fcw e : M (sys W) Z :=
  exciter_call e (_exciter_get_fcw e) (_exciter_get_fcw e).
Definition exciter_set_fcw e (v : Z) : M (sys W) () :=
  exciter_call e (_exciter_set_fcw e v) (_exciter_set_fcw e v).
Definition exciter_get_threshold e : M (sys W) Z :=
  exciter_call e (_exciter_get_threshold e) (_exciter_get_threshold e).
Definition exciter_set_threshold e (v : Z) : M (sys W) () :=
  exciter_call e (_exciter_set_threshold e v) (_exciter_set_threshold e v).
Definition exciter_get_correction e : M (sys W) Z :=
  exciter_call e (_exciter_get_correction e) (_exciter_get_correction e).
Definition exciter_set_correction e (v : Z) : M (sys W) () :=
  exciter_call e (_exciter_set_correction e v) (_exciter_set_correction e v).
Definition exciter_get_gain e : M (sys W) Z :=
  exciter_call e (_exciter_get_gain e) (_exciter_get_gain e).
Definition exciter_set_gain e (v : Z) : M (sys W) () :=
  exciter_call e (_exciter_set_gain e v) (_exciter_set_gain e v).
Definition exciter_get_runs e : M (sys W) (Z * Z) :=
  exciter_call e (_exciter_get_runs e) (_exciter_get_runs e).
Definition exciter_space_available e : M (sys W) (Z * Z) :=
  exciter_call e (_exciter_space_available e) (_mock_exciter_space_available e).
Definition exciter_get_debug e : M (sys W) Z :=
  exciter_call e (_exciter_get_debug e) (_mock_exciter_get_debug e).
Definition exciter_get_fir e : M (sys W) Z :=
  exciter_call e (_exciter_get_fir e) (_exciter_get_fir e).
Definition exciter_set_fir e (v : Z) : M (sys W) () :=
  exciter_call e (_exciter_set_fir e v) (_mock_exciter_set_fir e v).
Definition exciter_get_fir_coeff e (i : Z) : M (sys W) Z :=
  exciter_call e (_exciter_get_fir_coeff e i) (_mock_exciter_get_fir_coeff e i).
Definition exciter_set_fir_coeff e (i c : Z) : M (sys W) () :=
  exciter_call e (_exciter_set_fir_coeff e i c) (_mock_exciter_set_fir_coeff e i c).

(** Turns the transmitter on when asked to and the buffer is almost full. *)
Definition exciter_auto_enable e (state : Z) : M (sys W) () :=
  auto_tx ← get_wb (λ wb, ex_auto_tx (exciter_of wb e));
  when (nz auto_tx && nz (state &&& WES_AFULL) && negb (nz (state &&& WES_TXEN)))
    (exciter_set_state e WES_TXEN).

Definition _exciter_produce e (count : Z) : M (sys W) Z :=
  state ← exciter_get_state e;
  exciter_auto_enable e state;;
  mret 0.

Definition _mock_exciter_produce e (count : Z) : M (sys W) Z :=
  size ← get_wb (λ wb, mx_buf_size (wb_mock_exciter wb));
  upd_wb (λ wb, wb <| wb_mock_buf ::= λ b,
    b <| cb_head := s32 (u32 (cb_head b + count) &&& u32 (size - 4)) |> |>);;
  state ← exciter_get_state e;
  exciter_auto_enable e state;;
  mret 0.

Definition exciter_produce e (count : Z) : M (sys W) Z :=
  exciter_call e (_exciter_produce e count) (_mock_exciter_produce e count).

(** ** Creation *)

Definition upd_exciter e (f : whitebox_exciter → whitebox_exciter) : M (sys W) () :=
  upd_wb (λ wb, match e with
    | Real => wb <| wb_exciter ::= f |>
    | Mock => wb <| wb_mock_exciter ::= λ m, m <| mx_exciter ::= f |> |>
    end).

Definition whitebox_exciter_create (regs_start regs_size : Z) : M (sys W) Z :=
  upd_exciter Real (λ x, x <| ex_ops := Some real_ops |> <| ex_incr_dest := 0 |>);;
  regs ← call (k_ioremap regs_start regs_size);
  upd_exciter Real (λ x, x <| ex_regs := regs |>);;
  if negb (nz regs) then mret (- EINVAL)
  else
    upd_exciter Real (λ x, x <| ex_pdma_config :=
      PDMA_CONTROL_PER_SEL_FPGA0 ||| PDMA_CONTROL_XFER_SIZE_4B |||
      PDMA_CONTROL_DST_ADDR_INC_0 ||| PDMA_CONTROL_SRC_ADDR_INC_4 |||
      PDMA_CONTROL_PERIPH ||| PDMA_CONTROL_DIR_MEM_TO_PERIPH ||| PDMA_CONTROL_INTEN |>);;
    mret 0.

Definition whitebox_mock_exciter_create (regs_size order : Z) : M (sys W) Z :=
  upd_exciter Mock (λ x, x <| ex_ops := Some mock_ops |> <| ex_incr_dest := 1 |>);;
  regs ← call (k_vmalloc regs_size);
  upd_exciter Mock (λ x, x <| ex_regs := regs |>);;
  if negb (nz regs) then mret (- EINVAL)
  else
    upd_exciter Mock (λ x, x <| ex_pdma_config :=
      PDMA_CONTROL_XFER_SIZE_4B ||| PDMA_CONTROL_DST_ADDR_INC_4 |||
      PDMA_CONTROL_SRC_ADDR_INC_4 ||| PDMA_CONTROL_DIR_MEM_TO_PERIPH |||
      PDMA_CONTROL_INTEN |>);;
    upd_wb (λ wb, wb
      <| wb_mock_exciter ::= λ m, m <| mx_order := order |>
           <| mx_buf_size := u32 (k_PAGE_SIZE <<< order) |> |>
      <| wb_mock_buf ::= λ b, b <| cb_head := 0 |> <| cb_tail := 0 |> |>);;
    mret 0.

Definition whitebox_exciter_destroy e : M (sys W) () := exciter_free e.
End exciter.
