(* ===== verification/Receiver.v ===== *)
(** * The receiver ([driver/whitebox_receiver.c], [whitebox_receiver.h])

    The receive side of the radio: the register file of the FPGA block, the mock
    that reads back what the mock exciter was sent, and the operation table. *)

From S2P Require Import Prelude Kernel State Pdma Exciter.

(** Status bits and register fields ([whitebox_ioctl.h]). *)
Definition WRS_RXEN : Z := 1 <<< 16.
Definition WRS_RXSTOP : Z := 1 <<< 19.
Definition WRS_AEMPTY : Z := 1 <<< 20.
Definition WRS_AFULL : Z := 1 <<< 21.
Definition WRS_SPACE : Z := 1 <<< 22.
Definition WRS_DATA : Z := 1 <<< 23.
Definition WRR_OVERRUNS_MASK : Z := 0xffff0000.
Definition WRR_OVERRUNS_OFFSET : Z := 16.
Definition WRR_UNDERRUNS_MASK : Z := 0x0000ffff.

(** Offsets in [struct whitebox_receiver_regs]. *)
Definition wrr_sample : Z := 0x00.
Definition wrr_state : Z := 0x04.
Definition wrr_decim : Z := 0x08.
Definition wrr_fcw : Z := 0x0c.
Definition wrr_runs : Z := 0x10.
Definition wrr_threshold : Z := 0x14.
Definition wrr_correction : Z := 0x18.
Definition wrr_available : Z := 0x1c.
Definition wrr_debug : Z := 0x20.

Section receiver.
Context {W : Type} `{!Kernel W} `{!CircMacros}.
Implicit Types (r : which).

Definition receiver_of (wb : whitebox_device) r : whitebox_receiver :=
  match r with Real => wb_receiver wb | Mock => mr_receiver (wb_mock_receiver wb) end.
Definition receiver_regs r : M (sys W) Z := get_wb (λ wb, rv_regs (receiver_of wb r)).

(** A call through [receiver->ops]. *)
Definition receiver_call {A} r (real mock : M (sys W) A) : M (sys W) A :=
  ops ← get_wb (λ wb, rv_ops (receiver_of wb r));
  match ops with
  | Some real_ops => real
  | Some mock_ops => mock
  | None => fail_with NullDeref
  end.

(** ** The register file *)

Definition receiver_read (offset : Z) r : M (sys W) Z :=
  regs ← receiver_regs r; readl (regs + offset).
Definition receiver_write (offset : Z) r (v : Z) : M (sys W) () :=
  regs ← receiver_regs r; writel (regs + offset) v.

Definition _receiver_free r : M (sys W) () :=
  regs ← receiver_regs r; call_ (k_iounmap regs).
Definition _receiver_get_state r : M (sys W) Z := receiver_read wrr_state r.
Definition _receiver_set_state r (state_mask : Z) : M (sys W) () :=
  regs ← receiver_regs r; reg_or (regs + wrr_state) state_mask.
Definition _receiver_clear_state r (state_mask : Z) : M (sys W) () :=
  regs ← receiver_regs r; reg_and (regs + wrr_state) (u32 (~: state_mask)).
Definition _receiver_get_decim r : M (sys W) Z := receiver_read wrr_decim r.
Definition _receiver_set_decim r (decim : Z) : M (sys W) () := receiver_write wrr_decim r decim.
Definition _receiver_get_fcw r : M (sys W) Z := receiver_read wrr_fcw r.
Definition _receiver_set_fcw r (fcw : Z) : M (sys W) () := receiver_write wrr_fcw r fcw.
Definition _receiver_get_threshold r : M (sys W) Z := receiver_read wrr_threshold r.
Definition _receiver_set_threshold r (threshold : Z) : M (sys W) () :=
  receiver_write wrr_threshold r threshold.
Definition _receiver_get_correction r : M (sys W) Z := receiver_read wrr_correction r.
Definition _receiver_set_correction r (correction : Z) : M (sys W) () :=
  receiver_write wrr_correction r correction.

(** Returns [(overruns, underruns)]. *)
Definition _receiver_get_runs r : M (sys W) (Z * Z) :=
  runs ← receiver_read wrr_runs r;
  let overruns := u16 ((runs &&& WRR_OVERRUNS_MASK) >>> WRR_OVERRUNS_OFFSET) in
  let underruns := u16 (runs &&& WRR_UNDERRUNS_MASK) in
  mret (overruns, underruns).

Definition _receiver_data_available r : M (sys W) (Z * Z) :=
  regs ← receiver_regs r;
  frame_size ← param whitebox_frame_size;
  mret (s32 (frame_size <<< 2), regs + wrr_sample).

Definition _receiver_consume r (count : Z) : M (sys W) Z := mret 0.
Definition _receiver_get_debug r : M (sys W) Z := receiver_read wrr_debug r.

(** ** The mock *)

Definition _mock_receiver_free r : M (sys W) () :=
  regs ← receiver_regs r; call_ (k_vfree regs).

Definition _mock_receiver_get_state r : M (sys W) Z :=
  state ← receiver_read wrr_state r;
  size ← get_wb (λ wb, mr_buf_size (wb_mock_receiver wb));
  quantum ← get_wb (λ wb, rv_quantum (receiver_of wb r));
  buf ← get_wb wb_mock_buf;
  let space := CIRC_SPACE (cb_head buf) (cb_tail buf) size in
  let state := or_if (nz (space >>> 2)) WRS_SPACE state in
  let state := or_if (u32 space <? quantum) WRS_AFULL state in
  let data := CIRC_CNT (cb_head buf) (cb_tail buf) size in
  let state := or_if (nz (data >>> 2)) WRS_DATA state in
  let state := or_if (u32 data <? quantum) WRS_AEMPTY state in
  mret state.

Definition _mock_receiver_clear_state r (state_mask : Z) : M (sys W) () :=
  state ← receiver_read wrr_state r;
  receiver_write wrr_state r (state &&& u32 (~: state_mask)).

Definition receiver_clear_state r (state_mask : Z) : M (sys W) () :=
  receiver_call r (_receiver_clear_state r state_mask) (_mock_receiver_clear_state r state_mask).

Definition _mock_receiver_set_state r (state_mask : Z) : M (sys W) () :=
  if nz (state_mask &&& WS_CLEAR) then receiver_write wrr_state r 0
  else if nz (state_mask &&& WRS_RXSTOP) then receiver_clear_state r WRS_RXEN
  else
    state ← receiver_read wrr_state r;
    receiver_write wrr_state r (state ||| state_mask).

Definition _mock_receiver_data_available r : M (sys W) (Z * Z) :=
  size ← get_wb (λ wb, mr_buf_size (wb_mock_receiver wb));
  buf ← get_wb wb_mock_buf;
  let data := CIRC_CNT_TO_END (cb_head buf) (cb_tail buf) size &&& ~: 3 in
  mret (Z.min data 1024, u32 (cb_buf buf + cb_tail buf)).

Definition _mock_receiver_consume r (count : Z) : M (sys W) Z :=
  size ← get_wb (λ wb, mr_buf_size (wb_mock_receiver wb));
  upd_wb (λ wb, wb <| wb_mock_buf ::= λ b,
    b <| cb_tail := s32 (u32 (cb_tail b + count) &&& u32 (size - 4)) |> |>);;
  mret 0.

(** ** Calls through the operation table *)

Definition receiver_free r : M (sys W) () :=
  receiver_call r (_receiver_free r) (_mock_receiver_free r).
Definition receiver_get_state r : M (sys W) Z :=
  receiver_call r (_receiver_get_state r) (_mock_receiver_get_state r).
Definition receiver_set_state r (state_mask : Z) : M (sys W) () :=
  receiver_call r (_receiver_set_state r state_mask) (_mock_receiver_set_state r state_mask).
Definition receiver_get_decim r : M (sys W) Z :=
  receiver_call r (_receiver_get_decim r) (_receiver_get_decim r).
Definition receiver_set_decim r (v : Z) : M (sys W) () :=
  receiver_call r (_receiver_set_decim r v) (_receiver_set_decim r v).
Definition receiver_get_fcw r : M (sys W) Z :=
  receiver_call r (_receiver_get_fcw r) (_receiver_get_fcw r).
Definition receiver_set_fcw r (v : Z) : M (sys W) () :=
  receiver_call r (_receiver_set_fcw r v) (_receiver_set_fcw r v).
Definition receiver_get_threshold r : M (sys W) Z :=
  receiver_call r (_receiver_get_threshold r) (_receiver_get_threshold r).
Definition receiver_set_threshold r (v : Z) : M (sys W) () :=
  receiver_call r (_receiver_set_threshold r v) (_receiver_set_threshold r v).
Definition receiver_get_correction r : M (sys W) Z :=
  receiver_call r (_receiver_get_correction r) (_receiver_get_correction r).
Definition receiver_set_correction r (v : Z) : M (sys W) () :=
  receiver_call r (_receiver_set_correction r v) (_receiver_set_correction r v).
Definition receiver_get_runs r : M (sys W) (Z * Z) :=
  receiver_call r (_receiver_get_runs r) (_receiver_get_runs r).
Definition receiver_data_available r : M (sys W) (Z * Z) :=
  receiver_call r (_receiver_data_available r) (_mock_receiver_data_available r).
Definition receiver_consume r (count : Z) : M (sys W) Z :=
  receiver_call r (_receiver_consume r count) (_mock_receiver_consume r count).
Definition receiver_get_debug r : M (sys W) Z :=
  receiver_call r (_receiver_get_debug r) (_receiver_get_debug r).

(** ** Creation *)

Definition upd_receiver r (f : whitebox_receiver → whitebox_receiver) : M (sys W) () :=
  upd_wb (λ wb, match r with
    | Real => wb <| wb_receiver ::= f |>
    | Mock => wb <| wb_mock_receiver ::= λ m, m <| mr_receiver ::= f |> |>
    end).

Definition whitebox_receiver_create (regs_start regs_size : Z) : M (sys W) Z :=
  upd_receiver Real (λ x, x <| rv_ops := Some real_ops |> <| rv_incr_src := 0 |>);;
  regs ← call (k_ioremap regs_start regs_size);
  upd_receiver Real (λ x, x <| rv_regs := regs |>);;
  if negb (nz regs) then mret (- EINVAL)
  else
    upd_receiver Real (λ x, x <| rv_pdma_config :=
      PDMA_CONTROL_PER_SEL_FPGA1 ||| PDMA_CONTROL_XFER_SIZE_4B |||
      PDMA_CONTROL_DST_ADDR_INC_4 ||| PDMA_CONTROL_SRC_ADDR_INC_0 |||
      PDMA_CONTROL_PERIPH ||| PDMA_CONTROL_DIR_PERIPH_TO_MEM ||| PDMA_CONTROL_INTEN |>);;
    mret 0.

Definition whitebox_mock_receiver_create (regs_size order : Z) : M (sys W) Z :=
  upd_receiver Mock (λ x, x <| rv_ops := Some mock_ops |> <| rv_incr_src := 1 |>);;
  regs ← call (k_vmalloc regs_size);
  upd_receiver Mock (λ x, x <| rv_regs := regs |>);;
  if negb (nz regs) then mret (- EINVAL)
  else
    upd_receiver Mock (λ x, x <| rv_pdma_config :=
      PDMA_CONTROL_XFER_SIZE_4B ||| PDMA_CONTROL_DST_ADDR_INC_4 |||
      PDMA_CONTROL_SRC_ADDR_INC_4 ||| PDMA_CONTROL_DIR_MEM_TO_PERIPH |||
      PDMA_CONTROL_INTEN |>);;
    upd_wb (λ wb, wb
      <| wb_mock_receiver ::= λ m, m <| mr_order := order |>
           <| mr_buf_size := u32 (k_PAGE_SIZE <<< order) |> |>
      <| wb_mock_buf ::= λ b, b <| cb_head := 0 |> <| cb_tail := 0 |> |>);;
    mret 0.

Definition whitebox_receiver_destroy r : M (sys W) () := receiver_free r.
End receiver.
