(* ===== verification/MockSpec.v ===== *)
(** * The mock radio is a loop of bytes

    The mock exciter and the mock receiver share one ring: what the first is sent,
    the second reads back.  The file shows that they implement a byte queue, with
    one exception the code makes on purpose or not: when less than a word is left
    before the end of the array, asking for room throws the unread bytes away. *)

From S2P Require Import Prelude Kernel State Sim UserRing UserRingSpec Exciter Receiver.

(** The two mocks over a ring of [2 ^ k] bytes whose indices are whole words. *)
Record mock_wf (k : Z) (wb : whitebox_device) : Prop := {
  mock_ring : ring_wf k (wb_mock_buf wb);
  mock_tx_size : mx_buf_size (wb_mock_exciter wb) = 2 ^ k;
  mock_rx_size : mr_buf_size (wb_mock_receiver wb) = 2 ^ k;
  mock_head4 : cb_head (wb_mock_buf wb) mod 4 = 0;
  mock_tail4 : cb_tail (wb_mock_buf wb) mod 4 = 0;
  mock_tx_ops : ex_ops (exciter_of wb Mock) = Some mock_ops;
  mock_rx_ops : rv_ops (receiver_of wb Mock) = Some mock_ops;
}.

Section mock.
Context {W : Type} `{!Kernel W} `{!CircMacros}.

Definition with_mock (b : circ_buf) (wb : whitebox_device) : whitebox_device :=
  wb <| wb_mock_buf := b |>.

(** Whole words from the head to the end of the array or the tail, and from the tail
    to the end of the array or the head. *)
Definition free_words (k : Z) (b : circ_buf) : Z :=
  4 * (Z.min (2 ^ k - 1 - ring_len k b) (2 ^ k - cb_head b) / 4).
Definition unread_words (k : Z) (b : circ_buf) : Z :=
  4 * (Z.min (ring_len k b) (2 ^ k - cb_tail b) / 4).
Definition emptied (b : circ_buf) : circ_buf := b <| cb_head := 0 |> <| cb_tail := 0 |>.
(** The ring after a request for room, and the room. *)
Definition roomy (k : Z) (b : circ_buf) : circ_buf :=
  if free_words k b <? 4 then emptied b else b.
Definition mock_room (k : Z) (b : circ_buf) : Z :=
  if free_words k b <? 4 then Z.min (2 ^ k - 1) 1024 else Z.min (free_words k b) 1024.

Lemma emptied_wf k b : ring_wf k b → ring_wf k (emptied b).
Proof. intros [? ? ? ?]. split; try done; cbn; pose proof (pow2_30 k); lia. Qed.
Lemma emptied_len k b : ring_len k (emptied b) = 0.
Proof. done. Qed.
Lemma emptied_bytes k b m : ring_bytes k (emptied b) m = [].
Proof. done. Qed.

(** Neither the state word nor turning the transmitter on touches the ring. *)
Lemma mock_get_state_runs pr p uc wb (w : W) :
  ex_ops (exciter_of wb Mock) = Some mock_ops →
  ∃ v w', runs (exciter_get_state Mock) (Sys pr p uc wb w) v (Sys pr p uc wb w').
Proof.
  intros Ho. unfold exciter_get_state, exciter_call, runs, mbind, M_bind, get_wb, gets.
  cbn [s_wb]. rewrite Ho. do 2 eexists. reflexivity.
Qed.
Lemma mock_enable_runs pr p uc wb state (w : W) :
  ex_ops (exciter_of wb Mock) = Some mock_ops →
  ∃ w', runs (exciter_auto_enable Mock state) (Sys pr p uc wb w) () (Sys pr p uc wb w').
Proof.
  intros Ho. unfold exciter_auto_enable, runs, mbind, M_bind, get_wb, gets. cbn [s_wb].
  destruct (_ && _); cbn [when]; [| by eexists].
  unfold exciter_set_state, exciter_call, mbind, M_bind, get_wb, gets. cbn [s_wb]. rewrite Ho.
  by eexists.
Qed.

Lemma mock_space_runs k pr p uc wb (w : W) :
  mock_wf k wb → let b := wb_mock_buf wb in
  runs (exciter_space_available Mock) (Sys pr p uc wb w)
    (mock_room k b, cb_buf b + cb_head (roomy k b)) (Sys pr p uc (with_mock (roomy k b) wb) w).
Proof.
  intros [Hr Hs _ _ _ Ho _] b. fold b in Hr. pose proof Hr as [Hk Hh Ht Hb]. pose proof (pow2_30 k Hk).
  unfold exciter_space_available, exciter_call, _mock_exciter_space_available.
  eapply runs_bind; [apply runs_get_wb |]. rewrite Ho.
  eapply runs_bind; [apply runs_get_wb |]. rewrite Hs.
  eapply runs_bind; [apply runs_get_wb |].
  rewrite circ_space_end, land_not3 by done. fold b (free_words k b).
  unfold mock_room, roomy. destruct (_ <? 4).
  - pose proof (circ_space_end k (emptied b) (emptied_wf k b Hr)) as He.
    rewrite emptied_len in He. change (cb_head (emptied b)) with 0 in He.
    change (cb_tail (emptied b)) with 0 in He.
    eapply runs_bind; [apply runs_upd_wb |]. cbv zeta. rewrite He.
    eapply runs_eq; [apply runs_ret | | done].
    rewrite u32_small by (unfold b in *; lia). f_equal; [lia | unfold emptied, upd; cbn; lia].
  - eapply runs_eq; [apply runs_ret | | by destruct wb].
    by rewrite u32_small by (unfold b in *; lia).
Qed.

Lemma mock_produce_runs k n pr p uc wb (w : W) :
  mock_wf k wb → let b := wb_mock_buf wb in 0 ≤ n ≤ 2 ^ k → n mod 4 = 0 →
  ∃ w', runs (exciter_produce Mock n) (Sys pr p uc wb w) 0
    (Sys pr p uc (with_mock (b <| cb_head := (cb_head b + n) mod 2 ^ k |>) wb) w').
Proof.
  intros [Hr Hs _ H4 _ Ho _] b Hn Hn4. fold b in Hr, H4. pose proof Hr as [Hk Hh Ht Hb]. pose proof (pow2_30 k Hk).
  set (wb' := with_mock _ wb). assert (ex_ops (exciter_of wb' Mock) = Some mock_ops) as Ho' by done.
  destruct (mock_get_state_runs pr p uc wb' w Ho') as (v & w1 & Hv).
  destruct (mock_enable_runs pr p uc wb' v w1 Ho') as (w2 & Hw2). exists w2.
  unfold exciter_produce, exciter_call, _mock_exciter_produce.
  eapply runs_bind; [apply runs_get_wb |]. rewrite Ho.
  eapply runs_bind; [apply runs_get_wb |]. rewrite Hs.
  eapply runs_bind; [apply runs_upd_wb |].
  replace (upd _ wb) with wb'.
  { eapply runs_bind; [exact Hv |]. eapply runs_bind; [exact Hw2 | apply runs_ret]. }
  unfold wb', with_mock, b, upd; cbn. by rewrite advance_words by (unfold b in *; (lia || done)).
Qed.


Lemma mock_consume_runs k n pr p uc wb (w : W) :
  mock_wf k wb → let b := wb_mock_buf wb in 0 ≤ n ≤ 2 ^ k → n mod 4 = 0 →
  runs (receiver_consume Mock n) (Sys pr p uc wb w) 0
    (Sys pr p uc (with_mock (b <| cb_tail := (cb_tail b + n) mod 2 ^ k |>) wb) w).
Proof.
  intros [Hr _ Hs _ H4 _ Ho] b Hn Hn4. fold b in Hr, H4. pose proof Hr as [Hk Hh Ht Hb]. pose proof (pow2_30 k Hk).
  unfold receiver_consume, receiver_call, _mock_receiver_consume.
  eapply runs_bind; [apply runs_get_wb |]. rewrite Ho.
  eapply runs_bind; [apply runs_get_wb |]. rewrite Hs.
  eapply runs_bind; [apply runs_upd_wb |].
  eapply runs_eq; [apply runs_ret | done |]. f_equal.
  unfold with_mock, b, upd; cbn. by rewrite advance_words by (unfold b in *; (lia || done)).
Qed.

(** The mock receiver reads the same queue from its front.  It offers at most
    1024 bytes, in whole words, up to the end of the array: they are the oldest
    unread bytes the exciter was sent; consuming some of them removes exactly
    those. *)
Lemma mock_receiver_takes k n m pr p uc wb (w : W) :
  mock_wf k wb →
  let b := wb_mock_buf wb in
  let count := Z.min (unread_words k b) 1024 in
  let src := cb_buf b + cb_tail b in
  runs (receiver_data_available Mock) (Sys pr p uc wb w) (count, src) (Sys pr p uc wb w) ∧
  (0 ≤ n ≤ count → n mod 4 = 0 →
   ∃ b', runs (receiver_consume Mock n) (Sys pr p uc wb w) 0 (Sys pr p uc (with_mock b' wb) w) ∧
     mock_wf k (with_mock b' wb) ∧
     ring_bytes k b m = bytes_at m src n ++ ring_bytes k b' m).
Proof.
  intros Hw b count src. pose proof Hw as [Hr ? Hs ? Ht4 ? Ho]. fold b in Hr, Ht4. pose proof Hr as [Hk Hh Ht Hb].
  pose proof (pow2_30 k Hk). pose proof (ring_len_range k b ltac:(lia)).
  pose proof (words_bound (Z.min (ring_len k b) (2 ^ k - cb_tail b))) as Hu.
  fold (unread_words k b) in Hu. split.
  { unfold receiver_data_available, receiver_call, _mock_receiver_data_available.
    eapply runs_bind; [apply runs_get_wb |]. rewrite Ho.
    eapply runs_bind; [apply runs_get_wb |]. rewrite Hs.
    eapply runs_bind; [apply runs_get_wb |].
    rewrite circ_cnt_end, land_not3, u32_small by (done || fold b; lia). done. }
  intros Hn Hn4. eexists. split; [by apply (mock_consume_runs k); [| lia |] |]. split.
  - assert ((cb_tail b + n) mod 4 = 0) by (rewrite Zplus_mod, Hn4; by rewrite Ht4).
    split; [apply ring_wf_tail; [done | apply Z.mod_pos_bound; lia] | done.. | apply mod_aligned; [lia | done] | done | done].
  - destruct (ring_consume k b m n) as [_ ->]; [lia | lia |]. f_equal.
    apply ring_at_linear; lia.
Qed.
End mock.

#[local] Existing Instance circ_macros.

(** A mock of 16 bytes whose last word is free but not to be given: the two words
    unread are lost. *)
Definition mock_wb (head tail : Z) : whitebox_device := sim_device
  <| wb_mock_buf := Build_circ_buf 0x1000 head tail |>
  <| wb_mock_exciter ::= λ x, x <| mx_buf_size := 2 ^ 4 |> |>
  <| wb_mock_receiver ::= λ x, x <| mr_buf_size := 2 ^ 4 |> |>.
Lemma mock_wb_wf : mock_wf 4 (mock_wb 12 4).
Proof. split; [split |..]; cbn; try lia; reflexivity. Qed.

Lemma mock_receiver_takes_witness :
  ∃ b', runs (receiver_consume Mock 4) (Sys zero_params zero_pdma 1 (mock_wb 12 4) sim0) 0
      (Sys zero_params zero_pdma 1 (with_mock b' (mock_wb 12 4)) sim0) ∧
    [0x1004; 0x1005; 0x1006; 0x1007; 0x1008; 0x1009; 0x100a; 0x100b] =
      bytes_at id 0x1004 4 ++ ring_bytes 4 b' id.
Proof.
  destruct (mock_receiver_takes (W := sim) 4 4 id zero_params zero_pdma 1 (mock_wb 12 4) sim0
    mock_wb_wf) as (_ & H).
  destruct H as (b' & Hr & _ & Hb); [split; vm_compute; discriminate | reflexivity |].
  exists b'. split; [exact Hr |]. exact Hb.
Defined.
