(* ===== verification/RfBlocks.v ===== *)
(** * The radio-side blocks ([driver/whitebox_rf_sink.c], [whitebox_rf_source.c])

    The ends of the two data paths at the radio: each owns one DMA channel and
    drives the exciter or the receiver through its operation table.  The device
    has one of each, so the operations act on the device's fields. *)

From S2P Require Import Prelude Kernel State Pdma UserRing Exciter Receiver.

Section rf_sink.
Context {W : Type} `{!Kernel W} `{!CircMacros}.

Definition upd_rf_sink (f : whitebox_rf_sink → whitebox_rf_sink) : M (sys W) () :=
  upd_wb (λ wb, wb <| wb_rf_sink ::= f |>).
Definition get_rf_sink : M (sys W) whitebox_rf_sink := get_wb wb_rf_sink.

Definition whitebox_rf_sink_init (dma_ch : Z) (dma_cb : option pdma_irq_handler)
    (exciter : which) : M (sys W) () :=
  call_ (k_spin_lock_init rf_sink_lock);;
  upd_rf_sink (λ s, s <| rk_off := 0 |> <| rk_dma_ch := dma_ch |> <| rk_dma_cb := dma_cb |>
    <| rk_exciter := exciter |>).

(** The callback data is the device, of which there is one. *)
Definition whitebox_rf_sink_alloc : M (sys W) Z :=
  s ← get_rf_sink;
  config ← get_wb (λ wb, ex_pdma_config (exciter_of wb (rk_exciter s)));
  pdma_request (u8 (rk_dma_ch s)) (rk_dma_cb s) 0 10 config.

Definition whitebox_rf_sink_free : M (sys W) () :=
  s ← get_rf_sink; pdma_release (u8 (rk_dma_ch s)).

(** Returns the room and where it starts; without a free DMA buffer the caller's
    address is left unset. *)
Definition whitebox_rf_sink_space_available : M (sys W) (Z * option Z) :=
  s ← get_rf_sink;
  buffers ← pdma_buffers_available (u8 (rk_dma_ch s));
  if 0 <? buffers then
    r ← exciter_space_available (rk_exciter s);
    mret (u32 (fst r), Some (snd r))
  else
    d_printk 7 (
      _ ← exciter_get_state (rk_exciter s);
      _ ← pdma_buffers_available (u8 (rk_dma_ch s));
      mret ());;
    mret (0, None).

Definition whitebox_rf_sink_produce (count : Z) : M (sys W) Z :=
  s ← get_rf_sink;
  upd_rf_sink (λ s, s <| rk_off ::= λ o, s64 (o + count) |>);;
  exciter_produce (rk_exciter s) count.

(** [dma[buf] = (mapping, count)], with the bounds of the C array. *)
Definition set_sink_dma (buf mapping count : Z) : M (sys W) () :=
  s ← get_rf_sink;
  _ ← get_index (rk_dma s) buf;
  upd_rf_sink (λ s, s <| rk_dma ::= <[Z.to_nat buf := Build_dma_slot mapping count]> |>).

Definition whitebox_rf_sink_work (src src_count dest dest_count : Z) : M (sys W) Z :=
  let count := min_size src_count dest_count in
  if count >>> 2 =? 0 then mret (-1) else
  mapping ← call (k_dma_map_single src count DMA_TO_DEVICE);
  failed ← call (k_dma_mapping_error mapping);
  if (failed : bool) then mret (- EFAULT) else
  s ← get_rf_sink;
  buf ← pdma_start (u8 (rk_dma_ch s)) mapping dest (u16 (count >>> 2));
  if buf <? 0 then mret (- EFAULT) else
  d_printk 1 (_ ← exciter_get_state (rk_exciter s); mret ());;
  set_sink_dma buf mapping count;;
  mret 0.

Definition whitebox_rf_sink_work_done (buf : Z) : M (sys W) Z :=
  s ← get_rf_sink;
  d ← get_index (rk_dma s) buf;
  call_ (k_dma_unmap_single (dm_mapping d) (dm_count d) DMA_TO_DEVICE);;
  mret (s32 (dm_count d)).
End rf_sink.

Section rf_source.
Context {W : Type} `{!Kernel W} `{!CircMacros}.

Definition upd_rf_source (f : whitebox_rf_source → whitebox_rf_source) : M (sys W) () :=
  upd_wb (λ wb, wb <| wb_rf_source ::= f |>).
Definition get_rf_source : M (sys W) whitebox_rf_source := get_wb wb_rf_source.

Definition whitebox_rf_source_init (dma_ch : Z) (dma_cb : option pdma_irq_handler)
    (receiver : which) : M (sys W) () :=
  call_ (k_spin_lock_init rf_source_lock);;
  upd_rf_source (λ s, s <| rs_off := 0 |> <| rs_dma_ch := dma_ch |> <| rs_dma_cb := dma_cb |>
    <| rs_receiver := receiver |>).

Definition whitebox_rf_source_alloc : M (sys W) Z :=
  s ← get_rf_source;
  config ← get_wb (λ wb, rv_pdma_config (receiver_of wb (rs_receiver s)));
  pdma_request (u8 (rs_dma_ch s)) (rs_dma_cb s) 0 10 config.

Definition whitebox_rf_source_free : M (sys W) () :=
  s ← get_rf_source; pdma_release (u8 (rs_dma_ch s)).

Definition whitebox_rf_source_data_available : M (sys W) (Z * option Z) :=
  s ← get_rf_source;
  buffers ← pdma_buffers_available (u8 (rs_dma_ch s));
  if 0 <? buffers then
    r ← receiver_data_available (rs_receiver s);
    mret (u32 (fst r), Some (snd r))
  else mret (0, None).

Definition whitebox_rf_source_consume (count : Z) : M (sys W) Z :=
  s ← get_rf_source;
  upd_rf_source (λ s, s <| rs_off ::= λ o, s64 (o + count) |>);;
  receiver_consume (rs_receiver s) count.

Definition set_source_count (buf count : Z) : M (sys W) () :=
  s ← get_rf_source;
  d ← get_index (rs_dma s) buf;
  upd_rf_source (λ s, s <| rs_dma ::=
    <[Z.to_nat buf := Build_dma_slot (dm_mapping d) count]> |>).

Definition whitebox_rf_source_work (src src_count dest dest_count : Z) : M (sys W) Z :=
  let count := min_size src_count dest_count in
  if count >>> 2 =? 0 then mret (-1) else
  s ← get_rf_source;
  buf ← pdma_start (u8 (rs_dma_ch s)) src dest (u16 (count >>> 2));
  if buf <? 0 then mret (- EFAULT) else
  set_source_count buf count;;
  mret 0.

Definition whitebox_rf_source_work_done (buf : Z) : M (sys W) Z :=
  s ← get_rf_source;
  d ← get_index (rs_dma s) buf;
  mret (s32 (dm_count d)).
End rf_source.
