(* ===== verification/TxRx.v ===== *)
(** * The data paths ([driver/whitebox_tx.c], [driver/whitebox_rx.c])

    Moving samples between the user-side rings and the radio: starting and
    stopping each direction, the execution step that programs a DMA transfer, the
    DMA completion call-backs, and error detection.  The file also instantiates the
    PDMA interrupt with the two call-backs. *)

From S2P Require Import Prelude Kernel State Pdma UserRing Gpio Exciter Receiver RfBlocks.

Definition W_ERROR_PLL_LOCK_LOST : Z := 1.
Definition W_ERROR_TX_OVERRUN : Z := 2.
Definition W_ERROR_TX_UNDERRUN : Z := 3.
Definition W_ERROR_RX_OVERRUN : Z := 2.
Definition W_ERROR_RX_UNDERRUN : Z := 3.
Definition W_EXEC_DETAIL_COUNT : Z := 1 <<< 6.
Definition WHITEBOX_CMX991_LD_REG : Z := 0xd1.
Definition WHITEBOX_CMX991_LD_MASK : Z := 0x40.

(** The SysTick registers of the core. *)
Definition STCSR : Z := 0xE000E010.
Definition STRVR : Z := 0xE000E014.
Definition STCVR : Z := 0xE000E018.

Section tx_rx.
Context {W : Type} `{!Kernel W} `{!CircMacros}.

(** [stats->field++] on a [long]. *)
Definition incr (x : Z) : Z := s32 (x + 1).

Definition upd_tx_stats (f : whitebox_stats → whitebox_stats) : M (sys W) () :=
  upd_wb (λ wb, wb <| wb_tx_stats ::= f |>).
Definition upd_rx_stats (f : whitebox_stats → whitebox_stats) : M (sys W) () :=
  upd_wb (λ wb, wb <| wb_rx_stats ::= f |>).

(** Writes through [stats_detail], a pointer into the array. *)
Definition set_detail (i : Z) (f : whitebox_stats_exec_detail → whitebox_stats_exec_detail)
    (st : whitebox_stats) : whitebox_stats :=
  st <| st_exec_detail ::= alter f (Z.to_nat i) |>.

Definition set_user_source (f : whitebox_user_source → whitebox_user_source) : M (sys W) () :=
  upd_wb (λ wb, wb <| wb_user_source ::= f |>).
Definition set_user_sink (f : whitebox_user_sink → whitebox_user_sink) : M (sys W) () :=
  upd_wb (λ wb, wb <| wb_user_sink ::= f |>).

Definition user_sink_space : M (sys W) (Z * option Z) :=
  fc ← param whitebox_flow_control;
  th ← param whitebox_user_sink_buffer_threshold;
  get_wb (λ wb, whitebox_user_sink_space_available fc th (wb_user_sink wb)).

(** The state of both radios is read whatever the verbosity; the availability
    calls are arguments of the message. *)
Definition d_printk_loop (level : Z) : M (sys W) () :=
  e ← get_wb (λ wb, rk_exciter (wb_rf_sink wb));
  r ← get_wb (λ wb, rs_receiver (wb_rf_source wb));
  _ ← exciter_get_state e;
  _ ← receiver_get_state r;
  d_printk level (
    _ ← whitebox_rf_sink_space_available;
    _ ← whitebox_rf_source_data_available;
    mret ()).

(** ** Transmit *)

Definition restart_systick : M (sys W) () :=
  writel STRVR 0xFFFFFF;;
  writel STCVR 0;;
  writel STCSR 5.

Definition tx_start : M (sys W) Z :=
  e ← get_wb (λ wb, rk_exciter (wb_rf_sink wb));
  runs ← exciter_get_runs e;
  upd_wb (λ wb, wb <| wb_cur_overruns := fst runs |> <| wb_cur_underruns := snd runs |>);;
  ch ← get_wb (λ wb, tx_dma_ch (wb_platform_data wb));
  pdma_clear ch;;
  restart_systick;;
  mret 0.

(** The step proper, with the lock held; [i] is the entry of the details it fills in,
    [again] its self-call. *)
Definition tx_move (again : M (sys W) Z) (flags i : Z) : M (sys W) Z :=
  source ← get_wb (λ wb, whitebox_user_source_data_available (wb_user_source wb));
  let src_count := fst source in
  sink ← whitebox_rf_sink_space_available;
  let dest_count := fst sink in
  if src_count >>> 2 =? 0 then
    upd_tx_stats (λ st, st <| st_exec_nop_src ::= incr |>);;
    spin_unlock_irqrestore rf_sink_lock flags;; mret 0
  else if dest_count >>> 2 =? 0 then
    upd_tx_stats (λ st, st <| st_exec_nop_dest ::= incr |>);;
    spin_unlock_irqrestore rf_sink_lock flags;; mret 0
  else match snd sink with
  | None => fail_with Uninitialised
  | Some dest =>
    let count := min_size src_count dest_count in
    result ← whitebox_rf_sink_work (snd source) src_count dest dest_count;
    upd_tx_stats (λ st, set_detail i (λ d, d <| sd_src := src_count |>
        <| sd_dest := dest_count |> <| sd_bytes := s32 count |> <| sd_result := result |>)
      st <| st_exec_detail_index := (i + 1) &&& (W_EXEC_DETAIL_COUNT - 1) |>);;
    if result <? 0 then
      upd_tx_stats (λ st, st <| st_exec_failed ::= incr |>);;
      spin_unlock_irqrestore rf_sink_lock flags;; mret result
    else
      _ ← whitebox_rf_sink_produce count;
      set_user_source (λ us, whitebox_user_source_consume us count);;
      (if 0 <? result then
         upd_tx_stats (λ st, st <| st_exec_success_slow ::= incr |>
           <| st_bytes ::= λ b, s32 (b + result) |>);;
         spin_unlock_irqrestore rf_sink_lock flags;;
         call_ (k_wake_up_interruptible write_wait_queue);;
         loopen ← param whitebox_loopen;
         when (nz loopen) (call_ (k_wake_up_interruptible read_wait_queue));;
         _ ← again;
         mret ()
       else
         upd_tx_stats (λ st, st <| st_exec_dma_start ::= incr |>);;
         spin_unlock_irqrestore rf_sink_lock flags);;
      mret result
  end.

(** [fuel] bounds the self-call. *)
Fixpoint tx_exec (fuel : nat) : M (sys W) Z :=
  match fuel with
  | O => spin
  | S fuel' =>
    upd_tx_stats (λ st, st <| st_exec_calls ::= incr |>);;
    got ← spin_trylock_irqsave rf_sink_lock;
    match got with
    | None =>
        upd_tx_stats (λ st, st <| st_exec_busy ::= incr |>);;
        mret (- EBUSY)
    | Some flags =>
      stats ← get_wb wb_tx_stats;
      let i := st_exec_detail_index stats in
      _ ← get_index (st_exec_detail stats) i;
      time ← readl STCVR;
      upd_tx_stats (set_detail i (λ d, d <| sd_time := s32 time |>));;
      tx_move (tx_exec fuel') flags i
    end
  end.

(** The self-call never happens, so one unit is enough. *)
Definition exec_fuel : nat := 1.

Definition tx_dma_cb (buf : Z) : M (sys W) () :=
  flags ← spin_lock_irqsave rf_sink_lock;
  done ← whitebox_rf_sink_work_done buf;
  let count := u32 done in
  d_printk_loop 4;;
  upd_tx_stats (λ st, st <| st_exec_dma_finished ::= incr |>
    <| st_bytes ::= λ b, s32 (b + count) |>);;
  spin_unlock_irqrestore rf_sink_lock flags;;
  _ ← tx_exec exec_fuel;
  call_ (k_wake_up_interruptible write_wait_queue);;
  loopen ← param whitebox_loopen;
  when (nz loopen) (
    call_ (k_wake_up_interruptible read_wait_queue);;
    d_printk_loop 4).

Definition tx_stop : M (sys W) Z :=
  upd_tx_stats (λ st, st <| st_stop ::= incr |>);;
  ch ← get_wb (λ wb, tx_dma_ch (wb_platform_data wb));
  available ← pdma_buffers_available ch;
  if available <? 2 then mret (-1)
  else
    e ← get_wb (λ wb, rk_exciter (wb_rf_sink wb));
    exciter_set_state e WES_TXSTOP;;
    mret 0.

(** [stats->error++; stats->last_error = e; return e]. *)
Definition tx_fault (error : Z) : M (sys W) Z :=
  upd_tx_stats (λ st, st <| st_error ::= incr |> <| st_last_error := error |>);;
  mret error.
Definition rx_fault (error : Z) : M (sys W) Z :=
  upd_rx_stats (λ st, st <| st_error ::= incr |> <| st_last_error := error |>);;
  mret error.

Definition tx_check_runs : M (sys W) Z :=
  check_runs ← param whitebox_check_runs;
  if nz check_runs then
    e ← get_wb (λ wb, rk_exciter (wb_rf_sink wb));
    runs ← exciter_get_runs e;
    cur_overruns ← get_wb wb_cur_overruns;
    if negb (cur_overruns =? fst runs) then
      upd_wb (λ wb, wb <| wb_cur_overruns := fst runs |>);;
      tx_fault W_ERROR_TX_OVERRUN
    else
      cur_underruns ← get_wb wb_cur_underruns;
      if negb (cur_underruns =? snd runs) then
        upd_wb (λ wb, wb <| wb_cur_underruns := snd runs |>);;
        tx_fault W_ERROR_TX_UNDERRUN
      else mret 0
  else mret 0.

Definition tx_error : M (sys W) Z :=
  check_plls ← param whitebox_check_plls;
  if nz check_plls then
    pd ← get_wb wb_platform_data;
    _ ← whitebox_gpio_cmx991_read pd WHITEBOX_CMX991_LD_REG;
    locked ← whitebox_gpio_adf4351_locked pd;
    if negb (nz locked) then tx_fault W_ERROR_PLL_LOCK_LOST else tx_check_runs
  else tx_check_runs.

(** ** Receive *)

Definition rx_start : M (sys W) Z :=
  r ← get_wb (λ wb, rs_receiver (wb_rf_source wb));
  pd ← get_wb wb_platform_data;
  whitebox_gpio_adc_enable pd;;
  pdma_clear (rx_dma_ch pd);;
  restart_systick;;
  receiver_set_state r WS_CLEAR;;
  udelay 100;;
  runs ← receiver_get_runs r;
  upd_wb (λ wb, wb <| wb_cur_overruns := fst runs |> <| wb_cur_underruns := snd runs |>);;
  receiver_set_state r WRS_RXEN;;
  mret 0.

(** As [tx_move]; the room must exceed one word. *)
Definition rx_move (again : M (sys W) Z) (flags i : Z) : M (sys W) Z :=
  source ← whitebox_rf_source_data_available;
  let src_count := fst source in
  sink ← user_sink_space;
  let dest_count := fst sink in
  d_printk_loop 1;;
  if src_count >>> 2 =? 0 then
    upd_rx_stats (λ st, st <| st_exec_nop_src ::= incr |>);;
    spin_unlock_irqrestore rf_source_lock flags;; mret 0
  else if dest_count >>> 2 <=? 1 then
    upd_rx_stats (λ st, st <| st_exec_nop_dest ::= incr |>);;
    spin_unlock_irqrestore rf_source_lock flags;; mret 0
  else match snd source, snd sink with
  | Some src, Some dest =>
    let count := min_size src_count dest_count in
    result ← whitebox_rf_source_work src src_count dest dest_count;
    upd_rx_stats (λ st, set_detail i (λ d, d <| sd_src := src_count |>
        <| sd_dest := dest_count |> <| sd_bytes := s32 count |> <| sd_result := result |>)
      st <| st_exec_detail_index := (i + 1) &&& (W_EXEC_DETAIL_COUNT - 1) |>);;
    if result <? 0 then
      upd_rx_stats (λ st, st <| st_exec_failed ::= incr |>);;
      spin_unlock_irqrestore rf_source_lock flags;; mret result
    else
      _ ← whitebox_rf_source_consume count;
      (if 0 <? result then
         upd_rx_stats (λ st, st <| st_exec_success_slow ::= incr |>
           <| st_bytes ::= λ b, s32 (b + result) |>);;
         set_user_sink (λ uk, whitebox_user_sink_produce uk result);;
         spin_unlock_irqrestore rf_source_lock flags;;
         call_ (k_wake_up_interruptible read_wait_queue);;
         loopen ← param whitebox_loopen;
         when (nz loopen) (
           call_ (k_wake_up_interruptible write_wait_queue);;
           _ ← tx_exec exec_fuel; mret ());;
         _ ← again;
         mret ()
       else
         upd_rx_stats (λ st, st <| st_exec_dma_start ::= incr |>);;
         spin_unlock_irqrestore rf_source_lock flags);;
      mret result
  | _, _ => fail_with Uninitialised
  end.

Fixpoint rx_exec (fuel : nat) : M (sys W) Z :=
  match fuel with
  | O => spin
  | S fuel' =>
    d_printk_loop 4;;
    upd_rx_stats (λ st, st <| st_exec_calls ::= incr |>);;
    got ← spin_trylock_irqsave rf_source_lock;
    match got with
    | None =>
        upd_rx_stats (λ st, st <| st_exec_busy ::= incr |>);;
        mret (- EBUSY)
    | Some flags =>
      stats ← get_wb wb_rx_stats;
      let i := st_exec_detail_index stats in
      _ ← get_index (st_exec_detail stats) i;
      time ← readl STCVR;
      upd_rx_stats (set_detail i (λ d, d <| sd_time := s32 time |>));;
      rx_move (rx_exec fuel') flags i
    end
  end.

Definition rx_dma_cb (buf : Z) : M (sys W) () :=
  flags ← spin_lock_irqsave rf_source_lock;
  done ← whitebox_rf_source_work_done buf;
  let count := u32 done in
  set_user_sink (λ uk, whitebox_user_sink_produce uk count);;
  upd_rx_stats (λ st, st <| st_exec_dma_finished ::= incr |>
    <| st_bytes ::= λ b, s32 (b + count) |>);;
  spin_unlock_irqrestore rf_source_lock flags;;
  _ ← rx_exec exec_fuel;
  d_printk_loop 4;;
  call_ (k_wake_up_interruptible read_wait_queue);;
  loopen ← param whitebox_loopen;
  when (nz loopen) (
    call_ (k_wake_up_interruptible write_wait_queue);;
    _ ← tx_exec exec_fuel;
    mret ()).

(** ** Interrupts

    The call through a channel's [handler] pointer, and a point of the program at
    which the interrupt may be taken. *)
Definition run_handler (h : pdma_irq_handler) (data buf : Z) : M (sys W) () :=
  match h with tx_dma_cb_h => tx_dma_cb buf | rx_dma_cb_h => rx_dma_cb buf end.
Definition irq_point : M (sys W) () :=
  taken ← call k_irq_taken; when taken (pdma_irq_cb run_handler).
Definition cpu_relax : M (sys W) () := irq_point.

Definition user_sink_data_total : M (sys W) Z :=
  get_wb (λ wb, whitebox_user_sink_data_total (wb_user_sink wb)).

(** [while (data_total <= 0) cpu_relax()], for at most [fuel] turns. *)
Fixpoint wait_first_data (fuel : nat) : M (sys W) () :=
  match fuel with
  | O => spin
  | S fuel' =>
      total ← user_sink_data_total;
      when (s32 total <=? 0) (cpu_relax;; wait_first_data fuel')
  end.

Definition rx_crank (fuel : nat) (block : bool) : M (sys W) Z :=
  _ ← rx_start;
  _ ← rx_exec exec_fuel;
  _ ← rx_exec exec_fuel;
  when block (wait_first_data fuel);;
  d_printk_loop 1;;
  mret 0.

Definition rx_stop : M (sys W) Z :=
  upd_rx_stats (λ st, st <| st_stop ::= incr |>);;
  r ← get_wb (λ wb, rs_receiver (wb_rf_source wb));
  pd ← get_wb wb_platform_data;
  receiver_set_state r WS_CLEAR;;
  pdma_clear (rx_dma_ch pd);;
  whitebox_gpio_adc_disable pd;;
  mret 0.

(** An underrun is reported with the code of an overrun. *)
Definition rx_check_runs : M (sys W) Z :=
  check_runs ← param whitebox_check_runs;
  if nz check_runs then
    r ← get_wb (λ wb, rs_receiver (wb_rf_source wb));
    runs ← receiver_get_runs r;
    cur_overruns ← get_wb wb_cur_overruns;
    if negb (cur_overruns =? fst runs) then
      upd_wb (λ wb, wb <| wb_cur_overruns := fst runs |>);;
      rx_fault W_ERROR_RX_OVERRUN
    else
      cur_underruns ← get_wb wb_cur_underruns;
      if negb (cur_underruns =? snd runs) then
        upd_wb (λ wb, wb <| wb_cur_underruns := snd runs |>);;
        rx_fault W_ERROR_RX_OVERRUN
      else mret 0
  else mret 0.

Definition rx_error : M (sys W) Z :=
  check_plls ← param whitebox_check_plls;
  if nz check_plls then
    pd ← get_wb wb_platform_data;
    c ← whitebox_gpio_cmx991_read pd WHITEBOX_CMX991_LD_REG;
    vco ← whitebox_gpio_adf4351_locked pd;
    let locked := nz vco && nz (c &&& WHITEBOX_CMX991_LD_MASK) in
    if negb locked then rx_fault W_ERROR_PLL_LOCK_LOST else rx_check_runs
  else rx_check_runs.
End tx_rx.
