(* ===== verification/Ioctl.v ===== *)
(** * Control requests ([whitebox_ioctl] and its handlers, [driver/whitebox_driver.c])

    The argument block is the [union] of [whitebox_args_t], kept as its 131 words,
    so that a handler sees the bytes another view of the union left there. *)

From S2P Require Import Prelude Kernel State Pdma UserRing Gpio Exciter Receiver RfBlocks TxRx.

Definition WC_REGS_COUNT : Z := 10.
Definition WA_REGS_COUNT : Z := 6.
Definition WMC_CAUSE_UNDERRUN : Z := 1 <<< 0.
Definition WMC_CAUSE_OVERRUN : Z := 1 <<< 1.

(** Register addresses of the CMX991, for writing and for reading. *)
Definition whitebox_cmx991_regs_write_lut : list Z :=
  [0x11; 0x12; 0x13; 0x14; 0x15; 0x16; 0x20; 0x21; 0x22; 0x23].
Definition whitebox_cmx991_regs_read_lut : list Z :=
  [0xe1; 0xe2; 0xe3; 0xe4; 0xe5; 0xe6; 0xd0; 0xd1; 0xd2; 0xd3].

(** ** The argument block *)

Definition args_words : nat := 131.
Definition whitebox_args_t : Type := list Z.
Definition as_args (l : list Z) : whitebox_args_t := take args_words (l ++ replicate args_words 0).

Definition word_of (w : whitebox_args_t) (i : Z) : Z := nth (Z.to_nat i) w 0.
Definition set_word (i v : Z) (w : whitebox_args_t) : whitebox_args_t := <[Z.to_nat i := v]> w.
(** Bytes are little-endian in their word. *)
Definition byte_of (w : whitebox_args_t) (i : Z) : Z :=
  (word_of w (i / 4) >>> (8 * (i mod 4))) &&& 0xff.
Definition set_byte (i v : Z) (w : whitebox_args_t) : whitebox_args_t :=
  let shift := 8 * (i mod 4) in
  set_word (i / 4) ((word_of w (i / 4) &&& u32 (~: (0xff <<< shift))) ||| (v <<< shift)) w.

(** [flags.exciter] and [flags.receiver] share their layout. *)
Definition arg_state : Z := 0.
Definition arg_interp : Z := 1.
Definition arg_fcw : Z := 2.
Definition arg_runs : Z := 3.
Definition arg_threshold : Z := 4.
Definition arg_correction : Z := 5.
Definition arg_available : Z := 6.
Definition arg_debug : Z := 7.
Definition arg_gain : Z := 8.
Definition arg_mock_command : Z := 130.
(** [flags.fir]: two bytes, then the coefficients from the second word. *)
Definition fir_bank (w : whitebox_args_t) : Z := byte_of w 0.
Definition fir_n (w : whitebox_args_t) : Z := byte_of w 1.
Definition fir_coeffs (w : whitebox_args_t) : list Z := take 128 (drop 1 w).

Section ioctl.
Context {W : Type} `{!Kernel W} `{!CircMacros} `{!IoctlMacros}.
Abbreviation P := (M (sys W)).

Definition local_args : P whitebox_args_t :=
  l ← call (k_stack_words args_words); mret (as_args l).

(** The two user copies of the handlers, with their common error. *)
Definition with_user_args (arg : Z) (k : whitebox_args_t → P Z) : P Z :=
  r ← call (k_get_user_words arg args_words);
  if (fst r : bool) then mret (- EACCES) else k (as_args (snd r)).
Definition return_args (arg : Z) (w : whitebox_args_t) : P Z :=
  failed ← call (k_put_user_words arg w);
  mret (if negb failed then 0 else - EACCES).

Definition the_exciter : P which := get_wb (λ wb, rk_exciter (wb_rf_sink wb)).
Definition the_receiver : P which := get_wb (λ wb, rs_receiver (wb_rf_source wb)).
Definition the_pins : P whitebox_platform_data_t := get_wb wb_platform_data.

Definition whitebox_ioctl_reset : P Z :=
  e ← the_exciter;
  r ← the_receiver;
  pd ← the_pins;
  whitebox_gpio_cmx991_reset pd;;
  for_loop (Z.to_nat WA_REGS_COUNT) 0 (λ i,
    upd_wb (λ wb, wb <| wb_adf4351_regs ::= <[Z.to_nat i := 0]> |>));;
  for_loop (Z.to_nat WC_REGS_COUNT) 0 (λ i,
    upd_wb (λ wb, wb <| wb_cmx991_regs ::= <[Z.to_nat i := 0]> |>));;
  exciter_set_state e WS_CLEAR;;
  receiver_set_state r WS_CLEAR;;
  mret 0.

Definition whitebox_ioctl_locked : P Z :=
  pd ← the_pins;
  c ← whitebox_gpio_cmx991_read pd WHITEBOX_CMX991_LD_REG;
  vco ← whitebox_gpio_adf4351_locked pd;
  mret (if nz vco && nz (c &&& WHITEBOX_CMX991_LD_MASK) then 1 else 0).

Definition whitebox_ioctl_exciter_clear : P Z :=
  e ← the_exciter;
  pd ← the_pins;
  pdma_clear (tx_dma_ch pd);;
  exciter_set_state e WS_CLEAR;;
  mret 0.

Definition whitebox_ioctl_exciter_get (arg : Z) : P Z :=
  e ← the_exciter;
  w ← local_args;
  state ← exciter_get_state e;
  interp ← exciter_get_interp e;
  fcw ← exciter_get_fcw e;
  runs ← exciter_get_runs e;
  threshold ← exciter_get_threshold e;
  correction ← exciter_get_correction e;
  gain ← exciter_get_gain e;
  space ← exciter_space_available e;
  debug ← exciter_get_debug e;
  return_args arg (
    set_word arg_debug debug (set_word arg_available (u32 (fst space))
    (set_word arg_gain gain (set_word arg_correction correction
    (set_word arg_threshold threshold
    (set_word arg_runs (u32 (fst runs <<< WER_OVERRUNS_OFFSET) ||| snd runs)
    (set_word arg_fcw fcw (set_word arg_interp interp (set_word arg_state state w))))))))).

Definition whitebox_ioctl_exciter_set (arg : Z) : P Z :=
  e ← the_exciter;
  with_user_args arg (λ w,
    exciter_set_state e (word_of w arg_state);;
    exciter_set_interp e (word_of w arg_interp);;
    exciter_set_fcw e (word_of w arg_fcw);;
    exciter_set_threshold e (word_of w arg_threshold);;
    exciter_set_correction e (word_of w arg_correction);;
    exciter_set_gain e (word_of w arg_gain);;
    mret 0).

Definition whitebox_ioctl_exciter_clear_mask (arg : Z) : P Z :=
  e ← the_exciter;
  with_user_args arg (λ w,
    exciter_clear_state e (word_of w arg_state);;
    mret 0).

Definition whitebox_ioctl_receiver_clear : P Z :=
  r ← the_receiver;
  pd ← the_pins;
  pdma_clear (rx_dma_ch pd);;
  receiver_set_state r WS_CLEAR;;
  mret 0.

(** The [runs] word is not filled in. *)
Definition whitebox_ioctl_receiver_get (arg : Z) : P Z :=
  r ← the_receiver;
  w ← local_args;
  state ← receiver_get_state r;
  decim ← receiver_get_decim r;
  fcw ← receiver_get_fcw r;
  threshold ← receiver_get_threshold r;
  correction ← receiver_get_correction r;
  data ← receiver_data_available r;
  return_args arg (
    set_word arg_available (u32 (fst data)) (set_word arg_correction correction
    (set_word arg_threshold threshold (set_word arg_fcw fcw
    (set_word arg_interp decim (set_word arg_state state w)))))).

Definition whitebox_ioctl_receiver_set (arg : Z) : P Z :=
  r ← the_receiver;
  with_user_args arg (λ w,
    receiver_set_state r (word_of w arg_state);;
    receiver_set_decim r (word_of w arg_interp);;
    receiver_set_fcw r (word_of w arg_fcw);;
    receiver_set_threshold r (word_of w arg_threshold);;
    receiver_set_correction r (word_of w arg_correction);;
    mret 0).

Definition whitebox_ioctl_receiver_clear_mask (arg : Z) : P Z :=
  r ← the_receiver;
  with_user_args arg (λ w,
    receiver_clear_state r (word_of w arg_state);;
    mret 0).

(** ** The synthesizers *)

Fixpoint cmx991_get_loop (pd : whitebox_platform_data_t) (lut : list Z) (i : Z)
    (w : whitebox_args_t) : P whitebox_args_t :=
  match lut with
  | [] => mret w
  | address :: lut' =>
      v ← whitebox_gpio_cmx991_read pd address;
      cmx991_get_loop pd lut' (i + 1) (set_byte i v w)
  end.

Definition whitebox_ioctl_cmx991_get (arg : Z) : P Z :=
  pd ← the_pins;
  w ← local_args;
  w ← cmx991_get_loop pd whitebox_cmx991_regs_read_lut 0 w;
  return_args arg w.

(** Only the registers that differ from the cached value are written. *)
Definition cmx991_set_reg (pd : whitebox_platform_data_t) (w : whitebox_args_t) (i : Z) : P () :=
  regs ← get_wb wb_cmx991_regs;
  cached ← get_index regs i;
  address ← get_index whitebox_cmx991_regs_write_lut i;
  when (negb (cached =? byte_of w i)) (
    upd_wb (λ wb, wb <| wb_cmx991_regs ::= <[Z.to_nat i := byte_of w i]> |>);;
    whitebox_gpio_cmx991_write pd address (byte_of w i)).

Definition whitebox_ioctl_cmx991_set (arg : Z) : P Z :=
  pd ← the_pins;
  with_user_args arg (λ w,
    for_loop (Z.to_nat WC_REGS_COUNT) 0 (cmx991_set_reg pd w);;
    mret 0).

Definition whitebox_ioctl_cmx991_locked : P Z :=
  pd ← the_pins;
  c ← whitebox_gpio_cmx991_read pd WHITEBOX_CMX991_LD_REG;
  mret (c &&& WHITEBOX_CMX991_LD_MASK).

Definition whitebox_ioctl_adf4351_get (arg : Z) : P Z :=
  w ← local_args;
  regs ← get_wb wb_adf4351_regs;
  return_args arg (regs ++ drop (length regs) w).

Definition adf4351_set_reg (pd : whitebox_platform_data_t) (w : whitebox_args_t) (i : Z) : P () :=
  regs ← get_wb wb_adf4351_regs;
  cached ← get_index regs i;
  when (negb (cached =? word_of w i)) (
    upd_wb (λ wb, wb <| wb_adf4351_regs ::= <[Z.to_nat i := word_of w i]> |>);;
    whitebox_gpio_adf4351_write pd (word_of w i)).

(** The chip wants its registers from the last to the first. *)
Definition whitebox_ioctl_adf4351_set (arg : Z) : P Z :=
  pd ← the_pins;
  with_user_args arg (λ w,
    for_loop (Z.to_nat WA_REGS_COUNT) 0 (λ j, adf4351_set_reg pd w (WA_REGS_COUNT - 1 - j));;
    mret 0).

Definition whitebox_ioctl_adf4351_locked : P Z :=
  pd ← the_pins; whitebox_gpio_adf4351_locked pd.

(** ** Testing, mapping and filtering *)

Definition whitebox_ioctl_mock_command (arg : Z) : P Z :=
  with_user_args arg (λ w,
    when (word_of w arg_mock_command =? WMC_CAUSE_UNDERRUN) (
      regs ← exciter_regs Mock;
      v ← readl (regs + wer_runs);
      writel (regs + wer_runs) (u32 (v + 0x00010000)));;
    when (word_of w arg_mock_command =? WMC_CAUSE_OVERRUN) (
      regs ← receiver_regs Mock;
      v ← readl (regs + wrr_runs);
      writel (regs + wrr_runs) (u32 (v + 0x00010000)));;
    mret 0).

Definition whitebox_ioctl_mmap_write (arg : Z) : P Z :=
  us ← get_wb wb_user_source;
  let '(count, dest) := whitebox_user_source_space_available us in
  fc ← param whitebox_flow_control;
  th ← param whitebox_user_source_buffer_threshold;
  if nz fc && (u32 th <=? whitebox_user_source_data_total us) then mret 0
  else
    failed ← call (k_put_user_words arg [dest]);
    mret (if negb failed then s32 count else - EACCES).

(** Interrupts may be taken wherever the caller may sleep or wake another. *)
Definition down_interruptible : P bool := irq_point;; call k_down_interruptible.
Definition down : P () := irq_point;; call_ k_down.
Definition up : P () := call_ k_up;; irq_point.

Definition mmap_read_data (arg : Z) : P Z :=
  err ← rx_error;
  if nz err then mret (- EIO) else
  uk ← get_wb wb_user_sink;
  let '(count, src) := whitebox_user_sink_data_available uk in
  failed ← call (k_put_user_words arg [src]);
  mret (if negb failed then s32 count else - EACCES).

Definition whitebox_ioctl_mmap_read (arg : Z) : P Z :=
  interrupted ← down_interruptible;
  if (interrupted : bool) then mret (- ERESTARTSYS) else
  state ← get_wb wb_state;
  match state with
  | WDS_IDLE =>
      upd_wb (λ wb, wb <| wb_state := WDS_RX_STREAMING |>);;
      up;;
      _ ← rx_crank 0 false;
      mmap_read_data arg
  | WDS_RX_STREAMING =>
      up;;
      state ← receiver_get_state Real;
      if negb (nz (state &&& WRS_RXEN)) then fail_with KernelBug
      else
        _ ← rx_exec exec_fuel;
        mmap_read_data arg
  | _ =>
      up;;
      mret (- EBADFD)
  end.

Fixpoint fir_get_loop (e : which) (n : nat) (i : Z) (w : whitebox_args_t) : P whitebox_args_t :=
  match n with
  | O => mret w
  | S n' =>
      c ← exciter_get_fir_coeff e i;
      _ ← get_index (fir_coeffs w) i;
      fir_get_loop e n' (i + 1) (set_word (1 + i) (u32 c) w)
  end.

Definition whitebox_ioctl_fir_get (arg : Z) : P Z :=
  e ← the_exciter;
  w ← local_args;
  fir ← exciter_get_fir e;
  let bank := u8 ((fir &&& 0x180) >>> 7) in
  let n := fir &&& 0x7f in
  let w := set_byte 1 n (set_byte 0 bank w) in
  exciter_set_fir e (fir ||| WF_ACCESS_COEFFS);;
  w ← fir_get_loop e (Z.to_nat n) 0 w;
  return_args arg w.

(** The coefficient index is narrowed to a [u8] by the call. *)
Definition fir_set_coeff (e : which) (w : whitebox_args_t) (i : Z) : P () :=
  c ← get_index (fir_coeffs w) i;
  exciter_set_fir_coeff e (u8 i) (s32 c).

Definition whitebox_ioctl_fir_set (arg : Z) : P Z :=
  e ← the_exciter;
  with_user_args arg (λ w,
    let fir := ((fir_bank w &&& 0x3) <<< 7) ||| (fir_n w &&& 0x7f) in
    exciter_set_fir e (fir ||| WF_ACCESS_COEFFS);;
    for_loop (Z.to_nat (fir_n w)) 0 (fir_set_coeff e w);;
    mret 0).

(** ** Dispatch *)

Definition W_RESET : Z := _IO 0x77 1.
Definition W_LOCKED : Z := _IO 0x77 2.
Definition WE_CLEAR : Z := _IO 0x77 3.
Definition WE_GET : Z := _IOR 0x77 4.
Definition WE_SET : Z := _IOW 0x77 5.
Definition WE_CLEAR_MASK : Z := _IOW 0x77 20.
Definition WR_CLEAR : Z := _IO 0x77 6.
Definition WR_GET : Z := _IOR 0x77 7.
Definition WR_SET : Z := _IOW 0x77 8.
Definition WR_CLEAR_MASK : Z := _IOW 0x77 21.
Definition WC_GET : Z := _IOR 0x77 9.
Definition WC_SET : Z := _IOW 0x77 10.
Definition WC_LOCKED : Z := _IO 0x77 17.
Definition WA_GET : Z := _IOR 0x77 11.
Definition WA_SET : Z := _IOW 0x77 12.
Definition WA_LOCKED : Z := _IO 0x77 16.
Definition WM_CMD : Z := _IOW 0x77 13.
Definition W_MMAP_WRITE : Z := _IOR 0x77 14.
Definition W_MMAP_READ : Z := _IOR 0x77 15.
Definition WF_GET : Z := _IOR 0x77 18.
Definition WF_SET : Z := _IOR 0x77 19.

(** The [switch] of [whitebox_ioctl], as its table of cases. *)
Definition ioctl_table (arg : Z) : list (Z * P Z) := [
  (W_RESET, whitebox_ioctl_reset);
  (W_LOCKED, whitebox_ioctl_locked);
  (WE_CLEAR, whitebox_ioctl_exciter_clear);
  (WE_GET, whitebox_ioctl_exciter_get arg);
  (WE_SET, whitebox_ioctl_exciter_set arg);
  (WE_CLEAR_MASK, whitebox_ioctl_exciter_clear_mask arg);
  (WR_CLEAR, whitebox_ioctl_receiver_clear);
  (WR_GET, whitebox_ioctl_receiver_get arg);
  (WR_SET, whitebox_ioctl_receiver_set arg);
  (WR_CLEAR_MASK, whitebox_ioctl_receiver_clear_mask arg);
  (WC_GET, whitebox_ioctl_cmx991_get arg);
  (WC_SET, whitebox_ioctl_cmx991_set arg);
  (WC_LOCKED, whitebox_ioctl_cmx991_locked);
  (WA_GET, whitebox_ioctl_adf4351_get arg);
  (WA_SET, whitebox_ioctl_adf4351_set arg);
  (WA_LOCKED, whitebox_ioctl_adf4351_locked);
  (WM_CMD, whitebox_ioctl_mock_command arg);
  (W_MMAP_WRITE, whitebox_ioctl_mmap_write arg);
  (W_MMAP_READ, whitebox_ioctl_mmap_read arg);
  (WF_GET, whitebox_ioctl_fir_get arg);
  (WF_SET, whitebox_ioctl_fir_set arg)
].

Fixpoint switch (cmd : Z) (cases : list (Z * P Z)) (default : P Z) : P Z :=
  match cases with
  | [] => default
  | (c, m) :: rest => if cmd =? c then m else switch cmd rest default
  end.

Definition whitebox_ioctl (cmd arg : Z) : P Z :=
  switch cmd (ioctl_table arg) (mret (- EINVAL)).
End ioctl.
