(* ===== verification/Block.v ===== *)
(** * The argument block of the control requests

    Reading back what was written to its words and bytes. *)

From S2P Require Import Prelude Kernel State Ioctl.

Lemma as_args_length l : length (as_args l) = args_words.
Proof. unfold as_args. rewrite length_take, length_app, length_replicate. lia. Qed.
Lemma as_args_id w : length w = args_words → as_args w = w.
Proof. intros Hw. unfold as_args. by rewrite <- Hw, take_app_length. Qed.
Lemma set_word_length i v w : length (set_word i v w) = length w.
Proof. apply length_insert. Qed.
Lemma set_byte_length i v w : length (set_byte i v w) = length w.
Proof. apply length_insert. Qed.
Lemma fir_coeffs_length w : length w = args_words → length (fir_coeffs w) = 128%nat.
Proof. intros Hw. unfold fir_coeffs. rewrite length_take, length_drop, Hw. done. Qed.

Lemma word_of_set_word i j v w :
  length w = args_words → 0 ≤ i < 131 → 0 ≤ j →
  word_of (set_word i v w) j = if decide (i = j) then v else word_of w j.
Proof.
  unfold whitebox_args_t in *. intros Hw Hi Hj. unfold word_of, set_word, whitebox_args_t. rewrite !nth_lookup. destruct (decide (i = j)) as [-> |].
  - by rewrite list_lookup_insert_eq by (rewrite Hw; unfold args_words; lia).
  - by rewrite list_lookup_insert_ne by lia.
Qed.

(** Bytes are fields of their word. *)
Lemma byte_of_set_byte_0 v w :
  length w = args_words → 0 ≤ v < 256 → byte_of (set_byte 0 v w) 0 = v.
Proof.
  intros Hw Hv. unfold byte_of, set_byte. rewrite word_of_set_word by (done || lia).
  rewrite decide_True by done. change (8 * (0 mod 4)) with 0. rewrite Z.shiftr_0_r, Z.shiftl_0_r.
  rewrite Z.land_lor_distr_l, <- Z.land_assoc. change (u32 _ &&& 255) with 0.
  rewrite Z.land_0_r, Z.lor_0_l. change 255 with (2 ^ 8 - 1). rewrite land_ones_low by lia.
  by apply Z.mod_small.
Qed.
Lemma byte_of_set_byte_1 v w :
  length w = args_words → 0 ≤ v < 256 →
  byte_of (set_byte 1 v w) 1 = v ∧ byte_of (set_byte 1 v w) 0 = byte_of w 0.
Proof.
  intros Hw Hv. unfold byte_of, set_byte. rewrite !word_of_set_word by (done || lia).
  rewrite !decide_True by done. change (8 * (0 mod 4)) with 0. change (8 * (1 mod 4)) with 8.
  change (0 / 4) with 0. change (1 / 4) with 0. rewrite !Z.shiftr_0_r. split.
  - rewrite Z.shiftr_lor, Z.shiftr_land, Z.shiftr_shiftl_l, Z.sub_diag, Z.shiftl_0_r by lia.
    rewrite Z.land_lor_distr_l, <- Z.land_assoc. change (u32 _ >>> 8 &&& 255) with 0.
    rewrite Z.land_0_r, Z.lor_0_l. change 255 with (2 ^ 8 - 1). rewrite land_ones_low by lia.
    by apply Z.mod_small.
  - rewrite Z.land_lor_distr_l, <- Z.land_assoc. change (u32 _ &&& 255) with 255.
    rewrite (Z.land_comm (v <<< 8)), land_shifted, Z.lor_0_r by lia. done.
Qed.

(** The coefficients are the words from the second to the last but one. *)
Lemma fir_coeffs_set_byte i v w : 0 ≤ i < 4 → fir_coeffs (set_byte i v w) = fir_coeffs w.
Proof.
  intros Hi. unfold fir_coeffs, set_byte, set_word. f_equal.
  replace (i / 4) with 0 by (symmetry; apply Z.div_small; lia). by destruct w.
Qed.
Lemma fir_coeffs_set_word i v w :
  length w = args_words → 0 ≤ i < 128 → fir_coeffs (set_word (1 + i) v w) = <[Z.to_nat i := v]> (fir_coeffs w).
Proof.
  unfold whitebox_args_t. intros Hw Hi. unfold fir_coeffs, set_word, whitebox_args_t.
  rewrite drop_insert_ge, take_insert_lt by lia. f_equal. lia.
Qed.
Lemma byte_of_set_coeff i v w j :
  length w = args_words → 0 ≤ i < 128 → 0 ≤ j < 4 → byte_of (set_word (1 + i) v w) j = byte_of w j.
Proof.
  intros Hw Hi Hj. unfold byte_of. rewrite word_of_set_word by (done || lia || (apply Z.div_pos; lia)).
  rewrite decide_False; [done |]. replace (j / 4) with 0 by (symmetry; apply Z.div_small; lia). lia.
Qed.

Lemma byte_mask_testbit s k : 0 ≤ s → 0 ≤ k < 32 →
  Z.testbit (u32 (~: (0xff <<< s))) k = negb ((s <=? k) && (k <? s + 8)).
Proof.
  intros Hs Hk. unfold u32. rewrite Z.mod_pow2_bits_low, Z.lnot_spec, Z.shiftl_spec by lia. f_equal.
  change 255 with (Z.ones 8).
  destruct (s <=? k) eqn:E; cbn [andb].
  - destruct (k <? s + 8) eqn:E2; [apply Z.ones_spec_low | apply Z.ones_spec_high]; lia.
  - apply Z.testbit_neg_r. lia.
Qed.
Lemma byte_testbit v k : 0 ≤ v < 256 → 8 ≤ k → Z.testbit v k = false.
Proof. intros Hv Hk. rewrite <- (Z.mod_small v (2 ^ 8)) by done. by apply Z.mod_pow2_bits_high. Qed.
(** A byte of the block is what was last written to it. *)
Lemma byte_of_set_byte i j v w :
  length w = args_words → 0 ≤ i < 524 → 0 ≤ j < 524 → 0 ≤ v < 256 →
  byte_of (set_byte i v w) j = if decide (i = j) then v else byte_of w j.
Proof.
  intros Hw Hi Hj Hv. unfold byte_of, set_byte.
  assert (0 ≤ i / 4 < 131) by (split; [apply Z.div_pos | apply Z.div_lt_upper_bound]; lia).
  rewrite word_of_set_word by (done || apply Z.div_pos; lia).
  pose proof (Z.div_mod i 4 ltac:(lia)) as Hdi. pose proof (Z.div_mod j 4 ltac:(lia)) as Hdj.
  pose proof (Z.mod_pos_bound i 4 ltac:(lia)). pose proof (Z.mod_pos_bound j 4 ltac:(lia)).
  destruct (decide (i / 4 = j / 4)) as [He |]; [| rewrite decide_False by congruence; done].
  rewrite <- He. set (x := word_of w (i / 4)). set (si := i mod 4) in *. set (sj := j mod 4) in *.
  apply Z.bits_inj'. intros k Hk.
  assert (∀ y, Z.testbit (y &&& 255) k = (k <? 8) && Z.testbit y k) as Hlow.
  { intros y. change 255 with (2 ^ 8 - 1). rewrite land_ones_low by lia.
    destruct (k <? 8) eqn:E; [apply Z.mod_pow2_bits_low | apply Z.mod_pow2_bits_high]; lia. }
  rewrite Hlow, Z.shiftr_spec, Z.lor_spec, Z.land_spec, Z.shiftl_spec by lia.
  destruct (k <? 8) eqn:E; cbn [andb].
  - rewrite byte_mask_testbit by lia. destruct (decide (i = j)) as [-> | Hne].
    + subst si sj. rewrite (proj2 (Z.leb_le _ _)), (proj2 (Z.ltb_lt _ _)) by lia. cbn [andb negb].
      rewrite andb_false_r. cbn [orb]. f_equal. lia.
    + assert (si ≠ sj) by lia. rewrite Hlow, Z.shiftr_spec by lia. cbn [andb].
      assert (Z.testbit v (k + 8 * sj - 8 * si) = false) as ->.
      { destruct (decide (si < sj)); [apply byte_testbit; lia | apply Z.testbit_neg_r; lia]. }
      rewrite orb_false_r.
      assert ((8 * si <=? k + 8 * sj) && (k + 8 * sj <? 8 * si + 8) = false) as ->
        by (apply andb_false_iff; lia).
      by rewrite andb_true_r.
  - destruct (decide (i = j)); [symmetry; apply byte_testbit; lia |]. by rewrite Hlow.
Qed.
