(* ===== verification/IoctlSpec.v ===== *)
(** * Control requests do what their code says

    The dispatch on the request code, and the functional behaviour of the handlers
    that program the synthesizers and the filter. *)

From stdpp Require Import gmap.
From S2P Require Import Prelude Kernel State Sim Pdma UserRing Gpio GpioSpec Exciter Receiver.
From S2P Require Import RfBlocks TxRx Ioctl.

Section dispatch.
Context {W : Type} `{!Kernel W} `{!CircMacros} `{!IoctlMacros}.

(** ** Dispatch *)

Definition request_codes : list Z := (ioctl_table (W := W) 0).*1.

Lemma ioctl_case cmd arg m :
  NoDup (ioctl_table (W := W) arg).*1 → (cmd, m) ∈ ioctl_table arg → whitebox_ioctl cmd arg = m.
Proof.
  unfold whitebox_ioctl. generalize (ioctl_table (W := W) arg). intros l Hl Hin.
  induction l as [|[c m'] l IH]; [by apply not_elem_of_nil in Hin |]. cbn [switch].
  apply NoDup_cons in Hl as [Hc Hl]. apply elem_of_cons in Hin as [Heq | Hin].
  - injection Heq as <- <-. by rewrite Z.eqb_refl.
  - destruct (cmd =? c) eqn:E; [| by apply IH].
    exfalso. apply Hc. apply Z.eqb_eq in E. subst c. by apply (list_elem_of_fmap_2 fst) in Hin.
Qed.
Lemma ioctl_codes arg : NoDup (ioctl_table (W := W) arg).*1.
Proof.
  apply (NoDup_fmap_1 (λ c, c mod 2 ^ 8)). cbn [ioctl_table fmap list_fmap fst].
  unfold W_RESET, W_LOCKED, WE_CLEAR, WE_GET, WE_SET, WE_CLEAR_MASK, WR_CLEAR, WR_GET, WR_SET,
    WR_CLEAR_MASK, WC_GET, WC_SET, WC_LOCKED, WA_GET, WA_SET, WA_LOCKED, WM_CMD, W_MMAP_WRITE,
    W_MMAP_READ, WF_GET, WF_SET.
  rewrite !io_nr, !ior_nr, !iow_nr by lia. apply (bool_decide_unpack _). vm_compute. done.
Qed.

Ltac request_case := apply ioctl_case; [apply ioctl_codes | unfold ioctl_table; set_solver].
Lemma ioctl_wa_get_case arg : whitebox_ioctl (W := W) WA_GET arg = whitebox_ioctl_adf4351_get arg.
Proof. request_case. Qed.
Lemma ioctl_wc_get_case arg : whitebox_ioctl (W := W) WC_GET arg = whitebox_ioctl_cmx991_get arg.
Proof. request_case. Qed.
Lemma ioctl_we_clear_case arg : whitebox_ioctl (W := W) WE_CLEAR arg = whitebox_ioctl_exciter_clear.
Proof. request_case. Qed.
Lemma ioctl_we_get_case arg : whitebox_ioctl (W := W) WE_GET arg = whitebox_ioctl_exciter_get arg.
Proof. request_case. Qed.
Lemma ioctl_we_set_case arg : whitebox_ioctl (W := W) WE_SET arg = whitebox_ioctl_exciter_set arg.
Proof. request_case. Qed.
Lemma ioctl_wf_get_case arg : whitebox_ioctl (W := W) WF_GET arg = whitebox_ioctl_fir_get arg.
Proof. request_case. Qed.
Lemma ioctl_wa_set_case arg : whitebox_ioctl (W := W) WA_SET arg = whitebox_ioctl_adf4351_set arg.
Proof. request_case. Qed.
Lemma ioctl_wc_set_case arg : whitebox_ioctl (W := W) WC_SET arg = whitebox_ioctl_cmx991_set arg.
Proof. request_case. Qed.
Lemma ioctl_mmap_read_case arg :
  whitebox_ioctl (W := W) W_MMAP_READ arg = whitebox_ioctl_mmap_read arg.
Proof. request_case. Qed.
Lemma ioctl_fir_set_case arg : whitebox_ioctl (W := W) WF_SET arg = whitebox_ioctl_fir_set arg.
Proof. request_case. Qed.
Lemma ioctl_default cmd (cases : list (Z * M (sys W) Z)) d :
  cmd ∉ cases.*1 → switch cmd cases d = d.
Proof.
  induction cases as [|[c m] cases IH]; cbn [switch]; [done |]. intros Hin.
  destruct (cmd =? c) eqn:E.
  - apply Z.eqb_eq in E. subst c. exfalso. apply Hin. left.
  - apply IH. set_solver.
Qed.

End dispatch.

(** ** Programming the synthesizers *)

Section synthesizers.
Context {W : Type} `{!Kernel W} `{!CircMacros} `{!IoctlMacros}.
Context (pd : whitebox_platform_data_t) (a : whitebox_args_t).
Implicit Types (pr : params) (p : pdma_device_t) (wb : whitebox_device) (w : W).

(** What is sent for a register that had the value [c]. *)
Definition adf4351_sent (i : nat) (c : Z) : list io_event :=
  let v := word_of a (Z.of_nat i) in if c =? v then [] else adf4351_write_events pd v.
Definition cmx991_sent (i : nat) (c : Z) : list io_event :=
  let v := byte_of a (Z.of_nat i) in
  if c =? v then [] else cmx991_write_events pd (nth i whitebox_cmx991_regs_write_lut 0) v.
Definition with_adf4351 (regs : list Z) wb : whitebox_device := wb <| wb_adf4351_regs := regs |>.
Definition with_cmx991 (regs : list Z) wb : whitebox_device := wb <| wb_cmx991_regs := regs |>.

Lemma adf4351_set_reg_runs regs i c pr p uc wb w :
  regs !! i = Some c → ∃ w',
  runs (adf4351_set_reg pd a (Z.of_nat i)) (Sys pr p uc (with_adf4351 regs wb) w) ()
    (Sys pr p uc (with_adf4351 (<[i := word_of a (Z.of_nat i)]> regs) wb) w') ∧
  ∀ trace `{!Traced trace}, trace w' = trace w ++ adf4351_sent i c.
Proof.
  intros Hc. unfold adf4351_set_reg, adf4351_sent.
  pose proof (runs_get_index regs (Z.of_nat i) c (Sys pr p uc (with_adf4351 regs wb) w) ltac:(lia)
    ltac:(by rewrite Nat2Z.id)) as Hg.
  destruct (c =? word_of a (Z.of_nat i)) eqn:E.
  - exists w. split; [| intros; by rewrite app_nil_r].
    eapply runs_bind; [apply runs_get_wb |]. eapply runs_bind; [exact Hg |]. rewrite E.
    eapply runs_eq; [apply runs_when_false | done |]. apply Z.eqb_eq in E. rewrite <- E.
    by rewrite list_insert_id.
  - destruct (emits_adf4351_write pd (word_of a (Z.of_nat i)) pr p uc
      (with_adf4351 (<[i := word_of a (Z.of_nat i)]> regs) wb) w) as (w' & Hw & Ht).
    exists w'. split; [| exact Ht].
    eapply runs_bind; [apply runs_get_wb |]. eapply runs_bind; [exact Hg |]. rewrite E.
    apply runs_when_true. eapply runs_bind; [apply runs_upd_wb |]. rewrite Nat2Z.id. exact Hw.
Qed.
Lemma cmx991_set_reg_runs regs i c pr p uc wb w :
  (i < 10)%nat → regs !! i = Some c → ∃ w',
  runs (cmx991_set_reg pd a (Z.of_nat i)) (Sys pr p uc (with_cmx991 regs wb) w) ()
    (Sys pr p uc (with_cmx991 (<[i := byte_of a (Z.of_nat i)]> regs) wb) w') ∧
  ∀ trace `{!Traced trace}, trace w' = trace w ++ cmx991_sent i c.
Proof.
  intros Hi Hc. unfold cmx991_set_reg, cmx991_sent.
  pose proof (runs_get_index regs (Z.of_nat i) c (Sys pr p uc (with_cmx991 regs wb) w) ltac:(lia)
    ltac:(by rewrite Nat2Z.id)) as Hg.
  assert (whitebox_cmx991_regs_write_lut !! i = Some (nth i whitebox_cmx991_regs_write_lut 0)) as Hlut.
  { destruct (lookup_lt_is_Some_2 whitebox_cmx991_regs_write_lut i ltac:(cbn; lia)) as [x Hx].
    by rewrite nth_lookup, Hx. }
  pose proof (runs_get_index whitebox_cmx991_regs_write_lut (Z.of_nat i) _
    (Sys pr p uc (with_cmx991 regs wb) w) ltac:(lia)
    ltac:(rewrite Nat2Z.id; exact Hlut)) as Hl.
  destruct (c =? byte_of a (Z.of_nat i)) eqn:E.
  - exists w. split; [| intros; by rewrite app_nil_r].
    eapply runs_bind; [apply runs_get_wb |]. eapply runs_bind; [exact Hg |].
    eapply runs_bind; [exact Hl |]. rewrite E.
    eapply runs_eq; [apply runs_when_false | done |]. apply Z.eqb_eq in E. rewrite <- E.
    by rewrite list_insert_id.
  - destruct (emits_cmx991_write pd (nth i whitebox_cmx991_regs_write_lut 0) (byte_of a (Z.of_nat i))
      pr p uc (with_cmx991 (<[i := byte_of a (Z.of_nat i)]> regs) wb) w) as (w' & Hw & Ht).
    exists w'. split; [| exact Ht].
    eapply runs_bind; [apply runs_get_wb |]. eapply runs_bind; [exact Hg |].
    eapply runs_bind; [exact Hl |]. rewrite E.
    apply runs_when_true. eapply runs_bind; [apply runs_upd_wb |]. rewrite Nat2Z.id. exact Hw.
Qed.

(** The two loops: one goes down from the last register, the other up. *)
Definition adf4351_writes (regs : list Z) : list io_event := mjoin (reverse (imap adf4351_sent regs)).
Definition cmx991_writes (i : nat) (regs : list Z) : list io_event :=
  mjoin (imap (λ j, cmx991_sent (i + j)) regs).

Lemma adf4351_set_loop n regs pr p uc wb w :
  (n ≤ length regs)%nat → ∃ w',
  runs (for_loop n (6 - Z.of_nat n) (λ j, adf4351_set_reg pd a (WA_REGS_COUNT - 1 - j)))
    (Sys pr p uc (with_adf4351 regs wb) w) ()
    (Sys pr p uc (with_adf4351 ((word_of a <$> seqZ 0 (Z.of_nat n)) ++ drop n regs) wb) w') ∧
  ∀ trace `{!Traced trace}, trace w' = trace w ++ adf4351_writes (take n regs).
Proof.
  revert regs w. induction n as [|n IH]; intros regs w Hn.
  { exists w. split; [done | intros; by rewrite app_nil_r]. }
  destruct (lookup_lt_is_Some_2 regs n ltac:(lia)) as [c Hc].
  destruct (adf4351_set_reg_runs regs n c pr p uc wb w Hc) as (w1 & Hr1 & Ht1).
  set (regs1 := <[n := word_of a (Z.of_nat n)]> regs) in *.
  destruct (IH regs1 w1) as (w2 & Hr2 & Ht2); [unfold regs1; rewrite length_insert; lia |].
  exists w2. split.
  - cbn [for_loop]. eapply runs_bind.
    { replace (WA_REGS_COUNT - 1 - (6 - Z.of_nat (S n))) with (Z.of_nat n) by (unfold WA_REGS_COUNT; lia).
      exact Hr1. }
    replace (6 - Z.of_nat (S n) + 1) with (6 - Z.of_nat n) by lia.
    eapply runs_eq; [exact Hr2 | done |]. f_equal. f_equal.
    rewrite Nat2Z.inj_succ, <- Z.add_1_r, seqZ_app, fmap_app, <- app_assoc by lia.
    f_equal. cbn. unfold regs1. rewrite (drop_S _ (word_of a (Z.of_nat n)) n)
      by (by rewrite list_lookup_insert_eq by lia).
    by rewrite drop_insert_lt by lia.
  - intros trace Htr. rewrite Ht2, Ht1 by done. rewrite <- app_assoc. f_equal.
    unfold adf4351_writes. rewrite (take_S_r _ _ _ Hc), imap_app, reverse_app.
    unfold regs1. rewrite take_insert_ge by lia. cbn. rewrite length_take, Nat.add_0_r.
    by replace (n `min` length regs)%nat with n by lia.
Qed.
Lemma cmx991_set_loop n i regs pr p uc wb w :
  (i + n ≤ 10)%nat → (i + n ≤ length regs)%nat → ∃ w',
  runs (for_loop n (Z.of_nat i) (cmx991_set_reg pd a))
    (Sys pr p uc (with_cmx991 regs wb) w) ()
    (Sys pr p uc (with_cmx991 (overwrite i (byte_of a <$> seqZ (Z.of_nat i) (Z.of_nat n)) regs) wb) w') ∧
  ∀ trace `{!Traced trace}, trace w' = trace w ++ cmx991_writes i (take n (drop i regs)).
Proof.
  revert i regs w. induction n as [|n IH]; intros i regs w Hi Hn.
  { exists w. split; [| intros; by rewrite take_0, app_nil_r].
    eapply runs_eq; [apply runs_ret | done |]. do 2 f_equal. symmetry. apply overwrite_nil. }
  destruct (lookup_lt_is_Some_2 regs i ltac:(lia)) as [c Hc].
  destruct (cmx991_set_reg_runs regs i c pr p uc wb w ltac:(lia) Hc) as (w1 & Hr1 & Ht1).
  set (regs1 := <[i := byte_of a (Z.of_nat i)]> regs) in *.
  destruct (IH (S i) regs1 w1) as (w2 & Hr2 & Ht2); [lia | unfold regs1; rewrite length_insert; lia |].
  exists w2. split.
  - cbn [for_loop]. eapply runs_bind; [exact Hr1 |].
    replace (Z.of_nat i + 1) with (Z.of_nat (S i)) by lia.
    eapply runs_eq; [exact Hr2 | done |]. do 2 f_equal. unfold regs1. rewrite overwrite_cons by lia.
    rewrite (seqZ_cons (Z.of_nat i) (Z.of_nat (S n))), fmap_cons by lia.
    replace (Z.succ (Z.of_nat i)) with (Z.of_nat (S i)) by lia.
    by replace (Z.pred (Z.of_nat (S n))) with (Z.of_nat n) by lia.
  - intros trace Htr. rewrite Ht2, Ht1 by done. rewrite <- app_assoc. f_equal.
    unfold cmx991_writes, regs1. rewrite drop_insert_lt by lia.
    rewrite (drop_S _ _ _ Hc). cbn [take imap]. cbn [mjoin list_join]. rewrite Nat.add_0_r. f_equal.
    f_equal. apply imap_ext. intros j x _. cbn. f_equal. lia.
Qed.
End synthesizers.

Section programming.
Context {W : Type} `{!Kernel W} `{!CircMacros} `{!IoctlMacros}.
Implicit Types (pr : params) (p : pdma_device_t) (wb : whitebox_device) (w : W).


(** [m] run on a handler's copy of the block. *)
Lemma with_user_args_runs arg (k : whitebox_args_t → M (sys W) Z) pr p uc wb w :
  let r := k_get_user_words arg args_words w in
  with_user_args arg k (Sys pr p uc wb w) =
    if r.1.1 then Done (- EACCES) (Sys pr p uc wb r.2) else k (as_args r.1.2) (Sys pr p uc wb r.2).
Proof. cbv zeta. unfold with_user_args, mbind, M_bind, call. cbn. by destruct (_.1.1). Qed.

Lemma wa_set_runs arg pr p uc wb w :
  length (wb_adf4351_regs wb) = 6%nat → (k_get_user_words arg args_words w).1.1 = false →
  let r := k_get_user_words arg args_words w in
  ∃ w', runs (whitebox_ioctl WA_SET arg) (Sys pr p uc wb w) 0
      (Sys pr p uc (with_adf4351 (word_of (as_args r.1.2) <$> seqZ 0 6) wb) w') ∧
    ∀ trace `{!Traced trace}, trace w' =
      trace r.2 ++ adf4351_writes (wb_platform_data wb) (as_args r.1.2) (wb_adf4351_regs wb).
Proof.
  intros Ha E r. rewrite ioctl_wa_set_case. set (pd := wb_platform_data wb). set (a := as_args r.1.2).
  destruct (adf4351_set_loop pd a 6 (wb_adf4351_regs wb) pr p uc wb r.2 ltac:(lia)) as (w' & Hr & Ht).
  rewrite take_ge in Ht by lia. rewrite drop_ge, app_nil_r in Hr by lia.
  exists w'. split; [| exact Ht]. eapply runs_bind; [apply runs_get_wb |].
  unfold runs. rewrite with_user_args_runs. fold r. fold r in E. rewrite E. fold a.
  eapply runs_bind; [| apply runs_ret].
  replace (with_adf4351 (wb_adf4351_regs wb) wb) with wb in Hr by by destruct wb. exact Hr.
Qed.
Lemma wc_set_runs arg pr p uc wb w :
  length (wb_cmx991_regs wb) = 10%nat → (k_get_user_words arg args_words w).1.1 = false →
  let r := k_get_user_words arg args_words w in
  ∃ w', runs (whitebox_ioctl WC_SET arg) (Sys pr p uc wb w) 0
      (Sys pr p uc (with_cmx991 (byte_of (as_args r.1.2) <$> seqZ 0 10) wb) w') ∧
    ∀ trace `{!Traced trace}, trace w' =
      trace r.2 ++ cmx991_writes (wb_platform_data wb) (as_args r.1.2) 0 (wb_cmx991_regs wb).
Proof.
  intros Hc E r. rewrite ioctl_wc_set_case. set (pd := wb_platform_data wb). set (a := as_args r.1.2).
  destruct (cmx991_set_loop pd a 10 0 (wb_cmx991_regs wb) pr p uc wb r.2 ltac:(lia) ltac:(lia))
    as (w' & Hr & Ht).
  rewrite drop_0, take_ge in Ht by lia.
  rewrite overwrite_0, length_fmap, length_seqZ, drop_ge, app_nil_r in Hr by lia.
  exists w'. split; [| exact Ht]. eapply runs_bind; [apply runs_get_wb |].
  unfold runs. rewrite with_user_args_runs. fold r. fold r in E. rewrite E. fold a.
  eapply runs_bind; [| apply runs_ret].
  replace (with_cmx991 (wb_cmx991_regs wb) wb) with wb in Hr by by destruct wb. exact Hr.
Qed.

(** C19: setting the synthesizers' registers sends what changed, and only that, in the
    order the chips want.  After [WA_SET] the driver's copy of the six registers of the
    ADF4351 is what the caller gave, and the words sent are those that differ from the
    copy, from the last register to the first; after [WC_SET] the same of the ten of the
    CMX991, from the first to the last, each with its address.  When the block cannot be
    read both answer [-EACCES], send nothing and change nothing. *)
Theorem synthesizers_programmed arg pr p uc wb w :
  length (wb_adf4351_regs wb) = 6%nat → length (wb_cmx991_regs wb) = 10%nat →
  let s := Sys pr p uc wb w in
  let pd := wb_platform_data wb in
  let r := k_get_user_words arg args_words w in
  let a := as_args r.1.2 in
  if r.1.1 then
    whitebox_ioctl WA_SET arg s = Done (- EACCES) (Sys pr p uc wb r.2) ∧
    whitebox_ioctl WC_SET arg s = Done (- EACCES) (Sys pr p uc wb r.2)
  else
    (∃ w', runs (whitebox_ioctl WA_SET arg) s 0
        (Sys pr p uc (with_adf4351 (word_of a <$> seqZ 0 6) wb) w') ∧
      ∀ trace `{!Traced trace}, trace w' = trace r.2 ++ adf4351_writes pd a (wb_adf4351_regs wb)) ∧
    (∃ w', runs (whitebox_ioctl WC_SET arg) s 0
        (Sys pr p uc (with_cmx991 (byte_of a <$> seqZ 0 10) wb) w') ∧
      ∀ trace `{!Traced trace}, trace w' = trace r.2 ++ cmx991_writes pd a 0 (wb_cmx991_regs wb)).
Proof.
  intros Ha Hc s pd r a. destruct r.1.1 eqn:E.
  - rewrite ioctl_wa_set_case, ioctl_wc_set_case.
    split; (eapply runs_bind; [apply runs_get_wb |]); unfold runs; rewrite with_user_args_runs; fold r;
      by rewrite E.
  - split; [by apply wa_set_runs | by apply wc_set_runs].
Qed.
End programming.

(** ** Witnesses *)

#[local] Existing Instance circ_macros.
#[local] Existing Instance ioctl_macros.


(** Registers 1 and 4 of the first chip change. *)
Definition block_of_words (l : list Z) : sim := sim0 <| m_words := {[ 0 := l ]} |>.
Lemma synthesizers_programmed_witness :
  let wb := zero_wb <| wb_adf4351_regs := [9; 8; 7; 6; 5; 4] |> in
  let w := block_of_words [9; 1; 7; 6; 2; 4] in
  let a := as_args (k_get_user_words 0 args_words w).1.2 in
  let pd := wb_platform_data wb in
  (∃ w', runs (whitebox_ioctl WA_SET 0) (Sys zero_params zero_pdma 1 wb w) 0
      (Sys zero_params zero_pdma 1 (with_adf4351 (word_of a <$> seqZ 0 6) wb) w') ∧
    m_trace w' = adf4351_writes pd a [9; 8; 7; 6; 5; 4]) ∧
  adf4351_writes pd a [9; 8; 7; 6; 5; 4] = adf4351_write_events pd 2 ++ adf4351_write_events pd 1.
Proof.
  intros wb w a pd. split; [| vm_compute; reflexivity].
  pose proof (synthesizers_programmed 0 zero_params zero_pdma 1 wb w eq_refl eq_refl) as Hp.
  destruct Hp as [(w' & Hr & Ht) _].
  exists w'. split; [exact Hr | exact (Ht m_trace _)].
Defined.
