(* ===== verification/Driver.v ===== *)
(** * The file operations ([driver/whitebox_driver.c])

    Opening and releasing the device, [read], [write], [fsync], [poll], [mmap] and
    the statistics files.  Every loop that waits for the hardware or for another
    process takes a fuel argument. *)

From S2P Require Import Prelude Kernel State Pdma UserRing Gpio Exciter Receiver RfBlocks TxRx.
From S2P Require Import Ioctl.

Definition WE_FIFO_SIZE : Z := 1024.
Definition WA_PD_MASK : Z := 0x00000020.

(** The words written to the threshold, correction and gain registers. *)
Definition threshold_word (quantum : Z) : Z :=
  u32 quantum ||| u32 (u32 (WE_FIFO_SIZE - quantum) <<< WET_AFVAL_OFFSET).
Definition correction_word (i q : Z) : Z :=
  u32 ((i &&& WEC_I_MASK) ||| (s32 (q <<< WEC_Q_OFFSET) &&& WEC_Q_MASK)).
Definition gain_word (i q : Z) : Z :=
  u32 ((u32 i &&& WEG_I_MASK) ||| (u32 (u32 q <<< WEG_Q_OFFSET) &&& WEG_Q_MASK)).

Definition string_for_last_error (e : Z) : string :=
  if e =? 0 then "none"
  else if e =? W_ERROR_PLL_LOCK_LOST then "pll lock lost"
  else if e =? W_ERROR_TX_OVERRUN then "overrun"
  else if e =? W_ERROR_TX_UNDERRUN then "underrun"
  else "unknown".

Section driver.
Context {W : Type} `{!Kernel W} `{!CircMacros} `{!IoctlMacros}.
Abbreviation P := (M (sys W)).

Definition upd_use_count (f : Z → Z) : P () := modify (λ s, s <| s_use_count ::= f |>).
Definition get_use_count : P Z := gets s_use_count.
Definition set_state (d : whitebox_device_state) : P () :=
  upd_wb (λ wb, wb <| wb_state := d |>).
Definition get_state : P whitebox_device_state := get_wb wb_state.

(** ** open and release *)

(** The device is told the module's parameters. *)
Definition open_configure (e : which) : P () :=
  quantum ← param whitebox_exciter_quantum;
  auto_tx ← param whitebox_auto_tx;
  upd_exciter e (λ x, x <| ex_quantum := u32 quantum |> <| ex_auto_tx := auto_tx |>);;
  exciter_set_threshold e (threshold_word quantum);;
  tx_i ← param whitebox_tx_i_correction;
  tx_q ← param whitebox_tx_q_correction;
  exciter_set_correction e (correction_word tx_i tx_q);;
  gain_i ← param whitebox_tx_i_gain;
  gain_q ← param whitebox_tx_q_gain;
  exciter_set_gain e (gain_word gain_i gain_q).

Definition open_finish : P Z :=
  upd_wb (λ wb, wb <| wb_tx_stats := zero_stats |> <| wb_rx_stats := zero_stats |>);;
  pd ← the_pins;
  whitebox_gpio_dac_enable pd;;
  set_state WDS_IDLE;;
  _ ← whitebox_ioctl_reset;
  mret 0.

Definition fail_in_use (ret : Z) : P Z := upd_use_count (λ n, s32 (n - 1));; mret ret.

(** The receive half of [whitebox_open], from the user sink on. *)
Definition open_receive (r : which) : P Z :=
  order ← param whitebox_user_order;
  set_user_sink (whitebox_user_sink_init (order - 1));;
  pd ← the_pins;
  whitebox_rf_source_init (rx_dma_ch pd) (Some rx_dma_cb_h) r;;
  quantum ← param whitebox_receiver_quantum;
  upd_receiver r (λ x, x <| rv_quantum := u32 quantum |>);;
  ret ← whitebox_rf_source_alloc;
  if ret <? 0 then
    whitebox_user_source_free;;
    whitebox_rf_sink_free;;
    fail_in_use ret
  else
    base ← get_wb wb_user_buffer;
    ret ← whitebox_user_sink_alloc (u32 (base + (k_PAGE_SIZE <<< (order - 1))));
    if ret <? 0 then
      whitebox_rf_source_free;;
      whitebox_user_source_free;;
      whitebox_rf_sink_free;;
      fail_in_use ret
    else open_finish.

Definition whitebox_open : P Z :=
  mock_en ← param whitebox_mock_en;
  let e := if nz mock_en then Mock else Real in
  let r := if nz mock_en then Mock else Real in
  upd_use_count (λ n, s32 (n + 1));;
  count ← get_use_count;
  if negb (count =? 1) then fail_in_use (- EBUSY)
  else
    upd_wb (λ wb, wb <| wb_mapped := 0 |>);;
    order ← param whitebox_user_order;
    set_user_source (whitebox_user_source_init (order - 1));;
    pd ← the_pins;
    whitebox_rf_sink_init (tx_dma_ch pd) (Some tx_dma_cb_h) e;;
    open_configure e;;
    rx_i ← param whitebox_rx_i_correction;
    rx_q ← param whitebox_rx_q_correction;
    receiver_set_correction r (correction_word rx_i rx_q);;
    ret ← whitebox_rf_sink_alloc;
    if ret <? 0 then fail_in_use ret
    else
      base ← get_wb wb_user_buffer;
      ret ← whitebox_user_source_alloc base;
      if ret <? 0 then
        whitebox_rf_sink_free;;
        fail_in_use ret
      else open_receive r.

(** [while (stop(wb) < 0) cpu_relax()]. *)
Fixpoint stop_loop (fuel : nat) (stop : P Z) : P () :=
  match fuel with
  | O => spin
  | S fuel' =>
      r ← stop;
      when (r <? 0) (cpu_relax;; stop_loop fuel' stop)
  end.

Definition is_tx (d : whitebox_device_state) : bool :=
  bool_decide (d = WDS_TX) || bool_decide (d = WDS_TX_STREAMING).
Definition is_rx (d : whitebox_device_state) : bool :=
  bool_decide (d = WDS_RX) || bool_decide (d = WDS_RX_STREAMING).

Definition whitebox_release (fuel : nat) : P Z :=
  count ← get_use_count;
  if negb (count =? 1) then mret (- ENOENT)
  else
    st ← get_state;
    when (is_tx st) (stop_loop fuel tx_stop);;
    st ← get_state;
    when (is_rx st) (stop_loop fuel rx_stop);;
    regs ← get_wb wb_adf4351_regs;
    r2 ← get_index regs 2;
    upd_wb (λ wb, wb <| wb_adf4351_regs ::= <[2%nat := r2 ||| WA_PD_MASK]> |>);;
    pd ← the_pins;
    whitebox_gpio_adf4351_write pd (r2 ||| WA_PD_MASK);;
    whitebox_gpio_dac_disable pd;;
    whitebox_rf_sink_free;;
    whitebox_user_source_free;;
    whitebox_rf_source_free;;
    whitebox_user_sink_free;;
    upd_use_count (λ n, s32 (n - 1));;
    mret 0.

(** ** Memory mapping *)

Definition whitebox_mmap_open : P () :=
  upd_wb (λ wb, wb <| wb_mapped ::= λ n, s32 (n + 1) |>).
Definition whitebox_mmap_close : P () :=
  upd_wb (λ wb, wb <| wb_mapped ::= λ n, s32 (n - 1) |>).

Definition whitebox_mmap (vm_start vm_end : Z) : P Z :=
  failed ← call (k_remap_pfn_range vm_start (vm_start >>> k_PAGE_SHIFT) (u32 (vm_end - vm_start)));
  if nz failed then mret (- EAGAIN)
  else
    whitebox_mmap_open;;
    mret 0.

(** The test of the length sets a result that the next test overwrites. *)
Definition whitebox_get_unmapped_area (us : whitebox_user_source) (addr len pgoff : Z) : Z :=
  if nz addr || nz pgoff then 0 else cb_buf (us_buf us).

(** ** Waiting *)

(** [wait_event_interruptible]: [cond] gives its value when it holds; [None]: a
    signal arrived. *)
Fixpoint wait_event_interruptible {A} (fuel : nat) (q : wait_queue) (cond : P (option A))
    : P (option A) :=
  match fuel with
  | O => spin
  | S fuel' =>
      c ← cond;
      match c with
      | Some a => mret (Some a)
      | None =>
          irq_point;;
          signal ← call (k_wait_event_sleep q);
          if (signal : bool) then mret None else wait_event_interruptible fuel' q cond
      end
  end.

(** How a waiting loop ends: the whole call returns, or goes on with a value. *)
Inductive waited (A : Type) := Returned (ret : Z) | Ready (a : A).
Arguments Returned {A} ret.
Arguments Ready {A} a.

Definition user_source_space : P (Z * Z) :=
  get_wb (λ wb, whitebox_user_source_space_available (wb_user_source wb)).
Definition user_source_data : P (Z * Z) :=
  get_wb (λ wb, whitebox_user_source_data_available (wb_user_source wb)).
Definition user_source_total : P Z :=
  get_wb (λ wb, whitebox_user_source_data_total (wb_user_source wb)).
Definition user_sink_data : P (Z * Z) :=
  get_wb (λ wb, whitebox_user_sink_data_available (wb_user_sink wb)).

(** ** read *)

(** The condition of the reader's sleep: enough data, or an error. *)
Definition read_ready (count : Z) : P (option ()) :=
  d ← user_sink_data;
  if count <=? fst d then mret (Some ())
  else
    err ← rx_error;
    mret (if nz err then Some () else None).

(** Entered with the semaphore held; it is held on [Ready] only. *)
Fixpoint read_wait (fuel : nat) (nonblock : bool) (count : Z) : P (waited (Z * Z * Z)) :=
  match fuel with
  | O => spin
  | S fuel' =>
      err ← rx_error;
      if nz err then mret (Ready (err, 0, 0))
      else
        d ← user_sink_data;
        if fst d <? count then
          up;;
          if nonblock then mret (Returned (- EAGAIN))
          else
            _ ← rx_exec exec_fuel;
            d_printk_loop 3;;
            ok ← wait_event_interruptible fuel read_wait_queue (read_ready count);
            match ok with
            | None => mret (Returned (- ERESTARTSYS))
            | Some _ =>
                interrupted ← down_interruptible;
                if (interrupted : bool) then mret (Returned (- ERESTARTSYS))
                else read_wait fuel' nonblock count
            end
        else mret (Ready (0, fst d, snd d))
  end.

Definition read_finish (fuel : nat) (nonblock : bool) (buf count : Z) : P Z :=
  interrupted ← down_interruptible;
  if (interrupted : bool) then mret (- ERESTARTSYS)
  else
    r ← read_wait fuel nonblock count;
    match r with
    | Returned ret => mret ret
    | Ready (err, src_count, src) =>
        if nz err then up;; mret (- EIO)
        else
          ret ← whitebox_user_sink_work src src_count buf count;
          if ret <? 0 then up;; mret (- EFAULT)
          else
            set_user_sink (λ uk, whitebox_user_sink_consume uk ret);;
            up;;
            mret ret
    end.

Definition whitebox_read (fuel : nat) (nonblock : bool) (buf count : Z) : P Z :=
  d_printk 1 (_ ← receiver_get_decim Real; mret ());;
  d_printk_loop 4;;
  interrupted ← down_interruptible;
  if (interrupted : bool) then mret (- ERESTARTSYS)
  else
    st ← get_state;
    match st with
    | WDS_TX | WDS_TX_STREAMING | WDS_TX_STOPPING => up;; mret (- EBUSY)
    | _ =>
        if count =? 0 then up;; mret 0
        else
          d_printk_loop 4;;
          match st with
          | WDS_IDLE =>
              set_state WDS_RX_STREAMING;;
              up;;
              _ ← rx_crank fuel (negb nonblock);
              mret ()
          | WDS_RX_STREAMING =>
              up;;
              _ ← rx_exec exec_fuel;
              mret ()
          | _ => mret ()
          end;;
          read_finish fuel nonblock buf count
    end.

(** ** write *)

Definition write_ready (count : Z) : P (option Z) :=
  d ← user_source_space;
  if count <=? fst d then mret (Some 0)
  else
    err ← tx_error;
    mret (if nz err then Some err else None).

(** [err] is the local that survives from one turn to the next: a run error seen
    while sleeping is kept when there is room on the next turn. *)
Fixpoint write_wait (fuel : nat) (nonblock : bool) (count err : Z) : P (waited (Z * Z * Z)) :=
  match fuel with
  | O => spin
  | S fuel' =>
      d ← user_source_space;
      if fst d <? count then
        err ← tx_error;
        if nz err then mret (Ready (err, fst d, snd d))
        else
          up;;
          if nonblock then mret (Returned (- EAGAIN))
          else
            ok ← wait_event_interruptible fuel write_wait_queue (write_ready count);
            match ok with
            | None => mret (Returned (- ERESTARTSYS))
            | Some err =>
                interrupted ← down_interruptible;
                if (interrupted : bool) then mret (Returned (- ERESTARTSYS))
                else write_wait fuel' nonblock count err
            end
      else mret (Ready (err, fst d, snd d))
  end.

(** After the copy: transmit when streaming, or start to stream once the threshold
    is reached. *)
Definition write_kick : P () :=
  st ← get_state;
  if bool_decide (st = WDS_TX_STREAMING) then _ ← tx_exec exec_fuel; mret ()
  else
    total ← user_source_total;
    threshold ← param whitebox_user_source_buffer_threshold;
    when (u32 threshold <=? total) (
      set_state WDS_TX_STREAMING;;
      _ ← tx_exec exec_fuel;
      mret ()).

Definition write_copy (buf count dest dest_count : Z) : P Z :=
  d_printk_loop 4;;
  ret ← whitebox_user_source_work buf count dest dest_count;
  if ret <? 0 then up;; mret (- EFAULT)
  else
    set_user_source (λ us, whitebox_user_source_produce us ret);;
    d_printk_loop 4;;
    up;;
    d_printk_loop 4;;
    write_kick;;
    d_printk_loop 4;;
    mret ret.

(** From the test of the count on. *)
Definition write_data (fuel : nat) (nonblock : bool) (buf count : Z) : P Z :=
  if count =? 0 then up;; mret 0
  else
    err ← tx_error;
    if nz err then up;; mret (- EIO)
    else
      r ← write_wait fuel nonblock count 0;
      match r with
      | Returned ret => mret ret
      | Ready (err, dest_count, dest) =>
          if nz err then up;; mret (- EIO)
          else write_copy buf count dest dest_count
      end.

Definition whitebox_write (fuel : nat) (nonblock : bool) (buf count : Z) : P Z :=
  interrupted ← down_interruptible;
  if (interrupted : bool) then mret (- ERESTARTSYS)
  else
    st ← get_state;
    match st with
    | WDS_RX | WDS_RX_STREAMING | WDS_RX_STOPPING =>
        up;;
        d_printk_loop 4;;
        mret (- EBUSY)
    | _ =>
        when (bool_decide (st = WDS_IDLE)) (set_state WDS_TX;; _ ← tx_start; mret ());;
        write_data fuel nonblock buf count
    end.

(** ** fsync *)

(** Transmits until the user source is empty; the semaphore is dropped around each
    step.  [None]: interrupted. *)
Fixpoint fsync_drain (fuel : nat) : P (option Z) :=
  match fuel with
  | O => spin
  | S fuel' =>
      d ← user_source_data;
      if 0 <? fst d then
        err ← tx_error;
        if nz err then mret (Some err)
        else
          up;;
          _ ← tx_exec exec_fuel;
          d_printk_loop 1;;
          interrupted ← down_interruptible;
          if (interrupted : bool) then mret None else fsync_drain fuel'
      else mret (Some 0)
  end.

(** Waits, without sleeping, until both DMA buffers are free and the exciter has
    been told to stop. *)
Fixpoint fsync_stop (fuel : nat) (e : which) : P Z :=
  match fuel with
  | O => spin
  | S fuel' =>
      r ← tx_stop;
      if r <? 0 then
        err ← tx_error;
        if nz err then mret err
        else
          _ ← exciter_get_state e;
          irq_point;;
          fsync_stop fuel' e
      else mret 0
  end.

(** Waits until the exciter has stopped. *)
Fixpoint fsync_off (fuel : nat) (e : which) : P (option Z) :=
  match fuel with
  | O => spin
  | S fuel' =>
      state ← exciter_get_state e;
      if nz (state &&& WES_TXEN) then
        err ← tx_error;
        if nz err then mret (Some err)
        else
          up;;
          interrupted ← down_interruptible;
          if (interrupted : bool) then mret None else fsync_off fuel' e
      else mret (Some 0)
  end.

Definition fsync_rx : P Z :=
  st ← get_state;
  when (is_rx st) (
    set_state WDS_RX_STOPPING;;
    _ ← rx_stop;
    set_state WDS_IDLE);;
  up;;
  mret 0.

Definition fsync_tx (fuel : nat) (e : which) : P Z :=
  state ← exciter_get_state e;
  set_state WDS_TX_STOPPING;;
  when (negb (nz (state &&& WES_TXEN))) (exciter_set_state e WES_TXEN);;
  drained ← fsync_drain fuel;
  match drained with
  | None => mret (- ERESTARTSYS)
  | Some err =>
    if nz err then up;; mret (- EIO)
    else
      d_printk 1 (_ ← exciter_get_state e; mret ());;
      err ← fsync_stop fuel e;
      if nz err then up;; mret (- EIO)
      else
        off ← fsync_off fuel e;
        match off with
        | None => mret (- ERESTARTSYS)
        | Some err =>
            if nz err then up;; mret (- EIO)
            else
              set_state WDS_IDLE;;
              fsync_rx
        end
  end.

Definition whitebox_fsync (fuel : nat) : P Z :=
  e ← the_exciter;
  interrupted ← down_interruptible;
  if (interrupted : bool) then mret (- ERESTARTSYS)
  else
    st ← get_state;
    if is_tx st then fsync_tx fuel e else fsync_rx.

(** ** poll *)

Definition poll_mask : P Z :=
  st ← get_state;
  if bool_decide (st = WDS_IDLE) then
    mret (POLLOUT ||| POLLRDNORM ||| POLLIN ||| POLLWRNORM)
  else if is_tx st then
    err ← tx_error;
    if nz err then mret POLLERR
    else
      d ← user_source_space;
      if 0 <? fst d then mret (POLLOUT ||| POLLWRNORM)
      else call_ (k_poll_wait write_wait_queue);; mret 0
  else if is_rx st then
    err ← rx_error;
    if nz err then mret POLLERR
    else
      d ← user_sink_data;
      if 0 <? fst d then mret (POLLIN ||| POLLRDNORM)
      else call_ (k_poll_wait read_wait_queue);; mret 0
  else mret 0.

Definition whitebox_poll : P Z :=
  down;;
  mask ← poll_mask;
  up;;
  mret mask.
End driver.

(** ** The statistics files *)

Inductive stat_line :=
| StatNum (name : string) (v : Z)
| StatCalls (details : list whitebox_stats_exec_detail)
| StatText (name text : string).

(** The details from the oldest to the newest, those never filled skipped. *)
Fixpoint stats_details (n : nat) (i : Z) (st : whitebox_stats)
    : list whitebox_stats_exec_detail :=
  match n with
  | O => []
  | S n' =>
      let offset := (st_exec_detail_index st + i) &&& (W_EXEC_DETAIL_COUNT - 1) in
      let rest := stats_details n' (i + 1) st in
      match st_exec_detail st !! Z.to_nat offset with
      | Some d => if 0 <? sd_time d then d :: rest else rest
      | None => rest
      end
  end.

Definition stats_show (st : whitebox_stats) : list stat_line := [
  StatNum "bytes" (st_bytes st);
  StatCalls (stats_details (Z.to_nat W_EXEC_DETAIL_COUNT) 0 st);
  StatNum "exec_calls" (st_exec_calls st);
  StatNum "exec_busy" (st_exec_busy st);
  StatNum "exec_nop_src" (st_exec_nop_src st);
  StatNum "exec_nop_dest" (st_exec_nop_dest st);
  StatNum "exec_failed" (st_exec_failed st);
  StatNum "exec_success_slow" (st_exec_success_slow st);
  StatNum "exec_dma_start" (st_exec_dma_start st);
  StatNum "exec_dma_finished" (st_exec_dma_finished st);
  StatNum "stop" (st_stop st);
  StatNum "error" (st_error st);
  StatText "last_error" (string_for_last_error (st_last_error st))
].

Definition tx_stats_show (wb : whitebox_device) : list stat_line := stats_show (wb_tx_stats wb).
Definition rx_stats_show (wb : whitebox_device) : list stat_line := stats_show (wb_rx_stats wb).
Definition tx_bytes_show (wb : whitebox_device) : Z := st_bytes (wb_tx_stats wb).
