(* ===== verification/Probe.v ===== *)
(** * Binding the drivers to their devices ([driver/pdma.c], [driver/whitebox_driver.c])

    The probe and remove entry points of both drivers.  Each probe acquires its
    resources one by one and, when a step fails, gives back those it holds in the
    opposite order.  The labels of the [goto]s are nested: [on_failure cleanup rest]
    is the code from the point where the label [cleanup] becomes the target on. *)

From S2P Require Import Prelude Kernel State Pdma Gpio Exciter Receiver RfBlocks TxRx Ioctl Driver.

Section probe.
Context {W : Type} `{!Kernel W} `{!Platform W} `{!CircMacros} `{!IoctlMacros}.
Abbreviation P := (M (sys W)).

(** How a probe ends: [(true, ret)] at [done], [(false, ret)] at a failure label. *)
Definition bound (ret : Z) : P (bool * Z) := mret (true, ret).
Definition failed (ret : Z) : P (bool * Z) := mret (false, ret).
Definition on_failure (cleanup : P ()) (rest : P (bool * Z)) : P (bool * Z) :=
  r ← rest;
  when (negb (fst r)) cleanup;;
  mret r.

(** ** The DMA controller *)

Definition upd_pdma (f : pdma_device_t → pdma_device_t) : P () :=
  modify (λ s, s <| s_pdma ::= f |>).
Definition zeroed_pdma : pdma_device_t := Build_pdma_device_t 0 0 (replicate 8 (zero_chan 0)).

Definition pdma_unmap : P () := regs ← pdma_regs; call_ (k_iounmap regs).
Definition pdma_free_irq : P () := irq ← gets (λ s, pd_irq (s_pdma s)); call_ (k_free_irq irq).

(** The last steps. *)
Definition pdma_probe_init : P (bool * Z) :=
  ret ← pdma_init;
  if negb (ret =? 0) then failed (- EACCES)
  else
    ok ← call (k_debugfs_create_dir by_pdma);
    if negb (ok : bool) then failed (- ENXIO)
    else
      call_ (k_debugfs_create_file by_pdma "channel0");;
      bound 0.

(** Once the memory of the controller is there. *)
Definition pdma_probe_memory (start size irq : Z) : P (bool * Z) :=
  upd_pdma (λ _, zeroed_pdma);;
  on_failure (call_ (k_kfree by_pdma)) (
    regs ← call (k_ioremap start size);
    upd_pdma (λ p, p <| pd_regs := regs |>);;
    if regs =? 0 then failed (- EINVAL)
    else on_failure pdma_unmap (
      upd_pdma (λ p, p <| pd_irq := irq |>);;
      ret ← call (k_request_irq irq);
      if nz ret then failed (- EINVAL) else on_failure pdma_free_irq pdma_probe_init)).

(** The memory is used without a test. *)
Definition pdma_probe_device (start size irq : Z) : P (bool * Z) :=
  got ← call (k_kzalloc by_pdma);
  if negb (got : bool) then fail_with NullDeref
  else pdma_probe_memory start size irq.

Definition pdma_probe : P Z :=
  res ← call (k_platform_get_resource 0);
  match res with
  | None => mret (- ENXIO)
  | Some (start, size) =>
    irq ← call (k_platform_get_irq 0);
    if irq <? 0 then mret (- ENXIO)
    else r ← pdma_probe_device start size irq; mret (snd r)
  end.

Definition pdma_remove : P Z :=
  pdma_free_irq;;
  pdma_unmap;;
  call_ (k_kfree by_pdma);;
  mret 0.

(** ** The radio *)

(** The memory of [struct whitebox_device], filled with zeros. *)
Definition zeroed_device : whitebox_device := Build_whitebox_device WDS_IDLE
  (Build_whitebox_platform_data_t 0 0 0 0 0 0 0 0 0 0 0 0 0 0 0 0 0 0 0)
  0 (replicate 6 0) (replicate 10 0) 0 0 zero_buf
  (Build_whitebox_mock_exciter zero_exciter 0 0 (replicate 128 0))
  (Build_whitebox_mock_receiver zero_receiver 0 0)
  zero_exciter zero_receiver 0
  (Build_whitebox_user_source 0 0 0 zero_buf)
  (Build_whitebox_user_sink 0 0 0 zero_buf)
  (Build_whitebox_rf_source 0 0 zero_dma None Real)
  (Build_whitebox_rf_sink 0 0 zero_dma None Real)
  zero_stats zero_stats.

(** From the pins on: the last steps share one label.  [ret] is still what requesting
    the pins gave when no page is left for the user-side buffer. *)
Definition probe_board (pdev : whitebox_platform_data_t) : P (bool * Z) :=
  ret ← whitebox_gpio_request pdev;
  if ret <? 0 then failed ret
  else
    upd_wb (λ wb, wb <| wb_platform_data := pdev |>);;
    whitebox_gpio_cmx991_reset pdev;;
    order ← param whitebox_user_order;
    a ← call (k_get_free_pages order);
    upd_wb (λ wb, wb <| wb_user_buffer := a |>);;
    if a =? 0 then failed ret else bound ret.

Definition probe_cdev (pdev : whitebox_platform_data_t) : P (bool * Z) :=
  ok ← call k_class_create;
  if negb (ok : bool) then failed (- EINVAL)
  else on_failure (call_ k_class_destroy) (
    ret ← call k_alloc_chrdev_region;
    if ret <? 0 then failed ret
    else on_failure (call_ k_unregister_chrdev_region) (
      ret ← call k_cdev_add;
      if ret <? 0 then failed ret
      else on_failure (call_ k_cdev_del) (
        ok ← call k_device_create;
        if negb (ok : bool) then failed (- EINVAL)
        else on_failure (call_ k_device_destroy) (probe_board pdev)))).

Definition probe_receivers (pdev : whitebox_platform_data_t) (rv_start rv_size : Z)
    : P (bool * Z) :=
  ret ← whitebox_receiver_create rv_start rv_size;
  if nz ret then failed ret
  else on_failure (whitebox_receiver_destroy Real) (
    order ← param whitebox_mock_order;
    ret ← whitebox_mock_receiver_create rv_size order;
    if nz ret then failed ret
    else on_failure (whitebox_receiver_destroy Mock) (probe_cdev pdev)).

Definition probe_radio (pdev : whitebox_platform_data_t)
    (ex_start ex_size rv_start rv_size : Z) : P (bool * Z) :=
  ret ← whitebox_exciter_create ex_start ex_size;
  if nz ret then failed ret
  else on_failure (whitebox_exciter_destroy Real) (
    order ← param whitebox_mock_order;
    ret ← whitebox_mock_exciter_create ex_size order;
    if nz ret then failed ret
    else on_failure (whitebox_exciter_destroy Mock) (
      probe_receivers pdev rv_start rv_size)).

Definition free_mock_pages : P () :=
  buf ← get_wb (λ wb, cb_buf (wb_mock_buf wb));
  order ← param whitebox_mock_order;
  call_ (k_free_pages buf order).

(** [ret] is still 0 when no page is left for the buffer of the mock. *)
Definition probe_mock_pages (pdev : whitebox_platform_data_t)
    (ex_start ex_size rv_start rv_size : Z) : P (bool * Z) :=
  order ← param whitebox_mock_order;
  a ← call (k_get_free_pages order);
  upd_wb (λ wb, wb <| wb_mock_buf ::= λ b, b <| cb_buf := a |> |>);;
  if a =? 0 then failed 0
  else on_failure free_mock_pages (probe_radio pdev ex_start ex_size rv_start rv_size).

(** Once the memory of the device is there. *)
Definition probe_memory (pdev : whitebox_platform_data_t)
    (ex_start ex_size rv_start rv_size : Z) : P (bool * Z) :=
  upd_wb (λ _, zeroed_device);;
  call_ (k_sema_init 1);;
  on_failure (call_ (k_kfree by_whitebox)) (
    ok ← call (k_debugfs_create_dir by_whitebox);
    if negb (ok : bool) then failed (- ENXIO)
    else on_failure (call_ (k_debugfs_remove_recursive by_whitebox)) (
      call_ (k_debugfs_create_file by_whitebox "tx_stats");;
      call_ (k_debugfs_create_file by_whitebox "tx_bytes");;
      call_ (k_debugfs_create_file by_whitebox "rx_stats");;
      call_ (k_init_waitqueue_head write_wait_queue);;
      call_ (k_init_waitqueue_head read_wait_queue);;
      probe_mock_pages pdev ex_start ex_size rv_start rv_size)).

(** The memory is used without a test. *)
Definition probe_device (pdev : whitebox_platform_data_t)
    (ex_start ex_size rv_start rv_size : Z) : P (bool * Z) :=
  got ← call (k_kzalloc by_whitebox);
  if negb (got : bool) then fail_with NullDeref
  else probe_memory pdev ex_start ex_size rv_start rv_size.

Definition whitebox_probe (pdev : whitebox_platform_data_t) : P Z :=
  ex ← call (k_platform_get_resource 0);
  match ex with
  | None => mret (- ENXIO)
  | Some (ex_start, ex_size) =>
    rv ← call (k_platform_get_resource 1);
    match rv with
    | None => mret (- ENXIO)
    | Some (rv_start, rv_size) =>
      r ← probe_device pdev ex_start ex_size rv_start rv_size;
      mret (snd r)
    end
  end.

Definition whitebox_remove (pdev : whitebox_platform_data_t) : P Z :=
  whitebox_gpio_free pdev;;
  call_ k_device_destroy;;
  call_ k_cdev_del;;
  call_ k_unregister_chrdev_region;;
  call_ k_class_destroy;;
  whitebox_receiver_destroy Mock;;
  whitebox_receiver_destroy Real;;
  whitebox_exciter_destroy Mock;;
  whitebox_exciter_destroy Real;;
  call_ (k_debugfs_remove_recursive by_whitebox);;
  call_ (k_kfree by_whitebox);;
  mret 0.
End probe.

(** The wiring of the board. *)
Definition whitebox_platform_data : whitebox_platform_data_t := {|
  adc_s1_pin := 36; adc_s2_pin := 35; adc_dfs_pin := 37;
  dac_en_pin := 38; dac_pd_pin := 39; dac_cs_pin := 40;
  radio_resetn_pin := 41; radio_cdata_pin := 42; radio_sclk_pin := 43;
  radio_rdata_pin := 44; radio_csn_pin := 45;
  vco_clk_pin := 46; vco_data_pin := 47; vco_le_pin := 48; vco_ce_pin := 49;
  vco_pdb_pin := 50; vco_ld_pin := 51;
  tx_dma_ch := 0; rx_dma_ch := 1
|}.
