(* ===== verification/Invariant.v ===== *)
(** * The driver's invariant

    What holds of an open device between two steps of the program: the bookkeeping
    of both DMA channels, the indices of the three rings, the lengths of the
    arrays, the operation tables.  Every operation of the modules below the file
    operations keeps it and never leaves an object. *)

From S2P Require Import Prelude Kernel State Pdma PdmaSpec UserRing UserRingSpec Gpio Exciter.
From S2P Require Import Receiver RfBlocks TxRx Ioctl.

(** The part of the invariant that holds of a device that is not open. *)
Record base_inv (km : Z) (wb : whitebox_device) : Prop := {
  inv_mock_ring : ring_wf km (wb_mock_buf wb);
  inv_mx_size : mx_buf_size (wb_mock_exciter wb) = 2 ^ km;
  inv_mr_size : mr_buf_size (wb_mock_receiver wb) = 2 ^ km;
  inv_ex_ops e : is_Some (ex_ops (exciter_of wb e));
  inv_rv_ops r : is_Some (rv_ops (receiver_of wb r));
  inv_fir : length (mx_fir_coeff (wb_mock_exciter wb)) = 128%nat;
  inv_sink_dma : length (rk_dma (wb_rf_sink wb)) = 2%nat;
  inv_source_dma : length (rs_dma (wb_rf_source wb)) = 2%nat;
  inv_sink_ch : 0 ≤ rk_dma_ch (wb_rf_sink wb) < 8;
  inv_source_ch : 0 ≤ rs_dma_ch (wb_rf_source wb) < 8;
  inv_tx_ch : 0 ≤ tx_dma_ch (wb_platform_data wb) < 8;
  inv_rx_ch : 0 ≤ rx_dma_ch (wb_platform_data wb) < 8;
  inv_tx_detail : length (st_exec_detail (wb_tx_stats wb)) = 64%nat;
  inv_rx_detail : length (st_exec_detail (wb_rx_stats wb)) = 64%nat;
  inv_tx_index : 0 ≤ st_exec_detail_index (wb_tx_stats wb) < 64;
  inv_rx_index : 0 ≤ st_exec_detail_index (wb_rx_stats wb) < 64;
  inv_adf4351 : length (wb_adf4351_regs wb) = 6%nat;
  inv_cmx991 : length (wb_cmx991_regs wb) = 10%nat;
}.

Record rings_inv (k : Z) (wb : whitebox_device) : Prop := {
  inv_source : us_wf k (wb_user_source wb);
  inv_sink : uk_wf k (wb_user_sink wb);
}.

(** The user-side buffer, in two halves of [2 ^ k] bytes, as the module's parameter
    sizes it. *)
Record geometry {W} `{!Kernel W} (k : Z) (s : sys W) : Prop := {
  geo_order : 2 ≤ k ≤ 30;
  geo_pages : k_PAGE_SIZE <<< (whitebox_user_order (s_params s) - 1) = 2 ^ k;
  geo_buffer : 0 < wb_user_buffer (s_wb s) ∧ wb_user_buffer (s_wb s) + 2 * 2 ^ k ≤ 2 ^ 32;
}.

(** The invariant of a device that is not open, and of one that is. *)
Record closed_inv {W} `{!Kernel W} (k km : Z) (s : sys W) : Prop := {
  closed_pdma : pdma_wf (s_pdma s);
  closed_base : base_inv km (s_wb s);
  closed_geometry : geometry k s;
}.
Record sys_inv {W} `{!Kernel W} (k km : Z) (s : sys W) : Prop := {
  sys_closed : closed_inv k km s;
  sys_rings : rings_inv k (s_wb s);
  sys_count : s_use_count s = 1;
}.
(** The device can be opened. *)
Record idle_inv {W} `{!Kernel W} (k km : Z) (s : sys W) : Prop := {
  idle_closed : closed_inv k km s;
  idle_count : s_use_count s = 0;
}.

#[global] Instance closed_inv_stable {W} `{!Kernel W} k km : PdmaStable (closed_inv k km).
Proof.
  split.
  - intros s w [? ? []]. by do 2 (split; try done).
  - by intros s [].
  - intros s p [? ? []] ?. by do 2 (split; try done).
Qed.
#[global] Instance sys_inv_stable {W} `{!Kernel W} k km : PdmaStable (sys_inv k km).
Proof.
  split.
  - intros s w [? ? ?]. split; [by apply (world_free s) | done..].
  - by intros s [[]].
  - intros s p [? ? ?] ?. split; [by apply pdma_stable_set | done..].
Qed.

(** What the lemmas on the radio need of an invariant: it contains [base_inv], and
    writing fields other than the user-side rings keeps it when [base_inv] is kept. *)
Class DevStable {W} (km : Z) (I : sys W → Prop) : Prop := {
  dev_pdma :: PdmaStable I;
  dev_base s : I s → base_inv km (s_wb s);
  dev_set s wb : I s → base_inv km wb → wb_user_source wb = wb_user_source (s_wb s) →
    wb_user_sink wb = wb_user_sink (s_wb s) → wb_user_buffer wb = wb_user_buffer (s_wb s) →
    wb_state wb = wb_state (s_wb s) → I (s <| s_wb := wb |>);
}.
#[global] Instance closed_inv_dev {W} `{!Kernel W} k km : DevStable km (closed_inv k km).
Proof.
  split; [typeclasses eauto | by intros s [] |].
  intros s wb [? _ []] ? _ _ He _. split; [done | done |]. split; cbn; by rewrite ?He.
Qed.
#[global] Instance sys_inv_dev {W} `{!Kernel W} k km : DevStable km (sys_inv k km).
Proof.
  split; [typeclasses eauto | by intros s [[]] |].
  intros s wb [Hc [? ?] ?] ? Hs Hk He _. split; [| | done].
  - destruct Hc as [? _ []]. split; [done | done |]. split; cbn; by rewrite ?He.
  - split; cbn; by rewrite ?Hs, ?Hk.
Qed.

(** A fact about the rings, the parameters, the use count and the state of the
    device can be added to an invariant. *)
Definition framed {W} (P : sys W → Prop) : Prop := ∀ s s',
  s_params s' = s_params s → s_use_count s' = s_use_count s →
  wb_user_source (s_wb s') = wb_user_source (s_wb s) →
  wb_user_sink (s_wb s') = wb_user_sink (s_wb s) →
  wb_state (s_wb s') = wb_state (s_wb s) → P s → P s'.
Lemma dev_and {W} km (I P : sys W → Prop) :
  DevStable km I → framed P → DevStable km (λ s, I s ∧ P s).
Proof.
  intros HI HP. split; [split | |].
  - intros s w [? ?]. split; [by apply (world_free s) | by apply (HP s)].
  - intros s [? _]. by apply pdma_stable_wf.
  - intros s p [? ?] ?. split; [by apply pdma_stable_set | by apply (HP s)].
  - intros s [? _]. by apply (dev_base (km := km)).
  - intros s wb [? ?] ?????. split; [by apply (dev_set (km := km)) | by apply (HP s)].
Qed.

(** ** Rules for reading and writing the device *)

Section rules.
Context {W : Type} `{!Kernel W} (I : sys W → Prop).

(** A value read from the device comes with the invariant of the state it was read
    from. *)
Lemma keeps_get_wb_bind {A B} (f : whitebox_device → A) (k : A → M (sys W) B) :
  (∀ s, I s → keeps I (k (f (s_wb s)))) → keeps I (x ← get_wb f; k x).
Proof. intros Hk s Hs. by apply (Hk s). Qed.

Lemma keeps_upd_wb f :
  (∀ s, I s → I (s <| s_wb ::= f |>)) → keeps I (upd_wb f).
Proof. intros H. by apply keeps_modify. Qed.

Lemma keeps_get_index {A} (l : list A) i :
  0 ≤ i < Z.of_nat (length l) → keeps I (get_index l i).
Proof.
  intros Hi s Hs. unfold get_index. rewrite decide_True by lia.
  destruct (lookup_lt_is_Some_2 l (Z.to_nat i)) as [x ->]; [lia | done].
Qed.

(** Results with a property. *)
Definition gives {A} (m : M (sys W) A) (Q : A → Prop) : Prop := hoare I m (λ a s, I s ∧ Q a).
Lemma keeps_gives_bind {A B} (m : M (sys W) A) Q (k : A → M (sys W) B) :
  gives m Q → (∀ a, Q a → keeps I (k a)) → keeps I (m ≫= k).
Proof. apply hoare_bind_pure. Qed.
Lemma gives_then {A B} (m : M (sys W) A) Q (k : A → M (sys W) B) R :
  gives m Q → (∀ a, Q a → hoare I (k a) R) → hoare I (m ≫= k) R.
Proof. apply hoare_bind_pure. Qed.
Lemma keeps_then {A B} (m : M (sys W) A) (k : A → M (sys W) B) R :
  keeps I m → (∀ a, hoare I (k a) R) → hoare I (m ≫= k) R.
Proof. intros Hm Hk. eapply hoare_bind; [exact Hm | exact Hk]. Qed.
Lemma get_wb_then {A B} (f : whitebox_device → A) (k : A → M (sys W) B) R :
  (∀ s, I s → hoare I (k (f (s_wb s))) R) → hoare I (x ← get_wb f; k x) R.
Proof. intros Hk s Hs. by apply (Hk s). Qed.
Lemma gives_bind {A B} (m : M (sys W) A) (k : A → M (sys W) B) Q :
  keeps I m → (∀ a, gives (k a) Q) → gives (m ≫= k) Q.
Proof. intros Hm Hk. eapply hoare_bind; [exact Hm | exact Hk]. Qed.
Lemma gives_ret {A} (a : A) (Q : A → Prop) : Q a → gives (mret a) Q.
Proof. intros Ha s Hs. by split. Qed.
Lemma gives_keeps {A} (m : M (sys W) A) Q : gives m Q → keeps I m.
Proof. intros H. eapply hoare_conseq; [exact H | done |]. by intros a s []. Qed.
Lemma gives_true {A} (m : M (sys W) A) : keeps I m → gives m (λ _, True).
Proof. intros H. eapply hoare_conseq; [exact H | done |]. by intros a s. Qed.
Lemma gives_get_wb {A B} (f : whitebox_device → A) (k : A → M (sys W) B) Q :
  (∀ s, I s → gives (k (f (s_wb s))) Q) → gives (x ← get_wb f; k x) Q.
Proof. intros Hk s Hs. by apply (Hk s). Qed.
End rules.

Ltac inv_tac := cbv beta zeta;
  lazymatch goal with
  | |- keeps _ (mbind _ (get_wb _)) => apply keeps_get_wb_bind; intros ?s ?Hs; inv_tac
  | |- keeps _ (mbind _ _) => apply keeps_bind; [inv_tac | intros; inv_tac]
  | |- keeps _ (when _ _) => apply keeps_when; inv_tac
  | |- keeps _ (for_loop _ _ _) => apply keeps_for_loop; intros; inv_tac
  | |- keeps _ (match ?x with _ => _ end) => destruct x; inv_tac
  | |- _ => try solve [eauto 4 with keeps]
  end.

(** ** The operations of the radio *)

(** Replacing the indices of the mock ring. *)

Lemma masked_range k x : 2 ≤ k ≤ 30 → 0 ≤ s32 (u32 x &&& u32 (2 ^ k - 4)) < 2 ^ k.
Proof.
  intros Hk. pose proof (pow2_30 k Hk). pose proof (u32_range x).
  rewrite (u32_small (2 ^ k - 4)), land_word_mask by lia.
  pose proof (Z.mod_pos_bound (u32 x) (2 ^ k)).
  pose proof (words_bound (u32 x mod 2 ^ k)). pose proof (words_nonneg (u32 x mod 2 ^ k)).
  rewrite s32_small; lia.
Qed.
Lemma masked_aligned k x : 2 ≤ k ≤ 30 → s32 (u32 x &&& u32 (2 ^ k - 4)) mod 4 = 0.
Proof.
  intros Hk. pose proof (pow2_30 k Hk). pose proof (u32_range x).
  rewrite (u32_small (2 ^ k - 4)), land_word_mask by lia.
  pose proof (Z.mod_pos_bound (u32 x) (2 ^ k)).
  pose proof (words_bound (u32 x mod 2 ^ k)). pose proof (words_nonneg (u32 x mod 2 ^ k)).
  rewrite s32_small by lia. by rewrite Z.mul_comm, Z.mod_mul.
Qed.
Lemma masked_bytes_range k x : 2 ≤ k ≤ 30 → 0 ≤ s32 (u32 x &&& u32 (2 ^ k - 1)) < 2 ^ k.
Proof.
  intros Hk. pose proof (pow2_30 k Hk).
  rewrite (u32_small (2 ^ k - 1)), land_ones_low by lia.
  pose proof (Z.mod_pos_bound (u32 x) (2 ^ k)). rewrite s32_small; lia.
Qed.

Lemma keeps_upd_dev {W} km (I : sys W → Prop) `{!DevStable km I} f :
  (∀ wb, base_inv km wb → base_inv km (f wb)) →
  (∀ wb, wb_user_source (f wb) = wb_user_source wb) →
  (∀ wb, wb_user_sink (f wb) = wb_user_sink wb) →
  (∀ wb, wb_user_buffer (f wb) = wb_user_buffer wb) →
  (∀ wb, wb_state (f wb) = wb_state wb) → keeps I (upd_wb f).
Proof.
  intros Hf Hs Hk He Hst. apply keeps_upd_wb. intros s HI.
  apply (dev_set (km := km) s (f (s_wb s))); [done | by apply Hf, (dev_base (km := km) s) | apply Hs |
    apply Hk | apply He | apply Hst].
Qed.

(** An update of the device that touches neither ring nor, in a way that matters,
    [base_inv]. *)
Ltac base_tac :=
  let wb := fresh "wb" in
  let Hb := fresh "Hb" in
  intros wb Hb; destruct Hb; split; try assumption;
  unfold upd; cbn; rewrite ?length_insert, ?length_alter; first [assumption | intros []; assumption | idtac].
Ltac dev_tac :=
  eapply keeps_upd_dev; [first [eassumption | typeclasses eauto] | base_tac | done..].

Create HintDb radio_ops discriminated.
#[export] Hint Unfold exciter_regs receiver_regs _exciter_free _exciter_get_state
  _exciter_set_state _exciter_clear_state _exciter_get_interp _exciter_set_interp
  _exciter_get_fcw _exciter_set_fcw _exciter_get_threshold _exciter_set_threshold
  _exciter_get_correction _exciter_set_correction _exciter_get_gain _exciter_set_gain
  _exciter_get_runs _exciter_space_available _exciter_get_debug _exciter_get_fir
  _exciter_set_fir _exciter_get_fir_coeff _exciter_set_fir_coeff _mock_exciter_free
  _mock_exciter_get_state _mock_exciter_clear_state _mock_exciter_set_state
  _mock_exciter_space_available _mock_exciter_get_debug _mock_exciter_set_fir
  _mock_exciter_get_fir_coeff _mock_exciter_set_fir_coeff _exciter_produce
  _mock_exciter_produce _receiver_free _receiver_get_state _receiver_set_state
  _receiver_clear_state _receiver_get_decim _receiver_set_decim _receiver_get_fcw
  _receiver_set_fcw _receiver_get_threshold _receiver_set_threshold
  _receiver_get_correction _receiver_set_correction _receiver_get_runs
  _receiver_data_available _receiver_consume _receiver_get_debug _mock_receiver_free
  _mock_receiver_get_state _mock_receiver_clear_state _mock_receiver_set_state
  _mock_receiver_data_available _mock_receiver_consume : radio_ops.

Section radio.
Context {W : Type} `{!Kernel W} `{!CircMacros} (km : Z) (I : sys W → Prop) `{!DevStable km I}.

Lemma keeps_exciter_call {A} e (real mock : M (sys W) A) :
  keeps I real → keeps I mock → keeps I (exciter_call e real mock).
Proof.
  intros. apply keeps_get_wb_bind. intros s Hs.
  destruct (inv_ex_ops km (s_wb s) (dev_base (km := km) s Hs) e) as [[] ->]; done.
Qed.
Lemma keeps_receiver_call {A} r (real mock : M (sys W) A) :
  keeps I real → keeps I mock → keeps I (receiver_call r real mock).
Proof.
  intros. apply keeps_get_wb_bind. intros s Hs.
  destruct (inv_rv_ops km (s_wb s) (dev_base (km := km) s Hs) r) as [[] ->]; done.
Qed.

(** An operation of the radio, through its table: the branches are computations on
    registers. *)
Ltac op_tac :=
  first [apply keeps_exciter_call | apply keeps_receiver_call]; autounfold with radio_ops; inv_tac.

Lemma keeps_exciter_read o e : keeps I (exciter_read o e).
Proof. unfold exciter_read, exciter_regs. keeps_tac. Qed.
Lemma keeps_exciter_write o e v : keeps I (exciter_write o e v).
Proof. unfold exciter_write, exciter_regs. keeps_tac. Qed.
Lemma keeps_receiver_read o r : keeps I (receiver_read o r).
Proof. unfold receiver_read, receiver_regs. keeps_tac. Qed.
Lemma keeps_receiver_write o r v : keeps I (receiver_write o r v).
Proof. unfold receiver_write, receiver_regs. keeps_tac. Qed.

(** Emptying the mock ring. *)
Lemma keeps_mock_reset :
  keeps I (upd_wb (λ wb, wb <| wb_mock_buf ::= λ b, b <| cb_head := 0 |> <| cb_tail := 0 |> |>)).
Proof.
  dev_tac. destruct inv_mock_ring0. split; cbn; try done; lia.
Qed.

#[local] Hint Resolve keeps_exciter_read keeps_exciter_write keeps_receiver_read
  keeps_receiver_write keeps_mock_reset : keeps.

Lemma keeps_exciter_free e : keeps I (exciter_free e).
Proof. unfold exciter_free. op_tac. Qed.
Lemma keeps_exciter_get_state e : keeps I (exciter_get_state e).
Proof. unfold exciter_get_state. op_tac. Qed.
Lemma keeps_exciter_clear_state e m : keeps I (exciter_clear_state e m).
Proof. unfold exciter_clear_state. op_tac. Qed.
#[local] Hint Resolve keeps_exciter_clear_state : keeps.
Lemma keeps_exciter_set_state e m : keeps I (exciter_set_state e m).
Proof. unfold exciter_set_state. op_tac. Qed.
Lemma keeps_exciter_get_interp e : keeps I (exciter_get_interp e).
Proof. unfold exciter_get_interp. op_tac. Qed.
Lemma keeps_exciter_set_interp e v : keeps I (exciter_set_interp e v).
Proof. unfold exciter_set_interp. op_tac. Qed.
Lemma keeps_exciter_get_fcw e : keeps I (exciter_get_fcw e).
Proof. unfold exciter_get_fcw. op_tac. Qed.
Lemma keeps_exciter_set_fcw e v : keeps I (exciter_set_fcw e v).
Proof. unfold exciter_set_fcw. op_tac. Qed.
Lemma keeps_exciter_get_threshold e : keeps I (exciter_get_threshold e).
Proof. unfold exciter_get_threshold. op_tac. Qed.
Lemma keeps_exciter_set_threshold e v : keeps I (exciter_set_threshold e v).
Proof. unfold exciter_set_threshold. op_tac. Qed.
Lemma keeps_exciter_get_correction e : keeps I (exciter_get_correction e).
Proof. unfold exciter_get_correction. op_tac. Qed.
Lemma keeps_exciter_set_correction e v : keeps I (exciter_set_correction e v).
Proof. unfold exciter_set_correction. op_tac. Qed.
Lemma keeps_exciter_get_gain e : keeps I (exciter_get_gain e).
Proof. unfold exciter_get_gain. op_tac. Qed.
Lemma keeps_exciter_set_gain e v : keeps I (exciter_set_gain e v).
Proof. unfold exciter_set_gain. op_tac. Qed.
Lemma keeps_exciter_get_runs e : keeps I (exciter_get_runs e).
Proof. unfold exciter_get_runs. op_tac. Qed.
Lemma keeps_exciter_space_available e : keeps I (exciter_space_available e).
Proof. unfold exciter_space_available. op_tac. Qed.
Lemma keeps_exciter_get_debug e : keeps I (exciter_get_debug e).
Proof. unfold exciter_get_debug. op_tac. Qed.
Lemma keeps_exciter_get_fir e : keeps I (exciter_get_fir e).
Proof. unfold exciter_get_fir. op_tac. Qed.
Lemma keeps_exciter_set_fir e v : keeps I (exciter_set_fir e v).
Proof. unfold exciter_set_fir. op_tac. Qed.
Lemma keeps_receiver_free r : keeps I (receiver_free r).
Proof. unfold receiver_free. op_tac. Qed.
Lemma keeps_receiver_get_state r : keeps I (receiver_get_state r).
Proof. unfold receiver_get_state. op_tac. Qed.
Lemma keeps_receiver_clear_state r m : keeps I (receiver_clear_state r m).
Proof. unfold receiver_clear_state. op_tac. Qed.
#[local] Hint Resolve keeps_receiver_clear_state : keeps.
Lemma keeps_receiver_set_state r m : keeps I (receiver_set_state r m).
Proof. unfold receiver_set_state. op_tac. Qed.
Lemma keeps_receiver_get_decim r : keeps I (receiver_get_decim r).
Proof. unfold receiver_get_decim. op_tac. Qed.
Lemma keeps_receiver_set_decim r v : keeps I (receiver_set_decim r v).
Proof. unfold receiver_set_decim. op_tac. Qed.
Lemma keeps_receiver_get_fcw r : keeps I (receiver_get_fcw r).
Proof. unfold receiver_get_fcw. op_tac. Qed.
Lemma keeps_receiver_set_fcw r v : keeps I (receiver_set_fcw r v).
Proof. unfold receiver_set_fcw. op_tac. Qed.
Lemma keeps_receiver_get_threshold r : keeps I (receiver_get_threshold r).
Proof. unfold receiver_get_threshold. op_tac. Qed.
Lemma keeps_receiver_set_threshold r v : keeps I (receiver_set_threshold r v).
Proof. unfold receiver_set_threshold. op_tac. Qed.
Lemma keeps_receiver_get_correction r : keeps I (receiver_get_correction r).
Proof. unfold receiver_get_correction. op_tac. Qed.
Lemma keeps_receiver_set_correction r v : keeps I (receiver_set_correction r v).
Proof. unfold receiver_set_correction. op_tac. Qed.
Lemma keeps_receiver_get_runs r : keeps I (receiver_get_runs r).
Proof. unfold receiver_get_runs. op_tac. Qed.
Lemma keeps_receiver_data_available r : keeps I (receiver_data_available r).
Proof. unfold receiver_data_available. op_tac. Qed.
Lemma keeps_receiver_get_debug r : keeps I (receiver_get_debug r).
Proof. unfold receiver_get_debug. op_tac. Qed.
End radio.

#[export] Hint Extern 1 (DevStable _ _) => solve [typeclasses eauto] : keeps.
#[export] Hint Resolve keeps_exciter_read keeps_exciter_write keeps_receiver_read
  keeps_receiver_write keeps_exciter_free keeps_exciter_get_state
  keeps_exciter_clear_state keeps_exciter_set_state keeps_exciter_get_interp
  keeps_exciter_set_interp keeps_exciter_get_fcw keeps_exciter_set_fcw
  keeps_exciter_get_threshold keeps_exciter_set_threshold keeps_exciter_get_correction
  keeps_exciter_set_correction keeps_exciter_get_gain keeps_exciter_set_gain
  keeps_exciter_get_runs keeps_exciter_space_available keeps_exciter_get_debug
  keeps_exciter_get_fir keeps_exciter_set_fir keeps_receiver_free
  keeps_receiver_get_state keeps_receiver_clear_state keeps_receiver_set_state
  keeps_receiver_get_decim keeps_receiver_set_decim keeps_receiver_get_fcw
  keeps_receiver_set_fcw keeps_receiver_get_threshold keeps_receiver_set_threshold
  keeps_receiver_get_correction keeps_receiver_set_correction keeps_receiver_get_runs
  keeps_receiver_data_available keeps_receiver_get_debug : keeps.

(** Filling and draining: the mock's indices stay masked, whatever the count. *)
Section radio_moves.
Context {W : Type} `{!Kernel W} `{!CircMacros} (km : Z) (I : sys W → Prop) `{!DevStable km I}.

Lemma keeps_exciter_auto_enable e st : keeps I (exciter_auto_enable e st).
Proof. unfold exciter_auto_enable. keeps_tac. Qed.
#[local] Hint Resolve keeps_exciter_auto_enable : keeps.

Lemma keeps_exciter_produce e count : keeps I (exciter_produce e count).
Proof.
  eapply keeps_exciter_call; [done | unfold _exciter_produce; keeps_tac |].
  unfold _mock_exciter_produce. apply keeps_get_wb_bind. intros s Hs.
  apply keeps_bind; [| intros; keeps_tac].
  pose proof (dev_base (km := km) s Hs) as [Hr -> _]. pose proof (ring_order _ _ Hr).
  dev_tac. apply ring_wf_head; [done |]. by apply masked_range.
Qed.
Lemma keeps_receiver_consume r count : keeps I (receiver_consume r count).
Proof.
  eapply keeps_receiver_call; [done | unfold _receiver_consume; keeps_tac |].
  unfold _mock_receiver_consume. apply keeps_get_wb_bind. intros s Hs.
  apply keeps_bind; [| intros; keeps_tac].
  pose proof (dev_base (km := km) s Hs) as [Hr _ -> _]. pose proof (ring_order _ _ Hr).
  dev_tac. apply ring_wf_tail; [done |]. by apply masked_range.
Qed.

(** The coefficient array of the mock has 128 entries. *)
Lemma keeps_exciter_get_fir_coeff e i : 0 ≤ i < 128 → keeps I (exciter_get_fir_coeff e i).
Proof.
  intros. eapply keeps_exciter_call; [done | autounfold with radio_ops; inv_tac |].
  unfold _mock_exciter_get_fir_coeff. apply keeps_get_wb_bind. intros s Hs.
  apply keeps_get_index. rewrite (inv_fir km _ (dev_base s Hs)). lia.
Qed.
Lemma keeps_exciter_set_fir_coeff e i c :
  0 ≤ i < 128 → keeps I (exciter_set_fir_coeff e i c).
Proof.
  intros. eapply keeps_exciter_call; [done | autounfold with radio_ops; inv_tac |].
  unfold _mock_exciter_set_fir_coeff. apply keeps_get_wb_bind. intros s Hs.
  apply keeps_bind.
  - apply keeps_get_index. rewrite (inv_fir km _ (dev_base s Hs)). lia.
  - intros _. dev_tac.
Qed.

(** ** The radio-side blocks *)

Lemma channel_u8 ch : 0 ≤ ch < 8 → 0 ≤ u8 ch < 8.
Proof. intros. unfold u8. rewrite Z.mod_small; lia. Qed.

Lemma keeps_whitebox_rf_sink_init ch cb e :
  0 ≤ ch < 8 → keeps I (whitebox_rf_sink_init ch cb e).
Proof.
  intros. apply keeps_bind; [keeps_tac | intros _]. unfold upd_rf_sink. dev_tac.
Qed.
Lemma keeps_whitebox_rf_source_init ch cb r :
  0 ≤ ch < 8 → keeps I (whitebox_rf_source_init ch cb r).
Proof.
  intros. apply keeps_bind; [keeps_tac | intros _]. unfold upd_rf_source. dev_tac.
Qed.

Lemma keeps_whitebox_rf_sink_alloc : keeps I whitebox_rf_sink_alloc.
Proof.
  unfold whitebox_rf_sink_alloc, get_rf_sink. inv_tac.
  apply keeps_pdma_request; [typeclasses eauto |]. apply u8_range.
Qed.
Lemma keeps_whitebox_rf_source_alloc : keeps I whitebox_rf_source_alloc.
Proof.
  unfold whitebox_rf_source_alloc, get_rf_source. inv_tac.
  apply keeps_pdma_request; [typeclasses eauto |]. apply u8_range.
Qed.
Lemma keeps_whitebox_rf_sink_free : keeps I whitebox_rf_sink_free.
Proof.
  unfold whitebox_rf_sink_free, get_rf_sink. inv_tac.
  apply keeps_pdma_release; [typeclasses eauto |].
  by eapply channel_u8, inv_sink_ch, dev_base.
Qed.
Lemma keeps_whitebox_rf_source_free : keeps I whitebox_rf_source_free.
Proof.
  unfold whitebox_rf_source_free, get_rf_source. inv_tac.
  apply keeps_pdma_release; [typeclasses eauto |].
  by eapply channel_u8, inv_source_ch, dev_base.
Qed.

(** Room and data come with their address, except when there is none. *)
Definition addressed (r : Z * option Z) : Prop := is_Some r.2 ∨ r.1 = 0.
Lemma gives_sink_space : gives I whitebox_rf_sink_space_available addressed.
Proof.
  unfold whitebox_rf_sink_space_available, get_rf_sink.
  apply gives_get_wb. intros s Hs. apply gives_bind.
  { apply keeps_pdma_buffers_available; [typeclasses eauto | apply u8_range]. }
  intros n. destruct (0 <? n).
  - apply gives_bind; [keeps_tac |]. intros x. apply gives_ret. left. by eexists.
  - apply gives_bind; [| intros; apply gives_ret; by right].
    apply keeps_d_printk. keeps_tac.
    apply keeps_pdma_buffers_available; [typeclasses eauto | apply u8_range].
Qed.
Lemma gives_source_data : gives I whitebox_rf_source_data_available addressed.
Proof.
  unfold whitebox_rf_source_data_available, get_rf_source.
  apply gives_get_wb. intros s Hs. apply gives_bind.
  { apply keeps_pdma_buffers_available; [typeclasses eauto | apply u8_range]. }
  intros n. destruct (0 <? n).
  - apply gives_bind; [keeps_tac |]. intros x. apply gives_ret. left. by eexists.
  - apply gives_ret. by right.
Qed.

Lemma keeps_whitebox_rf_sink_produce n : keeps I (whitebox_rf_sink_produce n).
Proof.
  unfold whitebox_rf_sink_produce, get_rf_sink, upd_rf_sink. inv_tac; [dev_tac |].
  apply keeps_exciter_produce.
Qed.
Lemma keeps_whitebox_rf_source_consume n : keeps I (whitebox_rf_source_consume n).
Proof.
  unfold whitebox_rf_source_consume, get_rf_source, upd_rf_source. inv_tac; [dev_tac |].
  apply keeps_receiver_consume.
Qed.

Lemma keeps_set_sink_dma b m n : b = 0 ∨ b = 1 → keeps I (set_sink_dma b m n).
Proof.
  intros. unfold set_sink_dma, get_rf_sink, upd_rf_sink. apply keeps_get_wb_bind. intros s Hs.
  apply keeps_bind; [| intros _; dev_tac].
  apply keeps_get_index. rewrite (inv_sink_dma km _ (dev_base s Hs)). lia.
Qed.
Lemma keeps_set_source_count b n : b = 0 ∨ b = 1 → keeps I (set_source_count b n).
Proof.
  intros. unfold set_source_count, get_rf_source, upd_rf_source.
  apply keeps_get_wb_bind. intros s Hs. apply keeps_bind; [| intros d; dev_tac].
  apply keeps_get_index. rewrite (inv_source_dma km _ (dev_base s Hs)). lia.
Qed.

(** [work] reports a transfer under way with 0; it never completes one itself. *)
Lemma gives_sink_work src n dst m :
  gives I (whitebox_rf_sink_work src n dst m) (λ r, r ≤ 0).
Proof.
  unfold whitebox_rf_sink_work, get_rf_sink. destruct (_ =? 0); [by apply gives_ret |].
  apply gives_bind; [keeps_tac |]. intros map. apply gives_bind; [keeps_tac |].
  intros []; [by apply gives_ret |]. apply gives_get_wb. intros s Hs.
  eapply hoare_bind; [apply pdma_start_slot; [typeclasses eauto | apply u8_range] |]. cbn. intros buf s' [Hs' Hb].
  revert s' Hs'. change (gives I (if buf <? 0 then mret (- EFAULT) else
    d_printk 1 (_ ← exciter_get_state (rk_exciter (wb_rf_sink (s_wb s))); mret ());;
    set_sink_dma buf map (min_size n m);; mret 0) (λ r, r ≤ 0)).
  destruct (buf <? 0) eqn:E; [by apply gives_ret |].
  apply gives_bind; [keeps_tac |]. intros _.
  apply gives_bind; [apply keeps_set_sink_dma; lia |]. intros _. by apply gives_ret.
Qed.
Lemma gives_source_work src n dst m :
  gives I (whitebox_rf_source_work src n dst m) (λ r, r ≤ 0).
Proof.
  unfold whitebox_rf_source_work, get_rf_source. destruct (_ =? 0); [by apply gives_ret |].
  apply gives_get_wb. intros s Hs.
  eapply hoare_bind; [apply pdma_start_slot; [typeclasses eauto | apply u8_range] |]. cbn. intros buf s' [Hs' Hb].
  revert s' Hs'. change (gives I (if buf <? 0 then mret (- EFAULT) else
    set_source_count buf (min_size n m);; mret 0) (λ r, r ≤ 0)).
  destruct (buf <? 0) eqn:E; [by apply gives_ret |].
  apply gives_bind; [apply keeps_set_source_count; lia |]. intros _. by apply gives_ret.
Qed.

Lemma keeps_sink_work_done b : b = 0 ∨ b = 1 → keeps I (whitebox_rf_sink_work_done b).
Proof.
  intros. unfold whitebox_rf_sink_work_done, get_rf_sink. apply keeps_get_wb_bind. intros s Hs.
  apply keeps_bind; [| intros; keeps_tac].
  apply keeps_get_index. rewrite (inv_sink_dma km _ (dev_base s Hs)). lia.
Qed.
Lemma keeps_source_work_done b : b = 0 ∨ b = 1 → keeps I (whitebox_rf_source_work_done b).
Proof.
  intros. unfold whitebox_rf_source_work_done, get_rf_source.
  apply keeps_get_wb_bind. intros s Hs. apply keeps_bind; [| intros; keeps_tac].
  apply keeps_get_index. rewrite (inv_source_dma km _ (dev_base s Hs)). lia.
Qed.
End radio_moves.
#[export] Hint Resolve keeps_exciter_produce keeps_receiver_consume
  keeps_whitebox_rf_sink_alloc keeps_whitebox_rf_source_alloc keeps_whitebox_rf_sink_free
  keeps_whitebox_rf_source_free keeps_whitebox_rf_sink_produce
  keeps_whitebox_rf_source_consume keeps_sink_work_done keeps_source_work_done : keeps.

(** The pins. *)
Section pins.
Context {W : Type} `{!Kernel W} (I : sys W → Prop) `{!WorldFree I}.

Lemma keeps_cmx991_wr_byte pd b : keeps I (_cmx991_wr_byte pd b).
Proof. unfold _cmx991_wr_byte, gpio_set_value. keeps_tac. Qed.
Lemma keeps_cmx991_rd_bits pd n b : keeps I (cmx991_rd_bits pd n b).
Proof.
  revert b. induction n as [|n IH]; intros b; cbn [cmx991_rd_bits]; [keeps_tac |].
  unfold gpio_set_value, gpio_get_value. keeps_tac; apply IH.
Qed.
#[local] Hint Resolve keeps_cmx991_wr_byte keeps_cmx991_rd_bits : keeps.
Lemma keeps_cmx991_write pd a d : keeps I (whitebox_gpio_cmx991_write pd a d).
Proof. unfold whitebox_gpio_cmx991_write, gpio_set_value, udelay. keeps_tac. Qed.
Lemma keeps_cmx991_read pd a : keeps I (whitebox_gpio_cmx991_read pd a).
Proof.
  unfold whitebox_gpio_cmx991_read, _cmx991_rd_byte, gpio_set_value, udelay. keeps_tac.
Qed.
Lemma keeps_cmx991_reset pd : keeps I (whitebox_gpio_cmx991_reset pd).
Proof. unfold whitebox_gpio_cmx991_reset, gpio_set_value, udelay. keeps_tac. Qed.
Lemma keeps_adf4351_write pd d : keeps I (whitebox_gpio_adf4351_write pd d).
Proof. unfold whitebox_gpio_adf4351_write, gpio_set_value, udelay. keeps_tac. Qed.
Lemma keeps_adf4351_locked pd : keeps I (whitebox_gpio_adf4351_locked pd).
Proof. unfold whitebox_gpio_adf4351_locked, gpio_get_value. keeps_tac. Qed.
Lemma keeps_adc_enable pd : keeps I (whitebox_gpio_adc_enable pd).
Proof. unfold whitebox_gpio_adc_enable, gpio_set_value. keeps_tac. Qed.
Lemma keeps_adc_disable pd : keeps I (whitebox_gpio_adc_disable pd).
Proof. unfold whitebox_gpio_adc_disable, gpio_set_value. keeps_tac. Qed.
Lemma keeps_dac_enable pd : keeps I (whitebox_gpio_dac_enable pd).
Proof. unfold whitebox_gpio_dac_enable, gpio_set_value. keeps_tac. Qed.
Lemma keeps_dac_disable pd : keeps I (whitebox_gpio_dac_disable pd).
Proof. unfold whitebox_gpio_dac_disable, gpio_set_value. keeps_tac. Qed.
Lemma keeps_udelay n : keeps I (udelay n).
Proof. unfold udelay. keeps_tac. Qed.
Lemma keeps_restart_systick : keeps I restart_systick.
Proof. unfold restart_systick. keeps_tac. Qed.
End pins.
#[export] Hint Resolve keeps_cmx991_write keeps_cmx991_read keeps_cmx991_reset
  keeps_adf4351_write keeps_adf4351_locked keeps_adc_enable keeps_adc_disable
  keeps_dac_enable keeps_dac_disable keeps_udelay keeps_restart_systick : keeps.

(** ** The data paths *)

(** Moving a ring by any count leaves it well formed: the masks see to it. *)
Section moves.
Context `{!CircMacros}.

Lemma us_wf_consume_any k us n : us_wf k us → us_wf k (whitebox_user_source_consume us n).
Proof.
  intros [Hr Hs ? ?]. pose proof (ring_order _ _ Hr). split; try done.
  - unfold whitebox_user_source_consume, upd; cbn. rewrite Hs.
    apply (ring_wf_tail k); [done | by apply masked_range].
  - unfold whitebox_user_source_consume, upd; cbn. rewrite Hs. by apply masked_aligned.
Qed.
Lemma us_wf_produce_any k us n : us_wf k us → us_wf k (whitebox_user_source_produce us n).
Proof.
  intros [Hr Hs ? ?]. pose proof (ring_order _ _ Hr). split; try done.
  - unfold whitebox_user_source_produce, upd; cbn. rewrite Hs.
    apply (ring_wf_head k); [done | by apply masked_range].
  - unfold whitebox_user_source_produce, upd; cbn. rewrite Hs. by apply masked_aligned.
Qed.
Lemma uk_wf_produce_any k uk n : uk_wf k uk → uk_wf k (whitebox_user_sink_produce uk n).
Proof.
  intros [Hr Hs ?]. pose proof (ring_order _ _ Hr). split; try done.
  - unfold whitebox_user_sink_produce, upd; cbn. rewrite Hs.
    apply (ring_wf_head k); [done | by apply masked_range].
  - unfold whitebox_user_sink_produce, upd; cbn. rewrite Hs. by apply masked_aligned.
Qed.
Lemma uk_wf_consume_any k uk n : uk_wf k uk → uk_wf k (whitebox_user_sink_consume uk n).
Proof.
  intros [Hr Hs ?]. pose proof (ring_order _ _ Hr). split; try done.
  unfold whitebox_user_sink_consume, upd; cbn. rewrite Hs.
  apply (ring_wf_tail k); [done | by apply masked_bytes_range].
Qed.
End moves.

Lemma detail_index_range i : 0 ≤ (i + 1) &&& (W_EXEC_DETAIL_COUNT - 1) < 64.
Proof.
  change (W_EXEC_DETAIL_COUNT - 1) with (2 ^ 6 - 1). rewrite land_ones_low by lia.
  apply Z.mod_pos_bound. lia.
Qed.

Section stats.
Context {W : Type} `{!Kernel W} `{!CircMacros} (km : Z) (I : sys W → Prop) `{!DevStable km I}.

(** A change of the counters that leaves the ring of details in order. *)
Definition stats_ok (f : whitebox_stats → whitebox_stats) : Prop :=
  ∀ st, length (st_exec_detail st) = 64%nat → 0 ≤ st_exec_detail_index st < 64 →
    length (st_exec_detail (f st)) = 64%nat ∧ 0 ≤ st_exec_detail_index (f st) < 64.
Lemma keeps_upd_tx_stats f : stats_ok f → keeps I (upd_tx_stats f).
Proof. intros Hf. unfold upd_tx_stats. dev_tac; by apply Hf. Qed.
Lemma keeps_upd_rx_stats f : stats_ok f → keeps I (upd_rx_stats f).
Proof. intros Hf. unfold upd_rx_stats. dev_tac; by apply Hf. Qed.

Lemma keeps_d_printk_loop l : keeps I (d_printk_loop l).
Proof.
  pose proof (gives_keeps _ _ _ (gives_sink_space km I)).
  pose proof (gives_keeps _ _ _ (gives_source_data km I)).
  unfold d_printk_loop. keeps_tac.
Qed.

Lemma keeps_set_runs a b :
  keeps I (upd_wb (λ wb, wb <| wb_cur_overruns := a |> <| wb_cur_underruns := b |>)).
Proof. dev_tac. Qed.
Lemma keeps_set_overruns a : keeps I (upd_wb (λ wb, wb <| wb_cur_overruns := a |>)).
Proof. dev_tac. Qed.
Lemma keeps_set_underruns a : keeps I (upd_wb (λ wb, wb <| wb_cur_underruns := a |>)).
Proof. dev_tac. Qed.
Lemma dev_tx_ch s : I s → 0 ≤ tx_dma_ch (wb_platform_data (s_wb s)).
Proof. intros Hs. by apply (dev_base (km := km) s Hs). Qed.
Lemma dev_rx_ch s : I s → 0 ≤ rx_dma_ch (wb_platform_data (s_wb s)).
Proof. intros Hs. by apply (dev_base (km := km) s Hs). Qed.
End stats.

Ltac stats_tac := intros ?st ?Hl ?Hi; unfold set_detail, upd; cbn; rewrite ?length_alter;
  split; [done | first [done | apply detail_index_range]].
#[export] Hint Extern 1 (stats_ok _) => stats_tac : keeps.
#[export] Hint Resolve keeps_upd_tx_stats keeps_upd_rx_stats keeps_d_printk_loop keeps_set_runs
  keeps_set_overruns keeps_set_underruns : keeps.
