(* ===== verification/TxRxSpec.v ===== *)
(** * One step of a data path, exactly

    What [tx_exec] and [rx_exec] do on the FPGA: which transfer is added to the
    channel's queue, what happens to the ring and to the counters, on every
    branch; and what two receive steps in a row do. *)

From S2P Require Import Prelude Kernel State Sim Pdma PdmaSpec UserRing UserRingSpec.
From S2P Require Import Gpio Exciter Receiver RfBlocks TxRx Invariant.

(** ** Transmit *)

Section paths.
Context {W : Type} `{!Kernel W} `{!CircMacros}.
Implicit Types (w : W) (wb : whitebox_device).

Lemma runs_exciter_real {A} (real mock : M (sys W) A) pr p uc wb w a s' :
  ex_ops (wb_exciter wb) = Some real_ops → runs real (Sys pr p uc wb w) a s' →
  runs (exciter_call Real real mock) (Sys pr p uc wb w) a s'.
Proof. intros Ho Hr. unfold runs, exciter_call, mbind, M_bind, get_wb, gets. cbn. by rewrite Ho. Qed.
Lemma runs_receiver_real {A} (real mock : M (sys W) A) pr p uc wb w a s' :
  rv_ops (wb_receiver wb) = Some real_ops → runs real (Sys pr p uc wb w) a s' →
  runs (receiver_call Real real mock) (Sys pr p uc wb w) a s'.
Proof. intros Ho Hr. unfold runs, receiver_call, mbind, M_bind, get_wb, gets. cbn. by rewrite Ho. Qed.

(** The room of the radio: the frame size, when a DMA slot is free. *)
Lemma sink_space_real ch c pr p uc wb w :
  rk_exciter (wb_rf_sink wb) = Real → ex_ops (wb_exciter wb) = Some real_ops →
  u8 (rk_dma_ch (wb_rf_sink wb)) = ch → ch < 8 → chan_at ch c p → 
  whitebox_debug pr < 1 →
  ∃ w', runs whitebox_rf_sink_space_available (Sys pr p uc wb w)
    (if 0 <? (op_available c).1 then
       (u32 (s32 (whitebox_frame_size pr <<< 2)), Some (ex_regs (wb_exciter wb) + wer_sample))
     else (0, None))
    (Sys pr (set_chan ch (op_available c).2 p) uc wb w').
Proof.
  intros He Ho Hch Hlt Hc Hd. unfold whitebox_rf_sink_space_available, get_rf_sink.
  destruct (pdma_buffers_available_runs ch c pr p uc wb w Hlt Hc) as [w' Hr].
  exists w'. eapply runs_bind; [apply runs_get_wb |]. cbv beta. rewrite Hch, He.
  eapply runs_bind; [exact Hr |]. destruct (0 <? _).
  - eapply runs_bind; [eapply runs_exciter_real; [exact Ho |]; unfold _exciter_space_available, exciter_regs; runs_tac |].
    runs_tac.
  - eapply runs_bind; [| apply runs_ret]. unfold d_printk.
    eapply runs_bind; [apply runs_param |]. destruct (7 <=? whitebox_debug pr) eqn:E; [lia |]. apply runs_when_false.
Qed.

(** What [pdma_start] gives when a slot is free. *)
Definition starts_in (c : pdma_channel_t) : option Z :=
  if in_use c then if takes_b c then Some 1 else if takes_a c then Some 0 else None else None.
Lemma op_start_slot src dst n c buf :
  starts_in c = Some buf → (op_start src dst n c).1 = buf ∧ (buf = 0 ∨ buf = 1).
Proof.
  unfold starts_in, op_start, chan_start.
  destruct (in_use c), (takes_b c), (takes_a c); cbn; intros [= <-]; auto.
Qed.

Lemma sink_work_real ch c buf src src_count dest dest_count pr p uc wb w :
  u8 (rk_dma_ch (wb_rf_sink wb)) = ch → ch < 8 → chan_at ch c p → starts_in c = Some buf →
  whitebox_debug pr < 1 → length (rk_dma (wb_rf_sink wb)) = 2%nat →
  (∀ a w1, (k_dma_mapping_error a w1).1 = false) →
  let n := min_size src_count dest_count in
  n >>> 2 ≠ 0 →
  let map := (k_dma_map_single src n DMA_TO_DEVICE w).1 in
  ∃ w', runs (whitebox_rf_sink_work src src_count dest dest_count) (Sys pr p uc wb w) 0
    (Sys pr (set_chan ch (op_start map dest (u16 (n >>> 2)) c).2 p) uc
      (wb <| wb_rf_sink ::= λ s, s <| rk_dma ::=
         <[Z.to_nat buf := Build_dma_slot map n]> |> |>) w').
Proof.
  intros Hch Hlt Hc Hb Hd Hl Hm n Hn map. unfold whitebox_rf_sink_work, get_rf_sink.
  fold n. destruct (n >>> 2 =? 0) eqn:E; [lia |].
  set (w1 := (k_dma_mapping_error map (k_dma_map_single src n DMA_TO_DEVICE w).2).2).
  destruct (pdma_start_runs ch map dest (u16 (n >>> 2)) c pr p uc wb w1 Hlt Hc)
    as (w' & ? & ? & ? & Hr & _).
  destruct (op_start_slot map dest (u16 (n >>> 2)) c buf Hb) as [Hret Hbuf]. rewrite Hret in Hr.
  exists w'. eapply runs_bind; [apply runs_call |]. eapply runs_bind; [apply runs_call |].
  rewrite Hm. eapply runs_bind; [apply runs_get_wb |]. rewrite Hch.
  eapply runs_bind; [exact Hr |]. destruct (buf <? 0) eqn:E0; [lia |].
  eapply runs_bind.
  { unfold d_printk. eapply runs_bind; [apply runs_param |].
    destruct (1 <=? whitebox_debug pr) eqn:E1; [lia | apply runs_when_false]. }
  unfold set_sink_dma, get_rf_sink, upd_rf_sink.
  destruct (lookup_lt_is_Some_2 (rk_dma (wb_rf_sink wb)) (Z.to_nat buf)) as [d Hdm]; [lia |].
  eapply runs_bind; [| apply runs_ret]. eapply runs_bind; [apply runs_get_wb |].
  eapply runs_bind; [apply (runs_get_index _ _ d); [lia | exact Hdm] |]. apply runs_upd_wb.
Qed.

Lemma produce_real n pr p uc wb w :
  rk_exciter (wb_rf_sink wb) = Real → ex_ops (wb_exciter wb) = Some real_ops →
  ∃ w', runs (whitebox_rf_sink_produce n) (Sys pr p uc wb w) 0
    (Sys pr p uc (wb <| wb_rf_sink ::= λ s, s <| rk_off ::= λ o, s64 (o + n) |> |>) w').
Proof.
  intros He Ho. unfold whitebox_rf_sink_produce, get_rf_sink, upd_rf_sink.
  set (wb' := wb <| wb_rf_sink ::= λ s, s <| rk_off ::= λ o, s64 (o + n) |> |>).
  assert (ex_ops (wb_exciter wb') = Some real_ops) as Ho' by done.
  assert (∀ w1 st, ∃ w2, runs (exciter_auto_enable Real st) (Sys pr p uc wb' w1) ()
    (Sys pr p uc wb' w2)) as Hauto.
  { intros w1 st. unfold exciter_auto_enable, when.
    destruct (nz (ex_auto_tx (exciter_of wb' Real)) && nz (st &&& WES_AFULL) &&
      negb (nz (st &&& WES_TXEN))) eqn:E; eexists;
      (eapply runs_bind; [apply runs_get_wb |]); cbv beta; rewrite E; [| apply runs_ret].
    eapply runs_exciter_real; [exact Ho' |]. unfold _exciter_set_state, exciter_regs. runs_tac. }
  set (v := k_readl (ex_regs (wb_exciter wb') + wer_state) w).
  destruct (Hauto v.2 v.1) as [w2 H2]. exists w2.
  eapply runs_bind; [apply runs_get_wb |]. rewrite He.
  eapply runs_bind; [apply runs_upd_wb |]. fold wb'.
  eapply runs_exciter_real; [exact Ho' |]. unfold _exciter_produce.
  eapply runs_bind; [eapply runs_exciter_real; [exact Ho' |];
    unfold _exciter_get_state, exciter_read, exciter_regs; runs_tac |].
  eapply runs_bind; [exact H2 | apply runs_ret].
Qed.

(** A transmit path wired to the FPGA, on a channel it owns. *)
Record tx_wired (ch : Z) (wb : whitebox_device) : Prop := {
  tw_real : rk_exciter (wb_rf_sink wb) = Real;
  tw_ops : ex_ops (wb_exciter wb) = Some real_ops;
  tw_ch : u8 (rk_dma_ch (wb_rf_sink wb)) = ch;
  tw_ch8 : ch < 8;
  tw_dma : length (rk_dma (wb_rf_sink wb)) = 2%nat;
}.
Definition stats_wf (st : whitebox_stats) : Prop :=
  length (st_exec_detail st) = 64%nat ∧ 0 ≤ st_exec_detail_index st < 64.

Lemma queue_slot c q :
  in_use c = true → holds_queue c q → (length q < 2)%nat → ∃ buf, starts_in c = Some buf.
Proof.
  intros Hu Hq Hl. destruct (queue_start 0 0 0 c q Hq Hl) as [_ Hr]. revert Hr.
  unfold starts_in, chan_start, EBUSY. rewrite Hu.
  destruct (takes_b c), (takes_a c); cbn; intros; try lia; by eexists.
Qed.

(** What the step does once it holds the lock. *)
Definition tx_moved (pr : params) (us : whitebox_user_source) (q : list xfer)
    (wb wb' : whitebox_device) (q' : list xfer) : Prop :=
  let '(data, src) := whitebox_user_source_data_available us in
  let room := if (length q <? 2)%nat then u32 (s32 (whitebox_frame_size pr <<< 2)) else 0 in
  let st := wb_tx_stats wb in
  let st' := wb_tx_stats wb' in
  if data >>> 2 =? 0 then
    q' = q ∧ wb_user_source wb' = us ∧ st_exec_nop_src st' = incr (st_exec_nop_src st)
  else if room >>> 2 =? 0 then
    q' = q ∧ wb_user_source wb' = us ∧ st_exec_nop_dest st' = incr (st_exec_nop_dest st)
  else
    let n := Z.min data room in
    ∃ w1 : W, q' = q ++ [((k_dma_map_single src n DMA_TO_DEVICE w1).1,
                      ex_regs (wb_exciter wb) + wer_sample, u16 (n >>> 2))] ∧
      wb_user_source wb' = whitebox_user_source_consume us n ∧
      st_exec_dma_start st' = incr (st_exec_dma_start st).

Lemma min_size_min a b : min_size a b = Z.min a b.
Proof. unfold min_size. destruct (a <? b) eqn:E; lia. Qed.

(** The counters and the ring of details after a transfer was started. *)
Lemma stats_wf_started i f st :
  stats_wf st →
  stats_wf ((set_detail i f st <| st_exec_detail_index := (i + 1) &&& (W_EXEC_DETAIL_COUNT - 1) |>)
    <| st_exec_dma_start ::= incr |>).
Proof.
  intros [Hl _]. split; [| apply detail_index_range].
  unfold set_detail, upd. cbn. by rewrite length_alter.
Qed.

(** The message that traces the paths reads the state of both radios. *)
Definition states_read (wb : whitebox_device) (w : W) : W :=
  (k_readl (rv_regs (wb_receiver wb) + wrr_state)
    (k_readl (ex_regs (wb_exciter wb) + wer_state) w).2).2.
Record both_real (wb : whitebox_device) : Prop := {
  br_exciter : rk_exciter (wb_rf_sink wb) = Real;
  br_exciter_ops : ex_ops (wb_exciter wb) = Some real_ops;
  br_receiver : rs_receiver (wb_rf_source wb) = Real;
  br_receiver_ops : rv_ops (wb_receiver wb) = Some real_ops;
}.
Lemma d_printk_loop_reads l pr p uc wb w :
  both_real wb → whitebox_debug pr < l →
  runs (d_printk_loop l) (Sys pr p uc wb w) () (Sys pr p uc wb (states_read wb w)).
Proof.
  intros [He Heo Hr Hro] Hd. unfold d_printk_loop.
  eapply runs_bind; [apply runs_get_wb |]. eapply runs_bind; [apply runs_get_wb |].
  rewrite He, Hr.
  eapply runs_bind; [eapply runs_exciter_real; [done |];
    unfold _exciter_get_state, exciter_read, exciter_regs; runs_tac |].
  eapply runs_bind; [eapply runs_receiver_real; [done |];
    unfold _receiver_get_state, receiver_read, receiver_regs; runs_tac |].
  eapply runs_bind; [apply runs_param |].
  destruct (l <=? whitebox_debug pr) eqn:E; [lia | apply runs_when_false].
Qed.

(** What a step of the path leaves as it was. *)
Record tx_kept (ch : Z) (c c' : pdma_channel_t) (wb wb' : whitebox_device) : Prop := {
  tk_use : in_use c' = in_use c;
  tk_handler : pc_handler c' = pc_handler c;
  tk_wired : tx_wired ch wb → tx_wired ch wb';
  tk_stats : stats_wf (wb_tx_stats wb) → stats_wf (wb_tx_stats wb');
  tk_exciter : wb_exciter wb' = wb_exciter wb;
  tk_mapped : wb_mapped wb' = wb_mapped wb;
  tk_source : wb_rf_source wb' = wb_rf_source wb;
  tk_receiver : wb_receiver wb' = wb_receiver wb;
}.
Lemma tx_kept_armed ch c wb wb' :
  wb_rf_sink wb' = wb_rf_sink wb → wb_exciter wb' = wb_exciter wb → wb_mapped wb' = wb_mapped wb →
  wb_rf_source wb' = wb_rf_source wb → wb_receiver wb' = wb_receiver wb →
  (stats_wf (wb_tx_stats wb) → stats_wf (wb_tx_stats wb')) →
  tx_kept ch c (chan_armed c) wb wb'.
Proof.
  intros Hs He Hm Hrs Hrv Hst. split; try done; try (unfold chan_armed; by destruct (chan_arms c)).
  intros []. by split; rewrite ?Hs, ?He.
Qed.
Lemma start_keeps_owner src dst n c :
  in_use (op_start src dst n c).2 = in_use c ∧ pc_handler (op_start src dst n c).2 = pc_handler c.
Proof.
  unfold op_start, chan_start.
  destruct (in_use c) eqn:E, (takes_b c), (takes_a c); split; done || exact E.
Qed.

Lemma tx_move_runs again fl i ch c q pr p uc wb w :
  tx_wired ch wb → chan_at ch c p → in_use c = true → holds_queue c q →
  whitebox_debug pr < 1 → (∀ a w1, (k_dma_mapping_error a w1).1 = false) →
  ∃ w' wb' c' q', runs (tx_move again fl i) (Sys pr p uc wb w) 0
      (Sys pr (set_chan ch c' p) uc wb' w') ∧
    holds_queue c' q' ∧ tx_kept ch c c' wb wb' ∧
    st_exec_calls (wb_tx_stats wb') = st_exec_calls (wb_tx_stats wb) ∧
    tx_moved pr (wb_user_source wb) q wb wb' q'.
Proof.
  intros [He Ho Hch Hlt Hl] Hc Hu Hq Hd Hm. unfold tx_moved.
  set (us := wb_user_source wb). destruct (whitebox_user_source_data_available us) as [data src] eqn:Ed.
  set (room := if (length q <? 2)%nat then _ else _).
  destruct (sink_space_real ch c pr p uc wb w He Ho Hch Hlt Hc Hd) as [w1 H1].
  pose proof (queue_available c q Hq) as Hav. pose proof (holds_queue_length c q Hq) as Hlen.
  unfold op_available in H1. rewrite Hu in H1. cbn [fst snd] in H1. rewrite Hav in H1.
  set (sink := if 0 <? 2 - Z.of_nat (length q) then _ else _) in H1.
  assert (sink.1 = room) as Hroom.
  { subst sink room. destruct (Nat.ltb_spec (length q) 2), (0 <? _) eqn:E; done || lia. }
  assert (Hq1 := queue_armed c q Hq).
  destruct (data >>> 2 =? 0) eqn:E0; [| destruct (room >>> 2 =? 0) eqn:E1].
  - eexists _, _, (chan_armed c), q. split; [| split; [exact Hq1 |]].
    { unfold tx_move. eapply runs_bind; [apply runs_get_wb |]. cbv beta zeta. fold us. rewrite Ed.
    eapply runs_bind; [exact H1 |]. cbn [fst snd]. rewrite E0. 
    eapply runs_bind; [apply runs_upd_wb |]. eapply runs_bind; [apply runs_spin_unlock_irqrestore | apply runs_ret]. }
    split; [apply tx_kept_armed; try done; by intros [] | by repeat split].
  - eexists _, _, (chan_armed c), q. split; [| split; [exact Hq1 |]].
    { unfold tx_move. eapply runs_bind; [apply runs_get_wb |]. cbv beta zeta. fold us. rewrite Ed.
    eapply runs_bind; [exact H1 |]. cbn [fst snd]. rewrite E0, Hroom, E1. 
    eapply runs_bind; [apply runs_upd_wb |]. eapply runs_bind; [apply runs_spin_unlock_irqrestore | apply runs_ret]. }
    split; [apply tx_kept_armed; try done; by intros [] | by repeat split].
  - assert (length q < 2)%nat as Hl2.
    { subst room. destruct (Nat.ltb_spec (length q) 2); [done |]. by cbn in E1. }
    assert (snd sink = Some (ex_regs (wb_exciter wb) + wer_sample)) as Hdest.
    { subst sink. destruct (0 <? _) eqn:E; [done | lia]. }
    assert (in_use (chan_armed c) = true) as Hu1.
    { unfold chan_armed. by destruct (chan_arms c). }
    destruct (queue_slot (chan_armed c) q Hu1 Hq1 Hl2) as [buf Hbuf].
    set (dest := ex_regs (wb_exciter wb) + wer_sample).
    set (n := min_size data room).
    assert (n >>> 2 ≠ 0) as Hn by (subst n; unfold min_size; destruct (data <? room); lia).
    destruct (sink_work_real ch (chan_armed c) buf src data dest room pr
      (set_chan ch (chan_armed c) p) uc wb w1 Hch Hlt (chan_at_set _ _ _ _ Hc) Hbuf Hd Hl Hm Hn)
      as [w2 H2]. fold n in H2. set (map := (k_dma_map_single src n DMA_TO_DEVICE w1).1) in H2.
    rewrite set_chan_set in H2.
    match type of H2 with runs _ _ _ (Sys _ ?p1 _ ?wb1 _) => set (p2 := p1) in H2; set (wb2 := wb1) in H2 end.
    set (wb3 := wb2 <| wb_tx_stats ::= λ st, set_detail i (λ d, d <| sd_src := data |>
        <| sd_dest := room |> <| sd_bytes := s32 n |> <| sd_result := 0 |>)
      st <| st_exec_detail_index := (i + 1) &&& (W_EXEC_DETAIL_COUNT - 1) |> |>).
    destruct (produce_real n pr p2 uc wb3 w2 He Ho) as [w3 H3].
    eexists _, _, (op_start map dest (u16 (n >>> 2)) (chan_armed c)).2, (q ++ [(map, dest, u16 (n >>> 2))]).
    split; [| split; [| split; [| split]]].
    + unfold tx_move. eapply runs_bind; [apply runs_get_wb |]. cbv beta zeta. fold us. rewrite Ed.
      eapply runs_bind; [exact H1 |]. cbn [fst snd]. rewrite E0, Hroom, E1, Hdest. fold n.
      eapply runs_bind; [exact H2 |]. eapply runs_bind; [apply runs_upd_wb |]. cbv iota.
      eapply runs_bind; [exact H3 |]. eapply runs_bind; [apply runs_upd_wb |].
      eapply runs_bind; [eapply runs_bind; [apply runs_upd_wb | apply runs_spin_unlock_irqrestore] |].
      apply runs_ret.
    + unfold op_start. rewrite Hu1. by apply queue_start.
    + destruct (start_keeps_owner map dest (u16 (n >>> 2)) (chan_armed c)) as [Hku Hkh].
      split; [by rewrite Hku, Hu1 | | | exact (stats_wf_started _ _ _) | done..].
      * rewrite Hkh. unfold chan_armed. by destruct (chan_arms c).
      * intros _. subst wb3 wb2. split; cbn; by rewrite ?length_insert.
    + done.
    + exists w1. rewrite <- (min_size_min data room). fold n. by repeat split.
Qed.

Lemma tx_exec_runs ch c q pr p uc wb w :
  stats_wf (wb_tx_stats wb) → tx_wired ch wb →
  chan_at ch c p → in_use c = true → holds_queue c q → whitebox_debug pr < 1 →
  (∀ a w1, (k_dma_mapping_error a w1).1 = false) →
  ∃ r w' wb' c' q',
    runs (tx_exec exec_fuel) (Sys pr p uc wb w) r (Sys pr (set_chan ch c' p) uc wb' w') ∧
    holds_queue c' q' ∧ tx_kept ch c c' wb wb' ∧
    st_exec_calls (wb_tx_stats wb') = incr (st_exec_calls (wb_tx_stats wb)) ∧
    match (k_spin_trylock_irqsave rf_sink_lock w).1 with
    | None => r = - EBUSY ∧ q' = q ∧ wb_user_source wb' = wb_user_source wb ∧
        st_exec_busy (wb_tx_stats wb') = incr (st_exec_busy (wb_tx_stats wb))
    | Some _ => r = 0 ∧ tx_moved pr (wb_user_source wb) q wb wb' q'
    end.
Proof.
  intros [Hdl Hdi] Hw Hc Hu Hq Hd Hm.
  destruct (k_spin_trylock_irqsave rf_sink_lock w) as [[fl |] w1] eqn:El; cbn [fst].
  - set (i := st_exec_detail_index (wb_tx_stats wb)) in *.
    set (wb1 := wb <| wb_tx_stats ::= λ st, st <| st_exec_calls ::= incr |> |>
      <| wb_tx_stats ::= set_detail i (λ d, d <| sd_time := s32 (k_readl STCVR w1).1 |>) |>).
    destruct (tx_move_runs (tx_exec 0) fl i ch c q pr p uc wb1 (k_readl STCVR w1).2)
      as (w' & wb' & c' & q' & Hr & Hq' & Hk & Hcalls & Hmoved); [by destruct Hw; split | done.. |].
    destruct (lookup_lt_is_Some_2 (st_exec_detail (wb_tx_stats wb)) (Z.to_nat i)) as [d Hdi'];
      [lia |].
    exists 0, w', wb', c', q'. split; [| split; [done | split; [| split; [done | split; [done |]]]]].
    + unfold exec_fuel. cbn [tx_exec]. eapply runs_bind; [apply runs_upd_wb |].
      eapply runs_bind; [apply runs_call |]. rewrite El. cbn [fst snd].
      eapply runs_bind; [apply runs_get_wb |]. cbv beta zeta.
      eapply runs_bind; [apply (runs_get_index _ _ d); [apply Hdi | exact Hdi'] |].
      eapply runs_bind; [apply runs_readl |]. eapply runs_bind; [apply runs_upd_wb |]. exact Hr.
    + destruct Hk as [Hk1 Hk2 Hk3 Hk4 Hk5 Hk6 Hk7 Hk8]. split; try done.
      * intros Hw'. apply Hk3. by destruct Hw'; split.
      * intros [Hl' _]. apply Hk4. split; [| exact Hdi]. unfold wb1, set_detail, upd. cbn.
        by rewrite length_alter.
    + exact Hmoved.
  - eexists _, w1, _, c, q. split; [| split; [done | split]].
    { unfold exec_fuel. cbn [tx_exec]. eapply runs_bind; [apply runs_upd_wb |].
    eapply runs_bind; [apply runs_call |]. rewrite El. cbn [fst snd].
    eapply runs_bind; [apply runs_upd_wb |]. rewrite set_chan_id by done. apply runs_ret. }
    { split; try done. intros Hw'. by destruct Hw'; split. }
    by repeat split.
Qed.


(** The ring gives the bytes of a transfer back when the transfer is put in the queue,
    not when it ends.  When the unread bytes reach the end of the array, the room then
    offered to the writer holds all of them but the last word. *)
Lemma tx_room_overlaps again fl i k ch c q pr p uc wb w :
  tx_wired ch wb → chan_at ch c p → in_use c = true → holds_queue c q → (length q < 2)%nat →
  whitebox_debug pr < 1 → (∀ a w1, (k_dma_mapping_error a w1).1 = false) →
  us_wf k (wb_user_source wb) →
  let b := us_buf (wb_user_source wb) in
  let frame := u32 (s32 (whitebox_frame_size pr <<< 2)) in
  let n := Z.min (2 ^ k - cb_tail b) frame in
  cb_head b < cb_tail b → frame mod 4 = 0 → 4 ≤ n →
  ∃ w' wb' c' w1, let src := cb_buf b + cb_tail b in
    runs (tx_move again fl i) (Sys pr p uc wb w) 0 (Sys pr (set_chan ch c' p) uc wb' w') ∧
    holds_queue c' (q ++ [((k_dma_map_single src n DMA_TO_DEVICE w1).1,
      ex_regs (wb_exciter wb) + wer_sample, u16 (n >>> 2))]) ∧
    let '(room, dest) := whitebox_user_source_space_available (wb_user_source wb') in
    dest < src ∧ dest + room = src + n - 4.
Proof.
  intros Hw Hc Hu Hq Hl Hd Hm Hus b frame n Hht Hf4 Hn.
  destruct (tx_move_runs again fl i ch c q pr p uc wb w Hw Hc Hu Hq Hd Hm)
    as (w' & wb' & c' & q' & Hr & Hq' & _ & _ & Hmv).
  unfold tx_moved in Hmv. rewrite (us_data_spec k) in Hmv by done. fold b in Hmv.
  destruct (Nat.ltb_spec (length q) 2); [| lia]. fold frame in Hmv.
  pose proof Hus as [[Hk Hh Ht Hb] Hs Hh4 Ht4]. fold b in Hh, Ht, Hb, Hh4, Ht4.
  assert (ring_len k b = cb_head b - cb_tail b + 2 ^ k) as Hlen.
  { unfold ring_len. rewrite <- (Z.mod_small (_ + 2 ^ k) (2 ^ k)) by lia.
    by rewrite <- (Z_mod_plus_full _ 1), Z.mul_1_l. }
  rewrite Hlen, (Z.min_r (_ + _)) in Hmv by lia. fold n in Hmv.
  assert ((frame >>> 2 =? 0) = false ∧ ((2 ^ k - cb_tail b) >>> 2 =? 0) = false) as [Hf Hdt].
  { rewrite !Z.shiftr_div_pow2 by lia. split; apply Z.eqb_neq; apply Z.neq_sym, Z.lt_neq, Z.div_str_pos; lia. }
  rewrite Hf, Hdt in Hmv. destruct Hmv as (w1 & -> & Hus' & _).
  exists w', wb', c', w1. split; [exact Hr |]. split; [exact Hq' |]. rewrite Hus'.
  assert (n mod 4 = 0) as Hn4.
  { unfold n. destruct (Z.min_spec (2 ^ k - cb_tail b) frame) as [[_ ->] | [_ ->]]; [| done].
    rewrite <- (Z.sub_0_r 0), <- Ht4 at 1. rewrite Zminus_mod, Ht4. replace (2 ^ k) with (4 * 2 ^ (k - 2)).
    - by rewrite Z.mul_comm, Z_mod_mult.
    - rewrite <- (Z.pow_add_r 2 2) by lia. f_equal. lia. }
  rewrite (us_space_spec k) by (apply us_wf_consume; [done | lia]).
  rewrite (us_consume_buf k) by (done || lia). fold b.
  replace (4 * (n / 4)) with n by (pose proof (Z.div_mod n 4 ltac:(lia)); lia).
  destruct (ring_consume k b (λ _, 0) n) as [-> _]; [lia.. |]. cbn [cb_buf cb_head].
  rewrite Hlen. replace (Z.min _ _) with (n - (cb_head b - cb_tail b) - 1) by (cbn; lia).
  pose proof (Z.div_mod (n - (cb_head b - cb_tail b) - 1) 4 ltac:(lia)).
  assert ((n - (cb_head b - cb_tail b) - 1) mod 4 = 3) as Hr3.
  { rewrite Zminus_mod, (Zminus_mod n), Hn4, (Zminus_mod (cb_head b)), Hh4, Ht4. done. }
  split; cbn; lia.
Qed.
(** ** Receive *)

Record rx_wired (ch : Z) (wb : whitebox_device) : Prop := {
  rw_real : rs_receiver (wb_rf_source wb) = Real;
  rw_ops : rv_ops (wb_receiver wb) = Some real_ops;
  rw_ch : u8 (rs_dma_ch (wb_rf_source wb)) = ch;
  rw_ch8 : ch < 8;
  rw_dma : length (rs_dma (wb_rf_source wb)) = 2%nat;
  rw_exciter : rk_exciter (wb_rf_sink wb) = Real;
  rw_exciter_ops : ex_ops (wb_exciter wb) = Some real_ops;
}.

Lemma d_printk_loop_real ch l pr p uc wb w :
  rx_wired ch wb → whitebox_debug pr < l →
  runs (d_printk_loop l) (Sys pr p uc wb w) () (Sys pr p uc wb (states_read wb w)).
Proof. intros []. by apply d_printk_loop_reads. Qed.

(** The data of the radio: a frame, when a DMA slot is free. *)
Lemma source_data_real ch c q pr p uc wb w :
  rx_wired ch wb → chan_at ch c p → in_use c = true → holds_queue c q →
  ∃ w', runs whitebox_rf_source_data_available (Sys pr p uc wb w)
    (if (length q <? 2)%nat then
       (u32 (s32 (whitebox_frame_size pr <<< 2)), Some (rv_regs (wb_receiver wb) + wrr_sample))
     else (0, None))
    (Sys pr (set_chan ch (chan_armed c) p) uc wb w').
Proof.
  intros [Hr Hro Hch Hlt _ _ _] Hc Hu Hq. unfold whitebox_rf_source_data_available, get_rf_source.
  destruct (pdma_buffers_available_runs ch c pr p uc wb w Hlt Hc) as [w' H1].
  unfold op_available in H1. rewrite Hu in H1. cbn [fst snd] in H1.
  rewrite (queue_available c q Hq) in H1.
  exists w'. eapply runs_bind; [apply runs_get_wb |]. cbv beta. rewrite Hch, Hr.
  eapply runs_bind; [exact H1 |].
  destruct (Nat.ltb_spec (length q) 2), (0 <? _) eqn:E; try lia; [| apply runs_ret].
  eapply runs_bind; [eapply runs_receiver_real; [exact Hro |];
    unfold _receiver_data_available, receiver_regs; runs_tac |]. apply runs_ret.
Qed.

Lemma source_work_real ch c buf src src_count dest dest_count pr p uc wb w :
  rx_wired ch wb → chan_at ch c p → starts_in c = Some buf →
  let n := min_size src_count dest_count in
  n >>> 2 ≠ 0 →
  ∃ wb' w', runs (whitebox_rf_source_work src src_count dest dest_count) (Sys pr p uc wb w) 0
      (Sys pr (set_chan ch (op_start src dest (u16 (n >>> 2)) c).2 p) uc wb' w') ∧
    ∃ l, length l = 2%nat ∧ wb' = wb <| wb_rf_source ::= λ s, s <| rs_dma := l |> |>.
Proof.
  intros [_ _ Hch Hlt Hl _ _] Hc Hb n Hn. unfold whitebox_rf_source_work, get_rf_source.
  fold n. destruct (n >>> 2 =? 0) eqn:E; [lia |].
  destruct (pdma_start_runs ch src dest (u16 (n >>> 2)) c pr p uc wb w Hlt Hc)
    as (w' & ? & ? & ? & Hr & _).
  destruct (op_start_slot src dest (u16 (n >>> 2)) c buf Hb) as [Hret Hbuf]. rewrite Hret in Hr.
  destruct (lookup_lt_is_Some_2 (rs_dma (wb_rf_source wb)) (Z.to_nat buf)) as [d Hdm]; [lia |].
  eexists _, w'. split.
  - eapply runs_bind; [apply runs_get_wb |]. rewrite Hch.
    eapply runs_bind; [exact Hr |]. destruct (buf <? 0) eqn:E0; [lia |].
    eapply runs_bind; [| apply runs_ret].
    unfold set_source_count, get_rf_source, upd_rf_source.
    eapply runs_bind; [apply runs_get_wb |].
    eapply runs_bind; [apply (runs_get_index _ _ d); [lia | exact Hdm] |]. apply runs_upd_wb.
  - exists (<[Z.to_nat buf := Build_dma_slot (dm_mapping d) n]> (rs_dma (wb_rf_source wb))).
    by rewrite length_insert.
Qed.

Lemma consume_real ch n pr p uc wb w :
  rx_wired ch wb →
  runs (whitebox_rf_source_consume n) (Sys pr p uc wb w) 0
    (Sys pr p uc (wb <| wb_rf_source ::= λ s, s <| rs_off ::= λ o, s64 (o + n) |> |>) w).
Proof.
  intros [Hr Hro _ _ _ _ _]. unfold whitebox_rf_source_consume, get_rf_source, upd_rf_source.
  eapply runs_bind; [apply runs_get_wb |]. rewrite Hr.
  eapply runs_bind; [apply runs_upd_wb |]. eapply runs_receiver_real; [exact Hro | apply runs_ret].
Qed.

(** What the receive step does once it holds the lock; it never moves the ring. *)
Definition rx_moved (pr : params) (q : list xfer) (wb wb' : whitebox_device) (q' : list xfer)
    : Prop :=
  let data := if (length q <? 2)%nat then u32 (s32 (whitebox_frame_size pr <<< 2)) else 0 in
  let '(room, dest) := whitebox_user_sink_space_available (whitebox_flow_control pr)
    (whitebox_user_sink_buffer_threshold pr) (wb_user_sink wb) in
  let st := wb_rx_stats wb in
  let st' := wb_rx_stats wb' in
  wb_user_sink wb' = wb_user_sink wb ∧ wb_receiver wb' = wb_receiver wb ∧
  if data >>> 2 =? 0 then
    q' = q ∧ st_exec_nop_src st' = incr (st_exec_nop_src st)
  else if room >>> 2 <=? 1 then
    q' = q ∧ st_exec_nop_dest st' = incr (st_exec_nop_dest st)
  else
    ∃ d, dest = Some d ∧
      q' = q ++ [(rv_regs (wb_receiver wb) + wrr_sample, d, u16 (Z.min data room >>> 2))] ∧
      st_exec_dma_start st' = incr (st_exec_dma_start st).

Lemma sink_space_addressed fc th uk room dest :
  whitebox_user_sink_space_available fc th uk = (room, dest) → dest = None → room = 0.
Proof.
  unfold whitebox_user_sink_space_available. destruct (_ && _); intros [= <- <-]; done.
Qed.

Lemma rx_wired_kept ch wb wb' :
  rx_wired ch wb → rs_receiver (wb_rf_source wb') = rs_receiver (wb_rf_source wb) →
  rs_dma_ch (wb_rf_source wb') = rs_dma_ch (wb_rf_source wb) →
  length (rs_dma (wb_rf_source wb')) = 2%nat →
  wb_receiver wb' = wb_receiver wb → wb_exciter wb' = wb_exciter wb →
  wb_rf_sink wb' = wb_rf_sink wb → rx_wired ch wb'.
Proof. intros [] E1 E2 ? E3 E4 E5. split; by rewrite ?E1, ?E2, ?E3, ?E4, ?E5. Qed.

Lemma rx_move_runs again fl i ch c q pr p uc wb w :
  rx_wired ch wb → stats_wf (wb_rx_stats wb) → chan_at ch c p → in_use c = true →
  holds_queue c q → whitebox_debug pr < 1 →
  ∃ w' wb' c' q', runs (rx_move again fl i) (Sys pr p uc wb w) 0
      (Sys pr (set_chan ch c' p) uc wb' w') ∧
    holds_queue c' q' ∧ in_use c' = true ∧ rx_wired ch wb' ∧ stats_wf (wb_rx_stats wb') ∧
    st_exec_calls (wb_rx_stats wb') = st_exec_calls (wb_rx_stats wb) ∧
    rx_moved pr q wb wb' q'.
Proof.
  intros Hw Hst Hc Hu Hq Hd. unfold rx_moved.
  set (data := if (length q <? 2)%nat then _ else _).
  destruct (whitebox_user_sink_space_available _ _ (wb_user_sink wb)) as [room dest] eqn:Ed.
  destruct (source_data_real ch c q pr p uc wb w Hw Hc Hu Hq) as [w1 H1].
  set (source := if (length q <? 2)%nat then _ else _) in H1.
  assert (source.1 = data) as Hdata by (subst source data; by destruct (_ <? _)%nat).
  assert (Hq1 := queue_armed c q Hq). pose proof (holds_queue_length c q Hq) as Hlen.
  set (p1 := set_chan ch (chan_armed c) p) in *.
  pose proof (d_printk_loop_real ch 1 pr p1 uc wb w1 Hw Hd) as H2.
  set (w2 := states_read wb w1) in H2.
  assert (in_use (chan_armed c) = true) as Hu1 by (unfold chan_armed; by destruct (chan_arms c)).
  destruct (data >>> 2 =? 0) eqn:E0; [| destruct (room >>> 2 <=? 1) eqn:E1].
  - eexists _, _, (chan_armed c), q.
    split; [| split; [exact Hq1 | split; [exact Hu1 |]]].
    { unfold rx_move. eapply runs_bind; [exact H1 |]. cbv beta zeta.
      eapply runs_bind; [unfold user_sink_space; runs_tac |]. rewrite Ed.
      eapply runs_bind; [exact H2 |]. cbn [fst snd]. rewrite Hdata, E0.
      eapply runs_bind; [apply runs_upd_wb |].
      eapply runs_bind; [apply runs_spin_unlock_irqrestore | apply runs_ret]. }
    split; [by destruct Hw; split | split; [by destruct Hst | by repeat split]].
  - eexists _, _, (chan_armed c), q.
    split; [| split; [exact Hq1 | split; [exact Hu1 |]]].
    { unfold rx_move. eapply runs_bind; [exact H1 |]. cbv beta zeta.
      eapply runs_bind; [unfold user_sink_space; runs_tac |]. rewrite Ed.
      eapply runs_bind; [exact H2 |]. cbn [fst snd]. rewrite Hdata, E0, E1.
      eapply runs_bind; [apply runs_upd_wb |].
      eapply runs_bind; [apply runs_spin_unlock_irqrestore | apply runs_ret]. }
    split; [by destruct Hw; split | split; [by destruct Hst | by repeat split]].
  - assert (length q < 2)%nat as Hl2.
    { subst data. destruct (Nat.ltb_spec (length q) 2); [done |]. by cbn in E0. }
    destruct dest as [dest |].
    2: { by rewrite (sink_space_addressed _ _ _ _ _ Ed eq_refl) in E1. }
    set (src := rv_regs (wb_receiver wb) + wrr_sample).
    assert (snd source = Some src) as Hsrc.
    { subst source. destruct (Nat.ltb_spec (length q) 2); [done | lia]. }
    destruct (queue_slot (chan_armed c) q Hu1 Hq1 Hl2) as [buf Hbuf].
    set (n := min_size data room).
    assert (n >>> 2 ≠ 0) as Hn by (subst n; unfold min_size; destruct (data <? room); lia).
    destruct (source_work_real ch (chan_armed c) buf src data dest room pr p1 uc wb w2
      Hw (chan_at_set _ _ _ _ Hc) Hbuf Hn) as (wb2 & w3 & H3 & l & Hl & Hwb2). fold n in H3.
    unfold p1 in H3 at 2. rewrite set_chan_set in H3.
    match type of H3 with runs _ _ _ (Sys _ ?p1 _ _ _) => set (p2 := p1) in H3 end.
    assert (rx_wired ch wb2) as Hw2 by (subst wb2; by apply (rx_wired_kept ch wb)).
    set (wb3 := wb2 <| wb_rx_stats ::= λ st, set_detail i (λ d, d <| sd_src := data |>
        <| sd_dest := room |> <| sd_bytes := s32 n |> <| sd_result := 0 |>)
      st <| st_exec_detail_index := (i + 1) &&& (W_EXEC_DETAIL_COUNT - 1) |> |>).
    assert (rx_wired ch wb3) as Hw3 by (apply (rx_wired_kept ch wb2); try done; apply Hw2).
    pose proof (consume_real ch n pr p2 uc wb3 w3 Hw3) as H4.
    eexists _, _, (op_start src dest (u16 (n >>> 2)) (chan_armed c)).2, (q ++ [(src, dest, u16 (n >>> 2))]).
    split; [| split; [| split; [| split; [| split]]]].
    + unfold rx_move. eapply runs_bind; [exact H1 |]. cbv beta zeta.
      eapply runs_bind; [unfold user_sink_space; runs_tac |]. rewrite Ed.
      eapply runs_bind; [exact H2 |]. cbn [fst snd]. rewrite Hdata, E0, E1, Hsrc. fold n.
      eapply runs_bind; [exact H3 |]. eapply runs_bind; [apply runs_upd_wb |]. cbv iota.
      eapply runs_bind; [exact H4 |].
      eapply runs_bind; [eapply runs_bind; [apply runs_upd_wb | apply runs_spin_unlock_irqrestore] |].
      apply runs_ret.
    + unfold op_start. rewrite Hu1. by apply queue_start.
    + unfold op_start, chan_start. rewrite Hu1.
      by destruct (takes_b (chan_armed c)), (takes_a (chan_armed c)).
    + apply (rx_wired_kept ch wb3); try done. apply Hw3.
    + subst wb3 wb2. exact (stats_wf_started _ _ _ Hst).
    + rewrite <- (min_size_min data room). fold n. subst wb3 wb2. do 3 (split; [done |]).
      by exists dest.
Qed.

Lemma rx_exec_runs ch c q pr p uc wb w :
  rx_wired ch wb → stats_wf (wb_rx_stats wb) → chan_at ch c p → in_use c = true →
  holds_queue c q → whitebox_debug pr < 1 →
  ∃ r w' wb' c' q',
    runs (rx_exec exec_fuel) (Sys pr p uc wb w) r (Sys pr (set_chan ch c' p) uc wb' w') ∧
    holds_queue c' q' ∧ in_use c' = true ∧ rx_wired ch wb' ∧ stats_wf (wb_rx_stats wb') ∧
    st_exec_calls (wb_rx_stats wb') = incr (st_exec_calls (wb_rx_stats wb)) ∧
    match (k_spin_trylock_irqsave rf_source_lock (states_read wb w)).1 with
    | None => r = - EBUSY ∧ q' = q ∧ wb_user_sink wb' = wb_user_sink wb ∧
        st_exec_busy (wb_rx_stats wb') = incr (st_exec_busy (wb_rx_stats wb))
    | Some _ => r = 0 ∧ rx_moved pr q wb wb' q'
    end.
Proof.
  intros Hw [Hdl Hdi] Hc Hu Hq Hd.
  pose proof (d_printk_loop_real ch 4 pr p uc wb w Hw ltac:(lia)) as H0.
  set (w0 := states_read wb w) in H0 |- *.
  destruct (k_spin_trylock_irqsave rf_source_lock w0) as [[fl |] w1] eqn:El; cbn [fst].
  - set (i := st_exec_detail_index (wb_rx_stats wb)) in *.
    set (wb1 := wb <| wb_rx_stats ::= λ st, st <| st_exec_calls ::= incr |> |>
      <| wb_rx_stats ::= set_detail i (λ d, d <| sd_time := s32 (k_readl STCVR w1).1 |>) |>).
    assert (stats_wf (wb_rx_stats wb1)) as Hst1
      by (split; unfold wb1, set_detail, upd; cbn; [by rewrite length_alter | done]).
    destruct (rx_move_runs (rx_exec 0) fl i ch c q pr p uc wb1 (k_readl STCVR w1).2)
      as (w' & wb' & c' & q' & Hr & Hq' & Hu' & Hw' & Hst' & Hcalls & Hmoved);
      [by apply (rx_wired_kept ch wb); try done; apply Hw | assumption.. |].
    destruct (lookup_lt_is_Some_2 (st_exec_detail (wb_rx_stats wb)) (Z.to_nat i)) as [d Hdi'];
      [lia |].
    exists 0, w', wb', c', q'.
    split; [| exact (conj Hq' (conj Hu' (conj Hw' (conj Hst' (conj Hcalls (conj eq_refl Hmoved))))))].
    unfold exec_fuel. cbn [rx_exec]. eapply runs_bind; [exact H0 |].
    eapply runs_bind; [apply runs_upd_wb |].
    eapply runs_bind; [apply runs_call |]. rewrite El. cbn [fst snd].
    eapply runs_bind; [apply runs_get_wb |]. cbv beta zeta.
    eapply runs_bind; [apply (runs_get_index _ _ d); [apply Hdi | exact Hdi'] |].
    eapply runs_bind; [apply runs_readl |]. eapply runs_bind; [apply runs_upd_wb |]. exact Hr.
  - eexists _, w1, _, c, q. split; [| split; [done | split; [done | split]]].
    { unfold exec_fuel. cbn [rx_exec]. eapply runs_bind; [exact H0 |].
      eapply runs_bind; [apply runs_upd_wb |].
      eapply runs_bind; [apply runs_call |]. rewrite El. cbn [fst snd].
      eapply runs_bind; [apply runs_upd_wb |]. rewrite set_chan_id by done. apply runs_ret. }
    + apply (rx_wired_kept ch wb); try done. apply Hw.
    + split; [by split | by repeat split].
Qed.

Lemma words_some x : 4 ≤ x → (x >>> 2 =? 0) = false.
Proof.
  intros. apply Z.eqb_neq. rewrite Z.shiftr_div_pow2 by lia. change (2 ^ 2) with 4.
  pose proof (words_bound x). lia.
Qed.
Lemma words_two x : 8 ≤ x → (x >>> 2 <=? 1) = false.
Proof.
  intros. apply Z.leb_gt. rewrite Z.shiftr_div_pow2 by lia. change (2 ^ 2) with 4.
  pose proof (words_bound x). lia.
Qed.
Lemma words_u16 x : 0 ≤ x < 2 ^ 18 → u16 (x >>> 2) = x / 4.
Proof.
  intros. rewrite Z.shiftr_div_pow2 by lia. change (2 ^ 2) with 4. apply u16_small.
  pose proof (words_bound x). lia.
Qed.


(** The two steps with which reception begins program the same transfer twice:
    the second DMA buffer is given the destination of the first, since the ring is
    advanced only on completion.  With one frame of room in the ring, both point at
    its write index. *)
Lemma rx_ping_pong_overlap k ch c pr p uc wb w :
  rx_wired ch wb → stats_wf (wb_rx_stats wb) → chan_at ch c p → in_use c = true →
  holds_queue c [] → whitebox_debug pr < 1 →
  (∀ w1, is_Some (k_spin_trylock_irqsave rf_source_lock w1).1) →
  uk_wf k (wb_user_sink wb) → nz (whitebox_flow_control pr) = false →
  let uk := wb_user_sink wb in
  let frame := u32 (s32 (whitebox_frame_size pr <<< 2)) in
  4 ≤ frame < 2 ^ 18 →
  frame ≤ Z.min (2 ^ k - 1 - ring_len k (uk_buf uk)) (2 ^ k - cb_head (uk_buf uk)) →
  8 ≤ Z.min (2 ^ k - 1 - ring_len k (uk_buf uk)) (2 ^ k - cb_head (uk_buf uk)) →
  let t := (rv_regs (wb_receiver wb) + wrr_sample, cb_buf (uk_buf uk) + cb_head (uk_buf uk),
            frame / 4) in
  ∃ w' wb' c', runs (_ ← rx_exec exec_fuel; rx_exec exec_fuel) (Sys pr p uc wb w) 0
      (Sys pr (set_chan ch c' p) uc wb' w') ∧ holds_queue c' [t; t].
Proof.
  intros Hw Hst Hc Hu Hq Hd Hfree Huk Hfc uk frame Hf Hroom Hroom8 t.
  pose proof (uk_space_spec k (whitebox_flow_control pr)
    (whitebox_user_sink_buffer_threshold pr) uk Huk) as Hsp. rewrite Hfc in Hsp. cbn [andb] in Hsp.
  set (room := Z.min _ _) in *.
  destruct (rx_exec_runs ch c [] pr p uc wb w Hw Hst Hc Hu Hq Hd)
    as (r1 & w2 & wb1 & c1 & q1 & R1 & Hq1 & Hu1 & Hw1 & Hst1 & _ & M1).
  destruct (Hfree (states_read wb w)) as [fl1 E1]. rewrite E1 in M1. destruct M1 as [-> M1].
  unfold rx_moved in M1. fold uk in M1. rewrite Hsp in M1. destruct M1 as (Huk1 & Hrv1 & M1).
  pose proof (chan_at_set ch c c1 p Hc) as Hc1.
  destruct (rx_exec_runs ch c1 q1 pr (set_chan ch c1 p) uc wb1 w2 Hw1 Hst1 Hc1 Hu1 Hq1 Hd)
    as (r2 & w4 & wb2 & c2 & q2 & R2 & Hq2 & _ & _ & _ & _ & M2).
  destruct (Hfree (states_read wb1 w2)) as [fl3 E3]. rewrite E3 in M2. destruct M2 as [-> M2].
  unfold rx_moved in M2. rewrite Huk1, Hrv1 in M2. fold uk in M2. rewrite Hsp in M2.
  destruct M2 as (_ & _ & M2).
  rewrite set_chan_set in R2. exists w4, wb2, c2. split; [by eapply runs_bind |].
  assert (u16 (Z.min frame room >>> 2) = frame / 4) as Hn
    by (rewrite Z.min_l by exact Hroom; apply words_u16; lia).
  pose proof (words_some frame (proj1 Hf)) as Hf4. pose proof (words_two room Hroom8) as Hr4.
  cbn [length Nat.ltb Nat.leb] in M1. fold frame in M1. rewrite Hf4, Hr4 in M1.
  destruct M1 as (d1 & [= <-] & -> & _).
  cbn [length Nat.ltb Nat.leb app] in M2. fold frame in M2. rewrite Hf4, Hr4 in M2.
  destruct M2 as (d2 & [= <-] & -> & _).
  rewrite Hn in Hq2. exact Hq2.
Qed.
End paths.

(** ** Witnesses *)

#[local] Existing Instance circ_macros.

Definition owned_pdma : pdma_device_t := dev_with owned0.
Definition tx_device : whitebox_device := sim_device <| wb_user_source := us12 8 0 |>.

Definition rx_device : whitebox_device := sim_device <| wb_user_sink := uk12 0 0 |>.

Lemma rx_ping_pong_overlap_witness : ∃ w' wb' c',
  @runs (sys sim) Z (_ ← rx_exec (Kernel0 := unlocked_kernel) exec_fuel;
                     rx_exec (Kernel0 := unlocked_kernel) exec_fuel)
    (Sys sim_params owned_pdma 1 rx_device sim0) 0
    (Sys sim_params (set_chan 0 c' owned_pdma) 1 wb' w') ∧
  holds_queue c' [(0x40050500, cb_buf (uk_buf (uk12 0 0)), 128);
                  (0x40050500, cb_buf (uk_buf (uk12 0 0)), 128)].
Proof.
  destruct (rx_ping_pong_overlap (Kernel0 := unlocked_kernel) 12 0 owned0 sim_params owned_pdma 1
    rx_device sim0) as (w' & wb' & c' & Hr & Hq).
  - by split.
  - by split.
  - apply dev_with_at.
  - done.
  - by repeat split; left.
  - done.
  - intros w1. by eexists.
  - by apply uk12_wf.
  - done.
  - done.
  - done.
  - done.
  - exists w', wb', c'. split; [exact Hr | exact Hq].
Defined.
