(* ===== verification/FaultSpec.v ===== *)
(** * Faults of the radio, and when transmission stops

    What [tx_error] and [rx_error] report: the lock of the synthesizers and the run
    counters of the radio, compared with those seen last. *)

From stdpp Require Import gmap.
From S2P Require Import Prelude Kernel State Sim Pdma PdmaSpec UserRing Gpio Exciter Receiver.
From S2P Require Import RfBlocks TxRx TxRxSpec.

(** ** Reading pins and registers changes only the world *)

Section worldly.
Context {W : Type} `{!Kernel W}.

Definition worldly {A} (m : M (sys W) A) : Prop := ∀ pr p uc wb w, ∃ a w',
  runs m (Sys pr p uc wb w) a (Sys pr p uc wb w').

Lemma worldly_ret {A} (a : A) : worldly (mret a).
Proof. intros pr p uc wb w. exists a, w. apply runs_ret. Qed.
Lemma worldly_bind {A B} (m : M (sys W) A) (f : A → M (sys W) B) :
  worldly m → (∀ a, worldly (f a)) → worldly (m ≫= f).
Proof.
  intros Hm Hf pr p uc wb w. destruct (Hm pr p uc wb w) as (a & w1 & H1).
  destruct (Hf a pr p uc wb w1) as (b & w2 & H2). exists b, w2. by eapply runs_bind.
Qed.
Lemma worldly_call {A} (f : W → A * W) : worldly (call f).
Proof. intros pr p uc wb w. eexists _, _. apply runs_call. Qed.
Lemma worldly_call_ (f : W → W) : worldly (call_ f).
Proof. intros pr p uc wb w. eexists _, _. apply runs_call_. Qed.
Lemma worldly_for_loop n i body : (∀ j, worldly (body j)) → worldly (for_loop n i body).
Proof.
  intros Hb. revert i. induction n as [|n IH]; intros i; [apply worldly_ret |].
  apply worldly_bind; [apply Hb | intros; apply IH].
Qed.
End worldly.

Ltac worldly_tac := cbv beta zeta iota;
  lazymatch goal with
  | |- worldly (mbind _ _) => apply worldly_bind; [worldly_tac | intros; worldly_tac]
  | |- worldly (mret _) => apply worldly_ret
  | |- worldly (call _) => apply worldly_call
  | |- worldly (call_ _) => apply worldly_call_
  | |- worldly (for_loop _ _ _) => apply worldly_for_loop; intros; worldly_tac
  | |- worldly (cmx991_rd_bits _ _ _) => auto
  | |- worldly ?m => let h := code_head m in unfold h; worldly_tac
  end.

Section pins.
Context {W : Type} `{!Kernel W}.

Lemma worldly_rd_bits pd n acc : worldly (W := W) (cmx991_rd_bits pd n acc).
Proof. revert acc. induction n as [|n IH]; intros acc; cbn [cmx991_rd_bits]; worldly_tac. Qed.
Lemma worldly_cmx991_read pd a : worldly (W := W) (whitebox_gpio_cmx991_read pd a).
Proof. pose proof worldly_rd_bits. worldly_tac. Qed.
End pins.

(** ** The run counters *)

(** The two halves of a word. *)
Definition low_half (x : Z) : Z := x mod 2 ^ 16.
Definition high_half (x : Z) : Z := (x / 2 ^ 16) mod 2 ^ 16.

Lemma mask_low x : u16 (x &&& WRR_UNDERRUNS_MASK) = low_half x.
Proof.
  change WRR_UNDERRUNS_MASK with (2 ^ 16 - 1). rewrite land_ones_low by lia.
  unfold u16, low_half. by rewrite Zmod_mod.
Qed.
Lemma mask_high x : u16 ((x &&& WRR_OVERRUNS_MASK) >>> WRR_OVERRUNS_OFFSET) = high_half x.
Proof.
  unfold WRR_OVERRUNS_OFFSET. rewrite Z.shiftr_land. change (WRR_OVERRUNS_MASK >>> 16) with (2 ^ 16 - 1).
  rewrite land_ones_low, Z.shiftr_div_pow2 by lia. unfold u16, high_half. by rewrite Zmod_mod.
Qed.

Section faults.
Context {W : Type} `{!Kernel W} `{!CircMacros}.
Implicit Types (w : W).

(** The exciter's halves are exchanged with respect to the receiver's, and to the
    names of the masks. *)
Lemma exciter_get_runs_runs e pr p uc wb w :
  is_Some (ex_ops (exciter_of wb e)) →
  let r := k_readl (ex_regs (exciter_of wb e) + wer_runs) w in
  runs (exciter_get_runs e) (Sys pr p uc wb w) (low_half r.1, high_half r.1) (Sys pr p uc wb r.2).
Proof.
  intros [ops Ho] r. unfold exciter_get_runs, exciter_call.
  eapply runs_bind; [apply runs_get_wb |]. rewrite Ho.
  assert (runs (_exciter_get_runs e) (Sys pr p uc wb w) (low_half r.1, high_half r.1)
    (Sys pr p uc wb r.2)) by (rewrite <- mask_low, <- mask_high; reflexivity).
  by destruct ops.
Qed.
Lemma receiver_get_runs_runs e pr p uc wb w :
  is_Some (rv_ops (receiver_of wb e)) →
  let r := k_readl (rv_regs (receiver_of wb e) + wrr_runs) w in
  runs (receiver_get_runs e) (Sys pr p uc wb w) (high_half r.1, low_half r.1) (Sys pr p uc wb r.2).
Proof.
  intros [ops Ho] r. unfold receiver_get_runs, receiver_call.
  eapply runs_bind; [apply runs_get_wb |]. rewrite Ho.
  assert (runs (_receiver_get_runs e) (Sys pr p uc wb w) (high_half r.1, low_half r.1)
    (Sys pr p uc wb r.2)) by (rewrite <- mask_low, <- mask_high; reflexivity).
  by destruct ops.
Qed.

(** ** What is reported *)

(** The outcome [r] of an error check that leaves the device [wb'], when the lock is
    [locked] and the radio's counters are now [over] and [under], the last ones seen
    being in [wb]; [under_code] is the code of an underrun. *)
Record reported (under_code : Z) (pr : params) (locked : bool) (over under : Z)
    (upd_stats : (whitebox_stats → whitebox_stats) → whitebox_device → whitebox_device)
    (wb wb' : whitebox_device) (r : Z) : Prop := {
  rep_lock : r = W_ERROR_PLL_LOCK_LOST ↔ whitebox_check_plls pr ≠ 0 ∧ locked = false;
  rep_runs : r ≠ 0 ∧ r ≠ W_ERROR_PLL_LOCK_LOST ↔
    (whitebox_check_plls pr = 0 ∨ locked = true) ∧ whitebox_check_runs pr ≠ 0 ∧
    (over ≠ wb_cur_overruns wb ∨ under ≠ wb_cur_underruns wb);
  rep_code : r ≠ 0 → r ≠ W_ERROR_PLL_LOCK_LOST →
    r = if decide (over = wb_cur_overruns wb) then under_code else W_ERROR_TX_OVERRUN;
  rep_device : wb' =
    let run := bool_decide (r ≠ 0 ∧ r ≠ W_ERROR_PLL_LOCK_LOST) in
    let ran_over := bool_decide (over ≠ wb_cur_overruns wb) in
    upd_stats (if decide (r = 0) then id else
        λ st, st <| st_error ::= incr |> <| st_last_error := r |>)
      (wb <| wb_cur_overruns := if run && ran_over then over else wb_cur_overruns wb |>
          <| wb_cur_underruns := if run && negb ran_over then under else wb_cur_underruns wb |>);
}.
Definition tx_stats_upd f (wb : whitebox_device) := wb <| wb_tx_stats ::= f |>.
Definition rx_stats_upd f (wb : whitebox_device) := wb <| wb_rx_stats ::= f |>.

(** The world in which the counters are read: after the lock, when it is checked. *)
Definition after_lock (pr : params) (pd : whitebox_platform_data_t) (w0 w1 : W) : W :=
  if nz (whitebox_check_plls pr) then (k_gpio_get_value (vco_ld_pin pd) w1).2 else w0.

Lemma nz_true x : nz x = true ↔ x ≠ 0.
Proof. unfold nz. destruct (x =? 0) eqn:E; split; intros; try done; lia. Qed.
Lemma nz_false x : nz x = false ↔ x = 0.
Proof. unfold nz. destruct (x =? 0) eqn:E; split; intros; try done; lia. Qed.

(** The three ways a check ends. *)
Lemma reported_lock uc pr over under f wb :
  whitebox_check_plls pr ≠ 0 →
  (∀ g wb, f g wb = f g (wb <| wb_cur_overruns := wb_cur_overruns wb |>
    <| wb_cur_underruns := wb_cur_underruns wb |>)) →
  reported uc pr false over under f wb
    (f (λ st, st <| st_error ::= incr |> <| st_last_error := W_ERROR_PLL_LOCK_LOST |>) wb)
    W_ERROR_PLL_LOCK_LOST.
Proof.
  intros Hc Hf. split.
  - by split.
  - split; [by intros [_ ?] | intros [[? | ?] _]; done].
  - by intros _ ?.
  - cbv zeta. rewrite (bool_decide_false (_ ∧ _)) by by intros [_ ?]. apply Hf.
Qed.
Lemma reported_run uc pr (locked : bool) over under f wb :
  (whitebox_check_plls pr = 0 ∨ locked = true) → whitebox_check_runs pr ≠ 0 →
  uc ≠ 0 → uc ≠ W_ERROR_PLL_LOCK_LOST →
  (over ≠ wb_cur_overruns wb ∨ under ≠ wb_cur_underruns wb) →
  let ran_over := bool_decide (over ≠ wb_cur_overruns wb) in
  let r := if ran_over then W_ERROR_TX_OVERRUN else uc in
  reported uc pr locked over under f wb
    (f (λ st, st <| st_error ::= incr |> <| st_last_error := r |>)
      (wb <| wb_cur_overruns := if ran_over then over else wb_cur_overruns wb |>
        <| wb_cur_underruns := if negb ran_over then under else wb_cur_underruns wb |>)) r.
Proof.
  intros Hl Hc H0 H1 Hd ran_over r.
  assert (r ≠ 0 ∧ r ≠ W_ERROR_PLL_LOCK_LOST) as [Hr0 Hr1].
  { unfold r. destruct ran_over; done. }
  split.
  - split; [done |]. intros [? ->]. by destruct Hl.
  - by split.
  - intros _ _. unfold r, ran_over. by destruct (decide _), (bool_decide_reflect (over ≠ wb_cur_overruns wb)).
  - cbv zeta. rewrite (bool_decide_true (_ ∧ _)) by done. by rewrite decide_False.
Qed.
Lemma reported_none uc pr (locked : bool) over under f wb :
  (whitebox_check_plls pr = 0 ∨ locked = true) →
  (whitebox_check_runs pr = 0 ∨ (over = wb_cur_overruns wb ∧ under = wb_cur_underruns wb)) →
  f id (wb <| wb_cur_overruns := wb_cur_overruns wb |>
    <| wb_cur_underruns := wb_cur_underruns wb |>) = wb →
  reported uc pr locked over under f wb wb 0.
Proof.
  intros Hl Hc Hf. split.
  - split; [done |]. intros [? ->]. by destruct Hl.
  - split; [by intros [? _] |]. intros (_ & ? & ?). exfalso. destruct Hc as [? | [? ?]]; [done |].
    by destruct H1.
  - done.
  - cbv zeta. rewrite (bool_decide_false (_ ∧ _)) by by intros [? _].
    by rewrite decide_True.
Qed.

(** [stats->error++; stats->last_error = e; return e]. *)
Lemma tx_fault_runs e pr p uc wb w :
  runs (tx_fault e) (Sys pr p uc wb w) e (Sys pr p uc
    (tx_stats_upd (λ st, st <| st_error ::= incr |> <| st_last_error := e |>) wb) w).
Proof. done. Qed.
Lemma rx_fault_runs e pr p uc wb w :
  runs (rx_fault e) (Sys pr p uc wb w) e (Sys pr p uc
    (rx_stats_upd (λ st, st <| st_error ::= incr |> <| st_last_error := e |>) wb) w).
Proof. done. Qed.
Lemma stats_upd_same wb :
  tx_stats_upd id (wb <| wb_cur_overruns := wb_cur_overruns wb |>
    <| wb_cur_underruns := wb_cur_underruns wb |>) = wb ∧
  rx_stats_upd id (wb <| wb_cur_overruns := wb_cur_overruns wb |>
    <| wb_cur_underruns := wb_cur_underruns wb |>) = wb.
Proof. by destruct wb. Qed.

(** Both checks of the counters have one shape. *)
Definition compare_runs (counters : M (sys W) (Z * Z)) (fault : Z → M (sys W) Z) (under_code : Z)
    : M (sys W) Z :=
  check_runs ← param whitebox_check_runs;
  if nz check_runs then
    runs ← counters;
    cur_overruns ← get_wb wb_cur_overruns;
    if negb (cur_overruns =? fst runs) then
      upd_wb (λ wb, wb <| wb_cur_overruns := fst runs |>);;
      fault W_ERROR_TX_OVERRUN
    else
      cur_underruns ← get_wb wb_cur_underruns;
      if negb (cur_underruns =? snd runs) then
        upd_wb (λ wb, wb <| wb_cur_underruns := snd runs |>);;
        fault under_code
      else mret 0
  else mret 0.

Lemma compare_runs_reports counters fault uc f over under pr p uc' wb w w1 locked :
  runs counters (Sys pr p uc' wb w) (over, under) (Sys pr p uc' wb w1) →
  (∀ e wb w, runs (fault e) (Sys pr p uc' wb w) e (Sys pr p uc'
    (f (λ st, st <| st_error ::= incr |> <| st_last_error := e |>) wb) w)) →
  f id (wb <| wb_cur_overruns := wb_cur_overruns wb |>
    <| wb_cur_underruns := wb_cur_underruns wb |>) = wb →
  uc ≠ 0 → uc ≠ W_ERROR_PLL_LOCK_LOST → (whitebox_check_plls pr = 0 ∨ locked = true) →
  ∃ r wb' w', runs (compare_runs counters fault uc) (Sys pr p uc' wb w) r (Sys pr p uc' wb' w') ∧
    reported uc pr locked over under f wb wb' r.
Proof.
  intros Hr Hf Hid H0 H1 Hl. destruct (nz (whitebox_check_runs pr)) eqn:Hn.
  2: { exists 0, wb, w. split.
    - eapply runs_bind; [apply runs_param |]. by rewrite Hn.
    - apply reported_none; [done | left; by apply nz_false | done]. }
  apply nz_true in Hn as Hn'.
  destruct (decide (over = wb_cur_overruns wb)) as [E1 |E1].
  - destruct (decide (under = wb_cur_underruns wb)) as [E2 |E2].
    + exists 0, wb, w1. split; [| apply reported_none; [done | by right | done]].
      eapply runs_bind; [apply runs_param |]. rewrite Hn. eapply runs_bind; [exact Hr |].
      cbn [fst snd]. eapply runs_bind; [apply runs_get_wb |]. rewrite E1, Z.eqb_refl. cbn [negb].
      eapply runs_bind; [apply runs_get_wb |]. by rewrite E2, Z.eqb_refl.
    + eexists _, _, _. split; [| apply reported_run; [done | done | done | done | by right]].
      rewrite (bool_decide_false (_ ≠ _)) by (intros []; done).
      eapply runs_bind; [apply runs_param |]. rewrite Hn. eapply runs_bind; [exact Hr |].
      cbn [fst snd]. eapply runs_bind; [apply runs_get_wb |]. rewrite E1, Z.eqb_refl. cbn [negb].
      eapply runs_bind; [apply runs_get_wb |].
      assert ((wb_cur_underruns wb =? under) = false) as -> by lia. cbn [negb].
      eapply runs_bind; [apply runs_upd_wb |]. apply Hf.
  - eexists _, _, _. split; [| apply reported_run; [done | done | done | done | by left]].
    rewrite (bool_decide_true (_ ≠ _)) by done.
    eapply runs_bind; [apply runs_param |]. rewrite Hn. eapply runs_bind; [exact Hr |].
    cbn [fst snd]. eapply runs_bind; [apply runs_get_wb |].
    assert ((wb_cur_overruns wb =? over) = false) as -> by lia. cbn [negb].
    eapply runs_bind; [apply runs_upd_wb |]. apply Hf.
Qed.

Lemma tx_check_runs_reports pr p uc wb w locked :
  let e := rk_exciter (wb_rf_sink wb) in
  let word := (k_readl (ex_regs (exciter_of wb e) + wer_runs) w).1 in
  is_Some (ex_ops (exciter_of wb e)) → (whitebox_check_plls pr = 0 ∨ locked = true) →
  ∃ r wb' w', runs tx_check_runs (Sys pr p uc wb w) r (Sys pr p uc wb' w') ∧
    reported W_ERROR_TX_UNDERRUN pr locked (low_half word) (high_half word) tx_stats_upd wb wb' r.
Proof.
  intros e word Ho Hl.
  refine (compare_runs_reports (e ← get_wb (λ wb, rk_exciter (wb_rf_sink wb)); exciter_get_runs e)
    tx_fault W_ERROR_TX_UNDERRUN tx_stats_upd (low_half word) (high_half word) pr p uc wb w
    (k_readl (ex_regs (exciter_of wb e) + wer_runs) w).2 locked _ _ _ _ _ Hl); try done.
  - eapply runs_bind; [apply runs_get_wb |]. by apply exciter_get_runs_runs.
  - apply stats_upd_same.
Qed.
Lemma rx_check_runs_reports pr p uc wb w locked :
  let e := rs_receiver (wb_rf_source wb) in
  let word := (k_readl (rv_regs (receiver_of wb e) + wrr_runs) w).1 in
  is_Some (rv_ops (receiver_of wb e)) → (whitebox_check_plls pr = 0 ∨ locked = true) →
  ∃ r wb' w', runs rx_check_runs (Sys pr p uc wb w) r (Sys pr p uc wb' w') ∧
    reported W_ERROR_RX_OVERRUN pr locked (high_half word) (low_half word) rx_stats_upd wb wb' r.
Proof.
  intros e word Ho Hl.
  refine (compare_runs_reports (e ← get_wb (λ wb, rs_receiver (wb_rf_source wb)); receiver_get_runs e)
    rx_fault W_ERROR_RX_OVERRUN rx_stats_upd (high_half word) (low_half word) pr p uc wb w
    (k_readl (rv_regs (receiver_of wb e) + wrr_runs) w).2 locked _ _ _ _ _ Hl); try done.
  - eapply runs_bind; [apply runs_get_wb |]. by apply receiver_get_runs_runs.
  - apply stats_upd_same.
Qed.

(** ** Properties *)

(** The radio is checked after a read of the transceiver, which takes the world from
    [w] to [w1] and gives [c]. *)
Definition transceiver_read (pr : params) (p : pdma_device_t) (uc : Z) (wb : whitebox_device)
    (w : W) (c : Z) (w1 : W) : Prop :=
  runs (whitebox_gpio_cmx991_read (wb_platform_data wb) WHITEBOX_CMX991_LD_REG)
    (Sys pr p uc wb w) c (Sys pr p uc wb w1).
Definition vco_level (wb : whitebox_device) (w : W) : Z :=
  (k_gpio_get_value (vco_ld_pin (wb_platform_data wb)) w).1.

(** C36: what [tx_error] reports.  When locks are checked and the VCO is unlocked: a
    lost lock.  Else, when runs are checked and the exciter's counter of overruns, or
    then of underruns, differs from the last one seen: an overrun, or an underrun, and
    the new count is remembered, so that it is reported once.  Else nothing.  Each
    error is counted in the statistics and remembered as the last one; nothing else of
    the device changes.  The overruns are taken from the low half of the register. *)
Theorem tx_error_reports pr p uc wb w :
  let e := rk_exciter (wb_rf_sink wb) in
  is_Some (ex_ops (exciter_of wb e)) →
  ∃ c w1, transceiver_read pr p uc wb w c w1 ∧
    let word := (k_readl (ex_regs (exciter_of wb e) + wer_runs)
      (after_lock pr (wb_platform_data wb) w w1)).1 in
    ∃ r wb' w', runs tx_error (Sys pr p uc wb w) r (Sys pr p uc wb' w') ∧
      reported W_ERROR_TX_UNDERRUN pr (nz (vco_level wb w1)) (low_half word) (high_half word)
        tx_stats_upd wb wb' r.
Proof.
  intros e Ho. destruct (worldly_cmx991_read (wb_platform_data wb) WHITEBOX_CMX991_LD_REG pr p uc wb w)
    as (c & w1 & Hc). exists c, w1. split; [done |]. unfold after_lock.
  destruct (nz (whitebox_check_plls pr)) eqn:Hn; cbv zeta.
  - destruct (nz (vco_level wb w1)) eqn:Hv.
    + destruct (tx_check_runs_reports pr p uc wb (k_gpio_get_value (vco_ld_pin (wb_platform_data wb)) w1).2
        true Ho) as (r & wb' & w' & Hr & Hp); [by right |].
      exists r, wb', w'. split; [| exact Hp].
      eapply runs_bind; [apply runs_param |]. rewrite Hn. eapply runs_bind; [apply runs_get_wb |].
      eapply runs_bind; [exact Hc |]. eapply runs_bind; [apply runs_call |].
      fold (vco_level wb w1). by rewrite Hv.
    + eexists _, _, _. split; [| apply reported_lock; [by apply nz_true | by intros; destruct wb0]].
      eapply runs_bind; [apply runs_param |]. rewrite Hn. eapply runs_bind; [apply runs_get_wb |].
      eapply runs_bind; [exact Hc |]. eapply runs_bind; [apply runs_call |].
      fold (vco_level wb w1). rewrite Hv. apply tx_fault_runs.
  - apply nz_false in Hn as Hn'.
    destruct (tx_check_runs_reports pr p uc wb w (nz (vco_level wb w1)) Ho) as (r & wb' & w' & Hr & Hp);
      [by left |].
    exists r, wb', w'. split; [| exact Hp]. eapply runs_bind; [apply runs_param |]. by rewrite Hn.
Qed.

(** C37: what [rx_error] reports: as [tx_error], except that both the VCO and the
    transceiver must be locked, that the overruns are taken from the high half of the
    register, and that an underrun is reported with the code of an overrun: the code
    [W_ERROR_RX_UNDERRUN] is never returned. *)
Theorem rx_error_reports pr p uc wb w :
  let e := rs_receiver (wb_rf_source wb) in
  is_Some (rv_ops (receiver_of wb e)) →
  ∃ c w1, transceiver_read pr p uc wb w c w1 ∧
    let word := (k_readl (rv_regs (receiver_of wb e) + wrr_runs)
      (after_lock pr (wb_platform_data wb) w w1)).1 in
    let locked := nz (vco_level wb w1) && nz (c &&& WHITEBOX_CMX991_LD_MASK) in
    ∃ r wb' w', runs rx_error (Sys pr p uc wb w) r (Sys pr p uc wb' w') ∧
      reported W_ERROR_RX_OVERRUN pr locked (high_half word) (low_half word) rx_stats_upd wb wb' r ∧
      r ≠ W_ERROR_RX_UNDERRUN.
Proof.
  intros e Ho. destruct (worldly_cmx991_read (wb_platform_data wb) WHITEBOX_CMX991_LD_REG pr p uc wb w)
    as (c & w1 & Hc). exists c, w1. split; [done |]. unfold after_lock. cbv zeta.
  set (locked := nz (vco_level wb w1) && _).
  assert (∀ over under wb' r, reported W_ERROR_RX_OVERRUN pr locked over under rx_stats_upd wb wb' r →
    r ≠ W_ERROR_RX_UNDERRUN) as Hne.
  { intros over under wb' r Hp ->. pose proof (rep_code _ _ _ _ _ _ _ _ _ Hp) as Hr.
    destruct (decide _); by discriminate Hr. }
  destruct (nz (whitebox_check_plls pr)) eqn:Hn.
  - destruct locked eqn:Hv; unfold locked in Hv.
    + destruct (rx_check_runs_reports pr p uc wb (k_gpio_get_value (vco_ld_pin (wb_platform_data wb)) w1).2
        true Ho) as (r & wb' & w' & Hr & Hp); [by right |].
      exists r, wb', w'. split; [| split; [exact Hp | by eapply Hne]].
      eapply runs_bind; [apply runs_param |]. rewrite Hn. eapply runs_bind; [apply runs_get_wb |].
      eapply runs_bind; [exact Hc |]. eapply runs_bind; [apply runs_call |].
      fold (vco_level wb w1). cbv zeta. by rewrite Hv.
    + eexists _, _, _.
      split; [| split; [apply reported_lock; [by apply nz_true | by intros; destruct wb0] | done]].
      eapply runs_bind; [apply runs_param |]. rewrite Hn. eapply runs_bind; [apply runs_get_wb |].
      eapply runs_bind; [exact Hc |]. eapply runs_bind; [apply runs_call |].
      fold (vco_level wb w1). cbv zeta. rewrite Hv. apply rx_fault_runs.
  - apply nz_false in Hn as Hn'.
    destruct (rx_check_runs_reports pr p uc wb w locked Ho) as (r & wb' & w' & Hr & Hp); [by left |].
    exists r, wb', w'. split; [| split; [exact Hp | by eapply Hne]].
    eapply runs_bind; [apply runs_param |]. by rewrite Hn.
Qed.

(** C38: transmission is stopped only when it has drained.  While the channel still
    holds a transfer [tx_stop] gives -1 and does nothing but look at the channel; with
    none pending it gives 0, having added the stop bit to the state word of the
    exciter.  Either way the attempt is counted and the pending transfers stay. *)
Theorem tx_stop_waits ch c q pr p uc wb w :
  tx_wired ch wb → tx_dma_ch (wb_platform_data wb) = ch → chan_at ch c p → in_use c →
  holds_queue c q →
  let wb' := wb <| wb_tx_stats ::= λ st, st <| st_stop ::= incr |> |> in
  let state := ex_regs (wb_exciter wb) + wer_state in
  ∃ c' w1, holds_queue c' q ∧
    runs (pdma_buffers_available ch) (Sys pr p uc wb' w) (2 - Z.of_nat (length q))
      (Sys pr (set_chan ch c' p) uc wb' w1) ∧
    runs tx_stop (Sys pr p uc wb w) (if decide (q = []) then 0 else -1)
      (Sys pr (set_chan ch c' p) uc wb' (if decide (q = []) then
         k_writel state ((k_readl state w1).1 ||| WES_TXSTOP) (k_readl state w1).2 else w1)).
Proof.
  intros [He Ho _ Hlt _] <- Hc Hu Hq wb' state.
  destruct (pdma_buffers_available_runs _ c pr p uc wb' w Hlt Hc) as [w1 Hr].
  unfold op_available in Hr. apply Is_true_true in Hu. rewrite Hu in Hr. cbn [fst snd] in Hr.
  erewrite queue_available in Hr by done.
  exists (chan_armed c), w1. split; [by apply queue_armed |]. split; [exact Hr |].
  unfold tx_stop. eapply runs_bind; [apply runs_upd_wb |]. fold (tx_stats_upd) wb'.
  eapply runs_bind; [apply runs_get_wb |].
  eapply runs_bind; [exact Hr |]. destruct (decide (q = [])) as [-> |Hne].
  - eapply runs_bind; [apply runs_get_wb |].
    rewrite (He : rk_exciter (wb_rf_sink wb') = Real).
    eapply runs_bind; [| apply runs_ret]. eapply runs_exciter_real; [exact Ho |].
    unfold _exciter_set_state, exciter_regs. eapply runs_bind; [apply runs_get_wb |]. apply runs_reg_or.
  - assert ((2 - Z.of_nat (length q) <? 2) = true) as ->; [| apply runs_ret].
    destruct q; [done |]. apply Z.ltb_lt. cbn [length]. lia.
Qed.
End faults.

(** ** Witnesses *)

#[local] Existing Instance circ_macros.

(** A VCO whose lock pin is low; counters that moved. *)
Definition checking : params :=
  sim_params <| whitebox_check_plls := 1 |> <| whitebox_check_runs := 1 |>.
Lemma tx_error_reports_witness : ∃ wb' (w' : sim),
  runs tx_error (Sys checking zero_pdma 1 sim_device sim0) W_ERROR_PLL_LOCK_LOST
    (Sys checking zero_pdma 1 wb' w') ∧
  wb_tx_stats wb' = zero_stats <| st_error := 1 |> <| st_last_error := 1 |>.
Proof.
  destruct (tx_error_reports (W := sim) checking zero_pdma 1 sim_device sim0
    (ex_intro _ real_ops eq_refl)) as (c & w1 & Hc & r & wb' & w' & Hr & Hp).
  assert (nz (vco_level sim_device w1) = false) as Hv.
  { vm_compute in Hc. injection Hc as _ <-. vm_compute. reflexivity. }
  rewrite Hv in Hp. pose proof (proj2 (rep_lock _ _ _ _ _ _ _ _ _ Hp)) as Hl.
  assert (r = W_ERROR_PLL_LOCK_LOST) as -> by (apply Hl; split; [discriminate | reflexivity]).
  exists wb', w'. split; [exact Hr |]. rewrite (rep_device _ _ _ _ _ _ _ _ _ Hp). reflexivity.
Defined.
Definition runs_only : params := sim_params <| whitebox_check_runs := 1 |>.
(** One underrun more in the low half: told as an overrun. *)
Definition sim_underrun : sim := sim0 <| m_regs := {[ 0x40050510 := 1 ]} |>.
Lemma rx_error_reports_witness : ∃ wb' (w' : sim),
  runs rx_error (Sys runs_only zero_pdma 1 sim_device sim_underrun) W_ERROR_RX_OVERRUN
    (Sys runs_only zero_pdma 1 wb' w').
Proof.
  destruct (rx_error_reports (W := sim) runs_only zero_pdma 1 sim_device sim_underrun
    (ex_intro _ real_ops eq_refl)) as (c & w1 & Hc & r & wb' & w' & Hr & Hp & _).
  exists wb', w'. assert (r ≠ 0 ∧ r ≠ W_ERROR_PLL_LOCK_LOST) as [H0 H1].
  { apply (rep_runs _ _ _ _ _ _ _ _ _ Hp). split; [left; reflexivity |].
    split; [discriminate | right; vm_compute; discriminate]. }
  pose proof (rep_code _ _ _ _ _ _ _ _ _ Hp H0 H1) as Hcode.
  rewrite decide_True in Hcode by reflexivity. rewrite <- Hcode. exact Hr.
Defined.
Lemma tx_stop_waits_witness : ∃ p' wb' (w' : sim),
  runs tx_stop (Sys sim_params owned_pdma 1 tx_device sim0) 0 (Sys sim_params p' 1 wb' w').
Proof.
  destruct (tx_stop_waits (W := sim) 0 owned0 [] sim_params owned_pdma 1 tx_device sim0)
    as (c' & w1 & _ & _ & Hr).
  - by split.
  - reflexivity.
  - apply dev_with_at.
  - exact I.
  - by repeat split; left.
  - eexists _, _, _. exact Hr.
Defined.
