(* ===== verification/Safety.v ===== *)
(** * No operation of an open device goes wrong

    The data paths, the interrupt, the control requests and the file operations
    keep [sys_inv], for every behaviour of the hardware and of the other processes:
    no array is left, no empty operation table is called, no unset variable is
    used, no [BUG()] is reached. *)

From S2P Require Import Prelude Kernel State Pdma PdmaSpec UserRing UserRingSpec Gpio Exciter.
From S2P Require Import Receiver RfBlocks TxRx Ioctl Block Driver Invariant.

(** An invariant of an open device: besides, replacing a ring by a well-formed one
    keeps it. *)
Class OpenStable `{!CircMacros} {W} (k km : Z) (I : sys W → Prop) : Prop := {
  open_dev :: DevStable km I;
  open_rings s : I s → rings_inv k (s_wb s);
  open_set_source s us : I s → us_wf k us →
    I (s <| s_wb := (s_wb s) <| wb_user_source := us |> |>);
  open_set_sink s uk : I s → uk_wf k uk →
    I (s <| s_wb := (s_wb s) <| wb_user_sink := uk |> |>);
}.
#[global] Instance sys_inv_open `{!CircMacros} {W} `{!Kernel W} k km :
  OpenStable k km (sys_inv (W := W) k km).
Proof.
  split; [typeclasses eauto | by intros s [] | |].
  - intros s us [[? Hb []] [] ?] ?.
    split; [split; [done | by destruct Hb; split | done] | by split | done].
  - intros s uk [[? Hb []] [] ?] ?.
    split; [split; [done | by destruct Hb; split | done] | by split | done].
Qed.
(** The state of the device is left alone by everything but the file operations. *)
Definition in_state {W} `{!Kernel W} (k km : Z) (Q : whitebox_device_state → Prop) (s : sys W)
    : Prop := sys_inv k km s ∧ Q (wb_state (s_wb s)).
#[global] Instance in_state_open `{!CircMacros} {W} `{!Kernel W} k km Q :
  OpenStable k km (in_state (W := W) k km Q).
Proof.
  split.
  - apply dev_and; [typeclasses eauto |]. by intros s s' _ _ _ _ ->.
  - by intros s [[] ?].
  - intros s us [Hs ?] ?. split; [by apply (open_set_source (km := km) s us) | done].
  - intros s uk [Hs ?] ?. split; [by apply (open_set_sink (km := km) s uk) | done].
Qed.

Section paths.
Context {W : Type} `{!Kernel W} `{!CircMacros} (k km : Z) (I : sys W → Prop)
  `{!OpenStable k km I}.

Lemma keeps_set_user_source f :
  (∀ us, us_wf k us → us_wf k (f us)) → keeps I (set_user_source f).
Proof.
  intros Hf. apply keeps_upd_wb. intros s Hs.
  apply (open_set_source (km := km) s (f (wb_user_source (s_wb s)))); [done |].
  by apply Hf, (open_rings (km := km) s).
Qed.
Lemma keeps_set_user_sink f :
  (∀ uk, uk_wf k uk → uk_wf k (f uk)) → keeps I (set_user_sink f).
Proof.
  intros Hf. apply keeps_upd_wb. intros s Hs.
  apply (open_set_sink (km := km) s (f (wb_user_sink (s_wb s)))); [done |].
  by apply Hf, (open_rings (km := km) s).
Qed.
Lemma keeps_consume_source n :
  keeps I (set_user_source (λ us, whitebox_user_source_consume us n)).
Proof. apply keeps_set_user_source. intros. by apply us_wf_consume_any. Qed.
Lemma keeps_produce_source n :
  keeps I (set_user_source (λ us, whitebox_user_source_produce us n)).
Proof. apply keeps_set_user_source. intros. by apply us_wf_produce_any. Qed.
Lemma keeps_produce_sink n :
  keeps I (set_user_sink (λ uk, whitebox_user_sink_produce uk n)).
Proof. apply keeps_set_user_sink. intros. by apply uk_wf_produce_any. Qed.
Lemma keeps_consume_sink n :
  keeps I (set_user_sink (λ uk, whitebox_user_sink_consume uk n)).
Proof. apply keeps_set_user_sink. intros. by apply uk_wf_consume_any. Qed.
#[local] Hint Resolve keeps_consume_source keeps_produce_source keeps_produce_sink
  keeps_consume_sink : keeps.

Lemma words_zero a : a = 0 → (a >>> 2 =? 0) = true.
Proof. by intros ->. Qed.

Lemma keeps_tx_move again fl i : keeps I again → keeps I (tx_move again fl i).
Proof.
  intros Hagain. unfold tx_move. apply keeps_get_wb_bind. intros s _. cbv zeta.
  eapply keeps_gives_bind; [apply (gives_sink_space km I) |]. intros [n [dest |]] Ha.
  - destruct (_ =? 0); [keeps_tac |]. destruct (_ =? 0); [keeps_tac |].
    cbn [snd]. eapply keeps_gives_bind; [apply (gives_sink_work km I) |].
    intros r Hr. cbv beta in Hr. keeps_tac.
  - destruct Ha as [[] | Hn]; [done |]. cbn in Hn. subst n.
    destruct (_ =? 0); [keeps_tac |]. cbn [fst]. rewrite (words_zero 0) by done. keeps_tac.
Qed.
#[local] Hint Resolve keeps_tx_move : keeps.
Lemma keeps_tx_exec fuel : keeps I (tx_exec fuel).
Proof.
  induction fuel as [|fuel IH]; cbn [tx_exec]; [keeps_tac |].
  apply keeps_bind; [keeps_tac | intros _]. apply keeps_bind; [keeps_tac |].
  intros [fl |]; [| keeps_tac].
  apply keeps_get_wb_bind. intros s Hs. pose proof (dev_base (km := km) s Hs) as Hb.
  apply keeps_bind; [apply keeps_get_index; rewrite (inv_tx_detail _ _ Hb); apply Hb |].
  intros _. keeps_tac.
Qed.
#[local] Hint Resolve keeps_tx_exec : keeps.

Lemma keeps_tx_dma_cb b : b = 0 ∨ b = 1 → keeps I (tx_dma_cb b).
Proof. intros. unfold tx_dma_cb. keeps_tac. Qed.
#[local] Hint Resolve keeps_tx_dma_cb : keeps.

Lemma words_few a : a = 0 → (a >>> 2 <=? 1) = true.
Proof. by intros ->. Qed.

Lemma gives_user_sink_space : gives I user_sink_space addressed.
Proof.
  unfold user_sink_space. apply gives_bind; [keeps_tac | intros fc].
  apply gives_bind; [keeps_tac | intros th]. intros s Hs. split; [done |].
  unfold whitebox_user_sink_space_available. destruct (_ && _); [by right | left; by eexists].
Qed.

Lemma keeps_rx_move again fl i : keeps I again → keeps I (rx_move again fl i).
Proof.
  intros Hagain. unfold rx_move. cbv zeta.
  eapply keeps_gives_bind; [apply (gives_source_data km I) |]. intros source Hsrc.
  eapply keeps_gives_bind; [apply gives_user_sink_space |]. intros sink Hsnk.
  apply keeps_bind; [keeps_tac |]. intros _.
  destruct (_ =? 0) eqn:E0; [keeps_tac |]. destruct (_ <=? 1) eqn:E1; [keeps_tac |].
  destruct Hsrc as [[src ->] | Hz]; [| by rewrite (words_zero _ Hz) in E0].
  destruct Hsnk as [[dest ->] | Hz]; [| by rewrite (words_few _ Hz) in E1].
  eapply keeps_gives_bind; [apply (gives_source_work km I) |].
  intros r Hr. cbv beta in Hr. keeps_tac.
Qed.
#[local] Hint Resolve keeps_rx_move : keeps.
Lemma keeps_rx_exec fuel : keeps I (rx_exec fuel).
Proof.
  induction fuel as [|fuel IH]; cbn [rx_exec]; [keeps_tac |].
  do 2 (apply keeps_bind; [keeps_tac | intros _]). apply keeps_bind; [keeps_tac |].
  intros [fl |]; [| keeps_tac].
  apply keeps_get_wb_bind. intros s Hs. pose proof (dev_base (km := km) s Hs) as Hb.
  apply keeps_bind; [apply keeps_get_index; rewrite (inv_rx_detail _ _ Hb); apply Hb |].
  intros _. keeps_tac.
Qed.
#[local] Hint Resolve keeps_rx_exec : keeps.

Lemma keeps_rx_dma_cb b : b = 0 ∨ b = 1 → keeps I (rx_dma_cb b).
Proof. intros. unfold rx_dma_cb. keeps_tac. Qed.
#[local] Hint Resolve keeps_rx_dma_cb : keeps.

Lemma keeps_pdma_irq : keeps I (pdma_irq_cb run_handler).
Proof.
  apply keeps_pdma_irq_cb; [typeclasses eauto |].
  intros [] d b Hb; unfold run_handler; keeps_tac.
Qed.
#[local] Hint Resolve keeps_pdma_irq : keeps.
Lemma keeps_irq_point : keeps I irq_point.
Proof. unfold irq_point. keeps_tac. Qed.
#[local] Hint Resolve keeps_irq_point : keeps.

Let tx_ch_range := dev_tx_ch km I.
Let rx_ch_range := dev_rx_ch km I.
#[local] Hint Resolve tx_ch_range rx_ch_range : keeps.

Lemma keeps_tx_start : keeps I tx_start.
Proof. unfold tx_start. inv_tac. Qed.
Lemma keeps_tx_stop : keeps I tx_stop.
Proof. unfold tx_stop. inv_tac. Qed.
Lemma keeps_tx_error : keeps I tx_error.
Proof. unfold tx_error, tx_check_runs, tx_fault. inv_tac. Qed.
Lemma keeps_rx_start : keeps I rx_start.
Proof. unfold rx_start. inv_tac. Qed.
Lemma keeps_rx_stop : keeps I rx_stop.
Proof. unfold rx_stop. inv_tac. Qed.
Lemma keeps_rx_error : keeps I rx_error.
Proof. unfold rx_error, rx_check_runs, rx_fault. inv_tac. Qed.
#[local] Hint Resolve keeps_tx_start keeps_tx_stop keeps_tx_error keeps_rx_start keeps_rx_stop
  keeps_rx_error : keeps.

Lemma keeps_wait_first_data fuel : keeps I (wait_first_data fuel).
Proof.
  induction fuel as [|fuel IH]; cbn [wait_first_data]; [keeps_tac |].
  unfold user_sink_data_total, cpu_relax. keeps_tac.
Qed.
#[local] Hint Resolve keeps_wait_first_data : keeps.
Lemma keeps_rx_crank fuel block : keeps I (rx_crank fuel block).
Proof. unfold rx_crank. keeps_tac. Qed.

(** Interrupts are taken around the semaphore. *)
Lemma keeps_down_interruptible : keeps I down_interruptible.
Proof. unfold down_interruptible. keeps_tac. Qed.
Lemma keeps_down : keeps I down.
Proof. unfold down. keeps_tac. Qed.
Lemma keeps_up : keeps I up.
Proof. unfold up. keeps_tac. Qed.
End paths.
#[export] Hint Extern 1 (OpenStable _ _ _) => solve [typeclasses eauto] : keeps.
#[export] Hint Resolve keeps_down_interruptible keeps_down keeps_up : keeps.
#[export] Hint Resolve keeps_consume_source keeps_produce_source keeps_produce_sink
  keeps_consume_sink keeps_tx_exec keeps_rx_exec keeps_irq_point keeps_tx_start keeps_tx_stop
  keeps_tx_error keeps_rx_start keeps_rx_stop keeps_rx_error keeps_rx_crank : keeps.

(** ** Control requests *)

(** The handlers only need what the radio operations need. *)
Section device_ioctls.
Context {W : Type} `{!Kernel W} `{!CircMacros} (km : Z) (I : sys W → Prop) `{!DevStable km I}.

Let tx_ch_range := dev_tx_ch km I.
Let rx_ch_range := dev_rx_ch km I.
#[local] Hint Resolve tx_ch_range rx_ch_range : keeps.

Lemma keeps_with_user_args arg (k : whitebox_args_t → M (sys W) Z) :
  (∀ w, keeps I (k (as_args w))) → keeps I (with_user_args arg k).
Proof. intros Hk. unfold with_user_args. keeps_tac. Qed.
Lemma keeps_return_args arg w : keeps I (return_args arg w).
Proof. unfold return_args. keeps_tac. Qed.
Lemma keeps_local_args : keeps I local_args.
Proof. unfold local_args. keeps_tac. Qed.
#[local] Hint Resolve keeps_return_args keeps_local_args : keeps.

Lemma keeps_adf4351_insert i v :
  keeps I (upd_wb (λ wb, wb <| wb_adf4351_regs ::= <[i := v]> |>)).
Proof. dev_tac. Qed.
Lemma keeps_cmx991_insert i v :
  keeps I (upd_wb (λ wb, wb <| wb_cmx991_regs ::= <[i := v]> |>)).
Proof. dev_tac. Qed.
#[local] Hint Resolve keeps_adf4351_insert keeps_cmx991_insert : keeps.

Lemma keeps_ioctl_reset : keeps I whitebox_ioctl_reset.
Proof. unfold whitebox_ioctl_reset, the_exciter, the_receiver, the_pins. inv_tac. Qed.
Lemma keeps_ioctl_locked : keeps I whitebox_ioctl_locked.
Proof. unfold whitebox_ioctl_locked, the_pins. inv_tac. Qed.
Lemma keeps_ioctl_exciter_clear : keeps I whitebox_ioctl_exciter_clear.
Proof. unfold whitebox_ioctl_exciter_clear, the_exciter, the_pins. inv_tac. Qed.
Lemma keeps_ioctl_receiver_clear : keeps I whitebox_ioctl_receiver_clear.
Proof. unfold whitebox_ioctl_receiver_clear, the_receiver, the_pins. inv_tac. Qed.
Lemma keeps_ioctl_exciter_get arg : keeps I (whitebox_ioctl_exciter_get arg).
Proof. unfold whitebox_ioctl_exciter_get, the_exciter. inv_tac. Qed.
Lemma keeps_ioctl_receiver_get arg : keeps I (whitebox_ioctl_receiver_get arg).
Proof. unfold whitebox_ioctl_receiver_get, the_receiver. inv_tac. Qed.

Lemma keeps_ioctl_exciter_set arg : keeps I (whitebox_ioctl_exciter_set arg).
Proof.
  unfold whitebox_ioctl_exciter_set, the_exciter. inv_tac. apply keeps_with_user_args. intros. inv_tac.
Qed.
Lemma keeps_ioctl_receiver_set arg : keeps I (whitebox_ioctl_receiver_set arg).
Proof.
  unfold whitebox_ioctl_receiver_set, the_receiver. inv_tac. apply keeps_with_user_args. intros. inv_tac.
Qed.
Lemma keeps_ioctl_exciter_clear_mask arg : keeps I (whitebox_ioctl_exciter_clear_mask arg).
Proof.
  unfold whitebox_ioctl_exciter_clear_mask, the_exciter. inv_tac.
  apply keeps_with_user_args. intros. inv_tac.
Qed.
Lemma keeps_ioctl_receiver_clear_mask arg : keeps I (whitebox_ioctl_receiver_clear_mask arg).
Proof.
  unfold whitebox_ioctl_receiver_clear_mask, the_receiver. inv_tac.
  apply keeps_with_user_args. intros. inv_tac.
Qed.
Lemma keeps_ioctl_mock_command arg : keeps I (whitebox_ioctl_mock_command arg).
Proof.
  unfold whitebox_ioctl_mock_command, exciter_regs, receiver_regs.
  apply keeps_with_user_args. intros. inv_tac.
Qed.

Lemma keeps_cmx991_get_loop pd lut i w : keeps I (cmx991_get_loop pd lut i w).
Proof.
  revert i w. induction lut as [|a lut IH]; intros i w; cbn [cmx991_get_loop]; keeps_tac.
Qed.
#[local] Hint Resolve keeps_cmx991_get_loop : keeps.
Lemma keeps_ioctl_cmx991_get arg : keeps I (whitebox_ioctl_cmx991_get arg).
Proof. unfold whitebox_ioctl_cmx991_get, the_pins. inv_tac. Qed.
Lemma keeps_cmx991_set_reg pd w i : 0 ≤ i < 10 → keeps I (cmx991_set_reg pd w i).
Proof.
  intros. unfold cmx991_set_reg. apply keeps_get_wb_bind. intros s Hs.
  apply keeps_bind; [| intros c; apply keeps_bind; [| intros; keeps_tac]].
  - apply keeps_get_index. rewrite (inv_cmx991 km _ (dev_base s Hs)). lia.
  - by apply keeps_get_index.
Qed.
Lemma keeps_ioctl_cmx991_set arg : keeps I (whitebox_ioctl_cmx991_set arg).
Proof.
  unfold whitebox_ioctl_cmx991_set, the_pins. inv_tac. apply keeps_with_user_args.
  intros. inv_tac. by apply keeps_cmx991_set_reg.
Qed.
Lemma keeps_ioctl_cmx991_locked : keeps I whitebox_ioctl_cmx991_locked.
Proof. unfold whitebox_ioctl_cmx991_locked, the_pins. inv_tac. Qed.
Lemma keeps_ioctl_adf4351_get arg : keeps I (whitebox_ioctl_adf4351_get arg).
Proof. unfold whitebox_ioctl_adf4351_get. inv_tac. Qed.
Lemma keeps_adf4351_set_reg pd w i : 0 ≤ i < 6 → keeps I (adf4351_set_reg pd w i).
Proof.
  intros. unfold adf4351_set_reg. apply keeps_get_wb_bind. intros s Hs.
  apply keeps_bind; [| intros; keeps_tac].
  apply keeps_get_index. rewrite (inv_adf4351 km _ (dev_base s Hs)). lia.
Qed.
Lemma keeps_ioctl_adf4351_set arg : keeps I (whitebox_ioctl_adf4351_set arg).
Proof.
  unfold whitebox_ioctl_adf4351_set, the_pins. inv_tac. apply keeps_with_user_args.
  intros. inv_tac. apply keeps_adf4351_set_reg. unfold WA_REGS_COUNT in *. lia.
Qed.
Lemma keeps_ioctl_adf4351_locked : keeps I whitebox_ioctl_adf4351_locked.
Proof. unfold whitebox_ioctl_adf4351_locked, the_pins. inv_tac. Qed.

(** The filter: the count read back from the register is below 128; the count given
    by the caller is a byte. *)
Lemma keeps_fir_get_loop e n i w :
  length w = args_words → 0 ≤ i → i + Z.of_nat n ≤ 128 → keeps I (fir_get_loop e n i w).
Proof.
  revert i w. induction n as [|n IH]; intros i w Hw ??; cbn [fir_get_loop]; [keeps_tac |].
  apply keeps_bind; [apply (keeps_exciter_get_fir_coeff km); [done | lia] |]. intros c.
  apply keeps_bind.
  - apply keeps_get_index. rewrite fir_coeffs_length by done. lia.
  - intros _. apply IH; [by rewrite set_word_length | lia | lia].
Qed.
Lemma keeps_ioctl_fir_get arg : keeps I (whitebox_ioctl_fir_get arg).
Proof.
  unfold whitebox_ioctl_fir_get, the_exciter. apply keeps_get_wb_bind. intros s Hs.
  eapply (keeps_gives_bind _ _ (λ w, length w = args_words)).
  { unfold local_args. apply gives_bind; [keeps_tac | intros]. apply gives_ret, as_args_length. }
  intros w Hw. apply keeps_bind; [keeps_tac | intros fir].
  apply keeps_bind; [keeps_tac | intros _]. apply keeps_bind; [| intros; keeps_tac].
  change 0x7f with (2 ^ 7 - 1). rewrite land_ones_low by lia.
  pose proof (Z.mod_pos_bound fir (2 ^ 7)).
  apply keeps_fir_get_loop; [by rewrite !set_byte_length | lia | lia].
Qed.
Lemma keeps_fir_set_coeff e w i :
  length w = args_words → 0 ≤ i < 128 → keeps I (fir_set_coeff e w i).
Proof.
  intros Hw Hi. unfold fir_set_coeff. apply keeps_bind.
  - apply keeps_get_index. rewrite fir_coeffs_length by done. lia.
  - intros c. apply (keeps_exciter_set_fir_coeff km); [done |].
    unfold u8. rewrite Z.mod_small; lia.
Qed.
Lemma keeps_ioctl_fir_set_words e w :
  fir_n (as_args w) ≤ 128 →
  keeps I (for_loop (Z.to_nat (fir_n (as_args w))) 0 (fir_set_coeff e (as_args w))).
Proof.
  intros. apply keeps_for_loop. intros i Hi. apply keeps_fir_set_coeff; [apply as_args_length | lia].
Qed.
End device_ioctls.
#[export] Hint Resolve keeps_ioctl_reset keeps_ioctl_locked keeps_ioctl_exciter_clear
  keeps_ioctl_receiver_clear keeps_ioctl_exciter_get keeps_ioctl_receiver_get
  keeps_ioctl_exciter_set keeps_ioctl_receiver_set keeps_ioctl_exciter_clear_mask
  keeps_ioctl_receiver_clear_mask keeps_ioctl_mock_command keeps_ioctl_cmx991_get
  keeps_ioctl_cmx991_set keeps_ioctl_cmx991_locked keeps_ioctl_adf4351_get
  keeps_ioctl_adf4351_set keeps_ioctl_adf4351_locked keeps_ioctl_fir_get : keeps.

(** ** The file operations of an open device *)

Section file_operations.
Context {W : Type} `{!Kernel W} `{!CircMacros} `{!IoctlMacros} (k km : Z)
  (I : sys W → Prop) `{!OpenStable k km I}.

Lemma keeps_ioctl_mmap_write arg : keeps I (whitebox_ioctl_mmap_write arg).
Proof. unfold whitebox_ioctl_mmap_write. keeps_tac. Qed.
#[local] Hint Resolve keeps_ioctl_mmap_write : keeps.

Lemma keeps_switch cmd (cases : list (Z * M (sys W) Z)) d :
  Forall (λ c, cmd = c.1 → keeps I c.2) cases → keeps I d → keeps I (switch cmd cases d).
Proof.
  intros Hc Hd. induction Hc as [|[c m] cases Hm _ IH]; cbn [switch]; [done |].
  destruct (cmd =? c) eqn:E; [| done]. apply Hm. cbn. lia.
Qed.

(** The filter is set when the caller's count is at most 128. *)
Definition fir_request_ok (arg : Z) (s : sys W) : Prop :=
  fir_n (as_args (k_get_user_words arg args_words (s_world s)).1.2) ≤ 128.
Lemma ioctl_fir_set_safe arg :
  hoare (λ s, I s ∧ fir_request_ok arg s) (whitebox_ioctl_fir_set arg) (λ _, I).
Proof.
  unfold whitebox_ioctl_fir_set, the_exciter, with_user_args.
  eapply hoare_bind; [apply keeps_get_wb |]. intros e.
  eapply (hoare_bind_pure _ _ I (λ r, fir_n (as_args r.2) ≤ 128)).
  { intros s [Hs Hf]. split; [by apply (world_free s) | exact Hf]. }
  intros [[] l] Hf; cbn [fst snd] in *; [apply keeps_ret |].
  apply keeps_bind; [keeps_tac | intros _].
  apply keeps_bind; [apply (keeps_ioctl_fir_set_words km); [typeclasses eauto | done] | intros; keeps_tac].
Qed.

(** Every other request, the mapped read apart. *)
Lemma keeps_whitebox_ioctl cmd arg :
  cmd ≠ W_MMAP_READ → cmd ≠ WF_SET → keeps I (whitebox_ioctl cmd arg).
Proof.
  intros H1 H2. unfold whitebox_ioctl. apply keeps_switch; [| keeps_tac].
  unfold ioctl_table.
  do 21 (apply Forall_cons_2; [cbn [fst snd]; intros ?; first [contradiction | keeps_tac] |]).
  apply Forall_nil_2.
Qed.

Lemma keeps_wait_event {A} fuel q (cond : M (sys W) (option A)) :
  keeps I cond → keeps I (wait_event_interruptible fuel q cond).
Proof.
  intros Hc. induction fuel as [|fuel IH]; cbn [wait_event_interruptible]; keeps_tac.
Qed.

Lemma keeps_user_sink_work a b c d : keeps I (whitebox_user_sink_work a b c d).
Proof. unfold whitebox_user_sink_work, unless_mapped. keeps_tac. Qed.
Lemma keeps_user_source_work a b c d : keeps I (whitebox_user_source_work a b c d).
Proof. unfold whitebox_user_source_work, unless_mapped. keeps_tac. Qed.
#[local] Hint Resolve keeps_user_sink_work keeps_user_source_work : keeps.

Lemma keeps_read_ready n : keeps I (read_ready n).
Proof. unfold read_ready, user_sink_data. keeps_tac. Qed.
Lemma keeps_write_ready n : keeps I (write_ready n).
Proof. unfold write_ready, user_source_space. keeps_tac. Qed.
#[local] Hint Resolve keeps_wait_event keeps_read_ready keeps_write_ready : keeps.

Lemma keeps_read_wait fuel nb n : keeps I (read_wait fuel nb n).
Proof.
  induction fuel as [|fuel IH]; cbn [read_wait]; [keeps_tac |].
  unfold user_sink_data. keeps_tac.
Qed.
#[local] Hint Resolve keeps_read_wait : keeps.
Lemma keeps_read_finish fuel nb buf n : keeps I (read_finish fuel nb buf n).
Proof. unfold read_finish. keeps_tac. Qed.
Lemma keeps_write_wait fuel nb n err : keeps I (write_wait fuel nb n err).
Proof.
  revert err. induction fuel as [|fuel IH]; intros err; cbn [write_wait]; [keeps_tac |].
  unfold user_source_space. keeps_tac.
Qed.

Lemma keeps_fsync_drain fuel : keeps I (fsync_drain fuel).
Proof.
  induction fuel as [|fuel IH]; cbn [fsync_drain]; [keeps_tac |].
  unfold user_source_data. keeps_tac.
Qed.
Lemma keeps_fsync_stop fuel e : keeps I (fsync_stop fuel e).
Proof. induction fuel as [|fuel IH]; cbn [fsync_stop]; keeps_tac. Qed.
Lemma keeps_fsync_off fuel e : keeps I (fsync_off fuel e).
Proof. induction fuel as [|fuel IH]; cbn [fsync_off]; keeps_tac. Qed.

Lemma keeps_whitebox_poll : keeps I whitebox_poll.
Proof. unfold whitebox_poll, poll_mask, user_source_space, user_sink_data. keeps_tac. Qed.

Lemma keeps_set_mapped f : keeps I (upd_wb (λ wb, wb <| wb_mapped ::= f |>)).
Proof. dev_tac. Qed.
#[local] Hint Resolve keeps_set_mapped : keeps.
Lemma keeps_whitebox_mmap a b : keeps I (whitebox_mmap a b).
Proof. unfold whitebox_mmap, whitebox_mmap_open. keeps_tac. Qed.
Lemma keeps_whitebox_mmap_close : keeps I whitebox_mmap_close.
Proof. unfold whitebox_mmap_close. keeps_tac. Qed.

Lemma keeps_stop_loop fuel stop : keeps I stop → keeps I (stop_loop fuel stop).
Proof.
  intros Hs. induction fuel as [|fuel IH]; cbn [stop_loop]; [keeps_tac |].
  unfold cpu_relax. keeps_tac.
Qed.

Lemma keeps_mmap_read_data arg : keeps I (mmap_read_data arg).
Proof. unfold mmap_read_data. keeps_tac. Qed.
Lemma keeps_get_state : keeps I get_state.
Proof. unfold get_state. keeps_tac. Qed.
End file_operations.
#[export] Hint Resolve keeps_user_sink_work keeps_user_source_work keeps_wait_event keeps_read_wait
  keeps_read_finish keeps_write_wait keeps_fsync_drain keeps_fsync_stop keeps_fsync_off
  keeps_whitebox_poll keeps_whitebox_mmap keeps_whitebox_mmap_close keeps_stop_loop
  keeps_mmap_read_data keeps_get_state : keeps.

(** Those that move the device to another state. *)
Section state_changes.
Context {W : Type} `{!Kernel W} `{!CircMacros} `{!IoctlMacros} (k km : Z).
Abbreviation I := (sys_inv k km).

Lemma keeps_set_state d : keeps I (set_state d).
Proof.
  apply keeps_upd_wb. intros s [[? Hb []] [] ?].
  by split; [split; [| destruct Hb; split | split] | split |].
Qed.
#[local] Hint Resolve keeps_set_state : keeps.

Lemma keeps_whitebox_read fuel nb buf n : keeps I (whitebox_read fuel nb buf n).
Proof. unfold whitebox_read. keeps_tac. Qed.
Lemma keeps_write_kick : keeps I write_kick.
Proof. unfold write_kick, user_source_total. keeps_tac. Qed.
#[local] Hint Resolve keeps_write_kick : keeps.
Lemma keeps_write_copy buf n dest m : keeps I (write_copy buf n dest m).
Proof. unfold write_copy. keeps_tac. Qed.
#[local] Hint Resolve keeps_write_copy : keeps.
Lemma keeps_whitebox_write fuel nb buf n : keeps I (whitebox_write fuel nb buf n).
Proof. unfold whitebox_write, write_data. keeps_tac. Qed.
Lemma keeps_fsync_rx : keeps I fsync_rx.
Proof. unfold fsync_rx. keeps_tac. Qed.
#[local] Hint Resolve keeps_fsync_rx : keeps.
Lemma keeps_whitebox_fsync fuel : keeps I (whitebox_fsync fuel).
Proof. unfold whitebox_fsync, fsync_tx, the_exciter. keeps_tac. Qed.

(** The mapped read is safe while the device does not already receive. *)
Lemma get_state_then {B} (Q : whitebox_device_state → Prop) (f : whitebox_device_state → M (sys W) B) R :
  (∀ d, Q d → hoare (in_state k km Q) (f d) R) → hoare (in_state k km Q) (get_state ≫= f) R.
Proof. intros Hf s [Hs Hq]. by apply (Hf (wb_state (s_wb s))). Qed.
Lemma in_state_sys Q {A} (m : M (sys W) A) :
  keeps I m → hoare (in_state k km Q) m (λ _, I).
Proof. intros Hm s [Hs _]. by apply Hm. Qed.
Lemma ioctl_mmap_read_safe arg :
  hoare (in_state k km (λ d, d ≠ WDS_RX_STREAMING)) (whitebox_ioctl_mmap_read arg) (λ _, I).
Proof.
  unfold whitebox_ioctl_mmap_read. apply keeps_then; [keeps_tac |].
  intros []; [by intros s [] |].
  apply (get_state_then (λ d, d ≠ WDS_RX_STREAMING)). intros d Hd. apply in_state_sys.
  destruct d; try done; try (apply keeps_bind; [keeps_tac | intros; keeps_tac]).
Qed.

(** Giving the device back. *)
Lemma gives_use_count : gives I get_use_count (λ n, n = 1).
Proof. intros s Hs. split; [done | apply Hs]. Qed.
Lemma hoare_close (ret : Z) :
  hoare I (upd_use_count (λ n, s32 (n - 1));; mret ret) (λ r s, idle_inv k km s ∧ r = ret).
Proof.
  intros s [[? ? []] _ Hn]. split; [| done]. split; [by do 2 (split; try done) |].
  cbn. by rewrite Hn.
Qed.

Lemma release_closes fuel :
  hoare I (whitebox_release fuel) (λ r s, idle_inv k km s ∧ r = 0).
Proof.
  unfold whitebox_release, the_pins, whitebox_user_source_free, whitebox_user_sink_free.
  eapply gives_then; [apply gives_use_count |]. intros n ->. cbn [negb].
  do 4 (apply keeps_then; [keeps_tac | intros ?]).
  apply get_wb_then. intros s [[_ Hb _] _ _].
  apply keeps_then; [apply keeps_get_index; rewrite (inv_adf4351 _ _ Hb); lia |]. intros r2.
  apply keeps_then; [apply (keeps_adf4351_insert km I) |]. intros _.
  do 7 (apply keeps_then; [keeps_tac | intros ?]). apply hoare_close.
Qed.
End state_changes.
#[export] Hint Resolve keeps_set_state : keeps.
