(* ===== verification/Lifecycle.v ===== *)
(** * The life of the device

    Opening and releasing, and the safety of every sequence of file operations from
    a device that has been probed. *)

From stdpp Require Import relations.
From S2P Require Import Prelude Kernel State Sim Pdma PdmaSpec UserRing UserRingSpec Gpio.
From S2P Require Import Exciter Receiver RfBlocks TxRx Ioctl IoctlSpec Driver Invariant Safety.

Section opening.
Context {W : Type} `{!Kernel W} `{!CircMacros} `{!IoctlMacros} (k km order : Z).

(** How much of the device is built, as [whitebox_open] proceeds. *)
Definition taken (s : sys W) : Prop :=
  closed_inv k km s ∧ s_use_count s = 1 ∧ whitebox_user_order (s_params s) = order.
Definition source_sized (s : sys W) : Prop :=
  us_order (wb_user_source (s_wb s)) = order - 1.
Definition source_built (s : sys W) : Prop := us_wf k (wb_user_source (s_wb s)).
Definition sink_sized (s : sys W) : Prop :=
  uk_order (wb_user_sink (s_wb s)) = order - 1.

#[local] Instance taken_dev : DevStable km taken.
Proof. apply dev_and; [typeclasses eauto |]. by intros s s' -> -> _ _ _. Qed.
#[local] Instance sized_dev : DevStable km (λ s, taken s ∧ source_sized s).
Proof. apply dev_and; [typeclasses eauto |]. unfold source_sized. by intros s s' _ _ -> _ _. Qed.
#[local] Instance built_dev : DevStable km (λ s, taken s ∧ source_built s).
Proof. apply dev_and; [typeclasses eauto |]. unfold source_built. by intros s s' _ _ -> _ _. Qed.
#[local] Instance built_sized_dev :
  DevStable km (λ s, (taken s ∧ source_built s) ∧ sink_sized s).
Proof. apply dev_and; [typeclasses eauto |]. unfold sink_sized. by intros s s' _ _ _ -> _. Qed.

(** What [whitebox_open] leaves: an open device and 0, or a closed one and an
    error. *)
Definition opened (ret : Z) (s : sys W) : Prop :=
  (ret = 0 ∧ sys_inv k km s) ∨ (ret < 0 ∧ idle_inv k km s).

Lemma keeps_upd_exciter (I : sys W → Prop) `{!DevStable km I} e f :
  (∀ x, ex_ops (f x) = ex_ops x) → keeps I (upd_exciter e f).
Proof.
  intros Hf. unfold upd_exciter. destruct e; dev_tac; intros x; specialize (inv_ex_ops x);
    destruct x; cbn in *; by rewrite ?Hf.
Qed.
Lemma keeps_upd_receiver (I : sys W → Prop) `{!DevStable km I} r f :
  (∀ x, rv_ops (f x) = rv_ops x) → keeps I (upd_receiver r f).
Proof.
  intros Hf. unfold upd_receiver. destruct r; dev_tac; intros x; specialize (inv_rv_ops x);
    destruct x; cbn in *; by rewrite ?Hf.
Qed.
Lemma keeps_open_configure (I : sys W → Prop) `{!DevStable km I} e :
  keeps I (open_configure e).
Proof.
  unfold open_configure. do 2 (apply keeps_bind; [keeps_tac | intros]).
  apply keeps_bind; [by apply keeps_upd_exciter | intros]. keeps_tac.
Qed.

Lemma fail_idle (I : sys W → Prop) ret :
  (∀ s, I s → taken s) → ret < 0 → hoare I (fail_in_use ret) opened.
Proof.
  intros HI Hret s Hs. destruct (HI s Hs) as ([? ? []] & Hn & _). right. split; [done |].
  split; [by do 2 (split; try done) |]. cbn. by rewrite Hn.
Qed.

(** The two halves of the user-side buffer become the rings. *)
Lemma alloc_source : hoare (λ s, taken s ∧ source_sized s)
  (base ← get_wb wb_user_buffer; whitebox_user_source_alloc base)
  (λ r s, (taken s ∧ source_built s) ∧ r = 0).
Proof.
  intros [pr p uc wb w] [([Hw Hbase [Hk Hp Hb]] & Hn & Hpr) Ho]. cbn in *. red in Ho. cbn in Ho.
  rewrite Hpr in Hp. pose proof (pow2_30 k Hk).
  unfold whitebox_user_source_alloc, mbind, M_bind, upd. cbn. rewrite Ho, Hp.
  rewrite s32_small by lia. destruct (_ =? 0) eqn:E; [lia |]. cbn.
  split; [| done]. split; [split; [| done] |].
  - split; [done | by destruct Hbase; split |]. by split; cbn; rewrite ?Hpr.
  - split; [split |..]; cbn; done || lia.
Qed.
Lemma alloc_sink : hoare (λ s, (taken s ∧ source_built s) ∧ sink_sized s)
  (base ← get_wb wb_user_buffer;
   whitebox_user_sink_alloc (u32 (base + (k_PAGE_SIZE <<< (order - 1)))))
  (λ r s, sys_inv k km s ∧ r = 0).
Proof.
  intros [pr p uc wb w] [[([Hw Hbase [Hk Hp Hb]] & Hn & Hpr) Hs] Ho]. cbn in *.
  red in Ho. cbn in Ho. rewrite Hpr in Hp. pose proof (pow2_30 k Hk).
  unfold whitebox_user_sink_alloc, mbind, M_bind, upd. cbn. rewrite Ho, Hp.
  rewrite s32_small, u32_small by lia. destruct (_ =? 0) eqn:E; [lia |]. cbn.
  split; [| done]. split; [| | done].
  - split; [done | by destruct Hbase; split |]. by split; cbn; rewrite ?Hpr.
  - split; [done |]. split; [split |..]; cbn; done || lia.
Qed.

Lemma open_finish_opened : hoare (sys_inv k km) open_finish opened.
Proof.
  unfold open_finish, the_pins. apply keeps_then; [dev_tac; done || lia |]. intros _.
  do 4 (apply keeps_then; [keeps_tac | intros ?]).
  intros s Hs. left. by split.
Qed.

Lemma gives_order (I : sys W → Prop) :
  (∀ s, I s → taken s) → gives I (param whitebox_user_order) (λ o, o = order).
Proof. intros HI s Hs. split; [done | by destruct (HI s Hs) as (_ & _ & ?)]. Qed.

Lemma set_sink_size : hoare (λ s, taken s ∧ source_built s)
  (set_user_sink (whitebox_user_sink_init (order - 1)))
  (λ _ s, (taken s ∧ source_built s) ∧ sink_sized s).
Proof.
  intros s [([? Hb []] & ? & ?) ?]. split; [| done]. split; [| done]. split; [| done].
  by split; [| destruct Hb; split | split].
Qed.
Lemma open_receive_opened r :
  hoare (λ s, taken s ∧ source_built s) (open_receive r) opened.
Proof.
  unfold open_receive, the_pins, whitebox_user_source_free.
  eapply gives_then; [apply gives_order; tauto |]. intros o ->.
  eapply hoare_bind; [apply set_sink_size |]. intros []. cbv beta.
  apply get_wb_then. intros s [[([_ Hb _] & _) _] _].
  apply keeps_then; [eapply keeps_whitebox_rf_source_init; [typeclasses eauto | apply Hb] |]. intros _.
  apply keeps_then; [keeps_tac | intros q].
  apply keeps_then; [by apply keeps_upd_receiver; [typeclasses eauto |] | intros _].
  apply keeps_then; [keeps_tac | intros ret]. destruct (ret <? 0) eqn:E.
  - do 2 (apply keeps_then; [keeps_tac | intros _]). apply fail_idle; [tauto | lia].
  - apply hoare_bind_assoc. eapply hoare_bind_pure; [apply alloc_sink |].
    intros ? ->. apply open_finish_opened.
Qed.

Lemma set_source_size : hoare taken
  (set_user_source (whitebox_user_source_init (order - 1))) (λ _ s, taken s ∧ source_sized s).
Proof.
  intros s ([? Hb []] & ? & ?). split; [| done]. split; [| done].
  by split; [| destruct Hb; split | split].
Qed.

(** Taking the device. *)
Lemma take_count : hoare (λ s, idle_inv k km s ∧ whitebox_user_order (s_params s) = order)
  (upd_use_count (λ n, s32 (n + 1));; get_use_count) (λ n s, taken s ∧ n = 1).
Proof.
  intros s [[[? Hb []] Hn] Ho]. unfold mbind, M_bind, upd. cbn.
  assert (s32 (s_use_count s + 1) = 1) as Hc by (by rewrite Hn).
  split; [| exact Hc]. split; [by split; [| destruct Hb; split | split] |]. by split.
Qed.
Lemma idle_opened :
  hoare (λ s, idle_inv k km s ∧ whitebox_user_order (s_params s) = order) whitebox_open opened.
Proof.
  unfold whitebox_open, the_pins, whitebox_user_source_free. apply keeps_then; [keeps_tac |].
  intros mock. cbv zeta. set (e := if nz mock then Mock else Real).
  apply hoare_bind_assoc. eapply hoare_bind_pure; [apply take_count |]. intros ? ->. cbn [negb].
  apply keeps_then; [dev_tac | intros _].
  eapply gives_then; [by apply gives_order |]. intros o ->.
  eapply hoare_bind; [apply set_source_size |]. intros []. cbv beta.
  apply get_wb_then. intros s [([_ Hb _] & _) _].
  apply keeps_then; [eapply keeps_whitebox_rf_sink_init; [typeclasses eauto | apply Hb] |].
  intros _. apply keeps_then; [apply keeps_open_configure; typeclasses eauto | intros _].
  do 4 (apply keeps_then; [keeps_tac | intros ?]).
  destruct (_ <? 0) eqn:E; [apply fail_idle; [tauto | lia] |].
  apply hoare_bind_assoc. eapply hoare_bind_pure; [apply alloc_source |]. intros ? ->.
  apply open_receive_opened.
Qed.
End opening.

(** ** Sequences of operations *)

Section life.
Context {W : Type} `{!Kernel W} `{!CircMacros} `{!IoctlMacros}.

(** The calls the kernel makes into the driver; [OpIrq] is an interrupt between two
    of them. *)
Inductive file_op :=
| OpOpen
| OpRelease
| OpRead (nonblock : bool) (buf count : Z)
| OpWrite (nonblock : bool) (buf count : Z)
| OpFsync
| OpPoll
| OpMmap (vm_start vm_end : Z)
| OpMunmap
| OpIoctl (cmd arg : Z)
| OpIrq.
#[global] Instance file_op_eq_dec : EqDecision file_op.
Proof. solve_decision. Defined.

Definition run_op (fuel : nat) (op : file_op) : M (sys W) Z :=
  match op with
  | OpOpen => whitebox_open
  | OpRelease => whitebox_release fuel
  | OpRead nb buf count => whitebox_read fuel nb buf count
  | OpWrite nb buf count => whitebox_write fuel nb buf count
  | OpFsync => whitebox_fsync fuel
  | OpPoll => whitebox_poll
  | OpMmap a b => whitebox_mmap a b
  | OpMunmap => whitebox_mmap_close;; mret 0
  | OpIoctl cmd arg => whitebox_ioctl cmd arg
  | OpIrq => irq_point;; mret 0
  end.

(** The kernel calls the other operations on an open device only.  Two requests can
    be driven wrong by their caller: setting more than 128 coefficients, and the
    mapped read while the device already receives. *)
Definition enabled (op : file_op) (s : sys W) : Prop :=
  match op with
  | OpOpen => True
  | OpIoctl cmd arg => s_use_count s = 1 ∧
      (cmd = W_MMAP_READ → wb_state (s_wb s) ≠ WDS_RX_STREAMING) ∧
      (cmd = WF_SET → fir_request_ok arg s)
  | _ => s_use_count s = 1
  end.

Inductive step (s s' : sys W) : Prop :=
| step_op fuel op ret : enabled op s → run_op fuel op s = Done ret s' → step s s'.

(** The device is closed or open. *)
Definition driver_inv (k km : Z) (s : sys W) : Prop := idle_inv k km s ∨ sys_inv k km s.

(** A second [open] is refused and changes nothing of the open device. *)
Lemma open_busy k km :
  hoare (sys_inv k km) whitebox_open (λ r s, sys_inv k km s ∧ r = - EBUSY).
Proof.
  unfold whitebox_open. apply keeps_then; [keeps_tac |]. intros mock. cbv zeta.
  intros s [[? Hb []] [] Hn]. unfold mbind, M_bind, upd. cbn. rewrite Hn. cbn.
  split; [| done]. split; [by split; [| destruct Hb; split | split] | by split |].
  cbn. by rewrite Hn.
Qed.

Lemma run_op_open k km fuel op :
  op ≠ OpOpen → hoare (λ s, sys_inv k km s ∧ enabled op s) (run_op fuel op)
    (λ _, driver_inv k km).
Proof.
  intros Hop s [Hs He].
  destruct (decide (op = OpRelease)) as [-> |].
  { eapply post_mono; [| by apply (release_closes k km)]. intros ? s' [? _]. by left. }
  eapply post_mono with (Q := λ _, sys_inv k km); [intros ? s'; by right |].
  assert (∀ m : M (sys W) Z, keeps (sys_inv k km) m → post (λ _, sys_inv k km) (m s)) as Hk
    by (intros m Hm; by apply Hm).
  destruct op; cbn [run_op enabled] in *; try done; try (apply Hk; keeps_tac; fail).
  - apply Hk, keeps_whitebox_read.
  - apply Hk, keeps_whitebox_write.
  - apply Hk, keeps_whitebox_fsync.
  - destruct He as (_ & Hm & Hf). destruct (decide (cmd = W_MMAP_READ)) as [-> |].
    + rewrite ioctl_mmap_read_case.
      apply (ioctl_mmap_read_safe k km). split; [done | by apply Hm].
    + destruct (decide (cmd = WF_SET)) as [-> |].
      * rewrite ioctl_fir_set_case.
        eapply (ioctl_fir_set_safe k km); [typeclasses eauto |]. by split; [| apply Hf].
      * apply Hk, (keeps_whitebox_ioctl k km); [typeclasses eauto | done..].
Qed.
Lemma run_op_inv k km fuel op :
  hoare (λ s, driver_inv k km s ∧ enabled op s) (run_op fuel op) (λ _, driver_inv k km).
Proof.
  intros s [[Hs | Hs] He].
  - destruct op; cbn in He; try (rewrite (idle_count _ _ _ Hs) in He; intuition discriminate).
    eapply post_mono; [| by apply (idle_opened k km (whitebox_user_order (s_params s)))].
    intros r s' [[_ ?] | [_ ?]]; [by right | by left].
  - destruct (decide (op = OpOpen)) as [-> |]; [| by apply run_op_open].
    eapply post_mono; [| by apply (open_busy k km)]. intros ? s' [? _]. by right.
Qed.


(** C3: the device has one user.  Opening a closed device gives 0 and an open
    device, or an error and a closed one; opening an open device gives [-EBUSY] and leaves it open; releasing an
    open device gives 0 and a closed one. *)
Theorem open_release_exclusive k km fuel :
  hoare (idle_inv k km) whitebox_open
    (opened k km) ∧
  hoare (sys_inv k km) whitebox_open (λ r s, r = - EBUSY ∧ sys_inv k km s) ∧
  hoare (sys_inv k km) (whitebox_release fuel) (λ r s, r = 0 ∧ idle_inv k km s).
Proof.
  split; [| split].
  - intros s Hs. by apply (idle_opened k km (whitebox_user_order (s_params s))).
  - eapply hoare_conseq; [apply open_busy | done |]. by intros ? s [].
  - eapply hoare_conseq; [apply release_closes | done |]. by intros ? s [].
Qed.
End life.

(** ** Witnesses *)

Definition sim_idle : sys sim := Sys sim_params zero_pdma 0 sim_device sim0.

#[local] Existing Instance circ_macros.
#[local] Existing Instance ioctl_macros.

Lemma sim_idle_inv : idle_inv 14 14 sim_idle.
Proof.
  split; [| done]. split.
  - exact zero_pdma_wf.
  - split; try done; cbn; try lia.
    + intros []; [by exists real_ops | by exists mock_ops].
    + intros []; [by exists real_ops | by exists mock_ops].
  - by split.
Qed.

Definition state_after (fuel : nat) (op : file_op) (s : sys sim) : sys sim :=
  match run_op fuel op s with Done _ s' => s' | _ => s end.

Lemma state_after_inv fuel op s :
  driver_inv 14 14 s → enabled op s → driver_inv 14 14 (state_after fuel op s).
Proof.
  intros Hs He. unfold state_after. pose proof (run_op_inv 14 14 fuel op s (conj Hs He)) as Hp.
  by destruct (run_op fuel op s).
Qed.
Lemma driver_inv_open s : driver_inv 14 14 s → s_use_count s = 1 → sys_inv 14 14 s.
Proof. intros [Hs | Hs]; [rewrite (idle_count _ _ _ Hs); discriminate | done]. Qed.
(** The same device, open. *)
Definition sim_open : sys sim := state_after 0 OpOpen sim_idle.
Lemma sim_open_inv : sys_inv 14 14 sim_open.
Proof.
  apply driver_inv_open; [| vm_compute; reflexivity].
  apply state_after_inv; [left; exact sim_idle_inv | exact I].
Qed.


Lemma open_release_exclusive_witness :
  post (λ r s, r = 0 ∧ idle_inv 14 14 s) (whitebox_release 1 sim_open).
Proof.
  exact (proj2 (proj2 (open_release_exclusive (W := sim) 14 14 1)) sim_open sim_open_inv).
Defined.
