(* ===== verification/StateMachine.v ===== *)
(** * The states of the device

    The file operations as a state machine over [whitebox_device_state]: which
    operation may move the device where, with which result.  The interrupt and
    everything below the file operations leave the state alone. *)

From S2P Require Import Prelude Kernel State Sim Pdma PdmaSpec UserRing UserRingSpec Gpio.
From S2P Require Import Exciter Receiver RfBlocks TxRx Ioctl IoctlSpec Driver Invariant Safety.
From S2P Require Import Lifecycle.

Definition rx_side (d : whitebox_device_state) : bool :=
  match d with WDS_RX | WDS_RX_STREAMING | WDS_RX_STOPPING => true | _ => false end.
Definition tx_side (d : whitebox_device_state) : bool :=
  match d with WDS_TX | WDS_TX_STREAMING | WDS_TX_STOPPING => true | _ => false end.

Section machine.
Context {W : Type} `{!Kernel W} `{!CircMacros} `{!IoctlMacros} (k km : Z).

(** [moves op d r d']: in state [d], operation [op] may return [r] and leave the
    device in state [d']. *)
Definition moves (op : file_op) (d : whitebox_device_state) (r : Z) (d' : whitebox_device_state)
    : Prop :=
  match op with
  | OpWrite _ _ _ =>
      if rx_side d then d' = d ∧ (r = - EBUSY ∨ r = - ERESTARTSYS)
      else d' = d ∧ (d = WDS_IDLE → r = - ERESTARTSYS) ∨
           d = WDS_IDLE ∧ d' = WDS_TX ∨
           d' = WDS_TX_STREAMING ∧ 0 ≤ r
  | OpRead _ _ _ =>
      if tx_side d then d' = d ∧ (r = - EBUSY ∨ r = - ERESTARTSYS)
      else d' = d ∨ d = WDS_IDLE ∧ d' = WDS_RX_STREAMING
  | OpFsync =>
      if is_tx d then
        d' = d ∧ r = - ERESTARTSYS ∨
        d' = WDS_TX_STOPPING ∧ (r = - EIO ∨ r = - ERESTARTSYS) ∨
        d' = WDS_IDLE ∧ r = 0
      else if is_rx d then d' = d ∧ r = - ERESTARTSYS ∨ d' = WDS_IDLE ∧ r = 0
      else d' = d ∧ (r = 0 ∨ r = - ERESTARTSYS)
  | OpIoctl cmd _ =>
      d' = d ∨ cmd = W_MMAP_READ ∧ d = WDS_IDLE ∧ d' = WDS_RX_STREAMING
  | _ => d' = d
  end.

Abbreviation at_state d := (in_state (W := W) k km (λ x, x = d)).
Definition ends (R : Z → whitebox_device_state → Prop) (r : Z) (s : sys W) : Prop :=
  sys_inv k km s ∧ R r (wb_state (s_wb s)).

Lemma set_state_goes Q d : hoare (in_state k km Q) (set_state d) (λ _, at_state d).
Proof. intros s [Hs _]. split; [| done]. by apply (keeps_set_state k km d). Qed.
Lemma get_state_at {B} d (f : whitebox_device_state → M (sys W) B) R :
  hoare (at_state d) (f d) R → hoare (at_state d) (get_state ≫= f) R.
Proof. intros Hf. apply get_state_then. by intros ? ->. Qed.
Lemma ends_ret d r (R : Z → whitebox_device_state → Prop) :
  R r d → hoare (at_state d) (mret r) (ends R).
Proof. intros HR s [Hs Hd]. split; [done |]. by rewrite Hd. Qed.
Lemma ends_keeps d (m : M (sys W) Z) (R : Z → whitebox_device_state → Prop) :
  keeps (at_state d) m → (∀ r, R r d) → hoare (at_state d) m (ends R).
Proof.
  intros Hm HR. eapply hoare_conseq; [exact Hm | done |]. intros r s [Hs Hd].
  split; [done |]. by rewrite Hd.
Qed.
Lemma ends_mono (R R' : Z → whitebox_device_state → Prop) P (m : M (sys W) Z) :
  hoare P m (ends R) → (∀ r d, R r d → R' r d) → hoare P m (ends R').
Proof. intros Hm HR. eapply hoare_conseq; [exact Hm | done |]. intros r s []. by split; auto. Qed.

(** After the first steps of [write], the state stays or streaming begins. *)
Definition write_tail d (r : Z) (d' : whitebox_device_state) : Prop :=
  d' = d ∨ d' = WDS_TX_STREAMING ∧ 0 ≤ r.

Ltac at_tac := repeat first
  [ apply ends_ret
  | apply keeps_then; [keeps_tac; fail | intros ?] ].

Lemma at_weaken {A} d (Q : whitebox_device_state → Prop) (m : M (sys W) A) :
  keeps (at_state d) m → Q d → hoare (at_state d) m (λ _, in_state k km Q).
Proof.
  intros Hm HQ. eapply hoare_conseq; [exact Hm | done |]. intros ? s [? ?].
  split; [done |]. by subst d.
Qed.
Lemma write_kick_goes d :
  hoare (at_state d) write_kick (λ _, in_state k km (λ x, x = d ∨ x = WDS_TX_STREAMING)).
Proof.
  unfold write_kick, user_source_total. apply get_state_at.
  destruct (bool_decide _); [apply at_weaken; [keeps_tac | auto] |].
  do 2 (apply keeps_then; [keeps_tac | intros ?]).
  unfold when. destruct (_ <=? _); [| apply at_weaken; [keeps_tac | auto]].
  eapply hoare_bind; [apply set_state_goes |]. intros ?. cbv beta.
  apply at_weaken; [keeps_tac | auto].
Qed.

Lemma write_copy_goes d buf n dest m :
  hoare (at_state d) (write_copy buf n dest m) (ends (write_tail d)).
Proof.
  unfold write_copy. do 2 (apply keeps_then; [keeps_tac | intros ?]).
  destruct (_ <? 0) eqn:E; [at_tac; by left |].
  do 4 (apply keeps_then; [keeps_tac | intros ?]).
  eapply hoare_bind; [apply write_kick_goes |]. intros ?. cbv beta.
  apply keeps_then; [keeps_tac | intros _].
  intros s [Hs Hd]. split; [done |]. destruct Hd; [by left | right; split; [done | lia]].
Qed.

Lemma write_data_goes fuel nb buf n d :
  hoare (at_state d) (write_data fuel nb buf n) (ends (write_tail d)).
Proof.
  unfold write_data. destruct (_ =? 0); [at_tac; by left |].
  apply keeps_then; [keeps_tac |]. intros err.
  destruct (nz err); [at_tac; by left |].
  apply keeps_then; [keeps_tac |]. intros [ret | [[err' m] dest]]; [apply ends_ret; by left |].
  destruct (nz err'); [at_tac; by left | apply write_copy_goes].
Qed.
Lemma write_goes fuel nb buf n d :
  hoare (at_state d) (whitebox_write fuel nb buf n) (ends (moves (OpWrite nb buf n) d)).
Proof.
  unfold whitebox_write. apply keeps_then; [keeps_tac |].
  intros []; [apply ends_ret; destruct d; cbn; naive_solver |]. apply get_state_at.
  destruct d; try (at_tac; cbn; by auto); cbn [when bool_decide];
    try (eapply hoare_bind; [apply keeps_ret |]; intros ?; cbv beta;
         eapply ends_mono; [apply write_data_goes |]; unfold write_tail; cbn; intuition congruence).
  eapply (hoare_bind _ _ (λ _, at_state WDS_TX)).
  - eapply hoare_bind; [apply set_state_goes |]. intros ?. cbv beta.
    apply at_weaken; [keeps_tac | done].
  - intros ?. eapply ends_mono; [apply write_data_goes |]. unfold write_tail. cbn. intuition congruence.
Qed.

Lemma read_goes fuel nb buf n d :
  hoare (at_state d) (whitebox_read fuel nb buf n) (ends (moves (OpRead nb buf n) d)).
Proof.
  unfold whitebox_read.
  do 2 (apply keeps_then; [keeps_tac | intros ?]). apply keeps_then; [keeps_tac |].
  intros []; [apply ends_ret; destruct d; cbn; auto |]. apply get_state_at.
  destruct (n =? 0); [destruct d; at_tac; cbn; auto |].
  destruct d; try (at_tac; cbn; by auto);
    try (apply ends_keeps; [keeps_tac; fail | cbn; by auto]).
  apply keeps_then; [keeps_tac | intros ?].
  eapply (hoare_bind _ _ (λ _, at_state WDS_RX_STREAMING)).
  - eapply hoare_bind; [apply set_state_goes |]. intros ?. cbv beta.
    apply at_weaken; [keeps_tac | done].
  - intros ?. eapply ends_mono; [apply (ends_keeps _ _ (λ _ d', d' = WDS_RX_STREAMING)) |].
    + keeps_tac.
    + done.
    + cbn. auto.
Qed.

Lemma fsync_rx_goes d :
  hoare (at_state d) fsync_rx (ends (λ r d', r = 0 ∧ d' = if is_rx d then WDS_IDLE else d)).
Proof.
  unfold fsync_rx. apply get_state_at. unfold when. destruct (is_rx d).
  - eapply (hoare_bind _ _ (λ _, at_state WDS_IDLE)).
    + eapply hoare_bind; [apply set_state_goes |]. intros ?. cbv beta.
      apply keeps_then; [keeps_tac | intros ?]. apply set_state_goes.
    + intros ?. cbv beta. by at_tac.
  - by at_tac.
Qed.
Lemma fsync_tx_goes fuel e d :
  hoare (at_state d) (fsync_tx fuel e)
    (ends (λ r d', d' = WDS_TX_STOPPING ∧ (r = - EIO ∨ r = - ERESTARTSYS) ∨
                   d' = WDS_IDLE ∧ r = 0)).
Proof.
  unfold fsync_tx. apply keeps_then; [keeps_tac | intros st].
  eapply hoare_bind; [apply set_state_goes |]. intros ?. cbv beta.
  apply keeps_then; [keeps_tac | intros ?].
  apply keeps_then; [keeps_tac | intros [err |]]; [| apply ends_ret; auto].
  destruct (nz err); [at_tac; auto |]. apply keeps_then; [keeps_tac | intros ?].
  apply keeps_then; [keeps_tac | intros err2].
  destruct (nz err2); [at_tac; auto |].
  apply keeps_then; [keeps_tac | intros [err3 |]]; [| apply ends_ret; auto].
  destruct (nz err3); [at_tac; auto |].
  eapply hoare_bind; [apply set_state_goes |]. intros ?. cbv beta.
  eapply ends_mono; [apply fsync_rx_goes |]. cbn. intros r d' [-> ->]. auto.
Qed.
Lemma fsync_goes fuel d :
  hoare (at_state d) (whitebox_fsync fuel) (ends (moves OpFsync d)).
Proof.
  unfold whitebox_fsync, the_exciter. apply keeps_then; [keeps_tac | intros e].
  apply keeps_then; [keeps_tac |]. intros []; [apply ends_ret; unfold moves; destruct (is_tx d), (is_rx d); tauto |].
  apply get_state_at. destruct (is_tx d) eqn:E.
  - eapply ends_mono; [apply fsync_tx_goes |]. cbn. rewrite E. tauto.
  - eapply ends_mono; [apply fsync_rx_goes |]. cbn. rewrite E. intros r d' [-> ->].
    destruct (is_rx d); tauto.
Qed.

Lemma mmap_read_goes arg d :
  d ≠ WDS_RX_STREAMING →
  hoare (at_state d) (whitebox_ioctl_mmap_read arg)
    (ends (λ _ d', d' = d ∨ d = WDS_IDLE ∧ d' = WDS_RX_STREAMING)).
Proof.
  intros Hd. unfold whitebox_ioctl_mmap_read. apply keeps_then; [keeps_tac |].
  intros []; [apply ends_ret; auto |]. apply get_state_at.
  destruct d; try done; try (by at_tac; auto).
  eapply hoare_bind; [apply set_state_goes |]. intros ?. cbv beta.
  apply ends_keeps; [keeps_tac | auto].
Qed.
Lemma ioctl_goes cmd arg d :
  (cmd = W_MMAP_READ → d ≠ WDS_RX_STREAMING) →
  hoare (λ s, at_state d s ∧ (cmd = WF_SET → fir_request_ok arg s)) (whitebox_ioctl cmd arg)
    (ends (moves (OpIoctl cmd arg) d)).
Proof.
  intros Hd. destruct (decide (cmd = W_MMAP_READ)) as [-> |].
  { rewrite ioctl_mmap_read_case.
    eapply hoare_conseq; [by apply mmap_read_goes; auto | by intros s [] |].
    intros r s [? [? | [? ?]]]; (split; [done |]); cbn; auto. }
  destruct (decide (cmd = WF_SET)) as [-> |].
  { rewrite ioctl_fir_set_case.
    eapply hoare_conseq; [eapply (ioctl_fir_set_safe k km (at_state d)); typeclasses eauto | |].
    - intros s [? Hf]. split; [done | by apply Hf].
    - intros r s [? Hs]. split; [done |]. cbn. rewrite Hs. by left. }
  eapply hoare_conseq; [apply (ends_keeps d _ (moves (OpIoctl cmd arg) d)) | by intros s [] | done].
  - apply (keeps_whitebox_ioctl k km); [typeclasses eauto | done..].
  - intros r. by left.
Qed.

End machine.

#[local] Existing Instance circ_macros.
#[local] Existing Instance ioctl_macros.

(** A receiving device refuses to transmit. *)
Definition sim_receiving : sys sim := state_after 4 (OpRead true 0x1000 16) sim_open.
Lemma sim_receiving_inv : sys_inv 14 14 sim_receiving.
Proof.
  apply driver_inv_open; [| vm_compute; reflexivity].
  apply state_after_inv; [right; exact sim_open_inv | vm_compute; reflexivity].
Qed.
