(* ===== verification/Termination.v ===== *)
(** * What always returns

    The steps of the data paths, the interrupt handler and the operations that may
    not sleep return from every state, whatever the hardware answers. *)

From S2P Require Import Prelude Kernel State Sim Pdma PdmaSpec UserRing UserRingSpec.
From S2P Require Import Gpio Exciter Receiver RfBlocks TxRx Ioctl Driver Invariant Safety.
From S2P Require Import Lifecycle.

(** ** Computations that return or crash, and what they return *)

Section live.
Context {S : Type}.

Definition live {A} (m : M S A) : Prop := ∀ s, m s ≠ Spinning.
Definition returns {A} (m : M S A) (Q : A → Prop) : Prop := ∀ s a s', m s = Done a s' → Q a.

Lemma live_bind_returns {A B} (m : M S A) Q (f : A → M S B) :
  live m → returns m Q → (∀ a, Q a → live (f a)) → live (m ≫= f).
Proof.
  intros Hm HQ Hf s. unfold mbind, M_bind. specialize (Hm s). specialize (HQ s).
  destruct (m s) as [a s' | c |]; [| done..]. eapply Hf, HQ; done.
Qed.
Lemma live_bind {A B} (m : M S A) (f : A → M S B) :
  live m → (∀ a, live (f a)) → live (m ≫= f).
Proof. intros Hm Hf. by apply (live_bind_returns m (λ _, True)). Qed.
Lemma live_ret {A} (a : A) : live (mret a).
Proof. done. Qed.
Lemma live_gets {A} (f : S → A) : live (gets f).
Proof. done. Qed.
Lemma live_modify (f : S → S) : live (modify f).
Proof. done. Qed.
Lemma live_fail {A} c : live (fail_with (A := A) c).
Proof. done. Qed.
Lemma live_get_index {A} (l : list A) i : live (get_index l i).
Proof. intros s. unfold get_index. destruct (decide _); [| done]. by destruct (l !! _). Qed.
Lemma live_for_loop n a (body : Z → M S ()) : (∀ i, live (body i)) → live (for_loop n a body).
Proof.
  intros Hb. revert a. induction n as [|n IH]; intros a; [done |].
  apply live_bind; [apply Hb | intros; apply IH].
Qed.

Lemma returns_bind {A B} (m : M S A) (f : A → M S B) Q :
  (∀ a, returns (f a) Q) → returns (m ≫= f) Q.
Proof. intros Hf s b s'. unfold mbind, M_bind. destruct (m s); [apply Hf | done..]. Qed.
Lemma returns_bind_returns {A B} (m : M S A) R (f : A → M S B) Q :
  returns m R → (∀ a, R a → returns (f a) Q) → returns (m ≫= f) Q.
Proof.
  intros Hm Hf s b s'. unfold mbind, M_bind. destruct (m s) as [a s1 | |] eqn:E; [| done..].
  eapply Hf, Hm, E.
Qed.
Lemma returns_ret {A} (a : A) (Q : A → Prop) : Q a → returns (mret a) Q.
Proof. by intros Ha s b s' [= <- _]. Qed.

(** Two continuations that agree on what is returned. *)
Lemma bind_ext {A B} (m : M S A) Q (f g : A → M S B) s :
  returns m Q → (∀ a s, Q a → f a s = g a s) → (m ≫= f) s = (m ≫= g) s.
Proof.
  intros Hm Hfg. unfold mbind, M_bind. destruct (m s) as [a s1 | |] eqn:E; [| done..].
  eapply Hfg, Hm, E.
Qed.
End live.

Create HintDb live discriminated.
#[export] Hint Resolve live_ret live_gets live_modify live_fail live_get_index : live.

(** Walk down a computation, unfolding what is met; recursive definitions have their
    lemma in the [live] database. *)
Ltac live_tac := cbv beta zeta iota;
  first
  [ solve [eauto 3 with live nocore]
  | lazymatch goal with
    | |- live (mbind _ _) => apply live_bind; [live_tac | intros; live_tac]
    | |- live (for_loop _ _ _) => apply live_for_loop; intros; live_tac
    | |- live (match ?x with _ => _ end) => destruct x; live_tac
    | |- live ?m => let h := code_head m in unfold h; live_tac
    end ].

Section steps.
Context {W : Type} `{!Kernel W} `{!CircMacros} `{!IoctlMacros}.

Lemma live_call {A} (f : W → A * W) : live (call f).
Proof. done. Qed.
#[local] Hint Resolve live_call : live.
Lemma live_rd_bits pd n b : live (cmx991_rd_bits (W := W) pd n b).
Proof. revert b. induction n as [|n IH]; intros b; cbn [cmx991_rd_bits]; live_tac. Qed.
#[local] Hint Resolve live_rd_bits : live.

(** What is called from many places. *)
Lemma live_pdma_start ch a b n : live (pdma_start (W := W) ch a b n).
Proof. live_tac. Qed.
Lemma live_pdma_available ch : live (pdma_buffers_available (W := W) ch).
Proof. live_tac. Qed.
#[local] Hint Resolve live_pdma_start live_pdma_available : live.
Lemma live_sink_space : live (S := sys W) whitebox_rf_sink_space_available.
Proof. live_tac. Qed.
Lemma live_source_data : live (S := sys W) whitebox_rf_source_data_available.
Proof. live_tac. Qed.
#[local] Hint Resolve live_sink_space live_source_data : live.
Lemma live_d_printk_loop l : live (S := sys W) (d_printk_loop l).
Proof. live_tac. Qed.
Lemma live_sink_work a b c d : live (S := sys W) (whitebox_rf_sink_work a b c d).
Proof. live_tac. Qed.
Lemma live_tx_error : live (S := sys W) tx_error.
Proof. live_tac. Qed.
Lemma live_rx_error : live (S := sys W) rx_error.
Proof. live_tac. Qed.
#[local] Hint Resolve live_d_printk_loop live_sink_work live_tx_error live_rx_error : live.

Lemma returns_sink_work src n dst m :
  returns (S := sys W) (whitebox_rf_sink_work src n dst m) (λ r, r ≤ 0).
Proof.
  unfold whitebox_rf_sink_work. destruct (_ =? 0); [by apply returns_ret |].
  do 2 (apply returns_bind; intros). destruct a0; [by apply returns_ret |].
  do 2 (apply returns_bind; intros). destruct (_ <? 0); [by apply returns_ret |].
  do 2 (apply returns_bind; intros). by apply returns_ret.
Qed.
Lemma returns_source_work src n dst m :
  returns (S := sys W) (whitebox_rf_source_work src n dst m) (λ r, r ≤ 0).
Proof.
  unfold whitebox_rf_source_work. destruct (_ =? 0); [by apply returns_ret |].
  do 2 (apply returns_bind; intros). destruct (_ <? 0); [by apply returns_ret |].
  apply returns_bind; intros. by apply returns_ret.
Qed.

Lemma live_tx_move again fl i : live (S := sys W) (tx_move again fl i).
Proof.
  unfold tx_move. do 2 (apply live_bind; [live_tac | intros]; cbv beta zeta).
  destruct (_ =? 0); [live_tac |]. destruct (_ =? 0); [live_tac |].
  destruct (snd _); [| live_tac].
  eapply live_bind_returns; [live_tac | apply returns_sink_work |]. intros r Hr. cbv beta in Hr.
  assert ((0 <? r) = false) as -> by lia. live_tac.
Qed.
Lemma live_tx_exec fuel : live (S := sys W) (tx_exec (S fuel)).
Proof. cbn [tx_exec]. pose proof (live_tx_move (tx_exec fuel)). live_tac. Qed.
Lemma live_rx_move again fl i : live (S := sys W) (rx_move again fl i).
Proof.
  unfold rx_move. do 3 (apply live_bind; [live_tac | intros]; cbv beta zeta).
  destruct (_ =? 0); [live_tac |]. destruct (_ <=? 1); [live_tac |].
  destruct (snd a), (snd a0); [| live_tac..].
  eapply live_bind_returns; [live_tac | apply returns_source_work |]. intros r Hr. cbv beta in Hr.
  assert ((0 <? r) = false) as -> by lia. live_tac.
Qed.
Lemma live_rx_exec fuel : live (S := sys W) (rx_exec (S fuel)).
Proof. cbn [rx_exec]. pose proof (live_rx_move (rx_exec fuel)). live_tac. Qed.
#[local] Hint Resolve live_tx_exec live_rx_exec : live.

Lemma live_exec : live (S := sys W) (tx_exec exec_fuel) ∧ live (S := sys W) (rx_exec exec_fuel).
Proof. split; [apply live_tx_exec | apply live_rx_exec]. Qed.
Lemma live_irq_loop rh n status ch buf :
  (∀ h d b, live (S := sys W) (rh h d b)) → live (pdma_irq_loop rh n status ch buf).
Proof.
  intros Hrh. revert ch buf. induction n as [|n IH]; intros ch buf; cbn [pdma_irq_loop]; live_tac.
Qed.
Lemma live_run_handler h d b : live (S := sys W) (run_handler h d b).
Proof. pose proof live_exec as []. live_tac. Qed.
Lemma live_pdma_irq_cb : live (S := sys W) (pdma_irq_cb run_handler).
Proof.
  pose proof live_run_handler. unfold pdma_irq_cb. do 3 (apply live_bind; [live_tac | intros]).
  apply live_bind; [by apply live_irq_loop | intros; live_tac].
Qed.
#[local] Hint Resolve live_pdma_irq_cb : live.
Lemma live_irq_point : live (S := sys W) irq_point.
Proof. live_tac. Qed.
#[local] Hint Resolve live_irq_point : live.

(** ** Operations that do not wait *)

Lemma live_fir_get_loop e n i w : live (S := sys W) (fir_get_loop e n i w).
Proof. revert i w. induction n as [|n IH]; intros i w; cbn [fir_get_loop]; live_tac. Qed.
Lemma live_cmx991_get_loop pd lut i w : live (S := sys W) (cmx991_get_loop pd lut i w).
Proof. revert i w. induction lut as [|a lut IH]; intros i w; cbn [cmx991_get_loop]; live_tac. Qed.
#[local] Hint Resolve live_fir_get_loop live_cmx991_get_loop : live.
Lemma live_switch cmd (cases : list (Z * M (sys W) Z)) d :
  Forall (λ c, live c.2) cases → live d → live (switch cmd cases d).
Proof.
  intros Hc Hd. induction Hc as [|[c m] cases Hm _ IH]; cbn [switch]; [done |].
  by destruct (cmd =? c).
Qed.
Lemma live_ioctl cmd arg : live (S := sys W) (whitebox_ioctl cmd arg).
Proof.
  pose proof live_exec as []. unfold whitebox_ioctl. apply live_switch; [| done].
  unfold ioctl_table. do 21 (apply Forall_cons_2; [cbn [snd]; live_tac |]). apply Forall_nil_2.
Qed.
Lemma live_write_nonblock fuel buf n : live (S := sys W) (whitebox_write (S fuel) true buf n).
Proof.
  pose proof live_exec as []. unfold whitebox_write, write_data.
  assert (∀ err, live (S := sys W) (write_wait (S fuel) true n err)) by
    (intros; cbn [write_wait]; live_tac).
  live_tac.
Qed.
Lemma live_read_nonblock fuel buf n : live (S := sys W) (whitebox_read (S fuel) true buf n).
Proof.
  pose proof live_exec as []. unfold whitebox_read, read_finish.
  assert (live (S := sys W) (read_wait (S fuel) true n)) by (cbn [read_wait]; live_tac).
  live_tac.
Qed.

(** The operations that must not wait, or are asked not to. *)
Definition nonblocking (op : file_op) : Prop :=
  match op with
  | OpRelease | OpFsync => False
  | OpRead nb _ _ | OpWrite nb _ _ => nb = true
  | _ => True
  end.
#[local] Hint Resolve live_read_nonblock live_write_nonblock live_ioctl : live.
Lemma live_run_op fuel op : nonblocking op → live (run_op (S fuel) op).
Proof.
  destruct op; cbn [nonblocking run_op]; try done; intros; subst; live_tac.
Qed.

(** ** Properties *)

(** The self-call is never reached: the fuel left to it does not matter. *)
Lemma tx_move_again a1 a2 fl i (s : sys W) : tx_move a1 fl i s = tx_move a2 fl i s.
Proof.
  unfold tx_move. apply (bind_ext _ (λ _, True)); [done |]. intros source s1 _. cbv zeta.
  apply (bind_ext _ (λ _, True)); [done |]. intros sink s2 _.
  destruct (_ =? 0); [done |]. destruct (_ =? 0); [done |]. destruct (snd sink); [| done].
  apply (bind_ext _ (λ r, r ≤ 0)); [apply returns_sink_work |]. intros r s3 Hr.
  by assert ((0 <? r) = false) as -> by lia.
Qed.
Lemma rx_move_again a1 a2 fl i (s : sys W) : rx_move a1 fl i s = rx_move a2 fl i s.
Proof.
  unfold rx_move. apply (bind_ext _ (λ _, True)); [done |]. intros source s1 _. cbv zeta.
  do 2 (apply (bind_ext _ (λ _, True)); [done |]; intros ? ? _).
  destruct (_ =? 0); [done |]. destruct (_ <=? 1); [done |].
  destruct (snd source), (snd a); [| done..].
  apply (bind_ext _ (λ r, r ≤ 0)); [apply returns_source_work |]. intros r s3 Hr.
  by assert ((0 <? r) = false) as -> by lia.
Qed.
Lemma tx_exec_fuel n (s : sys W) : tx_exec (S n) s = tx_exec exec_fuel s.
Proof.
  unfold exec_fuel. cbn [tx_exec]. do 2 (apply (bind_ext _ (λ _, True)); [done |]; intros ? ? _).
  destruct a0; [| done]. do 4 (apply (bind_ext _ (λ _, True)); [done |]; intros ? ? _).
  apply tx_move_again.
Qed.
Lemma rx_exec_fuel n (s : sys W) : rx_exec (S n) s = rx_exec exec_fuel s.
Proof.
  unfold exec_fuel. cbn [rx_exec]. do 3 (apply (bind_ext _ (λ _, True)); [done |]; intros ? ? _).
  destruct a1; [| done]. do 4 (apply (bind_ext _ (λ _, True)); [done |]; intros ? ? _).
  apply rx_move_again.
Qed.

(** The outcome of a computation that is live and safe. *)
Lemma live_done {A} (m : M (sys W) A) Q s : live m → post Q (m s) → ∃ a s', m s = Done a s' ∧ Q a s'.
Proof. intros Hm Hp. specialize (Hm s). destruct (m s) as [a s' | |]; [eauto | done..]. Qed.

(** [m] returns from [s], in a state of the invariant. *)
Definition done_in {A} (I : sys W → Prop) (m : M (sys W) A) (s : sys W) : Prop :=
  ∃ a s', m s = Done a s' ∧ I s'.

(** C6: on an open device the transmit step, the receive step and the DMA interrupt
    with all it calls always return, and leave the device's invariant: the steps are
    written to call themselves again, but the transfer they program never completes
    at once, so the self-call is never reached and any number of turns allowed gives
    the same result. *)
Theorem steps_return k km (s : sys W) :
  sys_inv k km s →
  done_in (sys_inv k km) (tx_exec exec_fuel) s ∧
  done_in (sys_inv k km) (rx_exec exec_fuel) s ∧
  done_in (sys_inv k km) (pdma_irq_cb run_handler) s ∧
  (∀ n, tx_exec (S n) s = tx_exec exec_fuel s ∧ rx_exec (S n) s = rx_exec exec_fuel s).
Proof.
  intros Hs. destruct live_exec as [Htx Hrx]. split_and!.
  - destruct (live_done (tx_exec exec_fuel) (λ _, sys_inv k km) s Htx) as (r & s' & ? & ?);
      [eapply keeps_tx_exec; [typeclasses eauto | exact Hs] | by exists r, s'].
  - destruct (live_done (rx_exec exec_fuel) (λ _, sys_inv k km) s Hrx) as (r & s' & ? & ?);
      [eapply keeps_rx_exec; [typeclasses eauto | exact Hs] | by exists r, s'].
  - destruct (live_done (pdma_irq_cb run_handler) (λ _, sys_inv k km) s live_pdma_irq_cb)
      as ([] & s' & ? & ?); [eapply keeps_pdma_irq; [typeclasses eauto | exact Hs] | by exists (), s'].
  - intros n. by rewrite tx_exec_fuel, rx_exec_fuel.
Qed.

End steps.

#[local] Existing Instance circ_macros.
#[local] Existing Instance ioctl_macros.

Lemma steps_return_witness :
  sys_inv 14 14 sim_open ∧ done_in (sys_inv 14 14) (tx_exec exec_fuel) sim_open.
Proof.
  split; [exact sim_open_inv |].
  exact (proj1 (steps_return (W := sim) 14 14 sim_open sim_open_inv)).
Defined.
