(* ===== verification/WorldSpec.v ===== *)
(** * What the data paths do to the world

    The transmit and receive steps, the interrupt and the error checks make few calls to
    the kernel.  A relation between worlds that holds across each of those calls holds
    across the whole of them, and the state of the device stays what it is. *)

From S2P Require Import Prelude Kernel State Pdma UserRing Gpio Exciter Receiver RfBlocks TxRx.
From S2P Require Import Ioctl.

(** [RW] relates a world to what each of these calls makes of it. *)
Class WorldSteps {W} `{!Kernel W} (RW : W → W → Prop) : Prop := {
  steps_preorder :: PreOrder RW;
  st_readl a w : RW w (k_readl a w).2;
  st_writel a v w : RW w (k_writel a v w);
  st_lock l w : RW w (k_spin_lock_irqsave l w).2;
  st_trylock l w : RW w (k_spin_trylock_irqsave l w).2;
  st_unlock l f w : RW w (k_spin_unlock_irqrestore l f w);
  st_up w : RW w (k_up w);
  st_wake_up q w : RW w (k_wake_up_interruptible q w);
  st_irq w : RW w (k_irq_taken w).2;
  st_udelay n w : RW w (k_udelay n w);
  st_map a n d w : RW w (k_dma_map_single a n d w).2;
  st_mapping_error a w : RW w (k_dma_mapping_error a w).2;
  st_unmap a n d w : RW w (k_dma_unmap_single a n d w);
  st_gpio_set p v w : RW w (k_gpio_set_value p v w);
  st_gpio_get p w : RW w (k_gpio_get_value p w).2;
}.

Section world.
Context {W : Type} `{!Kernel W} `{!CircMacros} (RW : W → W → Prop) `{!WorldSteps RW}.

Definition world (s s' : sys W) : Prop := RW (s_world s) (s_world s').
Definition dev_state (s : sys W) : whitebox_device_state := wb_state (s_wb s).
Definition quiet (s s' : sys W) : Prop := world s s' ∧ same dev_state s s'.
#[global] Instance world_preorder : PreOrder world.
Proof. split; [by intros s; unfold world | intros s1 s2 s3; unfold world; by etrans]. Qed.
#[global] Instance quiet_preorder : PreOrder quiet.
Proof. split; [by intros s | intros s1 s2 s3 [] []; split; by etrans]. Qed.
Lemma quiet_world {A} (m : M (sys W) A) : within quiet m → within world m.
Proof. intros Hm s a s' E. apply (Hm _ _ _ E). Qed.

Lemma within_call {A} (f : W → A * W) : (∀ w, RW w (f w).2) → within quiet (call f).
Proof. intros Hf s a s' [= <- <-]. split; [apply Hf | done]. Qed.
Lemma within_call_ (f : W → W) : (∀ w, RW w (f w)) → within quiet (call_ f).
Proof. intros Hf s a s' [= <- <-]. split; [apply Hf | done]. Qed.
Lemma quiet_modify (g : sys W → sys W) :
  (∀ s, s_world (g s) = s_world s) → (∀ s, dev_state (g s) = dev_state s) → within quiet (modify g).
Proof.
  intros Hw Hd. apply within_modify. intros s. split; [| by unfold same; rewrite Hd].
  unfold world. by rewrite Hw.
Qed.
Lemma world_modify (g : sys W → sys W) :
  (∀ s, s_world (g s) = s_world s) → within world (modify g).
Proof. intros Hw. apply within_modify. intros s. unfold world. by rewrite Hw. Qed.
End world.

#[export] Hint Extern 0 (WorldSteps _) => typeclasses eauto : within.
(** The calls that the paths make; what writes to the structures leaves the world alone. *)
#[export] Hint Extern 1 (within (quiet _) (call _)) => apply within_call; intros;
  first [apply st_readl | apply st_lock | apply st_trylock | apply st_irq | apply st_map
        | apply st_mapping_error | apply st_gpio_get] : within.
#[export] Hint Extern 1 (within (quiet _) (call_ _)) => apply within_call_; intros;
  first [apply st_writel | apply st_unlock | apply st_up | apply st_wake_up | apply st_udelay
        | apply st_unmap | apply st_gpio_set] : within.
#[export] Hint Extern 1 (within (quiet _) (modify _)) =>
  apply quiet_modify; [exact _ | by intros | by intros] : within.
#[export] Hint Extern 1 (within (world _) (modify _)) =>
  apply world_modify; [exact _ | by intros] : within.
#[export] Hint Extern 3 (within (world _) _) =>
  apply quiet_world; solve [eauto 2 with within nocore] : within.

Section quiet_steps.
Context {W : Type} `{!Kernel W} `{!CircMacros} `{!IoctlMacros} (RW : W → W → Prop) `{!WorldSteps RW}.

Lemma quiet_rd_bits pd n b : within (quiet RW) (cmx991_rd_bits pd n b).
Proof. revert b. induction n as [| n IH]; intros b; cbn [cmx991_rd_bits]; within_tac. Qed.
#[local] Hint Resolve quiet_rd_bits : within.
Lemma quiet_tx_error : within (quiet RW) tx_error.
Proof. within_tac. Qed.
Lemma quiet_rx_error : within (quiet RW) rx_error.
Proof. within_tac. Qed.
Lemma quiet_printk l : within (quiet RW) (d_printk_loop l).
Proof. within_tac. Qed.
#[local] Hint Resolve quiet_tx_error quiet_rx_error quiet_printk : within.
Lemma quiet_tx_exec fuel : within (quiet RW) (tx_exec fuel).
Proof. induction fuel as [| fuel IH]; cbn [tx_exec]; within_tac. Qed.
#[local] Hint Resolve quiet_tx_exec : within.
Lemma quiet_rx_exec fuel : within (quiet RW) (rx_exec fuel).
Proof. induction fuel as [| fuel IH]; cbn [rx_exec]; within_tac. Qed.
#[local] Hint Resolve quiet_rx_exec : within.
Lemma quiet_run_handler h d b : within (quiet RW) (run_handler h d b).
Proof. within_tac. Qed.
#[local] Hint Resolve quiet_run_handler : within.
Lemma quiet_irq_loop n status ch buf : within (quiet RW) (pdma_irq_loop run_handler n status ch buf).
Proof. revert ch buf. induction n as [| n IH]; intros ch buf; cbn [pdma_irq_loop]; within_tac. Qed.
#[local] Hint Resolve quiet_irq_loop : within.
Lemma quiet_irq_point : within (quiet RW) irq_point.
Proof. within_tac. Qed.
#[local] Hint Resolve quiet_irq_point : within.
Lemma quiet_up : within (quiet RW) up.
Proof. within_tac. Qed.
#[local] Hint Resolve quiet_up : within.
End quiet_steps.
#[export] Hint Resolve quiet_rd_bits quiet_tx_error quiet_rx_error quiet_printk quiet_tx_exec
  quiet_rx_exec quiet_run_handler quiet_irq_loop quiet_irq_point quiet_up : within.
