(* ===== verification/SignalSpec.v ===== *)
(** * A signal ends every wait that sleeps

    The operations that may block, against a kernel in which a signal comes sooner or
    later.  A budget counts the times a process can still sleep or take the semaphore
    before it is told of the signal. *)

From S2P Require Import Prelude Kernel State Sim Pdma PdmaSpec UserRing UserRingSpec.
From S2P Require Import Gpio Exciter Receiver RfBlocks TxRx Ioctl Driver Invariant Safety.
From S2P Require Import Lifecycle Termination WorldSpec.

(** [budget w]: a sleep, or taking the semaphore, reports a signal or lowers it; nothing
    else raises it. *)
Class Signals {W} `{!Kernel W} (budget : W → nat) : Prop := {
  sig_down w :
    (k_down_interruptible w).1 = true ∨ (budget (k_down_interruptible w).2 < budget w)%nat;
  sig_sleep q w :
    (k_wait_event_sleep q w).1 = true ∨ (budget (k_wait_event_sleep q w).2 < budget w)%nat;
  sig_steps :: WorldSteps (λ w w', budget w' ≤ budget w)%nat;
}.

Section budget.
Context {W : Type} `{!Kernel W} `{!CircMacros} `{!IoctlMacros} (budget : W → nat) `{!Signals budget}.

Definition turns_left (s : sys W) : nat := budget (s_world s).
(** The steps that do not wait do not raise the budget. *)
Definition shrinks (w w' : W) : Prop := (budget w' ≤ budget w)%nat.
#[local] Instance shrinks_steps : WorldSteps shrinks := sig_steps.
Abbreviation quiet := (quiet shrinks).
Abbreviation calm := (world shrinks).

(** [ends n m Q]: with a budget of [n], [m] does not spin, and [Q] holds of what it
    returns and of the budget left. *)
Definition ends {A} (n : nat) (m : M (sys W) A) (Q : A → nat → Prop) : Prop :=
  ∀ s, (turns_left s ≤ n)%nat →
    match m s with Done a s' => Q a (turns_left s') | Crash _ => True | Spinning => False end.

Lemma ends_bind {A B} n (m : M (sys W) A) R (k : A → M (sys W) B) Q :
  ends n m R → (∀ a p, R a p → ends p (k a) Q) → ends n (m ≫= k) Q.
Proof.
  intros Hm Hk s Hs. specialize (Hm s Hs). unfold mbind, M_bind. destruct (m s) as [a s' | |]; [| done..].
  by apply (Hk a (turns_left s') Hm).
Qed.
Lemma ends_live {A} n (m : M (sys W) A) : live m → ends n m (λ _ _, True).
Proof. intros Hm s _. specialize (Hm s). by destruct (m s). Qed.
Lemma ends_pure {A} n (a : A) (Q : A → nat → Prop) : (∀ p, (p ≤ n)%nat → Q a p) → ends n (mret a) Q.
Proof. intros HQ s Hs. by apply HQ. Qed.
(** A step that neither waits nor raises the budget. *)
Lemma ends_step {A B} n (m : M (sys W) A) (k : A → M (sys W) B) Q :
  live m → within calm m → (∀ a, ends n (k a) Q) → ends n (m ≫= k) Q.
Proof.
  intros Hl Hc Hk. apply ends_bind with (R := λ _ p, (p ≤ n)%nat).
  - intros s Hs. specialize (Hl s). destruct (m s) as [a s' | |] eqn:E; [| done..].
    apply Hc in E. unfold world, shrinks, turns_left in *. lia.
  - intros a p Hp s Hs. apply Hk. lia.
Qed.
(** Taking the semaphore: the operation is told of the signal, or the budget is lower. *)
Lemma ends_down {B} n (k : bool → M (sys W) B) Q :
  (∀ p, ends p (k true) Q) → (∀ p, (p < n)%nat → ends p (k false) Q) →
  ends n (b ← down_interruptible; k b) Q.
Proof.
  intros Ht Hf. apply ends_bind with (R := λ b p, b = true ∨ (p < n)%nat).
  - unfold down_interruptible. apply ends_step; [apply live_irq_point | within_tac |].
    intros _ s Hs. unfold turns_left, call in *. cbn. destruct (sig_down (s_world s)); [by left | right; lia].
  - intros [] p Hp; [apply Ht |]. destruct Hp as [Hp | Hp]; [done | by apply Hf].
Qed.
(** A sleep for a condition ends with it, or with the signal. *)
Lemma ends_wait {A B} n fuel q (cond : M (sys W) (option A)) (k : option A → M (sys W) B) Q :
  live cond → within calm cond → (n < fuel)%nat →
  (∀ p, ends p (k None) Q) → (∀ a, ends n (k (Some a)) Q) →
  ends n (r ← wait_event_interruptible fuel q cond; k r) Q.
Proof.
  intros Hl Hc Hn Hnone Hsome.
  apply ends_bind with (R := λ r p, r = None ∨ (p ≤ n)%nat).
  - revert n Hn Hsome. induction fuel as [| fuel IH]; intros n Hn Hsome; [lia |].
    cbn [wait_event_interruptible]. apply ends_step; [done.. |]. intros [a |].
    { apply ends_pure. by right. }
    apply ends_step; [apply live_irq_point | within_tac |]. intros _.
    apply ends_bind with (R := λ b p, b = true ∨ (p < n)%nat).
    + intros s Hs. unfold turns_left, call in *. cbn. destruct (sig_sleep q (s_world s)); [by left | right; lia].
    + intros [] p Hp; [apply ends_pure; by left |]. destruct Hp as [Hp | Hp]; [done |].
      intros s Hs.
      assert (ends p (wait_event_interruptible fuel q cond) (λ r p0, r = None ∨ (p0 ≤ p)%nat)) as He.
      { apply IH; [lia |]. intros a s0 Hs0. apply Hsome. lia. }
      specialize (He s Hs). destruct (wait_event_interruptible fuel q cond s); [| done..].
      destruct He; [by left | right; lia].
  - intros [a |] p Hp; [| apply Hnone]. destruct Hp as [Hp | Hp]; [done |].
    intros s Hs. apply Hsome. lia.
Qed.

(** ** The loops *)

#[local] Hint Resolve live_call live_rd_bits live_tx_error live_rx_error live_irq_point : live.

Definition unspun {A} (n : nat) (m : M (sys W) A) : Prop := ends n m (λ _ _, True).

Lemma live_write_ready count : live (S := sys W) (write_ready count).
Proof. live_tac. Qed.
Lemma live_read_ready count : live (S := sys W) (read_ready count).
Proof. live_tac. Qed.
Lemma calm_write_ready count : within calm (write_ready count).
Proof. within_tac. Qed.
Lemma calm_read_ready count : within calm (read_ready count).
Proof. within_tac. Qed.

Lemma write_wait_ends fuel n nonblock count err :
  (n < fuel)%nat → unspun n (write_wait fuel nonblock count err).
Proof.
  unfold unspun. revert n err. induction fuel as [| fuel IH]; intros n err Hn; [lia |]. cbn [write_wait].
  apply ends_step; [live_tac | within_tac |]. intros d. destruct (_ <? _); [| by apply ends_pure].
  apply ends_step; [apply live_tx_error | within_tac |]. intros e.
  destruct (nz e); [by apply ends_pure |].
  apply ends_step; [live_tac | within_tac |]. intros _.
  destruct nonblock; [by apply ends_pure |].
  apply ends_wait; [apply live_write_ready | apply calm_write_ready | done | by intros; apply ends_pure |].
  intros a. apply ends_down; [by intros; apply ends_pure |]. intros p Hp. apply IH. lia.
Qed.
Lemma read_wait_ends fuel n nonblock count : (n < fuel)%nat → unspun n (read_wait fuel nonblock count).
Proof.
  unfold unspun. revert n. induction fuel as [| fuel IH]; intros n Hn; [lia |]. cbn [read_wait].
  apply ends_step; [apply live_rx_error | within_tac |]. intros e.
  destruct (nz e); [by apply ends_pure |].
  apply ends_step; [live_tac | within_tac |]. intros d. destruct (_ <? _); [| by apply ends_pure].
  apply ends_step; [live_tac | within_tac |]. intros _.
  destruct nonblock; [by apply ends_pure |].
  apply ends_step; [apply live_rx_exec | within_tac |]. intros _.
  apply ends_step; [apply live_d_printk_loop | within_tac |]. intros _.
  apply ends_wait; [apply live_read_ready | apply calm_read_ready | done | by intros; apply ends_pure |].
  intros a. apply ends_down; [by intros; apply ends_pure |]. intros p Hp. apply IH. lia.
Qed.
Lemma fsync_drain_ends fuel n : (n < fuel)%nat → unspun n (fsync_drain fuel).
Proof.
  unfold unspun. revert n. induction fuel as [| fuel IH]; intros n Hn; [lia |]. cbn [fsync_drain].
  apply ends_step; [live_tac | within_tac |]. intros d. destruct (_ <? _); [| by apply ends_pure].
  apply ends_step; [apply live_tx_error | within_tac |]. intros e.
  destruct (nz e); [by apply ends_pure |].
  apply ends_step; [live_tac | within_tac |]. intros _.
  apply ends_step; [apply live_tx_exec | within_tac |]. intros _.
  apply ends_step; [apply live_d_printk_loop | within_tac |]. intros _.
  apply ends_down; [by intros; apply ends_pure |]. intros p Hp. apply IH. lia.
Qed.
Lemma fsync_off_ends fuel n e : (n < fuel)%nat → unspun n (fsync_off fuel e).
Proof.
  unfold unspun. revert n. induction fuel as [| fuel IH]; intros n Hn; [lia |]. cbn [fsync_off].
  apply ends_step; [live_tac | within_tac |]. intros d. destruct (nz _); [| by apply ends_pure].
  apply ends_step; [apply live_tx_error | within_tac |]. intros err.
  destruct (nz err); [by apply ends_pure |].
  apply ends_step; [live_tac | within_tac |]. intros _.
  apply ends_down; [by intros; apply ends_pure |]. intros p Hp. apply IH. lia.
Qed.

(** ** The operations *)

Lemma write_ends fuel n nonblock buf count :
  (n < fuel)%nat → unspun n (whitebox_write fuel nonblock buf count).
Proof.
  intros Hn. pose proof live_exec as []. unfold unspun, whitebox_write.
  apply ends_down; [by intros; apply ends_pure |]. intros p Hp.
  apply ends_step; [live_tac | within_tac |]. intros st.
  assert (unspun p (when (bool_decide (st = WDS_IDLE)) (set_state WDS_TX;; _ ← tx_start; mret ());;
    write_data fuel nonblock buf count)) as Hdata.
  { apply ends_step; [live_tac | within_tac |]. intros _. unfold write_data.
    destruct (count =? 0); [apply ends_live; live_tac |].
    apply ends_step; [apply live_tx_error | within_tac |]. intros e.
    destruct (nz e); [apply ends_live; live_tac |].
    eapply ends_bind; [apply write_wait_ends; lia |]. intros w q _. apply ends_live. live_tac. }
  destruct st; first [exact Hdata | apply ends_live; live_tac].
Qed.
Lemma read_finish_ends fuel n nonblock buf count :
  (n < fuel)%nat → unspun n (read_finish fuel nonblock buf count).
Proof.
  intros Hn. unfold unspun, read_finish.
  apply ends_down; [by intros; apply ends_pure |]. intros p Hp.
  eapply ends_bind; [apply read_wait_ends; lia |]. intros w q _. apply ends_live. live_tac.
Qed.

Lemma quiet_step {A B} n (m : M (sys W) A) (k : A → M (sys W) B) s :
  live m → within quiet m → (turns_left s ≤ n)%nat →
  (∀ a s', (turns_left s' ≤ n)%nat → dev_state s' = dev_state s → k a s' ≠ Spinning) →
  (m ≫= k) s ≠ Spinning.
Proof.
  intros Hl Hq Hs Hk. specialize (Hl s). unfold mbind, M_bind.
  destruct (m s) as [a s' | |] eqn:E; [| done..].
  destruct (Hq _ _ _ E) as [Hc Hd]. unfold world, shrinks, turns_left in *. apply Hk; [lia | symmetry; apply Hd].
Qed.
Lemma ends_spins {A} n (m : M (sys W) A) Q s :
  ends n m Q → (turns_left s ≤ n)%nat → m s ≠ Spinning.
Proof. intros Hm Hs E. specialize (Hm s Hs). by rewrite E in Hm. Qed.
Lemma quiet_down {B} n (k : bool → M (sys W) B) s :
  (turns_left s ≤ n)%nat → (∀ s', k true s' ≠ Spinning) →
  (∀ p s', (p < n)%nat → (turns_left s' ≤ p)%nat → dev_state s' = dev_state s →
    k false s' ≠ Spinning) →
  (b ← down_interruptible; k b) s ≠ Spinning.
Proof.
  intros Hs Ht Hf. pose proof (live_irq_point s) as Hl. unfold down_interruptible, mbind, M_bind.
  destruct (irq_point s) as [u s1 | |] eqn:E; [| done..].
  destruct (quiet_irq_point shrinks _ _ _ E) as [Hc Hd]. unfold world, shrinks in Hc.
  pose proof (sig_down (s_world s1)) as Hsig. unfold call. unfold turns_left in *.
  destruct (k_down_interruptible (s_world s1)) as [[] w]; cbn in *; [apply Ht |].
  destruct Hsig as [Hsig | Hsig]; [done |].
  apply (Hf (budget w)); [lia | done | symmetry; exact Hd].
Qed.
Lemma state_step {B} (k : whitebox_device_state → M (sys W) B) s :
  k (dev_state s) s ≠ Spinning → (get_state ≫= k) s ≠ Spinning.
Proof. done. Qed.
(** A reader of a device that is not idle; starting the receiver waits for data without
    sleeping. *)
Lemma read_ends fuel n nonblock buf count s :
  (n < fuel)%nat → (turns_left s ≤ n)%nat → dev_state s ≠ WDS_IDLE →
  whitebox_read fuel nonblock buf count s ≠ Spinning.
Proof.
  intros Hn Hs Hd. pose proof live_exec as []. unfold whitebox_read.
  apply quiet_step with (n := n); [live_tac | within_tac | done |]. intros _ s1 Hs1 Hd1.
  apply quiet_step with (n := n); [live_tac | within_tac | done |]. intros _ s2 Hs2 Hd2.
  apply (quiet_down n); [done.. |]. intros p s3 Hp Hs3 Hd3.
  assert (∀ s', (turns_left s' ≤ p)%nat → read_finish fuel nonblock buf count s' ≠ Spinning) as Hfinish.
  { intros s' Hs'. apply (ends_spins p _ (λ _ _, True)); [| done]. apply read_finish_ends. lia. }
  apply state_step. rewrite Hd3, Hd2, Hd1.
  assert (∀ m : M (sys W) (), live m → within quiet m →
    (if count =? 0 then up;; mret 0
     else d_printk_loop 4;; m;; read_finish fuel nonblock buf count) s3 ≠ Spinning) as Hrest.
  { intros m Hm Hq. destruct (count =? 0); [assert (live (up;; mret 0)) as Hu by live_tac; apply Hu |].
    apply quiet_step with (n := p); [live_tac | within_tac | done |]. intros _ s4 Hs4 _.
    apply quiet_step with (n := p); [done.. |]. intros _ s5 Hs5 _. by apply Hfinish. }
  assert (live (up;; mret (- EBUSY))) as Hbusy by live_tac.
  destruct (dev_state s); [done | ..];
    first [apply Hbusy | apply Hrest; [live_tac | within_tac]].
Qed.
Lemma unspun_done {A} k km (m : M (sys W) A) s :
  sys_inv k km s → keeps (sys_inv k km) m → m s ≠ Spinning → done_in (sys_inv k km) m s.
Proof.
  intros Hs Hk Hm. specialize (Hk s Hs). unfold done_in.
  destruct (m s) as [a s' | |]; [by exists a, s' | done..].
Qed.

(** C10: a signal ends every wait of the driver that sleeps: on an open device, when a
    signal comes after the process has slept or taken the semaphore a bounded number of
    times, a blocking [write] returns, a blocking [read] of a device that is not idle
    returns, and so do the two waits of [fsync] that take the semaphore, the one for
    the ring to drain and the one for the exciter to stop; whatever the DMA engine, the
    radio and the other processes do meanwhile, the device's invariant is kept. *)
Theorem signals_end_waits k km fuel buf n e (s : sys W) :
  sys_inv k km s → (budget (s_world s) < fuel)%nat →
  done_in (sys_inv k km) (whitebox_write fuel false buf n) s ∧
  (wb_state (s_wb s) ≠ WDS_IDLE → done_in (sys_inv k km) (whitebox_read fuel false buf n) s) ∧
  done_in (sys_inv k km) (fsync_drain fuel) s ∧
  done_in (sys_inv k km) (fsync_off fuel e) s.
Proof.
  intros Hs Hf. split_and!; [| intros Hd | |]; (apply unspun_done; [exact Hs | |]).
  - apply keeps_whitebox_write.
  - apply (ends_spins (turns_left s) _ (λ _ _, True)); [by apply write_ends | done].
  - apply keeps_whitebox_read.
  - by apply (read_ends fuel (turns_left s)).
  - eapply keeps_fsync_drain; typeclasses eauto.
  - apply (ends_spins (turns_left s) _ (λ _ _, True)); [by apply fsync_drain_ends | done].
  - eapply keeps_fsync_off; typeclasses eauto.
  - apply (ends_spins (turns_left s) _ (λ _ _, True)); [by apply fsync_off_ends | done].
Qed.

(** The wait a blocking [read] of an idle device starts with is not one of them: while no
    interrupt brings data it turns for ever, and never asks for a signal. *)
Lemma first_data_ignores_signals fuel (s : sys W) :
  s32 (whitebox_user_sink_data_total (wb_user_sink (s_wb s))) ≤ 0 →
  k_irq_taken (s_world s) = (false, s_world s) →
  wait_first_data fuel s = Spinning.
Proof.
  intros He Hi. induction fuel as [| fuel IH]; [done |]. cbn [wait_first_data].
  unfold user_sink_data_total, get_wb, gets, mbind, M_bind. cbn.
  assert ((s32 (whitebox_user_sink_data_total (wb_user_sink (s_wb s))) <=? 0) = true) as -> by lia.
  cbn. unfold M_bind, cpu_relax, irq_point, mbind, M_bind, call. cbn. rewrite Hi. cbn.
  destruct s. exact IH.
Qed.
End budget.

#[local] Existing Instance circ_macros.
#[local] Existing Instance ioctl_macros.

(** The kernel of the tests, where the third sleep or semaphore is told of the signal. *)
Definition signal_kernel : Kernel sim :=
  let told := λ w : sim, (default true (head (m_signals w)), w <| m_signals ::= tail |>) in
  (sim_kernel <| @k_down_interruptible sim := told |>) <| @k_wait_event_sleep sim := (λ _, told) |>.


#[local] Instance signal_kernel_signals :
  Signals (Kernel0 := signal_kernel) (λ w : sim, length (m_signals w)).
Proof.
  assert (∀ w : sim, default true (head (m_signals w)) = true ∨
    (length (tail (m_signals w)) < length (m_signals w))%nat) as Htold.
  { intros w. destruct (m_signals w); cbn; [by left | right; lia]. }
  split; [intros w; apply Htold | intros q w; apply Htold |].
  split; [by split; [intros w | intros w1 w2 w3; lia] |..]; intros; cbn; repeat case_decide; cbn; lia.
Qed.

(** Two turns before the signal, and the device receiving. *)
Definition sim_signal : sys sim :=
  sim_open <| s_world ::= (λ w, w <| m_signals := [false; false] |>) |>
    <| s_wb ::= (λ wb, wb <| wb_state := WDS_RX_STREAMING |>) |>.
Lemma sys_inv_script k km f d (s : sys sim) :
  sys_inv k km s →
  sys_inv (Kernel0 := signal_kernel) k km (s <| s_world ::= f |> <| s_wb ::= (λ wb, wb <| wb_state := d |>) |>).
Proof.
  intros [[H1 [] []] [] H3]. split; [split; [exact H1 | split; assumption | split; assumption] | by split | exact H3].
Qed.
Lemma sim_signal_inv : sys_inv (Kernel0 := signal_kernel) 14 14 sim_signal.
Proof. exact (sys_inv_script _ _ _ _ _ sim_open_inv). Qed.

(** A read of an empty ring and the drain of [fsync], which have nothing to wait for but
    the signal. *)
Lemma signals_end_waits_witness :
  done_in (sys_inv (Kernel0 := signal_kernel) 14 14)
    (whitebox_read (Kernel0 := signal_kernel) 3 false 0x1000 8) sim_signal ∧
  done_in (sys_inv (Kernel0 := signal_kernel) 14 14) (fsync_drain (Kernel0 := signal_kernel) 3) sim_signal.
Proof.
  destruct (signals_end_waits (Kernel0 := signal_kernel) (λ w : sim, length (m_signals w)) 14 14 3 0x1000 8 Real
    sim_signal sim_signal_inv) as (_ & Hread & Hdrain & _); [vm_compute; lia |].
  split; [apply Hread; vm_compute; discriminate | exact Hdrain].
Defined.
Example read_interrupted :
  match whitebox_read (Kernel0 := signal_kernel) 3 false 0x1000 8 sim_signal with
  | Done r s => r = - ERESTARTSYS ∧ m_signals (s_world s) = []
  | _ => False
  end.
Proof. vm_compute. split; reflexivity. Qed.
