(* ===== verification/TxStream.v ===== *)
(** * What is written is what is sent

    The transmit path from end to end: the writer fills the ring, [tx_exec] starts
    transfers from it, the DMA interrupt ends them and starts the next.  The three refine a
    stream of bytes with three parts: what has been sent, the transfers in flight, and what
    waits in the ring. *)

From S2P Require Import Prelude Kernel State Sim Pdma PdmaSpec UserRing UserRingSpec.
From S2P Require Import Gpio Exciter Receiver RfBlocks TxRx Ioctl Driver Invariant TxRxSpec WorldSpec.

(** ** The stream *)

(** A transfer in flight: where it was in memory, and its bytes when it was started. *)
Record flight := Flight { fl_src : Z; fl_bytes : list Z }.
Record stream := Stream { st_sent : list Z; st_flights : list flight; st_ring : list Z }.
Definition everything (st : stream) : list Z :=
  st_sent st ++ concat (fl_bytes <$> st_flights st) ++ st_ring st.

Definition accept (bs : list Z) (st : stream) : stream :=
  Stream (st_sent st) (st_flights st) (st_ring st ++ bs).
(** At most two transfers are in flight; a new one holds the oldest bytes that wait, as
    they are in the memory [m]. *)
Inductive starts (m : Z → Z) : stream → stream → Prop :=
| starts_nothing st : starts m st st
| starts_one sent fl src x ring :
    (length fl < 2)%nat → x ≠ [] → x = bytes_at m src (Z.of_nat (length x)) →
    starts m (Stream sent fl (x ++ ring)) (Stream sent (fl ++ [Flight src x]) ring).
(** The oldest transfer ends. *)
Inductive finishes : stream → stream → Prop :=
| finishes_oldest sent f fl ring :
    finishes (Stream sent (f :: fl) ring) (Stream (sent ++ fl_bytes f) fl ring).

Lemma starts_everything m st st' : starts m st st' → everything st' = everything st.
Proof.
  intros []; [done |]. unfold everything. cbn.
  by rewrite fmap_app, concat_app, <- !(assoc_L (++)); cbn; rewrite app_nil_r.
Qed.
Lemma finishes_everything st st' : finishes st st' → everything st' = everything st.
Proof. intros []. unfold everything. cbn. by rewrite <- !(assoc_L (++)). Qed.

(** ** Where the transfers in flight are

    They lie in the array one after the other, wrapping at its end, up to the tail. *)
Definition fl_len (f : flight) : Z := Z.of_nat (length (fl_bytes f)).
Definition fl_total (fl : list flight) : Z := foldr (λ f n, fl_len f + n) 0 fl.
Fixpoint chain (k base o : Z) (fl : list flight) (tail : Z) : Prop :=
  match fl with
  | [] => o = tail
  | f :: fl =>
      fl_src f = base + o ∧ 0 ≤ o ∧ o + fl_len f ≤ 2 ^ k ∧
      chain k base ((o + fl_len f) mod 2 ^ k) fl tail
  end.

Lemma chain_snoc k base o fl tail f :
  chain k base o fl tail → 0 ≤ tail → tail + fl_len f ≤ 2 ^ k → fl_src f = base + tail →
  chain k base o (fl ++ [f]) ((tail + fl_len f) mod 2 ^ k).
Proof.
  intros Hc Ht Hl Hs. revert o Hc. induction fl as [| g fl IH]; intros o Hc.
  - cbn in Hc. subst o. by split_and!.
  - destruct Hc as (? & ? & ? & Hc). split_and!; [done.. | by apply IH].
Qed.
Lemma fl_total_cons f fl : fl_total (f :: fl) = fl_len f + fl_total fl.
Proof. done. Qed.
Lemma fl_total_nonneg fl : 0 ≤ fl_total fl.
Proof. unfold fl_total, fl_len. induction fl; cbn; lia. Qed.
Lemma chain_total k base o fl tail :
  0 ≤ k → chain k base o fl tail → (o + fl_total fl - tail) mod 2 ^ k = 0.
Proof.
  intros Hk. assert (0 < 2 ^ k) by lia. revert o. induction fl as [| f fl IH]; intros o Hc.
  - cbn in *. subst o. by replace (tail + 0 - tail) with 0 by lia.
  - destruct Hc as (_ & _ & _ & Hc). apply IH in Hc. cbn [fl_total foldr] in *. fold (fl_total fl) in *.
    rewrite <- Z.add_sub_assoc, Zplus_mod_idemp_l in Hc. rewrite <- Hc. f_equal. lia.
Qed.
(** How far behind the tail each transfer begins. *)
Lemma chain_behind k base o fl tail f :
  0 ≤ k → chain k base o fl tail → f ∈ fl →
  ∃ r, fl_len f ≤ r ≤ fl_total fl ∧ (fl_src f - base + r - tail) mod 2 ^ k = 0.
Proof.
  intros Hk. revert o. induction fl as [| g fl IH]; intros o Hc Hf; [by apply elem_of_nil in Hf |].
  pose proof (fl_total_nonneg fl). apply elem_of_cons in Hf as [-> | Hf].
  - exists (fl_total (g :: fl)). split; [rewrite fl_total_cons; lia |].
    pose proof (chain_total k base o (g :: fl) tail Hk Hc) as Ht. destruct Hc as (-> & _).
    by replace (base + o - base) with o by lia.
  - destruct Hc as (_ & _ & _ & Hc). destruct (IH _ Hc Hf) as (r & Hr & Hm). exists r.
    split; [rewrite fl_total_cons; unfold fl_len in *; lia | done].
Qed.

(** ** The steps of the path *)

Inductive action :=
| AWrite (src count : Z)
| AExec
| AFinish (status buf : Z).

Section path.
Context {W : Type} `{!Kernel W} `{!CircMacros} `{!IoctlMacros} (mem : W → Z → Z) `{!ByteMemory mem}.
(** The calls of the paths leave the memory alone. *)
Definition same_memory (w w' : W) : Prop := mem w' = mem w.
Context `{!WorldSteps same_memory}.
(** Mappings do not fail; [ch] is the channel, [2 ^ k] the size of the ring. *)
Context (Hmap : ∀ a w1, (k_dma_mapping_error a w1).1 = false) (ch k : Z).
Implicit Types (w : W) (wb : whitebox_device) (s : sys W).

(** The part of a write that moves data, a step of the path, and the interrupt of the
    channel. *)
Definition write_bytes (src count : Z) : M (sys W) () :=
  d ← user_source_space;
  ret ← whitebox_user_source_work src count (snd d) (fst d);
  set_user_source (λ us, whitebox_user_source_produce us ret).
Definition run_action (a : action) : M (sys W) () :=
  match a with
  | AWrite src count => write_bytes src count
  | AExec => _ ← tx_exec exec_fuel; mret ()
  | AFinish status buf => _ ← pdma_irq_channel run_handler status ch buf; mret ()
  end.

(** The bytes of a frame, which are those of a transfer at most. *)
Definition frame_bytes (pr : params) : Z := u32 (s32 (whitebox_frame_size pr <<< 2)).

(** The transmit path on the FPGA, on a channel it owns, with [q] in flight. *)
Record wired (s : sys W) (c : pdma_channel_t) (q : list xfer) : Prop := {
  wi_debug : whitebox_debug (s_params s) < 1;
  wi_frame : frame_bytes (s_params s) < 2 ^ 18;
  wi_stats : stats_wf (wb_tx_stats (s_wb s));
  wi_tx : tx_wired ch (s_wb s);
  wi_real : both_real (s_wb s);
  wi_mapped : wb_mapped (s_wb s) = 0;
  wi_chan : chan_at ch c (s_pdma s);
  wi_use : in_use c = true;
  wi_handler : pc_handler c = Some tx_dma_cb_h;
  wi_queue : holds_queue c q;
  wi_ring : us_wf k (wb_user_source (s_wb s));
}.
(** A transfer in flight is a mapping of its place towards the sample register. *)
Definition flies (s : sys W) (f : flight) (t : xfer) : Prop :=
  ∃ n w1, t = ((k_dma_map_single (fl_src f) n DMA_TO_DEVICE w1).1,
               ex_regs (wb_exciter (s_wb s)) + wer_sample,
               Z.of_nat (length (fl_bytes f)) / 4) ∧
    Z.of_nat (length (fl_bytes f)) mod 4 = 0.
Definition ring_of (s : sys W) : list Z :=
  ring_bytes k (us_buf (wb_user_source (s_wb s))) (mem (s_world s)).
Definition placed (us : whitebox_user_source) (fl : list flight) : Prop :=
  ∃ o, chain k (cb_buf (us_buf us)) o fl (cb_tail (us_buf us)).
Definition carries (s : sys W) (st : stream) : Prop :=
  ∃ c q, wired s c q ∧ Forall2 (flies s) (st_flights st) q ∧
    placed (wb_user_source (s_wb s)) (st_flights st) ∧ st_ring st = ring_of s.

(** What each action is given, and what it needs. *)
Definition input (a : action) (s : sys W) : list Z :=
  match a with
  | AWrite src count => bytes_at (mem (s_world s)) src (4 * (count / 4))
  | _ => []
  end.
Definition enabled (a : action) (s : sys W) : Prop :=
  match a with
  | AWrite src count =>
      let '(room, dest) := whitebox_user_source_space_available (wb_user_source (s_wb s)) in
      0 ≤ count ≤ room ∧ disjoint_ranges dest src count ∧
      (k_copy_from_user dest src count (s_world s)).1 = 0
  | AExec => True
  | AFinish status _ =>
      ∃ c, chan_at ch c (s_pdma s) ∧ ¬ holds_queue c [] ∧
        comp_a status ch = oldest_is_a c ∧ comp_b status ch = negb (oldest_is_a c)
  end.
Definition refines (a : action) (s : sys W) (st st' : stream) : Prop :=
  match a with
  | AWrite _ _ => st' = accept (input a s) st
  | AExec => starts (mem (s_world s)) st st'
  | AFinish _ _ => ∃ st1, finishes st st1 ∧ starts (mem (s_world s)) st1 st'
  end.

(** ** Each action refines its own *)

Lemma same_world {A} (m : M (sys W) A) s a s' :
  within (quiet same_memory) m → m s = Done a s' → mem (s_world s') = mem (s_world s).
Proof. intros Hm E. apply (Hm _ _ _ E). Qed.

Lemma wired_step pr p uc wb w c q wb' w' c' q' :
  wired (Sys pr p uc wb w) c q → tx_kept ch c c' wb wb' → holds_queue c' q' →
  us_wf k (wb_user_source wb') → wired (Sys pr (set_chan ch c' p) uc wb' w') c' q'.
Proof.
  intros [Hd Hf Hst Htx Hr Hm Hc Hu Hh Hq Hus] [Hku Hkh Hkw Hks Hke Hkm Hksrc Hkr] Hq' Hus'.
  cbn in *. split; cbn; try done.
  - by apply Hks.
  - by apply Hkw.
  - destruct Hr as [_ _ Hr1 Hr2], (Hkw Htx). by split; rewrite ?Hksrc, ?Hkr.
  - by rewrite Hkm.
  - by apply (chan_at_set _ c).
  - by rewrite Hku.
  - by rewrite Hkh.
Qed.

Lemma length_bytes_at m a n : 0 ≤ n → Z.of_nat (length (bytes_at m a n)) = n.
Proof. intros. unfold bytes_at. rewrite length_fmap, length_seqZ. lia. Qed.

(** The transfer that a step starts, in bytes. *)
Lemma moved_starts pr uc p wb w wb' q q' st :
  us_wf k (wb_user_source wb) → frame_bytes pr < 2 ^ 18 → wb_exciter wb' = wb_exciter wb →
  Forall2 (flies (Sys pr p uc wb w)) (st_flights st) q →
  placed (wb_user_source wb) (st_flights st) →
  st_ring st = ring_of (Sys pr p uc wb w) →
  tx_moved pr (wb_user_source wb) q wb wb' q' →
  ∃ st', starts (mem w) st st' ∧ us_wf k (wb_user_source wb') ∧
    Forall2 (flies (Sys pr p uc wb' w)) (st_flights st') q' ∧
    placed (wb_user_source wb') (st_flights st') ∧
    st_ring st' = ring_of (Sys pr p uc wb' w).
Proof.
  intros Hus Hfr Hex Hfl Hpl Hring Hmv. destruct st as [sent fl ring]. cbn [st_flights st_ring] in *.
  assert (∀ f t, flies (Sys pr p uc wb w) f t → flies (Sys pr p uc wb' w) f t) as Hfly.
  { unfold flies. cbn. by rewrite Hex. }
  assert (q' = q ∧ wb_user_source wb' = wb_user_source wb → ∃ st', starts (mem w) (Stream sent fl ring) st' ∧
    us_wf k (wb_user_source wb') ∧ Forall2 (flies (Sys pr p uc wb' w)) (st_flights st') q' ∧
    placed (wb_user_source wb') (st_flights st') ∧
    st_ring st' = ring_of (Sys pr p uc wb' w)) as Hsame.
  { intros [-> Hsrc]. exists (Stream sent fl ring). split_and!; [constructor | by rewrite Hsrc | | by rewrite Hsrc |].
    - by eapply Forall2_impl.
    - unfold ring_of in *. cbn in *. by rewrite Hsrc. }
  revert Hmv. unfold tx_moved. pose proof (us_data_spec k _ Hus) as Ed. rewrite Ed.
  cbv beta iota zeta. pose proof Hus as [[Hk Hh Ht Hb] _ Hh4 Ht4].
  set (b := us_buf (wb_user_source wb)) in *.
  pose proof (ring_len_range k b) as Hlen. pose proof (pow2_30 k Hk).
  set (data := Z.min (ring_len k b) (2 ^ k - cb_tail b)) in *. set (src := cb_buf b + cb_tail b).
  fold (frame_bytes pr). assert (0 ≤ frame_bytes pr) as Hf0 by apply u32_range.
  destruct (data >>> 2 =? 0) eqn:E0; [intros (? & ? & _); by apply Hsame |].
  destruct (Nat.ltb_spec (length q) 2); [| intros (? & ? & _); by apply Hsame].
  destruct (frame_bytes pr >>> 2 =? 0) eqn:E1; [intros (? & ? & _); by apply Hsame |].
  intros (w1 & -> & Hsrc & _). set (n := Z.min data (frame_bytes pr)) in *.
  rewrite Z.shiftr_div_pow2 in E0, E1 by lia. change (2 ^ 2) with 4 in *.
  assert (0 ≤ n < 2 ^ 18 ∧ 1 ≤ n / 4) as [Hn Hn4].
  { split; [lia |]. pose proof (Z.div_pos data 4). pose proof (Z.div_pos (frame_bytes pr) 4).
    subst n. destruct (Z.min_spec data (frame_bytes pr)) as [[_ ->] | [_ ->]]; lia. }
  pose proof (user_source_drains_front k (wb_user_source wb) (mem w) n) as Hdrain.
  rewrite Ed in Hdrain. destruct Hdrain as [Hus' Hbytes]; [done | lia |].
  set (x := bytes_at (mem w) src (4 * (n / 4))) in *.
  pose proof (length_bytes_at (mem w) src (4 * (n / 4)) ltac:(lia)) as Hx. fold x in Hx.
  assert (ring = x ++ ring_of (Sys pr p uc wb' w)) as ->.
  { rewrite Hring. unfold ring_of. cbn. rewrite Hsrc. exact Hbytes. }
  exists (Stream sent (fl ++ [Flight src x]) (ring_of (Sys pr p uc wb' w))). split_and!; try done.
  - constructor; [by rewrite (Forall2_length _ _ _ Hfl) | | by rewrite Hx].
    intros Hnil. rewrite Hnil in Hx. cbn in Hx. lia.
  - by rewrite Hsrc.
  - cbn. apply Forall2_app; [by eapply Forall2_impl |]. constructor; [| constructor].
    exists n, w1. cbn. rewrite Hx, Hex, words_u16 by done.
    rewrite (Z.mul_comm 4), Z_div_mult, Z_mod_mult by lia. done.
  - destruct Hpl as [o Hch]. exists o. rewrite Hsrc, (us_consume_buf k) by (done || lia). fold b.
    cbn [st_flights cb_buf cb_tail]. rewrite <- Hx. pose proof (words_bound n).
    apply chain_snoc; [exact Hch | apply Ht | | done]. cbn. fold (fl_len (Flight src x)).
    unfold fl_len. cbn. rewrite Hx. lia.
Qed.

(** A step of the path. *)
Lemma exec_carries s st :
  carries s st → ∃ r s' st', tx_exec exec_fuel s = Done r s' ∧
    starts (mem (s_world s)) st st' ∧ carries s' st' ∧ mem (s_world s') = mem (s_world s).
Proof.
  intros (c & q & Hw & Hfl & Hpl & Hring). destruct s as [pr p uc wb w]. cbn [s_world].
  pose proof Hw as [Hd Hf Hst Htx Hr Hm Hc Hu Hh Hq Hus]. cbn [s_params s_pdma s_wb] in *.
  destruct (tx_exec_runs ch c q pr p uc wb w Hst Htx Hc Hu Hq Hd Hmap)
    as (r & w' & wb' & c' & q' & Hrun & Hq' & Hk & _ & Hx).
  pose proof (same_world _ _ _ _ (quiet_tx_exec same_memory exec_fuel) Hrun) as Hmem. cbn in Hmem.
  assert (∃ st', starts (mem w) st st' ∧ us_wf k (wb_user_source wb') ∧
    Forall2 (flies (Sys pr p uc wb' w)) (st_flights st') q' ∧
    placed (wb_user_source wb') (st_flights st') ∧
    st_ring st' = ring_of (Sys pr p uc wb' w)) as (st' & Hs & Hus' & Hfl' & Hpl' & Hring').
  { destruct (_.1) as [fl1 |]; [by apply (moved_starts pr uc p wb w wb' q q'); [.. | apply Hx]; try apply Hk |].
    destruct Hx as (_ & -> & Hsrc & _). exists st. split_and!; [constructor | by rewrite Hsrc | | by rewrite Hsrc |].
    - eapply Forall2_impl; [exact Hfl |]. unfold flies. cbn. by rewrite (tk_exciter _ _ _ _ _ Hk).
    - rewrite Hring. unfold ring_of. cbn. by rewrite Hsrc. }
  exists r, (Sys pr (set_chan ch c' p) uc wb' w'), st'. split; [exact Hrun |]. split; [exact Hs |].
  split; [| exact Hmem]. exists c', q'. split; [by apply (wired_step pr p uc wb w c q) |].
  split; [exact Hfl' | split; [exact Hpl' |]]. rewrite Hring'. unfold ring_of. cbn. by rewrite Hmem.
Qed.

(** Only the memory of the world matters. *)
Lemma carries_world pr p uc wb w w' st :
  mem w' = mem w → carries (Sys pr p uc wb w) st → carries (Sys pr p uc wb w') st.
Proof.
  intros Hm (c & q & [] & Hfl & Hpl & Hring). exists c, q. split; [by split |].
  split; [exact Hfl | split; [exact Hpl |]].
  rewrite Hring. unfold ring_of. cbn. by rewrite Hm.
Qed.
Lemma woken_carries s st :
  carries s st →
  ∃ s', (call_ (k_wake_up_interruptible write_wait_queue);;
    loopen ← param whitebox_loopen;
    when (nz loopen) (call_ (k_wake_up_interruptible read_wait_queue);; d_printk_loop 4)) s = Done () s' ∧
    carries s' st ∧ mem (s_world s') = mem (s_world s).
Proof.
  destruct s as [pr p uc wb w]. intros Hc. pose proof Hc as (c & q & Hw & _).
  set (w1 := k_wake_up_interruptible write_wait_queue w).
  assert (mem w1 = mem w) as H1 by apply (st_wake_up (RW := same_memory)).
  destruct (nz (whitebox_loopen pr)) eqn:El.
  - set (w2 := states_read wb (k_wake_up_interruptible read_wait_queue w1)).
    assert (mem w2 = mem w) as H2.
    { transitivity (mem w1); [| done]. unfold w2, states_read.
      transitivity (mem (k_wake_up_interruptible read_wait_queue w1)); [| apply (st_wake_up (RW := same_memory))].
      etrans; [apply (st_readl (RW := same_memory)) | apply (st_readl (RW := same_memory))]. }
    exists (Sys pr p uc wb w2). split; [| by split; [apply (carries_world pr p uc wb w) |]].
    eapply runs_bind; [apply runs_call_ |]. eapply runs_bind; [apply runs_param |]. rewrite El.
    eapply runs_bind; [apply runs_call_ |]. apply d_printk_loop_reads; [apply Hw |].
    pose proof (wi_debug _ _ _ Hw). cbn in *. lia.
  - exists (Sys pr p uc wb w1). split; [| by split; [apply (carries_world pr p uc wb w) |]].
    eapply runs_bind; [apply runs_call_ |]. eapply runs_bind; [apply runs_param |]. rewrite El.
    apply runs_when_false.
Qed.

(** The end of a transfer: the client's handler looks its slot up, counts it, and takes a
    step of the path. *)
Lemma dma_cb_carries b s st :
  b = 0 ∨ b = 1 → carries s st →
  ∃ s' st', tx_dma_cb b s = Done () s' ∧
    starts (mem (s_world s)) st st' ∧ carries s' st' ∧ mem (s_world s') = mem (s_world s).
Proof.
  intros Hb (c & q & Hw & Hfl & Hpl & Hring). destruct s as [pr p uc wb w]. cbn [s_world].
  pose proof Hw as [Hd Hf Hst Htx Hr Hm Hc Hu Hh Hq Hus]. cbn [s_params s_pdma s_wb] in *.
  destruct (lookup_lt_is_Some_2 (rk_dma (wb_rf_sink wb)) (Z.to_nat b)) as [d Hdm].
  { rewrite (tw_dma _ _ Htx). lia. }
  set (wb1 := wb <| wb_tx_stats ::= λ st, st <| st_exec_dma_finished ::= incr |>
    <| st_bytes ::= λ b, s32 (b + u32 (s32 (dm_count d))) |> |>).
  set (fl := (k_spin_lock_irqsave rf_sink_lock w).1).
  set (w1 := states_read wb (k_dma_unmap_single (dm_mapping d) (dm_count d) DMA_TO_DEVICE
    (k_spin_lock_irqsave rf_sink_lock w).2)).
  set (w2 := k_spin_unlock_irqrestore rf_sink_lock fl w1).
  assert (same_memory w w2) as Hmem.
  { unfold w2, w1, states_read. etrans; [| apply st_unlock]. etrans; [| apply st_readl].
    etrans; [| apply st_readl]. etrans; [| apply st_unmap]. apply st_lock. }
  unfold same_memory in Hmem.
  destruct (exec_carries (Sys pr p uc wb1 w2) st) as (r & s2 & st' & Hrun & Hs & Hc' & Hmem').
  { exists c, q. split; [| split; [exact Hfl | split; [exact Hpl |]]].
    - split; cbn; first [done | by destruct Htx; split | by destruct Hr; split].
    - rewrite Hring. unfold ring_of. cbn. by rewrite Hmem. }
  cbn [s_world] in *. rewrite Hmem in *.
  destruct (woken_carries s2 st' Hc') as (s3 & Hwoken & Hc3 & Hm3).
  exists s3, st'. split; [| split; [exact Hs | split; [exact Hc3 | by rewrite Hm3]]].
  unfold tx_dma_cb. eapply runs_bind; [apply runs_spin_lock_irqsave |]. fold fl.
  eapply runs_bind.
  { eapply runs_bind; [apply runs_get_wb |].
    eapply runs_bind; [apply (runs_get_index _ _ d); [lia | exact Hdm] |].
    eapply runs_bind; [apply runs_call_ | apply runs_ret]. }
  cbv zeta. eapply runs_bind; [apply d_printk_loop_reads; [done | lia] |].
  eapply runs_bind; [apply runs_upd_wb |]. fold wb1.
  eapply runs_bind; [apply runs_spin_unlock_irqrestore |]. fold w1 w2.
  eapply runs_bind; [exact Hrun | exact Hwoken].
Qed.

Lemma reg_and_ends (a m b : Z) pr p uc wb w :
  ∃ w', (_ ← reg_and a m; mret b) (Sys pr p uc wb w) = Done b (Sys pr p uc wb w') ∧ mem w' = mem w.
Proof.
  eexists. split; [eapply runs_bind; [apply runs_reg_and | apply runs_ret] |].
  etrans; [apply (st_writel (RW := same_memory)) | apply (st_readl (RW := same_memory))].
Qed.

Lemma finish_carries status buf s st :
  carries s st → enabled (AFinish status buf) s →
  ∃ s' st', run_action (AFinish status buf) s = Done () s' ∧
    refines (AFinish status buf) s st st' ∧ carries s' st' ∧ mem (s_world s') = mem (s_world s).
Proof.
  intros (c & q & Hw & Hfl & Hpl & Hring) (c' & Hc' & Hne & Ha & Hb). destruct s as [pr p uc wb w].
  pose proof Hw as [Hd Hf Hst Htx Hr Hm Hc Hu Hh Hq Hus]. cbn [s_params s_pdma s_wb s_world] in *.
  rewrite <- (chan_at_fun _ _ _ _ Hc Hc') in *. clear c' Hc'.
  destruct st as [sent fl ring], q as [| t q]; [done |]. cbn [st_flights st_ring] in *.
  apply Forall2_cons_inv_r in Hfl as (f & fl' & Hf1 & Hfl & ->). rename fl' into fl.
  destruct Hpl as (o & _ & _ & _ & Hpl).
  destruct (pdma_irq_channel_uniform status ch buf c pr p uc wb w Hc) as [w1 He]. rewrite Ha, Hb in He.
  set (c1 := chan_complete (oldest_is_a c) (negb (oldest_is_a c)) c) in *.
  set (b := irq_buf _ _ buf) in *.
  assert (b = 0 ∨ b = 1) as Hb01 by (subst b; destruct (oldest_is_a c); [by left | by right]).
  rewrite orb_negb_r, Hh in He.
  assert (mem w1 = mem w) as Hm1.
  { destruct (reg_and_ends (pdma_chan_control (pd_regs p) ch) (~: PDMA_CONTROL_PAUSE) b
      pr (set_chan ch c1 p) uc wb w1) as (w2 & E2 & <-).
    specialize (He (λ _ _ _, mret ())).
    assert (within (quiet same_memory) (pdma_irq_channel (λ _ _ _, mret ()) status ch buf)) as Hq0
      by within_tac.
    exact (same_world _ _ _ _ Hq0 (eq_trans He E2)). }
  destruct (dma_cb_carries b (Sys pr (set_chan ch c1 p) uc wb w1) (Stream (sent ++ fl_bytes f) fl ring))
    as (s2 & st' & Hcb & Hs & Hc2 & Hm2); [done | |].
  { exists c1, q. split; [| split; [exact Hfl | split; [by eexists |]]].
    - apply (wired_step pr p uc wb w c (t :: q)); try done; [| by apply (queue_complete_oldest c t)].
      split; try done; unfold c1, chan_complete, in_use; by destruct (oldest_is_a c).
    - rewrite Hring. unfold ring_of. cbn. by rewrite Hm1. }
  cbn [s_world] in *. rewrite Hm1 in *. destruct s2 as [pr2 p2 uc2 wb2 w2].
  destruct (reg_and_ends (pdma_chan_control (pd_regs p) ch) (~: PDMA_CONTROL_PAUSE) b pr2 p2 uc2 wb2 w2)
    as (w3 & E3 & Hm3).
  exists (Sys pr2 p2 uc2 wb2 w3), st'. split_and!.
  - cbn [run_action]. eapply runs_bind; [| apply runs_ret]. unfold runs. rewrite He.
    eapply runs_bind; [exact Hcb | exact E3].
  - exists (Stream (sent ++ fl_bytes f) fl ring). by split.
  - by apply (carries_world _ _ _ _ w2).
  - cbn in *. by rewrite Hm3.
Qed.

(** The copy and the advance of the ring, one after the other. *)
Lemma work_carries src count s st :
  carries s st → enabled (AWrite src count) s →
  let '(room, dest) := whitebox_user_source_space_available (wb_user_source (s_wb s)) in
  ∃ s1 s', whitebox_user_source_work src count dest room s = Done count s1 ∧
    set_user_source (λ us, whitebox_user_source_produce us count) s1 = Done () s' ∧
    carries s' (accept (input (AWrite src count) s) st) ∧
    ∀ a, ¬ (dest ≤ a < dest + count) → mem (s_world s') a = mem (s_world s) a.
Proof.
  intros (c & q & Hw & Hfl & Hpl & Hring) He. destruct s as [pr p uc wb w].
  pose proof (user_source_write_appends mem k count src pr p uc wb w) as Ha.
  cbn [enabled s_wb s_world] in *. cbv zeta in Ha.
  destruct (whitebox_user_source_space_available (wb_user_source wb)) as [room dest] eqn:Es.
  destruct He as (Hcount & Hdis & Hcopy).
  destruct Ha as (w' & Hrun & Hus & Hbytes & _ & Hrest); [apply Hw.. | done | done | done |].
  set (us' := whitebox_user_source_produce (wb_user_source wb) count) in *.
  exists (Sys pr p uc wb w'),
    (Sys pr p uc (wb <| wb_user_source ::= λ us, whitebox_user_source_produce us count |>) w').
  split_and!; [exact Hrun | apply runs_upd_wb | | exact Hrest].
  exists c, q. split; [| split; [exact Hfl | split]].
  - destruct Hw as [Hd Hf Hst Htx Hr Hm Hc Hu Hh Hq _].
    split; cbn; first [done | by destruct Htx; split | by destruct Hr; split].
  - destruct Hpl as [o Hpl]. exists o. cbn. unfold whitebox_user_source_produce. exact Hpl.
  - destruct st. cbn in *. subst. unfold ring_of. cbn. by rewrite Hbytes.
Qed.
Lemma write_carries src count s st :
  carries s st → enabled (AWrite src count) s →
  ∃ s' st', run_action (AWrite src count) s = Done () s' ∧
    refines (AWrite src count) s st st' ∧ carries s' st' ∧
    let '(_, dest) := whitebox_user_source_space_available (wb_user_source (s_wb s)) in
    ∀ a, ¬ (dest ≤ a < dest + count) → mem (s_world s') a = mem (s_world s) a.
Proof.
  intros Hc He. pose proof (work_carries src count s st Hc He) as Hwork. destruct s as [pr p uc wb w].
  destruct (whitebox_user_source_space_available _) as [room dest] eqn:Es.
  destruct Hwork as (s1 & s' & H1 & H2 & Hc' & Hrest).
  exists s', (accept (input (AWrite src count) (Sys pr p uc wb w)) st). split_and!; [| done..].
  eapply runs_bind; [apply runs_get_wb |]. cbv beta. cbn [s_wb] in Es. rewrite Es.
  eapply runs_bind; [exact H1 | exact H2].
Qed.

(** ** The memory of the transfers in flight *)

(** What was there when each transfer was started still is. *)
Definition intact (s : sys W) (st : stream) : Prop :=
  Forall (λ f, bytes_at (mem (s_world s)) (fl_src f) (fl_len f) = fl_bytes f) (st_flights st).
(** A write that fits beside what is in flight; the ring offers more room than that. *)
Definition spares_flights (a : action) (s : sys W) (st : stream) : Prop :=
  match a with
  | AWrite _ count =>
      ring_len k (us_buf (wb_user_source (s_wb s))) + fl_total (st_flights st) + count < 2 ^ k
  | _ => True
  end.

Lemma bytes_at_ext m m' a n : (∀ i, 0 ≤ i < n → m (a + i) = m' (a + i)) → bytes_at m a n = bytes_at m' a n.
Proof.
  intros Hm. unfold bytes_at. apply list_fmap_ext. intros j x Hx. apply lookup_seqZ in Hx as [-> ?].
  apply Hm. lia.
Qed.
(** No byte of a transfer in flight lies in the room that such a write uses. *)
Lemma flight_apart us fl f count i :
  us_wf k us → placed us fl → f ∈ fl → 0 ≤ i < fl_len f →
  ring_len k (us_buf us) + fl_total fl + count < 2 ^ k →
  let dest := cb_buf (us_buf us) + cb_head (us_buf us) in
  ¬ (dest ≤ fl_src f + i < dest + count).
Proof.
  intros [[Hk Hh Ht Hb] _ _ _] [o Hc] Hf Hi Hroom dest Hin.
  destruct (chain_behind k _ o fl _ f ltac:(lia) Hc Hf) as (r & Hr & Hm).
  set (b := us_buf us) in *. set (j := fl_src f + i - dest).
  pose proof (ring_len_range k b ltac:(lia)) as Hlen.
  assert ((j + ring_len k b + r - i) mod 2 ^ k = 0) as Hz.
  { unfold ring_len, j, dest.
    replace (_ + (cb_head b - cb_tail b) mod 2 ^ k + r - i)
      with ((fl_src f - cb_buf b - cb_head b + r) + (cb_head b - cb_tail b) mod 2 ^ k) by lia.
    rewrite Zplus_mod_idemp_r, <- Hm. f_equal. lia. }
  rewrite Z.mod_small in Hz by lia. lia.
Qed.
Lemma starts_intact m st st' :
  starts m st st' →
  Forall (λ f, bytes_at m (fl_src f) (fl_len f) = fl_bytes f) (st_flights st) →
  Forall (λ f, bytes_at m (fl_src f) (fl_len f) = fl_bytes f) (st_flights st').
Proof.
  intros [] Hf; [done |]. apply Forall_app. split; [done |]. apply Forall_singleton. done.
Qed.

(** C9: the bytes of a transfer in flight stay in memory while the writer spares them.  The
    ring gives its bytes back when a transfer is started, so a write that fits in the room
    the ring offers may reach them; a write that fits beside what waits and what is in
    flight does not, and then, when a transfer ends, memory holds the bytes it had when the
    transfer was started, whatever the steps and interrupts in between. *)
Theorem flights_stay_intact a s st :
  carries s st → intact s st → enabled a s → spares_flights a s st →
  ∃ s' st', run_action a s = Done () s' ∧ refines a s st st' ∧ carries s' st' ∧ intact s' st'.
Proof.
  intros Hc Hin He Hsp. destruct a as [src count | | status buf].
  - pose proof Hc as (c & q & Hw & _ & Hpl & _). pose proof (wi_ring _ _ _ Hw) as Hus.
    destruct (write_carries src count s st Hc He) as (s' & st' & Hr & Hf & Hc' & Hrest).
    exists s', st'. split_and!; [done.. |]. rewrite Hf. unfold intact in *. cbn [accept st_flights].
    cbn [spares_flights] in Hsp. rewrite (us_space_spec k) in Hrest by done.
    apply Forall_forall. intros f Hfl. rewrite Forall_forall in Hin. rewrite <- (Hin f Hfl).
    apply bytes_at_ext. intros i Hi. apply Hrest. by eapply flight_apart.
  - destruct (exec_carries s st Hc) as (r & s' & st' & Hr & Hs & Hc' & Hm).
    exists s', st'. split_and!; [| done | done |].
    + cbn [run_action]. unfold mbind, M_bind. by rewrite Hr.
    + unfold intact. rewrite Hm. by eapply starts_intact.
  - destruct (finish_carries status buf s st Hc He) as (s' & st' & Hr & Hs & Hc' & Hm).
    exists s', st'. split_and!; [done.. |]. unfold intact. rewrite Hm.
    destruct Hs as (st1 & Hfin & Hs). eapply starts_intact; [exact Hs |].
    destruct Hfin. by apply Forall_cons in Hin as [_ ?].
Qed.

(** ** The write of the driver

    Its steps in a row, when no interrupt is taken between them. *)

Definition passes {A} (m : M (sys W) A) : Prop := ∀ s st, carries s st →
  ∃ a s', m s = Done a s' ∧ carries s' st ∧ mem (s_world s') = mem (s_world s) ∧
    wb_user_source (s_wb s') = wb_user_source (s_wb s) ∧ s_params s' = s_params s.
Lemma passes_printk l : 1 ≤ l → passes (d_printk_loop l).
Proof.
  intros Hl [pr p uc wb w] st Hc. pose proof Hc as (c & q & Hw & _).
  assert (mem (states_read wb w) = mem w) as Hm
    by (unfold states_read; etrans; apply (st_readl (RW := same_memory))).
  exists (), (Sys pr p uc wb (states_read wb w)). split_and!; [| by apply (carries_world _ _ _ _ w) | done..].
  apply d_printk_loop_reads; [apply Hw |]. pose proof (wi_debug _ _ _ Hw). cbn in *. lia.
Qed.
Lemma passes_up : (∀ w, (k_irq_taken w).1 = false) → passes up.
Proof.
  intros Hirq [pr p uc wb w] st Hc. set (w1 := (k_irq_taken (k_up w)).2).
  assert (mem w1 = mem w) as Hm by (etrans; [apply (st_irq (RW := same_memory)) | apply (st_up (RW := same_memory))]).
  exists (), (Sys pr p uc wb w1). split_and!; [| by apply (carries_world _ _ _ _ w) | done..].
  eapply runs_bind; [apply runs_call_ |]. eapply runs_bind; [apply runs_call |]. rewrite Hirq.
  apply runs_when_false.
Qed.
Lemma passes_state d : passes (set_state d).
Proof.
  intros [pr p uc wb w] st (c & q & Hw & Hrest).
  exists (), (Sys pr p uc (wb <| wb_state := d |>) w). split_and!; [apply runs_upd_wb | | done..].
  exists c, q. split; [| exact Hrest]. destruct Hw as [Hd Hf Hst Htx Hr Hm Hc Hu Hh Hq Hus].
  split; cbn; first [done | by destruct Htx; split | by destruct Hr; split].
Qed.
(** Then a step of the path, or none. *)
Lemma kick_carries s st :
  carries s st → ∃ s' st', write_kick s = Done () s' ∧ starts (mem (s_world s)) st st' ∧
    carries s' st' ∧ mem (s_world s') = mem (s_world s).
Proof.
  destruct s as [pr p uc wb w]. intros Hc. unfold write_kick.
  destruct (bool_decide (wb_state wb = WDS_TX_STREAMING)) eqn:E.
  - destruct (exec_carries _ st Hc) as (r & s' & st' & Hr & Hs & Hc' & Hm).
    exists s', st'. split_and!; [| done..]. eapply runs_bind; [apply runs_get_wb |]. rewrite E.
    eapply runs_bind; [exact Hr | apply runs_ret].
  - destruct (u32 (whitebox_user_source_buffer_threshold pr) <=?
      whitebox_user_source_data_total (wb_user_source wb)) eqn:Et.
    + destruct (passes_state WDS_TX_STREAMING _ st Hc) as ([] & s1 & H1 & Hc1 & Hm1 & _).
      destruct (exec_carries s1 st Hc1) as (r & s' & st' & Hr & Hs & Hc' & Hm). rewrite Hm1 in *.
      exists s', st'. split_and!; [| done..]. eapply runs_bind; [apply runs_get_wb |]. rewrite E.
      eapply runs_bind; [apply runs_get_wb |]. eapply runs_bind; [apply runs_param |]. rewrite Et.
      eapply runs_bind; [exact H1 |]. eapply runs_bind; [exact Hr | apply runs_ret].
    + exists (Sys pr p uc wb w), st. split_and!; [| constructor | done..].
      eapply runs_bind; [apply runs_get_wb |]. rewrite E.
      eapply runs_bind; [apply runs_get_wb |]. eapply runs_bind; [apply runs_param |]. rewrite Et.
      apply runs_when_false.
Qed.
(** The driver's copy, for a count that fits and a copy that succeeds. *)
Lemma write_copy_carries src count s st :
  (∀ w, (k_irq_taken w).1 = false) → carries s st →
  let '(room, dest) := whitebox_user_source_space_available (wb_user_source (s_wb s)) in
  0 ≤ count ≤ room → disjoint_ranges dest src count →
  (∀ w, (k_copy_from_user dest src count w).1 = 0) →
  ∃ s' st', write_copy src count dest room s = Done count s' ∧ carries s' st' ∧
    starts (mem (s_world s')) (accept (bytes_at (mem (s_world s)) src (4 * (count / 4))) st) st'.
Proof.
  intros Hirq Hc.
  destruct (whitebox_user_source_space_available (wb_user_source (s_wb s))) as [room dest] eqn:Es.
  intros Hcount Hdis Hcopy.
  destruct (passes_printk 4 ltac:(lia) s st Hc) as ([] & s1 & H1 & Hc1 & Hm1 & Hu1 & _).
  assert (enabled (AWrite src count) s1) as He1 by (unfold enabled; rewrite Hu1, Es; split_and!; try apply Hcopy; apply Hcount || done).
  pose proof (work_carries src count s1 st Hc1 He1) as Hwork. rewrite Hu1, Es in Hwork.
  destruct Hwork as (s1' & s2 & Hw1 & Hw2 & Hc2 & _). cbn [input] in Hc2. rewrite Hm1 in Hc2.
  destruct (passes_printk 4 ltac:(lia) s2 _ Hc2) as ([] & s3 & H3 & Hc3 & _).
  destruct (passes_up Hirq s3 _ Hc3) as ([] & s4 & H4 & Hc4 & _).
  destruct (passes_printk 4 ltac:(lia) s4 _ Hc4) as ([] & s5 & H5 & Hc5 & _).
  destruct (kick_carries s5 _ Hc5) as (s6 & st6 & H6 & Hs6 & Hc6 & Hm6).
  destruct (passes_printk 4 ltac:(lia) s6 _ Hc6) as ([] & s7 & H7 & Hc7 & Hm7 & _).
  exists s7, st6. rewrite Hm7, Hm6. split_and!; [| done..].
  eapply runs_bind; [exact H1 |]. eapply runs_bind; [exact Hw1 |].
  assert ((count <? 0) = false) as -> by lia.
  eapply runs_bind; [exact Hw2 |]. eapply runs_bind; [exact H3 |]. eapply runs_bind; [exact H4 |].
  eapply runs_bind; [exact H5 |]. eapply runs_bind; [exact H6 |]. eapply runs_bind; [exact H7 |].
  apply runs_ret.
Qed.

(** ** Runs *)

(** A sequence of enabled actions; [l] are the actions, each with the state it found. *)
Inductive path_run : sys W → list (action * sys W) → sys W → Prop :=
| run_nil s : path_run s [] s
| run_cons a s s1 l s' :
    enabled a s → run_action a s = Done () s1 → path_run s1 l s' → path_run s ((a, s) :: l) s'.
Inductive stream_run : stream → list (action * sys W) → stream → Prop :=
| stream_nil st : stream_run st [] st
| stream_cons a s l st st1 st' :
    refines a s st st1 → stream_run st1 l st' → stream_run st ((a, s) :: l) st'.
Definition inputs (l : list (action * sys W)) : list Z := concat ((λ e, input e.1 e.2) <$> l).

Lemma action_carries a s st :
  carries s st → enabled a s →
  ∃ s' st', run_action a s = Done () s' ∧ refines a s st st' ∧ carries s' st'.
Proof.
  intros Hc He. destruct a as [src count | | status buf].
  - destruct (write_carries src count s st Hc He) as (s' & st' & Hr & Hf & Hc' & _). eauto.
  - destruct (exec_carries s st Hc) as (r & s' & st' & Hr & Hs & Hc' & _).
    exists s', st'. split; [| by split]. cbn [run_action]. unfold mbind, M_bind. by rewrite Hr.
  - destruct (finish_carries status buf s st Hc He) as (s' & st' & Hr & Hs & Hc' & _). eauto.
Qed.
Lemma refines_everything a s st st' :
  refines a s st st' → everything st' = everything st ++ input a s.
Proof.
  destruct a as [src count | | status buf]; cbn [refines].
  - intros ->. unfold everything. cbn. by rewrite !(assoc_L (++)).
  - intros Hs. rewrite (starts_everything _ _ _ Hs). cbn. by rewrite app_nil_r.
  - intros (st1 & Hf & Hs). rewrite (starts_everything _ _ _ Hs), (finishes_everything _ _ Hf).
    cbn. by rewrite app_nil_r.
Qed.
Lemma refines_sent a s st st' : refines a s st st' → st_sent st `prefix_of` st_sent st'.
Proof.
  assert (∀ m st st', starts m st st' → st_sent st' = st_sent st) as Hst by by intros ? ? ? [].
  destruct a as [src count | | status buf]; cbn [refines].
  - by intros ->.
  - intros Hs. by rewrite (Hst _ _ _ Hs).
  - intros (st1 & [] & Hs). rewrite (Hst _ _ _ Hs). by apply prefix_app_r.
Qed.

End path.

#[local] Existing Instance circ_macros.
#[local] Existing Instance ioctl_macros.

(** The kernel of the tests, where no interrupt is taken. *)
Definition uninterrupted_kernel : Kernel sim := sim_kernel
  <| (@k_irq_taken sim) := λ w, (false, w) |>.
#[local] Existing Instance uninterrupted_kernel.
#[local] Instance uninterrupted_memory : ByteMemory sim_mem.
Proof. destruct sim_byte_memory as [Hfrom Hto]. split; [exact Hfrom | exact Hto]. Qed.
#[local] Instance sim_same_memory : WorldSteps (same_memory sim_mem).
Proof.
  split; [by split; [intros w | intros w1 w2 w3; unfold same_memory; congruence] |..];
    intros; unfold same_memory; cbn; try done; by case_decide.
Qed.

(** The device of the tests: eight bytes wait, nothing is in flight. *)
Definition sim_path : sys sim := Sys sim_params owned_pdma 1 tx_device sim0.
Definition sim_stream : stream := Stream [] [] (ring_of sim_mem 12 sim_path).
Lemma sim_carries : carries sim_mem 0 12 sim_path sim_stream.
Proof.
  exists owned0, []. split; [| split; [constructor | split; [by eexists | done]]].
  split; try done; try (by split); try (by apply dev_with_at). by repeat split; left.
Qed.
(** A step starts a transfer of the eight bytes; sixteen are written; the transfer ends and
    the next starts. *)
Definition sim_actions : list action := [AExec; AWrite 0x5000 16; AFinish 1 (-1)].
Definition after (a : action) (s : sys sim) : sys sim :=
  match run_action 0 a s with Done _ s' => s' | _ => s end.
Fixpoint labels (acts : list action) (s : sys sim) : list (action * sys sim) :=
  match acts with [] => [] | a :: acts => (a, s) :: labels acts (after a s) end.
Definition at_end : sys sim := foldl (λ s a, after a s) sim_path sim_actions.
Lemma sim_write_enabled : enabled 0 (AWrite 0x5000 16) (after AExec sim_path).
Proof. vm_compute. repeat split; discriminate || (right; discriminate). Qed.
Lemma sim_path_run : path_run 0 sim_path (labels sim_actions sim_path) at_end.
Proof.
  unfold sim_actions, at_end. cbn [labels foldl].
  apply run_cons with (s1 := after AExec sim_path); [exact I | vm_compute; reflexivity |].
  apply run_cons with (s1 := after (AWrite 0x5000 16) (after AExec sim_path)).
  { exact sim_write_enabled. }
  { vm_compute; reflexivity. }
  apply run_cons with (s1 := at_end); [| vm_compute; reflexivity | apply run_nil].
  exists (default owned0 (pd_channel (s_pdma (after (AWrite 0x5000 16) (after AExec sim_path))) !! 0%nat)).
  split; [split; [done | vm_compute; reflexivity] |].
  split; [| split; vm_compute; reflexivity]. intros [Hbusy _]. vm_compute in Hbusy. discriminate.
Qed.
Lemma sim_maps (a : Z) (w : sim) : (k_dma_mapping_error a w).1 = false.
Proof. done. Qed.
Definition at_end_space : Z * Z := whitebox_user_source_space_available (wb_user_source (s_wb at_end)).
(** What is at the end: eight bytes sent and sixteen in flight. *)
Example sim_end_queue : ∃ c, chan_at 0 c (s_pdma at_end) ∧ ∃ a, holds_queue c [(a, 0x40050400, 4)].
Proof.
  exists (default owned0 (pd_channel (s_pdma at_end) !! 0%nat)).
  split; [split; [done | vm_compute; reflexivity] |].
  eexists. right. vm_compute. repeat split; reflexivity.
Qed.

Lemma after_done a s s' : run_action 0 a s = Done () s' → after a s = s'.
Proof. intros Hr. unfold after. by rewrite Hr. Qed.
Lemma fl_total_concat fl : fl_total fl = Z.of_nat (length (concat (fl_bytes <$> fl))).
Proof.
  induction fl as [| f fl IH]; [done |].
  rewrite fl_total_cons, IH, fmap_cons. cbn [concat]. rewrite length_app. unfold fl_len. lia.
Qed.
Lemma fl_total_everything st : fl_total (st_flights st) ≤ Z.of_nat (length (everything st)).
Proof. rewrite fl_total_concat. unfold everything. rewrite !length_app. lia. Qed.
(** Sixteen bytes written beside the eight in flight. *)
Lemma flights_stay_intact_witness : ∃ st',
  carries sim_mem 0 12 (after (AWrite 0x5000 16) (after AExec sim_path)) st' ∧
  intact sim_mem (after (AWrite 0x5000 16) (after AExec sim_path)) st'.
Proof.
  destruct (flights_stay_intact sim_mem sim_maps 0 12 AExec sim_path sim_stream sim_carries)
    as (s1 & st1 & Hr1 & Hf1 & Hc1 & Hi1); [constructor | exact I | exact I |].
  rewrite <- (after_done _ _ _ Hr1) in Hc1, Hi1.
  destruct (flights_stay_intact sim_mem sim_maps 0 12 (AWrite 0x5000 16) (after AExec sim_path) st1 Hc1 Hi1)
    as (s2 & st2 & Hr2 & _ & Hc2 & Hi2).
  - exact sim_write_enabled.
  - pose proof (fl_total_everything st1) as Ht. rewrite (starts_everything _ _ _ Hf1) in Ht.
    change (length (everything sim_stream)) with 8%nat in Ht. unfold spares_flights.
    assert (ring_len 12 (us_buf (wb_user_source (s_wb (after AExec sim_path)))) = 0) as -> by (vm_compute; reflexivity). lia.
  - rewrite <- (after_done _ _ _ Hr2) in Hc2, Hi2. exists st2. split; assumption.
Defined.

(** The other case.  512 bytes wait at the end of the array; they are put in flight; a write
    of 4000 bytes is accepted, and replaces the byte 16 of those in flight. *)
Definition late_memory : sim := sim0 <| m_mem := {[ 0x20000 + 3600 := 7 ]} |>.
Definition late_path : sys sim :=
  Sys sim_params owned_pdma 1 (sim_device <| wb_user_source := us12 0 3584 |>) late_memory.
Example in_flight_overwritten :
  enabled 0 (AWrite 0x20000 4000) (after AExec late_path) ∧
  (∃ c a, chan_at 0 c (s_pdma (after (AWrite 0x20000 4000) (after AExec late_path))) ∧
    holds_queue c [(a, 0x40050400, 128)]) ∧
  sim_mem (s_world (after AExec late_path)) (0x10000 + 3584 + 16) = 0 ∧
  sim_mem (s_world (after (AWrite 0x20000 4000) (after AExec late_path))) (0x10000 + 3584 + 16) = 7.
Proof.
  split; [vm_compute; repeat split; discriminate || (left; discriminate) |].
  split; [| split; vm_compute; reflexivity].
  exists (default owned0 (pd_channel (s_pdma (after (AWrite 0x20000 4000) (after AExec late_path))) !! 0%nat)).
  eexists. split; [split; [done | vm_compute; reflexivity] |]. left. vm_compute. repeat split; reflexivity.
Qed.
