(* ===== verification/Results.v ===== *)
(** * What the file operations answer

    Every value [read], [write], [fsync], [poll], [mmap] and [release] can return, and
    when.  The statements need no invariant: they hold of any state, whatever the
    hardware and the other processes do. *)

From S2P Require Import Prelude Kernel State Sim Pdma PdmaSpec UserRing UserRingSpec.
From S2P Require Import Gpio Exciter Receiver RfBlocks TxRx Ioctl Driver Invariant Safety.
From S2P Require Import Lifecycle Termination.

Section results.
Context {W : Type} `{!Kernel W} `{!CircMacros} `{!IoctlMacros}.

Definition transfer_result (nonblock : bool) (count r : Z) : Prop :=
  r = count ∨ r = - ERESTARTSYS ∨ r = - EBUSY ∨ r = - EIO ∨ r = - EFAULT ∨
  (r = - EAGAIN ∧ nonblock = true).
Definition sync_result (r : Z) : Prop := r = 0 ∨ r = - ERESTARTSYS ∨ r = - EIO.
Definition poll_result (r : Z) : Prop :=
  r = 0 ∨ r = POLLERR ∨ r = (POLLOUT ||| POLLWRNORM) ∨ r = (POLLIN ||| POLLRDNORM) ∨
  r = (POLLOUT ||| POLLRDNORM ||| POLLIN ||| POLLWRNORM).

(** How a waiting loop may end: the whole call returns without data, or an error was
    found, or there is enough. *)
Definition wait_result (nonblock : bool) (count : Z) (r : waited (Z * Z * Z)) : Prop :=
  match r with
  | Returned _ ret => ret = - ERESTARTSYS ∨ (ret = - EAGAIN ∧ nonblock = true)
  | Ready _ (err, n, _) => nz err = true ∨ count ≤ n
  end.

Lemma returns_any {A} (m : M (sys W) A) : returns m (λ _, True).
Proof. done. Qed.

(** Walk to the values returned, forgetting what the steps before give. *)
Ltac returns_tac := cbv beta zeta iota;
  lazymatch goal with
  | |- returns (mbind _ _) _ => apply returns_bind; intros; returns_tac
  | |- returns (mret _) _ => apply returns_ret
  | |- returns (fail_with _) _ => by intros ? ? ?
  | |- returns spin _ => by intros ? ? ?
  | |- returns (if ?b then _ else _) _ => destruct b eqn:?; returns_tac
  | |- returns (match ?x with _ => _ end) _ => destruct x eqn:?; returns_tac
  | |- _ => idtac
  end.

Lemma returns_write_wait fuel nonblock count err :
  returns (S := sys W) (write_wait fuel nonblock count err) (wait_result nonblock count).
Proof.
  revert err. induction fuel as [|fuel IH]; intros err; cbn [write_wait]; [by intros ? ? ? |].
  returns_tac; try apply IH; cbn; auto. right. lia.
Qed.
Lemma returns_read_wait fuel nonblock count :
  returns (S := sys W) (read_wait fuel nonblock count) (wait_result nonblock count).
Proof.
  induction fuel as [|fuel IH]; cbn [read_wait]; [by intros ? ? ? |].
  returns_tac; try apply IH; cbn; auto. right. lia.
Qed.

(** A copy is of the whole count when there is room for it. *)
Lemma min_size_left a b : a ≤ b → min_size a b = a.
Proof. unfold min_size. destruct (a <? b) eqn:?; lia. Qed.
Lemma min_size_right a b : b ≤ a → min_size a b = b.
Proof. unfold min_size. destruct (a <? b) eqn:?; lia. Qed.
Lemma returns_source_copy src count dest n :
  0 ≤ count < 2 ^ 31 → count ≤ n →
  returns (S := sys W) (whitebox_user_source_work src count dest n)
    (λ r, r = count ∨ r = - EFAULT).
Proof.
  intros Hc Hn. unfold whitebox_user_source_work. rewrite min_size_left by done.
  apply returns_bind. intros []; apply returns_ret; cbn; [by right |].
  left. apply s32_small. lia.
Qed.
Lemma returns_sink_copy src n dest count :
  0 ≤ count < 2 ^ 31 → count ≤ n →
  returns (S := sys W) (whitebox_user_sink_work src n dest count)
    (λ r, r = count ∨ r = - EFAULT).
Proof.
  intros Hc Hn. unfold whitebox_user_sink_work. rewrite min_size_right by done.
  apply returns_bind. intros []; apply returns_ret; cbn; [by right |].
  left. apply s32_small. lia.
Qed.

Lemma returns_write_data fuel nonblock buf count :
  0 ≤ count < 2 ^ 31 →
  returns (S := sys W) (write_data fuel nonblock buf count) (transfer_result nonblock count).
Proof.
  intros Hc. unfold write_data, transfer_result. destruct (count =? 0) eqn:E0.
  { returns_tac. left. lia. }
  apply returns_bind. intros err. destruct (nz err); [returns_tac; auto |].
  eapply returns_bind_returns; [apply returns_write_wait |].
  intros [ret | [[e n] dest]] Hr; cbn in Hr.
  { returns_tac. tauto. }
  destruct (nz e); [returns_tac; auto |]. destruct Hr as [? | Hn]; [done |].
  unfold write_copy. apply returns_bind; intros _.
  eapply returns_bind_returns; [by apply returns_source_copy |]. intros r [-> | ->].
  - destruct (count <? 0); returns_tac; tauto.
  - returns_tac; tauto.
Qed.
Lemma returns_read_finish fuel nonblock buf count :
  0 ≤ count < 2 ^ 31 →
  returns (S := sys W) (read_finish fuel nonblock buf count) (transfer_result nonblock count).
Proof.
  intros Hc. unfold read_finish, transfer_result. apply returns_bind. intros [].
  { returns_tac; auto. }
  eapply returns_bind_returns; [apply returns_read_wait |].
  intros [ret | [[e n] src]] Hr; cbn in Hr.
  { returns_tac. tauto. }
  destruct (nz e); [returns_tac; auto |]. destruct Hr as [? | Hn]; [done |].
  eapply returns_bind_returns; [by apply returns_sink_copy |]. intros r [-> | ->].
  - destruct (count <? 0); returns_tac; tauto.
  - returns_tac; tauto.
Qed.
Lemma returns_fsync_rx : returns (S := sys W) fsync_rx sync_result.
Proof. unfold fsync_rx, sync_result. returns_tac; auto. Qed.

(** What an operation may answer. *)
Definition may_answer (op : file_op) (r : Z) : Prop :=
  match op with
  | OpRead nonblock _ count | OpWrite nonblock _ count => transfer_result nonblock count r
  | OpFsync => sync_result r
  | OpPoll => poll_result r
  | OpMmap _ _ => r = 0 ∨ r = - EAGAIN
  | OpRelease => r = 0 ∨ r = - ENOENT
  | _ => True
  end.

End results.

#[local] Existing Instance circ_macros.
#[local] Existing Instance ioctl_macros.

