(* ===== verification/ProbeSpec.v ===== *)
(** * Probing takes everything or nothing, or nearly

    The accounts of the probe and remove entry points: what they take and give back,
    on every path, and the device they leave. *)

From S2P Require Import Prelude Kernel State Sim Pdma PdmaSpec UserRing UserRingSpec Gpio.
From S2P Require Import Exciter Receiver RfBlocks TxRx Ioctl Driver Probe Invariant.

(** Pins are accounted for apart. *)
Definition not_pin (r : resource) : Prop := if r is RPin _ then False else True.

(** ** Accounts *)

Section accounts.
Context {W : Type} `{!Kernel W} `{!Platform W} (held : W → resource → Z) `{!Ledger held}.
(** What is counted, and what was held at the start; the globals that do not change. *)
Context (counted : resource → Prop) (start : resource → Z) (pr : params) (uc : Z).
Implicit Types (d : resource → Z) (φ : pdma_device_t → whitebox_device → Prop).

(** A state whose devices satisfy [φ] and that holds [d] more than the start. *)
Record books φ d (s : sys W) : Prop := {
  books_params : s_params s = pr;
  books_count : s_use_count s = uc;
  books_devices : φ (s_pdma s) (s_wb s);
  books_held r : counted r → held (s_world s) r = start r + d r;
}.

Lemma books_mono φ φ' d d' s :
  books φ d s → (∀ p wb, φ p wb → φ' p wb) → (∀ r, counted r → d r = d' r) → books φ' d' s.
Proof.
  intros [? ? ? Hh] Hφ Hd. split; [done | done | by apply Hφ |]. intros r Hr. by rewrite Hh, Hd.
Qed.
Lemma books_weaken {A} φ φ' d d' (m : M (sys W) A) Q :
  hoare (books φ' d') m Q → (∀ p wb, φ p wb → φ' p wb) → (∀ r, counted r → d r = d' r) →
  hoare (books φ d) m Q.
Proof. intros Hm Hφ Hd s Hs. apply Hm. by eapply books_mono. Qed.

Lemma books_call {A B} φ d (c : A → resource → Z) (f : W → A * W) (k : A → M (sys W) B) Q :
  (∀ w r, held (f w).2 r = held w r + c (f w).1 r) →
  (∀ w, let a := (f w).1 in hoare (books φ (λ r, d r + c a r)) (k a) Q) →
  hoare (books φ d) (a ← call f; k a) Q.
Proof.
  intros Hf Hk s [? ? ? Hh]. apply (Hk (s_world s)). split; [done.. |]. intros r Hr. cbn.
  rewrite Hf, Hh by done. lia.
Qed.
Lemma books_call_ {B} φ d d1 (f : W → W) (k : () → M (sys W) B) Q :
  (∀ w r, held (f w) r = held w r + d1 r) →
  (∀ a, hoare (books φ (λ r, d r + d1 r)) (k a) Q) → hoare (books φ d) (a ← call_ f; k a) Q.
Proof.
  intros Hf Hk s [? ? ? Hh]. apply Hk. split; [done.. |]. intros r Hr. cbn.
  rewrite Hf, Hh by done. lia.
Qed.
Lemma books_upd_wb {B} φ φ' d g (k : () → M (sys W) B) Q :
  (∀ p wb, φ p wb → φ' p (g wb)) →
  (∀ a, hoare (books φ' d) (k a) Q) → hoare (books φ d) (a ← upd_wb g; k a) Q.
Proof. intros Hg Hk s [? ? ? Hh]. apply Hk. split; [done | done | by apply Hg | done]. Qed.
Lemma books_upd_pdma {B} φ φ' d g (k : () → M (sys W) B) Q :
  (∀ p wb, φ p wb → φ' (g p) wb) →
  (∀ a, hoare (books φ' d) (k a) Q) → hoare (books φ d) (a ← upd_pdma g; k a) Q.
Proof. intros Hg Hk s [? ? ? Hh]. apply Hk. split; [done | done | by apply Hg | done]. Qed.
Lemma books_get_wb {A B} φ d (g : whitebox_device → A) v (k : A → M (sys W) B) Q :
  (∀ p wb, φ p wb → g wb = v) →
  hoare (books φ d) (k v) Q → hoare (books φ d) (a ← get_wb g; k a) Q.
Proof.
  intros Hg Hk s Hs. pose proof (Hg _ _ (books_devices _ _ _ Hs)) as <-. by apply Hk.
Qed.
Lemma books_param {A B} φ d (g : params → A) (k : A → M (sys W) B) Q :
  hoare (books φ d) (k (g pr)) Q → hoare (books φ d) (a ← param g; k a) Q.
Proof. intros Hk s Hs. pose proof (books_params _ _ _ Hs) as <-. by apply Hk. Qed.
Lemma books_ret {A} φ d (a : A) (Q : A → sys W → Prop) :
  (∀ s, books φ d s → Q a s) → hoare (books φ d) (mret a) Q.
Proof. intros HQ s Hs. by apply HQ. Qed.

(** A failure gives back what the cleanup undoes. *)
Lemma hoare_on_failure P cleanup rest (J : Z → sys W → Prop) (F F' : sys W → Prop) :
  hoare P rest (λ (o : bool * Z) s, if fst o then J (snd o) s else F s) →
  hoare F cleanup (λ _, F') →
  hoare P (on_failure cleanup rest) (λ (o : bool * Z) s, if fst o then J (snd o) s else F' s).
Proof.
  intros Hr Hc. eapply hoare_bind; [exact Hr |]. intros [[|] ret] s Hs; cbn in *; [done |].
  apply post_bind. eapply post_mono; [| by apply Hc]. by intros [] s'.
Qed.

(** Steps that take nothing. *)
Lemma books_neutral_call {A B} φ d (f : W → A * W) (k : A → M (sys W) B) Q :
  (∀ w r, counted r → held (f w).2 r = held w r) →
  (∀ a, hoare (books φ d) (k a) Q) → hoare (books φ d) (a ← call f; k a) Q.
Proof.
  intros Hf Hk s [? ? ? Hh]. apply Hk. split; [done.. |]. intros r Hr. cbn.
  by rewrite Hf, Hh.
Qed.
Lemma books_neutral_call_ {B} φ d (f : W → W) (k : () → M (sys W) B) Q :
  (∀ w r, held (f w) r = held w r) →
  (∀ a, hoare (books φ d) (k a) Q) → hoare (books φ d) (a ← call_ f; k a) Q.
Proof.
  intros Hf Hk s [? ? ? Hh]. apply Hk. split; [done.. |]. intros r Hr. cbn.
  by rewrite Hf, Hh.
Qed.

Lemma books_until_failure φ d ret steps :
  (0 ≤ ret) → Forall (λ m, hoare (books φ d) m (λ _, books φ d)) steps →
  hoare (books φ d) (until_failure ret steps) (λ _, books φ d).
Proof.
  intros Hret Hs. revert ret Hret. induction Hs as [|m steps Hm _ IH]; intros ret Hret;
    cbn [until_failure]; [by intros s Hs |].
  eapply hoare_bind; [exact Hm |]. intros r. destruct (r <? 0) eqn:E; [by intros s Hs |].
  apply IH. lia.
Qed.
End accounts.

(** ** The radio: making and destroying its parts *)

(** An exciter or a receiver that has been made: its registers at [x]. *)
Definition has_exciter (e : which) (x : Z) (wb : whitebox_device) : Prop :=
  ex_regs (exciter_of wb e) = x ∧
  ex_ops (exciter_of wb e) = Some (if e is Real then real_ops else mock_ops).
Definition has_receiver (e : which) (x : Z) (wb : whitebox_device) : Prop :=
  rv_regs (receiver_of wb e) = x ∧
  rv_ops (receiver_of wb e) = Some (if e is Real then real_ops else mock_ops).
Definition regs_of (e : which) (x : Z) : resource := if e is Real then RMap x else RVmalloc x.

Section radio.
Context {W : Type} `{!Kernel W} `{!Platform W} `{!CircMacros} `{!IoctlMacros}.
Context (held : W → resource → Z) `{!Ledger held}.
Context (start : resource → Z) (pr : params) (uc : Z) (p0 : pdma_device_t).
Implicit Types (d : resource → Z).
Abbreviation B := (books held not_pin start pr uc).

(** The device is [D]. *)
Definition exactly (D : whitebox_device) (p : pdma_device_t) (wb : whitebox_device) : Prop :=
  p = p0 ∧ wb = D.

Lemma exciter_destroy_books φ d e x :
  (∀ p wb, φ p wb → has_exciter e x wb) →
  hoare (B φ d) (whitebox_exciter_destroy e) (λ _, B φ (λ r, d r - unit_of (regs_of e x) r)).
Proof.
  intros Hφ s Hs. destruct (Hφ _ _ (books_devices _ _ _ _ _ _ _ _ Hs)) as [Hx Ho].
  destruct Hs as [? ? ? Hh]. unfold whitebox_exciter_destroy, exciter_free, exciter_call.
  unfold mbind, M_bind, get_wb, gets. rewrite Ho.
  destruct e; cbn; (split; [done.. |]); intros r Hr; cbn in *; rewrite Hx;
    rewrite ?held_iounmap, ?held_vfree, Hh by done; lia.
Qed.
Lemma receiver_destroy_books φ d e x :
  (∀ p wb, φ p wb → has_receiver e x wb) →
  hoare (B φ d) (whitebox_receiver_destroy e) (λ _, B φ (λ r, d r - unit_of (regs_of e x) r)).
Proof.
  intros Hφ s Hs. destruct (Hφ _ _ (books_devices _ _ _ _ _ _ _ _ Hs)) as [Hx Ho].
  destruct Hs as [? ? ? Hh]. unfold whitebox_receiver_destroy, receiver_free, receiver_call.
  unfold mbind, M_bind, get_wb, gets. rewrite Ho.
  destruct e; cbn; (split; [done.. |]); intros r Hr; cbn in *; rewrite Hx;
    rewrite ?held_iounmap, ?held_vfree, Hh by done; lia.
Qed.

(** A step that maps or allocates registers and fills in the device.  It gives 0, or
    [-EINVAL] and takes nothing. *)
Ltac create_tac x law :=
  pose proof law as Hl; cbv zeta in Hl;
  unfold call, mbind, M_bind, upd_wb, modify; cbn; set (x := fst _) in *; unfold nz;
  destruct (x =? 0) eqn:E; cbn.
Ltac books_tac Hl Hh :=
  split; [done | done | split; [done | by subst] |]; intros r Hr; cbn;
  rewrite Hl, ?decide_True, ?decide_False, Hh by (done || lia); lia.

Lemma exciter_create_books D d st sz :
  hoare (B (exactly D) d) (whitebox_exciter_create st sz) (λ ret s, ∃ g,
    let D' := D <| wb_exciter ::= g |> in
    if ret =? 0 then ∃ x, has_exciter Real x D' ∧ B (exactly D') (λ r, d r + unit_of (RMap x) r) s
    else ret < 0 ∧ B (exactly D') d s).
Proof.
  intros s [? ? [? ?] Hh]. unfold whitebox_exciter_create, upd_exciter.
  create_tac x (λ r, held_ioremap (held := held) st sz (s_world s) r).
  - exists (λ y, y <| ex_ops := Some real_ops |> <| ex_incr_dest := 0 |> <| ex_regs := x |>).
    split; [done |]. books_tac Hl Hh.
  - eexists (λ y, y <| ex_ops := Some real_ops |> <| ex_incr_dest := 0 |> <| ex_regs := x |>
      <| ex_pdma_config := _ |>). exists x. split; [done |]. books_tac Hl Hh.
Qed.
Lemma receiver_create_books D d st sz :
  hoare (B (exactly D) d) (whitebox_receiver_create st sz) (λ ret s, ∃ g,
    let D' := D <| wb_receiver ::= g |> in
    if ret =? 0 then ∃ x, has_receiver Real x D' ∧ B (exactly D') (λ r, d r + unit_of (RMap x) r) s
    else ret < 0 ∧ B (exactly D') d s).
Proof.
  intros s [? ? [? ?] Hh]. unfold whitebox_receiver_create, upd_receiver.
  create_tac x (λ r, held_ioremap (held := held) st sz (s_world s) r).
  - exists (λ y, y <| rv_ops := Some real_ops |> <| rv_incr_src := 0 |> <| rv_regs := x |>).
    split; [done |]. books_tac Hl Hh.
  - eexists (λ y, y <| rv_ops := Some real_ops |> <| rv_incr_src := 0 |> <| rv_regs := x |>
      <| rv_pdma_config := _ |>). exists x. split; [done |]. books_tac Hl Hh.
Qed.

(** The mocks also size and empty the ring. *)
Definition empty_ring (b : circ_buf) : circ_buf := b <| cb_head := 0 |> <| cb_tail := 0 |>.
Definition pages (order : Z) : Z := u32 (k_PAGE_SIZE <<< order).

Lemma mock_exciter_create_books D d sz order :
  hoare (B (exactly D) d) (whitebox_mock_exciter_create sz order) (λ ret s, ∃ g,
    let D' := D <| wb_mock_exciter ::= g |> in
    if ret =? 0 then ∃ x, has_exciter Mock x D' ∧
      mx_buf_size (wb_mock_exciter D') = pages order ∧
      mx_fir_coeff (wb_mock_exciter D') = mx_fir_coeff (wb_mock_exciter D) ∧
      B (exactly (D' <| wb_mock_buf ::= empty_ring |>)) (λ r, d r + unit_of (RVmalloc x) r) s
    else ret < 0 ∧ B (exactly D') d s).
Proof.
  intros s [? ? [? ?] Hh]. unfold whitebox_mock_exciter_create, upd_exciter.
  create_tac x (λ r, held_vmalloc (held := held) sz (s_world s) r).
  - exists (λ m, m <| mx_exciter ::= λ y,
      y <| ex_ops := Some mock_ops |> <| ex_incr_dest := 1 |> <| ex_regs := x |> |>).
    split; [done |]. books_tac Hl Hh.
  - eexists (λ m, m <| mx_exciter ::= λ y,
      y <| ex_ops := Some mock_ops |> <| ex_incr_dest := 1 |> <| ex_regs := x |>
        <| ex_pdma_config := _ |> |> <| mx_order := order |> <| mx_buf_size := pages order |>).
    exists x. split; [done |]. split; [done |]. split; [done |]. books_tac Hl Hh.
Qed.
Lemma mock_receiver_create_books D d sz order :
  hoare (B (exactly D) d) (whitebox_mock_receiver_create sz order) (λ ret s, ∃ g,
    let D' := D <| wb_mock_receiver ::= g |> in
    if ret =? 0 then ∃ x, has_receiver Mock x D' ∧
      mr_buf_size (wb_mock_receiver D') = pages order ∧
      B (exactly (D' <| wb_mock_buf ::= empty_ring |>)) (λ r, d r + unit_of (RVmalloc x) r) s
    else ret < 0 ∧ B (exactly D') d s).
Proof.
  intros s [? ? [? ?] Hh]. unfold whitebox_mock_receiver_create, upd_receiver.
  create_tac x (λ r, held_vmalloc (held := held) sz (s_world s) r).
  - exists (λ m, m <| mr_receiver ::= λ y,
      y <| rv_ops := Some mock_ops |> <| rv_incr_src := 1 |> <| rv_regs := x |> |>).
    split; [done |]. books_tac Hl Hh.
  - eexists (λ m, m <| mr_receiver ::= λ y,
      y <| rv_ops := Some mock_ops |> <| rv_incr_src := 1 |> <| rv_regs := x |>
        <| rv_pdma_config := _ |> |> <| mr_order := order |> <| mr_buf_size := pages order |>).
    exists x. split; [done |]. split; [done |]. books_tac Hl Hh.
Qed.

(** ** The board and the character device *)

(** A failure from here on leaves the parts of [D] in place and no user-side buffer. *)
Definition same_parts (D : whitebox_device) (p : pdma_device_t) (wb : whitebox_device) : Prop :=
  p = p0 ∧ wb_user_buffer wb = 0 ∧ cb_buf (wb_mock_buf wb) = cb_buf (wb_mock_buf D) ∧
  (∀ e, exciter_of wb e = exciter_of D e) ∧ (∀ e, receiver_of wb e = receiver_of D e).

Lemma gpio_request_books φ d pdev :
  hoare (B φ d) (whitebox_gpio_request pdev) (λ _, B φ d).
Proof.
  apply books_until_failure; [done |].
  assert (∀ f : W → Z * W, (∀ w r, not_pin r → held (f w).2 r = held w r) →
    hoare (B φ d) (call f) (λ _, B φ d)) as Hc.
  { intros f Hf s [? ? ? Hh]. split; [done.. |]. intros r Hr. cbn. by rewrite Hf, Hh. }
  assert (∀ pin w r, not_pin r → held (k_gpio_request pin w).2 r = held w r) as Hreq.
  { intros pin w r Hr. rewrite held_gpio_request. unfold unit_of.
    destruct (_ <? 0); [lia |]. rewrite decide_False; [lia |]. by intros ->. }
  assert (∀ pin v, Forall (λ m, hoare (B φ d) m (λ _, B φ d)) (WHITEBOX_GPIO_REQUEST_OUTPUT pin v))
    as Hout.
  { intros pin v. apply Forall_cons_2; [apply Hc, Hreq |].
    apply Forall_cons_2; [apply Hc; intros; apply held_direction_output | apply Forall_nil_2]. }
  assert (∀ pin, Forall (λ m, hoare (B φ d) m (λ _, B φ d)) (WHITEBOX_GPIO_REQUEST_INPUT pin)) as Hin.
  { intros pin. apply Forall_cons_2; [apply Hc, Hreq |].
    apply Forall_cons_2; [apply Hc; intros; apply held_direction_input | apply Forall_nil_2]. }
  unfold whitebox_gpio_request. do 16 (apply Forall_app_2; [apply Hout || apply Hin |]). apply Hin.
Qed.

Definition board_bound (D : whitebox_device) d (pdev : whitebox_platform_data_t) (ret : Z)
    (s : sys W) : Prop :=
  0 ≤ ret ∧ ∃ u w, u = (k_get_free_pages (whitebox_user_order pr) w).1 ∧ u ≠ 0 ∧
    B (exactly (D <| wb_platform_data := pdev |> <| wb_user_buffer := u |>))
      (λ r, d r + unit_of (RPages u (whitebox_user_order pr)) r) s.

Lemma cmx991_reset_books φ d pdev :
  hoare (B φ d) (whitebox_gpio_cmx991_reset pdev) (λ _, B φ d).
Proof.
  intros s [? ? ? Hh]. split; [done.. |]. intros r Hr. cbn.
  by rewrite held_gpio_set, held_udelay, held_gpio_set, Hh.
Qed.

Lemma probe_board_books D d pdev :
  wb_user_buffer D = 0 →
  hoare (B (exactly D) d) (probe_board pdev)
    (λ o s, if fst o then board_bound D d pdev (snd o) s else B (same_parts D) d s).
Proof.
  intros Hu. unfold probe_board. eapply hoare_bind; [apply gpio_request_books |]. intros ret.
  destruct (ret <? 0) eqn:Er.
  { apply books_ret. intros s Hs. cbn. eapply books_mono; [exact Hs | | done].
    by intros p wb [-> ->]. }
  eapply books_upd_wb with (φ' := exactly (D <| wb_platform_data := pdev |>)); [by intros p wb [-> ->] |].
  intros ?. eapply hoare_bind; [apply cmx991_reset_books |]. intros ?. cbv beta.
  apply books_param. intros s [? ? [? Hs] Hh].
  pose proof (held_pages (held := held) (whitebox_user_order pr) (s_world s)) as Hl. cbv zeta in Hl.
  unfold call, mbind, M_bind, upd_wb, modify. cbn.
  set (u := (k_get_free_pages (whitebox_user_order pr) (s_world s)).1) in *.
  destruct (u =? 0) eqn:E; cbn.
  - split; cbn; [done | done | | intros r Hr].
    { rewrite Hs. split_and!; [done | apply Z.eqb_eq; exact E | done | by intros [] | by intros []]. }
    rewrite Hl, decide_True, Hh by (done || lia). lia.
  - split; [lia |]. exists u, (s_world s). split; [done |]. split; [lia |].
    split; cbn; [done | done | by rewrite Hs |]. intros r Hr.
    rewrite Hl, decide_False, Hh by (done || lia). lia.
Qed.

(** What the last steps take. *)
Definition cdev_held d (r : resource) : Z :=
  d r + unit_of RClass r + unit_of RRegion r + unit_of RCdev r + unit_of RDevice r.

Lemma board_mono D d d' pdev ret s :
  board_bound D d pdev ret s → (∀ r, not_pin r → d r = d' r) → board_bound D d' pdev ret s.
Proof.
  intros (? & u & w & ? & ? & Hs) Hd. split; [done |]. exists u, w. split; [done |]. split; [done |].
  eapply books_mono; [exact Hs | done |]. intros r Hr. cbn. by rewrite Hd.
Qed.
(** A failure of a creation: the parts made before are untouched. *)
Lemma failed_part φ D' d ret (J : Z → sys W → Prop) :
  φ p0 D' → hoare (B (exactly D') d) (failed ret) (λ o s, if fst o then J (snd o) s else B φ d s).
Proof.
  intros Hφ. apply books_ret. intros s Hs. cbn.
  eapply books_mono; [exact Hs | by intros p wb [-> ->] | done].
Qed.

(** Taking one resource, and giving it back when the rest fails. *)
Lemma take_books {A} φ D d (f : W → A * W) (bad : A → bool) u (undo : W → W) (e : A → Z)
    (rest : A → M (sys W) (bool * Z)) J :
  φ p0 D →
  (∀ w r, held (f w).2 r = held w r + if bad (f w).1 then 0 else unit_of u r) →
  (∀ w r, held (undo w) r = held w r - unit_of u r) →
  (∀ a, hoare (B (exactly D) (λ r, d r + unit_of u r)) (rest a)
    (λ o s, if fst o then J (snd o) s else B φ (λ r, d r + unit_of u r) s)) →
  hoare (B (exactly D) d)
    (a ← call f; if bad a then failed (e a) else on_failure (call_ undo) (rest a))
    (λ o s, if fst o then J (snd o) s else B φ d s).
Proof.
  intros Hφ Hf Hundo Hr. eapply books_call with (c := λ a r, if bad a then 0 else unit_of u r);
    [exact Hf |]. intros w a. destruct (bad a).
  - eapply (books_weaken _ _ _ _ _ _ (exactly D) _ d); [by eapply failed_part | done | cbn; lia].
  - eapply hoare_on_failure; [apply Hr |]. intros s [? ? ? Hh]. split; [done.. |].
    intros r Hc. cbn. rewrite Hundo, Hh by done. lia.
Qed.

Lemma held_if_not (b : bool) (x y : Z) : (x + if b then y else 0) = x + if negb b then 0 else y.
Proof. by destruct b. Qed.

Lemma probe_cdev_books D d pdev :
  wb_user_buffer D = 0 →
  hoare (B (exactly D) d) (probe_cdev pdev) (λ o s, if fst o then
      board_bound D (cdev_held d) pdev (snd o) s else B (same_parts D) d s).
Proof.
  intros Hu. unfold probe_cdev. assert (same_parts D p0 D) as Hsame by by split_and!.
  apply take_books with (u := RClass) (bad := negb); [done | | apply held_class_destroy |].
  { intros w r. rewrite held_class. apply held_if_not. }
  intros _. apply take_books with (u := RRegion) (bad := λ ret, ret <? 0);
    [done | apply held_region | apply held_unregister |].
  intros _. apply take_books with (u := RCdev) (bad := λ ret, ret <? 0);
    [done | apply held_cdev | apply held_cdev_del |].
  intros _. apply take_books with (u := RDevice) (bad := negb); [done | | apply held_device_destroy |].
  { intros w r. rewrite held_device. apply held_if_not. }
  intros _. eapply hoare_conseq; [by apply probe_board_books | done |].
  intros [[|] ret] s Hs; [| done]. cbn. eapply board_mono; [exact Hs |]. unfold cdev_held. lia.
Qed.

(** ** The radio and its memory *)

(** The parts made by the first steps, one after the other, below the user-side
    buffer that is still missing. *)
Definition part0 (a : Z) (p : pdma_device_t) (wb : whitebox_device) : Prop :=
  p = p0 ∧ wb_user_buffer wb = 0 ∧ cb_buf (wb_mock_buf wb) = a.
Definition part1 a x1 p wb := part0 a p wb ∧ has_exciter Real x1 wb.
Definition part2 a x1 x2 p wb := part1 a x1 p wb ∧ has_exciter Mock x2 wb.
Definition part3 a x1 x2 x3 p wb := part2 a x1 x2 p wb ∧ has_receiver Real x3 wb.
Definition part4 a x1 x2 x3 x4 p wb := part3 a x1 x2 x3 p wb ∧ has_receiver Mock x4 wb.

(** What the radio of a device takes. *)
Definition radio_held (x1 x2 x3 x4 : Z) (r : resource) : Z :=
  unit_of (RMap x1) r + unit_of (RVmalloc x2) r + unit_of (RMap x3) r + unit_of (RVmalloc x4) r.

Lemma parts_kept a x1 x2 x3 x4 D p wb :
  part4 a x1 x2 x3 x4 p0 D → same_parts D p wb → part4 a x1 x2 x3 x4 p wb.
Proof.
  intros (((((_ & _ & Ha) & H1) & H2) & H3) & H4) (-> & Hu & Hb & He & Hr).
  unfold part4, part3, part2, part1, part0, has_exciter, has_receiver in *.
  by rewrite !He, !Hr, Hb.
Qed.

(** Undoing a part, the first of those that are left. *)
Lemma undo_exciter φ φ' d d' e x :
  (∀ p wb, φ p wb → has_exciter e x wb ∧ φ' p wb) →
  (∀ r, not_pin r → d r = d' r + unit_of (regs_of e x) r) →
  hoare (B φ d) (whitebox_exciter_destroy e) (λ _, B φ' d').
Proof.
  intros Hφ Hd. eapply hoare_conseq; [apply (exciter_destroy_books φ d e x) | done |].
  - intros p wb Hp. by apply (Hφ p wb).
  - intros ? s Hs. eapply books_mono; [exact Hs | intros p wb Hp; by apply (Hφ p wb) |].
    intros r Hr. cbn. specialize (Hd r Hr). lia.
Qed.
Lemma undo_receiver φ φ' d d' e x :
  (∀ p wb, φ p wb → has_receiver e x wb ∧ φ' p wb) →
  (∀ r, not_pin r → d r = d' r + unit_of (regs_of e x) r) →
  hoare (B φ d) (whitebox_receiver_destroy e) (λ _, B φ' d').
Proof.
  intros Hφ Hd. eapply hoare_conseq; [apply (receiver_destroy_books φ d e x) | done |].
  - intros p wb Hp. by apply (Hφ p wb).
  - intros ? s Hs. eapply books_mono; [exact Hs | intros p wb Hp; by apply (Hφ p wb) |].
    intros r Hr. cbn. specialize (Hd r Hr). lia.
Qed.

(** The result of a creation decides. *)
Lemma created_books ret (good bad : sys W → Prop) (m : M (sys W) (bool * Z)) Q :
  (ret = 0 → hoare good m Q) → (ret < 0 → hoare bad (failed ret) Q) →
  hoare (λ s, if ret =? 0 then good s else ret < 0 ∧ bad s) (if nz ret then failed ret else m) Q.
Proof.
  intros Hg Hb s Hs. unfold nz. destruct (ret =? 0) eqn:E; cbn [negb].
  - apply Hg; [lia | done].
  - destruct Hs. by apply Hb.
Qed.

(** The device once its receivers are made, and once the whole radio is. *)
Definition receivers_made (D : whitebox_device) (x3 x4 : Z) (D' : whitebox_device) : Prop :=
  (∃ g3 g4, D' = D <| wb_receiver ::= g3 |> <| wb_mock_receiver ::= g4 |>
    <| wb_mock_buf ::= empty_ring |>) ∧
  has_receiver Real x3 D' ∧ has_receiver Mock x4 D' ∧
  mr_buf_size (wb_mock_receiver D') = pages (whitebox_mock_order pr).
Definition radio_made (D : whitebox_device) (x1 x2 x3 x4 : Z) (D' : whitebox_device) : Prop :=
  ∃ g1 g2, let D2 := D <| wb_exciter ::= g1 |> <| wb_mock_exciter ::= g2 |> in
    has_exciter Real x1 D2 ∧ has_exciter Mock x2 D2 ∧
    mx_buf_size (wb_mock_exciter D2) = pages (whitebox_mock_order pr) ∧
    mx_fir_coeff (wb_mock_exciter D2) = mx_fir_coeff (wb_mock_exciter D) ∧
    receivers_made (D2 <| wb_mock_buf ::= empty_ring |>) x3 x4 D'.

Definition receivers_bound D d pdev ret (s : sys W) : Prop :=
  ∃ x3 x4 D', receivers_made D x3 x4 D' ∧
    board_bound D' (cdev_held (λ r, d r + unit_of (RMap x3) r + unit_of (RVmalloc x4) r)) pdev ret s.

Lemma probe_receivers_books D d pdev rs rz a x1 x2 :
  part2 a x1 x2 p0 D →
  hoare (B (exactly D) d) (probe_receivers pdev rs rz)
    (λ o s, if fst o then receivers_bound D d pdev (snd o) s else B (part2 a x1 x2) d s).
Proof.
  intros Hp. unfold probe_receivers. eapply hoare_bind; [apply receiver_create_books |]. intros r3.
  apply hoare_exists; intros g3. cbv zeta. set (D3 := D <| wb_receiver ::= g3 |>).
  apply created_books; intros Hr3; [| by eapply failed_part].
  apply hoare_exists; intros x3. apply hoare_pure; intros H3.
  eapply hoare_on_failure; [| apply (undo_receiver (part3 a x1 x2 x3) _
    (λ r, d r + unit_of (RMap x3) r) _ Real x3); [by intros p wb [? ?] | done]].
  apply books_param. eapply hoare_bind; [apply mock_receiver_create_books |]. intros r4.
  apply hoare_exists; intros g4. cbv zeta. set (D4 := D3 <| wb_mock_receiver ::= g4 |>).
  apply created_books; intros Hr4; [| by eapply failed_part].
  apply hoare_exists; intros x4. do 2 (apply hoare_pure; intros ?).
  set (D5 := D4 <| wb_mock_buf ::= empty_ring |>).
  assert (part4 a x1 x2 x3 x4 p0 D5) as Hp5 by done.
  eapply hoare_on_failure; [| apply (undo_receiver (part4 a x1 x2 x3 x4) _
    (λ r, d r + unit_of (RMap x3) r + unit_of (RVmalloc x4) r) _ Mock x4);
    [by intros p wb [? ?] | done]].
  eapply hoare_conseq; [apply (probe_cdev_books D5); by destruct Hp5 as [[[[[_ [? _]] _] _] _] _] | done |].
  intros [[|] ret] s Hs; cbn in *.
  - exists x3, x4, D5. split; [| exact Hs]. split; [by exists g3, g4 | by split_and!].
  - eapply books_mono; [exact Hs | | done]. intros p wb. by apply parts_kept.
Qed.

Definition radio_bound D d pdev ret (s : sys W) : Prop :=
  ∃ x1 x2 x3 x4 D', radio_made D x1 x2 x3 x4 D' ∧
    board_bound D' (cdev_held (λ r, d r + radio_held x1 x2 x3 x4 r)) pdev ret s.

Lemma probe_radio_books D d pdev es ez rs rz a :
  part0 a p0 D →
  hoare (B (exactly D) d) (probe_radio pdev es ez rs rz)
    (λ o s, if fst o then radio_bound D d pdev (snd o) s else B (part0 a) d s).
Proof.
  intros Hp. unfold probe_radio. eapply hoare_bind; [apply exciter_create_books |]. intros r1.
  apply hoare_exists; intros g1. cbv zeta. set (D1 := D <| wb_exciter ::= g1 |>).
  apply created_books; intros Hr1; [| by eapply failed_part].
  apply hoare_exists; intros x1. apply hoare_pure; intros H1.
  eapply hoare_on_failure; [| apply (undo_exciter (part1 a x1) _
    (λ r, d r + unit_of (RMap x1) r) _ Real x1); [by intros p wb [? ?] | done]].
  apply books_param. eapply hoare_bind; [apply mock_exciter_create_books |]. intros r2.
  apply hoare_exists; intros g2. cbv zeta. set (D2 := D1 <| wb_mock_exciter ::= g2 |>).
  apply created_books; intros Hr2; [| by eapply failed_part].
  apply hoare_exists; intros x2. do 3 (apply hoare_pure; intros ?).
  set (D3 := D2 <| wb_mock_buf ::= empty_ring |>).
  assert (part2 a x1 x2 p0 D3) as Hp3 by done.
  eapply hoare_on_failure; [| apply (undo_exciter (part2 a x1 x2) _
    (λ r, d r + unit_of (RMap x1) r + unit_of (RVmalloc x2) r) _ Mock x2);
    [by intros p wb [? ?] | done]].
  eapply hoare_conseq; [by apply (probe_receivers_books D3) | done |].
  intros [[|] ret] s Hs; cbn in *; [| exact Hs].
  destruct Hs as (x3 & x4 & D' & Hm & Hs). exists x1, x2, x3, x4, D'. split.
  - exists g1, g2. by split_and!.
  - eapply board_mono; [exact Hs |]. intros r Hr. unfold cdev_held, radio_held. lia.
Qed.

Lemma free_mock_books d a :
  hoare (B (part0 a) (λ r, d r + unit_of (RPages a (whitebox_mock_order pr)) r)) free_mock_pages
    (λ _, B (part0 a) d).
Proof.
  unfold free_mock_pages. eapply books_get_wb; [by intros p wb (_ & _ & ?) |]. apply books_param.
  intros s [? ? ? Hh]. split; [done.. |]. intros r Hr. cbn. rewrite held_free_pages, Hh by done. lia.
Qed.

(** The device whose mock has its ring at [a]. *)
Definition mock_at (a : Z) : whitebox_device := zeroed_device <| wb_mock_buf ::= λ b, b <| cb_buf := a |> |>.
(** What a bound device holds, apart from its pins. *)
Definition device_held (a x1 x2 x3 x4 u : Z) (r : resource) : Z :=
  unit_of (RMem by_whitebox) r + unit_of (RDebugfs by_whitebox) r +
  unit_of (RPages a (whitebox_mock_order pr)) r + radio_held x1 x2 x3 x4 r +
  unit_of RClass r + unit_of RRegion r + unit_of RCdev r + unit_of RDevice r +
  unit_of (RPages u (whitebox_user_order pr)) r.
Definition device_bound pdev ret (s : sys W) : Prop :=
  0 ≤ ret ∧ ∃ a x1 x2 x3 x4 u D w w', radio_made (mock_at a) x1 x2 x3 x4 D ∧
    a = (k_get_free_pages (whitebox_mock_order pr) w).1 ∧ a ≠ 0 ∧
    u = (k_get_free_pages (whitebox_user_order pr) w').1 ∧ u ≠ 0 ∧
    B (exactly (D <| wb_platform_data := pdev |> <| wb_user_buffer := u |>))
      (device_held a x1 x2 x3 x4 u) s.
(** Nothing is held, and no user-side buffer is left behind. *)
Definition unbound (s : sys W) : Prop :=
  B (λ p wb, p = p0 ∧ wb_user_buffer wb = 0) (λ _, 0) s.

(** The files and the wait queues take nothing. *)
Lemma device_files_books {A} φ d (k : M (sys W) A) Q :
  hoare (B φ d) k Q →
  hoare (B φ d) (call_ (k_debugfs_create_file by_whitebox "tx_stats");;
    call_ (k_debugfs_create_file by_whitebox "tx_bytes");;
    call_ (k_debugfs_create_file by_whitebox "rx_stats");;
    call_ (k_init_waitqueue_head write_wait_queue);;
    call_ (k_init_waitqueue_head read_wait_queue);; k) Q.
Proof.
  intros Hk. do 3 (apply books_neutral_call_; [intros; apply held_file | intros ?]).
  by do 2 (apply books_neutral_call_; [intros; apply held_waitqueue | intros ?]).
Qed.

Definition pages_bound d pdev ret (s : sys W) : Prop :=
  ∃ a w, a = (k_get_free_pages (whitebox_mock_order pr) w).1 ∧ a ≠ 0 ∧
    radio_bound (mock_at a) (λ r, d r + unit_of (RPages a (whitebox_mock_order pr)) r) pdev ret s.

(** From the buffer of the mock on. *)
Lemma probe_mock_pages_books d pdev es ez rs rz :
  hoare (B (exactly zeroed_device) d) (probe_mock_pages pdev es ez rs rz)
    (λ o s, if fst o then pages_bound d pdev (snd o) s
      else B (λ p wb, p = p0 ∧ wb_user_buffer wb = 0) d s).
Proof.
  apply books_param.
  eapply books_call with (c := λ a r,
    if decide (a = 0) then 0 else unit_of (RPages a (whitebox_mock_order pr)) r);
    [intros; apply held_pages |].
  intros w a. eapply books_upd_wb with (φ' := exactly (mock_at a)); [by intros p wb [-> ->] |].
  intros ?. destruct (a =? 0) eqn:E.
  - eapply (books_weaken _ _ _ _ _ _ (exactly (mock_at a)) _ d); [eapply (failed_part (λ p wb, p = p0 ∧ wb_user_buffer wb = 0)); by split
      | done |].
    intros r Hr. cbn. rewrite decide_True by lia. lia.
  - eapply books_weaken with (d' := λ r, d r + unit_of (RPages a (whitebox_mock_order pr)) r);
      [| done | intros r Hr; cbn; by rewrite decide_False by lia].
    eapply hoare_conseq; [eapply hoare_on_failure; [by apply (probe_radio_books (mock_at a)
      (λ r, d r + unit_of (RPages a (whitebox_mock_order pr)) r) pdev es ez rs rz a)
      | apply free_mock_books] | done |].
    intros [[|] ret] s Hs; cbn in *; [by exists a, w; split; [| split; [lia |]] |].
    eapply books_mono; [exact Hs | by intros p wb (? & ? & _) | done].
Qed.

Lemma pages_device pdev ret s :
  pages_bound (λ r, unit_of (RMem by_whitebox) r + unit_of (RDebugfs by_whitebox) r) pdev ret s →
  device_bound pdev ret s.
Proof.
  intros (a & w & Ha & Ha0 & x1 & x2 & x3 & x4 & D & Hm & Hret & u & w' & Hu & Hu0 & Hs).
  split; [done |]. exists a, x1, x2, x3, x4, u, D, w, w'. do 5 (split; [done |]).
  eapply books_mono; [exact Hs | done |]. intros r Hr. cbn. unfold cdev_held, device_held. lia.
Qed.
Lemma probe_memory_books φ pdev es ez rs rz :
  (∀ p wb, φ p wb → p = p0) →
  hoare (B φ (unit_of (RMem by_whitebox))) (probe_memory pdev es ez rs rz)
    (λ o s, if fst o then device_bound pdev (snd o) s else unbound s).
Proof.
  intros Hφ. unfold probe_memory.
  eapply books_upd_wb with (φ' := exactly zeroed_device); [by intros p wb ->%Hφ |]. intros ?.
  apply books_neutral_call_; [intros; apply held_sema |]. intros ?.
  set (free := λ (p : pdma_device_t) wb, p = p0 ∧ wb_user_buffer wb = 0).
  eapply hoare_on_failure with (F := B free (unit_of (RMem by_whitebox))).
  2: { intros s [? ? ? Hh]. split; [done.. |]. intros r Hr. cbn. rewrite held_kfree, Hh by done. lia. }
  eapply hoare_conseq; [| done |].
  - apply take_books with (φ := free) (u := RDebugfs by_whitebox) (bad := negb);
      [unfold free; by split | | apply held_debugfs_remove |].
    { intros w r. rewrite held_debugfs. apply held_if_not. }
    intros ?. apply device_files_books. apply probe_mock_pages_books.
  - intros [[|] ret] s Hs; cbn in *; [by apply pages_device | exact Hs].
Qed.

(** ** Removing *)

Lemma gpio_free_books φ d pdev :
  hoare (B φ d) (whitebox_gpio_free pdev) (λ _, B φ d).
Proof.
  assert (∀ pin w r, not_pin r → held (k_gpio_free pin w) r = held w r) as Hf.
  { intros pin w r Hr. rewrite held_gpio_free. unfold unit_of. rewrite decide_False; [lia |].
    by intros ->. }
  intros s [? ? ? Hh]. split; [done.. |]. intros r Hr. cbn.
  rewrite !Hf by done. by apply Hh.
Qed.
(** A call that gives something back. *)
Lemma give_back {A} φ d (f : W → W) u (k : () → M (sys W) A) Q :
  (∀ w r, held (f w) r = held w r - unit_of u r) →
  (∀ a, hoare (B φ (λ r, d r - unit_of u r)) (k a) Q) → hoare (B φ d) (a ← call_ f; k a) Q.
Proof.
  intros Hf Hk. apply books_call_ with (d1 := λ r, - unit_of u r);
    [intros; rewrite Hf; lia |]. intros a. eapply books_weaken; [apply Hk | done |]. cbn. lia.
Qed.

Lemma remove_books a x1 x2 x3 x4 u D pdev pdev' :
  radio_made (mock_at a) x1 x2 x3 x4 D →
  hoare (B (exactly (D <| wb_platform_data := pdev |> <| wb_user_buffer := u |>))
      (device_held a x1 x2 x3 x4 u)) (whitebox_remove pdev')
    (λ r s, r = 0 ∧ B (exactly (D <| wb_platform_data := pdev |> <| wb_user_buffer := u |>))
      (λ r, unit_of (RPages a (whitebox_mock_order pr)) r +
            unit_of (RPages u (whitebox_user_order pr)) r) s).
Proof.
  set (φ := exactly _). intros (g1 & g2 & H1 & H2 & _ & _ & (g3 & g4 & ->) & H3 & H4 & _).
  assert (∀ p wb, φ p wb → has_exciter Real x1 wb ∧ has_exciter Mock x2 wb ∧
    has_receiver Real x3 wb ∧ has_receiver Mock x4 wb) as Hφ by by intros p wb [-> ->].
  unfold whitebox_remove. eapply hoare_bind; [apply gpio_free_books |]. intros ?.
  apply give_back with (u := RDevice); [apply held_device_destroy | intros ?].
  apply give_back with (u := RCdev); [apply held_cdev_del | intros ?].
  apply give_back with (u := RRegion); [apply held_unregister | intros ?].
  apply give_back with (u := RClass); [apply held_class_destroy | intros ?].
  eapply hoare_bind; [apply (receiver_destroy_books _ _ Mock x4); by intros p wb (? & ? & ? & ?)%Hφ | intros ?].
  eapply hoare_bind; [apply (receiver_destroy_books _ _ Real x3); by intros p wb (? & ? & ? & ?)%Hφ | intros ?].
  eapply hoare_bind; [apply (exciter_destroy_books _ _ Mock x2); by intros p wb (? & ? & ? & ?)%Hφ | intros ?].
  eapply hoare_bind; [apply (exciter_destroy_books _ _ Real x1); by intros p wb (? & ? & ? & ?)%Hφ | intros ?].
  apply give_back with (u := RDebugfs by_whitebox); [apply held_debugfs_remove | intros ?].
  apply give_back with (u := RMem by_whitebox); [apply held_kfree | intros ?].
  apply books_ret. intros s Hs. split; [done |]. eapply books_mono; [exact Hs | done |].
  intros r Hr. cbn. unfold device_held, radio_held. lia.
Qed.
End radio.
(** ** The properties of the radio's probe and remove *)

Section properties.
Context {W : Type} `{!Kernel W} `{!Platform W} `{!CircMacros} `{!IoctlMacros}.
Context (held : W → resource → Z) `{!Ledger held}.

(** A probe from [s] that ends bound, or unbound, in [s']. *)
Definition ends_bound (s : sys W) pdev ret (s' : sys W) : Prop :=
  device_bound held (held (s_world s)) (s_params s) (s_use_count s) (s_pdma s) pdev ret s'.
Definition ends_unbound (s s' : sys W) : Prop :=
  books held not_pin (held (s_world s)) (s_params s) (s_use_count s)
    (λ p wb, p = s_pdma s ∧ (wb = s_wb s ∨ wb_user_buffer wb = 0)) (λ _, 0) s'.

(** The world in which the memory of the device is asked for. *)
Definition after_resources (w : W) : W :=
  (k_platform_get_resource 1 (k_platform_get_resource 0 w).2).2.

Lemma probe_books pdev (s : sys W) :
  (k_kzalloc by_whitebox (after_resources (s_world s))).1 = true →
  post (λ ret s', ends_bound s pdev ret s' ∨ ends_unbound s s') (whitebox_probe pdev s).
Proof.
  intros Hgot. unfold whitebox_probe, mbind, M_bind, call. cbn.
  pose proof (held_resource (held := held) 0 (s_world s)) as Hr0.
  pose proof (held_resource (held := held) 1 (k_platform_get_resource 0 (s_world s)).2) as Hr1.
  unfold after_resources in Hgot.
  destruct (k_platform_get_resource 0 (s_world s)) as [[[es ez] |] w1]; cbn in *.
  2: { right. split; [done | done | by split; [| left] |]. intros r _. cbn. rewrite Hr0. lia. }
  destruct (k_platform_get_resource 1 w1) as [[[rs rz] |] w2]; cbn in *.
  2: { right. split; [done | done | by split; [| left] |]. intros r _. cbn. rewrite Hr1, Hr0. lia. }
  unfold probe_device, mbind, M_bind, call. cbn. rewrite Hgot. cbn [negb].
  pose proof (held_kzalloc (held := held) by_whitebox w2) as Hl. rewrite Hgot in Hl.
  assert (books held not_pin (held (s_world s)) (s_params s) (s_use_count s)
    (λ p _, p = s_pdma s) (unit_of (RMem by_whitebox))
    (s <| s_world := (k_kzalloc by_whitebox w2).2 |>)) as Hs.
  { split; [done.. |]. intros r _. cbn. rewrite Hl, Hr1, Hr0. lia. }
  pose proof (probe_memory_books held (held (s_world s)) (s_params s) (s_use_count s) (s_pdma s)
    (λ p _, p = s_pdma s) pdev es ez rs rz (λ p _ Hp, Hp) _ Hs) as Hp.
  change (s <| s_world := w1 |> <| s_world := w2 |> <| s_world := (k_kzalloc by_whitebox w2).2 |>)
    with (s <| s_world := (k_kzalloc by_whitebox w2).2 |>).
  destruct (probe_memory pdev es ez rs rz _) as [[[|] ret] s' | c |]; cbn in *; [by left | | done | done].
  right. destruct Hp as [? ? [? ?] Hh]. split; [done | done | by split; [| right] | done].
Qed.

(** C32: probing the radio takes everything it needs or nothing.  When the memory of the
    device is there, the probe ends either with the device made, every resource held
    once and an answer that is not negative; or with everything given back, at
    whichever of the eleven steps it failed: the labels undo exactly what the steps
    before them took, in the opposite order.  (The pins are the exception and are
    counted apart.  The second end does not always answer with an error: when either
    buffer cannot be had, the answer is 0 or what requesting the pins gave.) *)
Theorem probe_all_or_nothing pdev (s : sys W) :
  (k_kzalloc by_whitebox (after_resources (s_world s))).1 = true →
  post (λ ret s', ends_bound s pdev ret s' ∨ ends_unbound s s') (whitebox_probe pdev s).
Proof. apply probe_books. Qed.

(** Removing the radio leaks its two buffers.  After a probe that made the device,
    [whitebox_remove] gives 0 and everything back, except the pages of the buffer the
    mocks share and those of the user-side buffer. *)
Lemma remove_leaks_pages pdev pdev' (s s1 : sys W) ret :
  ends_bound s pdev ret s1 →
  post (λ r s2, r = 0 ∧ ∃ a u, a ≠ 0 ∧ u ≠ 0 ∧ ∀ res, not_pin res →
    held (s_world s2) res = held (s_world s) res +
      unit_of (RPages a (whitebox_mock_order (s_params s))) res +
      unit_of (RPages u (whitebox_user_order (s_params s))) res) (whitebox_remove pdev' s1).
Proof.
  intros (_ & a & x1 & x2 & x3 & x4 & u & D & w & w' & Hm & _ & Ha & _ & Hu & Hs).
  eapply post_mono; [| by eapply remove_books].
  intros r s2 [-> [_ _ _ Hh]]. split; [done |]. exists a, u. split; [done |]. split; [done |].
  intros res Hr. rewrite Hh by done. lia.
Qed.

(** What the module's parameters must say: both buffers are powers of two, of at most a
    gigabyte, and the pages given lie in the address space. *)
Record sized (k km : Z) (pr : params) : Prop := {
  sized_user : 2 ≤ k ≤ 30;
  sized_mock : 2 ≤ km ≤ 30;
  sized_half : k_PAGE_SIZE (W := W) <<< (whitebox_user_order pr - 1) = 2 ^ k;
  sized_whole : k_PAGE_SIZE (W := W) <<< whitebox_user_order pr = 2 * 2 ^ k;
  sized_ring : k_PAGE_SIZE (W := W) <<< whitebox_mock_order pr = 2 ^ km;
}.
Definition pages_in_range : Prop := ∀ order w, let a := (k_get_free_pages (W := W) order w).1 in
  a ≠ 0 → 0 < a ∧ a + k_PAGE_SIZE (W := W) <<< order ≤ 2 ^ 32.

Lemma bound_ready k km pdev (s s' : sys W) ret :
  sized k km (s_params s) → pages_in_range → pdma_wf (s_pdma s) → s_use_count s = 0 →
  0 ≤ tx_dma_ch pdev < 8 → 0 ≤ rx_dma_ch pdev < 8 →
  ends_bound s pdev ret s' → idle_inv k km s'.
Proof.
  intros [Hk Hkm Hhalf Hwhole Hring] Hp Hw Huc Htx Hrx
    (_ & a & x1 & x2 & x3 & x4 & u & D & w & w' & Hm & Ha & Ha0 & Hu & Hu0 & [Hpr Hc [Hpd Hs] _]).
  destruct (Hp (whitebox_mock_order (s_params s)) w) as [Hal Har]; [by rewrite <- Ha |].
  destruct (Hp (whitebox_user_order (s_params s)) w') as [Hul Hur]; [by rewrite <- Hu |].
  rewrite <- Ha, Hring in Har. rewrite <- Hu, Hwhole in Hur. rewrite <- Ha in Hal. rewrite <- Hu in Hul.
  pose proof (pow2_30 km Hkm).
  destruct Hm as (g1 & g2 & Hx1 & Hx2 & Hmx & Hfir & (g3 & g4 & ->) & Hx3 & Hx4 & Hmr).
  assert (pages (whitebox_mock_order (s_params s)) = 2 ^ km) as Hpg.
  { unfold pages. rewrite Hring. apply u32_small. lia. }
  split; [split | by rewrite Hc].
  - by rewrite Hpd.
  - rewrite Hs. split; try done; try (by rewrite <- Hpg); try (cbn; lia).
    + split; cbn; lia.
    + intros []; [exists real_ops; exact (proj2 Hx1) | exists mock_ops; exact (proj2 Hx2)].
    + intros []; [exists real_ops; exact (proj2 Hx3) | exists mock_ops; exact (proj2 Hx4)].
    + exact (f_equal (@length Z) Hfir).
  - split; [done | by rewrite Hpr |]. rewrite Hs. cbn. lia.
Qed.

(** C34: a probed radio can be opened.  With the DMA driver loaded, sizes that fit and a
    page allocator that stays in the address space, a probe that returns an answer that
    is not negative and a user-side buffer has established the invariant of a closed
    device, the one from which the driver never leaves an object. *)
Theorem probe_ready k km pdev (s s' : sys W) ret :
  sized k km (s_params s) → pages_in_range → pdma_wf (s_pdma s) → s_use_count s = 0 →
  0 ≤ tx_dma_ch pdev < 8 → 0 ≤ rx_dma_ch pdev < 8 → wb_user_buffer (s_wb s) = 0 →
  whitebox_probe pdev s = Done ret s' → wb_user_buffer (s_wb s') ≠ 0 → idle_inv k km s'.
Proof.
  intros Hz Hp Hw Huc Htx Hrx Hu0 Hrun Hu.
  assert (ends_bound s pdev ret s' ∨ ends_unbound s s') as [Hb | Hb].
  - destruct (k_kzalloc by_whitebox (after_resources (s_world s))).1 eqn:Hgot.
    { pose proof (probe_books pdev s Hgot) as Hb. by rewrite Hrun in Hb. }
    exfalso. revert Hrun Hu. unfold whitebox_probe, mbind, M_bind, call, after_resources in *. cbn.
    destruct (k_platform_get_resource 0 (s_world s)) as [[[es ez] |] w1]; cbn in *;
      [| by intros [= _ <-]].
    destruct (k_platform_get_resource 1 w1) as [[[rs rz] |] w2]; cbn in *; [| by intros [= _ <-]].
    unfold probe_device, mbind, M_bind, call. cbn. by rewrite Hgot.
  - by eapply bound_ready.
  - destruct Hb as [_ _ [_ [Hs | Hs]] _]; [by rewrite Hs in Hu | done].
Qed.
End properties.

(** ** On concrete inputs *)

(** Two freshly loaded modules: one gets all it asks for, one is refused the last of its
    requests, the pages of the user-side buffer. *)
Definition loaded : sys sim := sim_sys <| s_params := sim_params |>.
Definition short_of_pages : sys sim :=
  sim_sys <| s_params := sim_params |>
    <| s_world := sim0 <| m_refuse := replicate 11 false ++ [true] |> |>.
Definition after_probe (s : sys sim) : sys sim :=
  match whitebox_probe whitebox_platform_data s with Done _ s' => s' | _ => s end.

Lemma probe_all_or_nothing_witness :
  post (λ ret s', ends_bound sim_held short_of_pages whitebox_platform_data ret s' ∨
      ends_unbound sim_held short_of_pages s') (whitebox_probe whitebox_platform_data short_of_pages) ∧
  whitebox_probe whitebox_platform_data short_of_pages = Done 0 (after_probe short_of_pages) ∧
  wb_user_buffer (s_wb (after_probe short_of_pages)) = 0.
Proof.
  split; [apply probe_all_or_nothing; [apply _ | vm_compute; reflexivity] |].
  split; vm_compute; reflexivity.
Defined.

Lemma loaded_bound : ends_bound sim_held loaded whitebox_platform_data 0 (after_probe loaded).
Proof.
  pose proof (probe_books sim_held whitebox_platform_data loaded eq_refl) as H.
  replace (whitebox_probe whitebox_platform_data loaded) with (Done 0 (after_probe loaded)) in H
    by (vm_compute; reflexivity).
  destruct H as [H | [_ _ [_ [H | H]] _]]; [exact H | exfalso..].
  - apply (f_equal wb_user_buffer) in H. vm_compute in H. discriminate H.
  - vm_compute in H. discriminate H.
Qed.

Lemma remove_leaks_pages_witness :
  post (λ r s2, r = 0 ∧ ∃ a u, a ≠ 0 ∧ u ≠ 0 ∧ ∀ res, not_pin res →
    sim_held (s_world s2) res = sim_held (s_world loaded) res +
      unit_of (RPages a (whitebox_mock_order (s_params loaded))) res +
      unit_of (RPages u (whitebox_user_order (s_params loaded))) res)
    (whitebox_remove whitebox_platform_data (after_probe loaded)).
Proof. apply (remove_leaks_pages _ whitebox_platform_data _ _ _ 0). exact loaded_bound. Defined.

Lemma sim_pages_fit : pages_in_range (W := sim).
Proof.
  intros order w a. subst a. cbn. pose proof (sim_pages_range w).
  destruct (refused w || _) eqn:E; cbn; [done |]. intros _.
  apply orb_false_iff in E as [_ E]. apply negb_false_iff in E. apply andb_true_iff in E as [E1 E2].
  split; [lia |]. rewrite Z.shiftl_mul_pow2 by lia.
  pose proof (Z.pow_le_mono_r 2 order 10 ltac:(lia) ltac:(lia)). lia.
Qed.

Lemma probe_ready_witness :
  wb_user_buffer (s_wb (after_probe loaded)) ≠ 0 ∧ idle_inv 14 14 (after_probe loaded).
Proof.
  assert (wb_user_buffer (s_wb (after_probe loaded)) ≠ 0) as Hu by (vm_compute; discriminate).
  split; [exact Hu |].
  apply (probe_ready sim_held 14 14 whitebox_platform_data loaded _ 0).
  - by split; vm_compute.
  - exact sim_pages_fit.
  - exact zero_pdma_wf.
  - reflexivity.
  - by vm_compute.
  - by vm_compute.
  - reflexivity.
  - vm_compute. reflexivity.
  - exact Hu.
Defined.
