(* ===== verification/PdmaProbeSpec.v ===== *)
(** * Binding the DMA controller, and requesting the pins

    The accounts of [pdma_probe] and [pdma_remove], and the bookkeeping they leave; the
    account of the pins; the properties of the probes on concrete inputs. *)

From S2P Require Import Prelude Kernel State Sim Pdma PdmaSpec Gpio Probe ProbeSpec.

Section pdma.
Context {W : Type} `{!Kernel W} `{!Platform W} (held : W → resource → Z) `{!Ledger held}.
Context (start : resource → Z) (pr : params) (uc : Z) (wb0 : whitebox_device).
Implicit Types (d : resource → Z).
Abbreviation B := (books held (λ _, True) start pr uc).

(** A controller fresh from memory, and one whose channels are numbered. *)
Definition fresh_pdma (regs irq : Z) : pdma_device_t :=
  Build_pdma_device_t regs irq (replicate 8 (zero_chan 0)).
Definition ready_pdma (regs irq : Z) : pdma_device_t :=
  Build_pdma_device_t regs irq (zero_chan <$> [0; 1; 2; 3; 4; 5; 6; 7]).
Definition the_pdma (p : pdma_device_t) (p' : pdma_device_t) (wb : whitebox_device) : Prop :=
  p' = p ∧ wb = wb0.

Lemma ready_pdma_wf regs irq : pdma_wf (ready_pdma regs irq).
Proof. destruct zero_pdma_wf as [Hl Hc]. split; [exact Hl | exact Hc]. Qed.

Lemma pdma_init_books regs irq d :
  hoare (B (the_pdma (fresh_pdma regs irq)) d) pdma_init
    (λ ret, B (λ p wb, ret = 0 ∧ the_pdma (ready_pdma regs irq) p wb) d).
Proof.
  intros [? p ? wb w] [? ? [Hp Hwb] Hh]. cbn in *. subst p wb. split; [done | done | done |].
  intros r Hr. cbn. by rewrite held_writel, held_readl, held_lock_init, Hh.
Qed.

Lemma pdma_unmap_books φ d x :
  (∀ p wb, φ p wb → pd_regs p = x) →
  hoare (B φ (λ r, d r + unit_of (RMap x) r)) pdma_unmap (λ _, B φ d).
Proof.
  intros Hφ s [? ? Hp Hh]. unfold pdma_unmap, pdma_regs, mbind, M_bind, gets. cbn.
  rewrite (Hφ _ _ Hp). split; [done.. |]. intros r Hr. cbn. rewrite held_iounmap, Hh by done. lia.
Qed.
Lemma pdma_free_irq_books φ d irq :
  (∀ p wb, φ p wb → pd_irq p = irq) →
  hoare (B φ (λ r, d r + unit_of (RIrq irq) r)) pdma_free_irq (λ _, B φ d).
Proof.
  intros Hφ s [? ? Hp Hh]. unfold pdma_free_irq, mbind, M_bind, gets. cbn.
  rewrite (Hφ _ _ Hp). split; [done.. |]. intros r Hr. cbn. rewrite held_free_irq, Hh by done. lia.
Qed.

(** What a bound controller holds. *)
Definition pdma_held (regs irq : Z) (r : resource) : Z :=
  unit_of (RMem by_pdma) r + unit_of (RMap regs) r + unit_of (RIrq irq) r +
  unit_of (RDebugfs by_pdma) r.
Definition pdma_bound (ret : Z) (s : sys W) : Prop :=
  ret = 0 ∧ ∃ regs irq, B (the_pdma (ready_pdma regs irq)) (pdma_held regs irq) s.
(** The radio is untouched. *)
Definition apart (_ : pdma_device_t) (wb : whitebox_device) : Prop := wb = wb0.

(** A failure label reached with nothing more taken, and a negative answer. *)
Lemma failed_apart φ d ret (J : Z → sys W → Prop) :
  (∀ p wb, φ p wb → wb = wb0) → ret < 0 →
  hoare (B φ d) (failed ret) (λ o s, if fst o then J (snd o) s else snd o < 0 ∧ B apart d s).
Proof.
  intros Hφ Hr. apply books_ret. intros s Hs. cbn. split; [done |].
  by eapply books_mono; [exact Hs | apply Hφ |].
Qed.

(** [on_failure] where the failing answer is negative. *)
Lemma on_failure_neg P cleanup rest (J : Z → sys W → Prop) (F F' : sys W → Prop) :
  hoare P rest (λ (o : bool * Z) s, if fst o then J (snd o) s else snd o < 0 ∧ F s) →
  hoare F cleanup (λ _, F') →
  hoare P (on_failure cleanup rest)
    (λ (o : bool * Z) s, if fst o then J (snd o) s else snd o < 0 ∧ F' s).
Proof.
  intros Hr Hc. eapply hoare_bind; [exact Hr |]. intros [[|] ret] s Hs; cbn in *; [done |].
  destruct Hs as [? Hs]. apply post_bind. eapply post_mono; [| by apply Hc]. by intros [] s'.
Qed.

(** The steps once the registers are mapped, and once the interrupt is requested.  The
    registers and the number of the interrupt are still those of the device. *)
Definition has_regs (regs : Z) (p : pdma_device_t) (wb : whitebox_device) : Prop :=
  pd_regs p = regs ∧ wb = wb0.
Definition has_irq (regs irq : Z) (p : pdma_device_t) (wb : whitebox_device) : Prop :=
  pd_irq p = irq ∧ has_regs regs p wb.

Lemma pdma_start_books regs irq d :
  (∀ r, d r + unit_of (RDebugfs by_pdma) r = pdma_held regs irq r) →
  hoare (B (the_pdma (fresh_pdma regs irq)) d)
    pdma_probe_init
    (λ o s, if fst o then pdma_bound (snd o) s else snd o < 0 ∧ B (has_irq regs irq) d s).
Proof.
  intros Hd. eapply hoare_bind; [apply pdma_init_books |]. intros ret.
  intros s Hs. destruct (books_devices _ _ _ _ _ _ _ _ Hs) as [-> Hp]. cbn [negb Z.eqb].
  revert s Hs Hp.
  assert (hoare (B (the_pdma (ready_pdma regs irq)) d)
    (ok ← call (k_debugfs_create_dir by_pdma);
     if negb (ok : bool) then failed (- ENXIO)
     else call_ (k_debugfs_create_file by_pdma "channel0");; bound 0)
    (λ o s, if fst o then pdma_bound (snd o) s else snd o < 0 ∧ B (has_irq regs irq) d s)) as H.
  { eapply books_call with (c := λ ok r, if (ok : bool) then unit_of (RDebugfs by_pdma) r else 0);
      [intros; apply held_debugfs |].
    intros w [|]; cbn [negb].
    - apply books_neutral_call_; [intros; apply held_file |]. intros ?.
      apply books_ret. intros s Hs. split; [done |]. exists regs, irq.
      by eapply books_mono; [exact Hs | | intros; apply Hd].
    - apply books_ret. intros s Hs. split; [done |].
      eapply books_mono; [exact Hs | by intros p wb [-> ->] |]. intros. cbn. lia. }
  intros s Hs Hp. apply H. eapply books_mono; [exact Hs | by intros p wb [_ ?] | done].
Qed.

(** The registers are mapped; the number of the interrupt is set and it is requested. *)
Lemma pdma_irq_books regs irq d :
  (∀ r, d r + unit_of (RIrq irq) r + unit_of (RDebugfs by_pdma) r = pdma_held regs irq r) →
  hoare (B (the_pdma (fresh_pdma regs 0)) d)
    (upd_pdma (λ p, p <| pd_irq := irq |>);;
     ret ← call (k_request_irq irq);
     if nz ret then failed (- EINVAL) else on_failure pdma_free_irq pdma_probe_init)
    (λ o s, if fst o then pdma_bound (snd o) s else snd o < 0 ∧ B (has_regs regs) d s).
Proof.
  intros Hd. eapply books_upd_pdma with (φ' := the_pdma (fresh_pdma regs irq)); [by intros p wb [-> ->] |].
  intros ?. eapply books_call with (c := λ ret r, if decide (ret = 0) then unit_of (RIrq irq) r else 0);
    [intros; apply held_irq |].
  intros w ret. unfold nz. destruct (ret =? 0) eqn:E; cbn [negb].
  - eapply books_weaken with (d' := λ r, d r + unit_of (RIrq irq) r);
      [| done | intros; cbn; by rewrite decide_True by lia].
    eapply hoare_conseq; [eapply on_failure_neg; [apply (pdma_start_books regs irq); exact Hd |] | done |].
    + eapply hoare_conseq; [apply (pdma_free_irq_books (has_irq regs irq)); by intros p wb [? _]
        | done |]. intros ? s Hs. exact Hs.
    + intros [[|] ret'] s Hs; cbn in *; [done |]. destruct Hs as [? Hs]. split; [done |].
      by eapply books_mono; [exact Hs | intros p wb [_ ?] |].
  - apply books_ret. intros s Hs. split; [done |].
    eapply books_mono; [exact Hs | by intros p wb [-> ->] |]. intros. cbn. rewrite decide_False; lia.
Qed.

Lemma pdma_memory_books φ st sz irq :
  (∀ p wb, φ p wb → wb = wb0) →
  hoare (B φ (unit_of (RMem by_pdma))) (pdma_probe_memory st sz irq)
    (λ o s, if fst o then pdma_bound (snd o) s else snd o < 0 ∧ B apart (λ _, 0) s).
Proof.
  intros Hφ. unfold pdma_probe_memory.
  eapply books_upd_pdma with (φ' := the_pdma zeroed_pdma); [by intros p wb ->%Hφ |]. intros ?.
  eapply on_failure_neg with (F := B apart (unit_of (RMem by_pdma))).
  2: { intros s [? ? ? Hh]. split; [done.. |]. intros r Hr. cbn. rewrite held_kfree, Hh by done. lia. }
  eapply books_call with (c := λ a r, if decide (a = 0) then 0 else unit_of (RMap a) r);
    [intros; apply held_ioremap |].
  intros w regs. eapply books_upd_pdma with (φ' := the_pdma (fresh_pdma regs 0));
    [by intros p wb [-> ->] |]. intros ?.
  destruct (regs =? 0) eqn:E.
  - eapply hoare_conseq; [apply (failed_apart (the_pdma (fresh_pdma regs 0))); [by intros p wb [_ ?] | done]
      | done |].
    intros [[|] ret] s Hs; cbn in *; [exact Hs |]. destruct Hs as [? Hs]. split; [done |].
    eapply books_mono; [exact Hs | done |]. intros. cbn. rewrite decide_True; lia.
  - eapply books_weaken with (d' := λ r, unit_of (RMem by_pdma) r + unit_of (RMap regs) r);
      [| done | intros; cbn; by rewrite decide_False by lia].
    eapply on_failure_neg with (F := B (has_regs regs)
      (λ r, unit_of (RMem by_pdma) r + unit_of (RMap regs) r)).
    + apply pdma_irq_books. intros r. unfold pdma_held. lia.
    + eapply hoare_conseq; [apply (pdma_unmap_books (has_regs regs)); by intros p wb [? _] | done |].
      intros ? s Hs. by eapply books_mono; [exact Hs | intros p wb [_ ?] |].
Qed.

(** What [pdma_remove] gives back. *)
Lemma pdma_remove_books regs irq :
  hoare (B (the_pdma (ready_pdma regs irq)) (pdma_held regs irq)) pdma_remove
    (λ r s, r = 0 ∧ B apart (unit_of (RDebugfs by_pdma)) s).
Proof.
  unfold pdma_remove.
  eapply books_weaken with (φ' := the_pdma (ready_pdma regs irq))
    (d' := λ r, unit_of (RMem by_pdma) r + unit_of (RDebugfs by_pdma) r + unit_of (RMap regs) r +
      unit_of (RIrq irq) r); [| done | unfold pdma_held; lia].
  eapply hoare_bind; [apply (pdma_free_irq_books (the_pdma (ready_pdma regs irq))); by intros p wb [-> _] |].
  intros ?. eapply hoare_bind; [apply (pdma_unmap_books (the_pdma (ready_pdma regs irq))); by intros p wb [-> _] |].
  intros ?. apply books_call_ with (d1 := λ r, - unit_of (RMem by_pdma) r);
    [intros; rewrite held_kfree; lia |].
  intros ?. apply books_ret. intros s Hs. split; [done |].
  eapply books_mono; [exact Hs | by intros p wb [_ ?] |]. intros. cbn. lia.
Qed.
End pdma.

(** ** The properties *)

Section properties.
Context {W : Type} `{!Kernel W} `{!Platform W} (held : W → resource → Z) `{!Ledger held}.

Definition pdma_ends_bound (s : sys W) (ret : Z) (s' : sys W) : Prop :=
  pdma_bound held (held (s_world s)) (s_params s) (s_use_count s) (s_wb s) ret s'.

End properties.

(** ** Pins *)

Section pins.
Context {W : Type} `{!Kernel W} `{!Platform W} (held : W → resource → Z) `{!Ledger held}.

(** The pins in the order they are requested, with the level of an output. *)
Definition pin_requests (pd : whitebox_platform_data_t) : list (Z * option Z) := [
  (adc_s1_pin pd, Some 0); (adc_s2_pin pd, Some 0); (adc_dfs_pin pd, Some 1);
  (dac_en_pin pd, Some 0); (dac_pd_pin pd, Some 1); (dac_cs_pin pd, Some 1);
  (radio_resetn_pin pd, Some 1); (radio_cdata_pin pd, Some 0); (radio_sclk_pin pd, Some 0);
  (radio_rdata_pin pd, None); (radio_csn_pin pd, Some 1); (vco_clk_pin pd, Some 0);
  (vco_data_pin pd, Some 0); (vco_le_pin pd, Some 0); (vco_ce_pin pd, Some 1);
  (vco_pdb_pin pd, Some 1); (vco_ld_pin pd, None)].
Definition request_of (q : Z * option Z) : list (M (sys W) Z) :=
  match snd q with
  | Some v => WHITEBOX_GPIO_REQUEST_OUTPUT (fst q) v
  | None => WHITEBOX_GPIO_REQUEST_INPUT (fst q)
  end.
Definition pins_held (l : list (Z * option Z)) (r : resource) : Z :=
  foldr (λ q n, unit_of (RPin (fst q)) r + n) 0 l.
Lemma pins_held_cons q l r : pins_held (q :: l) r = unit_of (RPin (fst q)) r + pins_held l r.
Proof. done. Qed.

(** The second step of a request sets the direction and takes nothing. *)
Lemma request_steps q : ∃ f : W → Z * W,
  request_of q = [call (k_gpio_request (fst q)); call f] ∧ ∀ w r, held (f w).2 r = held w r.
Proof.
  destruct q as [pin [v |]]; eexists; (split; [reflexivity |]); intros w r.
  - apply held_direction_output.
  - apply held_direction_input.
Qed.

Lemma requests_held qs ret (s : sys W) :
  0 ≤ ret →
  post (λ r s', ∃ n, (n ≤ length qs)%nat ∧ (0 ≤ r → n = length qs) ∧
    ∀ res, held (s_world s') res = held (s_world s) res + pins_held (take n qs) res)
    (until_failure ret (mjoin (request_of <$> qs)) s).
Proof.
  revert ret s. induction qs as [|q qs IH]; intros ret s Hret.
  { exists 0%nat. split; [done |]. split; [done |]. intros res. cbn. lia. }
  destruct (request_steps q) as (f & Hq & Hf). rewrite fmap_cons. cbn [mjoin list_join]. rewrite Hq.
  cbn [app until_failure]. unfold mbind at 1, M_bind at 1, call at 1.
  set (w1 := (k_gpio_request (fst q) (s_world s)).2).
  pose proof (held_gpio_request (held := held) (fst q) (s_world s)) as Hg. fold w1 in Hg.
  destruct ((k_gpio_request (fst q) (s_world s)).1 <? 0) eqn:E1.
  { exists 0%nat. split; [lia |]. split; [lia |]. intros res. cbn. rewrite Hg. lia. }
  unfold mbind at 1, M_bind at 1, call at 1. cbn [s_world].
  set (w2 := (f _).2). set (r2 := (f _).1).
  assert (∀ res, held w2 res = held (s_world s) res + unit_of (RPin (fst q)) res) as Hw2.
  { intros res. unfold w2. rewrite Hf. apply Hg. }
  destruct (r2 <? 0) eqn:E2.
  { exists 1%nat. split; [cbn; lia |]. split; [lia |]. intros res. trans (held w2 res); [done |]. rewrite Hw2, firstn_cons, take_0. cbn. lia. }
  eapply post_mono; [| apply IH; lia]. intros r s' (n & Hn & Hr & Hh). exists (S n).
  split; [cbn; lia |]. split; [intros; cbn; f_equal; by apply Hr |].
  intros res. rewrite Hh.
  trans (held w2 res + pins_held (take n qs) res); [done |].
  rewrite Hw2, firstn_cons, pins_held_cons. lia.
Qed.

(** Requesting the pins stops at the first that fails and keeps those before it.  When
    the answer is not negative all seventeen are held; when it is an error, those
    requested so far stay held, and the probe that gives up does not free them. *)
Lemma gpio_request_keeps_pins pd (s : sys W) :
  post (λ r s', ∃ n, (n ≤ 17)%nat ∧ (0 ≤ r → n = 17%nat) ∧
    ∀ res, held (s_world s') res =
      held (s_world s) res + pins_held (take n (pin_requests pd)) res)
    (whitebox_gpio_request pd s).
Proof. exact (requests_held (pin_requests pd) 0 s (Z.le_refl 0)). Qed.
End pins.

(** ** On concrete inputs *)

(** A probe that is refused its interrupt, and one that is refused nothing. *)
Definition no_irq : sys sim :=
  sim_sys <| s_world := sim0 <| m_refuse := [false; false; true] |> |>.


(** The third pin is taken already. *)
Definition pin_taken : sys sim := sim_sys <| s_world := sim0 <| m_gpio_fail := [37] |> |>.

Lemma gpio_request_keeps_pins_witness :
  post (λ r s', ∃ n, (n ≤ 17)%nat ∧ (0 ≤ r → n = 17%nat) ∧
    ∀ res, sim_held (s_world s') res = sim_held (s_world pin_taken) res +
      pins_held (take n (pin_requests whitebox_platform_data)) res)
    (whitebox_gpio_request whitebox_platform_data pin_taken) ∧
  match whitebox_gpio_request whitebox_platform_data pin_taken with
  | Done r s' => r = -16 ∧ sim_held (s_world s') <$> [RPin 36; RPin 35; RPin 37; RPin 38] = [1; 1; 0; 0]
  | _ => False
  end.
Proof. split; [apply gpio_request_keeps_pins; apply _ | by vm_compute]. Defined.
