(* ===== verification/Modules.v ===== *)
(** * Loading and unloading both modules ([driver/pdma.c], [driver/whitebox_driver.c])

    What each module registers with the kernel, the windows of registers it declares, and
    what is left registered when a step fails or the module goes. *)

From S2P Require Import Prelude Kernel State Pdma Exciter Receiver Probe.

(** A range of addresses, both ends included, or an interrupt line. *)
Inductive resource_flags := IORESOURCE_MEM | IORESOURCE_IRQ.
Record resource_t := { r_start : Z; r_end : Z; r_flags : resource_flags }.
Record platform_device := {
  pv_name : string;
  pv_id : Z;
  pv_resource : list resource_t;
  pv_platform_data : option whitebox_platform_data_t;
}.
#[global] Instance eta_platform_device : Eta platform_device :=
  λ r, Build_platform_device (pv_name r) (pv_id r) (pv_resource r) (pv_platform_data r).

(** The part of the kernel that keeps drivers and devices; a driver and its device are
    named by the module they are of. *)
Class Registry (W : Type) := {
  (** negative on failure *)
  k_platform_driver_register : owner → W → Z * W;
  k_platform_driver_unregister : owner → W → W;
  (** [false]: no memory for the structure *)
  k_platform_device_alloc : string → Z → W → bool * W;
  (** negative on failure *)
  k_platform_device_add : platform_device → W → Z * W;
  k_platform_device_register : platform_device → W → Z * W;
  (** what was allocated goes with the registration *)
  k_platform_device_unregister : owner → W → W;
}.

Inductive registration := RegDriver (o : owner) | RegDevice (o : owner) | DeviceMemory.
#[global] Instance registration_eq_dec : EqDecision registration.
Proof. solve_decision. Defined.
Definition one (x r : registration) : Z := if decide (r = x) then 1 else 0.

(** [Registrar standing]: [standing w r] counts what is registered in the world [w]. *)
Class Registrar {W} `{!Registry W} (standing : W → registration → Z) : Prop := {
  standing_driver o w r : standing (k_platform_driver_register o w).2 r =
    standing w r + if (k_platform_driver_register o w).1 <? 0 then 0 else one (RegDriver o) r;
  standing_driver_gone o w r :
    standing (k_platform_driver_unregister o w) r = standing w r - one (RegDriver o) r;
  standing_alloc n i w r : standing (k_platform_device_alloc n i w).2 r =
    standing w r + if (k_platform_device_alloc n i w).1 then one DeviceMemory r else 0;
  standing_add d w r : standing (k_platform_device_add d w).2 r =
    standing w r + if (k_platform_device_add d w).1 <? 0 then 0 else one (RegDevice by_whitebox) r;
  standing_device d w r : standing (k_platform_device_register d w).2 r =
    standing w r + if (k_platform_device_register d w).1 <? 0 then 0 else one (RegDevice by_pdma) r;
  standing_device_gone o w r : standing (k_platform_device_unregister o w) r =
    standing w r - one (RegDevice o) r
      - if decide (o = by_whitebox) then one DeviceMemory r else 0;
}.

(** ** What is declared *)

Definition WHITEBOX_DRIVER_NAME : string := "whitebox".
Definition PDMA_REGS : Z := 0x40003000.
Definition PDMA_IRQ : Z := 13.
Definition WHITEBOX_EXCITER_REGS : Z := 0x31000000.
Definition WHITEBOX_RECEIVER_REGS : Z := 0x31000030.
Definition WHITEBOX_EXCITER_REGS_COUNT : Z := 0x10.
Definition WHITEBOX_RECEIVER_REGS_COUNT : Z := 0x10.

(** The end that is left out is 0. *)
Definition pdma_dev0_resources : list resource_t := [
  {| r_start := PDMA_REGS; r_end := PDMA_REGS + 1; r_flags := IORESOURCE_MEM |};
  {| r_start := PDMA_IRQ; r_end := 0; r_flags := IORESOURCE_IRQ |}].
Definition pdma_dev0 : platform_device := {|
  pv_name := "pdma"; pv_id := 0; pv_resource := pdma_dev0_resources; pv_platform_data := None
|}.
Definition whitebox_platform_device_resources : list resource_t := [
  {| r_start := WHITEBOX_EXCITER_REGS; r_end := WHITEBOX_EXCITER_REGS + WHITEBOX_EXCITER_REGS_COUNT;
     r_flags := IORESOURCE_MEM |};
  {| r_start := WHITEBOX_RECEIVER_REGS; r_end := WHITEBOX_RECEIVER_REGS + WHITEBOX_RECEIVER_REGS_COUNT;
     r_flags := IORESOURCE_MEM |}].

(** ** The entry points *)

(** The global [whitebox_platform_device], a pointer, and the world. *)
Record modules (W : Type) := {
  md_whitebox_platform_device : option platform_device;
  md_world : W;
}.
Arguments md_whitebox_platform_device {W} _.
Arguments md_world {W} _.
#[global] Instance eta_modules {W} : Eta (modules W) :=
  λ m, Build_modules W (md_whitebox_platform_device m) (md_world m).

Section modules.
Context {W : Type} `{!Registry W}.
Abbreviation P := (M (modules W)).

Definition reg_call {A} (f : W → A * W) : P A :=
  λ m, let r := f (md_world m) in Done r.1 (m <| md_world := r.2 |>).
Definition reg_call_ (f : W → W) : P () := modify (λ m, m <| md_world ::= f |>).

(** The structure as it comes from [platform_device_alloc], and the fields written to it. *)
Definition allocated_device : platform_device := {|
  pv_name := WHITEBOX_DRIVER_NAME; pv_id := 0; pv_resource := []; pv_platform_data := None
|}.
Definition fill_device (d : platform_device) : platform_device :=
  d <| pv_resource := whitebox_platform_device_resources |>
    <| pv_platform_data := Some whitebox_platform_data |>.

(** After the driver is registered; the last label gives it up. *)
Definition create_platform_device : P Z :=
  ok ← reg_call (k_platform_device_alloc WHITEBOX_DRIVER_NAME 0);
  modify (λ m, m <| md_whitebox_platform_device :=
    if (ok : bool) then Some allocated_device else None |>);;
  if negb ok then
    reg_call_ (k_platform_driver_unregister by_whitebox);; mret (- ENOMEM)
  else
    modify (λ m, m <| md_whitebox_platform_device ::= option_map fill_device |>);;
    ret ← reg_call (k_platform_device_add (fill_device allocated_device));
    when (ret <? 0) (reg_call_ (k_platform_driver_unregister by_whitebox));;
    mret ret.

Definition whitebox_init_module : P Z :=
  ret ← reg_call (k_platform_driver_register by_whitebox);
  if ret <? 0 then mret ret else create_platform_device.

Definition whitebox_cleanup_module : P () :=
  reg_call_ (k_platform_device_unregister by_whitebox);;
  reg_call_ (k_platform_driver_unregister by_whitebox).

(** Neither answer is looked at. *)
Definition pdma_module_init : P Z :=
  _ ← reg_call (k_platform_driver_register by_pdma);
  _ ← reg_call (k_platform_device_register pdma_dev0);
  mret 0.
Definition pdma_module_exit : P () :=
  reg_call_ (k_platform_device_unregister by_pdma);;
  reg_call_ (k_platform_driver_unregister by_pdma).

(** Both only print. *)
Definition whitebox_suspend : P Z := mret 0.
Definition whitebox_resume : P Z := mret 0.
End modules.

(** ** Properties *)

Section registrar.
Context {W : Type} `{!Registry W} (standing : W → registration → Z) `{!Registrar standing}.

(** [m'] has [d] more registered than [m]. *)
Definition more (m : modules W) (d : registration → Z) (m' : modules W) : Prop :=
  ∀ r, standing (md_world m') r = standing (md_world m) r + d r.
Definition bound_whitebox (r : registration) : Z :=
  one (RegDriver by_whitebox) r + one (RegDevice by_whitebox) r + one DeviceMemory r.

(** The outcomes of loading the radio's module: loaded, or refused with nothing left, but
    for the memory of a device that could not be added. *)
Definition load_outcome (m : modules W) (ret : Z) (m' : modules W) : Prop :=
  (0 ≤ ret ∧ more m bound_whitebox m' ∧
    md_whitebox_platform_device m' = Some (fill_device allocated_device)) ∨
  (ret < 0 ∧ more m (λ _, 0) m') ∨
  (ret < 0 ∧ more m (one DeviceMemory) m' ∧
    md_whitebox_platform_device m' = Some (fill_device allocated_device)).

Lemma create_outcome (m m1 : modules W) :
  more m (one (RegDriver by_whitebox)) m1 →
  ∃ ret m', create_platform_device m1 = Done ret m' ∧ load_outcome m ret m'.
Proof.
  intros H1. unfold create_platform_device, load_outcome, more in *.
  pose proof (standing_alloc WHITEBOX_DRIVER_NAME 0 (md_world m1)) as Ha.
  cbn [mbind M_bind]. unfold mbind, M_bind, reg_call, reg_call_, modify. cbn zeta iota beta.
  destruct (k_platform_device_alloc WHITEBOX_DRIVER_NAME 0 (md_world m1)) as [[] w2]; cbn in *.
  - pose proof (standing_add (fill_device allocated_device) w2) as Hd.
    destruct (k_platform_device_add _ w2) as [ret w3]; cbn in *.
    destruct (ret <? 0) eqn:E; cbn; try rewrite E in Hd.
    + eexists _, _. split; [reflexivity |]. right; right. cbn. split_and!; [lia | | done].
      intros r. rewrite standing_driver_gone, Hd, Ha, H1. lia.
    + eexists _, _. split; [reflexivity |]. left. cbn. split_and!; [lia | | done].
      intros r. rewrite Hd, Ha, H1. unfold bound_whitebox. lia.
  - eexists _, _. split; [reflexivity |]. right; left. cbn. split; [done |].
    intros r. rewrite standing_driver_gone, Ha, H1. lia.
Qed.

(** Whichever of the two registrations the kernel grants. *)
Definition bound_pdma (driver device : bool) (r : registration) : Z :=
  (if driver then one (RegDriver by_pdma) r else 0) + if device then one (RegDevice by_pdma) r else 0.
Lemma pdma_outcome (m : modules W) :
  ∃ driver device m1, pdma_module_init m = Done 0 m1 ∧ more m (bound_pdma driver device) m1 ∧
    driver = negb ((k_platform_driver_register by_pdma (md_world m)).1 <? 0).
Proof.
  unfold pdma_module_init. pose proof (standing_driver by_pdma (md_world m)) as Hd.
  unfold mbind, M_bind, reg_call. cbn.
  destruct (k_platform_driver_register by_pdma (md_world m)) as [r1 w1]; cbn in *.
  pose proof (standing_device pdma_dev0 w1) as Hv.
  eexists _, (negb ((k_platform_device_register pdma_dev0 w1).1 <? 0)), _.
  split_and!; [reflexivity | | reflexivity]. intros r. cbn. rewrite Hv, Hd. unfold bound_pdma.
  destruct (_ <? 0), (_ <? 0); cbn; lia.
Qed.

(** C33: loading the radio's module either registers its driver and the device of the board,
    with both windows and the pins declared, and answers what the kernel did, or fails and
    leaves nothing registered, but for the memory of a device that was allocated and could
    not be added, which is kept; unloading after a load that succeeded gives everything
    back.  Loading the DMA module answers 0 whatever was refused. *)
Theorem module_load_unload (m : modules W) :
  (∃ ret m1, whitebox_init_module m = Done ret m1 ∧ load_outcome m ret m1) ∧
  (∀ m1, more m bound_whitebox m1 →
    ∃ m2, whitebox_cleanup_module m1 = Done () m2 ∧ more m (λ _, 0) m2) ∧
  (∃ driver device m1, pdma_module_init m = Done 0 m1 ∧ more m (bound_pdma driver device) m1 ∧
    driver = negb ((k_platform_driver_register by_pdma (md_world m)).1 <? 0)) ∧
  (∀ m1, more m (bound_pdma true true) m1 →
    ∃ m2, pdma_module_exit m1 = Done () m2 ∧ more m (λ _, 0) m2).
Proof.
  split_and!.
  - unfold whitebox_init_module. pose proof (standing_driver by_whitebox (md_world m)) as Hd.
    unfold mbind, M_bind, reg_call. cbn.
    destruct (k_platform_driver_register by_whitebox (md_world m)) as [ret w1]; cbn in *.
    destruct (ret <? 0) eqn:E.
    + eexists _, _. split; [reflexivity |]. right; left. split; [lia | exact Hd].
    + apply create_outcome. exact Hd.
  - intros m1 H1. eexists. split; [reflexivity |]. intros r. cbn.
    rewrite standing_driver_gone, standing_device_gone, H1, decide_True by done.
    unfold bound_whitebox. lia.
  - apply pdma_outcome.
  - intros m1 H1. eexists. split; [reflexivity |]. intros r. cbn.
    rewrite standing_driver_gone, standing_device_gone, H1, decide_False by done.
    unfold bound_pdma. lia.
Qed.
End registrar.

(** ** The windows of registers

    The size of a range, as the drivers ask for it. *)
Definition resource_size (r : resource_t) : Z := r_end r - r_start r + 1.
Definition window (d : platform_device) (i : nat) : option (Z * Z) :=
  (λ r, (r_start r, resource_size r)) <$> pv_resource d !! i.

(** The windows are too small: the registers the drivers use lie past their ends, in the
    file of the exciter and in the memory of as many bytes that stands for it in the mock,
    in the file of the receiver, and in that of the DMA controller.  The windows of the two
    radios do not meet. *)
Lemma declared_windows :
  window (fill_device allocated_device) 0 = Some (0x31000000, 17) ∧ 17 < wer_fir + 4 ∧
  window (fill_device allocated_device) 1 = Some (0x31000030, 17) ∧ 17 < wrr_debug + 4 ∧
  window pdma_dev0 0 = Some (0x40003000, 2) ∧ 2 < pdma_buf_cnt 0 7 1 + 4 ∧
  WHITEBOX_EXCITER_REGS + wer_fir + 4 ≤ WHITEBOX_RECEIVER_REGS.
Proof. vm_compute. repeat split; discriminate || reflexivity. Qed.

(** ** One kernel that keeps a register, with a script of the requests to refuse *)

Record registry := { g_refuse : list bool; g_log : list (registration * Z) }.
#[global] Instance eta_registry : Eta registry := λ r, Build_registry (g_refuse r) (g_log r).
Definition g_standing (w : registry) (r : registration) : Z :=
  foldr (λ e n, n + if decide (e.1 = r) then e.2 else 0) 0 (g_log w).
Definition g_change (x : registration) (n : Z) (w : registry) : registry := w <| g_log ::= cons (x, n) |>.
Definition g_ask {A} (yes no : A) (x : registration) (w : registry) : A * registry :=
  let w' := w <| g_refuse ::= tail |> in
  if default false (head (g_refuse w)) then (no, w') else (yes, g_change x 1 w').
#[global] Instance g_registry : Registry registry := {|
  k_platform_driver_register o := g_ask 0 (- EBUSY) (RegDriver o);
  k_platform_driver_unregister o := g_change (RegDriver o) (- 1);
  k_platform_device_alloc _ _ := g_ask true false DeviceMemory;
  k_platform_device_add _ := g_ask 0 (- EBUSY) (RegDevice by_whitebox);
  k_platform_device_register _ := g_ask 0 (- EBUSY) (RegDevice by_pdma);
  k_platform_device_unregister o w :=
    let w := g_change (RegDevice o) (- 1) w in
    if decide (o = by_whitebox) then g_change DeviceMemory (- 1) w else w;
|}.
#[global] Instance g_registrar : Registrar g_standing.
Proof.
  split; intros; cbn; unfold g_ask, g_change, g_standing, one;
    repeat match goal with
    | |- context [if default _ _ then _ else _] => destruct (default _ _); cbn
    | |- _ => case_decide; cbn
    end; change (- EBUSY <? 0) with true; cbn; subst; try congruence; lia.
Qed.

Definition fresh (refuse : list bool) : modules registry := Build_modules _ None (Build_registry refuse []).
(** Loaded and unloaded; and the device refused, when its memory stays. *)
Lemma module_load_unload_witness :
  (∃ ret m1, whitebox_init_module (fresh []) = Done ret m1 ∧ load_outcome g_standing (fresh []) ret m1) ∧
  ∃ ret m1, whitebox_init_module (fresh [false; false; true]) = Done ret m1 ∧ ret = - EBUSY ∧
    g_standing (md_world m1) DeviceMemory = 1.
Proof.
  split; [exact (proj1 (module_load_unload g_standing (fresh []))) |].
  eexists _, _. split; [reflexivity |]. split; reflexivity.
Defined.
