(* ===== verification/Ieee.v ===== *)
(** * The floating-point arithmetic of C

    [float] and [double] as the IEEE 754 binary32 and binary64 formats of the
    Standard Library's [SpecFloat], where every operation is computed and rounded to
    nearest even, and the conversions C makes between them and the integers. *)

From Stdlib Require Import Floats.SpecFloat.
From S2P Require Import Prelude.

Definition f32 : Type := spec_float.
Definition f64 : Type := spec_float.

(** The exact value of a number of one format, rounded to another. *)
Definition to_format (prec emax : Z) (x : spec_float) : spec_float :=
  match x with
  | S754_finite s m e => binary_normalize prec emax (cond_Zopp s (Zpos m)) e s
  | _ => x
  end.

Definition f32_of_f64 (x : f64) : f32 := to_format 24 128 x.
Definition f64_of_f32 (x : f32) : f64 := to_format 53 1024 x.
Definition f32_of_Z (z : Z) : f32 := binary_normalize 24 128 z 0 false.
Definition f64_of_Z (z : Z) : f64 := binary_normalize 53 1024 z 0 false.

Definition f32_add : f32 → f32 → f32 := SFadd 24 128.
Definition f32_mul : f32 → f32 → f32 := SFmul 24 128.
Definition f32_div : f32 → f32 → f32 := SFdiv 24 128.
Definition f64_add : f64 → f64 → f64 := SFadd 53 1024.
Definition f64_mul : f64 → f64 → f64 := SFmul 53 1024.
Definition f64_div : f64 → f64 → f64 := SFdiv 53 1024.
Definition f64_le : f64 → f64 → bool := SFleb.

(** A decimal constant [m * 10 ^ -k]: the quotient of two exact numbers is rounded
    once, as the constant is. *)
Definition f64_const (m k : Z) : f64 := f64_div (f64_of_Z m) (f64_of_Z (10 ^ k)).

(** The integral part; none of an infinity or of what is not a number. *)
Definition integral (x : spec_float) : option Z :=
  match x with
  | S754_zero _ => Some 0
  | S754_finite s m e => Some (cond_Zopp s (if 0 <=? e then Zpos m * 2 ^ e else Zpos m / 2 ^ (- e)))
  | _ => None
  end.
(** A conversion to an integer type drops the fraction, and is undefined when the
    integral part does not fit. *)
Definition float_to_int (lo hi : Z) (x : spec_float) : option Z :=
  match integral x with
  | Some z => if (lo <=? z) && (z <=? hi) then Some z else None
  | None => None
  end.
Definition float_to_u32 : spec_float → option Z := float_to_int 0 (2 ^ 32 - 1).
Definition float_to_u16 : spec_float → option Z := float_to_int 0 (2 ^ 16 - 1).
Definition float_to_s32 : spec_float → option Z := float_to_int (- 2 ^ 31) (2 ^ 31 - 1).
