(* ===== verification/DspSpec.v ===== *)
(** * The synthesizer makes the tones of its reference

    The [k]-th sample of a tone is the table's at the phase [p + k * fcw], for both
    sample routines; the accumulator gives those phases from the second on. *)

From S2P Require Import Prelude Ieee Dsp.

(** ** The reference *)

Definition cosine (entry : Z) : Z := (QUAD_UNPACK (lut_entry entry)).1.
Definition sine (entry : Z) : Z := (QUAD_UNPACK (lut_entry entry)).2.
Definition phase_at (fcw p k : Z) : Z := (p + k * fcw) mod 2 ^ 25.
Definition angle_at (fcw p k : Z) : Z := phase_at fcw p k / 2 ^ 15.

(** [n] samples in a row. *)
Fixpoint tone {A} (sample : Z → A * Z) (n : nat) (phase : Z) : list A :=
  match n with
  | O => []
  | S n' => (sample phase).1 :: tone sample n' (sample phase).2
  end.

(** ** The accumulator and the selected entry *)

Lemma next_phase_mod fcw p : next_phase fcw p = (p + fcw) mod 2 ^ 25.
Proof.
  unfold next_phase. change (DDS_PA_MAX - 1) with (2 ^ 25 - 1). rewrite land_ones_low by lia.
  unfold u32. apply Z.mod_mod_divide. by exists 128.
Qed.
Lemma next_phase_at fcw p k : next_phase fcw (phase_at fcw p k) = phase_at fcw p (k + 1).
Proof.
  rewrite next_phase_mod. unfold phase_at. rewrite Z.add_mod_idemp_l by lia. f_equal. lia.
Qed.
Lemma phase_at_0 fcw p : 0 ≤ p < 2 ^ 25 → phase_at fcw p 0 = p.
Proof. intros. unfold phase_at. rewrite Z.mod_small; lia. Qed.
Lemma entry_of_phase p : 0 ≤ p < 2 ^ 25 → entry_of p = p / 2 ^ 15.
Proof.
  intros Hp. unfold entry_of. change DDS_PHASE_SHIFT with 15.
  rewrite Z.shiftr_land, Z.shiftr_shiftl_l, Z.sub_diag, Z.shiftl_0_r by lia.
  change (DDS_ROM_NUM_SAMPLES - 1) with (2 ^ 10 - 1).
  rewrite land_ones_low, Z.shiftr_div_pow2 by lia.
  assert (p / 2 ^ 15 < 2 ^ 10) by (apply Z.div_lt_upper_bound; lia).
  pose proof (Z.div_pos p (2 ^ 15) ltac:(lia) ltac:(lia)).
  rewrite Z.mod_small, u16_small by lia. done.
Qed.

Lemma accum_loop_spec n i fcw p0 k phases :
  (i + n ≤ length phases)%nat →
  accum_loop n (Z.of_nat i) fcw (phase_at fcw p0 k) phases =
    overwrite i ((λ j, phase_at fcw p0 (j + 1)) <$> seqZ k (Z.of_nat n)) phases.
Proof.
  revert i k phases. induction n as [|n IH]; intros i k phases Hn; [symmetry; apply overwrite_nil |].
  cbn [accum_loop]. cbv zeta.
  change (u32 (phase_at fcw p0 k + fcw) &&& (DDS_PA_MAX - 1)) with (next_phase fcw (phase_at fcw p0 k)).
  rewrite next_phase_at, Nat2Z.id. replace (Z.of_nat i + 1) with (Z.of_nat (S i)) by lia.
  rewrite IH by (rewrite length_insert; lia). rewrite overwrite_cons by lia.
  rewrite (seqZ_cons k (Z.of_nat (S n))), fmap_cons by lia.
  by replace (Z.pred (Z.of_nat (S n))) with (Z.of_nat n) by lia.
Qed.

(** ** The table *)

(** A quarter of a turn later, the cosine is the opposite of the sine. *)
Lemma quarter_turn e : 0 ≤ e < 1024 → cosine ((e + 256) &&& 1023) = - sine e.
Proof.
  intros He. apply Z.eqb_eq.
  revert e He. apply (below_forall 1024 (λ e, cosine ((e + 256) &&& 1023) =? - sine e)).
  vm_compute. reflexivity.
Qed.
(** Every entry is a point of the circle of radius 32767, to less than one in 24000. *)
Lemma on_circle e : 0 ≤ e < 1024 →
  Z.abs (cosine e ^ 2 + sine e ^ 2 - 32767 ^ 2) ≤ 43011.
Proof.
  intros He. apply Z.leb_le. revert e He.
  apply (below_forall 1024 (λ e, Z.abs (cosine e ^ 2 + sine e ^ 2 - 32767 ^ 2) <=? 43011)).
  vm_compute. reflexivity.
Qed.

Lemma sincos16_at fcw p :
  0 ≤ p < 2 ^ 25 →
  sincos16 fcw p = ((cosine (p / 2 ^ 15), - sine (p / 2 ^ 15)), next_phase fcw p) ∧
  sincos16c fcw p = (QUAD_PACK (cosine (p / 2 ^ 15)) (- sine (p / 2 ^ 15)), next_phase fcw p).
Proof.
  intros Hp. assert (0 ≤ p / 2 ^ 15 < 1024) as He.
  { split; [apply Z.div_pos; lia | apply Z.div_lt_upper_bound; lia]. }
  rewrite <- (quarter_turn (p / 2 ^ 15) He). unfold sincos16, sincos16c, cosine.
  rewrite entry_of_phase by done. change DDS_PI_OVER_4 with 256. change (DDS_ROM_NUM_SAMPLES - 1) with 1023.
  by destruct (QUAD_UNPACK (lut_entry (p / 2 ^ 15))), (QUAD_UNPACK _).
Qed.

Lemma tone_spec {A} (sample : Z → A * Z) (f : Z → A) fcw p n k :
  (∀ j, sample (phase_at fcw p j) = (f (angle_at fcw p j), phase_at fcw p (j + 1))) →
  tone sample n (phase_at fcw p k) = (λ j, f (angle_at fcw p j)) <$> seqZ k (Z.of_nat n).
Proof.
  intros Hs. revert k. induction n as [|n IH]; intros k; [done |].
  cbn [tone]. rewrite Hs, (seqZ_cons k (Z.of_nat (S n))), fmap_cons by lia. cbn [fst snd]. f_equal. rewrite IH.
  f_equal. f_equal; lia.
Qed.

Lemma phase_range fcw p j : 0 ≤ phase_at fcw p j < 2 ^ 25.
Proof. apply Z.mod_pos_bound. lia. Qed.



(** The control word is half of what the accumulator needs: a tone of 2 kHz at 78125
    samples a second turns a thousand times in those samples. *)
Lemma freq_to_fcw_halves :
  freq_to_fcw (f32_of_Z 2000) (f32_of_Z 78125) = Some 429496 ∧ 78125 * 429496 / 2 ^ 25 = 999.
Proof. split; vm_compute; reflexivity. Qed.
