(* ===== verification/Regs.v ===== *)
(** * Registers described by a list ([util/genregs.py])

    The C of a chip's registers is generated from a list of their fields: a structure
    with one member for each field, and functions that pack the fields of one address
    into a word and load them back.  Here the list is data, and what the templates
    write out for each field is a fold over it. *)

From Stdlib Require Import Strings.Ascii.
From S2P Require Import Prelude.

(** A line of a list: the bits [reg_lo] to [reg_hi] of the word at [reg_addr], a default,
    and the names of the values, counted from 0; and the member of the structure. *)
Record reg (T : Type) := Reg {
  reg_name : string;
  reg_addr : Z;
  reg_lo : Z;
  reg_hi : Z;
  reg_default : Z;
  reg_enums : list string;
  reg_get : T → Z;
  reg_set : Z → T → T;
}.
Arguments Reg {T}.
Arguments reg_name {T}.
Arguments reg_addr {T}.
Arguments reg_lo {T}.
Arguments reg_hi {T}.
Arguments reg_default {T}.
Arguments reg_enums {T}.
Arguments reg_get {T}.
Arguments reg_set {T}.

Section regs.
Context {T : Type}.
Implicit Types (r : reg T) (regs : list (reg T)) (rf : T).

Definition get_bit_width r : Z := reg_hi r - reg_lo r + 1.
Definition get_shift r : Z := reg_lo r.
Definition get_mask r : Z := 2 ^ get_bit_width r - 1.
(** The bits of the member's C type: an enumeration is an [unsigned int], the others are
    [uint8_t] or [uint16_t], the next power of two of bits. *)
Definition get_type_bits r : Z :=
  match reg_enums r with
  | [] => Z.max (2 ^ Z.log2_up (get_bit_width r)) 8
  | _ => 32
  end.
Definition store r (v : Z) rf : T := reg_set r (v mod 2 ^ get_type_bits r) rf.

(** The fields of the cases of a [switch] over addresses. *)
Definition fields_at (addrs : list Z) regs (addr : Z) : list (reg T) :=
  if existsb (Z.eqb addr) addrs then List.filter (λ r, reg_addr r =? addr) regs else [].

(** [reg |= ((uintw_t)(rf->x) & mask) << shift] in words of [w] bits. *)
Definition pack_fields (w : Z) (fs : list (reg T)) rf (word : Z) : Z :=
  foldl (λ word r,
    (word ||| (((reg_get r rf mod 2 ^ w) &&& get_mask r) <<< get_shift r)) mod 2 ^ w) word fs.
(** [rf->x = (data >> shift) & mask] *)
Definition load_fields (fs : list (reg T)) rf (data : Z) : T :=
  foldl (λ rf r, store r ((data >>> get_shift r) &&& get_mask r) rf) rf fs.

Definition init_fields regs rf : T := foldl (λ rf r, store r (reg_default r) rf) rf regs.
Definition copy_fields regs (src dst : T) : T :=
  foldl (λ dst r, store r (reg_get r src) dst) dst regs.

(** A register spread over several fields, the lowest bits first, in a [uint16_t]. *)
Fixpoint get_mreg (fs : list (reg T)) (shift : Z) rf : Z :=
  match fs with
  | [] => 0
  | r :: fs =>
      (((reg_get r rf &&& get_mask r) <<< shift) mod 2 ^ 16) |||
      get_mreg fs (shift + get_bit_width r) rf
  end.
Fixpoint set_mreg (fs : list (reg T)) (shift : Z) rf (v : Z) : T :=
  match fs with
  | [] => rf
  | r :: fs => set_mreg fs (shift + get_bit_width r) (store r ((v >>> shift) &&& get_mask r) rf) v
  end.

(** The value of an enumerator, named by its field and its own name in capitals. *)
Definition upper_ascii (c : ascii) : ascii :=
  let n := nat_of_ascii c in
  if (97 <=? n)%nat && (n <=? 122)%nat then ascii_of_nat (n - 32) else c.
Fixpoint upper (s : string) : string :=
  match s with EmptyString => EmptyString | String c s => String (upper_ascii c) (upper s) end.
Fixpoint enum_value (field : string) (l : list string) (v : Z) (name : string) : option Z :=
  match l with
  | [] => None
  | e :: l =>
      if String.eqb name (upper field +:+ "_" +:+ upper e) then Some v
      else enum_value field l (v + 1) name
  end.
Fixpoint enumerator regs (name : string) : Z :=
  match regs with
  | [] => 0
  | r :: regs =>
      match enum_value (reg_name r) (reg_enums r) 0 name with
      | Some v => v
      | None => enumerator regs name
      end
  end.

(** ** What a list of fields must satisfy *)

(** Members are independent, and make the structure up. *)
Class Members regs : Prop := {
  member_get_set r v rf : r ∈ regs → reg_get r (reg_set r v rf) = v;
  member_names : NoDup (reg_name <$> regs);
  member_get_other r r' v rf : r ∈ regs → r' ∈ regs → reg_name r ≠ reg_name r' →
    reg_get r' (reg_set r v rf) = reg_get r' rf;
  member_ext a b : (∀ r, r ∈ regs → reg_get r a = reg_get r b) → a = b;
}.

(** A field lies between the bits [lo] and [w] of its word, is as wide as its member
    allows, and its default is one of its values. *)
Definition field_ok (lo w : Z) r : bool :=
  (lo <=? reg_lo r) && (reg_lo r <=? reg_hi r) && (reg_hi r <? w) &&
  (get_bit_width r <=? get_type_bits r) &&
  (0 <=? reg_default r) && (reg_default r <? 2 ^ get_bit_width r).
Definition disjoint_fields r r' : bool :=
  negb (reg_addr r =? reg_addr r') || (reg_hi r <? reg_lo r') || (reg_hi r' <? reg_lo r).
Fixpoint all_disjoint regs : bool :=
  match regs with [] => true | r :: regs => forallb (disjoint_fields r) regs && all_disjoint regs end.
Definition layout_ok (lo w : Z) (addrs : list Z) regs : bool :=
  forallb (field_ok lo w) regs && all_disjoint regs &&
  forallb (λ r, existsb (Z.eqb (reg_addr r)) addrs) regs.

(** Every member holds a value of its field. *)
Definition in_range r rf : Prop := 0 ≤ reg_get r rf < 2 ^ get_bit_width r.
Definition chip_ok regs rf : Prop := ∀ r, r ∈ regs → in_range r rf.
End regs.
