(* ===== verification/Adf4351.v ===== *)
(** * The ADF4351 synthesizer ([lib/adf4351.regs], [lib/adf4351_impl.c.tmpl])

    Its fields, the words they are packed into, and the choice of its dividers for a
    frequency.  [None]: what C leaves undefined (a conversion of a float that does not
    fit, a division by zero, the value of a function that ends without one, an integer
    that overflows). *)

From Stdlib Require Import Floats.SpecFloat.
From S2P Require Import Prelude Kernel State Ioctl Ieee Regs.

(** ** Registers *)

Record adf4351_t := Adf4351 {
  frac_12_bit : Z;
  int_16_bit : Z;
  mod_12_bit : Z;
  phase_12_bit : Z;
  prescaler : Z;
  phase_adjust : Z;
  counter_reset : Z;
  cp_three_state : Z;
  power_down : Z;
  pd_polarity : Z;
  ldp : Z;
  ldf : Z;
  charge_pump_current : Z;
  double_buffer : Z;
  r_counter_10_bit : Z;
  reference_divide_by_2 : Z;
  reference_doubler : Z;
  muxout : Z;
  low_noise_and_spur : Z;
  clock_divider_12_bit : Z;
  clock_div_mode : Z;
  cycle_slip_reduction : Z;
  charge_cancel : Z;
  anti_backlash_pulse : Z;
  band_select_mode : Z;
  output_power : Z;
  rf_output_enable : Z;
  aux_output_power : Z;
  aux_output_enable : Z;
  aux_output_select : Z;
  mute_till_lock_detect : Z;
  vco_power_down : Z;
  band_select_clock_div : Z;
  rf_divider_select : Z;
  feedback_select : Z;
  reserved_5_0 : Z;
  ld_pin_mode : Z;
}.
#[global] Instance eta_adf4351_t : Eta adf4351_t := λ r, Adf4351
  (frac_12_bit r) (int_16_bit r) (mod_12_bit r) (phase_12_bit r)
  (prescaler r) (phase_adjust r) (counter_reset r) (cp_three_state r)
  (power_down r) (pd_polarity r) (ldp r) (ldf r)
  (charge_pump_current r) (double_buffer r) (r_counter_10_bit r) (reference_divide_by_2 r)
  (reference_doubler r) (muxout r) (low_noise_and_spur r) (clock_divider_12_bit r)
  (clock_div_mode r) (cycle_slip_reduction r) (charge_cancel r) (anti_backlash_pulse r)
  (band_select_mode r) (output_power r) (rf_output_enable r) (aux_output_power r)
  (aux_output_enable r) (aux_output_select r) (mute_till_lock_detect r) (vco_power_down r)
  (band_select_clock_div r) (rf_divider_select r) (feedback_select r) (reserved_5_0 r)
  (ld_pin_mode r).

Definition adf4351_regs : list (reg adf4351_t) := [
  Reg "frac_12_bit" 0 3 14 0 [] frac_12_bit (λ v r, r <| frac_12_bit := v |>);
  Reg "int_16_bit" 0 15 30 35 [] int_16_bit (λ v r, r <| int_16_bit := v |>);
  Reg "mod_12_bit" 1 3 14 4095 [] mod_12_bit (λ v r, r <| mod_12_bit := v |>);
  Reg "phase_12_bit" 1 15 26 0 [] phase_12_bit (λ v r, r <| phase_12_bit := v |>);
  Reg "prescaler" 1 27 27 0 ["4_5"; "8_9"] prescaler (λ v r, r <| prescaler := v |>);
  Reg "phase_adjust" 1 28 28 0 ["off"; "on"] phase_adjust (λ v r, r <| phase_adjust := v |>);
  Reg "counter_reset" 2 3 3 0 ["disabled"; "enabled"] counter_reset (λ v r, r <| counter_reset := v |>);
  Reg "cp_three_state" 2 4 4 0 ["disabled"; "enabled"] cp_three_state (λ v r, r <| cp_three_state := v |>);
  Reg "power_down" 2 5 5 0 ["disabled"; "enabled"] power_down (λ v r, r <| power_down := v |>);
  Reg "pd_polarity" 2 6 6 1 ["negative"; "positive"] pd_polarity (λ v r, r <| pd_polarity := v |>);
  Reg "ldp" 2 7 7 0 ["10ns"; "6ns"] ldp (λ v r, r <| ldp := v |>);
  Reg "ldf" 2 8 8 0 ["frac_n"; "int_n"] ldf (λ v r, r <| ldf := v |>);
  Reg "charge_pump_current" 2 9 12 5 ["0_31ma"; "0_63ma"; "0_94ma"; "1_25ma"; "1_56ma"; "1_88ma"; "2_19ma"; "2_50ma"; "2_81ma"; "3_13ma"; "3_44ma"; "3_75ma"; "4_07ma"; "4_38ma"; "4_69ma"; "5_00ma"] charge_pump_current (λ v r, r <| charge_pump_current := v |>);
  Reg "double_buffer" 2 13 13 0 ["disabled"; "enabled"] double_buffer (λ v r, r <| double_buffer := v |>);
  Reg "r_counter_10_bit" 2 14 23 0 [] r_counter_10_bit (λ v r, r <| r_counter_10_bit := v |>);
  Reg "reference_divide_by_2" 2 24 24 0 ["disabled"; "enabled"] reference_divide_by_2 (λ v r, r <| reference_divide_by_2 := v |>);
  Reg "reference_doubler" 2 25 25 0 ["disabled"; "enabled"] reference_doubler (λ v r, r <| reference_doubler := v |>);
  Reg "muxout" 2 26 28 1 ["3state"; "dvdd"; "dgnd"; "rdiv"; "ndiv"; "analog_ld"; "dld"; "reserved"] muxout (λ v r, r <| muxout := v |>);
  Reg "low_noise_and_spur" 2 29 30 3 ["low_noise"; "reserved0"; "reserved1"; "low_spur"] low_noise_and_spur (λ v r, r <| low_noise_and_spur := v |>);
  Reg "clock_divider_12_bit" 3 3 14 0 [] clock_divider_12_bit (λ v r, r <| clock_divider_12_bit := v |>);
  Reg "clock_div_mode" 3 15 16 1 ["clock_divider_off"; "fast_lock"; "resync_enable"; "reserved"] clock_div_mode (λ v r, r <| clock_div_mode := v |>);
  Reg "cycle_slip_reduction" 3 18 18 0 ["disabled"; "enabled"] cycle_slip_reduction (λ v r, r <| cycle_slip_reduction := v |>);
  Reg "charge_cancel" 3 21 21 0 [] charge_cancel (λ v r, r <| charge_cancel := v |>);
  Reg "anti_backlash_pulse" 3 22 22 0 ["6ns"; "3ns"] anti_backlash_pulse (λ v r, r <| anti_backlash_pulse := v |>);
  Reg "band_select_mode" 3 23 23 0 ["low"; "high"] band_select_mode (λ v r, r <| band_select_mode := v |>);
  Reg "output_power" 4 3 4 3 ["m4dbm"; "m1dbm"; "2dbm"; "5dbm"] output_power (λ v r, r <| output_power := v |>);
  Reg "rf_output_enable" 4 5 5 1 ["disabled"; "enabled"] rf_output_enable (λ v r, r <| rf_output_enable := v |>);
  Reg "aux_output_power" 4 6 7 3 ["m4dbm"; "m1dbm"; "2dbm"; "5dbm"] aux_output_power (λ v r, r <| aux_output_power := v |>);
  Reg "aux_output_enable" 4 8 8 1 ["disabled"; "enabled"] aux_output_enable (λ v r, r <| aux_output_enable := v |>);
  Reg "aux_output_select" 4 9 9 1 ["divided"; "fundamental"] aux_output_select (λ v r, r <| aux_output_select := v |>);
  Reg "mute_till_lock_detect" 4 10 10 0 ["mute_disabled"; "mute_enabled"] mute_till_lock_detect (λ v r, r <| mute_till_lock_detect := v |>);
  Reg "vco_power_down" 4 11 11 0 ["vco_powered_up"; "vco_powered_down"] vco_power_down (λ v r, r <| vco_power_down := v |>);
  Reg "band_select_clock_div" 4 12 19 0 [] band_select_clock_div (λ v r, r <| band_select_clock_div := v |>);
  Reg "rf_divider_select" 4 20 22 0 ["div1"; "div2"; "div4"; "div8"; "div16"; "div32"; "div64"] rf_divider_select (λ v r, r <| rf_divider_select := v |>);
  Reg "feedback_select" 4 23 23 1 ["divided"; "fundamental"] feedback_select (λ v r, r <| feedback_select := v |>);
  Reg "reserved_5_0" 5 19 20 3 [] reserved_5_0 (λ v r, r <| reserved_5_0 := v |>);
  Reg "ld_pin_mode" 5 22 23 1 ["low0"; "dld"; "low"; "high"] ld_pin_mode (λ v r, r <| ld_pin_mode := v |>)
].

Definition adf4351_enum : string → Z := enumerator adf4351_regs.
Definition adf4351_addrs : list Z := [0; 1; 2; 3; 4; 5].

Definition adf4351_init (rf : adf4351_t) : adf4351_t := init_fields adf4351_regs rf.
Definition adf4351_copy (src dst : adf4351_t) : adf4351_t := copy_fields adf4351_regs src dst.

(** The address is in the low bits of a word. *)
Definition adf4351_pack (rf : adf4351_t) (addr : Z) : Z :=
  pack_fields 32 (fields_at adf4351_addrs adf4351_regs addr) rf (addr &&& 0x7).
Definition adf4351_load (rf : adf4351_t) (data : Z) : adf4351_t :=
  load_fields (fields_at adf4351_addrs adf4351_regs (data &&& 0x7)) rf data.

(** Words 0 to 5 of the block. *)
Definition adf4351_ioctl_get (rf : adf4351_t) (w : whitebox_args_t) : adf4351_t :=
  foldl (λ rf i, adf4351_load rf (word_of w i)) rf (seqZ 0 6).
Definition adf4351_ioctl_set (rf : adf4351_t) (w : whitebox_args_t) : whitebox_args_t :=
  foldl (λ w i, set_word i (adf4351_pack rf i) w) w (seqZ 0 6).

(** ** Tuning *)

(** The last case is written 42. *)
Definition get_divider_select (div : Z) : option Z :=
  if div =? 1 then Some (adf4351_enum "RF_DIVIDER_SELECT_DIV1")
  else if div =? 2 then Some (adf4351_enum "RF_DIVIDER_SELECT_DIV2")
  else if div =? 4 then Some (adf4351_enum "RF_DIVIDER_SELECT_DIV4")
  else if div =? 8 then Some (adf4351_enum "RF_DIVIDER_SELECT_DIV8")
  else if div =? 16 then Some (adf4351_enum "RF_DIVIDER_SELECT_DIV16")
  else if div =? 32 then Some (adf4351_enum "RF_DIVIDER_SELECT_DIV32")
  else if div =? 42 then Some (adf4351_enum "RF_DIVIDER_SELECT_DIV64")
  else None.
Definition get_divider (rf : adf4351_t) : option Z :=
  if rf_divider_select rf =? 0 then Some 1
  else if rf_divider_select rf =? 1 then Some 2
  else if rf_divider_select rf =? 2 then Some 4
  else if rf_divider_select rf =? 3 then Some 8
  else if rf_divider_select rf =? 4 then Some 16
  else if rf_divider_select rf =? 5 then Some 32
  else if rf_divider_select rf =? 6 then Some 64
  else None.

Definition pfd_of (ref_freq : f64) (R T D : Z) : f64 :=
  f64_div (f64_mul ref_freq (f64_of_Z (1 + D))) (f64_of_Z (R * (1 + T))).
Definition _actual_frequency (FRAC N MOD : f64) (DIV R T D : Z) (ref_freq : f64) : f64 :=
  let pfd_freq := f64_mul ref_freq (f64_div (f64_of_Z (1 + D)) (f64_of_Z (R * (1 + T)))) in
  f64_mul (f64_add N (f64_div FRAC MOD)) (f64_div pfd_freq (f64_of_Z DIV)).

(** The oscillator's frequency is doubled until it is in its range, and the divider with
    it: after 31 doublings an [int] divider would overflow. *)
Fixpoint raise_vco (n : nat) (vco_freq : f64) (RFdiv : Z) : option (f64 * Z) :=
  if SFltb vco_freq (f64_of_Z 2200000000) then
    match n with
    | O => None
    | S n' => raise_vco n' (f64_mul vco_freq (f64_of_Z 2)) (RFdiv * 2)
    end
  else Some (vco_freq, RFdiv).

(** The steps that set the members, once the dividers are chosen. *)
Definition set_dividers (N FRAC MOD BS prescale T D R select : Z) (rf : adf4351_t) : adf4351_t :=
  rf <| int_16_bit := u16 N |>
     <| frac_12_bit := u16 FRAC |>
     <| prescaler := prescale |>
     <| phase_adjust := adf4351_enum "PHASE_ADJUST_OFF" |>
     <| phase_12_bit := 1 |>
     <| mod_12_bit := u16 MOD |>
     <| reference_doubler := D |>
     <| reference_divide_by_2 := T |>
     <| r_counter_10_bit := u16 R |>
     <| rf_divider_select := select |>
     <| band_select_clock_div := u8 BS |>.
Definition set_outputs (rf : adf4351_t) : adf4351_t :=
  rf <| rf_output_enable := adf4351_enum "RF_OUTPUT_ENABLE_ENABLED" |>
     <| output_power := adf4351_enum "OUTPUT_POWER_M4DBM" |>
     <| aux_output_power := adf4351_enum "AUX_OUTPUT_POWER_M4DBM" |>
     <| aux_output_enable := adf4351_enum "AUX_OUTPUT_ENABLE_ENABLED" |>
     <| aux_output_select := adf4351_enum "AUX_OUTPUT_SELECT_DIVIDED" |>
     <| charge_pump_current := adf4351_enum "CHARGE_PUMP_CURRENT_5_00MA" |>
     <| muxout := adf4351_enum "MUXOUT_3STATE" |>
     <| ld_pin_mode := adf4351_enum "LD_PIN_MODE_DLD" |>
     <| mute_till_lock_detect := adf4351_enum "MUTE_TILL_LOCK_DETECT_MUTE_ENABLED" |>
     <| clock_div_mode := adf4351_enum "CLOCK_DIV_MODE_CLOCK_DIVIDER_OFF" |>
     <| low_noise_and_spur := adf4351_enum "LOW_NOISE_AND_SPUR_LOW_SPUR" |>.

(** The frequency reached, and the members.  Warnings are not modelled: they only print. *)
Definition adf4351_pll_enable (rf : adf4351_t) (ref_freq res_freq target_freq : f64) :
    option (f64 * adf4351_t) :=
  let R := 1 in
  let D := adf4351_enum "REFERENCE_DOUBLER_DISABLED" in
  '(vco_freq, RFdiv) ← raise_vco 30 target_freq 1;
  let prescale := if SFltb (f64_of_Z 3600000000) vco_freq
    then adf4351_enum "PRESCALER_8_9" else adf4351_enum "PRESCALER_4_5" in
  MOD ← float_to_s32 (f64_div ref_freq res_freq);
  let T := adf4351_enum "REFERENCE_DIVIDE_BY_2_DISABLED" in
  let pfd_freq := pfd_of ref_freq R T D in
  let T' := if SFltb (f64_of_Z 45000000) pfd_freq
    then adf4351_enum "REFERENCE_DIVIDE_BY_2_ENABLED" else T in
  let pfd_freq := if SFltb (f64_of_Z 45000000) pfd_freq then pfd_of ref_freq R T' D else pfd_freq in
  BS ← float_to_s32 (f64_div pfd_freq (f64_of_Z 125000));
  remainder ← float_to_s32 (f64_div (f64_mul (f64_of_Z MOD) vco_freq) pfd_freq);
  if MOD =? 0 then None
  else
    let N := Z.quot remainder MOD in
    let FRAC := Z.rem remainder MOD in
    select ← get_divider_select RFdiv;
    Some (_actual_frequency (f64_of_Z FRAC) (f64_of_Z N) (f64_of_Z MOD) RFdiv R T' D ref_freq,
          set_outputs (set_dividers N FRAC MOD BS prescale T' D R select rf)).

Definition adf4351_pll_disable (rf : adf4351_t) : adf4351_t :=
  rf <| rf_output_enable := adf4351_enum "RF_OUTPUT_ENABLE_DISABLED" |>
     <| aux_output_enable := adf4351_enum "AUX_OUTPUT_ENABLE_DISABLED" |>.

Definition adf4351_actual_frequency (rf : adf4351_t) (ref_freq : f64) : option f64 :=
  div ← get_divider rf;
  Some (_actual_frequency (f64_of_Z (frac_12_bit rf)) (f64_of_Z (int_16_bit rf))
    (f64_of_Z (mod_12_bit rf)) div (r_counter_10_bit rf) (reference_divide_by_2 rf)
    (reference_doubler rf) ref_freq).
