(* ===== verification/Cmx991.v ===== *)
(** * The CMX991 mixer ([lib/cmx991.regs], [lib/cmx991_impl.c.tmpl])

    Its fields, the bytes they are packed into, and the settings of its blocks: the loop
    of the intermediate frequency, the transmit and the receive paths. *)

From Stdlib Require Import Floats.SpecFloat.
From S2P Require Import Prelude Kernel State Ioctl Ieee Regs.

(** ** Registers *)

Record cmx991_t := Cmx991 {
  en_bias : Z;
  ifh : Z;
  chan_sel : Z;
  rx_mode : Z;
  vco_nr : Z;
  vco_buf_en : Z;
  vco_nr_en : Z;
  mix_pwr : Z;
  iq_pwr : Z;
  amp_pwr : Z;
  sli_pwr : Z;
  lna : Z;
  rx_rf_div : Z;
  vbias : Z;
  if_in : Z;
  mix_out : Z;
  iq_filter : Z;
  cal_en : Z;
  vga : Z;
  tx_mix_pwr : Z;
  iq_mod_pwr : Z;
  freq : Z;
  iq_out : Z;
  if_filter : Z;
  hi_lo : Z;
  tx_rf_div : Z;
  tx_if_div : Z;
  gain : Z;
  m_lsb : Z;
  pll : Z;
  ld_synth : Z;
  charge_pump : Z;
  m_msb : Z;
  n_lsb : Z;
  n_msb : Z;
}.
#[global] Instance eta_cmx991_t : Eta cmx991_t := λ r, Cmx991
  (en_bias r) (ifh r) (chan_sel r) (rx_mode r)
  (vco_nr r) (vco_buf_en r) (vco_nr_en r) (mix_pwr r)
  (iq_pwr r) (amp_pwr r) (sli_pwr r) (lna r)
  (rx_rf_div r) (vbias r) (if_in r) (mix_out r)
  (iq_filter r) (cal_en r) (vga r) (tx_mix_pwr r)
  (iq_mod_pwr r) (freq r) (iq_out r) (if_filter r)
  (hi_lo r) (tx_rf_div r) (tx_if_div r) (gain r)
  (m_lsb r) (pll r) (ld_synth r) (charge_pump r)
  (m_msb r) (n_lsb r) (n_msb r).

Definition cmx991_regs : list (reg cmx991_t) := [
  Reg "en_bias" 17 7 7 0 ["power_down"; "power_up"] en_bias (λ v r, r <| en_bias := v |>);
  Reg "ifh" 17 6 6 0 ["lt_75mhz"; "gt_75mhz"] ifh (λ v r, r <| ifh := v |>);
  Reg "chan_sel" 17 5 5 0 ["i_channel"; "q_channel"] chan_sel (λ v r, r <| chan_sel := v |>);
  Reg "rx_mode" 17 4 4 0 ["iq"; "if"] rx_mode (λ v r, r <| rx_mode := v |>);
  Reg "vco_nr" 17 2 3 3 ["high_q"; "mid_high_q"; "mid_low_q"; "low_q"] vco_nr (λ v r, r <| vco_nr := v |>);
  Reg "vco_buf_en" 17 1 1 0 ["power_down"; "power_up"] vco_buf_en (λ v r, r <| vco_buf_en := v |>);
  Reg "vco_nr_en" 17 0 0 0 ["power_down"; "power_up"] vco_nr_en (λ v r, r <| vco_nr_en := v |>);
  Reg "mix_pwr" 18 7 7 0 ["power_down"; "power_up"] mix_pwr (λ v r, r <| mix_pwr := v |>);
  Reg "iq_pwr" 18 6 6 0 ["power_down"; "power_up"] iq_pwr (λ v r, r <| iq_pwr := v |>);
  Reg "amp_pwr" 18 5 5 0 ["power_down"; "power_up"] amp_pwr (λ v r, r <| amp_pwr := v |>);
  Reg "sli_pwr" 18 4 4 0 ["power_down"; "power_up"] sli_pwr (λ v r, r <| sli_pwr := v |>);
  Reg "lna" 18 3 3 0 ["power_down"; "power_up"] lna (λ v r, r <| lna := v |>);
  Reg "rx_rf_div" 18 1 2 0 ["by_2"; "by_1"; "by_4"] rx_rf_div (λ v r, r <| rx_rf_div := v |>);
  Reg "vbias" 18 0 0 0 ["power_down"; "power_up"] vbias (λ v r, r <| vbias := v |>);
  Reg "if_in" 19 7 7 0 ["ifip1"; "ifip2"] if_in (λ v r, r <| if_in := v |>);
  Reg "mix_out" 19 6 6 0 ["mixout1"; "mixout2"] mix_out (λ v r, r <| mix_out := v |>);
  Reg "iq_filter" 19 5 5 1 ["bw_100khz"; "bw_1mhz"] iq_filter (λ v r, r <| iq_filter := v |>);
  Reg "cal_en" 19 4 4 0 ["disable"; "enable"] cal_en (λ v r, r <| cal_en := v |>);
  Reg "vga" 19 0 3 0 ["n0db"; "n6db"; "n12db"; "n18db"; "n24db"; "n30db"; "n36db"; "n42db"; "n48db"] vga (λ v r, r <| vga := v |>);
  Reg "tx_mix_pwr" 20 6 6 0 ["power_down"; "power_up"] tx_mix_pwr (λ v r, r <| tx_mix_pwr := v |>);
  Reg "iq_mod_pwr" 20 4 4 0 ["power_down"; "power_up"] iq_mod_pwr (λ v r, r <| iq_mod_pwr := v |>);
  Reg "freq" 20 1 1 0 ["lt_600mhz"; "gt_600mhz"] freq (λ v r, r <| freq := v |>);
  Reg "iq_out" 20 0 0 0 ["rfout"; "ifout"] iq_out (λ v r, r <| iq_out := v |>);
  Reg "if_filter" 21 4 5 0 ["bw_45mhz"; "bw_60mhz"; "bw_90mhz"; "bw_120mhz"] if_filter (λ v r, r <| if_filter := v |>);
  Reg "hi_lo" 21 2 2 1 ["lower"; "higher"] hi_lo (λ v r, r <| hi_lo := v |>);
  Reg "tx_rf_div" 21 1 1 0 ["by_2"; "by_4"] tx_rf_div (λ v r, r <| tx_rf_div := v |>);
  Reg "tx_if_div" 21 0 0 0 ["by_4"; "by_2"] tx_if_div (λ v r, r <| tx_if_div := v |>);
  Reg "gain" 22 6 7 0 ["p0db"; "n6db"; "p6db"] gain (λ v r, r <| gain := v |>);
  Reg "m_lsb" 32 0 7 0 [] m_lsb (λ v r, r <| m_lsb := v |>);
  Reg "pll" 33 7 7 0 ["disabled"; "enabled"] pll (λ v r, r <| pll := v |>);
  Reg "ld_synth" 33 6 6 0 ["unlocked"; "locked"] ld_synth (λ v r, r <| ld_synth := v |>);
  Reg "charge_pump" 33 5 5 0 ["high_impedance"; "enable"] charge_pump (λ v r, r <| charge_pump := v |>);
  Reg "m_msb" 33 0 4 0 [] m_msb (λ v r, r <| m_msb := v |>);
  Reg "n_lsb" 34 0 7 0 [] n_lsb (λ v r, r <| n_lsb := v |>);
  Reg "n_msb" 35 0 6 0 [] n_msb (λ v r, r <| n_msb := v |>)
].

Definition cmx991_enum : string → Z := enumerator cmx991_regs.
Definition addr_lut : list Z := [17; 18; 19; 20; 21; 22; 32; 33; 34; 35].

Definition cmx991_init (rf : cmx991_t) : cmx991_t := init_fields cmx991_regs rf.
Definition cmx991_copy (src dst : cmx991_t) : cmx991_t := copy_fields cmx991_regs src dst.

Definition cmx991_pack (rf : cmx991_t) (addr : Z) : Z :=
  pack_fields 8 (fields_at addr_lut cmx991_regs addr) rf 0.
Definition cmx991_load (rf : cmx991_t) (addr data : Z) : cmx991_t :=
  load_fields (fields_at addr_lut cmx991_regs addr) rf data.

(** Bytes 0 to 9 of the block. *)
Definition addr_of (i : Z) : Z := nth (Z.to_nat i) addr_lut 0.
Definition cmx991_ioctl_get (rf : cmx991_t) (w : whitebox_args_t) : cmx991_t :=
  foldl (λ rf i, cmx991_load rf (addr_of i) (byte_of w i)) rf (seqZ 0 10).
(** The flag of the loop's lock is cleared first. *)
Definition cmx991_ioctl_set (rf : cmx991_t) (w : whitebox_args_t) : cmx991_t * whitebox_args_t :=
  let rf := rf <| ld_synth := 0 |> in
  (rf, foldl (λ w i, set_byte i (cmx991_pack rf (addr_of i)) w) w (seqZ 0 10)).

(** The dividers, each in two fields. *)
Definition m_fields : list (reg cmx991_t) :=
  List.filter (λ r, existsb (String.eqb (reg_name r)) ["m_lsb"; "m_msb"]) cmx991_regs.
Definition n_fields : list (reg cmx991_t) :=
  List.filter (λ r, existsb (String.eqb (reg_name r)) ["n_lsb"; "n_msb"]) cmx991_regs.
Definition cmx991_get_m (rf : cmx991_t) : Z := get_mreg m_fields 0 rf.
Definition cmx991_set_m (rf : cmx991_t) (v : Z) : cmx991_t := set_mreg m_fields 0 rf (u16 v).
Definition cmx991_get_n (rf : cmx991_t) : Z := get_mreg n_fields 0 rf.
Definition cmx991_set_n (rf : cmx991_t) (v : Z) : cmx991_t := set_mreg n_fields 0 rf (u16 v).

(** ** The loop of the intermediate frequency *)

Definition MIN_M : Z := 2.
Definition MAX_M : Z := 8191.
Definition MIN_N : Z := 80.
Definition MAX_N : Z := 32767.

Definition cmx991_pll_actual_frequency (rf : cmx991_t) (fref : f64) : f64 :=
  f64_mul fref (f64_div (f64_of_Z (cmx991_get_n rf)) (f64_of_Z (cmx991_get_m rf))).
Definition ifh_for (fdes : f64) : Z :=
  if SFltb (f64_of_Z 75000000) fdes
  then cmx991_enum "IFH_GT_75MHZ" else cmx991_enum "IFH_LT_75MHZ".

(** The two loops over the dividers: what they look for, the members tried, those found
    and how far off they are. *)
Record search := Search {
  tmp : cmx991_t;
  found : cmx991_t;
  err : Z;
  smallest_abs : f64;
}.
#[global] Instance eta_search : Eta search := λ s, Search (tmp s) (found s) (err s) (smallest_abs s).

Definition offset (fref fdes : f64) (rf : cmx991_t) : f64 :=
  SFabs (SFsub 53 1024 fdes (cmx991_pll_actual_frequency rf fref)).
Definition try_m_n (fref fdes : f64) (m n : Z) (s : search) : search :=
  let t := cmx991_set_n (cmx991_set_m (tmp s) m) n in
  let s := s <| tmp := t |> in
  let cur_abs := offset fref fdes t in
  if SFltb cur_abs (smallest_abs s)
  then s <| err := 0 |> <| found := cmx991_copy t (found s) |> <| smallest_abs := cur_abs |>
  else s.
(** Close enough, the inner loop is left; the outer one goes on. *)
Fixpoint search_n (count : nat) (fref fdes : f64) (m n : Z) (s : search) : search :=
  match count with
  | O => s
  | S count' =>
      let s := try_m_n fref fdes m n s in
      if SFltb (smallest_abs s) (f64_of_Z 1) then s
      else search_n count' fref fdes m (n + 1) s
  end.
Fixpoint search_m (count : nat) (fref fdes : f64) (m : Z) (s : search) : search :=
  match count with
  | O => s
  | S count' =>
      search_m count' fref fdes (m + 1)
        (search_n (Z.to_nat (MAX_N - MIN_N)) fref fdes m MIN_N s)
  end.
(** [tmp] starts as a copy; the members the search tried last are copied back. *)
Definition cmx991_pll_enable (rf : cmx991_t) (fref fdes : f64) : Z * cmx991_t :=
  let t := rf <| vco_nr := cmx991_enum "VCO_NR_LOW_Q" |> <| ifh := ifh_for fdes |> in
  let s := search_m (Z.to_nat (MAX_M - MIN_M)) fref fdes MIN_M (Search t rf (-1) (f64_of_Z 100)) in
  if err s =? 0 then
    (0, (cmx991_copy (tmp s) (found s))
          <| pll := cmx991_enum "PLL_ENABLED" |>
          <| ld_synth := cmx991_enum "LD_SYNTH_UNLOCKED" |>
          <| charge_pump := cmx991_enum "CHARGE_PUMP_ENABLE" |>)
  else (err s, found s).

Definition cmx991_pll_enable_m_n (rf : cmx991_t) (fref : f64) (m n : Z) : Z * cmx991_t :=
  let t := cmx991_set_n (cmx991_set_m rf m) n in
  let fdes := cmx991_pll_actual_frequency t fref in
  if SFltb fdes (f64_of_Z 40000000) || SFltb (f64_of_Z 400000000) fdes then (1, rf)
  else
    (0, cmx991_copy
      (t <| vco_nr := cmx991_enum "VCO_NR_MID_HIGH_Q" |>
         <| ifh := ifh_for fdes |>
         <| pll := cmx991_enum "PLL_ENABLED" |>
         <| ld_synth := cmx991_enum "LD_SYNTH_UNLOCKED" |>
         <| charge_pump := cmx991_enum "CHARGE_PUMP_ENABLE" |>) rf).

Definition cmx991_pll_disable (rf : cmx991_t) : cmx991_t :=
  rf <| pll := cmx991_enum "PLL_DISABLED" |>
     <| charge_pump := cmx991_enum "CHARGE_PUMP_HIGH_IMPEDANCE" |>.
Definition cmx991_pll_locked (rf : cmx991_t) : bool := ld_synth rf =? cmx991_enum "LD_SYNTH_LOCKED".

(** ** Power *)

(** The radio is built with [WC_USE_PLL]. *)
Definition cmx991_resume (rf : cmx991_t) : cmx991_t :=
  rf <| en_bias := cmx991_enum "EN_BIAS_POWER_UP" |>
     <| vco_buf_en := cmx991_enum "VCO_BUF_EN_POWER_UP" |>
     <| vco_nr_en := cmx991_enum "VCO_NR_EN_POWER_UP" |>
     <| vbias := cmx991_enum "VBIAS_POWER_UP" |>.
Definition cmx991_shutdown (rf : cmx991_t) : cmx991_t :=
  rf <| en_bias := cmx991_enum "EN_BIAS_POWER_DOWN" |>
     <| vco_buf_en := cmx991_enum "VCO_BUF_EN_POWER_DOWN" |>
     <| vco_nr_en := cmx991_enum "VCO_NR_EN_POWER_DOWN" |>
     <| mix_pwr := cmx991_enum "MIX_PWR_POWER_DOWN" |>
     <| iq_pwr := cmx991_enum "IQ_PWR_POWER_DOWN" |>
     <| vbias := cmx991_enum "VBIAS_POWER_DOWN" |>
     <| tx_mix_pwr := cmx991_enum "TX_MIX_PWR_POWER_DOWN" |>
     <| iq_mod_pwr := cmx991_enum "IQ_MOD_PWR_POWER_DOWN" |>.
Definition cmx991_suspend (rf : cmx991_t) : cmx991_t :=
  rf <| en_bias := cmx991_enum "EN_BIAS_POWER_DOWN" |>
     <| mix_pwr := cmx991_enum "MIX_PWR_POWER_DOWN" |>
     <| iq_pwr := cmx991_enum "IQ_PWR_POWER_DOWN" |>
     <| vbias := cmx991_enum "VBIAS_POWER_DOWN" |>
     <| lna := cmx991_enum "LNA_POWER_DOWN" |>
     <| tx_mix_pwr := cmx991_enum "TX_MIX_PWR_POWER_DOWN" |>
     <| iq_mod_pwr := cmx991_enum "IQ_MOD_PWR_POWER_DOWN" |>.

(** ** The two paths *)

Definition cmx991_tx_tune (rf : cmx991_t) (fdes : f32)
    (if_filter' hi_lo' tx_rf_div' tx_if_div' gain' : Z) : cmx991_t :=
  rf <| mix_pwr := cmx991_enum "MIX_PWR_POWER_DOWN" |>
     <| iq_pwr := cmx991_enum "IQ_PWR_POWER_DOWN" |>
     <| sli_pwr := cmx991_enum "SLI_PWR_POWER_DOWN" |>
     <| lna := cmx991_enum "LNA_POWER_DOWN" |>
     <| tx_mix_pwr := cmx991_enum "TX_MIX_PWR_POWER_UP" |>
     <| iq_mod_pwr := cmx991_enum "IQ_MOD_PWR_POWER_UP" |>
     <| vbias := cmx991_enum "VBIAS_POWER_UP" |>
     <| iq_out := cmx991_enum "IQ_OUT_IFOUT" |>
     <| if_filter := if_filter' |>
     <| hi_lo := hi_lo' |>
     <| tx_rf_div := tx_rf_div' |>
     <| tx_if_div := tx_if_div' |>
     <| gain := gain' |>
     <| freq := if SFltb (f64_of_Z 600000000) (f64_of_f32 fdes)
                then cmx991_enum "FREQ_GT_600MHZ" else cmx991_enum "FREQ_LT_600MHZ" |>.

Definition cmx991_rx_tune (rf : cmx991_t) (div mix_out' if_in' iq_filter' vga' : Z) : cmx991_t :=
  rf <| rx_mode := cmx991_enum "RX_MODE_IQ" |>
     <| tx_mix_pwr := cmx991_enum "TX_MIX_PWR_POWER_DOWN" |>
     <| iq_mod_pwr := cmx991_enum "IQ_MOD_PWR_POWER_DOWN" |>
     <| mix_pwr := cmx991_enum "MIX_PWR_POWER_UP" |>
     <| iq_pwr := cmx991_enum "IQ_PWR_POWER_UP" |>
     <| vbias := cmx991_enum "VBIAS_POWER_UP" |>
     <| sli_pwr := cmx991_enum "SLI_PWR_POWER_UP" |>
     <| lna := cmx991_enum "LNA_POWER_UP" |>
     <| rx_rf_div := div |>
     <| if_in := if_in' |>
     <| mix_out := mix_out' |>
     <| iq_filter := iq_filter' |>
     <| vga := vga' |>.

Definition cmx991_rx_calibrate_enable (rf : cmx991_t) : cmx991_t :=
  rf <| cal_en := cmx991_enum "CAL_EN_ENABLE" |>.
Definition cmx991_rx_calibrate_disable (rf : cmx991_t) : cmx991_t :=
  rf <| cal_en := cmx991_enum "CAL_EN_DISABLE" |>.
