(* ===== verification/RegsSpec.v ===== *)
(** * Packing and loading fields are inverse

    For any list of fields that are members of a structure and lie apart in their
    words. *)

From stdpp Require Import sets.
From S2P Require Import Prelude Regs.

Section fields.
Context {T : Type}.
Implicit Types (r : reg T) (regs fs : list (reg T)) (rf : T).

(** ** One field *)

Lemma field_ok_spec lo w r : field_ok lo w r = true ↔
  lo ≤ reg_lo r ≤ reg_hi r ∧ reg_hi r < w ∧ get_bit_width r ≤ get_type_bits r ∧
  0 ≤ reg_default r < 2 ^ get_bit_width r.
Proof. unfold field_ok. rewrite !andb_true_iff. lia. Qed.
Lemma disjoint_fields_spec r r' : disjoint_fields r r' = true ↔
  (reg_addr r = reg_addr r' → reg_hi r < reg_lo r' ∨ reg_hi r' < reg_lo r).
Proof. unfold disjoint_fields. rewrite !orb_true_iff, negb_true_iff. lia. Qed.

(** What loading stores in a field. *)
Definition extract r (data : Z) : Z := (data >>> get_shift r) &&& get_mask r.
Lemma mask_ones r : 0 ≤ get_bit_width r → get_mask r = Z.ones (get_bit_width r).
Proof. intros. unfold get_mask. rewrite Z.ones_equiv. lia. Qed.
Lemma extract_mod r data :
  0 ≤ get_bit_width r → extract r data = (data >>> get_shift r) mod 2 ^ get_bit_width r.
Proof. intros. unfold extract. by rewrite mask_ones, Z.land_ones. Qed.
Lemma extract_testbit lo w r data k : field_ok lo w r = true → 0 ≤ lo → 0 ≤ k →
  Z.testbit (extract r data) k = (k <? get_bit_width r) && Z.testbit data (k + reg_lo r).
Proof.
  rewrite field_ok_spec. intros Hr Hlo Hk. unfold get_bit_width in *.
  rewrite extract_mod by (unfold get_bit_width; lia). unfold get_bit_width, get_shift.
  destruct (k <? _) eqn:E.
  - rewrite Z.mod_pow2_bits_low, Z.shiftr_spec by lia. done.
  - rewrite Z.mod_pow2_bits_high by lia. done.
Qed.
Lemma extract_range lo w r data : field_ok lo w r = true → 0 ≤ lo →
  0 ≤ extract r data < 2 ^ get_bit_width r.
Proof.
  rewrite field_ok_spec. unfold get_bit_width. intros Hr Hlo. rewrite extract_mod by (unfold get_bit_width; lia).
  apply Z.mod_pos_bound. unfold get_bit_width. lia.
Qed.
(** Members are wide enough. *)
Lemma store_small lo w r v rf : field_ok lo w r = true → 0 ≤ lo → 0 ≤ v < 2 ^ get_bit_width r →
  store r v rf = reg_set r v rf.
Proof.
  rewrite field_ok_spec. intros Hr Hlo Hv. unfold store. rewrite Z.mod_small; [done |].
  assert (2 ^ get_bit_width r ≤ 2 ^ get_type_bits r) by (apply Z.pow_le_mono_r; lia). lia.
Qed.

(** ** Packing *)

Definition field_bit rf (k : Z) r : bool :=
  (reg_lo r <=? k) && (k <=? reg_hi r) && Z.testbit (reg_get r rf) (k - reg_lo r).

Lemma pack_step_testbit lo w r v word k : field_ok lo w r = true → 0 ≤ lo → 0 ≤ k < w →
  Z.testbit ((word ||| (((v mod 2 ^ w) &&& get_mask r) <<< get_shift r)) mod 2 ^ w) k =
  Z.testbit word k || (reg_lo r <=? k) && (k <=? reg_hi r) && Z.testbit v (k - reg_lo r).
Proof.
  rewrite field_ok_spec. intros Hr Hlo Hk. unfold get_shift.
  rewrite Z.mod_pow2_bits_low, Z.lor_spec, Z.shiftl_spec by lia. f_equal.
  rewrite mask_ones, Z.land_ones by (unfold get_bit_width; lia). unfold get_bit_width.
  destruct (reg_lo r <=? k) eqn:E1; cbn [andb].
  - destruct (k <=? reg_hi r) eqn:E2; cbn [andb].
    + rewrite !Z.mod_pow2_bits_low by lia. done.
    + rewrite Z.mod_pow2_bits_high by lia. done.
  - rewrite Z.testbit_neg_r by lia. done.
Qed.
Lemma pack_testbit lo w fs rf word k : forallb (field_ok lo w) fs = true → 0 ≤ lo → 0 ≤ k < w →
  Z.testbit (pack_fields w fs rf word) k = Z.testbit word k || existsb (field_bit rf k) fs.
Proof.
  intros Hfs Hlo Hk. revert word. induction fs as [| r fs IH]; intros word; cbn in *.
  { by rewrite orb_false_r. }
  apply andb_true_iff in Hfs as [Hr Hfs]. unfold pack_fields in *. rewrite IH by done.
  rewrite (pack_step_testbit lo w) by done. by rewrite <- orb_assoc.
Qed.
Lemma pack_range w fs rf word : 0 ≤ w → 0 ≤ word < 2 ^ w → 0 ≤ pack_fields w fs rf word < 2 ^ w.
Proof.
  intros Hw. unfold pack_fields. revert word.
  induction fs as [| r fs IH]; intros word Hword; cbn; [done |]. apply IH, Z.mod_pos_bound. lia.
Qed.

(** ** Lists of fields *)

Lemma all_disjoint_spec regs r r' :
  all_disjoint regs = true → r ∈ regs → r' ∈ regs → reg_name r ≠ reg_name r' →
  disjoint_fields r r' = true.
Proof.
  assert (∀ a b : reg T, disjoint_fields a b = disjoint_fields b a) as Hsym.
  { intros a b. unfold disjoint_fields. rewrite (Z.eqb_sym (reg_addr a)), <- !orb_assoc.
    f_equal. apply orb_comm. }
  induction regs as [| x regs IH]; cbn; [by intros _ ?%not_elem_of_nil |].
  intros [Hx Hd]%andb_true_iff Hr Hr' Hne. rewrite forallb_forall in Hx.
  apply elem_of_cons in Hr as [-> | Hr], Hr' as [-> | Hr']; [done | ..].
  - by apply Hx, list_elem_of_In.
  - rewrite Hsym. by apply Hx, list_elem_of_In.
  - by apply IH.
Qed.
Lemma fields_at_elem addrs regs addr r :
  r ∈ fields_at addrs regs addr ↔ r ∈ regs ∧ reg_addr r = addr ∧ existsb (Z.eqb addr) addrs = true.
Proof.
  unfold fields_at. destruct (existsb _ addrs).
  - rewrite list_elem_of_In, filter_In, <- list_elem_of_In, Z.eqb_eq. naive_solver.
  - rewrite elem_of_nil. naive_solver.
Qed.
Lemma fields_at_forallb addrs regs addr f :
  forallb f regs = true → forallb f (fields_at addrs regs addr) = true.
Proof.
  rewrite !forallb_forall. intros Hf r Hr. apply Hf. apply list_elem_of_In.
  apply list_elem_of_In in Hr. by apply fields_at_elem in Hr as (? & _).
Qed.
Lemma fields_at_names addrs regs addr :
  NoDup (reg_name <$> regs) → NoDup (reg_name <$> fields_at addrs regs addr).
Proof.
  unfold fields_at. destruct (existsb _ addrs); [| intros; constructor].
  induction regs as [| r regs IH]; cbn; [done |]. intros [Hr Hn]%NoDup_cons.
  destruct (reg_addr r =? addr); [| by apply IH]. cbn. apply NoDup_cons. split; [| by apply IH].
  intros (x & Hx & Hin)%list_elem_of_fmap. apply Hr. apply list_elem_of_fmap. exists x.
  split; [done |]. apply list_elem_of_In in Hin. apply filter_In in Hin as [? _]. by apply list_elem_of_In.
Qed.
End fields.

(** ** Members, from the list of what they hold *)

Definition view {T} (regs : list (reg T)) (rf : T) : list Z := (λ r, reg_get r rf) <$> regs.
Lemma view_lookup {T} (regs : list (reg T)) i r rf :
  regs !! i = Some r → view regs rf !! i = Some (reg_get r rf).
Proof. intros Hi. unfold view. by rewrite list_lookup_fmap, Hi. Qed.
Lemma members_by_view {T} (regs : list (reg T)) :
  NoDup (reg_name <$> regs) →
  (∀ i r v rf, regs !! i = Some r → view regs (reg_set r v rf) = <[i := v]> (view regs rf)) →
  (∀ a b, view regs a = view regs b → a = b) →
  Members regs.
Proof.
  intros Hd Hset Hext. split; [| done | |].
  - intros r v rf (i & Hi)%list_elem_of_lookup.
    pose proof (view_lookup regs i r (reg_set r v rf) Hi) as Hv. rewrite (Hset i) in Hv by done.
    rewrite list_lookup_insert_eq in Hv; [by injection Hv |].
    unfold view. rewrite length_fmap. by apply lookup_lt_Some in Hi.
  - intros r r' v rf (i & Hi)%list_elem_of_lookup (j & Hj)%list_elem_of_lookup Hn.
    pose proof (view_lookup regs j r' (reg_set r v rf) Hj) as Hv. rewrite (Hset i) in Hv by done.
    rewrite list_lookup_insert_ne in Hv by congruence. rewrite (view_lookup regs j r') in Hv by done.
    by injection Hv.
  - intros a b Hab. apply Hext. unfold view. apply list_fmap_ext. intros i r Hr. apply Hab.
    by apply list_elem_of_lookup_2 in Hr.
Qed.

(** ** A chip: its members and the layout of its words *)

Section chip.
Context {T : Type} (regs : list (reg T)) (lo w : Z) (addrs : list Z).
Context `{!Members regs} (Hlayout : layout_ok lo w addrs regs = true) (Hlo : 0 ≤ lo).
Implicit Types (r : reg T) (fs : list (reg T)) (rf : T).

Lemma layout_field r : r ∈ regs → field_ok lo w r = true.
Proof.
  clear Hlo. unfold layout_ok in Hlayout. rewrite !andb_true_iff, !forallb_forall in Hlayout.
  intros Hr. apply Hlayout. by apply list_elem_of_In.
Qed.
Lemma layout_addr r : r ∈ regs → existsb (Z.eqb (reg_addr r)) addrs = true.
Proof.
  unfold layout_ok in Hlayout. rewrite !andb_true_iff, !forallb_forall in Hlayout.
  intros Hr. apply Hlayout. by apply list_elem_of_In.
Qed.
Lemma layout_disjoint r r' : r ∈ regs → r' ∈ regs → reg_name r ≠ reg_name r' →
  disjoint_fields r r' = true.
Proof.
  unfold layout_ok in Hlayout. rewrite !andb_true_iff in Hlayout.
  apply all_disjoint_spec. apply Hlayout.
Qed.
Lemma field_at r : r ∈ regs → r ∈ fields_at addrs regs (reg_addr r).
Proof. intros Hr. apply fields_at_elem. split_and!; [done.. | by apply layout_addr]. Qed.
Lemma same_name r r' : r ∈ regs → r' ∈ regs → reg_name r = reg_name r' → r = r'.
Proof.
  intros (i & Hi)%list_elem_of_lookup (j & Hj)%list_elem_of_lookup Hn.
  assert (i = j) as ->; [| congruence].
  apply (NoDup_lookup (reg_name <$> regs) _ _ (reg_name r) member_names);
    rewrite list_lookup_fmap; [by rewrite Hi | rewrite Hj; cbn; by rewrite Hn].
Qed.

(** Storing in one member. *)
Lemma get_store r v rf : r ∈ regs → 0 ≤ v < 2 ^ get_bit_width r → reg_get r (store r v rf) = v.
Proof.
  intros Hr Hv. rewrite (store_small lo w) by (by try apply layout_field). by apply member_get_set.
Qed.
Lemma get_store_other r r' v rf : r ∈ regs → r' ∈ regs → reg_name r ≠ reg_name r' →
  reg_get r' (store r v rf) = reg_get r' rf.
Proof. intros. by apply member_get_other. Qed.

(** ** Loading, defaults and copies: values stored one by one *)

Definition store_all (f : reg T → Z) fs rf : T := foldl (λ rf r, store r (f r) rf) rf fs.
Lemma store_all_other f fs rf r : fs ⊆ regs → r ∈ regs → reg_name r ∉ reg_name <$> fs →
  reg_get r (store_all f fs rf) = reg_get r rf.
Proof.
  unfold store_all. revert rf. induction fs as [| x fs IH]; intros rf Hfs Hr Hn; cbn; [done |].
  cbn in Hn. rewrite not_elem_of_cons in Hn. rewrite IH by set_solver.
  apply get_store_other; [set_solver | done | naive_solver].
Qed.
Lemma store_all_field f fs rf r : fs ⊆ regs → NoDup (reg_name <$> fs) → r ∈ fs →
  (∀ x, x ∈ regs → 0 ≤ f x < 2 ^ get_bit_width x) → reg_get r (store_all f fs rf) = f r.
Proof.
  intros Hfs Hd Hr Hf. revert rf Hfs Hd Hr.
  induction fs as [| x fs IH]; intros rf Hfs Hd Hr; [by apply not_elem_of_nil in Hr |].
  cbn in Hd. apply NoDup_cons in Hd as [Hx Hd].
  assert (x ∈ regs) as Hxr by set_solver. assert (fs ⊆ regs) as Hfs' by set_solver.
  change (store_all f (x :: fs) rf) with (store_all f fs (store x (f x) rf)).
  apply elem_of_cons in Hr as [-> | Hr]; [| by apply IH].
  rewrite store_all_other by done. by apply get_store, Hf.
Qed.
Lemma extract_small r data : r ∈ regs → 0 ≤ extract r data < 2 ^ get_bit_width r.
Proof. intros Hr. by eapply extract_range; [apply layout_field |]. Qed.
Lemma load_other fs rf data r : fs ⊆ regs → r ∈ regs → reg_name r ∉ reg_name <$> fs →
  reg_get r (load_fields fs rf data) = reg_get r rf.
Proof. apply (store_all_other (λ r, extract r data)). Qed.
Lemma load_field fs rf data r : fs ⊆ regs → NoDup (reg_name <$> fs) → r ∈ fs →
  reg_get r (load_fields fs rf data) = extract r data.
Proof.
  intros. apply (store_all_field (λ r, extract r data)); [done.. |]. intros. by apply extract_small.
Qed.
Lemma fields_at_regs addr : fields_at addrs regs addr ⊆ regs.
Proof. intros r Hr. by apply fields_at_elem in Hr as (? & _). Qed.
Lemma load_at rf addr data r : r ∈ regs →
  reg_get r (load_fields (fields_at addrs regs addr) rf data) =
  if reg_addr r =? addr then extract r data else reg_get r rf.
Proof.
  intros Hr. destruct (reg_addr r =? addr) eqn:E.
  - apply Z.eqb_eq in E. subst addr. apply load_field; [apply fields_at_regs | | by apply field_at].
    apply fields_at_names, member_names.
  - apply load_other; [apply fields_at_regs | done |].
    intros (r' & Hn & Hr')%list_elem_of_fmap. apply fields_at_elem in Hr' as (Hr' & Ha & _).
    apply same_name in Hn; [| done..]. subst r'. lia.
Qed.

(** ** Round trips *)

(** A field of a packed word: its member, when the rest of the word is below the fields. *)
Lemma extract_pack rf addr word r : r ∈ regs → reg_addr r = addr → in_range r rf →
  0 ≤ word < 2 ^ lo →
  extract r (pack_fields w (fields_at addrs regs addr) rf word) = reg_get r rf.
Proof.
  intros Hr Ha Hin Hword. pose proof (layout_field r Hr) as Hf.
  pose proof (proj1 (field_ok_spec _ _ _) Hf) as Hb. apply Z.bits_inj'. intros k Hk.
  rewrite (extract_testbit lo w) by done. unfold get_bit_width in *.
  destruct (k <? _) eqn:E; cbn [andb].
  2: { rewrite <- (Z.mod_small (reg_get r rf) (2 ^ get_bit_width r)) by done.
       rewrite Z.mod_pow2_bits_high; [done |]. unfold get_bit_width. lia. }
  rewrite (pack_testbit lo w); [| apply fields_at_forallb | done | lia].
  2: { apply forallb_forall. intros x Hx. by apply layout_field, list_elem_of_In. }
  assert (Z.testbit word (k + reg_lo r) = false) as ->.
  { rewrite <- (Z.mod_small word (2 ^ lo)) by done. apply Z.mod_pow2_bits_high. lia. }
  cbn [orb]. apply eq_true_iff_eq. rewrite existsb_exists. unfold field_bit. split.
  - intros (x & Hx & Hbit). apply list_elem_of_In, fields_at_elem in Hx as (Hx & Hxa & _).
    rewrite !andb_true_iff, !Z.leb_le in Hbit.
    destruct (decide (reg_name x = reg_name r)) as [Hn | Hn].
    + apply same_name in Hn; [| done..]. subst x.
      replace (k + reg_lo r - reg_lo r) with k in Hbit by lia. apply Hbit.
    + pose proof (layout_disjoint x r Hx Hr Hn) as Hd. rewrite disjoint_fields_spec in Hd. lia.
  - intros Hbit. exists r. split; [subst addr; by apply list_elem_of_In, field_at |].
    replace (k + reg_lo r - reg_lo r) with k by lia.
    rewrite !andb_true_iff, !Z.leb_le. split_and!; [lia | lia | done].
Qed.

(** A loaded word packed again: the bits of its fields, over those given. *)
Definition covered (addr k : Z) : bool :=
  existsb (λ r, (reg_lo r <=? k) && (k <=? reg_hi r)) (fields_at addrs regs addr).
Lemma pack_load rf addr data word k : 0 ≤ k < w →
  Z.testbit (pack_fields w (fields_at addrs regs addr)
    (load_fields (fields_at addrs regs addr) rf data) word) k =
  Z.testbit word k || covered addr k && Z.testbit data k.
Proof.
  intros Hk. rewrite (pack_testbit lo w); [| apply fields_at_forallb | done | done].
  2: { apply forallb_forall. intros x Hx. by apply layout_field, list_elem_of_In. }
  f_equal. unfold covered. set (fs := fields_at addrs regs addr).
  assert (∀ r, r ∈ fs → field_bit (load_fields fs rf data) k r =
    (reg_lo r <=? k) && (k <=? reg_hi r) && Z.testbit data k) as Hbit.
  { intros r (Hr & Ha & _)%fields_at_elem. unfold field_bit. subst fs.
    rewrite load_at, Ha, Z.eqb_refl by done.
    destruct (reg_lo r <=? k) eqn:E1, (k <=? reg_hi r) eqn:E2; cbn [andb]; try done.
    rewrite (extract_testbit lo w) by (lia || by apply layout_field). unfold get_bit_width.
    rewrite (proj2 (Z.ltb_lt _ _)) by lia. cbn [andb]. f_equal. lia. }
  generalize dependent (load_fields fs rf data). intros rf1 Hbit. clearbody fs.
  induction fs as [| r fs IH]; [done |]. cbn [existsb].
  rewrite Hbit by set_solver. rewrite IH by set_solver. by rewrite andb_orb_distrib_l.
Qed.

(** All the words loaded, one by one. *)
Definition load_words (l : list Z) (v : Z → Z) rf : T :=
  foldl (λ rf a, load_fields (fields_at addrs regs a) rf (v a)) rf l.
Lemma load_words_other l v rf r : r ∈ regs → reg_addr r ∉ l →
  reg_get r (load_words l v rf) = reg_get r rf.
Proof.
  unfold load_words. intros Hr. revert rf. induction l as [| a l IH]; intros rf Ha; cbn; [done |].
  rewrite not_elem_of_cons in Ha. rewrite IH, load_at by naive_solver.
  destruct (reg_addr r =? a) eqn:E; [apply Z.eqb_eq in E; naive_solver | done].
Qed.
Lemma load_words_field l v rf r : r ∈ regs → reg_addr r ∈ l → NoDup l →
  reg_get r (load_words l v rf) = extract r (v (reg_addr r)).
Proof.
  intros Hr. revert rf. induction l as [| a l IH]; intros rf Ha Hd; [by apply not_elem_of_nil in Ha |].
  apply NoDup_cons in Hd as [Hal Hd]. change (load_words (a :: l) v rf)
    with (load_words l v (load_fields (fields_at addrs regs a) rf (v a))).
  apply elem_of_cons in Ha as [<- | Ha]; [| by apply IH].
  rewrite load_words_other, load_at by done. by rewrite Z.eqb_refl.
Qed.
Lemma addr_in r : r ∈ regs → reg_addr r ∈ addrs.
Proof.
  intros (a & Ha & E)%layout_addr%existsb_exists. apply Z.eqb_eq in E. subst a.
  by apply list_elem_of_In.
Qed.

(** Loading all the packed words gives the members back, whatever they were before. *)
Lemma load_pack v rf rf0 : chip_ok regs rf → NoDup addrs →
  (∀ a, a ∈ addrs → ∃ word, 0 ≤ word < 2 ^ lo ∧ v a = pack_fields w (fields_at addrs regs a) rf word) →
  load_words addrs v rf0 = rf.
Proof.
  intros Hok Hd Hv. apply (member_ext (regs := regs)). intros r Hr.
  rewrite load_words_field by (done || by apply addr_in).
  destruct (Hv (reg_addr r)) as (word & Hword & ->); [by apply addr_in |].
  by apply extract_pack; [| | apply Hok |].
Qed.

(** ** Members stay in range *)

Lemma store_ok r v rf : r ∈ regs → 0 ≤ v < 2 ^ get_bit_width r → chip_ok regs rf → chip_ok regs (store r v rf).
Proof.
  intros Hr Hv Hok x Hx. unfold in_range. destruct (decide (reg_name r = reg_name x)) as [Hn | Hn].
  - apply same_name in Hn; [| done..]. subst x. by rewrite get_store.
  - rewrite get_store_other by done. by apply Hok.
Qed.
Lemma store_all_ok f fs rf : fs ⊆ regs → (∀ x, x ∈ regs → 0 ≤ f x < 2 ^ get_bit_width x) →
  chip_ok regs rf → chip_ok regs (store_all f fs rf).
Proof.
  intros Hfs Hf. unfold store_all. revert rf Hfs.
  induction fs as [| r fs IH]; intros rf Hfs Hok; cbn; [done |].
  apply IH; [set_solver |]. assert (r ∈ regs) as Hr by set_solver. by apply store_ok; [| apply Hf |].
Qed.
Lemma load_fields_ok fs rf data : fs ⊆ regs → chip_ok regs rf → chip_ok regs (load_fields fs rf data).
Proof. intros. apply (store_all_ok (λ r, extract r data)); [done | | done]. intros. by apply extract_small. Qed.
Lemma default_small r : r ∈ regs → 0 ≤ reg_default r < 2 ^ get_bit_width r.
Proof. intros Hr. pose proof (proj1 (field_ok_spec _ _ _) (layout_field r Hr)). lia. Qed.
Lemma init_fields_get rf r : r ∈ regs → reg_get r (init_fields regs rf) = reg_default r.
Proof.
  intros. apply (store_all_field reg_default); [done | apply member_names | done | apply default_small].
Qed.
Lemma init_fields_ok rf : chip_ok regs (init_fields regs rf).
Proof. intros r Hr. unfold in_range. rewrite init_fields_get by done. by apply default_small. Qed.
(** Member by member. *)
Lemma chip_ok_list rf : chip_ok regs rf ↔ Forall (λ r, in_range r rf) regs.
Proof. by rewrite Forall_forall. Qed.
(** A copy of members in range is the same structure. *)
Lemma copy_fields_eq src dst : chip_ok regs src → copy_fields regs src dst = src.
Proof.
  intros Hok. apply (member_ext (regs := regs)). intros r Hr.
  apply (store_all_field (λ r, reg_get r src)); [done | apply member_names | done | apply Hok].
Qed.
End chip.
