(* ===== verification/SynthSpec.v ===== *)
(** * The registers of the two synthesizers

    What is packed into a control block is what is loaded from it; every operation leaves
    each member with a value of its field. *)

From stdpp Require Import sets.
From Stdlib Require Import Floats.SpecFloat.
From S2P Require Import Prelude Kernel State Ioctl Block Ieee Regs RegsSpec.
From S2P Require Adf4351 Cmx991.
Import Adf4351 Cmx991.

(** ** The lists are lists of members *)

Ltac members := apply members_by_view;
  [ apply (bool_decide_unpack _); vm_compute; exact Logic.I
  | intros i r v rf Hi; repeat (destruct i as [| i]; [injection Hi as <-; reflexivity |]); discriminate Hi
  | intros [] [] Hab; injection Hab; intros; by subst ].

(** Each member holds what it held, or a value that is seen to be in range. *)
Ltac member_in_range :=
  match goal with
  | |- in_range ?r ?rf =>
      let b := eval vm_compute in (2 ^ get_bit_width r) in
      let g := eval lazy in (reg_get r rf) in
      change (0 ≤ g < b); lia
  end.
Ltac members_kept Hok :=
  apply chip_ok_list in Hok; apply chip_ok_list;
  repeat (let Hr := fresh in apply Forall_cons in Hok as [Hr Hok]; apply Forall_cons; split;
    [first [exact Hr | by vm_compute | member_in_range] | clear Hr]);
  apply Forall_nil_2.
Ltac each_elem Hi tac := repeat (apply elem_of_cons in Hi as [-> | Hi]; [tac |]); by apply not_elem_of_nil in Hi.

#[global] Instance adf4351_members : Members adf4351_regs.
Proof. members. Qed.
#[global] Instance cmx991_members : Members cmx991_regs.
Proof. members. Qed.
Lemma adf4351_layout : layout_ok 3 32 adf4351_addrs adf4351_regs = true.
Proof. vm_compute. reflexivity. Qed.
Lemma cmx991_layout : layout_ok 0 8 addr_lut cmx991_regs = true.
Proof. vm_compute. reflexivity. Qed.

(** ** Words and bytes of the block *)

Section cells.
Context (get : whitebox_args_t → Z → Z) (set : Z → Z → whitebox_args_t → whitebox_args_t).
Context (B : Z) (small : Z → Prop).
Context (Hset : ∀ i v w j, length w = args_words → 0 ≤ i < B → 0 ≤ j < B → small v →
  get (set i v w) j = if decide (i = j) then v else get w j).
Context (Hlen : ∀ i v w, length (set i v w) = length w).

Definition set_cells (f : Z → Z) (n : nat) (w : whitebox_args_t) : whitebox_args_t :=
  foldl (λ w i, set i (f i) w) w (seqZ 0 (Z.of_nat n)).
Lemma set_cells_length f n w : length (set_cells f n w) = length w.
Proof.
  unfold set_cells. generalize (seqZ 0 (Z.of_nat n)). intros l. revert w.
  induction l as [| i l IH]; intros w; cbn; [done |]. by rewrite IH, Hlen.
Qed.
Lemma get_cells f n w j : length w = args_words → Z.of_nat n ≤ B → 0 ≤ j < B → (∀ i, small (f i)) →
  get (set_cells f n w) j = if decide (j < Z.of_nat n) then f j else get w j.
Proof.
  intros Hw Hn Hj Hf. induction n as [| n IH]; [by rewrite decide_False by lia |].
  assert (set_cells f (S n) w = set (Z.of_nat n) (f (Z.of_nat n)) (set_cells f n w)) as ->.
  { unfold set_cells. rewrite Nat2Z.inj_succ, <- Z.add_1_r, seqZ_app, foldl_app by lia. done. }
  rewrite Hset by (rewrite ?set_cells_length; done || lia). rewrite IH by lia.
  destruct (decide (Z.of_nat n = j)), (decide (j < Z.of_nat n)), (decide (j < Z.of_nat (S n)));
    first [lia | done | by f_equal].
Qed.
End cells.

Lemma ioctl_set_word f n w j : length w = args_words → (n ≤ 131)%nat → 0 ≤ j < 131 →
  word_of (set_cells set_word f n w) j = if decide (j < Z.of_nat n) then f j else word_of w j.
Proof.
  intros. apply (get_cells word_of set_word 131 (λ _, True)); [| | done | lia | done | done].
  - intros. apply word_of_set_word; [done | done | lia].
  - apply set_word_length.
Qed.
Lemma ioctl_set_byte f n w j : length w = args_words → (n ≤ 524)%nat → 0 ≤ j < 524 →
  (∀ i, 0 ≤ f i < 256) →
  byte_of (set_cells set_byte f n w) j = if decide (j < Z.of_nat n) then f j else byte_of w j.
Proof.
  intros. apply (get_cells byte_of set_byte 524 (λ v, 0 ≤ v < 256)); [| | done | lia | done | done].
  - intros. by apply byte_of_set_byte.
  - apply set_byte_length.
Qed.

(** ** The ADF4351 *)

Lemma adf4351_pack_addr rf i : 0 ≤ i < 6 → adf4351_pack rf i &&& 7 = i.
Proof.
  intros Hi. apply Z.bits_inj'. intros k Hk. unfold adf4351_pack.
  change 7 with (2 ^ 3 - 1) at 2. rewrite land_ones_low by lia.
  destruct (decide (k < 3)).
  - rewrite Z.mod_pow2_bits_low by lia. rewrite (pack_testbit 3 32); [| | lia | lia].
    2: { apply fields_at_forallb. vm_compute. reflexivity. }
    assert (existsb (field_bit rf k) (fields_at adf4351_addrs adf4351_regs i) = false) as ->.
    { apply not_true_is_false. intros (r & Hr & Hb)%existsb_exists.
      apply list_elem_of_In, fields_at_elem in Hr as (Hr & _).
      pose proof (layout_field _ _ _ _ adf4351_layout r Hr) as Hf. rewrite field_ok_spec in Hf.
      unfold field_bit in Hb. rewrite !andb_true_iff in Hb. lia. }
    rewrite orb_false_r. f_equal. change 7 with (2 ^ 3 - 1). rewrite land_ones_low by lia.
    apply Z.mod_small. lia.
  - rewrite Z.mod_pow2_bits_high by lia. rewrite <- (Z.mod_small i (2 ^ 3)) by lia.
    by rewrite Z.mod_pow2_bits_high by lia.
Qed.
Lemma adf4351_words rf w i : length w = args_words → 0 ≤ i < 6 →
  word_of (adf4351_ioctl_set rf w) i = adf4351_pack rf i.
Proof.
  intros Hw Hi. change (adf4351_ioctl_set rf w) with (set_cells set_word (adf4351_pack rf) 6 w).
  rewrite ioctl_set_word by (done || lia). by rewrite decide_True by lia.
Qed.
Lemma adf4351_get_words rf w : (∀ i, 0 ≤ i < 6 → word_of w i &&& 7 = i) →
  adf4351_ioctl_get rf w = load_words adf4351_regs adf4351_addrs adf4351_addrs (word_of w) rf.
Proof.
  intros Hw. change (adf4351_ioctl_get rf w) with
    (foldl (λ rf i, adf4351_load rf (word_of w i)) rf adf4351_addrs).
  assert (∀ i, i ∈ adf4351_addrs → 0 ≤ i < 6) as Ha by (intros i Hi; each_elem Hi ltac:(lia)).
  assert (∀ l rf, (∀ i, i ∈ l → 0 ≤ i < 6) → foldl (λ rf i, adf4351_load rf (word_of w i)) rf l =
    load_words adf4351_regs adf4351_addrs l (word_of w) rf) as Hl; [| by apply Hl].
  intros l. induction l as [| i l IH]; intros rf0 Hi; [done |]. cbn [foldl].
  rewrite IH by set_solver. unfold adf4351_load. by rewrite Hw by set_solver.
Qed.

Lemma adf4351_set_get rf rf0 w : chip_ok adf4351_regs rf → length w = args_words →
  adf4351_ioctl_get rf0 (adf4351_ioctl_set rf w) = rf.
Proof.
  intros Hok Hw. rewrite adf4351_get_words.
  - apply (load_pack _ 3 32 _ adf4351_layout); [lia | done | by apply (bool_decide_unpack _); vm_compute |].
    intros a Ha. assert (0 ≤ a < 6) by each_elem Ha ltac:(lia).
    exists (a &&& 7). split; [| by apply adf4351_words].
    change 7 with (2 ^ 3 - 1). rewrite land_ones_low by lia. apply Z.mod_pos_bound. lia.
  - intros i Hi. rewrite adf4351_words by done. by apply adf4351_pack_addr.
Qed.

(** ** The CMX991 *)

(** The place of an address in the table. *)
Fixpoint place (l : list Z) (i a : Z) : Z :=
  match l with [] => i | x :: l => if a =? x then i else place l (i + 1) a end.
Lemma cmx991_pack_range rf a : 0 ≤ cmx991_pack rf a < 256.
Proof. apply (pack_range 8); lia. Qed.
Lemma cmx991_get_bytes rf w :
  cmx991_ioctl_get rf w = load_words cmx991_regs addr_lut addr_lut (λ a, byte_of w (place addr_lut 0 a)) rf.
Proof. reflexivity. Qed.
Lemma cmx991_bytes rf w i : length w = args_words → 0 ≤ i < 10 →
  byte_of (cmx991_ioctl_set rf w).2 i = cmx991_pack (rf <| ld_synth := 0 |>) (addr_of i).
Proof.
  intros Hw Hi. change (cmx991_ioctl_set rf w).2 with
    (set_cells set_byte (λ i, cmx991_pack (rf <| ld_synth := 0 |>) (addr_of i)) 10 w).
  rewrite ioctl_set_byte; [| done | lia | lia | intros; apply cmx991_pack_range].
  by rewrite decide_True by lia.
Qed.
Lemma cmx991_set_get rf rf0 w : chip_ok cmx991_regs rf → length w = args_words →
  cmx991_ioctl_get rf0 (cmx991_ioctl_set rf w).2 = (cmx991_ioctl_set rf w).1.
Proof.
  intros Hok Hw. rewrite cmx991_get_bytes.
  apply (load_pack _ 0 8 _ cmx991_layout); [lia | | by apply (bool_decide_unpack _); vm_compute |].
  - cbn [cmx991_ioctl_set fst]. members_kept Hok.
  - intros a Ha. exists 0. split; [lia |].
    assert (0 ≤ place addr_lut 0 a < 10 ∧ addr_of (place addr_lut 0 a) = a) as [Hp Hpa]
      by each_elem Ha ltac:(by vm_compute).
    rewrite cmx991_bytes, Hpa by done. reflexivity.
Qed.

(** Two fields make a number of [a + b] bits, and its halves are got back. *)
Lemma split_number v a b : 0 ≤ a → 0 ≤ b → 0 ≤ v < 2 ^ (a + b) →
  v mod 2 ^ a ||| (((v >>> a) mod 2 ^ b) <<< a) = v.
Proof.
  intros Ha Hb Hv. apply Z.bits_inj'. intros k Hk. rewrite Z.lor_spec, Z.shiftl_spec by lia.
  destruct (decide (k < a)).
  - rewrite Z.mod_pow2_bits_low, (Z.testbit_neg_r _ (k - a)) by lia. apply orb_false_r.
  - rewrite Z.mod_pow2_bits_high by lia. cbn [orb]. destruct (decide (k < a + b)).
    + rewrite Z.mod_pow2_bits_low, Z.shiftr_spec by lia. f_equal. lia.
    + rewrite Z.mod_pow2_bits_high by lia. rewrite <- (Z.mod_small v (2 ^ (a + b))) by lia.
      symmetry. apply Z.mod_pow2_bits_high. lia.
Qed.
(** The two halves as [get_mreg] and [set_mreg] compute them, the high one of [b] bits. *)
Lemma divider_halves v b : 0 ≤ b ≤ 8 → 0 ≤ v < 2 ^ (8 + b) →
  (((((u16 v >>> 0) &&& 255) mod 2 ^ 8 &&& 255) <<< 0) mod 2 ^ 16) |||
    (((((((u16 v >>> 8) &&& (2 ^ b - 1)) mod 2 ^ 8) &&& (2 ^ b - 1)) <<< 8) mod 2 ^ 16) ||| 0) = v.
Proof.
  intros Hb Hv. assert (2 ^ (8 + b) ≤ 2 ^ 16) by (apply Z.pow_le_mono_r; lia).
  assert (2 ^ b ≤ 2 ^ 8) by (apply Z.pow_le_mono_r; lia).
  rewrite u16_small by lia. change 255 with (2 ^ 8 - 1).
  rewrite !land_ones_low, Z.shiftr_0_r, Z.shiftl_0_r, Z.lor_0_r by lia.
  pose proof (Z.mod_pos_bound (v >>> 8) (2 ^ b) ltac:(lia)).
  pose proof (Z.mod_pos_bound v (2 ^ 8) ltac:(lia)).
  transitivity (v mod 2 ^ 8 ||| (((v >>> 8) mod 2 ^ b) <<< 8)); [| by apply split_number; lia].
  set (l := v mod 2 ^ 8) in *. set (h := (v >>> 8) mod 2 ^ b) in *.
  rewrite !(Z.mod_small l), !(Z.mod_small h) by lia.
  rewrite (Z.mod_small (_ <<< 8)); [done |]. rewrite Z.shiftl_mul_pow2 by lia. lia.
Qed.
Lemma cmx991_dividers rf v :
  (0 ≤ v < 2 ^ 13 → cmx991_get_m (cmx991_set_m rf v) = v) ∧
  (0 ≤ v < 2 ^ 15 → cmx991_get_n (cmx991_set_n rf v) = v).
Proof. split; intros Hv; [apply (divider_halves v 5) | apply (divider_halves v 7)]; lia. Qed.

(** ** What a word keeps of what is loaded *)

Definition adf4351_kept (a k : Z) : bool := (k <? 3) || covered adf4351_regs adf4351_addrs a k.
Lemma adf4351_load_pack rf a d k : 0 ≤ a < 6 → d &&& 7 = a → 0 ≤ k < 32 →
  Z.testbit (adf4351_pack (adf4351_load rf d) a) k = adf4351_kept a k && Z.testbit d k.
Proof.
  intros Ha Hd Hk. unfold adf4351_pack, adf4351_load, adf4351_kept. rewrite Hd.
  rewrite (pack_load _ 3 32 _ adf4351_layout) by lia. rewrite andb_orb_distrib_l. f_equal.
  rewrite <- Hd. change 7 with (2 ^ 3 - 1). rewrite !land_ones_low by lia.
  destruct (k <? 3) eqn:E; cbn [andb].
  - by rewrite !Z.mod_pow2_bits_low by lia.
  - apply Z.mod_pow2_bits_high. lia.
Qed.
Lemma cmx991_load_pack rf i d k : 0 ≤ i < 10 → 0 ≤ k < 8 →
  Z.testbit (cmx991_pack (cmx991_load rf (addr_of i) d) (addr_of i)) k =
  covered cmx991_regs addr_lut (addr_of i) k && Z.testbit d k.
Proof.
  intros Hi Hk. unfold cmx991_pack, cmx991_load.
  rewrite (pack_load _ 0 8 _ cmx991_layout) by lia. by rewrite Z.testbit_0_l.
Qed.

(** C26: the registers of both synthesizers make the round trip through a control block.
    Members that hold values of their fields are got back, whatever the structure held
    and whatever else is in the block (of the CMX991, with the flag of the loop's lock
    cleared); the six words of the ADF4351, and the ten bytes of the CMX991, packed again
    after loading are those loaded with the bits of no field cleared; and both of the
    CMX991's dividers, each spread over two fields, are got back. *)
Theorem registers_round_trip (a a0 : adf4351_t) (c c0 : cmx991_t) (w : whitebox_args_t) :
  chip_ok adf4351_regs a → chip_ok cmx991_regs c → length w = args_words →
  adf4351_ioctl_get a0 (adf4351_ioctl_set a w) = a ∧
  cmx991_ioctl_get c0 (cmx991_ioctl_set c w).2 = c <| ld_synth := 0 |> ∧
  (∀ i d k, 0 ≤ i < 6 → d &&& 7 = i → 0 ≤ k < 32 →
    Z.testbit (adf4351_pack (adf4351_load a0 d) i) k = adf4351_kept i k && Z.testbit d k) ∧
  (∀ i d k, 0 ≤ i < 10 → 0 ≤ k < 8 →
    Z.testbit (cmx991_pack (cmx991_load c0 (addr_of i) d) (addr_of i)) k =
    covered cmx991_regs addr_lut (addr_of i) k && Z.testbit d k) ∧
  (∀ v, (0 ≤ v < 2 ^ 13 → cmx991_get_m (cmx991_set_m c0 v) = v) ∧
        (0 ≤ v < 2 ^ 15 → cmx991_get_n (cmx991_set_n c0 v) = v)).
Proof.
  intros Ha Hc Hw. split_and!.
  - by apply adf4351_set_get.
  - by apply cmx991_set_get.
  - intros i d k. apply adf4351_load_pack.
  - intros i d k. apply cmx991_load_pack.
  - intros v. apply cmx991_dividers.
Qed.

(** ** Every operation keeps the members in range *)

Abbreviation adf4351_ok := (chip_ok adf4351_regs).
Abbreviation cmx991_ok := (chip_ok cmx991_regs).

Lemma cmx991_copy_eq src dst : cmx991_ok src → cmx991_copy src dst = src.
Proof. by apply (copy_fields_eq _ 0 8 _ cmx991_layout). Qed.
Lemma cmx991_load_ok rf a d : cmx991_ok rf → cmx991_ok (cmx991_load rf a d).
Proof. apply (load_fields_ok _ 0 8 _ cmx991_layout); [done | apply fields_at_regs]. Qed.
Lemma adf4351_load_ok rf d : adf4351_ok rf → adf4351_ok (adf4351_load rf d).
Proof. apply (load_fields_ok _ 3 32 _ adf4351_layout); [done | apply fields_at_regs]. Qed.
Lemma fold_ok {T} (regs : list (reg T)) (f : T → Z → T) l rf :
  (∀ rf i, chip_ok regs rf → chip_ok regs (f rf i)) → chip_ok regs rf → chip_ok regs (foldl f rf l).
Proof. intros Hf. revert rf. induction l as [| i l IH]; intros rf Hok; cbn; [done |]. by apply IH, Hf. Qed.
Lemma set_mreg_ok fs shift rf v : fs ⊆ cmx991_regs → cmx991_ok rf → cmx991_ok (set_mreg fs shift rf v).
Proof.
  revert shift rf. induction fs as [| r fs IH]; intros shift rf Hfs Hok; cbn; [done |].
  assert (r ∈ cmx991_regs) as Hr by (apply Hfs; left).
  apply IH; [intros x Hx; apply Hfs; by right |].
  apply (store_ok _ 0 8 _ cmx991_layout); [lia | done | | done].
  pose proof (proj1 (field_ok_spec _ _ _) (layout_field _ _ _ _ cmx991_layout r Hr)) as Hf.
  unfold get_bit_width in *. rewrite mask_ones, Z.land_ones by (unfold get_bit_width; lia).
  apply Z.mod_pos_bound. unfold get_bit_width. lia.
Qed.
Lemma filter_fields f : List.filter f cmx991_regs ⊆ cmx991_regs.
Proof. intros r Hr. apply list_elem_of_In in Hr. apply filter_In in Hr as [Hr _]. by apply list_elem_of_In. Qed.
Lemma set_m_n_ok rf m n : cmx991_ok rf → cmx991_ok (cmx991_set_n (cmx991_set_m rf m) n).
Proof. intros Hok. apply set_mreg_ok; [apply filter_fields |]. apply set_mreg_ok; [apply filter_fields | done]. Qed.

Definition ifh_ok fdes : ifh_for fdes = 0 ∨ ifh_for fdes = 1.
Proof. unfold ifh_for. case_match; vm_compute; auto. Qed.

Lemma pll_settings_ok rf q fdes : cmx991_ok rf → 0 ≤ q < 4 →
  cmx991_ok (rf <| vco_nr := q |> <| ifh := ifh_for fdes |>).
Proof. intros Hok Hq. destruct (ifh_ok fdes) as [-> | ->]; members_kept Hok. Qed.
Lemma pll_on_ok rf : cmx991_ok rf →
  cmx991_ok (rf <| pll := cmx991_enum "PLL_ENABLED" |>
    <| ld_synth := cmx991_enum "LD_SYNTH_UNLOCKED" |> <| charge_pump := cmx991_enum "CHARGE_PUMP_ENABLE" |>).
Proof. intros Hok. members_kept Hok. Qed.
Lemma pll_enable_m_n_ok rf fref m n : cmx991_ok rf → cmx991_ok (cmx991_pll_enable_m_n rf fref m n).2.
Proof.
  intros Hok. unfold cmx991_pll_enable_m_n. case_match; cbn [snd]; [done |].
  assert (0 ≤ cmx991_enum "VCO_NR_MID_HIGH_Q" < 4) by by vm_compute.
  pose proof (pll_on_ok _ (pll_settings_ok _ _ (cmx991_pll_actual_frequency
    (cmx991_set_n (cmx991_set_m rf m) n) fref) (set_m_n_ok rf m n Hok) ltac:(eassumption))) as Ht.
  rewrite cmx991_copy_eq; exact Ht.
Qed.

(** The search keeps both structures in range, and what it found is what it tried. *)
Definition search_ok (s : search) : Prop := cmx991_ok (tmp s) ∧ cmx991_ok (found s).
Lemma try_m_n_ok fref fdes m n s : search_ok s → search_ok (try_m_n fref fdes m n s).
Proof.
  intros [Ht Hf]. pose proof (set_m_n_ok _ m n Ht) as Ht'. unfold try_m_n. cbv zeta.
  set (t := cmx991_set_n _ _) in *. destruct (SFltb _ _); split; try done.
  change (cmx991_ok (cmx991_copy t (found s))). by rewrite cmx991_copy_eq.
Qed.
Lemma search_n_ok count fref fdes m n s : search_ok s → search_ok (search_n count fref fdes m n s).
Proof.
  revert n s. induction count as [| count IH]; intros n s Hs; cbn [search_n]; [done |].
  case_match; [by apply try_m_n_ok | by apply IH, try_m_n_ok].
Qed.
Lemma search_m_ok count fref fdes m s : search_ok s → search_ok (search_m count fref fdes m s).
Proof.
  revert m s. induction count as [| count IH]; intros m s Hs; cbn [search_m]; [done |].
  by apply IH, search_n_ok.
Qed.
Lemma pll_enable_ok rf fref fdes : cmx991_ok rf → cmx991_ok (cmx991_pll_enable rf fref fdes).2.
Proof.
  intros Hok. assert (0 ≤ cmx991_enum "VCO_NR_LOW_Q" < 4) by by vm_compute.
  unfold cmx991_pll_enable. cbv zeta. set (s0 := Search _ _ _ _).
  generalize (Z.to_nat (MAX_M - MIN_M)). intros count.
  assert (search_ok (search_m count fref fdes MIN_M s0)) as [Ht Hf].
  { apply search_m_ok. split; [by apply pll_settings_ok | exact Hok]. }
  destruct (err _ =? 0); cbn [snd]; [| exact Hf].
  rewrite (cmx991_copy_eq _ _ Ht). exact (pll_on_ok _ Ht).
Qed.

(** Loading the ten bytes sets every member of the CMX991. *)
Lemma cmx991_get_ok rf w : cmx991_ok (cmx991_ioctl_get rf w).
Proof.
  rewrite cmx991_get_bytes. intros r Hr. unfold in_range.
  rewrite (load_words_field _ 0 8 _ cmx991_layout); [| lia | done | | ].
  - by apply (extract_small _ 0 8 _ cmx991_layout).
  - by apply (addr_in _ 0 8 _ cmx991_layout).
  - by apply (bool_decide_unpack _); vm_compute.
Qed.
Lemma adf4351_get_ok rf w : adf4351_ok rf → adf4351_ok (adf4351_ioctl_get rf w).
Proof. apply fold_ok. intros. by apply adf4351_load_ok. Qed.
Lemma pll_disable_ok rf : adf4351_ok rf → adf4351_ok (adf4351_pll_disable rf).
Proof. intros Hok. members_kept Hok. Qed.

Lemma ioctl_set_ok rf w : cmx991_ok rf → cmx991_ok (cmx991_ioctl_set rf w).1.
Proof. intros Hok. cbn [cmx991_ioctl_set fst]. members_kept Hok. Qed.
Lemma resume_ok rf : cmx991_ok rf → cmx991_ok (cmx991_resume rf).
Proof. intros Hok. members_kept Hok. Qed.
Lemma suspend_ok rf : cmx991_ok rf → cmx991_ok (cmx991_suspend rf).
Proof. intros Hok. members_kept Hok. Qed.
Lemma shutdown_ok rf : cmx991_ok rf → cmx991_ok (cmx991_shutdown rf).
Proof. intros Hok. members_kept Hok. Qed.
Lemma calibrate_ok rf : cmx991_ok rf →
  cmx991_ok (cmx991_rx_calibrate_enable rf) ∧ cmx991_ok (cmx991_rx_calibrate_disable rf).
Proof. intros Hok. split; members_kept Hok. Qed.
Lemma cmx991_pll_disable_ok rf : cmx991_ok rf → cmx991_ok (cmx991_pll_disable rf).
Proof. intros Hok. members_kept Hok. Qed.
Lemma tx_tune_ok rf fdes a b c d e :
  0 ≤ a < 4 → 0 ≤ b < 2 → 0 ≤ c < 2 → 0 ≤ d < 2 → 0 ≤ e < 4 →
  cmx991_ok rf → cmx991_ok (cmx991_tx_tune rf fdes a b c d e).
Proof. intros Ha Hb Hc Hd He Hok. unfold cmx991_tx_tune. case_match; members_kept Hok. Qed.
Lemma rx_tune_ok rf a b c d e :
  0 ≤ a < 4 → 0 ≤ b < 2 → 0 ≤ c < 2 → 0 ≤ d < 2 → 0 ≤ e < 16 →
  cmx991_ok rf → cmx991_ok (cmx991_rx_tune rf a b c d e).
Proof. intros Ha Hb Hc Hd He Hok. unfold cmx991_rx_tune. members_kept Hok. Qed.

Ltac next_op Hf tac := apply elem_of_cons in Hf as [-> | Hf]; [tac |].
(** The operations on both structures. *)
Definition adf4351_operations (w : whitebox_args_t) : list (adf4351_t → adf4351_t) :=
  [λ rf, adf4351_ioctl_get rf w; adf4351_pll_disable].
Definition cmx991_operations (w : whitebox_args_t) (fref fdes : f64) (m n : Z) : list (cmx991_t → cmx991_t) :=
  [ λ rf, (cmx991_ioctl_set rf w).1; λ rf, cmx991_set_n (cmx991_set_m rf m) n;
    λ rf, (cmx991_pll_enable_m_n rf fref m n).2; λ rf, (cmx991_pll_enable rf fref fdes).2;
    cmx991_resume; cmx991_suspend; cmx991_shutdown; cmx991_pll_disable;
    cmx991_rx_calibrate_enable; cmx991_rx_calibrate_disable ].

(** C27: the members of both structures hold values of their fields, which is what packing
    keeps of them.  A reset sets every member so, whatever they held; so does loading the
    ten bytes of the CMX991, while loading six words of the ADF4351 keeps what was so
    (words with another address set nothing); and every operation keeps it: the dividers
    set to any numbers, both ways of enabling the loop, the power states, calibration, and
    the tuning of either path with enumerators of its members. *)
Theorem members_stay_in_range (a : adf4351_t) (c : cmx991_t) w fref fdes m n :
  adf4351_ok (adf4351_init a) ∧ cmx991_ok (cmx991_init c) ∧ cmx991_ok (cmx991_ioctl_get c w) ∧
  (adf4351_ok a → ∀ f, f ∈ adf4351_operations w → adf4351_ok (f a)) ∧
  (cmx991_ok c → ∀ f, f ∈ cmx991_operations w fref fdes m n → cmx991_ok (f c)) ∧
  (cmx991_ok c → ∀ x i j k l g, 0 ≤ i < 4 → 0 ≤ j < 2 → 0 ≤ k < 2 → 0 ≤ l < 2 →
    (0 ≤ g < 4 → cmx991_ok (cmx991_tx_tune c x i j k l g)) ∧
    (0 ≤ g < 16 → cmx991_ok (cmx991_rx_tune c i j k l g))).
Proof.
  split; [by apply (init_fields_ok _ 3 32 _ adf4351_layout) |].
  split; [by apply (init_fields_ok _ 0 8 _ cmx991_layout) |].
  split; [apply cmx991_get_ok |]. split; [| split].
  - intros Ha f Hf. next_op Hf ltac:(by apply adf4351_get_ok). next_op Hf ltac:(by apply pll_disable_ok).
    by apply not_elem_of_nil in Hf.
  - intros Hc f Hf. next_op Hf ltac:(by apply ioctl_set_ok). next_op Hf ltac:(by apply set_m_n_ok).
    next_op Hf ltac:(by apply pll_enable_m_n_ok). next_op Hf ltac:(by apply pll_enable_ok).
    next_op Hf ltac:(by apply resume_ok). next_op Hf ltac:(by apply suspend_ok).
    next_op Hf ltac:(by apply shutdown_ok). next_op Hf ltac:(by apply cmx991_pll_disable_ok).
    next_op Hf ltac:(by apply calibrate_ok). next_op Hf ltac:(by apply calibrate_ok).
    by apply not_elem_of_nil in Hf.
  - intros Hc x i j k l g ????. split; intros; [by apply tx_tune_ok | by apply rx_tune_ok].
Qed.

Definition adf4351_before : adf4351_t :=
  Adf4351 9 9 9 9 9 9 9 9 9 9 9 9 9 9 9 9 9 9 9 9 9 9 9 9 9 9 9 9 9 9 9 9 9 9 9 9 9.
Definition cmx991_before : cmx991_t :=
  Cmx991 9 9 9 9 9 9 9 9 9 9 9 9 9 9 9 9 9 9 9 9 9 9 9 9 9 9 9 9 9 9 9 9 9 9 9.
(** The words of the repository's own test ([lib/test_adf4351.c]). *)
Definition test_words : list Z := [0x003C8058; 0x00000069; 0x00004EC2; 0x000004B3; 0x00CD01FC; 0x00180005].

Lemma registers_round_trip_witness :
  let a := adf4351_init adf4351_before in let c := cmx991_init cmx991_before in
  let w := replicate args_words 0 in
  adf4351_ioctl_get adf4351_before (adf4351_ioctl_set a w) = a ∧
  cmx991_ioctl_get cmx991_before (cmx991_ioctl_set c w).2 = c ∧
  (λ d, adf4351_pack (adf4351_load adf4351_before d) (d &&& 7)) <$> test_words = test_words ∧
  cmx991_get_m (cmx991_set_m cmx991_before 8190) = 8190.
Proof.
  intros a c w.
  destruct (registers_round_trip a adf4351_before c cmx991_before w) as (H1 & H2 & _ & _ & H3).
  - apply (init_fields_ok _ 3 32 _ adf4351_layout). lia.
  - apply (init_fields_ok _ 0 8 _ cmx991_layout). lia.
  - reflexivity.
  - split; [exact H1 |]. split; [exact H2 |]. split; [vm_compute; reflexivity |]. apply (H3 8190). lia.
Defined.

Lemma members_stay_in_range_witness :
  let a := adf4351_init adf4351_before in let c := cmx991_init cmx991_before in
  adf4351_ok (adf4351_pll_disable a) ∧ cmx991_ok (cmx991_suspend c) ∧
  cmx991_ok (cmx991_rx_tune c 2 0 0 1 8).
Proof.
  destruct (members_stay_in_range adf4351_before cmx991_before [] (f64_of_Z 19200000)
    (f64_of_Z 180000000) 192 1800) as (Ha & Hc & _).
  destruct (members_stay_in_range (adf4351_init adf4351_before) (cmx991_init cmx991_before) []
    (f64_of_Z 19200000) (f64_of_Z 180000000) 192 1800) as (_ & _ & _ & Hopa & Hopc & Htune).
  split; [| split].
  - apply (Hopa Ha). unfold adf4351_operations. right. left.
  - apply (Hopc Hc). do 5 right. left.
  - apply (Htune Hc (S754_zero false) 2 0 0 1 8); lia.
Defined.
