(* ===== verification/MixerSpec.v ===== *)
(** * The search for the dividers of the mixer's loop

    [cmx991_pll_enable] looks at every pair of dividers, remembers the closest, and then
    copies back the pair it tried last. *)

From Stdlib Require Import Floats.SpecFloat.
From S2P Require Import Prelude Kernel State Ioctl Ieee Regs RegsSpec SynthSpec.
From S2P Require Import Cmx991.

(** ** The order of floating-point numbers *)

(** A number's place, compared lexicographically: sign and kind, exponent, mantissa. *)
Definition float_key (x : spec_float) : option (Z * Z * Z) :=
  match x with
  | S754_nan => None
  | S754_zero _ => Some (0, 0, 0)
  | S754_infinity s => Some (if s then -2 else 2, 0, 0)
  | S754_finite false m e => Some (1, e, Z.pos m)
  | S754_finite true m e => Some (-1, - e, - Z.pos m)
  end.
Definition key_lt (a b : Z * Z * Z) : Prop :=
  let '(a1, a2, a3) := a in let '(b1, b2, b3) := b in
  a1 < b1 ∨ a1 = b1 ∧ (a2 < b2 ∨ a2 = b2 ∧ a3 < b3).
Lemma SFltb_key x y : SFltb x y = true ↔
  match float_key x, float_key y with Some a, Some b => key_lt a b | _, _ => False end.
Proof.
  unfold SFltb. destruct x as [[] | [] | | [] m e], y as [[] | [] | | [] n f];
    cbn; try (split; [done | lia]); try (split; [lia | done]); try (split; lia).
  - destruct (Z.compare_spec e f); cbn; [| split; [done | lia] | split; [lia | done]].
    change (Pos.compare_cont Eq m n) with (Z.pos m ?= Z.pos n).
    destruct (Z.compare_spec (Z.pos m) (Z.pos n)); cbn; split; done || lia.
  - destruct (Z.compare_spec e f); cbn; [| split; [lia | done] | split; [done | lia]].
    change (Pos.compare_cont Eq m n) with (Z.pos m ?= Z.pos n).
    destruct (Z.compare_spec (Z.pos m) (Z.pos n)); cbn; split; done || lia.
Qed.
Lemma SFltb_trans x y z : SFltb x y = true → SFltb y z = true → SFltb x z = true.
Proof.
  rewrite !SFltb_key. destruct (float_key x) as [[[??]?]|], (float_key y) as [[[??]?]|],
    (float_key z) as [[[??]?]|]; cbn; lia.
Qed.
(** What is not above [x] is below what [x] is below. *)
Lemma SFltb_not_above x y z : SFltb x y = false → SFltb x z = true → float_key y ≠ None → SFltb y z = true.
Proof.
  intros Hxy Hxz Hy. apply not_true_iff_false in Hxy. rewrite SFltb_key in Hxy, Hxz |- *.
  destruct (float_key x) as [[[??]?]|], (float_key y) as [[[??]?]|], (float_key z) as [[[??]?]|];
    cbn in *; done || lia.
Qed.

(** ** One try *)

Section search.
Context (fref fdes : f64) (rf : cmx991_t) (Hrf : chip_ok cmx991_regs rf).
Implicit Types (s : search).

(** How far a pair of dividers is from the frequency asked for. *)
Definition gap (m n : Z) : f64 :=
  SFabs (SFsub 53 1024 fdes (f64_mul fref (f64_div (f64_of_Z n) (f64_of_Z m)))).
Definition in_rows (m n : Z) : Prop := MIN_M ≤ m < MAX_M ∧ MIN_N ≤ n < MAX_N.
Definition below (x : f64) (hz : Z) : Prop := SFltb x (f64_of_Z hz) = true.

Lemma dividers_set t m n : in_rows m n →
  cmx991_get_m (cmx991_set_n (cmx991_set_m t m) n) = m ∧
  cmx991_get_n (cmx991_set_n (cmx991_set_m t m) n) = n.
Proof.
  unfold in_rows, MIN_M, MAX_M, MIN_N, MAX_N. intros [Hm Hn]. split.
  - change (cmx991_get_m (cmx991_set_n (cmx991_set_m t m) n)) with (cmx991_get_m (cmx991_set_m t m)).
    apply (cmx991_dividers t m). lia.
  - apply (cmx991_dividers (cmx991_set_m t m) n). lia.
Qed.
Lemma offset_gap t m n : in_rows m n → offset fref fdes (cmx991_set_n (cmx991_set_m t m) n) = gap m n.
Proof.
  intros Hmn. destruct (dividers_set t m n Hmn) as [Hm Hn].
  unfold offset, cmx991_pll_actual_frequency. by rewrite Hm, Hn.
Qed.

(** The search's state: nothing found, and nothing changed; or a pair was found. *)
Record searching s : Prop := {
  sr_tmp : chip_ok cmx991_regs (tmp s);
  sr_found : chip_ok cmx991_regs (found s);
  sr_number : float_key (smallest_abs s) ≠ None;
  sr_err : err s = -1 ∧ smallest_abs s = f64_of_Z 100 ∧ found s = rf ∨
           err s = 0 ∧ ∃ m n, in_rows m n ∧ below (gap m n) 100;
}.
Definition near s : Prop := below (smallest_abs s) 1.

(** What [try_m_n] does. *)
Lemma try_tmp m n s : tmp (try_m_n fref fdes m n s) = cmx991_set_n (cmx991_set_m (tmp s) m) n.
Proof. unfold try_m_n. cbv zeta. by destruct (SFltb _ _). Qed.
Lemma try_smallest m n s : in_rows m n → smallest_abs (try_m_n fref fdes m n s) =
  if SFltb (gap m n) (smallest_abs s) then gap m n else smallest_abs s.
Proof.
  intros Hmn. unfold try_m_n. cbv zeta. rewrite offset_gap by done.
  change (smallest_abs (s <| tmp := _ |>)) with (smallest_abs s). by destruct (SFltb _ _).
Qed.
Lemma try_err m n s : in_rows m n →
  err (try_m_n fref fdes m n s) = if SFltb (gap m n) (smallest_abs s) then 0 else err s.
Proof.
  intros Hmn. unfold try_m_n. cbv zeta. rewrite offset_gap by done.
  change (smallest_abs (s <| tmp := _ |>)) with (smallest_abs s). by destruct (SFltb _ _).
Qed.
Lemma try_missed m n s : in_rows m n → SFltb (gap m n) (smallest_abs s) = false →
  found (try_m_n fref fdes m n s) = found s.
Proof.
  intros Hmn Hg. unfold try_m_n. cbv zeta. rewrite offset_gap by done.
  change (smallest_abs (s <| tmp := _ |>)) with (smallest_abs s). by rewrite Hg.
Qed.

Lemma near_found s : searching s → near s → err s = 0.
Proof. intros [_ _ _ [(_ & Hs & _) | [? _]]] Hn; [| done]. unfold near in Hn. rewrite Hs in Hn. discriminate. Qed.
Lemma try_searching m n s : in_rows m n → searching s → searching (try_m_n fref fdes m n s).
Proof.
  intros Hmn [Ht Hf Hk He]. destruct (try_m_n_ok fref fdes m n s (conj Ht Hf)) as [Ht' Hf'].
  split; [done | done | |].
  - rewrite try_smallest by done. destruct (SFltb _ _) eqn:E; [| done].
    apply SFltb_key in E. by destruct (float_key (gap m n)).
  - rewrite try_err, try_smallest by done. destruct (SFltb _ _) eqn:E.
    + right. split; [done |]. destruct He as [(_ & Hs & _) | [_ ?]]; [| done].
      exists m, n. rewrite Hs in E. done.
    + rewrite try_missed by done. exact He.
Qed.
Lemma try_near m n s : in_rows m n → near s → near (try_m_n fref fdes m n s).
Proof.
  intros Hmn Hn. unfold near. rewrite try_smallest by done. destruct (SFltb _ _) eqn:E; [| done].
  by apply (SFltb_trans _ _ _ E).
Qed.
(** Trying a close pair leaves a close one, and any within 100 Hz is noticed. *)
Lemma try_close m n s : in_rows m n → searching s → below (gap m n) 1 → near (try_m_n fref fdes m n s).
Proof.
  intros Hmn Hs Hg. unfold near. rewrite try_smallest by done. destruct (SFltb _ _) eqn:E; [done |].
  apply (SFltb_not_above _ _ _ E Hg). apply Hs.
Qed.
Lemma try_found m n s : in_rows m n → searching s → below (gap m n) 100 →
  err (try_m_n fref fdes m n s) = 0.
Proof.
  intros Hmn Hs Hg. rewrite try_err by done. destruct (SFltb _ _) eqn:E; [done |].
  destruct (sr_err s Hs) as [(_ & Hsm & _) | [-> _]]; [| done]. rewrite Hsm in E.
  unfold below in Hg. congruence.
Qed.
Lemma try_err_0 m n s : in_rows m n → err s = 0 → err (try_m_n fref fdes m n s) = 0.
Proof. intros Hmn He. rewrite try_err by done. by destruct (SFltb _ _). Qed.

(** ** A row, and the rows *)

Abbreviation row count m n s := (search_n count fref fdes m n s).
Abbreviation rows count m s := (search_m count fref fdes m s).
Definition width : nat := Z.to_nat (MAX_N - MIN_N).

(** What every try keeps, the row keeps; so do the rows. *)
Lemma row_keeps (P : search → Prop) m count n s :
  (∀ n s, in_rows m n → P s → P (try_m_n fref fdes m n s)) →
  MIN_M ≤ m < MAX_M → MIN_N ≤ n → n + Z.of_nat count ≤ MAX_N → P s → P (row count m n s).
Proof.
  intros HP Hm. revert n s. induction count as [| count IH]; intros n s Hn Hc Hs; cbn [search_n]; [done |].
  assert (P (try_m_n fref fdes m n s)) by (apply HP; [split; lia | done]).
  case_match; [done |]. apply IH; [lia.. | done].
Qed.
Lemma rows_keep (P : search → Prop) count m s :
  (∀ m n s, in_rows m n → P s → P (try_m_n fref fdes m n s)) →
  MIN_M ≤ m → m + Z.of_nat count ≤ MAX_M → P s → P (rows count m s).
Proof.
  intros HP. revert m s. induction count as [| count IH]; intros m s Hm Hc Hs; cbn [search_m]; [done |].
  apply IH; [lia.. |]. apply row_keeps; [by intros; apply HP | lia | lia | | done].
  unfold MIN_N, MAX_N. lia.
Qed.

(** A row that meets a pair with [Q] in its way ends with [P], if that try gives [P]. *)
Lemma row_meets (P : search → Prop) m n0 count n s :
  (∀ n s, in_rows m n → P s → P (try_m_n fref fdes m n s)) →
  (∀ s, searching s → P (try_m_n fref fdes m n0 s)) → (∀ s, searching s → near s → P s) →
  MIN_M ≤ m < MAX_M → MIN_N ≤ n ≤ n0 → n0 < n + Z.of_nat count → n + Z.of_nat count ≤ MAX_N →
  searching s → P (row count m n s).
Proof.
  intros HP H0 Hnear Hm. revert n s. induction count as [| count IH]; intros n s Hn Hin Hc Hs; [lia |].
  cbn [search_n]. assert (in_rows m n) as Hmn by (split; lia).
  assert (searching (try_m_n fref fdes m n s)) as Hs' by by apply try_searching.
  case_match eqn:E; [by apply Hnear |].
  destruct (decide (n = n0)) as [-> | Hne]; [| apply IH; done || lia].
  apply row_keeps; [done | lia.. | by apply H0].
Qed.
Lemma rows_meet (P : search → Prop) m0 n0 count m s : in_rows m0 n0 →
  (∀ m n s, in_rows m n → P s → P (try_m_n fref fdes m n s)) →
  (∀ s, searching s → P (try_m_n fref fdes m0 n0 s)) → (∀ s, searching s → near s → P s) →
  MIN_M ≤ m ≤ m0 → m0 < m + Z.of_nat count → m + Z.of_nat count ≤ MAX_M →
  searching s → P (rows count m s).
Proof.
  intros H0 HP Htry Hnear. revert m s. induction count as [| count IH]; intros m s Hm Hin Hc Hs; [lia |].
  cbn [search_m]. assert (MIN_N + Z.of_nat width ≤ MAX_N) by (unfold width, MIN_N, MAX_N; lia).
  destruct (decide (m = m0)) as [-> | Hne].
  - apply rows_keep; [done | lia | lia |]. destruct H0 as [Hm0 Hn0].
    apply (row_meets P m0 n0); [by intros; apply HP | done | done | lia | lia | | lia | done].
    unfold MIN_N, MAX_N in *. lia.
  - apply IH; [lia.. |]. apply row_keeps; [| lia | lia | lia | done]. intros. by apply try_searching.
Qed.

Lemma rows_app a b m s : rows (a + b) m s = rows b (m + Z.of_nat a) (rows a m s).
Proof.
  revert m s. induction a as [| a IH]; intros m s; [by rewrite Z.add_0_r |].
  cbn [Nat.add search_m]. rewrite IH. f_equal. lia.
Qed.
(** The pair tried last in a row. *)
Lemma row_last m count n s : MIN_M ≤ m < MAX_M → MIN_N ≤ n → n + Z.of_nat count < MAX_N →
  let s' := row (S count) m n s in
  cmx991_get_m (tmp s') = m ∧ n ≤ cmx991_get_n (tmp s') ≤ n + Z.of_nat count ∧
  (near s → searching s → cmx991_get_n (tmp s') = n).
Proof.
  intros Hm. revert n s. induction count as [| count IH]; intros n s Hn Hc s'; subst s'.
  all: cbn [search_n]; assert (in_rows m n) as Hmn by (split; lia).
  all: destruct (dividers_set (tmp s) m n Hmn) as [Ht1 Ht2]; rewrite <- try_tmp in Ht1, Ht2.
  all: pose proof (λ H, try_near m n s Hmn H) as Hnear; unfold near, below in Hnear.
  - case_match; rewrite Ht1, Ht2; split_and!; lia || done.
  - case_match eqn:E; [rewrite Ht1, Ht2; split_and!; lia || done |].
    destruct (IH (n + 1) (try_m_n fref fdes m n s)) as (H1 & H2 & _); [lia | lia |].
    cbn [search_n] in H1, H2. split_and!; [done | lia | lia |]. intros Hs. apply Hnear in Hs. congruence.
Qed.

(** The whole search: 8188 rows, and the last. *)
Definition last_n : nat := Z.to_nat 32686.
Definition first_rows s : search := rows (Z.to_nat 8188) MIN_M s.
Lemma rows_last a m s : rows (a + 1) m s = row (Z.to_nat (MAX_N - MIN_N)) (m + Z.of_nat a) MIN_N (rows a m s).
Proof. by rewrite rows_app. Qed.
Lemma rows_split s : rows (Z.to_nat (MAX_M - MIN_M)) MIN_M s = row (S last_n) 8190 MIN_N (first_rows s).
Proof.
  assert (Z.to_nat (MAX_M - MIN_M) = Z.to_nat 8188 + 1)%nat as -> by (unfold MAX_M, MIN_M; lia).
  assert (Z.to_nat (MAX_N - MIN_N) = S last_n) as Hn by (unfold last_n, MAX_N, MIN_N; lia).
  rewrite (rows_last (Z.to_nat 8188) MIN_M s), Hn, Z2Nat.id by lia. unfold first_rows. f_equal.
Qed.
Lemma first_rows_searching s : searching s → searching (first_rows s).
Proof. intros Hs. apply (rows_keep searching); [by intros; apply try_searching | done | unfold MIN_M, MAX_M; lia | done]. Qed.
Lemma all_rows_searching s : searching s → searching (rows (Z.to_nat (MAX_M - MIN_M)) MIN_M s).
Proof. intros Hs. apply (rows_keep searching); [by intros; apply try_searching | done | unfold MIN_M, MAX_M; lia | done]. Qed.
Lemma all_rows_find m n s : searching s → in_rows m n → below (gap m n) 100 →
  err (rows (Z.to_nat (MAX_M - MIN_M)) MIN_M s) = 0.
Proof.
  intros Hs Hmn Hg. pose proof Hmn as [Hm _]. unfold MIN_M, MAX_M in Hm.
  apply (rows_meet (λ s, err s = 0) m n);
    [done | intros; by apply try_err_0 | intros; by apply try_found | intros; by apply near_found |
     unfold MIN_M; lia | unfold MIN_M, MAX_M; lia | unfold MIN_M, MAX_M; lia | done].
Qed.
Lemma first_rows_near m n s : searching s → in_rows m n → m < 8190 → below (gap m n) 1 → near (first_rows s).
Proof.
  intros Hs Hmn Hm' Hg. pose proof Hmn as [Hm _]. unfold MIN_M, MAX_M in Hm.
  apply (rows_meet near m n);
    [done | intros; by apply try_near | intros; by apply try_close | done |
     unfold MIN_M; lia | unfold MIN_M; lia | unfold MIN_M, MAX_M; lia | done].
Qed.

(** The search for the dividers finds a pair if there is one, and then forgets it.
    When no pair of the 8189 by 32687 is within 100 Hz of the frequency asked for,
    [cmx991_pll_enable] answers -1 and changes nothing.  Otherwise it answers 0, but the
    dividers it leaves are those it tried last: the last [M], 8190, always; and if a pair
    within 1 Hz was met before the last row, the first [N], 80, whatever the frequency. *)
Lemma cmx991_search_forgets :
  let r := cmx991_pll_enable rf fref fdes in
  (r.1 = -1 ∧ r.2 = rf ∧ ∀ m n, in_rows m n → ¬ below (gap m n) 100) ∨
  (r.1 = 0 ∧ (∃ m n, in_rows m n ∧ below (gap m n) 100) ∧
    cmx991_get_m r.2 = 8190 ∧ MIN_N ≤ cmx991_get_n r.2 < MAX_N ∧
    ((∃ m n, in_rows m n ∧ m < 8190 ∧ below (gap m n) 1) → cmx991_get_n r.2 = 80)).
Proof.
  unfold cmx991_pll_enable. cbv zeta. set (s0 := Search _ _ _ _).
  assert (searching s0) as Hs0.
  { split; [by apply pll_settings_ok | exact Hrf | by vm_compute | by left]. }
  pose proof (all_rows_searching s0 Hs0) as Hend.
  pose proof (λ m n, all_rows_find m n s0 Hs0) as Hfind. pose proof (rows_split s0) as Hsplit.
  generalize dependent (rows (Z.to_nat (MAX_M - MIN_M)) MIN_M s0). intros s1 Hend Hfind Hsplit.
  destruct (sr_err s1 Hend) as [(He & _ & Hf) | (He & Hpair)]; rewrite He; [left | right].
  - split; [done |]. split; [done |]. intros m n Hmn Hg. specialize (Hfind m n Hmn Hg). congruence.
  - cbn [fst snd Z.eqb]. rewrite (cmx991_copy_eq _ _ (sr_tmp s1 Hend)).
    pose proof (first_rows_searching s0 Hs0) as Hfirst.
    destruct (row_last 8190 last_n MIN_N (first_rows s0)) as (Hm & Hn & Hlast);
      [done | done | unfold last_n, MIN_N, MAX_N; lia |].
    rewrite <- Hsplit in Hm, Hn, Hlast.
    split; [done |]. split; [done |]. split; [exact Hm |]. 
    split; [change (MIN_N ≤ cmx991_get_n (tmp s1) < MAX_N); unfold last_n, MIN_N, MAX_N in *; lia |].
    intros (m & n & Hmn & Hm' & Hg). apply Hlast; [| done]. by apply (first_rows_near m n).
Qed.
End search.

(** At 768 MHz the first pair is exact; the search ends with one that makes 187 kHz. *)
Definition mixer_after_reset : cmx991_t :=
  cmx991_init (Cmx991 9 9 9 9 9 9 9 9 9 9 9 9 9 9 9 9 9 9 9 9 9 9 9 9 9 9 9 9 9 9 9 9 9 9 9).
Lemma cmx991_search_forgets_witness :
  let r := cmx991_pll_enable mixer_after_reset (f64_of_Z 19200000) (f64_of_Z 768000000) in
  chip_ok cmx991_regs mixer_after_reset ∧
  (r.1 = -1 ∨ r.1 = 0 ∧ cmx991_get_m r.2 = 8190 ∧ cmx991_get_n r.2 = 80) ∧
  gap (f64_of_Z 19200000) (f64_of_Z 768000000) 2 80 = S754_zero false.
Proof.
  cbv zeta. assert (chip_ok cmx991_regs mixer_after_reset) as Hok
    by (apply (init_fields_ok _ 0 8 _ cmx991_layout); lia).
  split; [exact Hok |]. split; [| vm_compute; reflexivity].
  pose proof (cmx991_search_forgets (f64_of_Z 19200000) (f64_of_Z 768000000) mixer_after_reset Hok) as Hr.
  cbv zeta in Hr. generalize dependent (cmx991_pll_enable mixer_after_reset (f64_of_Z 19200000)
    (f64_of_Z 768000000)). intros r [(He & _) | (He & _ & Hm & _ & Hn)]; [by left | right].
  split; [exact He |]. split; [exact Hm |]. apply Hn. exists 2, 80. split; [by split |]. split; [done |].
  vm_compute. reflexivity.
Defined.
