(* ===== verification/IeeeSpec.v ===== *)
(** * Floating-point arithmetic on integers

    The operations of [Ieee.v] on doubles that hold positive integers: what is exact
    stays exact, two numbers compare as the integers, and a quotient drops to the
    quotient of the integers when there is room for it. *)

From Stdlib Require Import Floats.SpecFloat.
From S2P Require Import Prelude Ieee.

Lemma digits2_bounds m : 2 ^ (Z.pos (digits2_pos m) - 1) ≤ Z.pos m < 2 ^ Z.pos (digits2_pos m).
Proof.
  induction m as [m IH | m IH |]; cbn [digits2_pos]; [| | by cbn].
  all: rewrite Pos2Z.inj_succ; unfold Z.succ; rewrite Z.add_simpl_r, Z.pow_add_r, Z.pow_1_r by lia.
  all: replace (Z.pos (digits2_pos m)) with (Z.pos (digits2_pos m) - 1 + 1) at 1 by lia.
  all: rewrite Z.pow_add_r, Z.pow_1_r by lia; lia.
Qed.
Lemma digits2_unique m d : 2 ^ (d - 1) ≤ Z.pos m < 2 ^ d → Z.pos (digits2_pos m) = d.
Proof.
  intros Hd. pose proof (digits2_bounds m) as Hm.
  assert (0 ≤ d) by (destruct (decide (0 ≤ d)); [done | rewrite (Z.pow_neg_r 2 d) in Hd by lia; lia]).
  destruct (Z.lt_trichotomy (Z.pos (digits2_pos m)) d) as [Hlt | [? | Hlt]]; [| done |].
  - assert (2 ^ Z.pos (digits2_pos m) ≤ 2 ^ (d - 1)) by (apply Z.pow_le_mono_r; lia). lia.
  - assert (2 ^ d ≤ 2 ^ (Z.pos (digits2_pos m) - 1)) by (apply Z.pow_le_mono_r; lia). lia.
Qed.

(** ** Shifting right *)

Lemma iter_pos_nat {A} (f : A → A) p x : SpecFloat.iter_pos f p x = Nat.iter (Pos.to_nat p) f x.
Proof.
  revert x. induction p as [p IH | p IH |]; intros x; cbn [SpecFloat.iter_pos].
  - rewrite !IH, Pos2Nat.inj_xI. replace (S (2 * Pos.to_nat p)) with (Pos.to_nat p + (Pos.to_nat p + 1))%nat by lia.
    by rewrite !Nat.iter_add.
  - rewrite !IH, Pos2Nat.inj_xO. replace (2 * Pos.to_nat p)%nat with (Pos.to_nat p + Pos.to_nat p)%nat by lia.
    by rewrite Nat.iter_add.
  - done.
Qed.
Definition exact_record (x : shr_record) : bool := negb (shr_r x || shr_s x).
Lemma shr_1_spec x : 0 ≤ shr_m x →
  shr_m (shr_1 x) = shr_m x / 2 ∧
  (exact_record x = true → shr_m x mod 2 = 0 → exact_record (shr_1 x) = true).
Proof.
  destruct x as [m r s]. cbn. intros Hm. destruct m as [| [p | p |] | p]; cbn; try lia.
  - split; [done |]. by destruct r, s.
  - split; [rewrite Pos2Z.inj_xI; Z.to_euclidean_division_equations; lia |].
    intros _ Hp. rewrite Pos2Z.inj_xI in Hp. Z.to_euclidean_division_equations. lia.
  - split; [rewrite Pos2Z.inj_xO; Z.to_euclidean_division_equations; lia |]. by destruct r, s.
  - split; [done |]. intros _ Hp. discriminate.
Qed.
Lemma shr_iter_spec n x : 0 ≤ shr_m x →
  shr_m (Nat.iter n shr_1 x) = shr_m x / 2 ^ Z.of_nat n ∧
  (exact_record x = true → shr_m x mod 2 ^ Z.of_nat n = 0 → exact_record (Nat.iter n shr_1 x) = true).
Proof.
  intros Hx. induction n as [| n [IHm IHe]]; [by rewrite Z.div_1_r |].
  cbn [Nat.iter nat_rect]. rewrite Nat2Z.inj_succ, Z.pow_succ_r by lia.
  assert (0 ≤ shr_m x / 2 ^ Z.of_nat n) by (apply Z.div_pos; lia).
  destruct (shr_1_spec (Nat.iter n shr_1 x)) as [Hm He]; [by rewrite IHm |]. split.
  - change (nat_rect _ x (λ _, shr_1) n) with (Nat.iter n shr_1 x).
    rewrite Hm, IHm, Z.div_div by lia. f_equal. lia.
  - intros Hex Hmod. change (nat_rect _ x (λ _, shr_1) n) with (Nat.iter n shr_1 x).
    apply Z.mod_divide in Hmod as [c Hc]; [| lia]. apply He.
    + apply IHe; [done |]. rewrite Hc, Z.mul_assoc. apply Z.mod_mul. lia.
    + rewrite IHm, Hc, Z.mul_assoc, Z.div_mul by lia. apply Z.mod_mul. lia.
Qed.
Lemma shr_spec x e n : 0 ≤ shr_m x → 0 ≤ n →
  (shr x e n).2 = e + n ∧ shr_m (shr x e n).1 = shr_m x / 2 ^ n ∧
  (exact_record x = true → shr_m x mod 2 ^ n = 0 → exact_record (shr x e n).1 = true).
Proof.
  intros Hx Hn. destruct n as [| p | p]; [| | lia]; cbn.
  - split_and!; [lia | by rewrite Z.div_1_r | done].
  - rewrite iter_pos_nat. destruct (shr_iter_spec (Pos.to_nat p) x Hx) as [Hm He].
    rewrite positive_nat_Z in Hm, He. done.
Qed.
Lemma round_even_spec x :
  (round_nearest_even (shr_m x) (loc_of_shr_record x) = shr_m x ∨
   round_nearest_even (shr_m x) (loc_of_shr_record x) = shr_m x + 1) ∧
  (exact_record x = true → round_nearest_even (shr_m x) (loc_of_shr_record x) = shr_m x).
Proof. destruct x as [m [] []]; cbn; try (split; [by auto | done]). case_match; split; auto; done. Qed.

(** ** Rounding a positive number *)

Lemma fexp64 x : fexp 53 1024 x = Z.max (x - 53) (-1074).
Proof. reflexivity. Qed.
Lemma shr_fexp_spec m e l : 0 < m → - 1074 ≤ Zdigits2 m + e - 53 → 53 ≤ Zdigits2 m →
  let s := Zdigits2 m - 53 in
  (shr_fexp 53 1024 m e l).2 = e + s ∧ shr_m (shr_fexp 53 1024 m e l).1 = m / 2 ^ s ∧
  (l = loc_Exact → m mod 2 ^ s = 0 → exact_record (shr_fexp 53 1024 m e l).1 = true).
Proof.
  intros Hm Hn Hd s. unfold shr_fexp. rewrite fexp64, Z.max_l by lia.
  replace (Zdigits2 m + e - 53 - e) with s by lia.
  assert (shr_m (shr_record_of_loc m l) = m) as Hr by (by destruct l as [| []]).
  destruct (shr_spec (shr_record_of_loc m l) e s) as (He & Hq & Hex); [rewrite Hr; lia | lia |].
  rewrite Hr in Hq, Hex. split_and!; [done.. |]. intros ->. by apply Hex.
Qed.
Lemma round_positive mx ex lx : 53 ≤ Z.pos (digits2_pos mx) → - 1074 ≤ Z.pos (digits2_pos mx) + ex - 53 →
  Z.pos (digits2_pos mx) + ex ≤ 1000 →
  let s := Z.pos (digits2_pos mx) - 53 in
  ∃ m2 m e, (m2 = Z.pos mx / 2 ^ s ∨ m2 = Z.pos mx / 2 ^ s + 1) ∧
    (lx = loc_Exact → Z.pos mx mod 2 ^ s = 0 → m2 = Z.pos mx / 2 ^ s) ∧
    binary_round_aux 53 1024 false (Z.pos mx) ex lx = S754_finite false m e ∧
    2 ^ 52 ≤ Z.pos m < 2 ^ 53 ∧
    (e = ex + s ∧ Z.pos m = m2 ∨ e = ex + s + 1 ∧ 2 * Z.pos m = m2).
Proof.
  intros Hd Hn Ho s. pose proof (digits2_bounds mx) as Hb. set (d := Z.pos (digits2_pos mx)) in *.
  destruct (shr_fexp_spec (Z.pos mx) ex lx) as (He & Hm & Hex); [lia | done | done |].
  cbn [Zdigits2] in He, Hm, Hex. fold d s in He, Hm, Hex.
  unfold binary_round_aux. destruct (shr_fexp 53 1024 (Z.pos mx) ex lx) as [r1 e1]. cbn [fst snd] in *.
  destruct (round_even_spec r1) as [Hr Hre].
  set (m2 := round_nearest_even (shr_m r1) (loc_of_shr_record r1)) in *. rewrite Hm in Hr, Hre.
  assert (2 ^ 52 ≤ Z.pos mx / 2 ^ s < 2 ^ 53) as Hq.
  { split; [apply Z.div_le_lower_bound; [lia |] | apply Z.div_lt_upper_bound; [lia |]];
      rewrite <- Z.pow_add_r by lia; unfold s.
    - replace (d - 53 + 52) with (d - 1) by lia. lia.
    - replace (d - 53 + 53) with d by lia. lia. }
  destruct m2 as [| p | p] eqn:Em2; [lia | | lia].
  assert (Z.pos (digits2_pos p) = 53 ∨ Z.pos (digits2_pos p) = 54 ∧ Z.pos p = 2 ^ 53) as Hdp.
  { destruct (decide (Z.pos p = 2 ^ 53)) as [E |].
    - right. split; [| done]. apply digits2_unique. lia.
    - left. apply digits2_unique. lia. }
  destruct (shr_fexp_spec (Z.pos p) e1 loc_Exact) as (He2 & Hm3 & _);
    [lia | cbn [Zdigits2]; lia | cbn [Zdigits2]; lia |].
  destruct (shr_fexp 53 1024 (Z.pos p) e1 loc_Exact) as [r2 e2]. cbn [fst snd Zdigits2] in *.
  exists (Z.pos p). rewrite Hm3. pose proof (digits2_bounds p) as Hpb.
  destruct Hdp as [Hdp | [Hdp Hp]]; rewrite Hdp in *.
  - rewrite Z.sub_diag, Z.div_1_r in *. rewrite (proj2 (Z.leb_le e2 _)) by (unfold s in *; lia).
    exists p, e2. split_and!; [tauto | tauto | done | lia | lia | left; lia].
  - rewrite Hp in *. change (2 ^ 53 / 2 ^ (54 - 53)) with (2 ^ 52).
    destruct (2 ^ 52) as [| m | m] eqn:E52; [done | | done].
    rewrite (proj2 (Z.leb_le e2 _)) by (unfold s in *; lia).
    exists m, e2. split_and!; [tauto | tauto | done | lia | lia | right; lia].
Qed.

(** ** Numbers that are integers *)

(** [x] is the positive integer [a]. *)
Definition stands (x : f64) (a : Z) : Prop :=
  ∃ m k, x = S754_finite false m (- k) ∧ 0 ≤ k ∧ 2 ^ 52 ≤ Z.pos m < 2 ^ 53 ∧ Z.pos m = a * 2 ^ k.

Lemma stands_range x a : stands x a → 0 < a < 2 ^ 53.
Proof.
  intros (m & k & _ & Hk & Hm & Ha). assert (0 < 2 ^ k) by lia. split; nia.
Qed.
Lemma stands_integral x a : stands x a → integral x = Some a.
Proof.
  intros (m & k & -> & Hk & Hm & Ha). unfold integral. cbn [cond_Zopp]. f_equal.
  case_match; [replace k with 0 in * by lia | rewrite Z.opp_involutive]; rewrite Ha.
  - change (- 0) with 0. lia.
  - apply Z.div_mul. lia.
Qed.
(** Two canonical numbers are in the order of the integers. *)
Lemma stands_compare x y a b : stands x a → stands y b → SFcompare x y = Some (a ?= b).
Proof.
  intros (m & k & -> & Hk & Hm & Ha) (n & l & -> & Hl & Hn & Hb). cbn [SFcompare]. f_equal.
  destruct (Z.compare_spec (- k) (- l)) as [Heq | Hlt | Hlt].
  - assert (k = l) as -> by lia. change (Pos.compare_cont Eq m n) with (Z.pos m ?= Z.pos n).
    rewrite Ha, Hb. symmetry. apply Zmult_compare_compat_r. lia.
  - symmetry. apply Z.compare_lt_iff. assert (2 ^ k = 2 ^ (k - l - 1) * 2 * 2 ^ l) as E.
    { rewrite <- (Z.pow_1_r 2) at 3. rewrite <- !Z.pow_add_r by lia. f_equal. lia. }
    assert (0 < 2 ^ (k - l - 1)) by lia. assert (0 < 2 ^ l) by lia. nia.
  - symmetry. apply Z.compare_gt_iff. assert (2 ^ l = 2 ^ (l - k - 1) * 2 * 2 ^ k) as E.
    { rewrite <- (Z.pow_1_r 2) at 3. rewrite <- !Z.pow_add_r by lia. f_equal. lia. }
    assert (0 < 2 ^ (l - k - 1)) by lia. assert (0 < 2 ^ k) by lia. nia.
Qed.
Lemma stands_lt x y a b : stands x a → stands y b → SFltb x y = (a <? b).
Proof.
  intros Hx Hy. unfold SFltb. rewrite (stands_compare x y a b) by done. unfold Z.ltb. by destruct (a ?= b).
Qed.

(** Rounding what is an integer of at most 53 bits changes nothing. *)
Lemma round_exact mx k a : 53 ≤ Z.pos (digits2_pos mx) → 0 ≤ k ≤ 1000 →
  Z.pos mx = a * 2 ^ k → a < 2 ^ 53 →
  stands (binary_round_aux 53 1024 false (Z.pos mx) (- k) loc_Exact) a.
Proof.
  intros Hd Hk Hmx Ha. pose proof (digits2_bounds mx) as Hb. set (d := Z.pos (digits2_pos mx)) in *.
  assert (0 < 2 ^ k) by lia. assert (d ≤ 53 + k) as Hdk.
  { destruct (decide (d ≤ 53 + k)); [done |].
    assert (2 ^ (53 + k) ≤ 2 ^ (d - 1)) as Hp by (apply Z.pow_le_mono_r; lia).
    rewrite Z.pow_add_r in Hp by lia. nia. }
  destruct (round_positive mx (- k) loc_Exact) as (m2 & m & e & _ & Hex & -> & Hm & He); [lia.. |].
  fold d in Hex, He. set (s := d - 53) in *.
  assert (Z.pos mx = a * 2 ^ (k - s) * 2 ^ s) as Hms.
  { rewrite Hmx, <- Z.mul_assoc, <- Z.pow_add_r by lia. do 2 f_equal. lia. }
  rewrite Hms, Z.mod_mul, Z.div_mul in Hex by lia. specialize (Hex eq_refl eq_refl).
  destruct He as [[-> He] | [-> He]].
  - exists m, (k - s). split_and!; [f_equal; lia | lia | lia | lia | lia].
  - assert (2 ^ (d - 1) ≤ Z.pos mx) by lia. exists m, (k - s - 1).
    assert (k - s ≠ 0) by (intros E; rewrite E in Hex; lia).
    assert (2 ^ (k - s) = 2 * 2 ^ (k - s - 1)) as E.
    { rewrite <- (Z.pow_1_r 2) at 2. rewrite <- Z.pow_add_r by lia. f_equal. lia. }
    split_and!; [f_equal; lia | lia | lia | lia | nia].
Qed.
Lemma pos_iter_xO m p : Z.pos (Pos.iter xO m p) = Z.pos m * 2 ^ Z.pos p.
Proof.
  induction p as [| p IH] using Pos.peano_ind; [cbn; lia |].
  rewrite Pos.iter_succ, Pos2Z.inj_xO, IH, Pos2Z.inj_succ, Z.pow_succ_r by lia. lia.
Qed.
Lemma stands_of_Z a : 0 < a < 2 ^ 53 → stands (f64_of_Z a) a.
Proof.
  intros Ha. destruct a as [| m | m]; [lia | | lia]. unfold f64_of_Z, binary_normalize, binary_round.
  pose proof (digits2_bounds m) as Hb. set (d := Z.pos (digits2_pos m)) in *.
  assert (d ≤ 53) as Hd.
  { destruct (decide (d ≤ 53)); [done |].
    assert (2 ^ 53 ≤ 2 ^ (d - 1)) by (apply Z.pow_le_mono_r; lia). lia. }
  rewrite Z.add_0_r, fexp64, Z.max_l by lia. unfold shl_align. rewrite Z.sub_0_r.
  destruct (d - 53) as [| p | p] eqn:E; [| lia |].
  - apply (round_exact m 0 (Z.pos m)); fold d; lia.
  - rewrite <- Pos2Z.opp_pos. apply round_exact; [| unfold d in *; lia | apply pos_iter_xO | lia].
    rewrite (digits2_unique _ 53); [done |]. rewrite pos_iter_xO. change (53 - 1) with 52.
    assert (2 ^ 52 = 2 ^ (d - 1) * 2 ^ Z.pos p) as -> by (rewrite <- Z.pow_add_r by lia; f_equal; lia).
    assert (2 ^ 53 = 2 ^ d * 2 ^ Z.pos p) as -> by (rewrite <- Z.pow_add_r by lia; f_equal; lia). nia.
Qed.
Lemma stands_bound x a : stands x a → ∃ m k, x = S754_finite false m (- k) ∧ 0 ≤ k ≤ 52 ∧
  2 ^ 52 ≤ Z.pos m < 2 ^ 53 ∧ Z.pos m = a * 2 ^ k.
Proof.
  intros Hx. pose proof (stands_range x a Hx). destruct Hx as (m & k & -> & Hk & Hm & Ha).
  exists m, k. split_and!; try done; try lia. destruct (decide (k ≤ 52)); [done |].
  assert (2 ^ 53 ≤ 2 ^ k) by (apply Z.pow_le_mono_r; lia). nia.
Qed.
Lemma stands_mul x y a b : stands x a → stands y b → a * b < 2 ^ 53 → stands (f64_mul x y) (a * b).
Proof.
  intros (m & k & -> & Hk & Hm & Ha)%stands_bound (n & l & -> & Hl & Hn & Hb)%stands_bound Hab.
  unfold f64_mul, SFmul. cbn [xorb]. rewrite <- Z.opp_add_distr.
  apply round_exact; [| lia | | done].
  - pose proof (digits2_bounds (m * n)) as [_ Hd]. rewrite Pos2Z.inj_mul in Hd.
    destruct (decide (53 ≤ Z.pos (digits2_pos (m * n)))); [done |].
    assert (2 ^ Z.pos (digits2_pos (m * n)) ≤ 2 ^ 53) by (apply Z.pow_le_mono_r; lia). nia.
  - rewrite Pos2Z.inj_mul, Ha, Hb, Z.pow_add_r by lia. lia.
Qed.

Lemma stands_digits m : 2 ^ 52 ≤ Z.pos m < 2 ^ 53 → Z.pos (digits2_pos m) = 53.
Proof. intros. by apply digits2_unique. Qed.
(** Integers [mm * b <= a * 2 ^ F < (mm + 1) * b] of which [m2] is the first or its
    successor: with enough bits below the point, the integral part is the quotient's. *)
Lemma rounded_quotient a b F mm m2 : 0 < b < 2 ^ F → 0 ≤ F → 0 ≤ a →
  mm * b ≤ a * 2 ^ F < (mm + 1) * b → m2 = mm ∨ m2 = mm + 1 → m2 / 2 ^ F = a / b.
Proof.
  intros Hb HF Ha Hmm Hm2. pose proof (Z.div_mod a b ltac:(lia)) as Hq.
  pose proof (Z.mod_pos_bound a b ltac:(lia)) as Hr. set (q := a / b) in *. set (r := a mod b) in *.
  symmetry. apply (Z.div_unique m2 (2 ^ F) q (m2 - 2 ^ F * q)); [| lia]. left.
  assert (q * 2 ^ F * b ≤ a * 2 ^ F) by nia.
  assert (a * 2 ^ F ≤ (q + 1) * 2 ^ F * b - 2 ^ F) by nia.
  assert (q * 2 ^ F < mm + 1) by (apply (Zmult_gt_0_lt_reg_r _ _ b); lia).
  assert (mm + 1 < (q + 1) * 2 ^ F) by (apply (Zmult_gt_0_lt_reg_r _ _ b); lia). lia.
Qed.
Lemma scaled_quotient q n m a b k l : 0 ≤ k → 0 ≤ l ≤ k + 53 → Z.pos m = a * 2 ^ k → Z.pos n = b * 2 ^ l →
  q * Z.pos n ≤ Z.pos m * 2 ^ 53 < (q + 1) * Z.pos n →
  q * b ≤ a * 2 ^ (k + 53 - l) < (q + 1) * b.
Proof.
  intros Hk Hl Hm Hn Hq. assert (0 < 2 ^ l) by lia.
  assert (2 ^ k * 2 ^ 53 = 2 ^ (k + 53 - l) * 2 ^ l) as E by (rewrite <- !Z.pow_add_r by lia; f_equal; lia).
  rewrite Hm, Hn, <- (Z.mul_assoc a), E in Hq. nia.
Qed.
Lemma halved_quotient q a b f s : 0 ≤ s ≤ f → q * b ≤ a * 2 ^ f < (q + 1) * b → 0 < b →
  q / 2 ^ s * b ≤ a * 2 ^ (f - s) < (q / 2 ^ s + 1) * b.
Proof.
  intros Hs Hq Hb. assert (0 < 2 ^ s) by lia.
  assert (2 ^ f = 2 ^ (f - s) * 2 ^ s) as E by (rewrite <- Z.pow_add_r by lia; f_equal; lia).
  pose proof (Z.div_mod q (2 ^ s) ltac:(lia)). pose proof (Z.mod_pos_bound q (2 ^ s) ltac:(lia)).
  rewrite E in Hq. split; nia.
Qed.
(** A division of integers, converted to an integer, is the integer division, when the
    divisor has no more bits than are left below the point. *)
Lemma stands_div x y a b p : stands x a → stands y b → 0 ≤ p ≤ 51 → a < 2 ^ p * b → b < 2 ^ (53 - p) →
  integral (f64_div x y) = Some (a / b).
Proof.
  intros Hx Hy Hp Hab Hb. pose proof (stands_range _ _ Hx). pose proof (stands_range _ _ Hy).
  apply stands_bound in Hx as (m & k & -> & Hk & Hm & Ha).
  apply stands_bound in Hy as (n & l & -> & Hl & Hn & Hbn).
  unfold f64_div, SFdiv, SFdiv_core_binary. cbn [Zdigits2 xorb].
  rewrite !stands_digits, fexp64 by done.
  replace (Z.min (Z.max (53 + - k - (53 + - l) - 53) (- 1074)) (- k - - l)) with (- (k + 53 - l)) by lia.
  replace (- k - - l - - (k + 53 - l)) with 53 by lia. cbn [Z.shiftl].
  change (Z.pos (Pos.iter xO m 53)) with (Z.shiftl (Z.pos m) 53). rewrite Z.shiftl_mul_pow2 by lia.
  pose proof (Z_div_mod (Z.pos m * 2 ^ 53) (Z.pos n) ltac:(lia)) as Hdm.
  destruct (Z.div_eucl (Z.pos m * 2 ^ 53) (Z.pos n)) as [q r]. destruct Hdm as [Hdm Hr].
  assert (2 ^ 52 ≤ q < 2 ^ 54) as Hq by nia.
  assert (q * b ≤ a * 2 ^ (k + 53 - l) < (q + 1) * b) as Hqb
    by (apply (scaled_quotient q n m); lia || done).
  destruct q as [| q | q]; [lia | | lia].
  assert (Z.pos (digits2_pos q) = 53 ∨ Z.pos (digits2_pos q) = 54) as Hd.
  { destruct (decide (Z.pos q < 2 ^ 53)); [left | right]; apply digits2_unique; lia. }
  destruct (round_positive q (- (k + 53 - l)) (new_location (Z.pos n) r))
    as (m2 & m3 & e & Hm2 & _ & -> & Hm3 & He); [lia.. |].
  set (s := Z.pos (digits2_pos q) - 53) in *. set (F := k + 53 - l - s).
  apply (halved_quotient _ _ _ _ s) in Hqb; [| lia..]. fold F in Hqb.
  assert (0 < 2 ^ s ≤ 2) by (destruct Hd as [Hd | Hd]; unfold s; rewrite Hd; cbn; lia).
  assert (2 ^ 52 ≤ Z.pos q / 2 ^ s) as Hmm.
  { apply Z.div_le_lower_bound; [lia |]. destruct Hd as [Hd | Hd]; unfold s in *; rewrite Hd in *; cbn in *; try lia.
    pose proof (digits2_bounds q) as Hqd. rewrite Hd in Hqd. lia. }
  assert (53 - p ≤ F) as HpF.
  { destruct (decide (53 - p ≤ F)); [done |]. exfalso.
    assert (2 ^ p * 2 ^ F ≤ 2 ^ 52) by (rewrite <- Z.pow_add_r by lia; apply Z.pow_le_mono_r; lia).
    assert (2 ^ 52 * b ≤ a * 2 ^ F) by nia.
    assert (a * 2 ^ F < 2 ^ p * b * 2 ^ F) by (apply Z.mul_lt_mono_pos_r; lia).
    replace (2 ^ p * b * 2 ^ F) with (2 ^ p * 2 ^ F * b) in * by lia.
    assert (2 ^ p * 2 ^ F * b ≤ 2 ^ 52 * b) by (apply Z.mul_le_mono_nonneg_r; lia). lia. }
  assert (2 ^ (53 - p) ≤ 2 ^ F) by (apply Z.pow_le_mono_r; lia).
  rewrite <- (rounded_quotient a b F (Z.pos q / 2 ^ s) m2) by (done || lia).
  unfold integral. cbn [cond_Zopp]. f_equal.
  destruct He as [[-> <-] | [-> <-]].
  - rewrite (proj2 (Z.leb_gt 0 _)) by lia. do 2 f_equal. lia.
  - rewrite (proj2 (Z.leb_gt 0 _)) by lia. assert (2 ^ F = 2 * 2 ^ (F - 1)) as ->.
    { rewrite <- (Z.pow_1_r 2) at 2. rewrite <- Z.pow_add_r by lia. f_equal. lia. }
    rewrite Z.div_mul_cancel_l by lia. do 2 f_equal. lia.
Qed.
