(* ===== verification/PllSpec.v ===== *)
(** * The synthesizer is tuned to the frequency asked for

    With the reference of the radio, [adf4351_pll_enable] chooses dividers that make the
    largest multiple of its step that does not exceed the frequency. *)

From Stdlib Require Import Floats.SpecFloat.
From S2P Require Import Prelude Kernel State Ioctl Ieee IeeeSpec Regs RegsSpec SynthSpec.
From S2P Require Import Adf4351.

(** ** The oscillator's range *)

Lemma raise_vco_spec n x t d y d' : stands x t → t < 2 ^ 40 → raise_vco n x d = Some (y, d') →
  ∃ k, 0 ≤ k ∧ d' = d * 2 ^ k ∧ stands y (t * 2 ^ k) ∧
    2200000000 ≤ t * 2 ^ k ∧ (k = 0 ∨ t * 2 ^ k < 4400000000).
Proof.
  revert x t d. induction n as [| n IH]; intros x t d Hx Ht; cbn [raise_vco].
  all: rewrite (stands_lt x _ t 2200000000) by (done || by apply stands_of_Z).
  all: pose proof (stands_range x t Hx); destruct (t <? 2200000000) eqn:E; intros Hr; [| injection Hr as <- <-].
  2, 4: exists 0; rewrite !Z.mul_1_r; split_and!; [lia | done | done | lia | by left].
  - done.
  - apply (IH _ (t * 2)) in Hr as (k & Hk & -> & Hs & Hlo & Hhi); [| | lia].
    2: { apply stands_mul; [done | by apply stands_of_Z | lia]. }
    exists (k + 1). rewrite Z.pow_add_r by lia. change (2 ^ 1) with 2.
    replace (t * (2 ^ k * 2)) with (t * 2 * 2 ^ k) by lia.
    replace (d * (2 ^ k * 2)) with (d * 2 * 2 ^ k) by lia.
    split_and!; [lia | done | done | lia | right].
    destruct Hhi as [-> | ?]; [| done]. change (2 ^ 0) with 1. lia.
Qed.
(** Enough doublings reach the range. *)
Lemma raise_vco_returns n x t d : stands x t → t < 2 ^ 40 → 2200000000 ≤ t * 2 ^ Z.of_nat n →
  is_Some (raise_vco n x d).
Proof.
  revert x t d. induction n as [| n IH]; intros x t d Hx Ht Hn; cbn [raise_vco].
  all: rewrite (stands_lt x _ t 2200000000) by (done || by apply stands_of_Z).
  all: pose proof (stands_range x t Hx); destruct (t <? 2200000000) eqn:E; [| by eexists].
  - change (2 ^ Z.of_nat 0) with 1 in Hn. lia.
  - rewrite Nat2Z.inj_succ, Z.pow_succ_r in Hn by lia. apply (IH _ (t * 2)); [| lia | lia].
    apply stands_mul; [done | by apply stands_of_Z | lia].
Qed.
Lemma divider_select_pow k : 0 ≤ k → get_divider_select (2 ^ k) = if k <=? 5 then Some k else None.
Proof.
  intros Hk. destruct (k <=? 5) eqn:E.
  - assert (k = 0 ∨ k = 1 ∨ k = 2 ∨ k = 3 ∨ k = 4 ∨ k = 5) as Hc by lia.
    by destruct Hc as [-> | [-> | [-> | [-> | [-> | ->]]]]].
  - assert (2 ^ 6 ≤ 2 ^ k) by (apply Z.pow_le_mono_r; lia).
    assert (2 ^ k = 2 * 2 ^ (k - 1)) as Hp.
    { rewrite <- (Z.pow_1_r 2) at 2. rewrite <- Z.pow_add_r by lia. f_equal. lia. }
    assert (2 ^ k ≠ 42). { replace k with (3 + (k - 3)) by lia. rewrite Z.pow_add_r by lia. lia. }
    unfold get_divider_select. by rewrite !(proj2 (Z.eqb_neq (2 ^ k) _)) by lia.
Qed.

(** ** The dividers *)

Definition step_hz : Z := 8000.
Definition whitebox_reference : f64 := f64_of_Z 26000000.
Lemma mod_of_reference : float_to_s32 (f64_div whitebox_reference (f64_of_Z step_hz)) = Some 3250.
Proof. vm_compute. reflexivity. Qed.
Lemma pfd_of_reference : stands (pfd_of whitebox_reference 1 0 0) 26000000.
Proof.
  assert (pfd_of whitebox_reference 1 0 0 = f64_of_Z 26000000) as -> by (vm_compute; reflexivity).
  by apply stands_of_Z.
Qed.
Lemma steps_of y v : stands y v → v < 8000000000 →
  float_to_s32 (f64_div (f64_mul (f64_of_Z 3250) y) (pfd_of whitebox_reference 1 0 0)) = Some (v / step_hz).
Proof.
  intros Hy Hv. pose proof (stands_range y v Hy). unfold float_to_s32, float_to_int.
  rewrite (stands_div _ _ (3250 * v) 26000000 21).
  - change 26000000 with (3250 * step_hz). rewrite Z.div_mul_cancel_l by (unfold step_hz; lia).
    assert (0 ≤ v / step_hz < 1000000)
      by (unfold step_hz; split; [apply Z.div_pos | apply Z.div_lt_upper_bound]; lia).
    by rewrite (proj2 (Z.leb_le _ _)), (proj2 (Z.leb_le _ _)) by lia.
  - apply stands_mul; [by apply stands_of_Z | done | lia].
  - apply pfd_of_reference.
  - lia.
  - change (2 ^ 21) with 2097152. lia.
  - done.
Qed.

(** The members after tuning: the oscillator at [v] hertz, divided by [2 ^ k]. *)
Definition tuned (k v : Z) (rf : adf4351_t) : adf4351_t :=
  set_outputs (set_dividers (Z.quot (v / step_hz) 3250) (Z.rem (v / step_hz) 3250) 3250 208
    (if 3600000000 <? v then 1 else 0) 0 0 1 k rf).

Abbreviation tune rf x := (adf4351_pll_enable rf whitebox_reference (f64_of_Z step_hz) x).
Lemma pll_enable_at x y d v rf : raise_vco 30 x 1 = Some (y, d) → stands y v → v < 8000000000 →
  snd <$> tune rf x = (λ k, tuned k v rf) <$> get_divider_select d.
Proof.
  intros Hx Hy Hv. unfold adf4351_pll_enable. rewrite Hx. cbn [mbind option_bind].
  change (adf4351_enum "REFERENCE_DOUBLER_DISABLED") with 0.
  change (adf4351_enum "REFERENCE_DIVIDE_BY_2_DISABLED") with 0.
  change (adf4351_enum "PRESCALER_8_9") with 1. change (adf4351_enum "PRESCALER_4_5") with 0.
  rewrite mod_of_reference. cbn [mbind option_bind].
  rewrite (stands_lt (f64_of_Z 45000000) _ 45000000 26000000)
    by (apply pfd_of_reference || by apply stands_of_Z).
  change (45000000 <? 26000000) with false. cbv iota.
  assert (float_to_s32 (f64_div (pfd_of whitebox_reference 1 0 0) (f64_of_Z 125000)) = Some 208) as ->
    by (vm_compute; reflexivity).
  cbn [mbind option_bind]. rewrite (steps_of y v) by done. cbn [mbind option_bind].
  change (3250 =? 0) with false. cbv iota.
  rewrite (stands_lt _ y 3600000000 v) by (done || by apply stands_of_Z).
  by destruct (get_divider_select d).
Qed.

Lemma set_outputs_ok rf : chip_ok adf4351_regs rf → chip_ok adf4351_regs (set_outputs rf).
Proof. intros Hok. members_kept Hok. Qed.
Lemma set_dividers_ok N F p k rf : 0 ≤ N < 400 → 0 ≤ F < 3250 → 0 ≤ p < 2 → 0 ≤ k ≤ 5 →
  chip_ok adf4351_regs rf → chip_ok adf4351_regs (set_dividers N F 3250 208 p 0 0 1 k rf).
Proof.
  intros HN HF Hp Hk Hok. unfold set_dividers. rewrite (u16_small N), (u16_small F) by lia.
  members_kept Hok.
Qed.
Lemma tuned_ok k v rf : 0 ≤ k ≤ 5 → 0 ≤ v < 8000000000 → chip_ok adf4351_regs rf →
  chip_ok adf4351_regs (tuned k v rf).
Proof.
  intros Hk Hv Hok.
  assert (0 ≤ v / step_hz < 1000000) as Hq
    by (unfold step_hz; split; [apply Z.div_pos | apply Z.div_lt_upper_bound]; lia).
  apply set_outputs_ok, set_dividers_ok; [.. | by case_match | done | done].
  - rewrite Z.quot_div_nonneg by lia. split; [apply Z.div_pos | apply Z.div_lt_upper_bound]; lia.
  - rewrite Z.rem_mod_nonneg by lia. apply Z.mod_pos_bound. lia.
Qed.

(** What the divider's member stands for. *)
Definition frequency_steps (rf : adf4351_t) : Z := int_16_bit rf * mod_12_bit rf + frac_12_bit rf.

Lemma get_divider_pow k v rf : 0 ≤ k ≤ 5 → get_divider (tuned k v rf) = Some (2 ^ k).
Proof.
  intros Hk. unfold get_divider. change (rf_divider_select (tuned k v rf)) with k.
  assert (k = 0 ∨ k = 1 ∨ k = 2 ∨ k = 3 ∨ k = 4 ∨ k = 5) as Hc by lia.
  by destruct Hc as [-> | [-> | [-> | [-> | [-> | ->]]]]].
Qed.
(** The steps of [v], split over the two members. *)
Lemma dividers_of v k rf : 2200000000 ≤ v ≤ 4400000000 →
  let rf' := tuned k v rf in
  frequency_steps rf' = v / step_hz ∧ 0 ≤ frac_12_bit rf' < 3250 ∧
  (if 3600000000 <? v then 75 else 23) ≤ int_16_bit rf' ≤ 65535.
Proof.
  intros Hv rf'.
  assert (275000 ≤ v / step_hz ≤ 550000) as Hq.
  { unfold step_hz. split; [apply Z.div_le_lower_bound | apply Z.div_le_upper_bound]; lia. }
  assert ((3600000000 <? v) = true → 450000 ≤ v / step_hz) as Hq'.
  { intros ?. unfold step_hz. apply Z.div_le_lower_bound; lia. }
  unfold frequency_steps.
  change (int_16_bit rf') with (u16 (Z.quot (v / step_hz) 3250)).
  change (frac_12_bit rf') with (u16 (Z.rem (v / step_hz) 3250)).
  change (mod_12_bit rf') with 3250.
  rewrite Z.quot_div_nonneg, Z.rem_mod_nonneg by lia. set (q := v / step_hz) in *.
  pose proof (Z.div_mod q 3250 ltac:(lia)). pose proof (Z.mod_pos_bound q 3250 ltac:(lia)).
  rewrite !u16_small by lia. split_and!; [lia | lia | lia | | lia]. case_match; lia.
Qed.
(** The least number of doublings. *)
Lemma raise_vco_least x t : stands x t → 0 < t → t ≤ 4400000000 →
  68750000 ≤ t → ∃ k y, 0 ≤ k ≤ 5 ∧ raise_vco 30 x 1 = Some (y, 2 ^ k) ∧ stands y (t * 2 ^ k) ∧
    2200000000 ≤ t * 2 ^ k ≤ 4400000000 ∧ (k = 0 ∨ t * 2 ^ (k - 1) < 2200000000).
Proof.
  intros Hx Hpos Ht Hlow.
  destruct (raise_vco_returns 30 x t 1 Hx) as [[y d] Hy]; [lia | lia |].
  destruct (raise_vco_spec 30 x t 1 y d Hx) as (k & Hk & -> & Hs & Hlo & Hhi); [lia | done |].
  exists k, y. rewrite Z.mul_1_l in Hy.
  assert (k = 0 ∨ 2 ^ k = 2 * 2 ^ (k - 1)) as Hkk.
  { destruct (decide (k = 0)); [by left | right]. rewrite <- (Z.pow_1_r 2) at 2.
    rewrite <- Z.pow_add_r by lia. f_equal. lia. }
  assert (k ≤ 5).
  { destruct (decide (k ≤ 5)); [done |]. assert (2 ^ 6 ≤ 2 ^ k) by (apply Z.pow_le_mono_r; lia). nia. }
  assert (t * 2 ^ k ≤ 4400000000) by (destruct Hhi as [-> | ?]; lia).
  split_and!; [lia | lia | done | done | done | done |].
  destruct Hkk as [-> | Hkk]; [by left | right]. destruct Hhi as [-> | ?]; [done | nia].
Qed.

(** In the range of the divider's selection tuning has a result. *)
Lemma tune_defined rf x t : stands x t → 68750000 ≤ t ≤ 4400000000 →
  ∃ k f, tune rf x = Some (f, tuned k (t * 2 ^ k) rf) ∧ 0 ≤ k ≤ 5 ∧
    2200000000 ≤ t * 2 ^ k ≤ 4400000000 ∧ (k = 0 ∨ t * 2 ^ (k - 1) < 2200000000).
Proof.
  intros Hx Ht.
  destruct (raise_vco_least x t Hx) as (k & y & Hk & Hy & Hs & Hv & Hleast); [lia.. |].
  pose proof (pll_enable_at x y _ _ rf Hy Hs ltac:(lia)) as Hp.
  rewrite divider_select_pow, (proj2 (Z.leb_le k 5)) in Hp by lia.
  destruct (tune rf x) as [[f rf'] |]; [| done]. injection Hp as ->. by exists k, f.
Qed.

(** C25: tuning is exact to the step.  For a frequency of [t] hertz between 68.75 MHz and
    4.4 GHz the oscillator is set to the largest multiple of 8 kHz that does not exceed
    [t * 2 ^ k], with the least [k] for which that is in the oscillator's range, and its
    output is divided by [2 ^ k], so the output is less than [8000 / 2 ^ k] hertz below
    [t]: the doubling, the floating-point quotient and its conversion lose nothing else.
    The divider is in the range of the chosen prescaler and its members hold it, the
    reference is neither doubled nor divided, both outputs are enabled, and members that
    hold values of their fields still do.  Below 68.75 MHz the divider has no selection,
    since the code tests for 42 where it means 64: the function has no defined result. *)
Theorem adf4351_tunes_to_step rf x t : stands x t → t ≤ 4400000000 →
  if 68750000 <=? t then
    ∃ k f rf', tune rf x = Some (f, rf') ∧
      0 ≤ k ≤ 5 ∧ 2200000000 ≤ t * 2 ^ k ≤ 4400000000 ∧ (k = 0 ∨ t * 2 ^ (k - 1) < 2200000000) ∧
      0 ≤ t * 2 ^ k - step_hz * frequency_steps rf' < step_hz ∧
      0 ≤ frac_12_bit rf' < mod_12_bit rf' ∧ mod_12_bit rf' = 3250 ∧
      prescaler rf' = (if 3600000000 <? t * 2 ^ k then 1 else 0) ∧
      (if prescaler rf' =? 0 then 23 else 75) ≤ int_16_bit rf' ≤ 65535 ∧
      get_divider rf' = Some (2 ^ k) ∧ r_counter_10_bit rf' = 1 ∧ reference_doubler rf' = 0 ∧
      reference_divide_by_2 rf' = 0 ∧ band_select_clock_div rf' = 208 ∧
      rf_output_enable rf' = 1 ∧ aux_output_enable rf' = 1 ∧
      (chip_ok adf4351_regs rf → chip_ok adf4351_regs rf')
  else tune rf x = None.
Proof.
  intros Hx Ht. pose proof (stands_range x t Hx) as Hpos.
  destruct (68750000 <=? t) eqn:E.
  - destruct (tune_defined rf x t Hx ltac:(lia)) as (k & f & Htune & Hk & Hv & Hleast).
    exists k, f, (tuned k (t * 2 ^ k) rf). split; [done |].
    pose proof (dividers_of (t * 2 ^ k) k rf ltac:(lia)) as Hd. cbv zeta in Hd.
    destruct Hd as (Hfs & Hfrac & Hint). set (v := t * 2 ^ k) in *.
    do 3 (split; [done |]). split.
    { rewrite Hfs. pose proof (Z.mod_pos_bound v step_hz ltac:(done)).
      pose proof (Z.div_mod v step_hz ltac:(done)). lia. }
    do 3 (split; [done |]). split.
    { change (prescaler (tuned k v rf)) with (if 3600000000 <? v then 1 else 0).
      by destruct (3600000000 <? v). }
    split; [by apply get_divider_pow |]. do 6 (split; [done |]). intros Hok. apply tuned_ok; lia || done.
  - destruct (raise_vco 30 x 1) as [[y d] |] eqn:Hr; [| by unfold adf4351_pll_enable; rewrite Hr].
    destruct (raise_vco_spec 30 x t 1 y d Hx) as (k & Hk & -> & Hs & Hlo & Hhi); [lia | done |].
    assert (k ≤ 5 → False) as Hk5.
    { intros Hle. assert (2 ^ k ≤ 2 ^ 5) by (apply Z.pow_le_mono_r; lia). nia. }
    assert (t * 2 ^ k < 8000000000) as Hv by (destruct Hhi as [-> | ?]; lia).
    pose proof (pll_enable_at x y _ _ rf Hr Hs Hv) as Hp. rewrite Z.mul_1_l, divider_select_pow in Hp by lia.
    rewrite (proj2 (Z.leb_gt k 5)) in Hp by lia. by destruct (tune rf x).
Qed.

Lemma adf4351_tunes_to_step_witness :
  let rf := adf4351_init (Adf4351 9 9 9 9 9 9 9 9 9 9 9 9 9 9 9 9 9 9 9 9 9 9 9 9 9 9 9 9 9 9 9 9 9 9 9 9 9) in
  (∃ k f rf', tune rf (f64_of_Z 579999999) = Some (f, rf') ∧
    0 ≤ 579999999 * 2 ^ k - step_hz * frequency_steps rf' < step_hz) ∧
  tune rf (f64_of_Z 60000000) = None ∧
  (frequency_steps ∘ snd) <$> tune rf (f64_of_Z 579999999) = Some 289999 ∧
  match tune rf (f64_of_Z 579999999) with
  | Some (f, rf') => integral f = Some 579998000 ∧ adf4351_actual_frequency rf' whitebox_reference = Some f
  | None => False
  end.
Proof.
  intros rf. split; [| split; [| vm_compute; auto]].
  - destruct (adf4351_tunes_to_step rf (f64_of_Z 579999999) 579999999) as (k & f & rf' & H1 & _ & _ & _ & H2 & _).
    + apply stands_of_Z. lia.
    + lia.
    + exists k, f, rf'. exact (conj H1 H2).
  - apply (adf4351_tunes_to_step rf (f64_of_Z 60000000) 60000000); [apply stands_of_Z |]; lia.
Defined.
