(* ===== verification/Library.v ===== *)
(** * The user library ([lib/whitebox.c], [lib/whitebox.h])

    The functions a program calls to tune the radio and to set its parameters.  They
    reach the device through [ioctl] on an open file, with an argument block on the
    stack: [Device] is that interface, and [LibraryDriver.v] makes the driver's model
    an instance of it.  The rest of the operating system ([Host]), the mathematical
    library ([Libm]) and the register packing of the two synthesizers ([Chips], which
    the build generates from templates) are interfaces too. *)

From Stdlib Require Import Floats.SpecFloat.
From S2P Require Import Prelude Kernel State Exciter Receiver Ioctl Ieee.

(** ** What the library calls *)

(** [ioctl] on an open file: its result, and the block as it leaves it; and what an
    uninitialised block on the stack happens to hold. *)
Class Device (D : Type) := {
  d_ioctl : Z → Z → whitebox_args_t → M D (Z * whitebox_args_t);
  d_stack : M D whitebox_args_t;
}.
#[global] Hint Mode Device ! : typeclass_instances.

(** Files, mappings and the environment.  Reading gives the count and the text. *)
Class Host (D : Type) := {
  h_open : string → Z → D → Z * D;
  h_close : Z → D → D;
  h_read : Z → nat → D → (Z * string) * D;
  h_write : Z → string → D → Z * D;
  h_mmap : Z → Z → D → Z * D;
  h_munmap : Z → Z → D → Z * D;
  h_getenv : string → D → option string;
  h_page_size : Z;
  h_stack_text : nat → D → string * D;
}.
#[global] Hint Mode Host ! : typeclass_instances.

Class Libm := {
  libm_pow : f64 → f64 → f64;
  libm_log2 : f64 → f64;
  libm_ceil : f64 → f64;
}.

(** The two synthesizers; enumerators are given by their names.  Enabling the loop of the
    ADF4351 has no defined result for some frequencies. *)
Class Chips := {
  cmx991_t : Type;
  adf4351_t : Type;
  cmx991_ioctl_get : whitebox_args_t → cmx991_t → cmx991_t;
  cmx991_ioctl_set : cmx991_t → whitebox_args_t → cmx991_t * whitebox_args_t;
  cmx991_resume : cmx991_t → cmx991_t;
  cmx991_suspend : cmx991_t → cmx991_t;
  cmx991_pll_enable_m_n : f64 → Z → Z → cmx991_t → Z * cmx991_t;
  cmx991_tx_tune : f32 → list string → cmx991_t → cmx991_t;
  cmx991_rx_tune : list string → cmx991_t → cmx991_t;
  cmx991_rx_calibrate_enable : cmx991_t → cmx991_t;
  cmx991_rx_calibrate_disable : cmx991_t → cmx991_t;
  adf4351_init : adf4351_t → adf4351_t;
  adf4351_ioctl_get : whitebox_args_t → adf4351_t → adf4351_t;
  adf4351_ioctl_set : adf4351_t → whitebox_args_t → adf4351_t * whitebox_args_t;
  adf4351_pll_enable : f64 → f64 → f64 → adf4351_t → option adf4351_t;
  adf4351_pll_disable : adf4351_t → adf4351_t;
}.

Definition EBADF : Z := 9.
Definition W_DAC_RATE_HZ : Z := 10000000.
Definition W_DDS_PA_BITWIDTH : Z := 25.
Definition W_DDS_PA_COUNT : Z := 1 <<< W_DDS_PA_BITWIDTH.
Definition WES_FILTEREN : Z := 1 <<< 9.
Definition WES_DDSEN : Z := 1 <<< 10.
Definition WET_AFVAL_MASK : Z := 0xffff0000.
Definition WET_AEVAL_MASK : Z := 0x0000ffff.
Definition WEG_COEFF : f32 := f32_of_Z (1 <<< 9).
Definition WA_CLOCK_RATE : f64 := f64_of_Z 26000000.
Definition O_RDONLY : Z := 0.
Definition O_WRONLY : Z := 1.
Definition MAP_FAILED : Z := 0xffffffff.

(** [struct whitebox]; the field [frequency] is never used. *)
Record whitebox_t `{!Chips} := {
  fd : Z;
  cmx991 : cmx991_t;
  adf4351 : adf4351_t;
  rate : Z;
  interp : Z;
  user_buffer : Z;
  user_buffer_size : Z;
}.
#[global] Instance eta_whitebox_t `{!Chips} : Eta whitebox_t := λ r, Build_whitebox_t _
  (fd r) (cmx991 r) (adf4351 r) (rate r) (interp r) (user_buffer r) (user_buffer_size r).

(** A program: its handle, and the world it runs in. *)
Record prog (D : Type) `{!Chips} := Prog { p_wb : whitebox_t; p_os : D }.
Arguments Prog {D _}.
Arguments p_wb {D _}.
Arguments p_os {D _}.
#[global] Instance eta_prog D `{!Chips} : Eta (prog D) := λ r, Prog (p_wb r) (p_os r).

(** ** Text *)

(** The decimal digits of a number that has at most [fuel] of them. *)
Fixpoint digits (fuel : nat) (n : Z) (acc : string) : string :=
  match fuel with
  | O => acc
  | S fuel' =>
      let acc := String (Ascii.ascii_of_nat (Z.to_nat (48 + n mod 10))) acc in
      if n / 10 =? 0 then acc else digits fuel' (n / 10) acc
  end.
Definition minus_sign : Ascii.ascii := Ascii.ascii_of_nat 45.
Definition plus_sign : Ascii.ascii := Ascii.ascii_of_nat 43.
(** [%d] of a 32-bit integer. *)
Definition decimal (v : Z) : string :=
  if v <? 0 then String minus_sign (digits 10 (- v) "") else digits 10 v "".

Definition digit_of (c : Ascii.ascii) : option Z :=
  let n := Z.of_nat (Ascii.nat_of_ascii c) in
  if (48 <=? n) && (n <=? 57) then Some (n - 48) else None.
Definition is_space (c : Ascii.ascii) : bool :=
  let n := Z.of_nat (Ascii.nat_of_ascii c) in (n =? 32) || ((9 <=? n) && (n <=? 13)).
Fixpoint read_digits (s : string) (acc : Z) : Z :=
  match s with
  | EmptyString => acc
  | String c s' => match digit_of c with Some d => read_digits s' (10 * acc + d) | None => acc end
  end.
Fixpoint skip_spaces (s : string) : string :=
  match s with
  | String c s' => if is_space c then skip_spaces s' else s
  | EmptyString => s
  end.
(** [atoi] and [atol], with [long] of 32 bits: out of range, the nearest bound. *)
Definition clamp (v : Z) : Z := Z.max (- 2 ^ 31) (Z.min v (2 ^ 31 - 1)).
Definition atoi (s : string) : Z :=
  clamp match skip_spaces s with
  | String c s' as s0 =>
      if Ascii.eqb c minus_sign then - read_digits s' 0
      else if Ascii.eqb c plus_sign then read_digits s' 0 else read_digits s0 0
  | EmptyString => 0
  end.

Section library.
Context `{!Chips} `{!Libm} `{!IoctlMacros} {D : Type} `{!Device D} `{!Host D}.
Abbreviation P := (M (prog D)).

(** ** Access *)

Definition get_handle {A} (f : whitebox_t → A) : P A := gets (λ s, f (p_wb s)).
Definition upd_handle (f : whitebox_t → whitebox_t) : P () := modify (λ s, s <| p_wb ::= f |>).
Definition host {A} (f : D → A * D) : P A :=
  λ s, Done (f (p_os s)).1 (s <| p_os := (f (p_os s)).2 |>).
Definition device {A} (m : M D A) : P A := λ s,
  match m (p_os s) with
  | Done a d => Done a (s <| p_os := d |>)
  | Crash c => Crash c
  | Spinning => Spinning
  end.

(** An uninitialised block; [ioctl] with a block, and without. *)
Definition local_block : P whitebox_args_t := device d_stack.
Definition ioctl_with (cmd : Z) (w : whitebox_args_t) : P (Z * whitebox_args_t) :=
  f ← get_handle fd; device (d_ioctl f cmd w).
Definition ioctl_only (cmd : Z) : P Z :=
  f ← get_handle fd; w ← local_block; r ← device (d_ioctl f cmd w); mret (fst r).

(** A conversion of a float that must be defined. *)
Definition converted (x : option Z) : P Z :=
  match x with Some z => mret z | None => fail_with BadConversion end.

(** The chips' registers in the handle, and their copy in a block. *)
Definition on_cmx991 (f : cmx991_t → cmx991_t) : P () := upd_handle (λ h, h <| cmx991 ::= f |>).
Definition on_adf4351 (f : adf4351_t → adf4351_t) : P () := upd_handle (λ h, h <| adf4351 ::= f |>).
Definition cmx991_to_block (w : whitebox_args_t) : P whitebox_args_t :=
  c ← get_handle cmx991;
  on_cmx991 (λ _, (cmx991_ioctl_set c w).1);;
  mret (cmx991_ioctl_set c w).2.
Definition adf4351_to_block (w : whitebox_args_t) : P whitebox_args_t :=
  c ← get_handle adf4351;
  on_adf4351 (λ _, (adf4351_ioctl_set c w).1);;
  mret (adf4351_ioctl_set c w).2.
Definition pll_enable_m_n (fref : f64) (m n : Z) : P Z :=
  c ← get_handle cmx991;
  on_cmx991 (λ _, (cmx991_pll_enable_m_n fref m n c).2);;
  mret (cmx991_pll_enable_m_n fref m n c).1.

(** ** The module's parameters *)

(** The descriptor is not closed after a successful read. *)
Definition whitebox_tx_bytes_total : P Z :=
  f ← host (h_open "/sys/kernel/debug/whitebox/tx_bytes" O_RDONLY);
  if f <? 0 then mret f
  else
    junk ← host (h_stack_text 512);
    r ← host (h_read f 511);
    if fst r <? 0 then host (λ d, ((), h_close f d));; mret (-1)
    else mret (atoi (snd r +:+ junk)).

Definition parameter_file (p : string) : string :=
  String.substring 0 511 ("/sys/module/whitebox/parameters/whitebox_" +:+ p).
Definition newline : string := String (Ascii.ascii_of_nat 10) "".
Definition nul : string := String (Ascii.ascii_of_nat 0) "".

(** The terminating zero is written too. *)
Definition whitebox_parameter_set (p : string) (value : Z) : P Z :=
  f ← host (h_open (parameter_file p) O_WRONLY);
  if f <? 0 then mret f
  else
    r ← host (h_write f (decimal value +:+ newline +:+ nul));
    host (λ d, ((), h_close f d));;
    mret (if r <? 0 then 1 else 0).

Definition whitebox_parameter_get (p : string) : P Z :=
  f ← host (h_open (parameter_file p) O_RDONLY);
  if f <? 0 then mret f
  else
    junk ← host (h_stack_text 128);
    r ← host (h_read f 127);
    host (λ d, ((), h_close f d));;
    mret (if fst r <? 0 then 1 else atoi (snd r +:+ junk)).

(** ** The transmitter's settings *)

Definition whitebox_reset : P Z :=
  f ← get_handle fd; if f <? 0 then mret (- EBADF) else ioctl_only W_RESET.

(** Any answer but 0 counts, an error too. *)
Fixpoint poll_locked (n : nat) : P Z :=
  match n with
  | O => mret 0
  | S n' => r ← ioctl_only W_LOCKED; if nz r then mret 1 else poll_locked n'
  end.
Definition whitebox_plls_locked : P Z := poll_locked 1000.

Definition whitebox_tx_clear : P Z :=
  f ← get_handle fd; if f <? 0 then mret (- EBADF) else ioctl_only WE_CLEAR.

(** The bits by which the filter grows its samples. *)
Definition whitebox_cic_shift (n : Z) : P Z :=
  let cic_order := f32_of_Z 4 in
  let cic_delay := f32_of_Z 1 in
  let in_len := f32_of_Z 9 in
  let out_len := f32_of_Z 10 in
  let stage := f32_mul (f32_of_Z 2) cic_order in
  let gain := f32_of_f64 (f64_div (f64_mul
    (libm_pow (f64_of_Z 2) (f64_of_f32 (SFsub 24 128 (f32_mul (f32_of_Z 2) cic_order) stage)))
    (libm_pow (f64_of_f32 (f32_mul (f32_of_Z n) cic_delay))
              (f64_of_f32 (SFsub 24 128 stage cic_order)))) (f64_of_Z n)) in
  let bit_width := f32_of_f64 (f64_add (f64_of_f32 in_len)
    (libm_ceil (libm_log2 (f64_of_f32 gain)))) in
  let shift := SFsub 24 128 bit_width out_len in
  if SFltb shift (f32_of_Z 0) then mret 0 else converted (float_to_u16 shift).

Definition whitebox_tx_set_interp (n : Z) : P () :=
  w ← local_block;
  r ← ioctl_with WE_GET w;
  shift ← whitebox_cic_shift (u16 n);
  _ ← ioctl_with WE_SET (set_word arg_interp
        ((u32 (shift <<< 16) &&& 0xffff0000) ||| (n &&& 0xffff)) (snd r));
  mret ().

Definition whitebox_tx_set_buffer_threshold (aeval afval : Z) : P () :=
  w ← local_block;
  r ← ioctl_with WE_GET w;
  _ ← ioctl_with WE_SET (set_word arg_threshold
        (aeval ||| u32 (afval <<< WET_AFVAL_OFFSET)) (snd r));
  mret ().

Definition whitebox_tx_get_buffer_threshold : P (Z * Z) :=
  w ← local_block;
  r ← ioctl_with WE_GET w;
  let threshold := word_of (snd r) arg_threshold in
  mret (u16 (threshold &&& WET_AEVAL_MASK),
        u16 ((threshold &&& WET_AFVAL_MASK) >>> WET_AFVAL_OFFSET)).

(** Gives [(overruns, underruns)]. *)
Definition whitebox_tx_get_buffer_runs : P (Z * Z) :=
  w ← local_block;
  r ← ioctl_with WE_GET w;
  let runs := word_of (snd r) arg_runs in
  mret (u16 ((runs &&& WER_OVERRUNS_MASK) >>> WER_OVERRUNS_OFFSET),
        u16 (runs &&& WER_UNDERRUNS_MASK)).

Definition milli : f64 := f64_const 1 3.
Definition latency_threshold (ms : Z) : P Z :=
  r ← get_handle rate;
  converted (float_to_s32 (f64_mul (f64_of_Z (s32 (4 * r)))
    (f64_mul (f64_of_f32 (f32_of_Z ms)) milli))).
Definition latency_of (threshold : Z) : P Z :=
  if threshold <=? 0 then mret threshold
  else
    r ← get_handle rate;
    converted (float_to_s32 (f64_div (f64_of_Z threshold)
      (f64_mul (f64_of_Z (s32 (r * 4))) milli))).

Definition whitebox_tx_set_latency (ms : Z) : P Z :=
  threshold ← latency_threshold ms;
  whitebox_parameter_set "user_source_buffer_threshold" threshold.
Definition whitebox_tx_get_latency : P Z :=
  threshold ← whitebox_parameter_get "user_source_buffer_threshold"; latency_of threshold.
Definition whitebox_rx_set_latency (ms : Z) : P Z :=
  threshold ← latency_threshold ms;
  whitebox_parameter_set "user_sink_buffer_threshold" threshold.
Definition whitebox_rx_get_latency : P Z :=
  threshold ← whitebox_parameter_get "user_sink_buffer_threshold"; latency_of threshold.

Definition whitebox_tx_set_dds_fcw (fcw : Z) : P () :=
  w ← local_block;
  r ← ioctl_with WE_GET w;
  _ ← ioctl_with WE_SET (set_word arg_fcw fcw (snd r));
  mret ().

Definition whitebox_tx_flags_enable (flags : Z) : P Z :=
  w ← local_block;
  r ← ioctl_with WE_GET w;
  if fst r <? 0 then mret (fst r)
  else
    let w := snd r in
    r ← ioctl_with WE_SET (set_word arg_state (word_of w arg_state ||| flags) w);
    mret (if fst r <? 0 then fst r else 0).

Definition whitebox_tx_flags_disable (flags : Z) : P () :=
  w ← local_block;
  _ ← ioctl_with WE_CLEAR_MASK (set_word arg_state flags w);
  mret ().

Definition whitebox_tx_dds_enable (fdes : f32) : P () :=
  fcw ← converted (float_to_u32 (f32_div fdes
    (f32_div (f32_of_Z W_DAC_RATE_HZ) (f32_of_Z W_DDS_PA_COUNT))));
  whitebox_tx_set_dds_fcw fcw;;
  _ ← whitebox_tx_flags_enable WES_DDSEN;
  mret ().

(** Two numbers of ten bits in a word, and back, with their signs. *)
Definition correction_of (i q : Z) : Z :=
  u32 ((s32 i &&& WEC_I_MASK) ||| (s32 (s32 q <<< WEC_Q_OFFSET) &&& WEC_Q_MASK)).
Definition corrected_i (correction : Z) : Z :=
  s16 (s16 (correction &&& WEC_I_MASK) <<< 6) >>> 6.
Definition corrected_q (correction : Z) : Z :=
  s16 (s16 ((correction &&& WEC_Q_MASK) >>> WEC_Q_OFFSET) <<< 6) >>> 6.

Definition whitebox_tx_set_correction (correct_i correct_q : Z) : P () :=
  w ← local_block;
  r ← ioctl_with WE_GET w;
  _ ← ioctl_with WE_SET (set_word arg_correction (correction_of correct_i correct_q) (snd r));
  mret ().
Definition whitebox_tx_get_correction : P (Z * Z) :=
  w ← local_block;
  r ← ioctl_with WE_GET w;
  let c := word_of (snd r) arg_correction in
  mret (corrected_i c, corrected_q c).

(** A gain in units of 1/512, and back. *)
Definition gain_bits (gain : f32) : option Z :=
  float_to_u32 (f64_add (f64_of_f32 (f32_mul gain WEG_COEFF)) (f64_const 5 1)).
Definition gain_of_bits (g : Z) : f32 := f32_div (f32_of_Z g) WEG_COEFF.

Definition whitebox_tx_set_gain (gain_i gain_q : f32) : P Z :=
  w ← local_block;
  gi ← converted (gain_bits gain_i);
  gq ← converted (gain_bits gain_q);
  let newg := (gi &&& WEG_I_MASK) ||| (u32 (gq <<< WEG_Q_OFFSET) &&& WEG_Q_MASK) in
  r ← ioctl_with WE_GET w;
  r ← ioctl_with WE_SET (set_word arg_gain newg (snd r));
  mret (fst r).
Definition whitebox_tx_get_gain : P (f32 * f32) :=
  w ← local_block;
  r ← ioctl_with WE_GET w;
  let g := word_of (snd r) arg_gain in
  mret (gain_of_bits (g &&& WEG_I_MASK), gain_of_bits ((g &&& WEC_Q_MASK) >>> WEC_Q_OFFSET)).

(** ** Tuning *)

Definition hertz (z : Z) : f64 := f64_of_Z z.
(** Four times the frequency raised by that of the intermediate stage. *)
Definition vco_of (frequency : f32) : f32 :=
  f32_of_f64 (f64_mul (f64_add (f64_of_f32 frequency) (hertz 45000000)) (f64_of_Z 4)).
Definition too_low (vco_frequency : f32) : bool :=
  f64_le (f64_of_f32 vco_frequency) (hertz 35000000).
Definition tune_adf4351 (vco_frequency : f32) : P () :=
  c ← get_handle adf4351;
  match adf4351_pll_enable WA_CLOCK_RATE (hertz 8000) (f64_of_f32 vco_frequency) c with
  | Some c' => on_adf4351 (λ _, c')
  | None => fail_with Uninitialised
  end.
Definition tune_cmx991_pll : P Z := pll_enable_m_n (hertz 19200000) 192 1800.

(** [if ((err = ioctl(...)) < 0) return err;] *)
Definition checked (r : Z * whitebox_args_t) (k : whitebox_args_t → P Z) : P Z :=
  if fst r <? 0 then mret (fst r) else k (snd r).

(** The steps once the synthesizer is programmed. *)
Definition tx_mixer (vco_frequency : f32) (w : whitebox_args_t) : P Z :=
  on_cmx991 (cmx991_ioctl_get w);;
  on_cmx991 cmx991_resume;;
  err ← tune_cmx991_pll;
  if err <? 0 then mret (-1)
  else
    on_cmx991 (cmx991_tx_tune vco_frequency ["IF_FILTER_BW_45MHZ"; "HI_LO_LOWER";
      "TX_RF_DIV_BY_4"; "TX_IF_DIV_BY_4"; "GAIN_P6DB"]);;
    w ← cmx991_to_block w;
    r ← ioctl_with WC_SET w;
    checked r (λ _,
      err ← ioctl_only WE_CLEAR;
      if err <? 0 then mret err
      else _ ← whitebox_tx_flags_enable WES_FILTEREN; mret 0).

Definition whitebox_tx (frequency : f32) : P Z :=
  w ← local_block;
  let vco_frequency := vco_of frequency in
  if too_low vco_frequency then mret (-1)
  else
    r ← ioctl_with WA_GET w;
    checked r (λ w,
      on_adf4351 (adf4351_ioctl_get w);;
      tune_adf4351 vco_frequency;;
      w ← adf4351_to_block w;
      r ← ioctl_with WA_SET w;
      checked r (λ w,
        r ← ioctl_with WC_GET w;
        checked r (tx_mixer vco_frequency))).

Definition whitebox_tx_standby : P Z :=
  w ← local_block;
  r ← ioctl_with WC_GET w;
  checked r (λ w,
    on_cmx991 (cmx991_ioctl_get w);;
    on_cmx991 cmx991_suspend;;
    w ← cmx991_to_block w;
    r ← ioctl_with WC_SET w;
    checked r (λ _,
      err ← ioctl_only WE_CLEAR;
      mret (if err <? 0 then err else 0))).

Definition whitebox_tx_fine_tune (frequency : f32) : P Z :=
  w ← local_block;
  r ← ioctl_with WC_GET w;
  checked r (λ w,
    on_cmx991 (cmx991_ioctl_get w);;
    on_cmx991 cmx991_resume;;
    w ← cmx991_to_block w;
    r ← ioctl_with WC_SET w;
    checked r (λ w,
      let vco_frequency := vco_of frequency in
      if too_low vco_frequency then mret 2
      else
        tune_adf4351 vco_frequency;;
        w ← adf4351_to_block w;
        r ← ioctl_with WA_SET w;
        mret (if fst r <? 0 then fst r else 0))).

(** ** The receiver: the answers of [ioctl] are not looked at *)

Definition whitebox_rx_clear : P Z :=
  f ← get_handle fd; if f <? 0 then mret (- EBADF) else ioctl_only WR_CLEAR.

Definition whitebox_rx (frequency : f32) : P Z :=
  w ← local_block;
  r ← ioctl_with WC_GET w;
  on_cmx991 (cmx991_ioctl_get (snd r));;
  on_cmx991 cmx991_resume;;
  err ← tune_cmx991_pll;
  if err <? 0 then mret (-1)
  else
    let vco_frequency := vco_of frequency in
    if too_low vco_frequency then mret (-1)
    else
      on_cmx991 (cmx991_rx_tune ["RX_RF_DIV_BY_4"; "MIX_OUT_MIXOUT1"; "IF_IN_IFIP1";
        "IQ_FILTER_BW_1MHZ"; "VGA_N0DB"]);;
      w ← cmx991_to_block (snd r);
      r ← ioctl_with WC_SET w;
      on_adf4351 adf4351_init;;
      tune_adf4351 vco_frequency;;
      w ← adf4351_to_block (snd r);
      _ ← ioctl_with WA_SET w;
      mret 0.

(** [None]: the function ends without an answer. *)
Definition whitebox_rx_fine_tune (frequency : f32) : P (option Z) :=
  w ← local_block;
  let vco_frequency := vco_of frequency in
  if too_low vco_frequency then mret (Some (-1))
  else
    tune_adf4351 vco_frequency;;
    w ← adf4351_to_block w;
    _ ← ioctl_with WA_SET w;
    mret None.

(** Reading the mixer's registers, changing them and writing them back. *)
Definition change_cmx991 (f : cmx991_t → cmx991_t) : P () :=
  w ← local_block;
  r ← ioctl_with WC_GET w;
  on_cmx991 (cmx991_ioctl_get (snd r));;
  on_cmx991 f;;
  w ← cmx991_to_block (snd r);
  _ ← ioctl_with WC_SET w;
  mret ().
Definition whitebox_rx_standby : P Z :=
  change_cmx991 cmx991_suspend;; _ ← ioctl_only WR_CLEAR; mret 0.
Definition whitebox_rx_cal_enable : P Z := change_cmx991 cmx991_rx_calibrate_enable;; mret 0.
Definition whitebox_rx_cal_disable : P Z := change_cmx991 cmx991_rx_calibrate_disable;; mret 0.

Definition whitebox_rx_set_decim (decim : Z) : P Z :=
  w ← local_block;
  r ← ioctl_with WR_GET w;
  if fst r <? 0 then mret (-1)
  else
    r ← ioctl_with WR_SET (set_word arg_interp decim (snd r));
    mret (if fst r <? 0 then -1 else 0).

Definition whitebox_rx_flags_enable (flags : Z) : P () :=
  w ← local_block;
  r ← ioctl_with WR_GET w;
  _ ← ioctl_with WR_SET (set_word arg_state (word_of (snd r) arg_state ||| flags) (snd r));
  mret ().
Definition whitebox_rx_flags_disable (flags : Z) : P () :=
  w ← local_block;
  _ ← ioctl_with WR_CLEAR_MASK (set_word arg_state flags w);
  mret ().

Definition whitebox_rx_set_correction (correct_i correct_q : Z) : P () :=
  w ← local_block;
  r ← ioctl_with WR_GET w;
  _ ← ioctl_with WR_SET (set_word arg_correction (correction_of correct_i correct_q) (snd r));
  mret ().
Definition whitebox_rx_get_correction : P (Z * Z) :=
  w ← local_block;
  r ← ioctl_with WR_GET w;
  let c := word_of (snd r) arg_correction in
  mret (corrected_i c, corrected_q c).

(** ** The filter *)

Fixpoint coeffs_to_block (n : nat) (i : Z) (coeffs : list Z) (w : whitebox_args_t)
    : P whitebox_args_t :=
  match n with
  | O => mret w
  | S n' =>
      c ← get_index coeffs i;
      _ ← get_index (fir_coeffs w) i;
      coeffs_to_block n' (i + 1) coeffs (set_word (1 + i) (u32 c) w)
  end.
(** [bank] and [n] are bytes with a sign. *)
Definition whitebox_fir_load_coeffs (bank n : Z) (coeffs : list Z) : P Z :=
  w ← local_block;
  w ← coeffs_to_block (Z.to_nat n) 0 coeffs (set_byte 1 (u8 n) (set_byte 0 (u8 bank) w));
  _ ← ioctl_with WF_SET w;
  mret 0.

Fixpoint coeffs_of_block (n : nat) (i : Z) (w : whitebox_args_t) (coeffs : list Z) : P (list Z) :=
  match n with
  | O => mret coeffs
  | S n' =>
      c ← get_index (fir_coeffs w) i;
      _ ← get_index coeffs i;
      coeffs_of_block n' (i + 1) w (<[Z.to_nat i := s32 c]> coeffs)
  end.
(** Gives the number of coefficients in use and the caller's array. *)
Definition whitebox_fir_get_coeffs (bank n : Z) (coeffs : list Z) : P (Z * list Z) :=
  w ← local_block;
  r ← ioctl_with WF_GET w;
  let w := snd r in
  coeffs ← coeffs_of_block (Z.to_nat (Z.min (fir_n w) n)) 0 w coeffs;
  mret (fir_n w, coeffs).

(** ** Opening and closing *)

Definition whitebox_init : P () :=
  upd_handle (λ h, h <| fd := - EINVAL |>);; on_adf4351 adf4351_init.

Definition device_file (filn env : option string) : string :=
  match filn, env with
  | Some f, _ => f
  | None, Some f => f
  | None, None => "/dev/whitebox"
  end.

(** Once the file is open it stays open, whatever the answer. *)
Definition open_at_rate (r : Z) : P Z :=
  if negb (W_DAC_RATE_HZ mod r =? 0) then mret (-1)
  else
    upd_handle (λ h, h <| rate := r |> <| interp := W_DAC_RATE_HZ / r |>);;
    _ ← whitebox_reset;
    n ← get_handle interp;
    whitebox_tx_set_interp (u32 n);;
    _ ← whitebox_rx_set_decim (u32 n);
    get_handle fd.
Definition whitebox_open (filn : option string) (flags r : Z) : P Z :=
  f ← get_handle fd;
  if 0 <=? f then mret (- EBUSY)
  else if r <=? 0 then mret (- EINVAL)
  else
    env ← gets (λ s, h_getenv "WHITEBOXDEV" (p_os s));
    f ← host (h_open (device_file filn env) flags);
    upd_handle (λ h, h <| fd := f |>);;
    if f <? 0 then mret (-1) else open_at_rate r.

Definition whitebox_mmap : P Z :=
  order ← whitebox_parameter_get "user_order";
  upd_handle (λ h, h <| user_buffer_size := u32 (h_page_size (D := D) <<< order) |>);;
  size ← get_handle user_buffer_size;
  f ← get_handle fd;
  a ← host (h_mmap size f);
  upd_handle (λ h, h <| user_buffer := a |>);;
  mret (if (a =? MAP_FAILED) || (a =? 0) then -1 else 0).
Definition whitebox_munmap : P Z :=
  a ← get_handle user_buffer;
  size ← get_handle user_buffer_size;
  host (h_munmap a size).
Definition whitebox_fd : P Z := get_handle fd.

(** The mixer's registers are taken from the uninitialised block. *)
Definition whitebox_close : P Z :=
  f ← get_handle fd;
  if f <? 0 then mret (- EBADF)
  else
    w ← local_block;
    on_cmx991 (cmx991_ioctl_get w);;
    on_cmx991 cmx991_suspend;;
    w ← cmx991_to_block w;
    r ← ioctl_with WC_SET w;
    on_adf4351 adf4351_pll_disable;;
    w ← adf4351_to_block (snd r);
    _ ← ioctl_with WA_SET w;
    host (λ d, ((), h_close f d));;
    upd_handle (λ h, h <| fd := - EINVAL |>);;
    mret 0.
End library.
