(* ===== verification/LibrarySpec.v ===== *)
(** * What is set is what is read back

    What the library asks of the device, as two contracts: the exciter's settings and
    the filter's coefficients are kept.  Against them, each pair of functions of the
    library that sets and gets a parameter is a round trip that changes nothing else. *)

From Stdlib Require Import Floats.SpecFloat.
From S2P Require Import Prelude Kernel State Sim Exciter Receiver Ioctl Block Ieee Library.

(** ** The contracts *)

(** The exciter's settings, but for the state word. *)
Record exciter_settings := Settings {
  xs_interp : Z;
  xs_fcw : Z;
  xs_threshold : Z;
  xs_correction : Z;
  xs_gain : Z;
}.
#[global] Instance eta_exciter_settings : Eta exciter_settings :=
  λ r, Settings (xs_interp r) (xs_fcw r) (xs_threshold r) (xs_correction r) (xs_gain r).
Definition block_settings (w : whitebox_args_t) : exciter_settings :=
  Settings (word_of w arg_interp) (word_of w arg_fcw) (word_of w arg_threshold)
    (word_of w arg_correction) (word_of w arg_gain).

Definition blank (w : whitebox_args_t) : Prop := length w = args_words.

(** [ready]: the device answers. *)
Class ExciterContract {D} `{!Device D} `{!IoctlMacros} (ready : D → Prop)
    (settings : D → exciter_settings) : Prop := {
  we_stack σ : total (λ d, ready d ∧ settings d = σ) d_stack
    (λ w d, (ready d ∧ settings d = σ) ∧ blank w);
  we_get f w σ : blank w →
    total (λ d, ready d ∧ settings d = σ) (d_ioctl f WE_GET w)
      (λ r d, (ready d ∧ settings d = σ) ∧ fst r = 0 ∧ blank (snd r) ∧ block_settings (snd r) = σ);
  we_set f w σ : blank w →
    total (λ d, ready d ∧ settings d = σ) (d_ioctl f WE_SET w)
      (λ r d, (ready d ∧ settings d = block_settings w) ∧ fst r = 0);
}.

(** The filter: its bank, the number of coefficients in use, and all 128 of them. *)
Record filter_state := Filter { fs_bank : Z; fs_n : Z; fs_coeffs : list Z }.
Definition load_filter (w : whitebox_args_t) (c : filter_state) : filter_state :=
  Filter (fir_bank w &&& 0x3) (fir_n w)
    (overwrite 0 (s32 <$> take (Z.to_nat (fir_n w)) (fir_coeffs w)) (fs_coeffs c)).

Class FilterContract {D} `{!Device D} `{!IoctlMacros} (ready : D → Prop)
    (filter : D → filter_state) : Prop := {
  wf_stack c : total (λ d, ready d ∧ filter d = c) d_stack
    (λ w d, (ready d ∧ filter d = c) ∧ blank w);
  wf_get f w c : blank w →
    total (λ d, ready d ∧ filter d = c) (d_ioctl f WF_GET w)
      (λ r d, (ready d ∧ filter d = c) ∧ blank (snd r) ∧ fir_n (snd r) = fs_n c ∧
        take (Z.to_nat (fs_n c)) (fir_coeffs (snd r)) = u32 <$> take (Z.to_nat (fs_n c)) (fs_coeffs c));
  wf_set f w c : blank w → fir_n w < 128 →
    total (λ d, ready d ∧ filter d = c) (d_ioctl f WF_SET w)
      (λ r d, ready d ∧ filter d = load_filter w c);
}.

(** ** Numbers in a word *)

(** A number read as ten bits with a sign. *)
Definition sext10 (x : Z) : Z := (x + 512) mod 1024 - 512.
Lemma sext10_id x : - 512 ≤ x < 512 → sext10 x = x.
Proof. intros. unfold sext10. rewrite Z.mod_small; lia. Qed.

Lemma ten_bits a : 0 ≤ a < 1024 → s16 (s16 a <<< 6) >>> 6 = sext10 a.
Proof.
  intros Ha. apply Z.eqb_eq. revert a Ha.
  apply (below_forall 1024 (λ a, s16 (s16 a <<< 6) >>> 6 =? sext10 a)). vm_compute. reflexivity.
Qed.
Lemma s32_mask x m : 0 ≤ m < 2 ^ 32 → s32 x &&& m = x &&& m.
Proof.
  intros Hm. rewrite <- (land_mod_mask (s32 x) m 32), <- (land_mod_mask x m 32) by (done || lia).
  f_equal. unfold s32. rewrite Zminus_mod_idemp_l. f_equal. lia.
Qed.

Lemma packed_correction i q : correction_of i q = i mod 1024 + (q mod 1024) * 2 ^ 16.
Proof.
  pose proof (Z.mod_pos_bound i 1024 ltac:(lia)). pose proof (Z.mod_pos_bound q 1024 ltac:(lia)).
  unfold correction_of, WEC_I_MASK, WEC_Q_MASK, WEC_Q_OFFSET. rewrite !s32_mask by lia.
  change 0x3ff0000 with (1023 <<< 16). rewrite <- Z.shiftl_land, s32_mask by lia.
  change 1023 with (2 ^ 10 - 1). rewrite !land_ones_low by lia. change (2 ^ 10) with 1024.
  rewrite lor_shifted by lia. apply u32_small. lia.
Qed.
Lemma sext10_mod x : sext10 (x mod 1024) = sext10 x.
Proof. unfold sext10. by rewrite Z.add_mod_idemp_l. Qed.
Lemma corrected_of i q :
  corrected_i (correction_of i q) = sext10 i ∧ corrected_q (correction_of i q) = sext10 q.
Proof.
  pose proof (Z.mod_pos_bound i 1024 ltac:(lia)). pose proof (Z.mod_pos_bound q 1024 ltac:(lia)).
  rewrite packed_correction. unfold corrected_i, corrected_q, WEC_I_MASK, WEC_Q_MASK, WEC_Q_OFFSET.
  rewrite Z.shiftr_land, high_field by lia. change (0x3ff0000 >>> 16) with (2 ^ 10 - 1).
  change 0x3ff with (2 ^ 10 - 1). rewrite !land_ones_low by lia. change (2 ^ 10) with 1024.
  rewrite Z.add_mod, (Z.mul_mod _ (2 ^ 16)), Z.mul_0_r, Z.add_0_r, !Z.mod_mod by lia.
  rewrite !ten_bits, !sext10_mod by lia. done.
Qed.

(** Every gain that is a whole number of steps is kept by its bits. *)
Lemma gain_bits_of g : 0 ≤ g < 1024 → gain_bits (gain_of_bits g) = Some g.
Proof.
  intros Hg.
  assert (match gain_bits (gain_of_bits g) with Some x => x =? g | None => false end = true) as H.
  { revert g Hg. apply (below_forall 1024
      (λ g, match gain_bits (gain_of_bits g) with Some x => x =? g | None => false end)).
    vm_compute. reflexivity. }
  destruct (gain_bits _) as [x |]; [| done]. apply Z.eqb_eq in H. by subst.
Qed.

(** ** A program over a device *)

Section program.
Context `{!Chips} {D : Type} `{!Device D}.
Implicit Types (h : whitebox_t).

(** The handle is [h], and the device satisfies [Q]. *)
Definition holds h (Q : D → Prop) (s : prog D) : Prop := p_wb s = h ∧ Q (p_os s).

Lemma total_device {A} h (P : D → Prop) (m : M D A) (Q : A → D → Prop) :
  total P m Q → total (holds h P) (device m) (λ a, holds h (Q a)).
Proof.
  intros Hm [wb d] [Hh Hd]. specialize (Hm d Hd). unfold device. cbn in *. by destruct (m d).
Qed.
Lemma total_ioctl_with {A} h (P : D → Prop) cmd w (Q : Z * whitebox_args_t → D → Prop)
    (k : Z * whitebox_args_t → M (prog D) A) R :
  (∀ f, total P (d_ioctl f cmd w) Q) →
  (∀ r, total (holds h (Q r)) (k r) R) → total (holds h P) (r ← ioctl_with cmd w; k r) R.
Proof.
  intros Hm Hk. eapply total_bind; [| exact Hk]. intros s Hs.
  by apply (total_device h P (d_ioctl (fd (p_wb s)) cmd w) Q (Hm _)).
Qed.
Lemma holds_pure {A} h (P : D → Prop) (C : Prop) (m : M (prog D) A) R :
  (C → total (holds h P) m R) → total (holds h (λ d, P d ∧ C)) m R.
Proof. intros Hm s (Hh & HP & HC). by apply Hm. Qed.
Lemma total_holds {A} h (P : D → Prop) (m : M (prog D) A) R (s : prog D) :
  total (holds h P) m R → holds h P s → post_total R (m s).
Proof. intros Hm. apply Hm. Qed.
End program.

(** ** The exciter's settings *)

Section settings.
Context `{!Chips} `{!Libm} `{!IoctlMacros} {D : Type} `{!Device D}.
Context (ready : D → Prop) (settings : D → exciter_settings) `{!ExciterContract ready settings}.
Implicit Types (h : whitebox_t) (σ : exciter_settings).

Definition set_to σ (d : D) : Prop := ready d ∧ settings d = σ.

Lemma total_stack {A} h σ (k : whitebox_args_t → M (prog D) A) R :
  (∀ w, blank w → total (holds h (set_to σ)) (k w) R) →
  total (holds h (set_to σ)) (w ← local_block; k w) R.
Proof.
  intros Hk. eapply total_bind; [apply total_device, (we_stack σ) |].
  intros w. by apply holds_pure, Hk.
Qed.
Lemma total_we_get {A} h σ w (k : Z * whitebox_args_t → M (prog D) A) R :
  blank w →
  (∀ r, blank (snd r) → fst r = 0 → block_settings (snd r) = σ → total (holds h (set_to σ)) (k r) R) →
  total (holds h (set_to σ)) (r ← ioctl_with WE_GET w; k r) R.
Proof.
  intros Hw Hk. eapply total_ioctl_with; [intros f; by apply (we_get f w σ) |].
  intros r. apply holds_pure. intros (? & ? & ?). by apply Hk.
Qed.
Lemma total_we_set {A} h σ w (k : Z * whitebox_args_t → M (prog D) A) R :
  blank w →
  (∀ r, fst r = 0 → total (holds h (set_to (block_settings w))) (k r) R) →
  total (holds h (set_to σ)) (r ← ioctl_with WE_SET w; k r) R.
Proof.
  intros Hw Hk. eapply total_ioctl_with; [intros f; by apply (we_set f w σ) |].
  intros r. by apply holds_pure, Hk.
Qed.

(** A function that changes one word of the block, and one that reads a word. *)
Definition changes σ' (h : whitebox_t) (m : M (prog D) ()) σ : Prop :=
  total (holds h (set_to σ)) m (λ _, holds h (set_to σ')).
Lemma total_change h σ i v (f : exciter_settings → exciter_settings) :
  0 ≤ i < 131 →
  (∀ w, blank w → block_settings (set_word i v w) = f (block_settings w)) →
  changes (f σ) h (w ← local_block; r ← ioctl_with WE_GET w;
    _ ← ioctl_with WE_SET (set_word i v (snd r)); mret ()) σ.
Proof.
  intros Hi Hf. apply total_stack. intros w Hw. apply total_we_get; [done |].
  intros r Hr _ <-. apply total_we_set; [by unfold blank; rewrite set_word_length |].
  intros _ _. apply total_ret. intros s Hs. by rewrite <- Hf.
Qed.
Lemma total_read {A} h σ (g : whitebox_args_t → A) (f : exciter_settings → A) :
  (∀ w, g w = f (block_settings w)) →
  total (holds h (set_to σ)) (w ← local_block; r ← ioctl_with WE_GET w; mret (g (snd r)))
    (λ a s, holds h (set_to σ) s ∧ a = f σ).
Proof.
  intros Hf. apply total_stack. intros w Hw. apply total_we_get; [done |].
  intros r Hr _ <-. apply total_ret. intros s Hs. by rewrite Hf.
Qed.

Ltac settings_tac :=
  intros w Hw; unfold block_settings, upd; cbn; unfold arg_interp, arg_fcw, arg_threshold,
    arg_correction, arg_gain in *; rewrite !word_of_set_word by (done || lia); reflexivity.

Lemma set_correction_changes h σ i q :
  changes (σ <| xs_correction := correction_of i q |>) h (whitebox_tx_set_correction i q) σ.
Proof. apply (total_change h σ arg_correction _ (upd (f := xs_correction) _)); [done | settings_tac]. Qed.
Lemma set_threshold_changes h σ ae af :
  changes (σ <| xs_threshold := ae ||| u32 (af <<< WET_AFVAL_OFFSET) |>) h
    (whitebox_tx_set_buffer_threshold ae af) σ.
Proof. apply (total_change h σ arg_threshold _ (upd (f := xs_threshold) _)); [done | settings_tac]. Qed.
Lemma set_fcw_changes h σ fcw :
  changes (σ <| xs_fcw := fcw |>) h (whitebox_tx_set_dds_fcw fcw) σ.
Proof. apply (total_change h σ arg_fcw _ (upd (f := xs_fcw) _)); [done | settings_tac]. Qed.

Definition packed_gain (gi gq : Z) : Z :=
  (gi &&& WEG_I_MASK) ||| (u32 (gq <<< WEG_Q_OFFSET) &&& WEG_Q_MASK).
Lemma set_gain_changes h σ gi gq :
  0 ≤ gi < 1024 → 0 ≤ gq < 1024 →
  total (holds h (set_to σ)) (whitebox_tx_set_gain (gain_of_bits gi) (gain_of_bits gq))
    (λ r s, holds h (set_to (σ <| xs_gain := packed_gain gi gq |>)) s ∧ r = 0).
Proof.
  intros Hi Hq. apply total_stack. intros w Hw. rewrite !gain_bits_of by done.
  eapply total_bind; [apply (total_ret _ _ (λ x s, holds h (set_to σ) s ∧ x = gi)); by intros |].
  intros x. intros s [Hs ->]. revert s Hs.
  eapply total_bind; [apply (total_ret _ _ (λ x s, holds h (set_to σ) s ∧ x = gq)); by intros |].
  intros x. intros s [Hs ->]. revert s Hs.
  apply total_we_get; [done |]. intros r Hr _ <-.
  apply total_we_set; [by unfold blank; rewrite set_word_length |].
  intros r' ->. apply total_ret. intros s Hs. split; [| done]. revert s Hs.
  fold (packed_gain gi gq). intros s Hs.
  assert (block_settings (set_word arg_gain (packed_gain gi gq) (snd r)) =
    (block_settings (snd r)) <| xs_gain := packed_gain gi gq |>) as <-; [| done].
  clear w Hw Hs. revert Hr. generalize (snd r). settings_tac.
Qed.

Lemma get_correction_reads h σ i q :
  xs_correction σ = correction_of i q →
  total (holds h (set_to σ)) whitebox_tx_get_correction
    (λ r s, holds h (set_to σ) s ∧ r = (sext10 i, sext10 q)).
Proof.
  intros Hc. destruct (corrected_of i q) as [<- <-]. rewrite <- Hc.
  by apply (total_read h σ (λ w, let c := word_of w arg_correction in (corrected_i c, corrected_q c))
    (λ σ, (corrected_i (xs_correction σ), corrected_q (xs_correction σ)))).
Qed.
Definition threshold_parts (t : Z) : Z * Z :=
  (u16 (t &&& WET_AEVAL_MASK), u16 ((t &&& WET_AFVAL_MASK) >>> WET_AFVAL_OFFSET)).
Lemma threshold_parts_of ae af :
  0 ≤ ae < 2 ^ 16 → 0 ≤ af < 2 ^ 16 →
  threshold_parts (ae ||| u32 (af <<< WET_AFVAL_OFFSET)) = (ae, af).
Proof.
  intros Ha Hf. unfold threshold_parts, WET_AEVAL_MASK, WET_AFVAL_MASK, WET_AFVAL_OFFSET.
  rewrite u32_small by (rewrite Z.shiftl_mul_pow2 by lia; lia).
  rewrite lor_shifted by lia. rewrite Z.shiftr_land, high_field by lia.
  change (0xffff0000 >>> 16) with (2 ^ 16 - 1). change 0xffff with (2 ^ 16 - 1).
  rewrite low_field by lia. rewrite land_ones_low by lia.
  f_equal; [by apply u16_small | rewrite Z.mod_small by lia; by apply u16_small].
Qed.
Lemma get_threshold_reads h σ :
  total (holds h (set_to σ)) whitebox_tx_get_buffer_threshold
    (λ r s, holds h (set_to σ) s ∧ r = threshold_parts (xs_threshold σ)).
Proof. by apply (total_read h σ (λ w, threshold_parts (word_of w arg_threshold))
    (λ σ, threshold_parts (xs_threshold σ))). Qed.
Definition gain_parts (g : Z) : f32 * f32 :=
  (gain_of_bits (g &&& WEG_I_MASK), gain_of_bits ((g &&& WEC_Q_MASK) >>> WEC_Q_OFFSET)).
Lemma packed_gain_sum gi gq :
  0 ≤ gi < 1024 → 0 ≤ gq < 1024 → packed_gain gi gq = gi + gq * 2 ^ 16.
Proof.
  intros Hi Hq. unfold packed_gain, WEG_I_MASK, WEG_Q_MASK, WEG_Q_OFFSET.
  rewrite u32_small by (rewrite Z.shiftl_mul_pow2 by lia; lia).
  change 0x3ff0000 with ((2 ^ 10 - 1) <<< 16). rewrite <- Z.shiftl_land. change 0x3ff with (2 ^ 10 - 1).
  rewrite !land_ones_low, !Z.mod_small by lia. apply lor_shifted; lia.
Qed.
Lemma gain_parts_of gi gq :
  0 ≤ gi < 1024 → 0 ≤ gq < 1024 →
  gain_parts (packed_gain gi gq) = (gain_of_bits gi, gain_of_bits gq).
Proof.
  intros Hi Hq. rewrite packed_gain_sum by done. unfold gain_parts, WEG_I_MASK, WEC_Q_MASK, WEC_Q_OFFSET.
  rewrite Z.shiftr_land, high_field by lia. change (0x3ff0000 >>> 16) with (2 ^ 10 - 1).
  change 0x3ff with (2 ^ 10 - 1). rewrite !land_ones_low by lia. f_equal; f_equal.
  - change (2 ^ 16) with (2 ^ 6 * 2 ^ 10). rewrite Z.mul_assoc, Z_mod_plus_full. by apply Z.mod_small.
  - by apply Z.mod_small.
Qed.
Lemma get_gain_reads h σ :
  total (holds h (set_to σ)) whitebox_tx_get_gain
    (λ r s, holds h (set_to σ) s ∧ r = gain_parts (xs_gain σ)).
Proof. by apply (total_read h σ (λ w, gain_parts (word_of w arg_gain)) (λ σ, gain_parts (xs_gain σ))). Qed.

(** Setting, then getting. *)
Lemma total_then {A B} h σ σ' (m : M (prog D) A) (g : M (prog D) B) (C : B → Prop) :
  total (holds h (set_to σ)) m (λ _, holds h (set_to σ')) →
  total (holds h (set_to σ')) g (λ r s, holds h (set_to σ') s ∧ C r) →
  total (holds h (set_to σ)) (_ ← m; g) (λ r s, holds h (set_to σ') s ∧ C r).
Proof. intros Hm Hg. eapply total_bind; [exact Hm | by intros ?]. Qed.

(** C20: what the library sets is what it reads back, and nothing else changes.  Over any
    device that keeps the exciter's settings: a correction of two numbers of ten bits
    with their signs (of other numbers, the ten low bits come back), two thresholds of
    16 bits, and gains in whole steps of 1/512 below 2, exactly, through the arithmetic
    of [float] and [double].  Each pair returns, leaves the handle as it was and leaves
    the other settings alone. *)
Theorem settings_round_trip h σ (s : prog D) :
  holds h (set_to σ) s →
  (∀ i q, post_total (λ r s',
      holds h (set_to (σ <| xs_correction := correction_of i q |>)) s' ∧ r = (sext10 i, sext10 q) ∧
      (- 512 ≤ i < 512 → - 512 ≤ q < 512 → r = (i, q)))
    ((_ ← whitebox_tx_set_correction i q; whitebox_tx_get_correction) s)) ∧
  (∀ ae af, 0 ≤ ae < 2 ^ 16 → 0 ≤ af < 2 ^ 16 → post_total (λ r s',
      holds h (set_to (σ <| xs_threshold := ae ||| u32 (af <<< WET_AFVAL_OFFSET) |>)) s' ∧ r = (ae, af))
    ((_ ← whitebox_tx_set_buffer_threshold ae af; whitebox_tx_get_buffer_threshold) s)) ∧
  (∀ gi gq, 0 ≤ gi < 1024 → 0 ≤ gq < 1024 → post_total (λ r s',
      holds h (set_to (σ <| xs_gain := packed_gain gi gq |>)) s' ∧
      r = (gain_of_bits gi, gain_of_bits gq))
    ((_ ← whitebox_tx_set_gain (gain_of_bits gi) (gain_of_bits gq); whitebox_tx_get_gain) s)) ∧
  (∀ fcw, post_total (λ _, holds h (set_to (σ <| xs_fcw := fcw |>))) (whitebox_tx_set_dds_fcw fcw s)).
Proof.
  intros Hs. split; [| split; [| split]].
  - intros i q. eapply (total_holds h); [| exact Hs].
    eapply total_then with (C := λ r, r = (sext10 i, sext10 q) ∧ (_ → _ → r = (i, q)));
      [apply set_correction_changes |].
    eapply total_conseq; [apply (get_correction_reads h (σ <| xs_correction := correction_of i q |>) i q); reflexivity | done |]. intros r s' [? ->].
    split; [done |]. split; [done |]. intros. by rewrite !sext10_id.
  - intros ae af Ha Hf. eapply (total_holds h); [| exact Hs].
    eapply total_then with (C := λ r, r = (ae, af)); [apply set_threshold_changes |].
    eapply total_conseq; [apply get_threshold_reads | done |]. intros r s' [? ->].
    split; [done |]. by apply threshold_parts_of.
  - intros gi gq Hi Hq. eapply (total_holds h); [| exact Hs].
    eapply total_then with (C := λ r, r = (gain_of_bits gi, gain_of_bits gq)).
    + eapply total_conseq; [by apply set_gain_changes | done |]. by intros r s' [? _].
    + eapply total_conseq; [apply get_gain_reads | done |]. intros r s' [? ->].
      split; [done |]. by apply gain_parts_of.
  - intros fcw. eapply (total_holds h); [apply set_fcw_changes | exact Hs].
Qed.
End settings.

(** ** The filter *)

Section filter.
Context `{!Chips} `{!Libm} `{!IoctlMacros} {D : Type} `{!Device D}.
Context (ready : D → Prop) (filter : D → filter_state) `{!FilterContract ready filter}.
Implicit Types (h : whitebox_t) (c : filter_state).

Lemma drop_cons_lookup {A} (l : list A) i n x :
  l !! i = Some x → take (S n) (drop i l) = x :: take n (drop (S i) l).
Proof. intros Hx. by rewrite (drop_S _ _ _ Hx). Qed.

(** The two copies between the caller's array and the block. *)
Lemma coeffs_to_block_runs n i coeffs w (s : prog D) :
  blank w → (i + n ≤ 128)%nat → (i + n ≤ length coeffs)%nat →
  ∃ w', coeffs_to_block n (Z.of_nat i) coeffs w s = Done w' s ∧ blank w' ∧
    fir_n w' = fir_n w ∧ fir_bank w' = fir_bank w ∧
    fir_coeffs w' = overwrite i (u32 <$> take n (drop i coeffs)) (fir_coeffs w).
Proof.
  revert i w. induction n as [|n IH]; intros i w Hw Hn Hc.
  { exists w. repeat (split; [done |]). symmetry. apply overwrite_nil. }
  destruct (lookup_lt_is_Some_2 coeffs i ltac:(lia)) as [x Hx].
  destruct (lookup_lt_is_Some_2 (fir_coeffs w) i) as [y Hy].
  { rewrite fir_coeffs_length by done. lia. }
  destruct (IH (S i) (set_word (1 + Z.of_nat i) (u32 x) w)) as (w' & Hr & Hw' & Hfn & Hfb & Hfc);
    [by unfold blank; rewrite set_word_length | lia | lia |].
  exists w'. split; [| split; [done |]].
  - cbn [coeffs_to_block]. unfold mbind, M_bind.
    rewrite (runs_get_index coeffs (Z.of_nat i) x), (runs_get_index (fir_coeffs w) (Z.of_nat i) y)
      by (lia || by rewrite Nat2Z.id).
    by replace (Z.of_nat i + 1) with (Z.of_nat (S i)) by lia.
  - rewrite Hfn, Hfb, Hfc. unfold fir_n, fir_bank.
    rewrite !byte_of_set_coeff, fir_coeffs_set_word, Nat2Z.id by (done || lia).
    rewrite overwrite_cons by (rewrite fir_coeffs_length by done; lia).
    by rewrite (drop_cons_lookup _ _ _ _ Hx).
Qed.
Lemma coeffs_of_block_runs n i w coeffs (s : prog D) :
  blank w → (i + n ≤ 128)%nat → (i + n ≤ length coeffs)%nat →
  coeffs_of_block n (Z.of_nat i) w coeffs s =
    Done (overwrite i (s32 <$> take n (drop i (fir_coeffs w))) coeffs) s.
Proof.
  revert i coeffs. induction n as [|n IH]; intros i coeffs Hw Hn Hc.
  { cbn [coeffs_of_block]. unfold mret, M_ret. f_equal. symmetry. apply overwrite_nil. }
  destruct (lookup_lt_is_Some_2 coeffs i ltac:(lia)) as [y Hy].
  destruct (lookup_lt_is_Some_2 (fir_coeffs w) i) as [x Hx].
  { rewrite fir_coeffs_length by done. lia. }
  cbn [coeffs_of_block]. unfold mbind, M_bind.
  rewrite (runs_get_index (fir_coeffs w) (Z.of_nat i) x), (runs_get_index coeffs (Z.of_nat i) y)
    by (lia || by rewrite Nat2Z.id).
  replace (Z.of_nat i + 1) with (Z.of_nat (S i)) by lia. rewrite Nat2Z.id.
  rewrite IH by (done || rewrite ?length_insert; lia).
  by rewrite overwrite_cons, (drop_cons_lookup _ _ _ _ Hx) by lia.
Qed.

(** C22: the filter's coefficients come back.  Over any device that keeps its filter, what
    [whitebox_fir_load_coeffs] loads, [whitebox_fir_get_coeffs] gives: the number of
    coefficients, and the coefficients themselves, 32 bits with their sign, at the start
    of the caller's array, whose rest is untouched.  Neither leaves an array. *)
Theorem fir_round_trip h c bank n coeffs room (s : prog D) :
  holds h (λ d, ready d ∧ filter d = c) s →
  0 ≤ n < 128 → (Z.to_nat n ≤ length coeffs)%nat → (Z.to_nat n ≤ length room)%nat →
  Forall (λ x, - 2 ^ 31 ≤ x < 2 ^ 31) coeffs →
  post_total (λ r s', p_wb s' = h ∧ ready (p_os s') ∧ r = (n, overwrite 0 (take (Z.to_nat n) coeffs) room))
    ((_ ← whitebox_fir_load_coeffs bank n coeffs; whitebox_fir_get_coeffs bank n room) s).
Proof.
  intros Hs Hn Hc Hr Hx. eapply (total_holds h); [| exact Hs]. clear s Hs.
  set (l := s32 <$> (u32 <$> take (Z.to_nat n) coeffs)).
  assert (l = take (Z.to_nat n) coeffs) as Hl.
  { unfold l. rewrite <- list_fmap_compose. transitivity (id <$> take (Z.to_nat n) coeffs); [| apply list_fmap_id].
    apply list_fmap_ext. intros j x Hj. cbn. unfold s32, u32. rewrite Zplus_mod_idemp_l. fold (s32 x).
    apply s32_small. eapply (Forall_lookup_1 _ _ j x Hx). eapply lookup_take_Some in Hj as [? _]. done. }
  eapply total_bind with (R := λ _, holds h (λ d, ready d ∧ fs_n (filter d) = n ∧
    take (Z.to_nat n) (fs_coeffs (filter d)) = l)).
  - unfold whitebox_fir_load_coeffs. eapply total_bind; [apply total_device, (wf_stack c) |].
    intros w. apply holds_pure. intros Hw.
    set (w0 := set_byte 1 (u8 n) (set_byte 0 (u8 bank) w)).
    assert (blank w0) as Hw0 by (unfold w0, blank; by rewrite !set_byte_length).
    intros s Hs.
    destruct (coeffs_to_block_runs (Z.to_nat n) 0 coeffs w0 s Hw0 ltac:(lia) ltac:(lia))
      as (w' & Hrun & Hw' & Hfn & _ & Hfc).
    unfold mbind at 1, M_bind at 1. change 0 with (Z.of_nat 0) at 1. rewrite Hrun. revert s Hs Hrun.
    assert (fir_n w' = n) as Hn'.
    { rewrite Hfn. unfold w0, fir_n, u8. rewrite Z.mod_small by lia.
      apply byte_of_set_byte_1; [by rewrite set_byte_length | lia]. }
    intros s Hs _. revert s Hs. eapply total_ioctl_with; [intros f; apply (wf_set f w' c); [done | lia] |].
    intros r. apply total_ret. intros s [Hh [Hd Hf]]. split; [done |]. rewrite Hf. unfold load_filter.
    rewrite Hn'. cbn [fs_n fs_coeffs]. split; [done |]. split; [done |].
    assert (length (take (Z.to_nat n) coeffs) = Z.to_nat n) by (rewrite length_take; lia).
    rewrite Hfc, drop_0, (take_overwrite (u32 <$> _)) by (by rewrite length_fmap).
    apply take_overwrite. fold l. by rewrite Hl.
  - intros _ s [Hh (Hd & Hf & Ht)]. revert Hf Ht. generalize (eq_refl (filter (p_os s))).
    generalize (filter (p_os s)) at 2 3 4. intros c' Hc' Hf Ht.
    assert (holds h (λ d, ready d ∧ filter d = c') s) as Hs by done. clear Hh Hd Hc'. revert s Hs.
    eapply total_bind; [apply total_device, (wf_stack c') |].
    intros w. apply holds_pure. intros Hw.
    eapply total_ioctl_with; [intros f; by apply (wf_get f w c') |].
    intros r. apply holds_pure. intros (Hb & Hfn & Hfc) s [Hh [Hd _]].
    rewrite Hfn, Hf, Z.min_id in *. unfold mbind, M_bind.
    rewrite (coeffs_of_block_runs (Z.to_nat n) 0) by (done || lia).
    cbn. split; [done |]. split; [done |]. rewrite drop_0, Hfc, Ht, Hl. fold l. by rewrite Hl.
Qed.
End filter.

(** ** Waiting for lock *)

Section locked.
Context `{!Chips} `{!Libm} `{!IoctlMacros} {D : Type} `{!Device D}.

(** One request, and [n] in a row that all find the synthesizers unlocked. *)
Definition poll_once (f : Z) : M D Z := w ← d_stack; r ← d_ioctl f W_LOCKED w; mret (fst r).
Fixpoint unlocked_polls (f : Z) (n : nat) (d d' : D) : Prop :=
  match n with
  | O => d' = d
  | S n' => ∃ d1, poll_once f d = Done 0 d1 ∧ unlocked_polls f n' d1 d'
  end.

Lemma ioctl_only_polls (s : prog D) r d :
  poll_once (fd (p_wb s)) (p_os s) = Done r d →
  ioctl_only W_LOCKED s = Done r (s <| p_os := d |>).
Proof.
  unfold poll_once, ioctl_only, local_block, device, get_handle, gets, mbind, M_bind, mret, M_ret.
  destruct (d_stack (p_os s)) as [w d1 | |]; [| done..]. cbn.
  by destruct (d_ioctl _ W_LOCKED w d1) as [[r' w'] d2 | |]; [intros [= -> ->] | ..].
Qed.
Lemma poll_locked_spec n (s : prog D) m d d' r :
  unlocked_polls (fd (p_wb s)) m (p_os s) d →
  (m = n → poll_locked n s = Done 0 (s <| p_os := d |>)) ∧
  ((m < n)%nat → poll_once (fd (p_wb s)) d = Done r d' → r ≠ 0 →
    poll_locked n s = Done 1 (s <| p_os := d' |>)).
Proof.
  revert n s. induction m as [|m IH]; intros n s; cbn [unlocked_polls].
  - intros ->. split; [intros <-; by destruct s |]. intros Hn Hp Hr. destruct n as [|n]; [lia |].
    cbn [poll_locked]. unfold mbind, M_bind. rewrite (ioctl_only_polls s r d' Hp).
    unfold nz. by rewrite (proj2 (Z.eqb_neq r 0) Hr).
  - intros (d1 & Hp & Hu). destruct n as [|n]; [by split; [| lia] |].
    cbn [poll_locked]. unfold mbind, M_bind. rewrite (ioctl_only_polls s 0 d1 Hp). cbn.
    set (s1 := s <| p_os := d1 |>).
    assert (unlocked_polls (fd (p_wb s1)) m (p_os s1) d) as Hu1 by exact Hu.
    destruct (IH n s1 Hu1) as [H2 H3].
    split; [intros [= Hmn]; by apply H2 | intros ???; apply H3; (lia || done)].
Qed.

(** C30: [whitebox_plls_locked] waits for the synthesizers and no longer.  If they lock
    within a thousand requests it answers 1 right after the first request that finds
    them locked; if a thousand requests find them unlocked it answers 0.  In between it
    only asks, and it always returns when the requests do.  (A request that fails counts
    as a lock: its answer is not 0.) *)
Theorem plls_locked_waits (s : prog D) n d d' r :
  unlocked_polls (fd (p_wb s)) n (p_os s) d →
  (n = 1000%nat → whitebox_plls_locked s = Done 0 (s <| p_os := d |>)) ∧
  ((n < 1000)%nat → poll_once (fd (p_wb s)) d = Done r d' → r ≠ 0 →
    whitebox_plls_locked s = Done 1 (s <| p_os := d' |>)).
Proof. apply poll_locked_spec. Qed.
End locked.
