(* ===== verification/RadioChips.v ===== *)
(** * The radio's synthesizers

    The library's interface to its generated code, given by the models of both chips. *)

From Stdlib Require Import Floats.SpecFloat.
From S2P Require Import Prelude Kernel State Ioctl Ieee Regs Library.
From S2P Require Adf4351 Cmx991.

(** The value of an argument that is an enumerator, by its place. *)
Definition cmx991_argument (names : list string) (i : nat) : Z :=
  Cmx991.cmx991_enum (nth i names "").

#[global] Instance radio_chips : Chips := {|
  cmx991_t := Cmx991.cmx991_t;
  adf4351_t := Adf4351.adf4351_t;
  cmx991_ioctl_get w rf := Cmx991.cmx991_ioctl_get rf w;
  cmx991_ioctl_set rf w := Cmx991.cmx991_ioctl_set rf w;
  cmx991_resume := Cmx991.cmx991_resume;
  cmx991_suspend := Cmx991.cmx991_suspend;
  cmx991_pll_enable_m_n fref m n rf := Cmx991.cmx991_pll_enable_m_n rf fref m n;
  cmx991_tx_tune fdes names rf :=
    let arg := cmx991_argument names in
    Cmx991.cmx991_tx_tune rf fdes (arg 0%nat) (arg 1%nat) (arg 2%nat) (arg 3%nat) (arg 4%nat);
  cmx991_rx_tune names rf :=
    let arg := cmx991_argument names in
    Cmx991.cmx991_rx_tune rf (arg 0%nat) (arg 1%nat) (arg 2%nat) (arg 3%nat) (arg 4%nat);
  cmx991_rx_calibrate_enable := Cmx991.cmx991_rx_calibrate_enable;
  cmx991_rx_calibrate_disable := Cmx991.cmx991_rx_calibrate_disable;
  adf4351_init := Adf4351.adf4351_init;
  adf4351_ioctl_get w rf := Adf4351.adf4351_ioctl_get rf w;
  adf4351_ioctl_set rf w := (rf, Adf4351.adf4351_ioctl_set rf w);
  adf4351_pll_enable fref fres fdes rf := snd <$> Adf4351.adf4351_pll_enable rf fref fres fdes;
  adf4351_pll_disable := Adf4351.adf4351_pll_disable;
|}.

(** Members before they are set to anything. *)
Definition cmx991_garbage : Cmx991.cmx991_t :=
  Cmx991.Cmx991 9 9 9 9 9 9 9 9 9 9 9 9 9 9 9 9 9 9 9 9 9 9 9 9 9 9 9 9 9 9 9 9 9 9 9.
Definition adf4351_garbage : Adf4351.adf4351_t :=
  Adf4351.Adf4351 9 9 9 9 9 9 9 9 9 9 9 9 9 9 9 9 9 9 9 9 9 9 9 9 9 9 9 9 9 9 9 9 9 9 9 9 9.

(** A handle after [whitebox_init], with an open file: only the ADF4351's structure is
    initialised. *)
Definition sim_handle : whitebox_t :=
  Build_whitebox_t _ 3 cmx991_garbage (Adf4351.adf4351_init adf4351_garbage) 10000 1000 0 0.
