(* ===== verification/Print.v ===== *)
(** * What is printed ([lib/whitebox.c], [util/genregs.py])

    The text written by the functions that print to a file, as the string they add to it,
    and the heap calls of the library. *)

From Stdlib Require Import Strings.Ascii.
From stdpp Require Import strings.
From S2P Require Import Prelude Kernel State Exciter Ioctl Ieee Regs Adf4351 Cmx991 Library RadioChips.

Definition WS_FIREN : Z := 1 <<< 24.

(** ** Text *)

Definition texts (l : list string) : string := foldr String.append "" l.
Definition hex_digit (n : Z) : ascii :=
  ascii_of_nat (Z.to_nat (if n <? 10 then 48 + n else 87 + n)).
(** [%08x] of a 32-bit value. *)
Definition hex8 (v : Z) : string :=
  foldr String "" ((λ i, hex_digit ((v >>> (4 * i)) &&& 0xf)) <$> [7; 6; 5; 4; 3; 2; 1; 0]).

(** ** The members of a structure of registers *)

Section fields.
Context {T : Type}.
Implicit Types (r : reg T) (rf : T).

Definition print_member (name : string) (v : Z) : string :=
  texts [name; "="; decimal v; newline].
(** One test for each of the names of the values. *)
Fixpoint print_enums (name : string) (v i : Z) (l : list string) : string :=
  match l with
  | [] => ""
  | e :: l =>
      (if v =? i then texts [name; "="; upper e; newline] else "") +:+ print_enums name v (i + 1) l
  end.
Definition print_field rf r : string :=
  match reg_enums r with
  | [] => print_member (reg_name r) (reg_get r rf)
  | l => print_enums (reg_name r) (reg_get r rf) 0 l
  end.
Definition print_fields (regs : list (reg T)) rf : string := texts (print_field rf <$> regs).


Lemma text_nil s : s +:+ "" = s.
Proof. induction s as [| c s IH]; [done |]. exact (f_equal (String c) IH). Qed.
(** A value that has a name is printed once, by that name; another is not printed. *)
Lemma print_enums_at name v i l :
  print_enums name v i l =
    if decide (i ≤ v) then
      match l !! Z.to_nat (v - i) with
      | Some e => texts [name; "="; upper e; newline]
      | None => ""
      end
    else "".
Proof.
  revert i. induction l as [| e l IH]; intros i; cbn [print_enums]; [by case_decide |].
  rewrite IH. destruct (v =? i) eqn:E.
  - assert (v = i) as -> by lia. rewrite decide_False, decide_True, Z.sub_diag by lia. apply text_nil.
  - destruct (decide (i ≤ v)) as [H |]; [| by rewrite decide_False by lia].
    rewrite decide_True by lia. by replace (Z.to_nat (v - i)) with (S (Z.to_nat (v - (i + 1)))) by lia.
Qed.
End fields.

Definition adf4351_print_to_file (rf : adf4351_t) : string := print_fields adf4351_regs rf.
(** The members, and then the dividers that are spread over two of them. *)
Definition cmx991_print_to_file (rf : cmx991_t) : string :=
  print_fields cmx991_regs rf +:+
  texts [print_member "m" (cmx991_get_m rf); print_member "n" (cmx991_get_n rf)].

(** ** The state of the exciter *)

Section library.
Context `{!Chips} `{!Libm} `{!IoctlMacros} {D : Type} `{!Device D} `{!Host D}.
Abbreviation P := (M (prog D)).

Definition flag_text (value mask : Z) (on off : string) : string :=
  if nz (value &&& mask) then on else off.
Definition state_text (value : Z) : string := texts [
  flag_text value WES_DATA "data " "     ";
  flag_text value WES_AFULL "afull " "     ";
  flag_text value WES_SPACE "space " "      ";
  flag_text value WES_AEMPTY "aempty " "       ";
  flag_text value WES_TXEN "txen " "     ";
  flag_text value WES_DDSEN "ddsen " "      ";
  flag_text value WES_FILTEREN "cicen " "      ";
  flag_text value WS_FIREN "firen " "      "].
(** The answer of the request is not looked at: when it fails, what is printed is what the
    block held. *)
Definition whitebox_debug_to_file : P string :=
  w ← local_block;
  r ← ioctl_with WE_GET w;
  let w := snd r in
  mret (texts [state_text (word_of w arg_state);
    "space="; decimal (s32 (word_of w arg_available)); " ";
    "debug="; hex8 (word_of w arg_debug); " "; newline]).

(** ** The heap

    [mem] is what [malloc] answers, with what the memory happens to hold; it is used
    without a test. *)
Definition whitebox_alloc (mem : option whitebox_t) : P () :=
  match mem with
  | None => fail_with NullDeref
  | Some h => upd_handle (λ _, h);; whitebox_init
  end.
(** The memory is not used any more. *)
Definition whitebox_free : P () := mret ().

(** A handle that was just allocated can be opened and not be used: it has no file, and the
    registers of the first chip are at their defaults. *)
Lemma whitebox_alloc_ready h (s : prog D) :
  ∃ s', whitebox_alloc (Some h) s = Done () s' ∧ fd (p_wb s') = - EINVAL ∧
    Library.adf4351 (p_wb s') = Library.adf4351_init (Library.adf4351 h) ∧
    Library.cmx991 (p_wb s') = Library.cmx991 h ∧ p_os s' = p_os s.
Proof. by eexists. Qed.
End library.

Example print_a_member :
  print_enums "muxout" 1 0 ["three_state"; "dvdd"] = texts ["muxout"; "="; "DVDD"; newline].
Proof. reflexivity. Qed.
Example hex8_beef : hex8 0xbeef = "0000beef".
Proof. reflexivity. Qed.
