(* ===== verification/LibraryDriver.v ===== *)
(** * The driver keeps the library's contracts

    The driver's model is a [Device] for the library.  Over a register file that keeps
    what is written to the exciter's settings, it honours the contract of the settings
    with either radio; the mock's filter honours that of the filter. *)

From Stdlib Require Import Floats.SpecFloat.
From stdpp Require Import gmap.
From S2P Require Import Prelude Kernel State Sim UserRing Exciter Receiver RfBlocks TxRx Ioctl Block.
From S2P Require Import IoctlSpec Driver Ieee Library LibrarySpec RadioChips.
From S2P Require Adf4351.

(** The block of the caller in user memory. *)
Class UserSpace (W : Type) := {
  us_block : Z;
  us_store : list Z → W → W;
  us_load : W → list Z;
}.
#[global] Hint Mode UserSpace ! : typeclass_instances.
Class UserMemory W `{!Kernel W} `{!UserSpace W} : Prop := {
  us_get l (w : W) :
    (k_get_user_words (us_block (W := W)) (length l) (us_store l w)).1 = (false, l);
  us_put l (w : W) : let r := k_put_user_words (us_block (W := W)) l w in r.1 = false ∧ us_load r.2 = l;
}.

(** Registers that keep what is written to them: the stable ones, of value [reg]. *)
Class Registers {W} `{!Kernel W} `{!UserSpace W} (stable : Z → Prop) (reg : W → Z → Z) : Prop := {
  reg_readl a w : stable a → (k_readl a w).1 = reg w a;
  reg_after_readl a b w : stable b → reg (k_readl a w).2 b = reg w b;
  reg_writel a v b w : stable b → reg (k_writel a v w) b = if decide (a = b) then v else reg w b;
  reg_stack n b w : stable b → reg (k_stack_words n w).2 b = reg w b;
  reg_get_user a n b w : stable b → reg (k_get_user_words a n w).2 b = reg w b;
  reg_put_user a l b w : stable b → reg (k_put_user_words a l w).2 b = reg w b;
  reg_store l b w : stable b → reg (us_store l w) b = reg w b;
}.

Create HintDb steady discriminated.

Section driver.
Context {W : Type} `{!Kernel W} `{!UserSpace W} `{!CircMacros} `{!IoctlMacros}.

(** A negative answer is [-1] to the caller. *)
Definition driver_ioctl (f cmd : Z) (w : whitebox_args_t) : M (sys W) (Z * whitebox_args_t) :=
  modify (λ s, s <| s_world ::= us_store w |>);;
  r ← whitebox_ioctl cmd (us_block (W := W));
  w ← gets (λ s, us_load (s_world s));
  mret (if r <? 0 then -1 else r, w).
#[global] Instance driver_device : Device (sys W) := {|
  d_ioctl := driver_ioctl;
  d_stack := local_args;
|}.

Context `{!UserMemory W} (stable : Z → Prop) (reg : W → Z → Z) `{!Registers stable reg}.

(** ** The state of the exciter *)

Definition setting_offsets : list Z := [wer_interp; wer_fcw; wer_threshold; wer_correction; wer_gain].
Definition regs_settings (R : Z) (w : W) : exciter_settings :=
  Settings (reg w (R + wer_interp)) (reg w (R + wer_fcw)) (reg w (R + wer_threshold))
    (reg w (R + wer_correction)) (reg w (R + wer_gain)).
Definition exciter_in_use (wb : whitebox_device) : which := rk_exciter (wb_rf_sink wb).
Definition regs_in_use (wb : whitebox_device) : Z := ex_regs (exciter_of wb (exciter_in_use wb)).
Definition driver_settings (s : sys W) : exciter_settings :=
  regs_settings (regs_in_use (s_wb s)) (s_world s).
(** The exciter in use has its operations, and its settings are stable registers. *)
Definition exciter_ready (s : sys W) : Prop :=
  is_Some (ex_ops (exciter_of (s_wb s) (exciter_in_use (s_wb s)))) ∧
  ∀ off, off ∈ setting_offsets → stable (regs_in_use (s_wb s) + off).

(** What the handlers keep: the exciter [e] in use, its operations and its registers. *)
Record serving e o R σ (s : sys W) : Prop := {
  sv_use : exciter_in_use (s_wb s) = e;
  sv_ops : ex_ops (exciter_of (s_wb s) e) = Some o;
  sv_regs : ex_regs (exciter_of (s_wb s) e) = R;
  sv_settings : regs_settings R (s_world s) = σ;
}.

Section serving.
Context (e : which) (o : ops_table) (R : Z) (Hst : ∀ off, off ∈ setting_offsets → stable (R + off)).
Abbreviation I := (serving e o R).
Implicit Types (σ : exciter_settings).

Lemma settings_world w w' :
  (∀ b, b ∈ (λ off, R + off) <$> setting_offsets → reg w' b = reg w b) →
  regs_settings R w' = regs_settings R w.
Proof.
  intros Hw. unfold regs_settings.
  assert (∀ off, off ∈ setting_offsets → reg w' (R + off) = reg w (R + off)) as Ho.
  { intros off Hoff. apply Hw, list_elem_of_fmap. by exists off. }
  by rewrite !Ho by (unfold setting_offsets; set_solver).
Qed.
Lemma serving_world σ s w' :
  I σ s → (∀ b, stable b → reg w' b = reg (s_world s) b) → I σ (s <| s_world := w' |>).
Proof.
  intros [Hu Ho Hr Hs] Hw. split; [done.. |]. rewrite <- Hs. apply settings_world.
  intros b (off & -> & Hoff)%list_elem_of_fmap. by apply Hw, Hst.
Qed.

(** The block [w] is the caller's. *)
Definition stored (w : whitebox_args_t) (s : sys W) : Prop :=
  ∃ w0, s_world s = us_store w w0.

(** Steps that leave the settings alone. *)
Definition steady {A} (m : M (sys W) A) : Prop := ∀ σ, total (I σ) m (λ _, I σ).
Lemma steady_bind {A B} (m : M (sys W) A) (k : A → M (sys W) B) :
  steady m → (∀ a, steady (k a)) → steady (m ≫= k).
Proof. intros Hm Hk σ. eapply total_bind; [apply Hm | intros; apply Hk]. Qed.
Lemma steady_ret {A} (a : A) : steady (mret a).
Proof. intros σ s Hs. exact Hs. Qed.
Lemma steady_get_wb {A} (f : whitebox_device → A) : steady (get_wb f).
Proof. intros σ s Hs. exact Hs. Qed.
Lemma steady_param {A} (f : params → A) : steady (param f).
Proof. intros σ s Hs. exact Hs. Qed.
Lemma steady_call {A} (f : W → A * W) :
  (∀ w b, stable b → reg (f w).2 b = reg w b) → steady (call f).
Proof. intros Hf σ s Hs. apply serving_world; [done |]. intros. by apply Hf. Qed.
Lemma steady_readl a : steady (readl a).
Proof. apply steady_call. intros. by apply reg_after_readl. Qed.
Lemma steady_mock_buf f : steady (upd_wb (λ wb, wb <| wb_mock_buf ::= f |>)).
Proof. intros σ s [Hu Ho Hr Hs]. split; [done | by destruct e | by destruct e | done]. Qed.
Lemma steady_writel_state v : steady (writel (R + wer_state) v).
Proof.
  intros σ s [Hu Ho Hr Hs]. split; [done.. |]. rewrite <- Hs. apply settings_world.
  intros b (off & -> & Hoff)%list_elem_of_fmap. cbn. rewrite reg_writel by by apply Hst.
  rewrite decide_False; [done |]. unfold setting_offsets in Hoff.
  repeat (apply elem_of_cons in Hoff as [-> | Hoff]; [unfold wer_state, wer_interp, wer_fcw,
    wer_threshold, wer_correction, wer_gain; lia |]). by apply not_elem_of_nil in Hoff.
Qed.
Lemma steady_if {A} (b : bool) (m m' : M (sys W) A) :
  steady m → steady m' → steady (if b then m else m').
Proof. by destruct b. Qed.

(** The registers of [e] are those in use. *)
Lemma steady_regs {A} (k : Z → M (sys W) A) : steady (k R) → steady (r ← exciter_regs e; k r).
Proof.
  intros Hk σ s Hs. unfold exciter_regs, mbind, M_bind, get_wb, gets.
  rewrite (sv_regs _ _ _ _ _ Hs). by apply Hk.
Qed.
Lemma total_call_ops {A} σ (real mock : M (sys W) A) Q :
  total (I σ) real Q → total (I σ) mock Q → total (I σ) (exciter_call e real mock) Q.
Proof.
  intros Hr Hm s Hs. unfold exciter_call, mbind, M_bind, get_wb, gets.
  rewrite (sv_ops _ _ _ _ _ Hs). by destruct o; [apply Hr | apply Hm].
Qed.
Lemma steady_call_ops {A} (real mock : M (sys W) A) :
  steady real → steady mock → steady (exciter_call e real mock).
Proof. intros Hr Hm σ. by apply total_call_ops. Qed.

Hint Resolve steady_ret steady_get_wb steady_param steady_readl steady_mock_buf
  steady_writel_state : steady.
Ltac steady_tac := cbv beta zeta;
  lazymatch goal with
  | |- steady (mbind _ (exciter_regs _)) => apply steady_regs; steady_tac
  | |- steady (mbind _ _) => apply steady_bind; [steady_tac | intros ?; steady_tac]
  | |- steady (exciter_call _ _ _) => apply steady_call_ops; steady_tac
  | |- steady (if _ then _ else _) => apply steady_if; steady_tac
  | |- steady ?m => let f := code_head m in first [solve [auto with steady] | unfold f; steady_tac]
  end.

Lemma steady_get_state : steady (exciter_get_state e).
Proof. unfold exciter_get_state. steady_tac. Qed.
Lemma steady_set_state v : steady (exciter_set_state e v).
Proof. unfold exciter_set_state. steady_tac. Qed.
Lemma steady_get_runs : steady (exciter_get_runs e).
Proof. unfold exciter_get_runs. steady_tac. Qed.
Lemma steady_space : steady (exciter_space_available e).
Proof. unfold exciter_space_available. steady_tac. Qed.
Lemma steady_get_debug : steady (exciter_get_debug e).
Proof. unfold exciter_get_debug. steady_tac. Qed.

(** Reading and writing a setting. *)
Lemma total_get_setting σ off (f : exciter_settings → Z) :
  off ∈ setting_offsets → (∀ w, f (regs_settings R w) = reg w (R + off)) →
  total (I σ) (exciter_call e (exciter_read off e) (exciter_read off e))
    (λ v s, I σ s ∧ v = f σ).
Proof.
  intros Hoff Hf.
  assert (total (I σ) (exciter_read off e) (λ v s, I σ s ∧ v = f σ)) as Hm.
  { intros s Hs. pose proof (steady_readl (R + off) σ s Hs) as Hk.
    unfold exciter_read, exciter_regs, mbind, M_bind, get_wb, gets.
    rewrite (sv_regs _ _ _ _ _ Hs). split; [exact Hk |].
    rewrite reg_readl by by apply Hst. rewrite <- Hf. by rewrite (sv_settings _ _ _ _ _ Hs). }
  by apply total_call_ops.
Qed.
Lemma total_set_setting σ off v (f : exciter_settings → exciter_settings) :
  off ∈ setting_offsets → (∀ w, regs_settings R (k_writel (R + off) v w) = f (regs_settings R w)) →
  total (I σ) (exciter_call e (exciter_write off e v) (exciter_write off e v)) (λ _, I (f σ)).
Proof.
  intros Hoff Hf.
  assert (total (I σ) (exciter_write off e v) (λ _, I (f σ))) as Hm.
  { intros s [Hu Ho Hr Hs]. unfold exciter_write, exciter_regs, mbind, M_bind, get_wb, gets.
    rewrite Hr. split; [done.. |]. rewrite <- Hs. apply Hf. }
  by apply total_call_ops.
Qed.
Lemma total_the_exciter {A} σ (k : which → M (sys W) A) Q :
  total (I σ) (k e) Q → total (I σ) (x ← the_exciter; k x) Q.
Proof.
  intros Hk s Hs. unfold the_exciter, mbind, M_bind, get_wb, gets.
  change (rk_exciter (wb_rf_sink (s_wb s))) with (exciter_in_use (s_wb s)).
  rewrite (sv_use _ _ _ _ _ Hs). by apply Hk.
Qed.
Ltac setting_tac := intros ?; unfold regs_settings, upd; cbn;
  rewrite ?reg_writel by (apply Hst; unfold setting_offsets; set_solver);
  unfold wer_interp, wer_fcw, wer_threshold, wer_correction, wer_gain;
  repeat first [rewrite decide_True by done | rewrite decide_False by lia]; reflexivity.
Ltac offset_tac := unfold setting_offsets; set_solver.

(** The whole of the two requests. *)
Lemma exciter_get_serves σ :
  total (I σ) (whitebox_ioctl_exciter_get (us_block (W := W)))
    (λ r s, I σ s ∧ r = 0 ∧ blank (us_load (s_world s)) ∧ block_settings (us_load (s_world s)) = σ).
Proof.
  unfold whitebox_ioctl_exciter_get. apply total_the_exciter.
  eapply total_bind_pure with (R := I σ) (C := blank).
  { unfold local_args. eapply total_bind; [apply steady_call; intros; by apply reg_stack |].
    intros l. apply total_ret. intros s Hs. split; [exact Hs | apply as_args_length]. }
  intros w Hw. eapply total_bind; [apply steady_get_state |]. intros state.
  eapply total_bind_pure; [apply (total_get_setting σ wer_interp xs_interp); [offset_tac | done] |].
  intros ? ->.
  eapply total_bind_pure; [apply (total_get_setting σ wer_fcw xs_fcw); [offset_tac | done] |].
  intros ? ->. eapply total_bind; [apply steady_get_runs |]. intros runs.
  eapply total_bind_pure; [apply (total_get_setting σ wer_threshold xs_threshold); [offset_tac | done] |].
  intros ? ->.
  eapply total_bind_pure; [apply (total_get_setting σ wer_correction xs_correction); [offset_tac | done] |].
  intros ? ->.
  eapply total_bind_pure; [apply (total_get_setting σ wer_gain xs_gain); [offset_tac | done] |].
  intros ? ->. eapply total_bind; [apply steady_space |]. intros space.
  eapply total_bind; [apply steady_get_debug |]. intros debug.
  set (l := set_word _ _ _).
  assert (blank l) as Hl by (unfold l, blank; by rewrite !set_word_length).
  assert (block_settings l = σ) as Hlσ.
  { unfold l, block_settings, arg_interp, arg_fcw, arg_threshold, arg_correction, arg_gain,
      arg_debug, arg_available, arg_runs, arg_state.
    rewrite !word_of_set_word by (rewrite ?set_word_length; done || lia).
    repeat first [rewrite decide_True by done | rewrite decide_False by lia]. by destruct σ. }
  clearbody l. intros s Hs. unfold return_args, mbind, M_bind, call, mret, M_ret.
  destruct (us_put l (s_world s)) as [-> Hload]. cbn [negb]. split; [| cbn; by rewrite Hload].
  apply serving_world; [done |]. intros. by apply reg_put_user.
Qed.
Lemma exciter_sets σ w :
  total (I σ) (exciter_set_state e (word_of w arg_state);;
    exciter_set_interp e (word_of w arg_interp);;
    exciter_set_fcw e (word_of w arg_fcw);;
    exciter_set_threshold e (word_of w arg_threshold);;
    exciter_set_correction e (word_of w arg_correction);;
    exciter_set_gain e (word_of w arg_gain);;
    mret 0) (λ r s, I (block_settings w) s ∧ r = 0).
Proof.
  eapply total_bind; [apply steady_set_state |]. intros ?.
  eapply total_bind; [apply (total_set_setting _ wer_interp _ (upd (f := xs_interp) (λ _, word_of w arg_interp)));
    [offset_tac | setting_tac] |]. intros ?.
  eapply total_bind; [apply (total_set_setting _ wer_fcw _ (upd (f := xs_fcw) (λ _, word_of w arg_fcw)));
    [offset_tac | setting_tac] |]. intros ?.
  eapply total_bind; [apply (total_set_setting _ wer_threshold _ (upd (f := xs_threshold) (λ _, word_of w arg_threshold)));
    [offset_tac | setting_tac] |]. intros ?.
  eapply total_bind; [apply (total_set_setting _ wer_correction _ (upd (f := xs_correction) (λ _, word_of w arg_correction)));
    [offset_tac | setting_tac] |]. intros ?.
  eapply total_bind; [apply (total_set_setting _ wer_gain _ (upd (f := xs_gain) (λ _, word_of w arg_gain)));
    [offset_tac | setting_tac] |]. intros ?.
  apply total_ret. intros s Hs. by split; [destruct σ |].
Qed.
Lemma with_stored_args w (k : whitebox_args_t → M (sys W) Z) σ Q :
  blank w → total (I σ) (k w) Q →
  total (λ s, I σ s ∧ stored w s) (with_user_args (us_block (W := W)) k) Q.
Proof.
  intros Hw Hk s [Hs [w0 Hw0]]. unfold with_user_args, mbind, M_bind, call. cbv beta.
  assert ((k_get_user_words (us_block (W := W)) args_words (s_world s)).1 = (false, w)) as Hget.
  { rewrite Hw0. rewrite <- Hw. apply us_get. }
  rewrite Hget. cbn [fst snd]. rewrite as_args_id by done.
  apply Hk, serving_world; [done |]. intros. by apply reg_get_user.
Qed.
Lemma exciter_set_serves σ w :
  blank w → total (λ s, I σ s ∧ stored w s) (whitebox_ioctl_exciter_set (us_block (W := W)))
    (λ r s, I (block_settings w) s ∧ r = 0).
Proof.
  intros Hw s Hs. unfold whitebox_ioctl_exciter_set, the_exciter, mbind at 1, M_bind at 1, get_wb, gets.
  change (rk_exciter (wb_rf_sink (s_wb s))) with (exciter_in_use (s_wb s)).
  rewrite (sv_use _ _ _ _ _ (proj1 Hs)).
  by apply (with_stored_args w _ σ _ Hw (exciter_sets σ w)).
Qed.
End serving.

(** ** The contract of the settings *)

Lemma ready_serving s σ :
  exciter_ready s → driver_settings s = σ →
  ∃ o, serving (exciter_in_use (s_wb s)) o (regs_in_use (s_wb s)) σ s.
Proof. intros [[o Ho] _] Hs. by exists o. Qed.
Lemma serving_ready e o R σ s :
  (∀ off, off ∈ setting_offsets → stable (R + off)) →
  serving e o R σ s → exciter_ready s ∧ driver_settings s = σ.
Proof.
  intros Hst [<- Ho Hr Hs]. unfold exciter_ready, driver_settings, regs_in_use. rewrite Hr.
  split; [split; [by exists o | exact Hst] | exact Hs].
Qed.

(** A request of the library is the handler's run on a stored block. *)
Lemma driver_ioctl_total cmd (m : M (sys W) Z) f w σ (C : Z → list Z → Prop) σ' :
  whitebox_ioctl cmd (us_block (W := W)) = m →
  (∀ e o R, (∀ off, off ∈ setting_offsets → stable (R + off)) →
    total (λ s, serving e o R σ s ∧ stored w s) m
      (λ r s, serving e o R σ' s ∧ C (if r <? 0 then -1 else r) (us_load (s_world s)))) →
  total (λ s, exciter_ready s ∧ driver_settings s = σ) (driver_ioctl f cmd w)
    (λ r s, (exciter_ready s ∧ driver_settings s = σ') ∧ C (fst r) (snd r)).
Proof.
  intros Hm Ht s [Hr Hσ]. destruct (ready_serving s σ Hr Hσ) as [o Hs]. destruct Hr as [_ Hst].
  set (s1 := s <| s_world ::= us_store w |>).
  assert (serving (exciter_in_use (s_wb s)) o (regs_in_use (s_wb s)) σ s1) as Hs1.
  { apply (serving_world _ _ _ Hst σ s); [done |]. intros. by apply reg_store. }
  assert (stored w s1) as Hw by by exists (s_world s).
  specialize (Ht _ _ _ Hst _ (conj Hs1 Hw)).
  unfold driver_ioctl, mbind, M_bind, modify. rewrite Hm. fold s1.
  destruct (m s1) as [r s' | |]; [| done..]. destruct Ht as [Hs' HC].
  split; [| exact HC]. eapply serving_ready; [exact Hst | exact Hs'].
Qed.


Definition serves_get f w : Prop := ∀ σ,
  total (λ s, exciter_ready s ∧ driver_settings s = σ) (driver_ioctl f WE_GET w)
    (λ r s, (exciter_ready s ∧ driver_settings s = σ) ∧
      fst r = 0 ∧ blank (snd r) ∧ block_settings (snd r) = σ).
Definition serves_set f w : Prop := ∀ σ,
  total (λ s, exciter_ready s ∧ driver_settings s = σ) (driver_ioctl f WE_SET w)
    (λ r s, (exciter_ready s ∧ driver_settings s = block_settings w) ∧ fst r = 0).
Lemma driver_serves_get f w : serves_get f w.
Proof.
  intros σ. eapply driver_ioctl_total with (C := λ r l, r = 0 ∧ blank l ∧ block_settings l = σ);
    [apply ioctl_we_get_case |].
  intros e o R Hst. eapply total_conseq; [by apply (exciter_get_serves e o R Hst σ) | by intros s [? _] |].
  by intros r s (? & -> & ? & ?).
Qed.
Lemma driver_serves_set f w : blank w → serves_set f w.
Proof.
  intros Hw σ. eapply driver_ioctl_total with (C := λ r _, r = 0); [apply ioctl_we_set_case |].
  intros e o R Hst. eapply total_conseq; [by apply (exciter_set_serves e o R Hst σ w Hw) | done |].
  by intros r s (? & ->).
Qed.
#[global] Instance driver_contract : ExciterContract exciter_ready driver_settings.
Proof.
  split.
  - intros σ s [Hr Hσ]. destruct (ready_serving s σ Hr Hσ) as [o Hs]. destruct Hr as [_ Hst].
    cbn. unfold local_args, mbind, M_bind, call. split; [| apply as_args_length].
    eapply serving_ready; [exact Hst |]. eapply (serving_world _ _ _ Hst σ s); [exact Hs |].
    intros. by apply reg_stack.
  - intros f w σ _. apply driver_serves_get.
  - intros f w σ Hw. by apply driver_serves_set.
Qed.

(** C21: the driver honours the contract of the exciter's settings.  With the mock or the
    real exciter in use, and registers that keep what is written to the five settings,
    a request for the settings answers 0 with their values in the block, and a request
    to set them answers 0 and leaves the registers with the values of the block: no
    other step of the two handlers (reading the state, which the mock computes from its
    ring, setting it, looking for room) touches them.  [driver_device] is then a device
    on which the library's round trips hold. *)
Theorem driver_keeps_settings f w : blank w → serves_get f w ∧ serves_set f w.
Proof. intros Hw. split; [apply driver_serves_get | by apply driver_serves_set]. Qed.

(** ** The contract of the filter *)

Definition fir_word (s : sys W) : Z := reg (s_world s) (regs_in_use (s_wb s) + wer_fir).
Definition mock_filter (s : sys W) : filter_state :=
  Filter ((fir_word s &&& 0x180) >>> 7) (fir_word s &&& 0x7f) (mx_fir_coeff (wb_mock_exciter (s_wb s))).
Definition filter_ready (s : sys W) : Prop :=
  exciter_in_use (s_wb s) = Mock ∧ ex_ops (exciter_of (s_wb s) Mock) = Some mock_ops ∧
  length (mx_fir_coeff (wb_mock_exciter (s_wb s))) = 128%nat ∧
  stable (regs_in_use (s_wb s) + wer_fir).
Definition filtering (c : filter_state) (s : sys W) : Prop := filter_ready s ∧ mock_filter s = c.
Implicit Types (c : filter_state).

Lemma filtering_world c s w' :
  filtering c s → (∀ b, stable b → reg w' b = reg (s_world s) b) → filtering c (s <| s_world := w' |>).
Proof.
  intros [Hr <-] Hw. split; [exact Hr |]. destruct Hr as (_ & _ & _ & Hst).
  unfold mock_filter, fir_word. cbn. by rewrite Hw.
Qed.
Lemma filtering_the_exciter {A} c P (k : which → M (sys W) A) Q :
  (∀ s, P s → filtering c s) → total P (k Mock) Q → total P (x ← the_exciter; k x) Q.
Proof.
  intros HP Hk s Hs. destruct (HP s Hs) as [(Hu & _) _]. unfold the_exciter, mbind, M_bind, get_wb, gets.
  change (rk_exciter (wb_rf_sink (s_wb s))) with (exciter_in_use (s_wb s)). rewrite Hu. by apply Hk.
Qed.
Lemma filtering_call_ops {A} c (real mock : M (sys W) A) Q :
  total (filtering c) mock Q → total (filtering c) (exciter_call Mock real mock) Q.
Proof.
  intros Hm s Hs. pose proof Hs as [(_ & Ho & _) _].
  unfold exciter_call, mbind, M_bind, get_wb, gets. rewrite Ho. by apply Hm.
Qed.

Lemma access_bits v m :
  m = 0x7f ∨ m = 0x180 → ((v ||| WF_ACCESS_COEFFS) &&& u32 (~: WF_ACCESS_COEFFS)) &&& m = v &&& m.
Proof.
  intros Hm. assert (u32 (~: WF_ACCESS_COEFFS) &&& m = m ∧ WF_ACCESS_COEFFS &&& m = 0) as [Hk Ha]
    by by destruct Hm as [-> | ->].
  by rewrite <- Z.land_assoc, Hk, Z.land_lor_distr_l, Ha, Z.lor_0_r.
Qed.

Lemma total_get_fir c :
  total (filtering c) (exciter_get_fir Mock)
    (λ v s, filtering c s ∧ (v &&& 0x180) >>> 7 = fs_bank c ∧ v &&& 0x7f = fs_n c).
Proof.
  apply (filtering_call_ops c). intros s [Hr Hc]. destruct Hr as (Hu & Ho & Hl & Hst) eqn:Er. clear Er.
  assert (ex_regs (exciter_of (s_wb s) Mock) = regs_in_use (s_wb s)) as HR
    by (unfold regs_in_use; by rewrite Hu).
  unfold _exciter_get_fir, exciter_read, exciter_regs, mbind, M_bind, get_wb, gets, readl, call.
  rewrite HR. split.
  - apply filtering_world; [by split |]. intros. by apply reg_after_readl.
  - rewrite reg_readl by done. by subst c.
Qed.
Lemma total_set_fir c v :
  total (filtering c) (exciter_set_fir Mock (v ||| WF_ACCESS_COEFFS))
    (λ _, filtering (Filter ((v &&& 0x180) >>> 7) (v &&& 0x7f) (fs_coeffs c))).
Proof.
  apply (filtering_call_ops c). intros s [Hr Hc]. destruct Hr as (Hu & Ho & Hl & Hst) eqn:Er. clear Er.
  assert (ex_regs (exciter_of (s_wb s) Mock) = regs_in_use (s_wb s)) as HR
    by (unfold regs_in_use; by rewrite Hu).
  unfold _mock_exciter_set_fir, exciter_write, exciter_regs, mbind, M_bind, get_wb, gets, writel, call_, modify.
  rewrite HR. split; [exact Hr |]. unfold mock_filter, fir_word. cbn.
  rewrite reg_writel by done. rewrite decide_True by done. rewrite !access_bits by auto. by subst c.
Qed.

(** The two loops. *)
Lemma total_get_coeffs c n i w :
  blank w → (i + n ≤ 128)%nat →
  total (filtering c) (fir_get_loop Mock n (Z.of_nat i) w) (λ w' s, filtering c s ∧ blank w' ∧
    fir_n w' = fir_n w ∧ fir_coeffs w' = overwrite i (u32 <$> take n (drop i (fs_coeffs c))) (fir_coeffs w)).
Proof.
  revert i w. induction n as [|n IH]; intros i w Hw Hn.
  { apply total_ret. intros s Hs. split; [done |]. split; [done |]. split; [done |].
    symmetry. apply overwrite_nil. }
  intros s Hs. pose proof Hs as [(_ & Ho & Hl & _) Hc].
  destruct (lookup_lt_is_Some_2 (fs_coeffs c) i) as [x Hx]; [subst c; cbn; lia |].
  destruct (lookup_lt_is_Some_2 (fir_coeffs w) i) as [y Hy]; [rewrite fir_coeffs_length by done; lia |].
  assert (blank (set_word (1 + Z.of_nat i) (u32 x) w)) as Hw' by by unfold blank; rewrite set_word_length.
  pose proof (IH (S i) _ Hw' ltac:(lia) s Hs) as Ht.
  cbn [fir_get_loop]. unfold exciter_get_fir_coeff, exciter_call, _mock_exciter_get_fir_coeff.
  unfold mbind, M_bind, get_wb, gets. rewrite Ho. replace (mx_fir_coeff _) with (fs_coeffs c) by by subst c.
  rewrite (runs_get_index (fs_coeffs c) (Z.of_nat i) x), (runs_get_index (fir_coeffs w) (Z.of_nat i) y)
    by (lia || by rewrite Nat2Z.id).
  replace (Z.of_nat i + 1) with (Z.of_nat (S i)) by lia.
  destruct (fir_get_loop Mock n _ _ s) as [w1 s1 | |]; [| done..]. destruct Ht as (Hf & Hb & Hfn & Hfc).
  split; [done |]. split; [done |]. rewrite Hfn, Hfc. unfold fir_n.
  rewrite byte_of_set_coeff, fir_coeffs_set_word, Nat2Z.id by (done || lia). split; [done |].
  rewrite overwrite_cons by (rewrite fir_coeffs_length by done; lia).
  by rewrite (drop_cons_lookup _ _ _ _ Hx).
Qed.
Lemma total_set_coeff c i x w :
  (i < 128)%nat → fir_coeffs w !! i = Some x →
  total (filtering c) (fir_set_coeff Mock w (Z.of_nat i))
    (λ _, filtering (Filter (fs_bank c) (fs_n c) (<[i := s32 x]> (fs_coeffs c)))).
Proof.
  intros Hi Hx s [(Hu & Ho & Hl & Hst) Hc].
  destruct (lookup_lt_is_Some_2 (fs_coeffs c) i) as [y Hy]; [subst c; cbn; lia |].
  unfold fir_set_coeff, exciter_set_fir_coeff, exciter_call, _mock_exciter_set_fir_coeff.
  unfold mbind, M_bind, get_wb, gets, u8. rewrite (Z.mod_small (Z.of_nat i)) by lia.
  rewrite (runs_get_index (fir_coeffs w) (Z.of_nat i) x) by (lia || by rewrite Nat2Z.id). rewrite Ho.
  rewrite (runs_get_index _ (Z.of_nat i) y) by (lia || (rewrite Nat2Z.id; by subst c)).
  unfold upd_wb, modify. rewrite Nat2Z.id.
  subst c. split; [| done]. split; [done |]. split; [done |]. split; [| done].
  cbn. by rewrite length_insert.
Qed.
Lemma total_set_coeffs c n i w :
  blank w → (i + n ≤ 128)%nat → length (fs_coeffs c) = 128%nat →
  total (filtering c) (for_loop n (Z.of_nat i) (fir_set_coeff Mock w)) (λ _, filtering
    (Filter (fs_bank c) (fs_n c) (overwrite i (s32 <$> take n (drop i (fir_coeffs w))) (fs_coeffs c)))).
Proof.
  revert i c. induction n as [|n IH]; intros i c Hw Hn Hl.
  { apply total_ret. intros s Hs. rewrite take_0. change (s32 <$> []) with (@nil Z).
    rewrite overwrite_nil. by destruct c. }
  destruct (lookup_lt_is_Some_2 (fir_coeffs w) i) as [x Hx]; [rewrite fir_coeffs_length by done; lia |].
  cbn [for_loop]. eapply total_bind; [apply (total_set_coeff c i x w); [lia | done] |]. intros ?.
  replace (Z.of_nat i + 1) with (Z.of_nat (S i)) by lia.
  eapply total_conseq; [apply (IH (S i) (Filter (fs_bank c) (fs_n c) (<[i := s32 x]> (fs_coeffs c)))); [done | lia | by cbn; rewrite length_insert] | done |].
  intros ? s Hs. cbn [fs_bank fs_n fs_coeffs] in Hs. rewrite overwrite_cons in Hs by lia.
  by rewrite (drop_cons_lookup _ _ _ _ Hx).
Qed.

(** The whole of the two requests. *)
Lemma fir_n_range w : 0 ≤ fir_n w < 256.
Proof.
  unfold fir_n, byte_of. change 0xff with (2 ^ 8 - 1). rewrite land_ones_low by lia.
  apply Z.mod_pos_bound. lia.
Qed.
Lemma low7_range v : 0 ≤ v &&& 0x7f < 128.
Proof. change 0x7f with (2 ^ 7 - 1). rewrite land_ones_low by lia. apply Z.mod_pos_bound. lia. Qed.

Lemma fir_get_serves c :
  total (filtering c) (whitebox_ioctl_fir_get (us_block (W := W))) (λ r s, filtering c s ∧
    let w := us_load (s_world s) in blank w ∧ fir_n w = fs_n c ∧
    take (Z.to_nat (fs_n c)) (fir_coeffs w) = u32 <$> take (Z.to_nat (fs_n c)) (fs_coeffs c)).
Proof.
  unfold whitebox_ioctl_fir_get. eapply filtering_the_exciter; [done |].
  eapply total_bind_pure with (R := filtering c) (C := blank).
  { intros s Hs. split; [| apply as_args_length]. apply filtering_world; [done |]. intros. by apply reg_stack. }
  intros w Hw. eapply total_bind_pure; [apply (total_get_fir c) |]. intros v [Hb Hn]. cbv zeta.
  eapply total_bind; [apply total_set_fir |]. intros ?. rewrite Hb, Hn.
  pose proof (low7_range v) as Hr. rewrite Hn in Hr. set (w0 := set_byte 1 _ _).
  assert (blank w0) as Hw0 by (unfold w0, blank; by rewrite !set_byte_length).
  assert (fir_n w0 = fs_n c) as Hn0.
  { unfold w0, fir_n. apply byte_of_set_byte_1; [by rewrite set_byte_length | lia]. }
  replace (Filter _ _ _) with c by by destruct c.
  eapply total_bind; [apply (total_get_coeffs c (Z.to_nat (fs_n c)) 0 w0 Hw0); lia |].
  intros w' s (Hs & Hw' & Hfn & Hfc). unfold return_args, mbind, M_bind, call, mret, M_ret.
  destruct (us_put w' (s_world s)) as [-> Hload]. cbn [negb].
  split; [apply filtering_world; [done |]; intros; by apply reg_put_user |].
  cbn. rewrite Hload, Hfn, Hfc, drop_0. split; [done |]. split; [done |].
  assert (length (fs_coeffs c) = 128%nat) as Hl by by destruct Hs as [(_ & _ & Hl & _) <-].
  apply take_overwrite. rewrite length_fmap, length_take. lia.
Qed.
Lemma fir_set_serves c w :
  blank w → fir_n w < 128 →
  total (λ s, filtering c s ∧ stored w s) (whitebox_ioctl_fir_set (us_block (W := W)))
    (λ r s, filtering (load_filter w c) s).
Proof.
  intros Hw Hn. unfold whitebox_ioctl_fir_set.
  apply (filtering_the_exciter c); [by intros s [? _] |].
  intros s [Hs [w0 Hw0]]. unfold with_user_args, mbind at 1, M_bind at 1, call. cbv beta.
  assert ((k_get_user_words (us_block (W := W)) args_words (s_world s)).1 = (false, w)) as Hget.
  { rewrite Hw0. rewrite <- Hw. apply us_get. }
  rewrite Hget. cbn [fst snd]. rewrite as_args_id by done.
  eapply filtering_world in Hs; [| intros b Hb; exact (reg_get_user (us_block (W := W)) args_words b (s_world s) Hb)].
  revert Hs. generalize (s <| s_world := (k_get_user_words (us_block (W := W)) args_words (s_world s)).2 |>).
  clear s w0 Hw0 Hget. intros s Hs.
  assert (length (fs_coeffs c) = 128%nat) as Hl by by destruct Hs as [(_ & _ & Hl & _) <-].
  revert s Hs. pose proof (fir_n_range w). pose proof (low7_range (fir_n w)).
  cbv zeta. set (v := ((fir_bank w &&& 0x3) <<< 7) ||| (fir_n w &&& 0x7f)).
  assert ((v &&& 0x180) >>> 7 = fir_bank w &&& 0x3 ∧ v &&& 0x7f = fir_n w) as [Hvb Hvn].
  { assert (v = fir_n w + (fir_bank w &&& 3) * 2 ^ 7) as ->.
    { unfold v. change 0x7f with (2 ^ 7 - 1). rewrite land_ones_low, Z.mod_small by lia.
      rewrite Z.lor_comm. apply lor_shifted; lia. }
    split; [| apply (low_field _ _ 7); lia].
    rewrite Z.shiftr_land, high_field by lia. rewrite <- Z.land_assoc. done. }
  eapply total_bind; [apply total_set_fir |]. intros ?. rewrite Hvb, Hvn.
  eapply total_bind; [apply (total_set_coeffs _ (Z.to_nat (fir_n w)) 0 w Hw); [lia | done] |]. intros ?.
  apply total_ret. intros s Hs. unfold load_filter. by rewrite drop_0 in Hs.
Qed.


Lemma filtering_stored c w s :
  filtering c s → let s1 := s <| s_world ::= us_store w |> in filtering c s1 ∧ stored w s1.
Proof.
  intros Hs. split; [| by exists (s_world s)].
  apply (filtering_world c s); [done |]. intros. by apply reg_store.
Qed.
#[global] Instance driver_filter_contract : FilterContract filter_ready mock_filter.
Proof.
  split.
  - intros c s Hs. split; [| apply as_args_length]. apply filtering_world; [exact Hs |].
    intros. by apply reg_stack.
  - intros f w c _ s Hs. destruct (filtering_stored c w s Hs) as [Hs1 _]. cbv zeta in Hs1.
    cbn [d_ioctl driver_device]. unfold driver_ioctl, mbind, M_bind, modify. rewrite ioctl_wf_get_case.
    pose proof (fir_get_serves c _ Hs1) as Ht.
    destruct (whitebox_ioctl_fir_get _ _) as [r s' | |]; [exact Ht | done..].
  - intros f w c Hw Hn s Hs. pose proof (filtering_stored c w s Hs) as Hs1. cbv zeta in Hs1.
    cbn [d_ioctl driver_device]. unfold driver_ioctl, mbind, M_bind, modify. rewrite ioctl_fir_set_case.
    pose proof (fir_set_serves c w Hw Hn _ Hs1) as Ht.
    by destruct (whitebox_ioctl_fir_set _ _) as [r s' | |].
Qed.
End driver.

(** ** A concrete device *)

#[global] Instance sim_user_space : UserSpace sim := {|
  us_block := 0x40000000;
  us_store l w := w <| m_words ::= <[0x40000000 := l]> |>;
  us_load w := default [] (m_words w !! 0x40000000);
|}.
Definition sim_reg (w : sim) (a : Z) : Z := default 0 (m_regs w !! a).
#[global] Instance sim_user_memory : UserMemory sim.
Proof.
  split; intros; cbn; rewrite lookup_insert_eq; cbn; [| done].
  by rewrite take_app_length.
Qed.
#[global] Instance sim_registers : Registers (λ _, True) sim_reg.
Proof.
  split; intros; try done. unfold sim_reg. cbn. unfold upd. cbn.
  destruct (decide (a = b)) as [-> |]; [by rewrite lookup_insert_eq | by rewrite lookup_insert_ne].
Qed.

(** The mock exciter in use. *)
Definition sim_mocked : sys sim := Sys sim_params zero_pdma 1
  (sim_device <| wb_rf_sink ::= λ r, r <| rk_exciter := Mock |> |>) sim0.
Definition sim_prog : prog (sys sim) := Prog sim_handle sim_mocked.

#[local] Existing Instance circ_macros.
#[local] Existing Instance ioctl_macros.

Lemma sim_mocked_ready : exciter_ready (λ _, True) sim_mocked.
Proof. split; [by eexists | done]. Qed.

Definition sim_settings : exciter_settings := driver_settings sim_reg sim_mocked.
Definition reads_after {A B} (m : M (prog (sys sim)) A) (g : M (prog (sys sim)) B) : option B :=
  match (_ ← m; g) sim_prog with Done r _ => Some r | _ => None end.

Lemma settings_round_trip_witness :
  holds sim_handle (set_to (exciter_ready (λ _, True)) (driver_settings sim_reg) sim_settings) sim_prog ∧
  post_total (λ r s',
      holds sim_handle (set_to (exciter_ready (λ _, True)) (driver_settings sim_reg)
        (sim_settings <| xs_correction := correction_of (-512) 511 |>)) s' ∧
      r = (sext10 (-512), sext10 511) ∧
      (- 512 ≤ -512 < 512 → - 512 ≤ 511 < 512 → r = (-512, 511)))
    ((_ ← whitebox_tx_set_correction (-512) 511; whitebox_tx_get_correction) sim_prog) ∧
  reads_after (whitebox_tx_set_correction (-3) 700) whitebox_tx_get_correction = Some (-3, -324).
Proof.
  assert (holds sim_handle (set_to (exciter_ready (λ _, True)) (driver_settings sim_reg) sim_settings)
    sim_prog) as Hs by (split; [done |]; split; [exact sim_mocked_ready | done]).
  split; [exact Hs |]. split; [| vm_compute; reflexivity].
  apply (proj1 (settings_round_trip (exciter_ready (λ _, True)) (driver_settings sim_reg)
    sim_handle sim_settings sim_prog Hs)).
Defined.

Lemma driver_keeps_settings_witness :
  let w := replicate args_words 7 in
  blank w ∧ serves_get (λ _, True) sim_reg 3 w ∧ serves_set (λ _, True) sim_reg 3 w.
Proof. split; [reflexivity | apply driver_keeps_settings; [apply _.. | reflexivity]]. Defined.

Definition sim_coeffs : list Z := [-(2 ^ 31); -1; 0; 2 ^ 31 - 1; 5].
Lemma fir_round_trip_witness :
  post_total (λ r s', p_wb s' = sim_handle ∧ filter_ready (λ _, True) (p_os s') ∧
      r = (4, overwrite 0 (take 4 sim_coeffs) [9; 9; 9; 9; 9; 9]))
    ((_ ← whitebox_fir_load_coeffs 1 4 sim_coeffs; whitebox_fir_get_coeffs 1 4 [9; 9; 9; 9; 9; 9]) sim_prog) ∧
  reads_after (whitebox_fir_load_coeffs 1 4 sim_coeffs) (whitebox_fir_get_coeffs 1 4 [9; 9; 9; 9; 9; 9]) =
    Some (4, [-(2 ^ 31); -1; 0; 2 ^ 31 - 1; 9; 9]).
Proof.
  split; [| vm_compute; reflexivity].
  apply (fir_round_trip (filter_ready (λ _, True)) (mock_filter sim_reg) sim_handle
    (mock_filter sim_reg sim_mocked) 1 4 sim_coeffs [9; 9; 9; 9; 9; 9] sim_prog).
  - split; [done |]. split; [| done]. repeat split.
  - lia.
  - cbn. lia.
  - cbn. lia.
  - unfold sim_coeffs. repeat constructor; discriminate.
Defined.

(** The chips lock between the first request and the second. *)
Definition locking : sys sim :=
  sim_mocked <| s_world := sim0 <| m_gpio_in := replicate 9 0 ++ replicate 9 1 |> |>.
Definition after_poll (d : sys sim) : sys sim := match poll_once 3 d with Done _ d' => d' | _ => d end.

Lemma plls_locked_waits_witness :
  whitebox_plls_locked (Prog sim_handle locking) =
    Done 1 (Prog sim_handle (after_poll (after_poll locking))).
Proof.
  apply (proj2 (plls_locked_waits (Prog sim_handle locking) 1 (after_poll locking)
    (after_poll (after_poll locking)) 1 ltac:(exists (after_poll locking); split; [vm_compute |]; reflexivity))).
  - lia.
  - vm_compute. reflexivity.
  - discriminate.
Defined.
