(* ===== verification/RadioSpec.v ===== *)
(** * Tuning reaches the radio

    [whitebox_tx] and [whitebox_rx] against a contract of the device: the words of both
    synthesizers are those last set.  Over the models of both chips they leave the
    ADF4351 at the frequency asked for and the CMX991 with one path powered. *)

From Stdlib Require Import Floats.SpecFloat.
From S2P Require Import Prelude Kernel State Ioctl Block Ieee IeeeSpec Regs RegsSpec SynthSpec MixerSpec PllSpec.
From S2P Require Import Library LibrarySpec RadioChips.
From S2P Require Adf4351 Cmx991.

(** ** The contract *)

(** [adf] and [cmx]: the words and the bytes the device was last given. *)
Definition kept {D} (ready : D → Prop) (adf cmx : D → list Z) (a c : list Z) (d : D) : Prop :=
  ready d ∧ adf d = a ∧ cmx d = c.
Class SynthContract {D} `{!Device D} `{!IoctlMacros} (ready : D → Prop) (adf cmx : D → list Z) : Prop := {
  sy_stack a c : total (kept ready adf cmx a c) d_stack (λ w d, kept ready adf cmx a c d ∧ blank w);
  sy_get f cmd w a c : cmd = WA_GET ∨ cmd = WC_GET → blank w →
    total (kept ready adf cmx a c) (d_ioctl f cmd w)
      (λ r d, kept ready adf cmx a c d ∧ fst r = 0 ∧ blank (snd r));
  sy_wa_set f w a c : blank w → total (kept ready adf cmx a c) (d_ioctl f WA_SET w)
    (λ r d, kept ready adf cmx (word_of w <$> seqZ 0 6) c d ∧ fst r = 0 ∧ blank (snd r));
  sy_wc_set f w a c : blank w → total (kept ready adf cmx a c) (d_ioctl f WC_SET w)
    (λ r d, kept ready adf cmx a (byte_of w <$> seqZ 0 10) d ∧ fst r = 0 ∧ blank (snd r));
  sy_exciter f cmd w a c : cmd = WE_CLEAR ∨ cmd = WE_GET ∨ cmd = WE_SET →
    total (kept ready adf cmx a c) (d_ioctl f cmd w)
      (λ r d, kept ready adf cmx a c d ∧ (cmd = WE_CLEAR → fst r = 0));
}.

(** ** What the library's steps do to the handle *)

Section handle.
Context {D : Type} `{!Device D}.
Implicit Types (h : whitebox_t) (P : D → Prop).

Lemma total_on_cmx991 {A} h P f (k : () → M (prog D) A) R :
  total (holds (h <| cmx991 ::= f |>) P) (k ()) R → total (holds h P) (x ← on_cmx991 f; k x) R.
Proof. intros Hk [h' d] [Hh Hd]. cbn in Hh. subst h'. by apply Hk. Qed.
Lemma total_on_adf4351 {A} h P f (k : () → M (prog D) A) R :
  total (holds (h <| adf4351 ::= f |>) P) (k ()) R → total (holds h P) (x ← on_adf4351 f; k x) R.
Proof. intros Hk [h' d] [Hh Hd]. cbn in Hh. subst h'. by apply Hk. Qed.
Lemma total_tune {A} h P vco a (k : () → M (prog D) A) R :
  adf4351_pll_enable WA_CLOCK_RATE (hertz 8000) (f64_of_f32 vco) (adf4351 h) = Some a →
  total (holds (h <| adf4351 := a |>) P) (k ()) R → total (holds h P) (x ← tune_adf4351 vco; k x) R.
Proof.
  intros Ha Hk [h' d] [Hh Hd]. cbn in Hh. subst h'.
  unfold tune_adf4351, mbind, M_bind, get_handle, gets. cbn [p_wb]. rewrite Ha. by apply Hk.
Qed.
Lemma total_pll {A} h P r c (k : Z → M (prog D) A) R :
  cmx991_pll_enable_m_n (hertz 19200000) 192 1800 (cmx991 h) = (r, c) →
  total (holds (h <| cmx991 := c |>) P) (k r) R → total (holds h P) (x ← tune_cmx991_pll; k x) R.
Proof.
  intros Hr Hk [h' d] [Hh Hd]. cbn in Hh. subst h'.
  unfold tune_cmx991_pll, pll_enable_m_n, mbind, M_bind, get_handle, gets. cbn [p_wb]. rewrite Hr.
  by apply Hk.
Qed.
Lemma total_cmx991_block {A} h P w (k : whitebox_args_t → M (prog D) A) R :
  (let r := cmx991_ioctl_set (cmx991 h) w in
   total (holds (h <| cmx991 := r.1 |>) P) (k r.2) R) → total (holds h P) (x ← cmx991_to_block w; k x) R.
Proof. intros Hk [h' d] [Hh Hd]. cbn in Hh. subst h'. by apply Hk. Qed.
Lemma total_adf4351_block {A} h P w (k : whitebox_args_t → M (prog D) A) R :
  (let r := adf4351_ioctl_set (adf4351 h) w in
   total (holds (h <| adf4351 := r.1 |>) P) (k r.2) R) → total (holds h P) (x ← adf4351_to_block w; k x) R.
Proof. intros Hk [h' d] [Hh Hd]. cbn in Hh. subst h'. by apply Hk. Qed.
End handle.

(** ** The radio after tuning *)

(** The oscillator's output is less than a step below [t] hertz. *)
Definition tuned_to (t : Z) (a : Adf4351.adf4351_t) : Prop :=
  ∃ k, 0 ≤ k ≤ 5 ∧ Adf4351.get_divider a = Some (2 ^ k) ∧
    0 ≤ t * 2 ^ k - step_hz * frequency_steps a < step_hz ∧
    0 ≤ Adf4351.frac_12_bit a < Adf4351.mod_12_bit a ∧
    Adf4351.rf_output_enable a = 1 ∧ Adf4351.aux_output_enable a = 1.
(** The loop of the intermediate frequency is on, at 19.2 MHz * 1800 / 192. *)
Definition if_loop_on (c : Cmx991.cmx991_t) : Prop :=
  Cmx991.cmx991_get_m c = 192 ∧ Cmx991.cmx991_get_n c = 1800 ∧ Cmx991.pll c = 1 ∧
  Cmx991.charge_pump c = 1 ∧ Cmx991.ifh c = 1 ∧ Cmx991.vco_nr_en c = 1 ∧ Cmx991.vco_buf_en c = 1 ∧
  Cmx991.en_bias c = 1 ∧ Cmx991.vbias c = 1.
Definition transmitting (t : Z) (c : Cmx991.cmx991_t) : Prop :=
  if_loop_on c ∧ Cmx991.tx_mix_pwr c = 1 ∧ Cmx991.iq_mod_pwr c = 1 ∧ Cmx991.lna c = 0 ∧
  Cmx991.mix_pwr c = 0 ∧ Cmx991.iq_pwr c = 0 ∧ Cmx991.sli_pwr c = 0 ∧ Cmx991.iq_out c = 1 ∧
  Cmx991.freq c = if 600000000 <? t then 1 else 0.
Definition receiving_path (c : Cmx991.cmx991_t) : Prop :=
  if_loop_on c ∧ Cmx991.tx_mix_pwr c = 0 ∧ Cmx991.iq_mod_pwr c = 0 ∧ Cmx991.lna c = 1 ∧
  Cmx991.mix_pwr c = 1 ∧ Cmx991.iq_pwr c = 1 ∧ Cmx991.sli_pwr c = 1 ∧ Cmx991.rx_mode c = 0.

Abbreviation adf4351_ok := (chip_ok Adf4351.adf4351_regs).
Abbreviation cmx991_ok := (chip_ok Cmx991.cmx991_regs).

Lemma tuned_to_spec t rf vco : stands (f64_of_f32 vco) t → 68750000 ≤ t ≤ 4400000000 → adf4351_ok rf →
  ∃ a, adf4351_pll_enable WA_CLOCK_RATE (hertz 8000) (f64_of_f32 vco) rf = Some a ∧
    tuned_to t a ∧ adf4351_ok a.
Proof.
  intros Hs Ht Hok. destruct (tune_defined rf _ t Hs Ht) as (k & f & Htune & Hk & Hv & _).
  exists (tuned k (t * 2 ^ k) rf). cbn [adf4351_pll_enable radio_chips].
  change (Adf4351.adf4351_pll_enable rf WA_CLOCK_RATE (hertz 8000) (f64_of_f32 vco))
    with (tune rf (f64_of_f32 vco)). rewrite Htune. split; [done |].
  split; [| apply tuned_ok; lia || done]. exists k. split; [done |]. split; [by apply get_divider_pow |].
  pose proof (dividers_of (t * 2 ^ k) k rf Hv) as Hd. cbv zeta in Hd. destruct Hd as (Hfs & Hfrac & _).
  split; [| split; [exact Hfrac | done]]. rewrite Hfs.
  pose proof (Z.mod_pos_bound (t * 2 ^ k) step_hz ltac:(done)).
  pose proof (Z.div_mod (t * 2 ^ k) step_hz ltac:(done)). lia.
Qed.

Lemma adf4351_init_ok rf : adf4351_ok (Adf4351.adf4351_init rf).
Proof. by apply (init_fields_ok _ 3 32 _ adf4351_layout). Qed.

(** ** The mixer's registers, step by step *)

Lemma if_loop_enabled rf : cmx991_ok rf →
  Cmx991.cmx991_pll_enable_m_n rf (hertz 19200000) 192 1800 =
  (0, (Cmx991.cmx991_set_n (Cmx991.cmx991_set_m rf 192) 1800)
    <| Cmx991.vco_nr := 1 |> <| Cmx991.ifh := 1 |> <| Cmx991.pll := 1 |>
    <| Cmx991.ld_synth := 0 |> <| Cmx991.charge_pump := 1 |>).
Proof.
  intros Hok. unfold Cmx991.cmx991_pll_enable_m_n. cbv zeta.
  destruct (dividers_set rf 192 1800) as [Hm Hn]; [by vm_compute |].
  unfold Cmx991.cmx991_pll_actual_frequency. rewrite Hm, Hn.
  set (x := f64_mul _ _). assert (SFltb x (f64_of_Z 40000000) = false) as -> by (vm_compute; reflexivity).
  assert (SFltb (f64_of_Z 400000000) x = false) as -> by (vm_compute; reflexivity). cbn [orb].
  assert (Cmx991.ifh_for x = 1) as -> by (vm_compute; reflexivity).
  change (Cmx991.cmx991_enum "VCO_NR_MID_HIGH_Q") with 1. change (Cmx991.cmx991_enum "PLL_ENABLED") with 1.
  change (Cmx991.cmx991_enum "LD_SYNTH_UNLOCKED") with 0. change (Cmx991.cmx991_enum "CHARGE_PUMP_ENABLE") with 1.
  f_equal. apply cmx991_copy_eq.
  pose proof (set_m_n_ok rf 192 1800 Hok) as Ht. revert Ht. generalize (Cmx991.cmx991_set_n (Cmx991.cmx991_set_m rf 192) 1800).
  intros t Ht. members_kept Ht.
Qed.

(** From the bytes of the block to those that are set. *)
Definition mixer_loop_on (c : Cmx991.cmx991_t) (w : whitebox_args_t) : Cmx991.cmx991_t :=
  (Cmx991.cmx991_pll_enable_m_n (Cmx991.cmx991_resume (Cmx991.cmx991_ioctl_get c w))
    (hertz 19200000) 192 1800).2.
Definition tx_arguments : list string :=
  ["IF_FILTER_BW_45MHZ"; "HI_LO_LOWER"; "TX_RF_DIV_BY_4"; "TX_IF_DIV_BY_4"; "GAIN_P6DB"].
Definition rx_arguments : list string :=
  ["RX_RF_DIV_BY_4"; "MIX_OUT_MIXOUT1"; "IF_IN_IFIP1"; "IQ_FILTER_BW_1MHZ"; "VGA_N0DB"].
Definition after_tx (c : Cmx991.cmx991_t) (w : whitebox_args_t) (vco : f32) : Cmx991.cmx991_t :=
  cmx991_tx_tune vco tx_arguments (mixer_loop_on c w).
Definition after_rx (c : Cmx991.cmx991_t) (w : whitebox_args_t) : Cmx991.cmx991_t :=
  cmx991_rx_tune rx_arguments (mixer_loop_on c w).

Lemma mixer_loop_on_spec c w : ∃ c1, cmx991_ok c1 ∧ Cmx991.vco_nr_en c1 = 1 ∧ Cmx991.vco_buf_en c1 = 1 ∧
  Cmx991.en_bias c1 = 1 ∧ Cmx991.vbias c1 = 1 ∧
  Cmx991.cmx991_pll_enable_m_n (Cmx991.cmx991_resume (Cmx991.cmx991_ioctl_get c w)) (hertz 19200000) 192 1800 =
    (0, mixer_loop_on c w) ∧
  mixer_loop_on c w = (Cmx991.cmx991_set_n (Cmx991.cmx991_set_m c1 192) 1800)
    <| Cmx991.vco_nr := 1 |> <| Cmx991.ifh := 1 |> <| Cmx991.pll := 1 |>
    <| Cmx991.ld_synth := 0 |> <| Cmx991.charge_pump := 1 |>.
Proof.
  pose proof (resume_ok _ (cmx991_get_ok c w)) as Hok. unfold mixer_loop_on.
  rewrite (if_loop_enabled _ Hok). eexists. by split_and!.
Qed.
(** What both paths start from: the loop is on, and the other members are in range. *)
Lemma mixer_looped c w : if_loop_on (mixer_loop_on c w) ∧ cmx991_ok (mixer_loop_on c w).
Proof.
  destruct (mixer_loop_on_spec c w) as (c1 & Hok & H1 & H2 & H3 & H4 & _ & ->).
  destruct (dividers_set c1 192 1800) as [Hm Hn]; [by vm_compute |].
  pose proof (set_m_n_ok c1 192 1800 Hok) as Ht.
  change (Cmx991.vco_nr_en c1) with (Cmx991.vco_nr_en (Cmx991.cmx991_set_n (Cmx991.cmx991_set_m c1 192) 1800)) in H1.
  change (Cmx991.vco_buf_en c1) with (Cmx991.vco_buf_en (Cmx991.cmx991_set_n (Cmx991.cmx991_set_m c1 192) 1800)) in H2.
  change (Cmx991.en_bias c1) with (Cmx991.en_bias (Cmx991.cmx991_set_n (Cmx991.cmx991_set_m c1 192) 1800)) in H3.
  change (Cmx991.vbias c1) with (Cmx991.vbias (Cmx991.cmx991_set_n (Cmx991.cmx991_set_m c1 192) 1800)) in H4.
  revert Hm Hn Ht H1 H2 H3 H4. generalize (Cmx991.cmx991_set_n (Cmx991.cmx991_set_m c1 192) 1800).
  intros t Hm Hn Ht H1 H2 H3 H4. split; [by unfold if_loop_on | members_kept Ht].
Qed.

Lemma after_tx_spec c w vco t : stands (f64_of_f32 vco) t →
  let c' := (after_tx c w vco) <| Cmx991.ld_synth := 0 |> in transmitting t c' ∧ cmx991_ok c'.
Proof.
  intros Hs. cbv zeta. unfold after_tx. destruct (mixer_looped c w) as [Hl Ht].
  revert Hl Ht. generalize (mixer_loop_on c w). intros rf Hl Ht.
  cbn [cmx991_tx_tune radio_chips]. unfold Cmx991.cmx991_tx_tune.
  rewrite (stands_lt (f64_of_Z 600000000) _ 600000000 t) by (done || by apply stands_of_Z).
  unfold transmitting, if_loop_on in *.
  destruct (600000000 <? t); (split; [naive_solver | members_kept Ht]).
Qed.
Lemma after_rx_spec c w :
  let c' := (after_rx c w) <| Cmx991.ld_synth := 0 |> in receiving_path c' ∧ cmx991_ok c'.
Proof.
  cbv zeta. unfold after_rx. destruct (mixer_looped c w) as [Hl Ht].
  revert Hl Ht. generalize (mixer_loop_on c w). intros rf Hl Ht.
  unfold receiving_path, if_loop_on in *. split; [naive_solver | members_kept Ht].
Qed.

(** ** The two functions *)

Section tuning.
Context {D : Type} `{!Device D} `{!IoctlMacros} (ready : D → Prop) (adf cmx : D → list Z).
Context `{!SynthContract ready adf cmx}.
Abbreviation K := (kept ready adf cmx).
Implicit Types (h : whitebox_t) (a c : list Z).

Lemma total_block {A} h a c (k : whitebox_args_t → M (prog D) A) R :
  (∀ w, blank w → total (holds h (K a c)) (k w) R) →
  total (holds h (K a c)) (w ← local_block; k w) R.
Proof.
  intros Hk. eapply total_bind; [apply total_device, (sy_stack a c) |].
  intros w. by apply holds_pure, Hk.
Qed.
Lemma total_get {A} h a c cmd w (k : Z * whitebox_args_t → M (prog D) A) R :
  cmd = WA_GET ∨ cmd = WC_GET → blank w →
  (∀ w, blank w → total (holds h (K a c)) (k (0, w)) R) →
  total (holds h (K a c)) (r ← ioctl_with cmd w; k r) R.
Proof.
  intros Hc Hw Hk. eapply total_ioctl_with; [intros f; by apply (sy_get f cmd w a c) |].
  intros [r w']. apply holds_pure. intros [Hr Hb]. cbn in Hr, Hb. subst r. by apply Hk.
Qed.
Lemma total_wa_set {A} h a c w (k : Z * whitebox_args_t → M (prog D) A) R :
  blank w → (∀ w', blank w' → total (holds h (K (word_of w <$> seqZ 0 6) c)) (k (0, w')) R) →
  total (holds h (K a c)) (r ← ioctl_with WA_SET w; k r) R.
Proof.
  intros Hw Hk. eapply total_ioctl_with; [intros f; by apply (sy_wa_set f w a c) |].
  intros [r w']. apply holds_pure. intros [Hr Hb]. cbn in Hr, Hb. subst r. by apply Hk.
Qed.
Lemma total_wc_set {A} h a c w (k : Z * whitebox_args_t → M (prog D) A) R :
  blank w → (∀ w', blank w' → total (holds h (K a (byte_of w <$> seqZ 0 10))) (k (0, w')) R) →
  total (holds h (K a c)) (r ← ioctl_with WC_SET w; k r) R.
Proof.
  intros Hw Hk. eapply total_ioctl_with; [intros f; by apply (sy_wc_set f w a c) |].
  intros [r w']. apply holds_pure. intros [Hr Hb]. cbn in Hr, Hb. subst r. by apply Hk.
Qed.

(** The exciter's requests change neither chip. *)
Lemma total_clear h a c {A} (k : Z → M (prog D) A) R :
  total (holds h (K a c)) (k 0) R → total (holds h (K a c)) (x ← ioctl_only WE_CLEAR; k x) R.
Proof.
  intros Hk. eapply total_bind with (Q := R) (R := λ r s, holds h (K a c) s ∧ r = 0).
  - unfold ioctl_only, get_handle. apply total_gets. intros f.
    eapply total_conseq with (P := holds h (K a c)); [| by intros s [Hs _] | by intros r s Hs; exact Hs].
    apply (total_block h a c). intros w Hw.
    eapply total_bind; [apply total_device, (sy_exciter f WE_CLEAR w a c); by auto |].
    intros r. apply holds_pure. intros Hr. apply total_ret. intros s Hs. by split; [| apply Hr].
  - intros r s [Hs ->]. by apply Hk.
Qed.
Lemma total_flags h a c flags {A} (k : Z → M (prog D) A) R :
  (∀ r, total (holds h (K a c)) (k r) R) → total (holds h (K a c)) (x ← whitebox_tx_flags_enable flags; k x) R.
Proof.
  intros Hk. eapply total_bind with (Q := R) (R := λ _, holds h (K a c)); [| done].
  unfold whitebox_tx_flags_enable. apply total_block. intros w Hw.
  eapply total_ioctl_with; [intros f; apply (sy_exciter f WE_GET w a c); by auto |].
  intros r. apply holds_pure. intros _. case_match; [by apply total_ret |].
  eapply total_ioctl_with; [intros f; apply (sy_exciter f WE_SET _ a c); by auto |].
  intros r'. apply holds_pure. intros _. by apply total_ret.
Qed.

End tuning.

(** What the chips are given. *)
Definition adf4351_words_of (rf : Adf4351.adf4351_t) : list Z := Adf4351.adf4351_pack rf <$> seqZ 0 6.
Definition cmx991_bytes_of (rf : Cmx991.cmx991_t) : list Z := Cmx991.cmx991_pack rf <$> Cmx991.addr_lut.
Lemma adf4351_block rf w : blank w →
  blank (Adf4351.adf4351_ioctl_set rf w) ∧
  word_of (Adf4351.adf4351_ioctl_set rf w) <$> seqZ 0 6 = adf4351_words_of rf.
Proof.
  intros Hw. split.
  - unfold blank. rewrite <- Hw. exact (set_cells_length set_word set_word_length (Adf4351.adf4351_pack rf) 6 w).
  - apply list_fmap_ext. intros k i Hi. apply lookup_seqZ in Hi as [-> Hk]. apply adf4351_words; [done | lia].
Qed.
Lemma cmx991_block rf w : blank w →
  blank (Cmx991.cmx991_ioctl_set rf w).2 ∧
  byte_of (Cmx991.cmx991_ioctl_set rf w).2 <$> seqZ 0 10 = cmx991_bytes_of (rf <| Cmx991.ld_synth := 0 |>).
Proof.
  intros Hw. split.
  - unfold blank. rewrite <- Hw. exact (set_cells_length set_byte set_byte_length
      (λ i, Cmx991.cmx991_pack (rf <| Cmx991.ld_synth := 0 |>) (Cmx991.addr_of i)) 10 w).
  - unfold cmx991_bytes_of. change Cmx991.addr_lut with (Cmx991.addr_of <$> seqZ 0 10).
    rewrite <- list_fmap_compose. apply list_fmap_ext. intros k i Hi.
    apply lookup_seqZ in Hi as [-> Hk]. rewrite cmx991_bytes by (done || lia). done.
Qed.

Section tuned.
Context {D : Type} `{!Device D} `{!IoctlMacros} (ready : D → Prop) (adf cmx : D → list Z).
Context `{!SynthContract ready adf cmx}.
Abbreviation K := (kept ready adf cmx).
Implicit Types (h : whitebox_t) (a c : list Z).

(** The radio at [t] hertz with the mixer in the state [P]: registers and handle agree. *)
Definition radio_at (t : Z) (P : Cmx991.cmx991_t → Prop) (s : prog D) : Prop :=
  let a := adf4351 (p_wb s) in let c := cmx991 (p_wb s) in
  K (adf4351_words_of a) (cmx991_bytes_of c) (p_os s) ∧
  tuned_to t a ∧ adf4351_ok a ∧ P c ∧ cmx991_ok c.
Lemma radio_holds t (P : Cmx991.cmx991_t → Prop) h (a : Adf4351.adf4351_t) (c : Cmx991.cmx991_t) :
  adf4351 h = a → cmx991 h = c → tuned_to t a → adf4351_ok a → P c → cmx991_ok c →
  ∀ s, holds h (K (adf4351_words_of a) (cmx991_bytes_of c)) s → radio_at t P s.
Proof. intros <- <- ? ? ? ? s [Hh Hk]. unfold radio_at. by rewrite Hh. Qed.

(** The synthesizer's words are set, then the rest runs. *)
Lemma total_program {A} h a c w (ad : Adf4351.adf4351_t) (k : Z * whitebox_args_t → M (prog D) A) R :
  blank w → adf4351 h = ad →
  (∀ w, blank w → total (holds h (K (adf4351_words_of ad) c)) (k (0, w)) R) →
  total (holds h (K a c)) (w ← adf4351_to_block w; r ← ioctl_with WA_SET w; k r) R.
Proof.
  intros Hw Hh Hk. apply total_adf4351_block. cbv zeta. rewrite Hh. cbn [adf4351_ioctl_set radio_chips fst snd].
  destruct (adf4351_block ad w Hw) as [Hb Hl]. apply (total_wa_set ready adf cmx); [done |]. rewrite Hl.
  match goal with |- ∀ w, _ → total (holds ?h' _) _ _ => replace h' with h by (destruct h; cbn in Hh; subst; reflexivity) end.
  exact Hk.
Qed.
Lemma total_mix {A} h a c w (cm : Cmx991.cmx991_t) (k : Z * whitebox_args_t → M (prog D) A) R :
  blank w → cmx991 h = cm → let cm' := cm <| Cmx991.ld_synth := 0 |> in
  (∀ w, blank w → total (holds (h <| cmx991 := cm' |>) (K a (cmx991_bytes_of cm'))) (k (0, w)) R) →
  total (holds h (K a c)) (w ← cmx991_to_block w; r ← ioctl_with WC_SET w; k r) R.
Proof.
  intros Hw Hh cm' Hk. apply total_cmx991_block. cbv zeta. rewrite Hh. cbn [cmx991_ioctl_set radio_chips].
  destruct (cmx991_block cm w Hw) as [Hb Hl]. apply (total_wc_set ready adf cmx); [done |]. unfold cm' in Hk.
  rewrite <- Hl in Hk. exact Hk.
Qed.
Lemma not_too_low t vco : stands (f64_of_f32 vco) t → 68750000 ≤ t → too_low vco = false.
Proof.
  intros Hs Ht. unfold too_low, f64_le, SFleb, hertz.
  rewrite (stands_compare _ _ t 35000000) by (done || by apply stands_of_Z).
  destruct (Z.compare_spec t 35000000); [lia.. | done].
Qed.

(** The mixer's loop is started from the registers that were read. *)
Lemma total_loop {A} h P w (k : Z → M (prog D) A) R :
  total (holds (h <| cmx991 := mixer_loop_on (cmx991 h) w |>) P) (k 0) R →
  total (holds h P) (on_cmx991 (cmx991_ioctl_get w);; on_cmx991 cmx991_resume;; err ← tune_cmx991_pll; k err) R.
Proof.
  intros Hk. apply total_on_cmx991, total_on_cmx991.
  destruct (mixer_loop_on_spec (cmx991 h) w) as (_ & _ & _ & _ & _ & _ & Hr & _).
  eapply total_pll; [exact Hr | exact Hk].
Qed.

Lemma tx_reaches f t h : stands (f64_of_f32 (vco_of f)) t → 68750000 ≤ t ≤ 4400000000 →
  adf4351_ok (adf4351 h) → ∀ a c,
  total (holds h (K a c)) (whitebox_tx f) (λ r s, r = 0 ∧ radio_at t (transmitting t) s).
Proof.
  intros Hs Ht Hok a c. unfold whitebox_tx. apply (total_block ready adf cmx). intros w Hw.
  cbv zeta. rewrite (not_too_low t) by (done || lia).
  apply (total_get ready adf cmx); [by left | done |]. clear w Hw. intros w Hw.
  unfold checked at 1. cbn [fst snd Z.ltb Z.compare]. apply total_on_adf4351.
  destruct (tuned_to_spec t (Adf4351.adf4351_ioctl_get (adf4351 h) w) (vco_of f) Hs Ht
    (adf4351_get_ok _ _ Hok)) as (ad & Htune & Had & Hado).
  apply (total_tune _ _ _ ad); [exact Htune |].
  apply (total_program _ _ _ _ ad); [done | done |]. clear Hw Htune. intros w1 Hw.
  unfold checked at 1. cbn [fst snd Z.ltb Z.compare].
  apply (total_get ready adf cmx); [by right | done |]. clear Hw w1. intros w1 Hw.
  unfold checked at 1. cbn [fst snd Z.ltb Z.compare]. unfold tx_mixer. apply total_loop.
  cbn [Z.ltb Z.compare]. apply total_on_cmx991.
  eapply (total_mix _ _ _ _ (after_tx (cmx991 h) w1 (vco_of f))); [done | reflexivity |]. intros w' Hw'.
  unfold checked at 1. cbn [fst snd Z.ltb Z.compare].
  destruct (after_tx_spec (cmx991 h) w1 (vco_of f) t Hs) as [Hp Hc]. revert Hp Hc.
  generalize ((after_tx (cmx991 h) w1 (vco_of f)) <| Cmx991.ld_synth := 0 |>). intros cm Hp Hc.
  apply (total_clear ready adf cmx). cbn [Z.ltb Z.compare].
  apply (total_flags ready adf cmx). intros _. apply total_ret. intros s Hh. split; [done |].
  refine (radio_holds _ _ _ _ _ _ _ Had Hado Hp Hc _ Hh); reflexivity.
Qed.
Lemma rx_reaches f t h : stands (f64_of_f32 (vco_of f)) t → 68750000 ≤ t ≤ 4400000000 → ∀ a c,
  total (holds h (K a c)) (whitebox_rx f) (λ r s, r = 0 ∧ radio_at t receiving_path s).
Proof.
  intros Hs Ht a c. unfold whitebox_rx. apply (total_block ready adf cmx). intros w Hw.
  apply (total_get ready adf cmx); [by right | done |]. clear w Hw. intros w Hw. cbn [snd].
  apply total_loop. cbv zeta. rewrite (not_too_low t) by (done || lia). cbn [Z.ltb Z.compare].
  apply total_on_cmx991. eapply (total_mix _ _ _ _ (after_rx (cmx991 h) w)); [done | reflexivity |].
  intros w' Hw'. cbn [snd]. destruct (after_rx_spec (cmx991 h) w) as [Hp Hc]. revert Hp Hc.
  generalize ((after_rx (cmx991 h) w) <| Cmx991.ld_synth := 0 |>). intros cm Hp Hc.
  apply total_on_adf4351.
  destruct (tuned_to_spec t (Adf4351.adf4351_init (adf4351 h)) (vco_of f) Hs Ht
    (adf4351_init_ok _)) as (ad & Htune & Had & Hado).
  apply (total_tune _ _ _ ad); [exact Htune |].
  apply (total_program _ _ _ _ ad); [done | done |]. intros w'' Hw''.
  apply total_ret. intros s Hh. split; [done |]. refine (radio_holds _ _ _ _ _ _ _ Had Hado Hp Hc _ Hh); reflexivity.
Qed.

(** The receiver's fine tuning only moves the frequency: the mixer stays as it is. *)
Lemma rx_fine_reaches f t t0 P : stands (f64_of_f32 (vco_of f)) t → 68750000 ≤ t ≤ 4400000000 →
  total (radio_at t0 P) (whitebox_rx_fine_tune f) (λ r s, r = None ∧ radio_at t P s).
Proof.
  intros Hs Ht [h d] (Hk & _ & Hok & Hp & Hc). revert Hp Hc. cbn [p_wb p_os] in *.
  assert (holds h (K (adf4351_words_of (adf4351 h)) (cmx991_bytes_of (cmx991 h))) (Prog h d)) as Hh by done.
  intros Hp Hc. revert Hh. generalize (Prog h d). clear Hk d. change (total (holds h
    (K (adf4351_words_of (adf4351 h)) (cmx991_bytes_of (cmx991 h)))) (whitebox_rx_fine_tune f)
    (λ r s, r = None ∧ radio_at t P s)).
  unfold whitebox_rx_fine_tune. apply (total_block ready adf cmx). intros w Hw. cbv zeta.
  rewrite (not_too_low t) by (done || lia).
  destruct (tuned_to_spec t (adf4351 h) (vco_of f) Hs Ht Hok) as (ad & Htune & Had & Hado).
  apply (total_tune _ _ _ ad); [exact Htune |].
  apply (total_program _ _ _ _ ad); [done | done |]. intros w' Hw'.
  apply total_ret. intros s Hh. split; [done |].
  refine (radio_holds _ _ _ _ _ _ _ Had Hado Hp Hc _ Hh); reflexivity.
Qed.

(** Tuning reaches both chips.  Over any device that keeps the words and the bytes it
    was last given, and for a frequency whose first conversion is a whole number [t] of
    hertz from 68.75 MHz to 4.4 GHz, [whitebox_tx] and [whitebox_rx] answer 0.  The six
    words and the ten bytes the chips were last given are those the handle's structures
    pack to; the ADF4351's output is less than a step of 8 kHz below [t], with its outputs
    on; the CMX991's loop is on at its fixed setting, and the path of one direction is
    powered while the other's is not.  This holds whatever the block, the registers
    and the mixer's structure held before.  [whitebox_rx_fine_tune] then moves the
    frequency and leaves the mixer as it was. *)
Lemma tuning_reaches_the_radio f t h a c :
  stands (f64_of_f32 (vco_of f)) t → 68750000 ≤ t ≤ 4400000000 →
  (adf4351_ok (adf4351 h) → total (holds h (K a c)) (whitebox_tx f)
    (λ r s, r = 0 ∧ radio_at t (transmitting t) s)) ∧
  total (holds h (K a c)) (whitebox_rx f) (λ r s, r = 0 ∧ radio_at t receiving_path s) ∧
  (∀ t0 P, total (radio_at t0 P) (whitebox_rx_fine_tune f) (λ r s, r = None ∧ radio_at t P s)).
Proof.
  intros Hs Ht. split; [intros Hok; by apply tx_reaches |]. split; [by apply rx_reaches |].
  intros t0 P. by apply rx_fine_reaches.
Qed.
End tuned.

(** ** A device that keeps what it is given *)

(** 145 MHz, for which the oscillator is tuned to 760 MHz. *)
Definition two_metres : f32 := f32_of_Z 145000000.
Lemma two_metres_vco : stands (f64_of_f32 (vco_of two_metres)) 760000000.
Proof.
  replace (f64_of_f32 (vco_of two_metres)) with (f64_of_Z 760000000) by (vm_compute; reflexivity).
  apply stands_of_Z. lia.
Qed.

Record recorder := Recorder { rc_adf : list Z; rc_cmx : list Z }.
#[local] Existing Instance ioctl_macros.
#[local] Instance recorder_device : Device recorder := {|
  d_ioctl _ cmd w d :=
    Done (0, w) (if cmd =? WA_SET then Recorder (word_of w <$> seqZ 0 6) (rc_cmx d)
                 else if cmd =? WC_SET then Recorder (rc_adf d) (byte_of w <$> seqZ 0 10) else d);
  d_stack d := Done (replicate args_words 0xA5) d;
|}.
#[local] Instance recorder_contract : SynthContract (λ _, True) rc_adf rc_cmx.
Proof.
  split.
  - intros a c d Hd. by split.
  - intros f cmd w a c Hc Hw d Hd. by destruct Hc as [-> | ->].
  - intros f w a c Hw d (_ & _ & Hd). by repeat split.
  - intros f w a c Hw d (_ & Hd & _). by repeat split.
  - intros f cmd w a c Hc d Hd. by destruct Hc as [-> | [-> | ->]].
Qed.

Lemma total_done {S A} (P : S → Prop) (m : M S A) Q s :
  total P m Q → P s → ∃ a s', m s = Done a s' ∧ Q a s'.
Proof. intros Hm Hs. specialize (Hm s Hs). destruct (m s) as [a s' | |]; [by exists a, s' | done..]. Qed.
Definition sent (m : M (prog recorder) Z) : list Z * list Z :=
  match m (Prog sim_handle (Recorder [] [])) with Done _ s => (rc_adf (p_os s), rc_cmx (p_os s)) | _ => ([], []) end.

Lemma tuning_reaches_the_radio_witness :
  let s := Prog sim_handle (Recorder [] []) in
  (∃ s', whitebox_tx two_metres s = Done 0 s' ∧
    radio_at (λ _, True) rc_adf rc_cmx 760000000 (transmitting 760000000) s') ∧
  (∃ s', whitebox_rx two_metres s = Done 0 s' ∧ radio_at (λ _, True) rc_adf rc_cmx 760000000 receiving_path s') ∧
  sent (whitebox_tx two_metres) = ([3825088; 58769; 1610636866; 3; 11339044; 4194309],
      [199; 5; 58; 83; 2; 128; 192; 160; 8; 7]) ∧
  sent (whitebox_rx two_metres) = ([3825088; 58769; 1610636866; 3; 11339044; 5767173],
      [231; 221; 32; 0; 37; 0; 192; 160; 8; 7]).
Proof.
  intros s.
  destruct (tuning_reaches_the_radio (λ _, True) rc_adf rc_cmx two_metres 760000000 sim_handle [] []
    two_metres_vco ltac:(lia)) as (Htx & Hrx & _).
  split; [| split].
  - destruct (total_done _ _ _ s (Htx (adf4351_init_ok _)) ltac:(by repeat split)) as (r & s' & Hr & -> & Hs).
    exists s'. exact (conj Hr Hs).
  - destruct (total_done _ _ _ s Hrx ltac:(by repeat split)) as (r & s' & Hr & -> & Hs).
    exists s'. exact (conj Hr Hs).
  - vm_compute. split; reflexivity.
Defined.
