(* ===== verification/SynthDriver.v ===== *)
(** * The driver keeps the synthesizers

    The driver's model honours the contract of the synthesizers: from every state of an
    open device, the words and the bytes the driver keeps are those last set.  The
    library's tuning then reaches the driver's copies of both chips. *)

From Stdlib Require Import Floats.SpecFloat.
From stdpp Require Import gmap.
From S2P Require Import Prelude Kernel State Sim Pdma PdmaSpec UserRing UserRingSpec Gpio Exciter Receiver RfBlocks.
From S2P Require Import TxRx Ioctl Block IoctlSpec Driver Invariant Safety Lifecycle Termination.
From S2P Require Import Ieee IeeeSpec Library LibrarySpec RadioChips LibraryDriver RadioSpec.

Section driver.
Context {W : Type} `{!Kernel W} `{!UserSpace W} `{!CircMacros} `{!IoctlMacros}.

Definition chips (s : sys W) : list Z * list Z := (wb_adf4351_regs (s_wb s), wb_cmx991_regs (s_wb s)).

Lemma spares_chips_call {A} (g : W → A * W) : within (same chips) (call g).
Proof. intros s a s' [= <- <-]. done. Qed.
#[local] Hint Resolve spares_chips_call : within.

Lemma spares_exciter_clear : within (same chips) whitebox_ioctl_exciter_clear.
Proof. within_tac. Qed.
Lemma spares_exciter_get arg : within (same chips) (whitebox_ioctl_exciter_get arg).
Proof. within_tac. Qed.
Lemma spares_exciter_set arg : within (same chips) (whitebox_ioctl_exciter_set arg).
Proof. within_tac. Qed.
Lemma spares_rd_bits pd n b : within (same chips) (cmx991_rd_bits pd n b).
Proof. revert b. induction n as [| n IH]; intros b; cbn [cmx991_rd_bits]; within_tac. Qed.
#[local] Hint Resolve spares_rd_bits : within.
Lemma spares_get_loop pd lut i w : within (same chips) (cmx991_get_loop pd lut i w).
Proof. revert i w. induction lut as [| x lut IH]; intros i w; cbn [cmx991_get_loop]; within_tac. Qed.

(** ** The requests return *)

Definition on_chips (cmd : Z) : Prop := cmd ∈ [WA_GET; WA_SET; WC_GET; WC_SET; WE_CLEAR; WE_GET; WE_SET].
Lemma on_chips_code cmd : on_chips cmd → cmd ≠ W_MMAP_READ ∧ cmd ≠ WF_SET.
Proof.
  unfold on_chips. intros Hc.
  repeat (apply elem_of_cons in Hc as [-> | Hc]; [split; intros Heq%(f_equal (λ c, c mod 2 ^ 8)); revert Heq;
    unfold WA_GET, WA_SET, WC_GET, WC_SET, WE_CLEAR, WE_GET, WE_SET, W_MMAP_READ, WF_SET;
    rewrite !io_nr || rewrite ?ior_nr, ?iow_nr by lia; rewrite ?ior_nr, ?iow_nr by lia; done |]).
  by apply not_elem_of_nil in Hc.
Qed.
Lemma request_returns k km cmd arg (s : sys W) : on_chips cmd → sys_inv k km s →
  ∃ r s', whitebox_ioctl cmd arg s = Done r s' ∧ sys_inv k km s'.
Proof.
  intros [Hm Hf]%on_chips_code Hs. apply live_done; [apply live_ioctl |].
  by apply (keeps_whitebox_ioctl k km (sys_inv k km) cmd arg Hm Hf).
Qed.

(** A value that is returned was returned by a step. *)
Lemma bind_done {A B} (m : M (sys W) A) (g : A → M (sys W) B) s b s' :
  (m ≫= g) s = Done b s' → ∃ a s1, m s = Done a s1 ∧ g a s1 = Done b s'.
Proof. unfold mbind, M_bind. destruct (m s) as [a s1 | |]; [by exists a, s1 | done..]. Qed.

Context `{!UserMemory W}.
Lemma returned_block w s r s' : return_args (us_block (W := W)) w s = Done r s' →
  r = 0 ∧ us_load (s_world s') = w.
Proof.
  unfold return_args, mbind, M_bind, call. cbn beta iota. pose proof (us_put w (s_world s)) as Hp.
  cbv zeta in Hp. destruct (k_put_user_words _ _ _) as [b w']. cbn in Hp. destruct Hp as [-> Hl].
  intros [= <- <-]. done.
Qed.
Lemma local_args_length s w (s' : sys W) : local_args s = Done w s' → length w = args_words ∧ s_wb s' = s_wb s.
Proof.
  unfold local_args, mbind, M_bind, call, mret, M_ret. cbv beta iota. intros Hw. injection Hw as Hw <-.
  subst w. split; [apply as_args_length | done].
Qed.
Lemma adf4351_get_answer (s s' : sys W) r : length (wb_adf4351_regs (s_wb s)) = 6%nat →
  whitebox_ioctl_adf4351_get (us_block (W := W)) s = Done r s' → r = 0 ∧ blank (us_load (s_world s')).
Proof.
  intros Hl Hr. unfold whitebox_ioctl_adf4351_get in Hr.
  apply bind_done in Hr as (w & s1 & Hw & Hr). apply bind_done in Hr as (a & s2 & Ha & Hr).
  apply local_args_length in Hw as [Hlen Hwb].
  injection Ha as <- <-. apply returned_block in Hr as [-> ->]. split; [done |].
  unfold blank. by rewrite length_app, length_drop, Hwb, Hlen, Hl.
Qed.
Lemma get_loop_length pd lut i w s w' (s' : sys W) :
  cmx991_get_loop pd lut i w s = Done w' s' → length w' = length w.
Proof.
  revert i w s. induction lut as [| x lut IH]; intros i w s Hr; cbn [cmx991_get_loop] in Hr.
  - by injection Hr as <- <-.
  - apply bind_done in Hr as (v & s1 & _ & Hr). apply IH in Hr. by rewrite set_byte_length in Hr.
Qed.
Lemma filled_answer (fill : whitebox_platform_data_t → whitebox_args_t → M (sys W) whitebox_args_t) s r s' :
  (∀ pd w s w' s', fill pd w s = Done w' s' → length w' = length w) →
  (pd ← the_pins; w ← local_args; w ← fill pd w; return_args (us_block (W := W)) w) s = Done r s' →
  r = 0 ∧ blank (us_load (s_world s')).
Proof.
  intros Hf Hr. apply bind_done in Hr as (pd & s1 & _ & Hr). apply bind_done in Hr as (w & s2 & Hw & Hr).
  apply bind_done in Hr as (w' & s3 & Hl & Hr). apply returned_block in Hr as [-> ->]. split; [done |].
  apply Hf in Hl. apply local_args_length in Hw as [Hw _]. unfold blank. by rewrite Hl.
Qed.
Lemma cmx991_get_answer (s s' : sys W) r :
  whitebox_ioctl_cmx991_get (us_block (W := W)) s = Done r s' → r = 0 ∧ blank (us_load (s_world s')).
Proof.
  apply (filled_answer (λ pd, cmx991_get_loop pd whitebox_cmx991_regs_read_lut 0)).
  intros pd w st w' st'. apply get_loop_length.
Qed.

(** ** The contract *)

(** A block in user memory is not touched by driving the pins. *)
Class UserSteady : Prop := {
  ul_store l (w : W) : us_load (us_store l w) = l;
  ul_get_user a n (w : W) : us_load (k_get_user_words a n w).2 = us_load w;
  ul_gpio_set p v (w : W) : us_load (k_gpio_set_value p v w) = us_load w;
  ul_udelay n (w : W) : us_load (k_udelay n w) = us_load w;
}.
Context `{!UserSteady} (k km : Z).

Definition memory (s : sys W) : list Z := us_load (s_world s).
Lemma spares_memory_call {A} (g : W → A * W) : (∀ w, us_load (g w).2 = us_load w) → within (same memory) (call g).
Proof. intros Hg s a s' [= <- <-]. symmetry. apply Hg. Qed.
Lemma spares_memory_call_ (g : W → W) : (∀ w, us_load (g w) = us_load w) → within (same memory) (call_ g).
Proof. intros Hg s a s' [= <- <-]. symmetry. apply Hg. Qed.
Lemma spares_memory_pin p v : within (same memory) (gpio_set_value p v).
Proof. apply spares_memory_call_, ul_gpio_set. Qed.
Lemma spares_memory_udelay n : within (same memory) (udelay n).
Proof. apply spares_memory_call_, ul_udelay. Qed.
Lemma spares_memory_get_user a n : within (same memory) (call (k_get_user_words a n)).
Proof. apply spares_memory_call. intros. apply ul_get_user. Qed.
#[local] Hint Resolve spares_memory_pin spares_memory_udelay spares_memory_get_user : within.
Lemma spares_memory_adf4351_set arg : within (same memory) (whitebox_ioctl_adf4351_set arg).
Proof. within_tac. Qed.
Lemma spares_memory_cmx991_set arg : within (same memory) (whitebox_ioctl_cmx991_set arg).
Proof. within_tac. Qed.

Definition driver_adf4351 (s : sys W) : list Z := wb_adf4351_regs (s_wb s).
Definition driver_cmx991 (s : sys W) : list Z := wb_cmx991_regs (s_wb s).
Abbreviation K := (kept (sys_inv k km) driver_adf4351 driver_cmx991).

(** A request on a stored block, from what is known of the handler's run. *)
Lemma request_total cmd f w a c a' c' (C : Z → list Z → Prop) : on_chips cmd →
  (∀ s r s', K a c s → memory s = w → (∃ w0, s_world s = us_store w w0) →
    whitebox_ioctl cmd (us_block (W := W)) s = Done r s' →
    driver_adf4351 s' = a' ∧ driver_cmx991 s' = c' ∧ C (if r <? 0 then -1 else r) (memory s')) →
  total (K a c) (driver_ioctl f cmd w) (λ r s, K a' c' s ∧ C (fst r) (snd r)).
Proof.
  intros Hc Hrun s (Hs & Ha & Hk). set (s1 := s <| s_world ::= us_store w |>).
  assert (sys_inv k km s1) as Hs1 by by apply (world_free s).
  destruct (request_returns k km cmd (us_block (W := W)) s1 Hc Hs1) as (r & s' & Hr & Hs').
  unfold driver_ioctl, mbind, M_bind, modify. fold s1. rewrite Hr.
  destruct (Hrun s1 r s') as (Ha' & Hc' & HC); [done | apply ul_store | by exists (s_world s) | done |].
  by split.
Qed.


(** A request whose handler spares the chips. *)
Lemma spared_total cmd (m : M (sys W) Z) f w a c (C : Z → list Z → Prop) : on_chips cmd →
  whitebox_ioctl cmd (us_block (W := W)) = m → within (same chips) m →
  (∀ s r s', K a c s → m s = Done r s' → C (if r <? 0 then -1 else r) (memory s')) →
  total (K a c) (driver_ioctl f cmd w) (λ r s, K a c s ∧ C (fst r) (snd r)).
Proof.
  intros Hc <- Hm HC. apply request_total; [done |]. intros s r s' (Hs & Ha & Hk) _ _ Hr.
  pose proof (Hm _ _ _ Hr) as Hsame. unfold same, chips in Hsame. injection Hsame as Ha' Hc'. unfold driver_adf4351, driver_cmx991 in *. rewrite <- Ha', <- Hc'.
  split; [done |]. split; [done |]. by apply (HC s r s').
Qed.
Lemma get_total f cmd w a c : cmd = WA_GET ∨ cmd = WC_GET →
  total (K a c) (driver_ioctl f cmd w) (λ r s, K a c s ∧ fst r = 0 ∧ blank (snd r)).
Proof.
  intros [-> | ->].
  - apply (spared_total _ (whitebox_ioctl_adf4351_get (us_block (W := W))) f w a c (λ r l, r = 0 ∧ blank l));
      [| apply ioctl_wa_get_case | within_tac |].
    + unfold on_chips. set_solver.
    + intros s r s' (Hs & _) Hr. apply adf4351_get_answer in Hr as [-> Hb]; [done |].
      destruct Hs as [[_ Hbase _] _ _]. by destruct Hbase.
  - apply (spared_total _ (whitebox_ioctl_cmx991_get (us_block (W := W))) f w a c (λ r l, r = 0 ∧ blank l));
      [| apply ioctl_wc_get_case | |].
    + unfold on_chips. set_solver.
    + pose proof spares_get_loop. unfold whitebox_ioctl_cmx991_get. within_tac.
    + intros s r s' _ Hr. by apply cmx991_get_answer in Hr as [-> Hb].
Qed.
(** A request that sets a chip from the block: the handler's run reads the block and
    leaves it in the caller's memory. *)
Lemma set_total cmd (m : M (sys W) Z) f w a c a' c' : on_chips cmd → blank w →
  whitebox_ioctl cmd (us_block (W := W)) = m → within (same memory) m →
  (∀ pr p uc wb w0, base_inv km wb → wb_adf4351_regs wb = a → wb_cmx991_regs wb = c →
    (k_get_user_words (us_block (W := W)) args_words w0).1 = (false, w) →
    ∃ wb' w', runs m (Sys pr p uc wb w0) 0 (Sys pr p uc wb' w') ∧
      wb_adf4351_regs wb' = a' ∧ wb_cmx991_regs wb' = c') →
  total (K a c) (driver_ioctl f cmd w) (λ r s, K a' c' s ∧ fst r = 0 ∧ blank (snd r)).
Proof.
  intros Hc Hw Hcase Hsp Hm. apply (request_total _ f w a c a' c' (λ r l, r = 0 ∧ blank l)); [done |].
  intros s r s' (Hs & Ha & Hk) Hmem [w0 Hw0] Hr. rewrite Hcase in Hr.
  pose proof (Hsp _ _ _ Hr) as Hm'. unfold same in Hm'. rewrite Hmem in Hm'. rewrite <- Hm'.
  destruct s as [pr p uc wb w1]. cbn in Hw0. subst w1. pose proof (us_get w w0) as Hg. rewrite Hw in Hg.
  destruct Hs as [[_ Hbase _] _ _].
  destruct (Hm pr p uc wb (us_store w w0) Hbase Ha Hk Hg) as (wb' & w' & Hrun & Ha' & Hk').
  unfold runs in Hrun. rewrite Hrun in Hr. injection Hr as <- <-. done.
Qed.
Lemma wa_set_total f w a c : blank w → total (K a c) (driver_ioctl f WA_SET w)
  (λ r s, K (word_of w <$> seqZ 0 6) c s ∧ fst r = 0 ∧ blank (snd r)).
Proof.
  intros Hw. apply (set_total _ (whitebox_ioctl_adf4351_set (us_block (W := W))) f w a c _ c);
    [unfold on_chips; set_solver | done | apply ioctl_wa_set_case | |].
  - apply spares_memory_adf4351_set.
  - intros pr p uc wb w0 Hb Ha Hc Hg. destruct Hb.
    destruct (wa_set_runs (us_block (W := W)) pr p uc wb w0) as (w' & Hrun & _); [done | by rewrite Hg |].
    rewrite Hg, ioctl_wa_set_case in Hrun. cbn [fst snd] in Hrun. rewrite as_args_id in Hrun by done. by eexists _, w'.
Qed.
Lemma wc_set_total f w a c : blank w → total (K a c) (driver_ioctl f WC_SET w)
  (λ r s, K a (byte_of w <$> seqZ 0 10) s ∧ fst r = 0 ∧ blank (snd r)).
Proof.
  intros Hw. apply (set_total _ (whitebox_ioctl_cmx991_set (us_block (W := W))) f w a c a _);
    [unfold on_chips; set_solver | done | apply ioctl_wc_set_case | |].
  - apply spares_memory_cmx991_set.
  - intros pr p uc wb w0 Hb Ha Hc Hg. destruct Hb.
    destruct (wc_set_runs (us_block (W := W)) pr p uc wb w0) as (w' & Hrun & _); [done | by rewrite Hg |].
    rewrite Hg, ioctl_wc_set_case in Hrun. cbn [fst snd] in Hrun. rewrite as_args_id in Hrun by done. by eexists _, w'.
Qed.
Lemma exciter_total f cmd w a c : cmd = WE_CLEAR ∨ cmd = WE_GET ∨ cmd = WE_SET →
  total (K a c) (driver_ioctl f cmd w) (λ r s, K a c s ∧ (cmd = WE_CLEAR → fst r = 0)).
Proof.
  intros Hcmd. destruct (decide (cmd = WE_CLEAR)) as [-> | Hne].
  - apply (spared_total _ whitebox_ioctl_exciter_clear f w a c (λ r _, WE_CLEAR = WE_CLEAR → r = 0)); [unfold on_chips; set_solver | apply ioctl_we_clear_case |
      apply spares_exciter_clear |].
    intros s r s' _ Hr _. apply bind_done in Hr as (e & s1 & _ & Hr). apply bind_done in Hr as (pd & s2 & _ & Hr).
    apply bind_done in Hr as (? & s3 & _ & Hr). apply bind_done in Hr as (? & s4 & _ & Hr). by injection Hr as <- <-.
  - destruct Hcmd as [-> | [-> | ->]]; [done | |].
    + apply (spared_total _ (whitebox_ioctl_exciter_get (us_block (W := W))) f w a c (λ r _, WE_GET = WE_CLEAR → r = 0)); [unfold on_chips; set_solver | apply ioctl_we_get_case |
        apply spares_exciter_get | done].
    + apply (spared_total _ (whitebox_ioctl_exciter_set (us_block (W := W))) f w a c (λ r _, WE_SET = WE_CLEAR → r = 0)); [unfold on_chips; set_solver | apply ioctl_we_set_case |
        apply spares_exciter_set | done].
Qed.
#[global] Instance driver_synth_contract : SynthContract (sys_inv k km) driver_adf4351 driver_cmx991.
Proof.
  split.
  - intros a c s (Hs & Ha & Hc). split; [split; [by apply (world_free s) | done] | apply as_args_length].
  - intros f cmd w a c Hcmd _. by apply get_total.
  - intros f w a c Hw. by apply wa_set_total.
  - intros f w a c Hw. by apply wc_set_total.
  - intros f cmd w a c Hcmd. by apply exciter_total.
Qed.

(** The driver's copies of both chips are what the handle's structures pack to. *)
Definition driver_at (t : Z) (P : Cmx991.cmx991_t → Prop) (s : prog (sys W)) : Prop :=
  radio_at (sys_inv k km) driver_adf4351 driver_cmx991 t P s.

(** C24: the library's tuning through the driver.  From every state of an open device, in
    whatever state its rings, its transfers and its copies of the registers are, and for
    a frequency as in the tuning of the radio, [whitebox_tx] and [whitebox_rx] run over
    the driver's requests return 0: no request fails, waits or leaves an object.  The
    device is still in its invariant, the driver's six words and ten bytes are those of
    the handle's structures, the ADF4351's within a step of the frequency and the
    CMX991's with the path of the direction asked for; and [whitebox_rx_fine_tune]
    afterwards moves the frequency alone. *)
Theorem tuning_through_driver f t h (s : sys W) :
  sys_inv k km s → adf4351_ok (adf4351 h) →
  stands (f64_of_f32 (vco_of f)) t → 68750000 ≤ t ≤ 4400000000 →
  (∃ s', whitebox_tx f (Prog h s) = Done 0 s' ∧ driver_at t (transmitting t) s') ∧
  (∃ s', whitebox_rx f (Prog h s) = Done 0 s' ∧ driver_at t receiving_path s' ∧
    ∀ f' t', stands (f64_of_f32 (vco_of f')) t' → 68750000 ≤ t' ≤ 4400000000 →
      ∃ s'', whitebox_rx_fine_tune f' s' = Done None s'' ∧ driver_at t' receiving_path s'').
Proof.
  intros Hs Hok Hf Ht.
  assert (holds h (K (driver_adf4351 s) (driver_cmx991 s)) (Prog h s)) as Hh by done.
  split.
  - destruct (total_done _ _ _ _ (tx_reaches _ _ _ f t h Hf Ht Hok _ _) Hh) as (r & s' & Hr & -> & Hd).
    by exists s'.
  - destruct (total_done _ _ _ _ (rx_reaches _ _ _ f t h Hf Ht _ _) Hh) as (r & s' & Hr & -> & Hd).
    exists s'. split; [done |]. split; [done |]. intros f' t' Hf' Ht'.
    destruct (total_done _ _ _ _ (rx_fine_reaches _ _ _ f' t' t receiving_path Hf' Ht') Hd)
      as (r' & s'' & Hr' & -> & Hd'). by exists s''.
Qed.
End driver.

(** ** Over the simulated kernel *)

#[local] Existing Instance circ_macros.
#[local] Existing Instance ioctl_macros.
#[global] Instance sim_user_steady : UserSteady (W := sim).
Proof. split; intros; try done. cbn. by rewrite lookup_insert_eq. Qed.

Definition kept_after {A} (m : M (prog (sys sim)) A) : list Z * list Z :=
  match m (Prog sim_handle sim_open) with Done _ s => chips (p_os s) | _ => ([], []) end.

Lemma tuning_through_driver_witness :
  (∃ s', whitebox_tx two_metres (Prog sim_handle sim_open) = Done 0 s' ∧
    driver_at 14 14 760000000 (transmitting 760000000) s') ∧
  kept_after (whitebox_tx two_metres) = ([3825088; 58769; 1610636866; 3; 11339044; 5767173],
    [199; 1; 0; 83; 2; 128; 192; 160; 8; 7]) ∧
  kept_after (whitebox_rx two_metres) = ([3825088; 58769; 1610636866; 3; 11339044; 5767173],
    [199; 221; 32; 0; 0; 0; 192; 160; 8; 7]).
Proof.
  destruct (tuning_through_driver 14 14 two_metres 760000000 sim_handle sim_open sim_open_inv
    (adf4351_init_ok _) two_metres_vco ltac:(lia)) as ((s' & Hr & Hs) & _).
  split; [exists s'; exact (conj Hr Hs) |]. vm_compute. split; reflexivity.
Defined.
