(* ===== verification/TuneSpec.v ===== *)
(** * Tuning asks in order, and stops at the first refusal

    The requests the library makes of the device, recorded with their answers. *)

From Stdlib Require Import Floats.SpecFloat.
From S2P Require Import Prelude Kernel State Sim UserRing Exciter Receiver Ioctl Block Ieee.
From S2P Require Import IeeeSpec PllSpec Library LibrarySpec RadioChips LibraryDriver.

(** ** A device that records *)

(** Each request with its answer, in order. *)
Definition log : Type := list (Z * Z).

Section logging.
Context {D : Type} `{!Device D}.

Definition logged {A} (m : M D A) (entry : A → log) : M (D * log) A := λ s,
  match m s.1 with
  | Done a d => Done a (d, s.2 ++ entry a)
  | Crash c => Crash c
  | Spinning => Spinning
  end.
#[local] Instance logging_device : Device (D * log) := {|
  d_ioctl f cmd w := logged (d_ioctl f cmd w) (λ r, [(cmd, fst r)]);
  d_stack := logged d_stack (λ _, []);
|}.

(** Every request returns. *)
Class Answers : Prop := {
  answers_ioctl f cmd w (d : D) : ∃ r d', d_ioctl f cmd w d = Done r d';
  answers_stack (d : D) : ∃ w d', d_stack d = Done w d';
}.
End logging.
#[global] Arguments Answers D {_}.

(** ** Following the requests *)

(** All the requests of the plan were made, in order, and none failed. *)
Definition made (plan : list Z) (l : log) : Prop := l.*1 = plan ∧ Forall (λ e, 0 ≤ e.2) l.
(** The last request made failed with [r], those before it are the plan's up to it. *)
Definition stopped (plan : list Z) (r : Z) (l : log) : Prop :=
  ∃ l0 cmd rest, l = l0 ++ [(cmd, r)] ∧ plan = l0.*1 ++ cmd :: rest ∧
    r < 0 ∧ Forall (λ e, 0 ≤ e.2) l0.

Section requests.
Context `{!Chips} `{!Libm} `{!IoctlMacros} {D : Type} `{!Device D} `{!Answers D}.
#[local] Existing Instance logging_device.
Abbreviation P := (M (prog (D * log))).

(** The log so far. *)
Definition so_far (l : log) (s : prog (D * log)) : Prop := (p_os s).2 = l.
Definition ends_with {A} (Q : A → log → Prop) (a : A) (s : prog (D * log)) : Prop := Q a (p_os s).2.

Lemma asks {A} l cmd w (k : Z * whitebox_args_t → P A) Q :
  (∀ r, total (so_far (l ++ [(cmd, fst r)])) (k r) Q) →
  total (so_far l) (r ← ioctl_with cmd w; k r) Q.
Proof.
  intros Hk [h [d l']] Hl. unfold so_far in Hl. cbn in Hl. subst l'.
  destruct (answers_ioctl (fd h) cmd w d) as (r & d' & Hr).
  unfold ioctl_with, mbind, M_bind, get_handle, gets, device. cbn. unfold logged. cbn. rewrite Hr.
  by apply Hk.
Qed.
Lemma has_block {A} l (k : whitebox_args_t → P A) Q :
  (∀ w, total (so_far l) (k w) Q) → total (so_far l) (w ← local_block; k w) Q.
Proof.
  intros Hk [h [d l']] Hl. unfold so_far in Hl. cbn in Hl. subst l'.
  destruct (answers_stack d) as (w & d' & Hw).
  unfold local_block, mbind, M_bind, device. cbn. unfold logged. cbn. rewrite Hw.
  apply Hk. unfold so_far. cbn. apply app_nil_r.
Qed.
Lemma asks_only {A} l cmd (k : Z → P A) Q :
  (∀ r, total (so_far (l ++ [(cmd, r)])) (k r) Q) →
  total (so_far l) (r ← ioctl_only cmd; k r) Q.
Proof.
  intros Hk [h [d l']] Hl. unfold so_far in Hl. cbn in Hl. subst l'.
  destruct (answers_stack d) as (w & d' & Hw).
  destruct (answers_ioctl (fd h) cmd w d') as (r & d2 & Hr).
  unfold ioctl_only, local_block, mbind, M_bind, get_handle, gets, device. cbn. unfold logged. cbn.
  rewrite Hw. cbn. rewrite Hr. apply Hk. unfold so_far. cbn. by rewrite app_nil_r.
Qed.
(** Steps on the handle make no request. *)
Definition silent {A} (m : P A) (C : A → Prop) : Prop :=
  ∀ s, ∃ a h, m s = Done a (Prog h (p_os s)) ∧ C a.
Lemma silently {A B} l (m : P A) (k : A → P B) Q C :
  silent m C → (∀ a, C a → total (so_far l) (k a) Q) → total (so_far l) (a ← m; k a) Q.
Proof.
  intros Hm Hk s Hs. destruct (Hm s) as (a & h & Hr & Ha). unfold mbind, M_bind. rewrite Hr.
  by apply Hk.
Qed.
Definition mixer_pll (v : Z) : Prop :=
  ∃ c, (cmx991_pll_enable_m_n (hertz 19200000) 192 1800 c).1 = v.
Lemma silent_upd f : silent (upd_handle f) (λ _, True).
Proof. intros s. by eexists _, _. Qed.
Lemma silent_cmx991_to_block w : silent (cmx991_to_block w) (λ _, True).
Proof. intros s. by eexists _, _. Qed.
Lemma silent_adf4351_to_block w : silent (adf4351_to_block w) (λ _, True).
Proof. intros s. by eexists _, _. Qed.
Lemma silent_tune vco :
  (∀ c, is_Some (adf4351_pll_enable WA_CLOCK_RATE (hertz 8000) (f64_of_f32 vco) c)) →
  silent (tune_adf4351 vco) (λ _, True).
Proof.
  intros Hc s. destruct (Hc (adf4351 (p_wb s))) as [c' E]. unfold tune_adf4351, mbind, M_bind, get_handle, gets.
  rewrite E. by eexists _, _.
Qed.
Lemma silent_pll : silent tune_cmx991_pll mixer_pll.
Proof. intros s. eexists _, _. split; [done |]. by eexists. Qed.
Lemma answered {A} l (a : A) (Q : A → log → Prop) :
  Q a l → total (so_far l) (mret a) (ends_with Q).
Proof. intros HQ s Hs. unfold ends_with, so_far in *. cbn. by rewrite Hs. Qed.

(** The answers gathered so far are not negative; where one is, the plan stops there. *)
Lemma checked_asks l0 cmd plan rest (Q : Z → log → Prop) w (k : whitebox_args_t → P Z) :
  plan = l0.*1 ++ cmd :: rest → Forall (λ e, 0 ≤ e.2) l0 →
  (∀ r l, stopped plan r l → Q r l) →
  (∀ v w', 0 ≤ v → total (so_far (l0 ++ [(cmd, v)])) (k w') (ends_with Q)) →
  total (so_far l0) (r ← ioctl_with cmd w; checked r k) (ends_with Q).
Proof.
  intros Hp Hl Hs Hk. apply asks. intros [v w']. unfold checked. cbn.
  destruct (v <? 0) eqn:E; [| apply Hk; lia].
  apply answered, Hs. exists l0, cmd, rest. split_and!; [done | done | lia | done].
Qed.
(** The same for a request without a block, and for one whose answer is the result. *)
Lemma cleared_asks l0 cmd plan rest (Q : Z → log → Prop) (k : P Z) :
  plan = l0.*1 ++ cmd :: rest → Forall (λ e, 0 ≤ e.2) l0 →
  (∀ r l, stopped plan r l → Q r l) →
  (∀ v, 0 ≤ v → total (so_far (l0 ++ [(cmd, v)])) k (ends_with Q)) →
  total (so_far l0) (err ← ioctl_only cmd; if err <? 0 then mret err else k) (ends_with Q).
Proof.
  intros Hp Hl Hs Hk. apply asks_only. intros v.
  destruct (v <? 0) eqn:E; [| apply Hk; lia].
  apply answered, Hs. exists l0, cmd, rest. split_and!; [done | done | lia | done].
Qed.

(** The filter is turned on last: its two requests, the second if the first is granted. *)
Definition filter_on (l l' : log) : Prop :=
  ∃ v, l' = l ++ [(WE_GET, v)] ∧ v < 0 ∨ ∃ v', l' = l ++ [(WE_GET, v); (WE_SET, v')] ∧ 0 ≤ v.
Lemma asks_filter_on l flags :
  total (so_far l) (whitebox_tx_flags_enable flags) (λ _ s, filter_on l (p_os s).2).
Proof.
  unfold whitebox_tx_flags_enable. apply has_block. intros w. apply asks. intros [v w']. cbn.
  destruct (v <? 0) eqn:E.
  - apply total_ret. intros s ->. exists v. left. split; [done | lia].
  - apply asks. intros [v' w2]. apply total_ret. intros s ->. exists v. right. exists v'.
    split; [by rewrite <- app_assoc | lia].
Qed.

(** ** The plans *)

Definition tx_plan : list Z := [WA_GET; WA_SET; WC_GET; WC_SET; WE_CLEAR].
Definition standby_plan : list Z := [WC_GET; WC_SET; WE_CLEAR].
Definition fine_plan : list Z := [WC_GET; WC_SET; WA_SET].
(** The ADF4351 can be tuned to the oscillator's frequency. *)
Definition tunable (frequency : f32) : Prop :=
  ∀ c, is_Some (adf4351_pll_enable WA_CLOCK_RATE (hertz 8000) (f64_of_f32 (vco_of frequency)) c).
Definition no_pll : Prop := ∃ v, mixer_pll v ∧ v < 0.

Definition tx_outcome (frequency : f32) (r : Z) (l : log) : Prop :=
  (r = 0 ∧ ∃ l0, made tx_plan l0 ∧ filter_on l0 l) ∨ stopped tx_plan r l ∨
  (r = -1 ∧ l = [] ∧ too_low (vco_of frequency) = true) ∨
  (r = -1 ∧ made [WA_GET; WA_SET; WC_GET] l ∧ no_pll).
Definition standby_outcome (r : Z) (l : log) : Prop :=
  (r = 0 ∧ made standby_plan l) ∨ stopped standby_plan r l.
Definition fine_outcome (frequency : f32) (r : Z) (l : log) : Prop :=
  (r = 0 ∧ made fine_plan l) ∨ stopped fine_plan r l ∨
  (r = 2 ∧ made [WC_GET; WC_SET] l ∧ too_low (vco_of frequency) = true).
(** The receiver's answers play no part. *)
Definition rx_outcome (frequency : f32) (r : Z) (l : log) : Prop :=
  (r = 0 ∧ l.*1 = fine_plan) ∨
  (r = -1 ∧ l.*1 = [WC_GET] ∧ (no_pll ∨ too_low (vco_of frequency) = true)).

Ltac quietly := first
  [ eapply silently; [apply silent_upd | intros ? _; cbn beta]
  | eapply silently;
      [apply silent_tune; match goal with H : _ → tunable _ |- _ => by apply H end | intros ? _; cbn beta]
  | eapply silently; [apply silent_cmx991_to_block | intros ? _; cbn beta]
  | eapply silently; [apply silent_adf4351_to_block | intros ? _; cbn beta]
  | eapply silently; [apply silent_pll | intros ? Hpll; cbn beta] ].
Ltac in_order := cbn; first [reflexivity | repeat constructor; cbn; lia].

Ltac refused plan := eapply (checked_asks _ _ plan); [in_order | in_order | by auto | intros ? ? ?].
Ltac refused_only plan := eapply (cleared_asks _ _ plan); [in_order | in_order | by auto | intros ? ?].

Lemma standby_follows : total (so_far []) whitebox_tx_standby (ends_with standby_outcome).
Proof.
  unfold whitebox_tx_standby. apply has_block. intros w.
  assert (Hs : ∀ r l, stopped standby_plan r l → standby_outcome r l) by (intros; by right).
  refused standby_plan. repeat quietly. refused standby_plan.
  apply asks_only. intros r. apply answered. case_match; [right | left].
  - exists [(WC_GET, v); (WC_SET, v0)], WE_CLEAR, []. split_and!; [done | done | lia | in_order].
  - split; [done | split; [done | in_order]].
Qed.

Lemma fine_follows frequency :
  (too_low (vco_of frequency) = false → tunable frequency) →
  total (so_far []) (whitebox_tx_fine_tune frequency) (ends_with (fine_outcome frequency)).
Proof.
  intros Htune. unfold whitebox_tx_fine_tune. apply has_block. intros w.
  assert (Hs : ∀ r l, stopped fine_plan r l → fine_outcome frequency r l) by (intros; right; by left).
  refused fine_plan. repeat quietly. refused fine_plan.
  case_match eqn:E.
  - apply answered. right. right. split; [done |]. split; [split; [done | in_order] | done].
  - repeat quietly. apply asks. intros [r ?]. apply answered. cbn. case_match.
    + right. left. exists [(WC_GET, v); (WC_SET, v0)], WA_SET, [].
      split_and!; [done | done | lia | in_order].
    + left. split; [done | split; [done | in_order]].
Qed.

Lemma tx_follows frequency :
  (too_low (vco_of frequency) = false → tunable frequency) →
  total (so_far []) (whitebox_tx frequency) (ends_with (tx_outcome frequency)).
Proof.
  intros Htune. unfold whitebox_tx. apply has_block. intros w.
  assert (Hs : ∀ r l, stopped tx_plan r l → tx_outcome frequency r l) by (intros; right; by left).
  case_match eqn:Elow; [by apply answered; do 2 right; left |].
  refused tx_plan. repeat quietly. refused tx_plan. refused tx_plan.
  unfold tx_mixer. repeat quietly. case_match eqn:Epll.
  { apply answered. do 3 right. split; [done |]. split; [split; [done | in_order] |].
    eexists. split; [done | lia]. }
  repeat quietly. refused tx_plan. refused_only tx_plan.
  eapply total_bind; [apply asks_filter_on |]. intros r. apply total_ret. intros s Hf. left.
  split; [done |]. eexists. split; [| exact Hf]. split; [done | in_order].
Qed.

Lemma rx_follows frequency :
  (too_low (vco_of frequency) = false → tunable frequency) →
  total (so_far []) (whitebox_rx frequency) (ends_with (rx_outcome frequency)).
Proof.
  intros Htune. unfold whitebox_rx. apply has_block. intros w. apply asks. intros r. repeat quietly.
  case_match eqn:Epll.
  { apply answered. right. split_and!; [done | done |]. left. eexists. split; [done | lia]. }
  case_match eqn:Elow; [by apply answered; right; split_and!; [| | right] |].
  repeat quietly. apply asks. intros r1. repeat quietly. apply asks. intros r2.
  apply answered. by left.
Qed.

End requests.

(** ** A concrete device *)

(** It gives the answers of a script, and grants the requests that come after it. *)
#[global] Instance scripted : Device (list Z) := {|
  d_ioctl _ _ w := λ d, Done (default 0 (head d), w) (tail d);
  d_stack := λ d, Done (replicate args_words 7) d;
|}.
#[global] Instance scripted_answers : Answers (list Z).
Proof. split; intros; by eexists _, _. Qed.
#[local] Existing Instance ioctl_macros.
#[local] Existing Instance logging_device.

(** The radio's synthesizer can be tuned from 68.75 MHz to 4.4 GHz. *)
Lemma radio_tunable frequency t :
  stands (f64_of_f32 (vco_of frequency)) t → 68750000 ≤ t ≤ 4400000000 → tunable frequency.
Proof.
  intros Hs Ht rf. destruct (tune_defined rf _ t Hs Ht) as (k & f & Htune & _).
  exists (tuned k (t * 2 ^ k) rf). cbn [adf4351_pll_enable radio_chips].
  change (Adf4351.adf4351_pll_enable rf WA_CLOCK_RATE (hertz 8000) (f64_of_f32 (vco_of frequency)))
    with (tune rf (f64_of_f32 (vco_of frequency))). by rewrite Htune.
Qed.

Definition asked_of (script : list Z) (m : M (prog (list Z * log)) Z) : option (Z * log) :=
  match m (Prog sim_handle (script, [])) with Done r s => Some (r, (p_os s).2) | _ => None end.
Definition mhz145 : f32 := f32_of_Z 145000000.

