(* ===== verification/ParamSpec.v ===== *)
(** * The module's parameters, written and read as text

    A number printed in decimal is read back as itself, whatever follows its line in the
    reader's buffer; so a parameter set is the parameter got, on any host whose files of
    parameters keep what is written to them ([ParamFiles]). *)

From Stdlib Require Import Floats.SpecFloat.
From stdpp Require Import gmap strings.
From S2P Require Import Prelude Kernel State Exciter Receiver Ioctl Ieee Library.
From S2P Require Import LibrarySpec RadioChips LibraryDriver.

(** ** What the host promises *)

(** [param path d]: the number in the parameter file [path], where there is such a file;
    [opened d f]: the path of the open file [f].  The kernel stores the number of a line
    that is written, and shows it as a line. *)
Class ParamFiles {D : Type} `{!Host D}
    (param : string → D → option Z) (opened : D → Z → option string) : Prop := {
  open_param path mode d v : param path d = Some v →
    0 ≤ (h_open path mode d).1 ∧ opened (h_open path mode d).2 (h_open path mode d).1 = Some path;
  open_keeps path mode d q : param q (h_open path mode d).2 = param q d;
  close_keeps f d q : param q (h_close f d) = param q d;
  stack_keeps n d q : param q (h_stack_text n d).2 = param q d;
  stack_opened n d f : opened (h_stack_text n d).2 f = opened d f;
  write_param f path d v0 v :
    opened d f = Some path → param path d = Some v0 → - 2 ^ 31 ≤ v < 2 ^ 31 →
    0 ≤ (h_write f (decimal v +:+ newline +:+ nul) d).1 ∧
    ∀ q, param q (h_write f (decimal v +:+ newline +:+ nul) d).2 =
      if String.eqb q path then Some v else param q d;
  read_param f path d v n :
    opened d f = Some path → param path d = Some v → (12 ≤ n)%nat →
    0 ≤ (h_read f n d).1.1 ∧ (h_read f n d).1.2 = decimal v +:+ newline;
  read_keeps f n d q : param q (h_read f n d).2 = param q d;
}.

(** ** Numbers as text *)

Lemma string_app_assoc s t u : (s +:+ t) +:+ u = s +:+ t +:+ u.
Proof. induction s as [| c s IH]; [done |]. exact (f_equal (String c) IH). Qed.

Lemma digit_of_digit d : 0 ≤ d < 10 → digit_of (Ascii.ascii_of_nat (Z.to_nat (48 + d))) = Some d.
Proof.
  intros Hd. unfold digit_of. rewrite Ascii.nat_ascii_embedding by lia.
  rewrite Z2Nat.id by lia. case_match; [f_equal |]; lia.
Qed.
Lemma digits_app f n acc x : digits f n acc +:+ x = digits f n (acc +:+ x).
Proof. revert n acc. induction f as [| f IH]; intros n acc; cbn; [done |]. case_match; [done |]. apply IH. Qed.
Lemma read_digits_digits f n acc :
  0 ≤ n < 10 ^ Z.of_nat f → read_digits (digits f n acc) 0 = read_digits acc n.
Proof.
  revert n acc. induction f as [| f IH]; intros n acc Hn; cbn [digits].
  { by replace n with 0 by lia. }
  assert (0 ≤ n mod 10 < 10) as Hm by (apply Z.mod_pos_bound; lia).
  assert (n = 10 * (n / 10) + n mod 10) as Hd by (apply Z.div_mod; lia).
  rewrite Nat2Z.inj_succ, Z.pow_succ_r in Hn by lia.
  case_match eqn:E; [| rewrite IH by lia]; cbn [read_digits]; rewrite digit_of_digit by done;
    f_equal; lia.
Qed.
Lemma digits_head f n acc :
  0 ≤ n → ∃ d s, digits (S f) n acc = String (Ascii.ascii_of_nat (Z.to_nat (48 + d))) s ∧ 0 ≤ d < 10.
Proof.
  revert n acc. induction f as [| f IH]; intros n acc Hn.
  all: assert (0 ≤ n mod 10 < 10) by (apply Z.mod_pos_bound; lia).
  - cbn. eexists (n mod 10), _. split; [by case_match | done].
  - cbn [digits]. destruct (n / 10 =? 0) eqn:E; [by eexists _, _ |]. apply IH. apply Z.div_pos; lia.
Qed.
(** No digit is a space or a sign. *)
Lemma atoi_digits s d : 0 ≤ d < 10 →
  let t := String (Ascii.ascii_of_nat (Z.to_nat (48 + d))) s in atoi t = clamp (read_digits t 0).
Proof.
  intros Hd. assert (∃ k, d = Z.of_nat k ∧ (k < 10)%nat) as (k & -> & Hk)
    by (exists (Z.to_nat d); lia).
  by do 10 (destruct k as [| k]; [reflexivity |]); lia.
Qed.
Lemma atoi_minus s : atoi (String minus_sign s) = clamp (- read_digits s 0).
Proof. done. Qed.
Lemma read_digits_line n rest : read_digits ("" +:+ newline +:+ rest) n = n.
Proof. done. Qed.
Lemma atoi_decimal v rest : - 2 ^ 31 ≤ v < 2 ^ 31 → atoi (decimal v +:+ newline +:+ rest) = v.
Proof.
  intros Hv. unfold decimal. case_match eqn:E.
  - change (String minus_sign ?s +:+ ?x) with (String minus_sign (s +:+ x)).
    rewrite atoi_minus, digits_app, read_digits_digits, read_digits_line by (cbn; lia).
    unfold clamp. lia.
  - destruct (digits_head 9 v ("" +:+ newline +:+ rest)) as (d & s & Hd & Hr); [lia |].
    rewrite digits_app, Hd, atoi_digits, <- Hd, read_digits_digits, read_digits_line by (cbn; lia).
    unfold clamp. lia.
Qed.

(** ** Parameters *)

Section parameters.
Context `{!Chips} `{!Libm} {D : Type} `{!Host D}.
Context (param : string → D → option Z) (opened : D → Z → option string).
Context `{!ParamFiles param opened}.

Lemma parameter_set_stores p v v0 h d :
  param (parameter_file p) d = Some v0 → - 2 ^ 31 ≤ v < 2 ^ 31 →
  ∃ d', whitebox_parameter_set p v (Prog h d) = Done 0 (Prog h d') ∧
    ∀ q, param q d' = if String.eqb q (parameter_file p) then Some v else param q d.
Proof.
  intros Hp Hv. destruct (open_param (parameter_file p) O_WRONLY d v0 Hp) as [Hf Ho].
  pose proof (open_keeps (parameter_file p) O_WRONLY d) as Hk. rewrite <- Hk in Hp.
  destruct (write_param _ _ _ v0 v Ho Hp Hv) as [Hw Hq].
  apply Z.ltb_ge in Hf, Hw.
  unfold whitebox_parameter_set, mbind, M_bind, host. cbn. rewrite Hf. cbn. rewrite Hw.
  eexists. split; [done |].
  intros q. rewrite close_keeps, Hq, Hk. done.
Qed.

Lemma parameter_get_value p v h d :
  param (parameter_file p) d = Some v → - 2 ^ 31 ≤ v < 2 ^ 31 →
  ∃ d', whitebox_parameter_get p (Prog h d) = Done v (Prog h d') ∧ ∀ q, param q d' = param q d.
Proof.
  intros Hp Hv. destruct (open_param (parameter_file p) O_RDONLY d v Hp) as [Hf Ho].
  pose proof (open_keeps (parameter_file p) O_RDONLY d) as Hk. rewrite <- Hk in Hp.
  unfold whitebox_parameter_get, mbind, M_bind, host. cbn.
  apply Z.ltb_ge in Hf. rewrite Hf. cbn. rewrite <- (stack_opened 128) in Ho.
  rewrite <- (stack_keeps 128) in Hp.
  destruct (read_param _ _ _ v 127 Ho Hp) as [Hr Ht]; [lia |].
  apply Z.ltb_ge in Hr. cbn in *. rewrite Hr, Ht.
  eexists. split; [by rewrite string_app_assoc, atoi_decimal |].
  intros q. by rewrite close_keeps, read_keeps, stack_keeps.
Qed.

(** C29: a parameter that is set is the parameter that is got.  For any 32-bit number, and
    any existing parameter, [whitebox_parameter_set] answers 0 and a following
    [whitebox_parameter_get] answers the number, whatever was on the stack behind the line
    it read; no other parameter changes, nor does the handle. *)
Theorem parameter_round_trip p v v0 h d :
  param (parameter_file p) d = Some v0 → - 2 ^ 31 ≤ v < 2 ^ 31 →
  ∃ d', (e ← whitebox_parameter_set p v; r ← whitebox_parameter_get p; mret (e, r)) (Prog h d) =
      Done (0, v) (Prog h d') ∧
    ∀ q, param q d' = if String.eqb q (parameter_file p) then Some v else param q d.
Proof.
  intros Hp Hv. destruct (parameter_set_stores p v v0 h d Hp Hv) as (d1 & Hs & Hq).
  destruct (parameter_get_value p v h d1) as (d2 & Hg & Hk); [by rewrite Hq, String.eqb_refl | done |].
  exists d2. split; [| intros q; by rewrite Hk, Hq].
  unfold mbind, M_bind. by rewrite Hs, Hg.
Qed.
End parameters.

(** ** A concrete host *)

(** Parameters by path, and the paths of the files, [None] once closed. *)
Record files := Files { fs_params : gmap string Z; fs_open : list (option string) }.
Definition file_at (d : files) (f : Z) : option string :=
  if f <? 0 then None else mjoin (fs_open d !! Z.to_nat f).
Definition param_in (path : string) (d : files) : option Z := fs_params d !! path.
#[global] Instance files_host : Host files := {|
  h_open path _ d :=
    if fs_params d !! path is Some _
    then (Z.of_nat (length (fs_open d)), Files (fs_params d) (fs_open d ++ [Some path]))
    else (-1, d);
  h_close f d := Files (fs_params d) (<[Z.to_nat f := None]> (fs_open d));
  h_read f _ d :=
    if file_at d f is Some path then
      let line := decimal (default 0 (param_in path d)) +:+ newline in
      ((Z.of_nat (String.length line), line), d)
    else ((-1, ""), d);
  h_write f text d :=
    if file_at d f is Some path
    then (Z.of_nat (String.length text), Files (<[path := atoi text]> (fs_params d)) (fs_open d))
    else (-1, d);
  h_mmap _ _ d := (MAP_FAILED, d);
  h_munmap _ _ d := (-1, d);
  h_getenv _ _ := None;
  h_page_size := 4096;
  h_stack_text _ d := ("7 from an earlier call", d);
|}.

#[global] Instance files_keep_parameters : ParamFiles param_in file_at.
Proof.
  split; unfold param_in, file_at; cbn; try done.
  - intros path _ d v Hp. rewrite Hp. cbn. split; [lia |].
    rewrite (proj2 (Z.ltb_ge _ _)) by lia. by rewrite Nat2Z.id, lookup_app_r, Nat.sub_diag by lia.
  - intros path _ d q. by case_match.
  - intros f path d v0 v Ho _ Hv. unfold file_at. rewrite Ho. cbn. split; [lia |]. intros q.
    rewrite atoi_decimal by done. destruct (String.eqb_spec q path) as [-> | Hne];
      [by rewrite lookup_insert_eq | by rewrite lookup_insert_ne].
  - intros f path d v n Ho Hp _. unfold file_at, param_in. rewrite Ho. cbn. rewrite Hp.
    split; [lia | done].
  - intros f _ d q. by case_match.
Qed.

Definition threshold_file : string := parameter_file "user_source_buffer_threshold".
Definition sim_files : files := Files {[threshold_file := 4096; "other" := 5]} [None; None; None].

Lemma parameter_round_trip_witness :
  (∃ d', (e ← whitebox_parameter_set "user_source_buffer_threshold" (- 2 ^ 31);
          r ← whitebox_parameter_get "user_source_buffer_threshold"; mret (e, r))
        (Prog sim_handle sim_files) = Done (0, - 2 ^ 31) (Prog sim_handle d') ∧
    ∀ q, param_in q d' = if String.eqb q threshold_file then Some (- 2 ^ 31) else param_in q sim_files) ∧
  map (λ v, atoi (decimal v +:+ newline +:+ "99")) [0; 7; -10; 2147483647] = [0; 7; -10; 2147483647].
Proof.
  split; [| vm_compute; reflexivity].
  apply (parameter_round_trip param_in file_at "user_source_buffer_threshold" (- 2 ^ 31) 4096).
  - vm_compute. reflexivity.
  - lia.
Defined.
